(* ===== verification/_CoqProject ===== *)
-Q . S2P
Prelude.v
Eventually.v
Types.v
Memory.v
Spdk.v
World.v
Sim.v
ReadRace.v
Core.v
Blocks.v
Perf.v
Bdev.v
Qos.v
Io.v
Async.v
Vectored.v
Batch.v
Poller.v
Idle.v
IoCorrect.v
SyncIo.v
Devices.v
Session.v
Clients.v
Linearize.v
ClientsCorrect.v
Services.v
Lifecycle.v
Pending.v
VectoredCorrect.v
AsyncCorrect.v
VectoredAsync.v
BatchCorrect.v
InFlight.v
AsyncSession.v
BatchRuns.v
BatchWait.v
Typing.v
Programs.v
ProgramsCorrect.v
QosProgram.v
VectoredProgram.v
AsyncProgram.v
Benchmark.v
