(* ===== verification/Prelude.v ===== *)
(** * libxpdk: a verified model of the library

    libxpdk is a C library that gives clients POSIX-like access to SPDK block devices.  A client
    thread never calls SPDK itself: it takes a message from a pool, fills it in, puts it on a
    ring and (for the synchronous functions) spins until the message is marked completed.  A
    dedicated SPDK thread polls the ring, dispatches each message to a handler by its type, and
    polls the bdev layer, whose completions run the callbacks of the library.  The library has a
    table of 256 devices, statistics per device, and on top of reads and writes it has vectored
    I/O, batches, rate limits, trimming and writing of zeros.  The programs under examples/
    show how clients put the calls together.

    ** Files

    - [Prelude]: integers at their width ([u32], [u64]), the monad [M] of state, faults
      (undefined behaviour) and fuel, its weakest preconditions, the [while] loop and its
      termination rules, tactics and the hint database [xpdk]; [Eventually]: total correctness
      of code that waits, for every amount of fuel from some point on ([eventually]), and of
      code that does that or ends in one other stated way ([unless]).
    - [Types]: include/xpdk.h and src/xpdk_internal.h: messages (the union is a sum), devices,
      the global context, statistics, batches, options.
    - [Memory]: byte-addressed memory, [memcpy] and what is mapped.
    - [Spdk]: the code that is not in the repository, as type classes of operations ([RingOps],
      [PoolOps], [DmaOps], [BdevOps], [SysOps]) and of laws ([RingLaws], ...): the ring is a
      bounded FIFO, the pool a set, the bdev layer keeps accepted work outstanding and completes
      it in any order after a bounded number of idle polls.  Client theorems are proved against
      the laws; [Sim] is an instance that satisfies them all, on which the witnesses run.
    - [World]: the store: [g_xpdk_ctx], one map per type of object a pointer can lead to, the
      live DMA blocks, the state of the environment, and the log of calls of client callbacks.
    - [Core] (src/xpdk_core.c): device table, messages, sending, error strings;
      [Lifecycle] (src/xpdk_core.c): options, initialisation, the thread, shutdown;
      [Poller] (src/xpdk_core.c): dispatch, the poller, delivery of completions, [spdk_turn],
      one turn of the event loop of [xpdk_spdk_thread_main].
    - [Bdev] (src/xpdk_bdev.c), [Io] and [Blocks] (src/xpdk_io.c), [Async] (src/xpdk_async.c),
      [Vectored] (src/xpdk_vectored.c), [Batch] (src/xpdk_batch.c), [Perf] (src/xpdk_perf.c),
      [Qos] (src/xpdk_qos.c): one definition per C function, with the name it has in C.
    - [Idle], [IoCorrect], [SyncIo], [Devices], [Session], [Services], [VectoredCorrect],
      [AsyncCorrect], [VectoredAsync], [BatchCorrect], [BatchWait]: the proofs about whole
      operations; [Pending]: the library while a trim or a write of zeros is still outstanding.
    - [Clients]: several client threads that make synchronous calls at the same time, as a step
      relation: a client fills in its message, sends it, looks at it and returns; the SPDK thread
      polls or serves one message; [Linearize]: the invariant every step keeps;
      [ClientsCorrect]: its consequences.
    - [InFlight]: the state while asynchronous requests are under way, as a record of what is
      owed to whom ([in_flight]), kept by every step of the SPDK thread; what completions do to
      their owners is the interface [Callbacks], with an instance for plain callbacks
      ([AsyncSession]) and one for batch contexts ([BatchRuns]).
    - [Typing]: messages carry the member of the union their type says, through every turn.
    - [Programs], [QosProgram], [VectoredProgram], [AsyncProgram], [Benchmark]:
      examples/simple_example.c, turbo_example.c, list_devices.c, qos_example.c,
      vectored_example.c, async_example.c and turbo_benchmark.c, on the world and the lines
      printed; [ProgramsCorrect] and the second halves of the other files hold their theorems.
    - [ReadRace]: the end of a synchronous read with client and SPDK thread interleaved
      statement by statement, as a step relation.

    ** How a call runs

    A client function is a computation on the world.  Where it spins ([sched_yield] in
    [xpdk_msg_send_sync]) the model lets the SPDK thread take a turn, so a synchronous call is
    the client's code interleaved with complete turns.  [Idle.idle] is the state between calls:
    nothing queued, nothing outstanding, no message in use twice, the table well formed.
    [Idle.request_eq] reduces a call to the handler of its message; [SyncIo.settled] says that
    after it the library is idle again and holds no more messages than before.

    ** What the theorems show

    - [SyncIo]: [xpdk_read], [xpdk_write] and [xpdk_flush] return, with exactly the stated
      contents of the client's memory and of the medium in every outcome; a write followed by a
      read gives the bytes back; every refusal is without effect.
    - [Session]: from a sound state any sequence of opens, closes, reads, writes and flushes on
      any descriptors runs without fault to its end and leaves a sound state;
      [Lifecycle] shows that initialisation establishes it.
    - [ClientsCorrect]: reads, writes, flushes and closes of any number of threads, interleaved in
      any way, take effect one by one, each as [SyncIo] and [Devices] say, between the moments they
      are made and return; no thread gets stuck, and under every fair schedule all calls return
      within a stated number of rounds.
    - [ReadRace]: results and final memory of a read under every interleaving, and the
      interleaving in which the client returns before its data is there.
    - [VectoredCorrect]: [xpdk_readv] and [xpdk_writev] are a read or a write of the
      concatenation of their segments, and round trip through different segmentations.
    - [AsyncCorrect]: an asynchronous request is queued or refused without a trace; a queued one
      ends after some turns, with one call of its callback (and what it then means for memory and
      medium), or silently when its handler gives it up.
    - [VectoredAsync]: the same for [xpdk_readv_async] and [xpdk_writev_async], down to the
      temporary buffer, the context, and the bytes the segments receive.
    - [AsyncSession]: in any interleaving of asynchronous requests and turns of the SPDK thread,
      in both modes, every accepted request is called back exactly once with its context, or is
      given up without a call, and after enough turns nothing is under way.
    - [Typing]: from a well-typed store no turn reads a member of the union that was not written,
      and the store stays well typed; one run of the poller in turbo mode is the poller of
      standard mode called up to 32 times in a row.
    - [Devices]: open, close, info and listing; a descriptor that is not open is refused by every
      operation; a closed slot is the lowest free one again.
    - [Lifecycle]: initialisation establishes [sound], fails or hangs in the stated cases;
      shutdown ends the thread and closes every device.
    - [Batch], [BatchCorrect]: the arrays and counters of a batch context refine two abstract
      FIFO queues, step by step and for the functions on the store; what [xpdk_batch_submit] does.
    - [BatchRuns], [BatchWait]: a batch submitted operation by operation runs to its end, with
      every callback called once in some order; cleanup waits for what is pending, for ever when
      an operation was given up; a completion that arrives while completions are processed is
      lost; how long [xpdk_batch_wait] waits when nothing completes.
    - [ProgramsCorrect], [QosProgram], [Benchmark]: the example programs run to their end, leave
      the library down, and print exactly one of the stated transcripts, whatever their device
      does: data are reported the same whenever both transfers succeeded, limits are the ones set,
      a thousand rotating writes leave the first place intact, and the library can be started
      again after it was shut down.
    - [AsyncProgram]: async_example.c does the same, its callback running in the turns of the
      SPDK thread, or waits for ever for a request that was given up; [VectoredProgram]:
      vectored_example.c does, or dies when its trim completes.
    - [Perf], [Services]: counters are the exact sums modulo 2^64, averages stay between their
      samples, the window computes the stated rates; statistics, rate limits, trimming and zeroing
      through the SPDK thread.
    - [Blocks], [Core]: the block arithmetic covers the request without wrap-around for sizes up
      to 2^32, and where it does not; [xpdk_find_free_fd] takes the lowest slot,
      [xpdk_strerror] is total.

    Some theorems state what the code does where that is not what its documentation says:
    unaligned asynchronous reads deliver no data, requests are dropped silently, a batch in one
    message never runs, completed batches overflow their array, zeroing completes through a null
    pointer, unaligned asynchronous vectored reads deliver what the temporary buffer held,
    statistics stay zero, initialisation can wait for ever, a read can return before its data is there, a
    completion can be lost, cleanup of a batch can wait for ever.

    ** Fuel

    Waiting loops take fuel.  Every theorem about a call that waits is total: it gives a bound
    [k] (the latency of the outstanding work) such that all larger fuels give the result; no
    theorem says "if it returns".  The turns of asynchronous requests need no fuel.  The nesting
    of callbacks is at most two ([Poller.invoke]): a vectored callback calls the client's.

    Programs take the same two amounts of fuel; [Eventually.eventually] hides the bounds.

    ** Defined, without theorems of their own

    The batch handler that the poller does not reach, and [xpdk_print_performance_stats].

    ** Not modelled

    - Data races between a client and the SPDK thread inside the service of a message, apart from
      the one of [ReadRace]: a handler runs alone, and a critical section of a batch context is
      one step.  [Clients] interleaves the steps of clients and the services of messages; its
      threads work on devices that are open, since an open ends in a later poll than the one it
      is started in.
    - While a handler waits for its I/O, the nested [spdk_thread_poll] runs the bdev layer; that
      it could also run the message poller again is not modelled.
    - Client callbacks are observed and do not call the library.  The callback of
      async_example.c is executed as well; [main] sees what it did when the call or the sleep
      during which it ran is over, not earlier.
    - A ring or pool that was freed is absent, not dangling.  The messages the library itself
      prints, and how [printf] lays out its arguments.
    - examples/batch_example.c and advanced_benchmark.c, which are written against another
      interface than include/xpdk.h: calls with other numbers of arguments, members that do not
      exist.  The tests. *)

From stdpp Require Import base gmap list numbers.
From Stdlib Require Import Strings.Byte.

Open Scope Z_scope.

(** ** Machine-width integers

    A C integer of width [w] is a [Z]; the functions below are the conversions
    the compiler inserts, written where the source stores or computes one. *)

Definition u32 (x : Z) : Z := x mod 2 ^ 32.

Definition u64 (x : Z) : Z := x mod 2 ^ 64.

Definition INT_MIN : Z := - 2 ^ 31.

Definition INT_MAX : Z := 2 ^ 31 - 1.

Definition is_u32 (x : Z) : Prop := 0 <= x < 2 ^ 32.

Definition is_u64 (x : Z) : Prop := 0 <= x < 2 ^ 64.

Definition is_int (x : Z) : Prop := INT_MIN <= x <= INT_MAX.

(** A pointer is its address; 0 is [NULL]. *)
Definition NULL : Z := 0.

(** ** The fault and state monad

    C code is a state transformer that either returns, reaches undefined
    behaviour ([Fault], with its reason), or is still running when the fuel of
    a waiting loop is spent ([Running]). *)

Inductive fault : Set :=
| NullDeref
| BadAddress
| WrongUnionMember
| DivByZero
| IndexOutOfBounds
| DoubleFree
| SignedOverflow.

Inductive outcome (St A : Type) : Type :=
| Ok (a : A) (s : St)
| Fault (e : fault)
| Running (s : St).
Arguments Ok {St A} a s.
Arguments Fault {St A} e.
Arguments Running {St A} s.

Definition M (St A : Type) : Type := St -> outcome St A.

Definition ret {St A} (a : A) : M St A := fun s => Ok a s.

Definition bind {St A B} (m : M St A) (k : A -> M St B) : M St B :=
  fun s =>
    match m s with
    | Ok a s' => k a s'
    | Fault e => Fault e
    | Running s' => Running s'
    end.

Definition fail {St A} (e : fault) : M St A := fun _ => Fault e.

Definition spent {St A} : M St A := fun s => Running s.

Definition get {St} : M St St := fun s => Ok s s.

Definition gets {St A} (f : St -> A) : M St A := fun s => Ok (f s) s.

Definition modify {St} (f : St -> St) : M St unit := fun s => Ok tt (f s).

(** [from_some e o] is the value of [o]; its absence is the fault [e]. *)
Definition from_some {St A} (e : fault) (o : option A) : M St A :=
  match o with
  | Some a => ret a
  | None => fail e
  end.

Declare Scope xpdk_scope.
Delimit Scope xpdk_scope with xpdk.
Notation "'let*' x ':=' c 'in' k" := (bind c (fun x => k))
  (at level 10, x pattern, c at level 100, k at level 200,
   format "'[v' 'let*'  x  ':='  c  'in' '/' k ']'") : xpdk_scope.
Notation "c1 ;; c2" := (bind c1 (fun _ => c2))
  (at level 100, c2 at level 200, right associativity,
   format "'[v' c1  ;; '/' c2 ']'") : xpdk_scope.
Open Scope xpdk_scope.

Definition when {St} (b : bool) (m : M St unit) : M St unit := if b then m else ret tt.

(** [while fuel c body] runs [body] as long as the test [c] holds, at most
    [fuel] times. *)
Fixpoint while {St} (fuel : nat) (c : M St bool) (body : M St unit) : M St unit :=
  match fuel with
  | O => let* b := c in if b then spent else ret tt
  | S fuel => let* b := c in if b then body ;; while fuel c body else ret tt
  end.

(** ** Weakest preconditions

    [wp] is total: it demands that the code returns.  [wlp] only constrains the
    runs that return and is used for invariants. *)

Definition wp {St A} (m : M St A) (Q : A -> St -> Prop) (s : St) : Prop :=
  match m s with
  | Ok a s' => Q a s'
  | _ => False
  end.

Definition wlp {St A} (m : M St A) (Q : A -> St -> Prop) (s : St) : Prop :=
  match m s with
  | Ok a s' => Q a s'
  | _ => True
  end.

Section WeakestPreconditions.
Context {St A B : Type}.
Implicit Types (m : M St A) (k : A -> M St B) (s : St).

Lemma wp_ret (a : A) Q s : Q a s -> wp (ret a) Q s.
Proof. done. Qed.

Lemma wp_bind m k Q s : wp m (fun a => wp (k a) Q) s -> wp (bind m k) Q s.
Proof. unfold wp, bind. by destruct (m s). Qed.

Lemma wp_mono m (Q Q' : A -> St -> Prop) s :
  wp m Q s -> (forall a s', Q a s' -> Q' a s') -> wp m Q' s.
Proof. unfold wp. destruct (m s); naive_solver. Qed.

Lemma wp_from_some e (o : option A) a (Q : A -> St -> Prop) s :
  o = Some a -> Q a s -> wp (from_some e o) Q s.
Proof. by intros -> ?. Qed.

Lemma wp_ok m (Q : A -> St -> Prop) s :
  wp m Q s -> exists a s', m s = Ok a s' /\ Q a s'.
Proof. unfold wp. destruct (m s); naive_solver. Qed.

Lemma wlp_ret (a : A) Q s : Q a s -> wlp (ret a) Q s.
Proof. done. Qed.

Lemma wlp_bind m k Q s : wlp m (fun a => wlp (k a) Q) s -> wlp (bind m k) Q s.
Proof. unfold wlp, bind. by destruct (m s). Qed.

Lemma wlp_mono m (Q Q' : A -> St -> Prop) s :
  wlp m Q s -> (forall a s', Q a s' -> Q' a s') -> wlp m Q' s.
Proof. unfold wlp. destruct (m s); naive_solver. Qed.

Lemma wlp_from_some e (o : option A) (Q : A -> St -> Prop) s :
  (forall a, o = Some a -> Q a s) -> wlp (from_some e o) Q s.
Proof. destruct o; cbn; [by intros H; apply H|done]. Qed.

Lemma bind_ok m k s a s' : m s = Ok a s' -> bind m k s = k a s'.
Proof. unfold bind. by intros ->. Qed.

Lemma bind_ret_l (a : A) k s : bind (ret a) k s = k a s.
Proof. done. Qed.

Lemma bind_get {C} (h : St -> M St C) s : bind get h s = h s s.
Proof. done. Qed.

Lemma bind_assoc {C} m k (h : B -> M St C) s :
  bind (bind m k) h s = bind m (fun a => bind (k a) h) s.
Proof. unfold bind. by destruct (m s). Qed.
End WeakestPreconditions.

(** A loop whose body makes a measure decrease returns, with any fuel from the measure on;
    and the same way for every body of a family that agrees on the states it meets. *)
Lemma while_terminates_all {F St} (c : M St bool) (body : F -> M St unit)
    (I : nat -> St -> Prop) (Q : St -> Prop) :
  (forall k s, I k s ->
     (c s = Ok false s /\ Q s) \/
     (c s = Ok true s /\ exists k' s', (forall f, body f s = Ok tt s') /\ (k' < k)%nat /\ I k' s')) ->
  forall k s, I k s ->
  exists s', Q s' /\ forall f n, (k <= n)%nat -> while n c (body f) s = Ok tt s'.
Proof.
  intros Hstep k. induction (lt_wf k) as [k _ IH]. intros s HI.
  destruct (Hstep k s HI) as [[Hc HQ]|(Hc & k' & s' & Hb & Hk & HI')].
  - exists s. split; [done|]. intros f n _. destruct n; simpl; by rewrite (bind_ok _ _ _ _ _ Hc).
  - destruct (IH k' Hk s' HI') as (s'' & HQ & Hw). exists s''. split; [done|].
    intros f n Hn. destruct n as [|n]; [lia|]. simpl.
    rewrite (bind_ok _ _ _ _ _ Hc), (bind_ok _ _ _ _ _ (Hb f)). apply Hw. lia.
Qed.

Lemma while_terminates {St} (c : M St bool) (body : M St unit)
    (I : nat -> St -> Prop) (Q : St -> Prop) :
  (forall k s, I k s ->
     (c s = Ok false s /\ Q s) \/
     (c s = Ok true s /\ exists k' s', body s = Ok tt s' /\ (k' < k)%nat /\ I k' s')) ->
  forall k s, I k s ->
  exists s', Q s' /\ forall n, (k <= n)%nat -> while n c body s = Ok tt s'.
Proof.
  intros Hstep k s HI.
  destruct (while_terminates_all c (fun _ : unit => body) I Q) with (k := k) (s := s)
    as (s' & HQ & Hw); [|done|].
  - intros k1 s1 H1. destruct (Hstep k1 s1 H1) as [?|(? & k' & s' & ? & ? & ?)]; [by left|].
    right. split; [done|]. by exists k', s'.
  - exists s'. split; [done|]. exact (Hw tt).
Qed.

(** The test fails at once; the test holds, and the loop goes on from the next state. *)
Lemma while_stop {St} (c : M St bool) (body : M St unit) n s :
  c s = Ok false s -> while n c body s = Ok tt s.
Proof. intros Hc. destruct n; simpl; by rewrite (bind_ok _ _ _ _ _ Hc). Qed.

Lemma while_step {St} (c : M St bool) (body : M St unit) n s s' :
  c s = Ok true s -> body s = Ok tt s' -> while (S n) c body s = while n c body s'.
Proof. intros Hc Hb. simpl. by rewrite (bind_ok _ _ _ _ _ Hc), (bind_ok _ _ _ _ _ Hb). Qed.

(** A loop that does not end: its test holds, and its body keeps it so. *)
Lemma while_diverges {St} (c : M St bool) (body : M St unit) (I : St -> Prop) :
  (forall s, I s -> c s = Ok true s /\ exists s', body s = Ok tt s' /\ I s') ->
  forall n s, I s -> exists s', while n c body s = Running s'.
Proof.
  intros Hstep n. induction n as [|n IH]; intros s HI; destruct (Hstep s HI) as (Hc & s' & Hb & HI').
  - exists s. simpl. by rewrite (bind_ok _ _ _ _ _ Hc).
  - rewrite (while_step c body n s s' Hc Hb). by apply IH.
Qed.

Create HintDb xpdk.

(** [wlp_auto] walks through straight-line monadic code in a partial triple,
    splitting at each test. *)
Ltac wlp_step :=
  match goal with
  | |- wlp (bind _ _) _ _ => apply wlp_bind
  | |- wlp (ret _) _ _ => apply wlp_ret
  | |- wlp (fail _) _ _ => exact I
  | |- wlp spent _ _ => exact I
  | |- wlp (gets _) _ _ => unfold wlp, gets at 1; cbn beta iota
  | |- wlp get _ _ => unfold wlp, get at 1; cbn beta iota
  | |- wlp (modify _) _ _ => unfold wlp, modify at 1; cbn beta iota
  | |- wlp (from_some _ _) _ _ => apply wlp_from_some; intros ? ?
  | |- wlp (when _ _) _ _ => unfold when
  | |- wlp (if ?b then _ else _) _ _ => destruct b eqn:?
  end.

(** [run H] executes the first statement of the goal with the equation [H] of its
    result. *)
Ltac run H := erewrite bind_ok by (eapply H; eauto); cbn beta iota.
