(* ===== verification/Eventually.v ===== *)
(** Total correctness of code that waits.

    Code that waits for the SPDK thread takes two amounts of fuel, one for the waiting loop
    itself and one for the loops of the thread.  [eventually m Q s]: from some amount on,
    and however much there is, [m] returns from [s], always the same way, and [Q] holds of
    what it returns and of the state it leaves. *)

From stdpp Require Import base list.
From S2P Require Import Prelude.

Definition eventually {St A} (m : nat -> nat -> M St A) (Q : A -> St -> Prop) (s : St) : Prop :=
  exists k a s', (forall fuel n, (k <= fuel)%nat -> (k <= n)%nat -> m fuel n s = Ok a s') /\ Q a s'.

Section Rules.
Context {St A B : Type}.
Implicit Types (Q : A -> St -> Prop) (s : St).

Lemma eventually_ret (a : A) Q s : Q a s -> eventually (fun _ _ => ret a) Q s.
Proof. intros HQ. by exists 0%nat, a, s. Qed.

Lemma eventually_ok (m : nat -> nat -> M St A) k a s s' Q :
  (forall fuel n, (k <= fuel)%nat -> (k <= n)%nat -> m fuel n s = Ok a s') -> Q a s' ->
  eventually m Q s.
Proof. intros Hm HQ. by exists k, a, s'. Qed.

Lemma eventually_mono m Q Q' s :
  eventually m Q s -> (forall a s', Q a s' -> Q' a s') -> eventually m Q' s.
Proof. intros (k & a & s' & Hm & HQ) Himp. exists k, a, s'. auto. Qed.

Lemma eventually_bind (m : nat -> nat -> M St A) (K : nat -> nat -> A -> M St B)
    (Q : B -> St -> Prop) s :
  eventually m (fun a => eventually (fun fuel n => K fuel n a) Q) s ->
  eventually (fun fuel n => bind (m fuel n) (K fuel n)) Q s.
Proof.
  intros (k & a & s1 & Hm & k' & b & s2 & HK & HQ). exists (k + k')%nat, b, s2. split; [|done].
  intros fuel n Hf Hn. rewrite (bind_ok _ _ _ _ _ (Hm fuel n ltac:(lia) ltac:(lia))).
  apply HK; lia.
Qed.

(** A step that does not wait. *)
Lemma eventually_step (m : M St A) (K : nat -> nat -> A -> M St B) (Q : B -> St -> Prop) s a s' :
  m s = Ok a s' -> eventually (fun fuel n => K fuel n a) Q s' ->
  eventually (fun fuel n => bind m (K fuel n)) Q s.
Proof.
  intros Hm (k & b & s2 & HK & HQ). exists k, b, s2. split; [|done].
  intros fuel n Hf Hn. rewrite (bind_ok _ _ _ _ _ Hm). by apply HK.
Qed.

(** The same code, written differently. *)
Lemma eventually_eq (m m' : nat -> nat -> M St A) Q s :
  (forall fuel n, m fuel n s = m' fuel n s) -> eventually m' Q s -> eventually m Q s.
Proof.
  intros Heq (k & a & s' & Hm & HQ). exists k, a, s'. split; [|done].
  intros fuel n Hf Hn. rewrite Heq. by apply Hm.
Qed.
End Rules.

(** ** Code that may not return

    [unless x m Q s]: [eventually m Q s], or every run of [m] from [s], with enough fuel, ends the
    way [x] says: with a fault, or not at all. *)
Inductive ending := Faults (e : fault) | Hangs.

Definition ends {St A} (x : ending) (r : outcome St A) : Prop :=
  match x with
  | Faults e => r = Fault e
  | Hangs => exists s, r = Running s
  end.

Definition never_returns {St A} (x : ending) (m : nat -> nat -> M St A) (s : St) : Prop :=
  exists k, forall fuel n, (k <= fuel)%nat -> (k <= n)%nat -> ends x (m fuel n s).

Definition unless {St A} (x : ending) (m : nat -> nat -> M St A) (Q : A -> St -> Prop) (s : St) : Prop :=
  eventually m Q s \/ never_returns x m s.

Section UnlessRules.
Context {St A B : Type} (x : ending).
Implicit Types (Q : A -> St -> Prop) (s : St).

Lemma ends_bind (m : M St A) (K : A -> M St B) s : ends x (m s) -> ends x (bind m K s).
Proof. unfold ends, bind. destruct x; [by intros ->|]. intros [s' ->]. by exists s'. Qed.

Lemma unless_bind (m : nat -> nat -> M St A) (K : nat -> nat -> A -> M St B)
    (Q : B -> St -> Prop) s :
  unless x m (fun a => unless x (fun fuel n => K fuel n a) Q) s ->
  unless x (fun fuel n => bind (m fuel n) (K fuel n)) Q s.
Proof.
  intros [(k & a & s1 & Hm & [(k' & b & s2 & HK & HQ)|(k' & HK)])|(k & Hm)].
  - left. exists (k + k')%nat, b, s2. split; [|done].
    intros fuel n Hf Hn. rewrite (bind_ok _ _ _ _ _ (Hm fuel n ltac:(lia) ltac:(lia))). apply HK; lia.
  - right. exists (k + k')%nat. intros fuel n Hf Hn.
    rewrite (bind_ok _ _ _ _ _ (Hm fuel n ltac:(lia) ltac:(lia))). apply HK; lia.
  - right. exists k. intros fuel n Hf Hn. apply ends_bind. by apply Hm.
Qed.

Lemma unless_then (m : nat -> nat -> M St A) (K : nat -> nat -> A -> M St B)
    (Q : B -> St -> Prop) s :
  eventually m (fun a => unless x (fun fuel n => K fuel n a) Q) s ->
  unless x (fun fuel n => bind (m fuel n) (K fuel n)) Q s.
Proof. intros Hm. apply unless_bind. by left. Qed.

Lemma unless_step (m : M St A) (K : nat -> nat -> A -> M St B) (Q : B -> St -> Prop) s a s' :
  m s = Ok a s' -> unless x (fun fuel n => K fuel n a) Q s' ->
  unless x (fun fuel n => bind m (K fuel n)) Q s.
Proof. intros Hm HK. apply (unless_then (fun _ _ => m)). by exists 0%nat, a, s'. Qed.

Lemma unless_mono m Q Q' s :
  unless x m Q s -> (forall a s', Q a s' -> Q' a s') -> unless x m Q' s.
Proof. intros [Hm|Hm] HQ; [left; by eapply eventually_mono|by right]. Qed.
End UnlessRules.
