(* ===== verification/Types.v ===== *)
(** Constants and data of [include/xpdk.h] and [src/xpdk_internal.h]: error codes,
    enumerations and structures, each a record or an inductive type with the
    source's members.  A member [f] of a structure [s] is the projection
    [s_f] (abbreviated prefixes), and [set_s_f v r] is the assignment
    [r.f = v]. *)

From stdpp Require Import base gmap list strings.
From Stdlib Require Import Strings.Byte.
From S2P Require Import Prelude.

Open Scope Z_scope.

(** ** Error codes

    [XPDK_ERROR_IO] and [XPDK_ERROR_BUSY] have the values README.md documents:
    the two [#define] lines of xpdk.h are garbled. *)

Definition XPDK_SUCCESS : Z := 0.

Definition XPDK_ERROR_INVALID : Z := -1.

Definition XPDK_ERROR_NOMEM : Z := -2.

Definition XPDK_ERROR_IO : Z := -3.

Definition XPDK_ERROR_BUSY : Z := -4.

Definition XPDK_ERROR_NODEV : Z := -5.

Definition XPDK_ERROR_QOS : Z := -6.

(** The access modes of [fcntl.h] on Linux. *)
Definition O_RDONLY : Z := 0.

Definition O_WRONLY : Z := 1.

Definition O_RDWR : Z := 2.

Definition XPDK_MAX_OPEN_DEVICES : Z := 256.

(** ** Enumerations *)

(** [xpdk_io_type_t]; [io_type_other] stands for a value outside the enumeration,
    which C admits and the [default:] labels handle. *)
Inductive xpdk_io_type_t : Set :=
| XPDK_IO_READ
| XPDK_IO_WRITE
| XPDK_IO_FLUSH
| io_type_other (n : Z).

Inductive xpdk_msg_type : Set :=
| XPDK_MSG_OPEN
| XPDK_MSG_CLOSE
| XPDK_MSG_READ
| XPDK_MSG_WRITE
| XPDK_MSG_READV
| XPDK_MSG_WRITEV
| XPDK_MSG_BATCH_SUBMIT
| XPDK_MSG_FLUSH
| XPDK_MSG_LIST_BDEVS
| XPDK_MSG_GET_INFO
| XPDK_MSG_QOS_SET_LIMITS
| XPDK_MSG_QOS_GET_LIMITS
| XPDK_MSG_GET_PERF_STATS
| XPDK_MSG_RESET_PERF_STATS
| XPDK_MSG_TRIM
| XPDK_MSG_WRITE_ZEROS
| XPDK_MSG_SHUTDOWN.

#[export] Instance xpdk_io_type_eq_dec : EqDecision xpdk_io_type_t.
Proof. solve_decision. Defined.

#[export] Instance xpdk_msg_type_eq_dec : EqDecision xpdk_msg_type.
Proof. solve_decision. Defined.

(** [xpdk_qos_rate_limit_type_t] *)
Definition XPDK_QOS_RW_IOPS_RATE_LIMIT : Z := 0.

Definition XPDK_QOS_RW_BPS_RATE_LIMIT : Z := 1.

Definition XPDK_QOS_R_BPS_RATE_LIMIT : Z := 2.

Definition XPDK_QOS_W_BPS_RATE_LIMIT : Z := 3.

Definition XPDK_QOS_NUM_RATE_LIMIT_TYPES : Z := 4.

(** A value of type [xpdk_io_callback_t] that is not [NULL]: a function of the
    client, named by its address, or one of the two completion callbacks the
    library passes to its own asynchronous operations. *)
Inductive xpdk_io_callback_t : Set :=
| UserCallback (f : Z)
| VectoredCallback
| BatchCallback.

#[export] Instance xpdk_io_callback_eq_dec : EqDecision xpdk_io_callback_t.
Proof. solve_decision. Defined.

(** ** Structures of xpdk.h *)

(** [struct xpdk_bdev_info] *)
Record xpdk_bdev_info := Build_bdev_info {
  bi_name : string;
  bi_block_size : Z;
  bi_num_blocks : Z;
  bi_capacity : Z
}.

(** [struct xpdk_iovec] *)
Record xpdk_iovec := Build_iovec {
  iov_base : Z;
  iov_len : Z
}.

(** [struct xpdk_perf_stats] *)
Record xpdk_perf_stats := Build_perf_stats {
  ps_total_read_ops : Z;
  ps_total_write_ops : Z;
  ps_total_bytes_read : Z;
  ps_total_bytes_written : Z;
  ps_avg_read_latency_us : Z;
  ps_avg_write_latency_us : Z;
  ps_current_iops : Z;
  ps_current_bandwidth : Z;
  ps_queue_depth : Z;
  ps_errors : Z
}.

Definition set_ps_total_read_ops (v : Z) (r : xpdk_perf_stats) : xpdk_perf_stats :=
  Build_perf_stats v (r.(ps_total_write_ops)) (r.(ps_total_bytes_read)) (r.(ps_total_bytes_written)) (r.(ps_avg_read_latency_us)) (r.(ps_avg_write_latency_us)) (r.(ps_current_iops)) (r.(ps_current_bandwidth)) (r.(ps_queue_depth)) (r.(ps_errors)).

Definition set_ps_total_write_ops (v : Z) (r : xpdk_perf_stats) : xpdk_perf_stats :=
  Build_perf_stats (r.(ps_total_read_ops)) v (r.(ps_total_bytes_read)) (r.(ps_total_bytes_written)) (r.(ps_avg_read_latency_us)) (r.(ps_avg_write_latency_us)) (r.(ps_current_iops)) (r.(ps_current_bandwidth)) (r.(ps_queue_depth)) (r.(ps_errors)).

Definition set_ps_total_bytes_read (v : Z) (r : xpdk_perf_stats) : xpdk_perf_stats :=
  Build_perf_stats (r.(ps_total_read_ops)) (r.(ps_total_write_ops)) v (r.(ps_total_bytes_written)) (r.(ps_avg_read_latency_us)) (r.(ps_avg_write_latency_us)) (r.(ps_current_iops)) (r.(ps_current_bandwidth)) (r.(ps_queue_depth)) (r.(ps_errors)).

Definition set_ps_total_bytes_written (v : Z) (r : xpdk_perf_stats) : xpdk_perf_stats :=
  Build_perf_stats (r.(ps_total_read_ops)) (r.(ps_total_write_ops)) (r.(ps_total_bytes_read)) v (r.(ps_avg_read_latency_us)) (r.(ps_avg_write_latency_us)) (r.(ps_current_iops)) (r.(ps_current_bandwidth)) (r.(ps_queue_depth)) (r.(ps_errors)).

Definition set_ps_avg_read_latency_us (v : Z) (r : xpdk_perf_stats) : xpdk_perf_stats :=
  Build_perf_stats (r.(ps_total_read_ops)) (r.(ps_total_write_ops)) (r.(ps_total_bytes_read)) (r.(ps_total_bytes_written)) v (r.(ps_avg_write_latency_us)) (r.(ps_current_iops)) (r.(ps_current_bandwidth)) (r.(ps_queue_depth)) (r.(ps_errors)).

Definition set_ps_avg_write_latency_us (v : Z) (r : xpdk_perf_stats) : xpdk_perf_stats :=
  Build_perf_stats (r.(ps_total_read_ops)) (r.(ps_total_write_ops)) (r.(ps_total_bytes_read)) (r.(ps_total_bytes_written)) (r.(ps_avg_read_latency_us)) v (r.(ps_current_iops)) (r.(ps_current_bandwidth)) (r.(ps_queue_depth)) (r.(ps_errors)).

Definition set_ps_current_iops (v : Z) (r : xpdk_perf_stats) : xpdk_perf_stats :=
  Build_perf_stats (r.(ps_total_read_ops)) (r.(ps_total_write_ops)) (r.(ps_total_bytes_read)) (r.(ps_total_bytes_written)) (r.(ps_avg_read_latency_us)) (r.(ps_avg_write_latency_us)) v (r.(ps_current_bandwidth)) (r.(ps_queue_depth)) (r.(ps_errors)).

Definition set_ps_current_bandwidth (v : Z) (r : xpdk_perf_stats) : xpdk_perf_stats :=
  Build_perf_stats (r.(ps_total_read_ops)) (r.(ps_total_write_ops)) (r.(ps_total_bytes_read)) (r.(ps_total_bytes_written)) (r.(ps_avg_read_latency_us)) (r.(ps_avg_write_latency_us)) (r.(ps_current_iops)) v (r.(ps_queue_depth)) (r.(ps_errors)).

Definition set_ps_errors (v : Z) (r : xpdk_perf_stats) : xpdk_perf_stats :=
  Build_perf_stats (r.(ps_total_read_ops)) (r.(ps_total_write_ops)) (r.(ps_total_bytes_read)) (r.(ps_total_bytes_written)) (r.(ps_avg_read_latency_us)) (r.(ps_avg_write_latency_us)) (r.(ps_current_iops)) (r.(ps_current_bandwidth)) (r.(ps_queue_depth)) v.

Definition perf_stats_zero : xpdk_perf_stats := Build_perf_stats 0 0 0 0 0 0 0 0 0 0.

(** [struct xpdk_batch_io] *)
Record xpdk_batch_io := Build_batch_io {
  io_type : xpdk_io_type_t;
  io_fd : Z;
  io_buffer : Z;
  io_count : Z;
  io_offset : Z;
  io_user_ctx : Z;
  io_status : Z;
  io_bytes_transferred : Z
}.

Definition set_io_status (v : Z) (r : xpdk_batch_io) : xpdk_batch_io :=
  Build_batch_io (r.(io_type)) (r.(io_fd)) (r.(io_buffer)) (r.(io_count)) (r.(io_offset)) (r.(io_user_ctx)) v (r.(io_bytes_transferred)).

(** [struct xpdk_batch_ctx]; a queue is the array [malloc] returned, [None] for an
    element that was never written.  The mutex and the condition variable have no
    field: a critical section is one step. *)
Record xpdk_batch_ctx := Build_batch_ctx {
  bc_max_ios : Z;
  bc_pending_ios : Z;
  bc_completed_ios : Z;
  bc_pending_queue : list (option xpdk_batch_io);
  bc_completed_queue : list (option xpdk_batch_io);
  bc_global_callback : option xpdk_io_callback_t
}.

Definition set_bc_pending_ios (v : Z) (r : xpdk_batch_ctx) : xpdk_batch_ctx :=
  Build_batch_ctx (r.(bc_max_ios)) v (r.(bc_completed_ios)) (r.(bc_pending_queue)) (r.(bc_completed_queue)) (r.(bc_global_callback)).

Definition set_bc_completed_ios (v : Z) (r : xpdk_batch_ctx) : xpdk_batch_ctx :=
  Build_batch_ctx (r.(bc_max_ios)) (r.(bc_pending_ios)) v (r.(bc_pending_queue)) (r.(bc_completed_queue)) (r.(bc_global_callback)).

Definition set_bc_pending_queue (v : list (option xpdk_batch_io)) (r : xpdk_batch_ctx) : xpdk_batch_ctx :=
  Build_batch_ctx (r.(bc_max_ios)) (r.(bc_pending_ios)) (r.(bc_completed_ios)) v (r.(bc_completed_queue)) (r.(bc_global_callback)).

Definition set_bc_completed_queue (v : list (option xpdk_batch_io)) (r : xpdk_batch_ctx) : xpdk_batch_ctx :=
  Build_batch_ctx (r.(bc_max_ios)) (r.(bc_pending_ios)) (r.(bc_completed_ios)) (r.(bc_pending_queue)) v (r.(bc_global_callback)).

(** [struct xpdk_opts] *)
Record xpdk_opts := Build_opts {
  opt_config_file : option string;
  opt_turbo_mode : bool;
  opt_cpu_core : Z;
  opt_msg_ring_size : Z;
  opt_msg_pool_size : Z;
  opt_poll_period_us : Z
}.

Definition set_opt_config_file (v : option string) (r : xpdk_opts) : xpdk_opts :=
  Build_opts v (r.(opt_turbo_mode)) (r.(opt_cpu_core)) (r.(opt_msg_ring_size)) (r.(opt_msg_pool_size)) (r.(opt_poll_period_us)).

Definition set_opt_turbo_mode (v : bool) (r : xpdk_opts) : xpdk_opts :=
  Build_opts (r.(opt_config_file)) v (r.(opt_cpu_core)) (r.(opt_msg_ring_size)) (r.(opt_msg_pool_size)) (r.(opt_poll_period_us)).

Definition set_opt_cpu_core (v : Z) (r : xpdk_opts) : xpdk_opts :=
  Build_opts (r.(opt_config_file)) (r.(opt_turbo_mode)) v (r.(opt_msg_ring_size)) (r.(opt_msg_pool_size)) (r.(opt_poll_period_us)).

Definition set_opt_msg_ring_size (v : Z) (r : xpdk_opts) : xpdk_opts :=
  Build_opts (r.(opt_config_file)) (r.(opt_turbo_mode)) (r.(opt_cpu_core)) v (r.(opt_msg_pool_size)) (r.(opt_poll_period_us)).

Definition set_opt_msg_pool_size (v : Z) (r : xpdk_opts) : xpdk_opts :=
  Build_opts (r.(opt_config_file)) (r.(opt_turbo_mode)) (r.(opt_cpu_core)) (r.(opt_msg_ring_size)) v (r.(opt_poll_period_us)).

Definition set_opt_poll_period_us (v : Z) (r : xpdk_opts) : xpdk_opts :=
  Build_opts (r.(opt_config_file)) (r.(opt_turbo_mode)) (r.(opt_cpu_core)) (r.(opt_msg_ring_size)) (r.(opt_msg_pool_size)) v.

(** ** Structures of xpdk_internal.h *)

(** The anonymous union of [struct xpdk_msg], one constructor per member. *)
Inductive msg_params : Type :=
| PNone
| POpen (bdev_name : string) (flags result_fd : Z)
| PClose (fd : Z)
| PIo (fd buffer count offset bytes_transferred : Z)
      (callback : option xpdk_io_callback_t) (user_ctx : Z)
| PList (devices max_devices count : Z)
| PGetInfo (fd info : Z)
| PQos (fd limits : Z)
| PPerf (fd stats : Z)
| PTrim (fd offset length : Z)
| PBatch (ios count : Z) (callback : option xpdk_io_callback_t).

(** [struct xpdk_msg]; [msg_u] is the union. *)
Record xpdk_msg := Build_msg {
  msg_type : xpdk_msg_type;
  msg_ctx : Z;
  msg_completed : bool;
  msg_status : Z;
  msg_u : msg_params
}.

Definition set_msg_ctx (v : Z) (r : xpdk_msg) : xpdk_msg :=
  Build_msg (r.(msg_type)) v (r.(msg_completed)) (r.(msg_status)) (r.(msg_u)).

Definition set_msg_completed (v : bool) (r : xpdk_msg) : xpdk_msg :=
  Build_msg (r.(msg_type)) (r.(msg_ctx)) v (r.(msg_status)) (r.(msg_u)).

Definition set_msg_status (v : Z) (r : xpdk_msg) : xpdk_msg :=
  Build_msg (r.(msg_type)) (r.(msg_ctx)) (r.(msg_completed)) v (r.(msg_u)).

Definition set_msg_u (v : msg_params) (r : xpdk_msg) : xpdk_msg :=
  Build_msg (r.(msg_type)) (r.(msg_ctx)) (r.(msg_completed)) (r.(msg_status)) v.

(** [struct xpdk_device] *)
Record xpdk_device := Build_device {
  dev_fd : Z;
  dev_bdev : Z;
  dev_desc : Z;
  dev_channel : Z;
  dev_flags : Z;
  dev_in_use : bool;
  dev_perf_stats : xpdk_perf_stats;
  dev_stats_start_time : Z;
  dev_stats_window_start : Z;
  dev_last_total_ops : Z;
  dev_last_total_bytes : Z
}.

Definition set_dev_fd (v : Z) (r : xpdk_device) : xpdk_device :=
  Build_device v (r.(dev_bdev)) (r.(dev_desc)) (r.(dev_channel)) (r.(dev_flags)) (r.(dev_in_use)) (r.(dev_perf_stats)) (r.(dev_stats_start_time)) (r.(dev_stats_window_start)) (r.(dev_last_total_ops)) (r.(dev_last_total_bytes)).

Definition set_dev_bdev (v : Z) (r : xpdk_device) : xpdk_device :=
  Build_device (r.(dev_fd)) v (r.(dev_desc)) (r.(dev_channel)) (r.(dev_flags)) (r.(dev_in_use)) (r.(dev_perf_stats)) (r.(dev_stats_start_time)) (r.(dev_stats_window_start)) (r.(dev_last_total_ops)) (r.(dev_last_total_bytes)).

Definition set_dev_desc (v : Z) (r : xpdk_device) : xpdk_device :=
  Build_device (r.(dev_fd)) (r.(dev_bdev)) v (r.(dev_channel)) (r.(dev_flags)) (r.(dev_in_use)) (r.(dev_perf_stats)) (r.(dev_stats_start_time)) (r.(dev_stats_window_start)) (r.(dev_last_total_ops)) (r.(dev_last_total_bytes)).

Definition set_dev_channel (v : Z) (r : xpdk_device) : xpdk_device :=
  Build_device (r.(dev_fd)) (r.(dev_bdev)) (r.(dev_desc)) v (r.(dev_flags)) (r.(dev_in_use)) (r.(dev_perf_stats)) (r.(dev_stats_start_time)) (r.(dev_stats_window_start)) (r.(dev_last_total_ops)) (r.(dev_last_total_bytes)).

Definition set_dev_flags (v : Z) (r : xpdk_device) : xpdk_device :=
  Build_device (r.(dev_fd)) (r.(dev_bdev)) (r.(dev_desc)) (r.(dev_channel)) v (r.(dev_in_use)) (r.(dev_perf_stats)) (r.(dev_stats_start_time)) (r.(dev_stats_window_start)) (r.(dev_last_total_ops)) (r.(dev_last_total_bytes)).

Definition set_dev_in_use (v : bool) (r : xpdk_device) : xpdk_device :=
  Build_device (r.(dev_fd)) (r.(dev_bdev)) (r.(dev_desc)) (r.(dev_channel)) (r.(dev_flags)) v (r.(dev_perf_stats)) (r.(dev_stats_start_time)) (r.(dev_stats_window_start)) (r.(dev_last_total_ops)) (r.(dev_last_total_bytes)).

Definition set_dev_perf_stats (v : xpdk_perf_stats) (r : xpdk_device) : xpdk_device :=
  Build_device (r.(dev_fd)) (r.(dev_bdev)) (r.(dev_desc)) (r.(dev_channel)) (r.(dev_flags)) (r.(dev_in_use)) v (r.(dev_stats_start_time)) (r.(dev_stats_window_start)) (r.(dev_last_total_ops)) (r.(dev_last_total_bytes)).

Definition set_dev_stats_start_time (v : Z) (r : xpdk_device) : xpdk_device :=
  Build_device (r.(dev_fd)) (r.(dev_bdev)) (r.(dev_desc)) (r.(dev_channel)) (r.(dev_flags)) (r.(dev_in_use)) (r.(dev_perf_stats)) v (r.(dev_stats_window_start)) (r.(dev_last_total_ops)) (r.(dev_last_total_bytes)).

Definition set_dev_stats_window_start (v : Z) (r : xpdk_device) : xpdk_device :=
  Build_device (r.(dev_fd)) (r.(dev_bdev)) (r.(dev_desc)) (r.(dev_channel)) (r.(dev_flags)) (r.(dev_in_use)) (r.(dev_perf_stats)) (r.(dev_stats_start_time)) v (r.(dev_last_total_ops)) (r.(dev_last_total_bytes)).

Definition set_dev_last_total_ops (v : Z) (r : xpdk_device) : xpdk_device :=
  Build_device (r.(dev_fd)) (r.(dev_bdev)) (r.(dev_desc)) (r.(dev_channel)) (r.(dev_flags)) (r.(dev_in_use)) (r.(dev_perf_stats)) (r.(dev_stats_start_time)) (r.(dev_stats_window_start)) v (r.(dev_last_total_bytes)).

Definition set_dev_last_total_bytes (v : Z) (r : xpdk_device) : xpdk_device :=
  Build_device (r.(dev_fd)) (r.(dev_bdev)) (r.(dev_desc)) (r.(dev_channel)) (r.(dev_flags)) (r.(dev_in_use)) (r.(dev_perf_stats)) (r.(dev_stats_start_time)) (r.(dev_stats_window_start)) (r.(dev_last_total_ops)) v.

Definition device_zero : xpdk_device :=
  Build_device 0 NULL NULL NULL 0 false perf_stats_zero 0 0 0 0.

(** [struct xpdk_context]; the ring and the pool it points to are components of the
    world ([World.v]). *)
Record xpdk_context := Build_context {
  ctx_initialized : bool;
  ctx_devices : list xpdk_device;
  ctx_opts : xpdk_opts;
  ctx_spdk_thread : Z;
  ctx_spdk_thread_running : bool;
  ctx_msg_poller : Z;
  ctx_sync_lock : bool; (* the mutex is initialised *)
  ctx_sync_cond : bool; (* the condition is initialised *)
  ctx_total_messages_processed : Z;
  ctx_total_io_operations : Z
}.

Definition set_ctx_initialized (v : bool) (r : xpdk_context) : xpdk_context :=
  Build_context v (r.(ctx_devices)) (r.(ctx_opts)) (r.(ctx_spdk_thread)) (r.(ctx_spdk_thread_running)) (r.(ctx_msg_poller)) (r.(ctx_sync_lock)) (r.(ctx_sync_cond)) (r.(ctx_total_messages_processed)) (r.(ctx_total_io_operations)).

Definition set_ctx_devices (v : list xpdk_device) (r : xpdk_context) : xpdk_context :=
  Build_context (r.(ctx_initialized)) v (r.(ctx_opts)) (r.(ctx_spdk_thread)) (r.(ctx_spdk_thread_running)) (r.(ctx_msg_poller)) (r.(ctx_sync_lock)) (r.(ctx_sync_cond)) (r.(ctx_total_messages_processed)) (r.(ctx_total_io_operations)).

Definition set_ctx_opts (v : xpdk_opts) (r : xpdk_context) : xpdk_context :=
  Build_context (r.(ctx_initialized)) (r.(ctx_devices)) v (r.(ctx_spdk_thread)) (r.(ctx_spdk_thread_running)) (r.(ctx_msg_poller)) (r.(ctx_sync_lock)) (r.(ctx_sync_cond)) (r.(ctx_total_messages_processed)) (r.(ctx_total_io_operations)).

Definition set_ctx_spdk_thread (v : Z) (r : xpdk_context) : xpdk_context :=
  Build_context (r.(ctx_initialized)) (r.(ctx_devices)) (r.(ctx_opts)) v (r.(ctx_spdk_thread_running)) (r.(ctx_msg_poller)) (r.(ctx_sync_lock)) (r.(ctx_sync_cond)) (r.(ctx_total_messages_processed)) (r.(ctx_total_io_operations)).

Definition set_ctx_spdk_thread_running (v : bool) (r : xpdk_context) : xpdk_context :=
  Build_context (r.(ctx_initialized)) (r.(ctx_devices)) (r.(ctx_opts)) (r.(ctx_spdk_thread)) v (r.(ctx_msg_poller)) (r.(ctx_sync_lock)) (r.(ctx_sync_cond)) (r.(ctx_total_messages_processed)) (r.(ctx_total_io_operations)).

Definition set_ctx_msg_poller (v : Z) (r : xpdk_context) : xpdk_context :=
  Build_context (r.(ctx_initialized)) (r.(ctx_devices)) (r.(ctx_opts)) (r.(ctx_spdk_thread)) (r.(ctx_spdk_thread_running)) v (r.(ctx_sync_lock)) (r.(ctx_sync_cond)) (r.(ctx_total_messages_processed)) (r.(ctx_total_io_operations)).

Definition set_ctx_sync_lock (v : bool) (r : xpdk_context) : xpdk_context :=
  Build_context (r.(ctx_initialized)) (r.(ctx_devices)) (r.(ctx_opts)) (r.(ctx_spdk_thread)) (r.(ctx_spdk_thread_running)) (r.(ctx_msg_poller)) v (r.(ctx_sync_cond)) (r.(ctx_total_messages_processed)) (r.(ctx_total_io_operations)).

Definition set_ctx_sync_cond (v : bool) (r : xpdk_context) : xpdk_context :=
  Build_context (r.(ctx_initialized)) (r.(ctx_devices)) (r.(ctx_opts)) (r.(ctx_spdk_thread)) (r.(ctx_spdk_thread_running)) (r.(ctx_msg_poller)) (r.(ctx_sync_lock)) v (r.(ctx_total_messages_processed)) (r.(ctx_total_io_operations)).

Definition set_ctx_total_messages_processed (v : Z) (r : xpdk_context) : xpdk_context :=
  Build_context (r.(ctx_initialized)) (r.(ctx_devices)) (r.(ctx_opts)) (r.(ctx_spdk_thread)) (r.(ctx_spdk_thread_running)) (r.(ctx_msg_poller)) (r.(ctx_sync_lock)) (r.(ctx_sync_cond)) v (r.(ctx_total_io_operations)).

Definition set_ctx_total_io_operations (v : Z) (r : xpdk_context) : xpdk_context :=
  Build_context (r.(ctx_initialized)) (r.(ctx_devices)) (r.(ctx_opts)) (r.(ctx_spdk_thread)) (r.(ctx_spdk_thread_running)) (r.(ctx_msg_poller)) (r.(ctx_sync_lock)) (r.(ctx_sync_cond)) (r.(ctx_total_messages_processed)) v.

Definition opts_zero : xpdk_opts := Build_opts None false 0 0 0 0.

Definition context_zero : xpdk_context :=
  Build_context false (replicate (Z.to_nat XPDK_MAX_OPEN_DEVICES) device_zero)
    opts_zero NULL false NULL false false 0 0.

(** [struct xpdk_vectored_ctx] *)
Record xpdk_vectored_ctx := Build_vectored_ctx {
  vc_original_callback : xpdk_io_callback_t;
  vc_original_ctx : Z;
  vc_iov : Z;
  vc_iovcnt : Z;
  vc_temp_buffer : Z;
  vc_is_read : bool
}.

(** [struct sync_io_ctx] of xpdk_io.c *)
Record sync_io_ctx := Build_sync_io_ctx {
  sc_msg : Z;
  sc_completed : bool;
  sc_status : Z;
  sc_bytes_transferred : Z
}.
