(* ===== verification/Memory.v ===== *)
(** Byte-addressed memory: the buffers of the client and those of the DMA
    allocator.  An address that is not in the map is not accessible, and reading or
    writing it is the fault [BadAddress]. *)

From stdpp Require Import base gmap list.
From Stdlib Require Import Strings.Byte.
From S2P Require Import Prelude.

Open Scope Z_scope.

Abbreviation memory := (gmap Z byte).

(** [n] bytes at [a]; [None] when one of them is not accessible. *)
Fixpoint load_bytes (m : memory) (a : Z) (n : nat) : option (list byte) :=
  match n with
  | O => Some []
  | S n => b ← m !! a; bs ← load_bytes m (a + 1) n; Some (b :: bs)
  end.

(** The memory with [bs] at [a]. *)
Fixpoint write_bytes (m : memory) (a : Z) (bs : list byte) : memory :=
  match bs with
  | [] => m
  | b :: bs => <[a := b]> (write_bytes m (a + 1) bs)
  end.

(** The memory without the [n] bytes at [a]. *)
Fixpoint unmap_bytes (m : memory) (a : Z) (n : nat) : memory :=
  match n with
  | O => m
  | S n => delete a (unmap_bytes m (a + 1) n)
  end.

(** A store: every byte of the range has to be accessible. *)
Definition store_bytes (m : memory) (a : Z) (bs : list byte) : option memory :=
  match load_bytes m a (length bs) with
  | Some _ => Some (write_bytes m a bs)
  | None => None
  end.

(** The range is accessible, and the range is free. *)
Definition mapped (m : memory) (a : Z) (n : nat) : Prop :=
  forall x, a <= x < a + Z.of_nat n -> is_Some (m !! x).

Definition unmapped (m : memory) (a : Z) (n : nat) : Prop :=
  forall x, a <= x < a + Z.of_nat n -> m !! x = None.

(** The ranges do not overlap. *)
Definition disjoint_range (a : Z) (n : nat) (b : Z) (k : nat) : Prop :=
  a + Z.of_nat n <= b \/ b + Z.of_nat k <= a.

(** ** Lookup characterisations *)

Section Lookups.
Implicit Types (m : memory) (a x : Z) (bs : list byte) (n : nat).

Lemma lookup_write_in m a bs x :
  a <= x < a + Z.of_nat (length bs) ->
  write_bytes m a bs !! x = bs !! Z.to_nat (x - a).
Proof.
  revert a x. induction bs as [|b bs IH]; intros a x Hx; simpl in *; [lia|].
  destruct (decide (a = x)) as [->|Hne].
  - by rewrite lookup_insert_eq, Z.sub_diag.
  - rewrite lookup_insert_ne, IH by lia.
    replace (Z.to_nat (x - a)) with (S (Z.to_nat (x - (a + 1)))) by lia. done.
Qed.

Lemma lookup_write_out m a bs x :
  x < a \/ a + Z.of_nat (length bs) <= x ->
  write_bytes m a bs !! x = m !! x.
Proof.
  revert a. induction bs as [|b bs IH]; intros a Hx; simpl in *; [done|].
  rewrite lookup_insert_ne, IH by lia. done.
Qed.

Lemma lookup_unmap_in m a n x :
  a <= x < a + Z.of_nat n -> unmap_bytes m a n !! x = None.
Proof.
  revert a. induction n as [|n IH]; intros a Hx; simpl in *; [lia|].
  destruct (decide (a = x)) as [->|Hne]; [by rewrite lookup_delete_eq|].
  rewrite lookup_delete_ne, IH by lia. done.
Qed.

Lemma lookup_unmap_out m a n x :
  x < a \/ a + Z.of_nat n <= x -> unmap_bytes m a n !! x = m !! x.
Proof.
  revert a. induction n as [|n IH]; intros a Hx; simpl in *; [done|].
  rewrite lookup_delete_ne, IH by lia. done.
Qed.

Lemma load_bytes_Some m a n bs :
  load_bytes m a n = Some bs <->
  length bs = n /\ (forall i, (i < n)%nat -> m !! (a + Z.of_nat i) = bs !! i).
Proof.
  revert a bs. induction n as [|n IH]; intros a bs; simpl.
  - split; [intros [= <-]; split; [done|lia]|].
    intros [Hl _]. by apply nil_length_inv in Hl as ->.
  - split.
    + intros H. destruct (m !! a) as [b|] eqn:Hb; simpl in H; [|done].
      destruct (load_bytes m (a + 1) n) as [bs'|] eqn:Hl; simpl in H; [|done].
      injection H as <-. apply IH in Hl as [Hlen Hi]. split; [by simpl; rewrite Hlen|].
      intros [|i] ?; simpl; [by rewrite Z.add_0_r|].
      rewrite <-Hi by lia. f_equal. lia.
    + intros [Hlen Hi]. destruct bs as [|b bs]; simpl in *; [lia|].
      pose proof (Hi 0%nat ltac:(lia)) as H0. simpl in H0. rewrite Z.add_0_r in H0.
      rewrite H0. simpl.
      assert (load_bytes m (a + 1) n = Some bs) as ->; [|done].
      apply IH. split; [lia|]. intros i ?. specialize (Hi (S i) ltac:(lia)). simpl in Hi.
      rewrite <-Hi. f_equal. lia.
Qed.
End Lookups.

(** ** Loads, stores and their frames *)

Section LoadsStores.
Implicit Types (m : memory) (a b : Z) (bs cs : list byte) (n k : nat).

Lemma load_bytes_length m a n bs : load_bytes m a n = Some bs -> length bs = n.
Proof. by intros [? _]%load_bytes_Some. Qed.

Lemma load_bytes_ext m m' a n :
  (forall x, a <= x < a + Z.of_nat n -> m !! x = m' !! x) ->
  load_bytes m a n = load_bytes m' a n.
Proof.
  revert a. induction n as [|n IH]; intros a H; simpl; [done|].
  rewrite (H a), (IH (a + 1)) by (intros; try apply H; lia). done.
Qed.

Lemma load_bytes_mapped m a n : mapped m a n <-> is_Some (load_bytes m a n).
Proof.
  split.
  - revert a. induction n as [|n IH]; intros a Hm; simpl; [done|].
    destruct (Hm a ltac:(lia)) as [b ->]; simpl.
    destruct (IH (a + 1)) as [bs ->]; [intros x ?; apply Hm; lia|]. simpl. eauto.
  - intros [bs Hbs] x Hx. apply load_bytes_Some in Hbs as [Hlen Hi].
    specialize (Hi (Z.to_nat (x - a)) ltac:(lia)).
    replace (a + Z.of_nat (Z.to_nat (x - a))) with x in Hi by lia. rewrite Hi.
    apply lookup_lt_is_Some. lia.
Qed.

Lemma load_write_same m a bs : load_bytes (write_bytes m a bs) a (length bs) = Some bs.
Proof.
  apply load_bytes_Some. split; [done|]. intros i Hi.
  rewrite lookup_write_in by lia. f_equal. lia.
Qed.

Lemma load_write_disjoint m a bs b n :
  disjoint_range a (length bs) b n ->
  load_bytes (write_bytes m a bs) b n = load_bytes m b n.
Proof.
  intros Hd. apply load_bytes_ext. intros x Hx. apply lookup_write_out.
  unfold disjoint_range in Hd. lia.
Qed.

Lemma load_unmap_disjoint m a k b n :
  disjoint_range a k b n ->
  load_bytes (unmap_bytes m a k) b n = load_bytes m b n.
Proof.
  intros Hd. apply load_bytes_ext. intros x Hx. apply lookup_unmap_out.
  unfold disjoint_range in Hd. lia.
Qed.

Lemma load_bytes_take m a n k bs :
  load_bytes m a n = Some bs -> (k <= n)%nat -> load_bytes m a k = Some (take k bs).
Proof.
  intros [Hlen Hi]%load_bytes_Some Hk. apply load_bytes_Some. split.
  - rewrite length_take. lia.
  - intros i ?. rewrite lookup_take_lt by lia. apply Hi. lia.
Qed.

Lemma load_bytes_app m a n k :
  load_bytes m a (n + k) =
    (bs ← load_bytes m a n; cs ← load_bytes m (a + Z.of_nat n) k; Some (bs ++ cs)).
Proof.
  revert a. induction n as [|n IH]; intros a; simpl.
  - rewrite Z.add_0_r. by destruct (load_bytes m a k).
  - destruct (m !! a); simpl; [|done]. rewrite IH.
    replace (a + 1 + Z.of_nat n) with (a + Z.of_nat (S n)) by lia.
    destruct (load_bytes m (a + 1) n); simpl; [|done].
    by destruct (load_bytes m _ k).
Qed.

Lemma write_bytes_app m a bs cs :
  write_bytes m a (bs ++ cs) =
    write_bytes (write_bytes m (a + Z.of_nat (length bs)) cs) a bs.
Proof.
  revert a. induction bs as [|b bs IH]; intros a; simpl.
  - by rewrite Z.add_0_r.
  - rewrite IH. do 2 f_equal. f_equal. lia.
Qed.

Lemma store_bytes_mapped m a bs :
  mapped m a (length bs) -> store_bytes m a bs = Some (write_bytes m a bs).
Proof. intros [? H]%load_bytes_mapped. unfold store_bytes. by rewrite H. Qed.

Lemma store_bytes_inv m a bs m' :
  store_bytes m a bs = Some m' -> mapped m a (length bs) /\ m' = write_bytes m a bs.
Proof.
  unfold store_bytes. destruct (load_bytes m a (length bs)) eqn:H; [|done].
  intros [= <-]. split; [|done]. apply load_bytes_mapped. eauto.
Qed.

Lemma unmap_write_fresh m a bs :
  unmapped m a (length bs) -> unmap_bytes (write_bytes m a bs) a (length bs) = m.
Proof.
  intros Hu. apply map_eq. intros x.
  destruct (decide (a <= x < a + Z.of_nat (length bs))) as [Hin|Hout].
  - rewrite lookup_unmap_in by done. symmetry. by apply Hu.
  - rewrite lookup_unmap_out, lookup_write_out by lia. done.
Qed.

Lemma write_write_same m a bs cs :
  length bs = length cs -> write_bytes (write_bytes m a bs) a cs = write_bytes m a cs.
Proof.
  intros Hl. apply map_eq. intros x.
  destruct (decide (a <= x < a + Z.of_nat (length cs))).
  - by rewrite !lookup_write_in by lia.
  - by rewrite !lookup_write_out by lia.
Qed.

(** Overwriting the beginning of a range. *)
Lemma write_prefix m a bs cs :
  (length cs <= length bs)%nat ->
  write_bytes (write_bytes m a bs) a cs = write_bytes m a (cs ++ drop (length cs) bs).
Proof.
  intros Hl. apply map_eq. intros x.
  assert (length (cs ++ drop (length cs) bs) = length bs) as Hlen
    by (rewrite length_app, length_drop; lia).
  destruct (decide (a <= x < a + Z.of_nat (length cs))) as [Hin|Hout];
    [|destruct (decide (a <= x < a + Z.of_nat (length bs))) as [Hin|Hout']].
  - rewrite !lookup_write_in by lia. by rewrite lookup_app_l by lia.
  - rewrite lookup_write_out, !lookup_write_in by lia.
    rewrite lookup_app_r, lookup_drop by lia. f_equal. lia.
  - by rewrite !lookup_write_out by lia.
Qed.

Lemma write_bytes_comm m a bs b cs :
  disjoint_range a (length bs) b (length cs) ->
  write_bytes (write_bytes m a bs) b cs = write_bytes (write_bytes m b cs) a bs.
Proof.
  unfold disjoint_range. intros Hd. apply map_eq. intros x.
  destruct (decide (a <= x < a + Z.of_nat (length bs)));
    destruct (decide (b <= x < b + Z.of_nat (length cs))); try lia.
  - by rewrite lookup_write_out, !lookup_write_in by lia.
  - by rewrite lookup_write_in, lookup_write_out, lookup_write_in by lia.
  - by rewrite !lookup_write_out by lia.
Qed.

Lemma unmap_write_comm m a n b cs :
  disjoint_range a n b (length cs) ->
  unmap_bytes (write_bytes m b cs) a n = write_bytes (unmap_bytes m a n) b cs.
Proof.
  unfold disjoint_range. intros Hd. apply map_eq. intros x.
  destruct (decide (a <= x < a + Z.of_nat n));
    destruct (decide (b <= x < b + Z.of_nat (length cs))); try lia.
  - by rewrite lookup_unmap_in, lookup_write_out, lookup_unmap_in by lia.
  - by rewrite lookup_unmap_out, !lookup_write_in by lia.
  - by rewrite lookup_unmap_out, !lookup_write_out, lookup_unmap_out by lia.
Qed.

Lemma mapped_write m a bs b n : mapped m b n -> mapped (write_bytes m a bs) b n.
Proof.
  intros Hm x Hx. destruct (decide (a <= x < a + Z.of_nat (length bs))).
  - rewrite lookup_write_in by done. apply lookup_lt_is_Some. lia.
  - rewrite lookup_write_out by lia. by apply Hm.
Qed.

Lemma mapped_write_self m a bs : mapped (write_bytes m a bs) a (length bs).
Proof.
  intros x Hx. rewrite lookup_write_in by done. apply lookup_lt_is_Some. lia.
Qed.

Lemma mapped_le m a n k : mapped m a n -> (k <= n)%nat -> mapped m a k.
Proof. intros Hm Hk x Hx. apply Hm. lia. Qed.

(** A range that is free and one that is accessible do not overlap. *)
Lemma unmapped_mapped_disjoint m a n b k :
  unmapped m a n -> mapped m b k -> disjoint_range a n b k \/ n = 0%nat \/ k = 0%nat.
Proof.
  intros Hu Hm. unfold disjoint_range.
  destruct (decide (n = 0%nat)) as [->|]; [lia|].
  destruct (decide (k = 0%nat)) as [->|]; [lia|].
  destruct (decide (a + Z.of_nat n <= b)); [lia|].
  destruct (decide (b + Z.of_nat k <= a)); [lia|].
  exfalso. destruct (Hm (a `max` b)) as [y Hy]; [lia|].
  rewrite Hu in Hy by lia. done.
Qed.
(** A block that was used as a bounce buffer and given back leaves only what was copied
    out of it. *)
Lemma bounce_buffer_gone m a junk data b n :
  length junk = length data -> unmapped m a (length junk) -> mapped m b n ->
  (n <= length data)%nat -> (0 < n)%nat ->
  unmap_bytes (write_bytes (write_bytes (write_bytes m a junk) a data) b (take n data)) a
    (length data) = write_bytes m b (take n data).
Proof.
  intros Hl Hu Hm Hn Hpos.
  assert (disjoint_range a (length data) b (length (take n data))) as Hd.
  { rewrite length_take_le by lia. rewrite Hl in Hu.
    destruct (unmapped_mapped_disjoint m a (length data) b n Hu Hm) as [?|[?|?]]; (done || lia). }
  rewrite unmap_write_comm, write_write_same by done. f_equal.
  apply unmap_write_fresh. by rewrite <-Hl.
Qed.
End LoadsStores.
