(* ===== verification/Spdk.v ===== *)
(** The interfaces of what libxpdk calls and does not contain: SPDK's rings,
    memory pools, DMA allocator, bdev layer and threads, and the operating system's
    allocator and clock.  Each is a class of operations over a state type of its own,
    and a class of laws that states the documented behaviour the library relies on.
    The components are defined over the operations and their theorems are proved
    against the laws; [Sim.v] gives instances of all of them. *)

From stdpp Require Import base gmap list strings.
From Stdlib Require Import Strings.Byte.
From S2P Require Import Prelude Types Memory.

Open Scope Z_scope.

(** ** Rings: bounded FIFO queues of pointers *)

Class RingOps := {
  ring_t : Type;
  spdk_ring_create : Z -> option ring_t;
  spdk_ring_enqueue : ring_t -> Z -> ring_t * Z;
  spdk_ring_dequeue : ring_t -> ring_t * option Z;
}.

(** [spdk_ring_enqueue] returns the number of objects enqueued, 0 when the ring is
    full; [spdk_ring_dequeue] returns the oldest object. *)
Class RingLaws `{RingOps} := {
  ring_queue : ring_t -> list Z;
  ring_capacity : ring_t -> nat;
  enqueue_room r m :
    (length (ring_queue r) < ring_capacity r)%nat ->
    exists r', spdk_ring_enqueue r m = (r', 1) /\
      ring_queue r' = ring_queue r ++ [m] /\ ring_capacity r' = ring_capacity r;
  enqueue_full r m :
    (ring_capacity r <= length (ring_queue r))%nat ->
    exists r', spdk_ring_enqueue r m = (r', 0) /\
      ring_queue r' = ring_queue r /\ ring_capacity r' = ring_capacity r;
  dequeue_cons r m q :
    ring_queue r = m :: q ->
    exists r', spdk_ring_dequeue r = (r', Some m) /\
      ring_queue r' = q /\ ring_capacity r' = ring_capacity r;
  dequeue_nil r :
    ring_queue r = [] ->
    exists r', spdk_ring_dequeue r = (r', None) /\
      ring_queue r' = [] /\ ring_capacity r' = ring_capacity r;
}.

(** ** Memory pools *)

Class PoolOps := {
  pool_t : Type;
  spdk_mempool_create : Z -> option pool_t;
  spdk_mempool_get : pool_t -> pool_t * Z;
  spdk_mempool_put : pool_t -> Z -> pool_t;
}.

(** A pool hands out each of its elements at most once until it is put back, and
    returns [NULL] when it has none left. *)
Class PoolLaws `{PoolOps} := {
  pool_free : pool_t -> gset Z;
  pool_no_null p : NULL ∉ pool_free p;
  mempool_get_some p p' a :
    spdk_mempool_get p = (p', a) -> a <> NULL ->
    a ∈ pool_free p /\ pool_free p' = pool_free p ∖ {[a]};
  mempool_get_null p p' :
    spdk_mempool_get p = (p', NULL) -> pool_free p = ∅ /\ pool_free p' = ∅;
  mempool_put_free p a :
    a <> NULL -> pool_free (spdk_mempool_put p a) = {[a]} ∪ pool_free p;
}.

(** ** The DMA allocator

    It sees which addresses are in use; a block it returns comes with its
    unspecified contents. *)

Class DmaOps := {
  dma_t : Type;
  spdk_dma_malloc_block : dma_t -> memory -> Z -> Z -> dma_t * option (Z * list byte);
}.

Class DmaLaws `{DmaOps} := {
  dma_block_spec d d' m size align a bs :
    spdk_dma_malloc_block d m size align = (d', Some (a, bs)) ->
    0 < a /\ a mod align = 0 /\ length bs = Z.to_nat size /\ unmapped m a (length bs);
}.

(** ** Block devices *)

Inductive io_kind : Set :=
| IoRead
| IoWrite
| IoFlush
| IoUnmap
| IoWriteZeroes.

(** The completion callback and argument a request was submitted with: the two
    callbacks of xpdk_io.c, or [NULL]. *)
Inductive io_cb : Set :=
| SyncIoCb (ctx : Z)
| AsyncIoCb (msg : Z)
| NoIoCb.

Record io_req := Build_io_req {
  rq_kind : io_kind;
  rq_desc : Z;
  rq_channel : Z;
  rq_buf : Z;
  rq_off : Z;
  rq_nblk : Z;
  rq_cb : io_cb
}.

(** What a poll of the bdev layer may deliver.  For a read, [data] is what the
    device transferred into the request's buffer. *)
Inductive completion : Type :=
| IoDone (r : io_req) (success : bool) (data : list byte)
| OpenDone (msg desc status : Z)
| QosDone (msg status : Z).

Class BdevOps := {
  bdev_t : Type;
  spdk_bdev_get_name : Z -> string;
  spdk_bdev_get_block_size : Z -> Z;
  spdk_bdev_get_num_blocks : Z -> Z;
  spdk_bdev_get_by_name : bdev_t -> string -> Z;
  spdk_for_each_bdev : bdev_t -> list Z;
  spdk_bdev_open_ext : bdev_t -> string -> bool -> Z -> bdev_t * Z;
  spdk_bdev_get_io_channel : bdev_t -> Z -> bdev_t * Z;
  spdk_put_io_channel : bdev_t -> Z -> bdev_t;
  spdk_bdev_close : bdev_t -> Z -> bdev_t;
  spdk_bdev_submit : bdev_t -> memory -> io_req -> bdev_t * Z;
  spdk_bdev_set_qos_rate_limits : bdev_t -> Z -> list Z -> Z -> bdev_t;
  spdk_bdev_get_qos_rate_limits : bdev_t -> Z -> list Z;
  bdev_poll : bdev_t -> memory -> bdev_t * option completion;
}.

(** The bytes of the medium from [a] on, [n] of them; and the medium with [bs]
    written at [a]. *)
Definition medium_bytes (md : Z -> byte) (a : Z) (n : nat) : list byte :=
  (fun i => md (a + Z.of_nat i)) <$> seq 0 n.

Definition medium_write (md : Z -> byte) (a : Z) (bs : list byte) : Z -> byte :=
  fun x => if decide (a <= x) then default (md x) (bs !! Z.to_nat (x - a)) else md x.

(** Work the bdev layer has accepted and not yet completed. *)
Inductive work : Type :=
| WIo (r : io_req)
| WOpen (msg : Z) (bdev_name : string) (write : bool)
| WQos (msg bdev : Z) (limits : list Z).

Definition req_len `{BdevOps} (desc_bdev : Z -> Z) (r : io_req) : nat :=
  Z.to_nat (rq_nblk r * spdk_bdev_get_block_size (desc_bdev (rq_desc r))).

Definition req_pos `{BdevOps} (desc_bdev : Z -> Z) (r : io_req) : Z :=
  rq_off r * spdk_bdev_get_block_size (desc_bdev (rq_desc r)).

(** What the laws speak of: the outstanding work, the contents of the media, the
    device a descriptor belongs to, a bound on idle polls, the limits a request for
    limits results in. *)
Class BdevView `{BdevOps} := {
  outstanding : bdev_t -> list work;
  medium : bdev_t -> Z -> Z -> byte;
  desc_bdev : Z -> Z;
  latency : bdev_t -> nat;
  qos_effective : list Z -> list Z;
}.

Definition same_data `{BdevView} (b b' : bdev_t) : Prop :=
  medium b' = medium b /\
  spdk_bdev_get_qos_rate_limits b' = spdk_bdev_get_qos_rate_limits b /\
  spdk_bdev_get_by_name b' = spdk_bdev_get_by_name b.

(** The bytes a successful request puts on the medium. *)
Definition req_data `{BdevView} (m : memory) (r : io_req) : option (list byte) :=
  match rq_kind r with
  | IoWrite => load_bytes m (rq_buf r) (req_len desc_bdev r)
  | IoWriteZeroes => Some (replicate (req_len desc_bdev r) x00)
  | _ => None
  end.

(** How a completed request changes the media: a read or a flush does not, a successful
    write or write of zeros leaves its bytes, and none touches another device or a byte
    outside of its blocks. *)
Definition media_change `{BdevView} (m : memory) (r : io_req) (success : bool)
    (md md' : Z -> Z -> byte) : Prop :=
  (rq_kind r = IoRead \/ rq_kind r = IoFlush -> md' = md) /\
  (success = true -> forall bs, req_data m r = Some bs -> forall bd x, md' bd x =
     if decide (bd = desc_bdev (rq_desc r))
     then medium_write (md bd) (req_pos desc_bdev r) bs x
     else md bd x) /\
  (forall bd x, bd <> desc_bdev (rq_desc r) \/ x < req_pos desc_bdev r \/
     req_pos desc_bdev r + Z.of_nat (req_len desc_bdev r) <= x -> md' bd x = md bd x).

(** The bdev layer keeps what it accepted outstanding until a poll completes it, in
    an order of its own; while something is outstanding, polls cannot stay idle for
    ever ([latency] bounds the idle polls).  It rejects a request that is out of
    range.  A completed read delivers the bytes of the medium, a completed write
    changes them, a completed open yields a descriptor of the named device, a
    completed change of the rate limits makes them effective (SPDK may round them:
    [qos_effective]); nothing else changes the media, the limits or the names. *)
Class BdevLaws `{BdevView} := {
  block_size_range bd : 0 < spdk_bdev_get_block_size bd < 2 ^ 32;
  num_blocks_range bd : 0 <= spdk_bdev_get_num_blocks bd < 2 ^ 64;
  qos_limits_length b bd : length (spdk_bdev_get_qos_rate_limits b bd) = 4%nat;
  submit_ok b m r b' :
    spdk_bdev_submit b m r = (b', 0) ->
    outstanding b' = outstanding b ++ [WIo r] /\ same_data b b' /\
    0 <= rq_off r /\
    rq_off r + rq_nblk r <= spdk_bdev_get_num_blocks (desc_bdev (rq_desc r));
  submit_err b m r b' rc :
    spdk_bdev_submit b m r = (b', rc) -> rc <> 0 ->
    outstanding b' = outstanding b /\ same_data b b';
  open_ok b name write msg b' :
    spdk_bdev_open_ext b name write msg = (b', 0) ->
    outstanding b' = outstanding b ++ [WOpen msg name write] /\ same_data b b';
  open_err b name write msg b' rc :
    spdk_bdev_open_ext b name write msg = (b', rc) -> rc <> 0 ->
    outstanding b' = outstanding b /\ same_data b b';
  channel_frame b desc b' ch :
    spdk_bdev_get_io_channel b desc = (b', ch) ->
    outstanding b' = outstanding b /\ same_data b b';
  put_channel_frame b ch :
    outstanding (spdk_put_io_channel b ch) = outstanding b /\
    same_data b (spdk_put_io_channel b ch);
  close_frame b desc :
    outstanding (spdk_bdev_close b desc) = outstanding b /\
    same_data b (spdk_bdev_close b desc);
  set_qos_frame b bd limits msg :
    outstanding (spdk_bdev_set_qos_rate_limits b bd limits msg) =
      outstanding b ++ [WQos msg bd limits] /\
    same_data b (spdk_bdev_set_qos_rate_limits b bd limits msg);
  poll_none b m b' :
    bdev_poll b m = (b', None) ->
    outstanding b' = outstanding b /\ same_data b b' /\
    (outstanding b <> [] -> (latency b' < latency b)%nat);
  poll_io b m b' r success data :
    bdev_poll b m = (b', Some (IoDone r success data)) ->
    outstanding b ≡ₚ WIo r :: outstanding b' /\
    spdk_bdev_get_qos_rate_limits b' = spdk_bdev_get_qos_rate_limits b /\
    spdk_bdev_get_by_name b' = spdk_bdev_get_by_name b /\
    (rq_kind r = IoRead -> data =
       if success
       then medium_bytes (medium b (desc_bdev (rq_desc r)))
              (req_pos desc_bdev r) (req_len desc_bdev r)
       else []) /\
    media_change m r success (medium b) (medium b');
  poll_open b m b' msg desc status :
    bdev_poll b m = (b', Some (OpenDone msg desc status)) ->
    exists name write,
      outstanding b ≡ₚ WOpen msg name write :: outstanding b' /\ same_data b b' /\
      (status = 0 -> desc <> NULL /\ desc_bdev desc = spdk_bdev_get_by_name b name);
  poll_qos b m b' msg status :
    bdev_poll b m = (b', Some (QosDone msg status)) ->
    exists bd limits,
      outstanding b ≡ₚ WQos msg bd limits :: outstanding b' /\
      medium b' = medium b /\
      spdk_bdev_get_by_name b' = spdk_bdev_get_by_name b /\
      (status = 0 -> spdk_bdev_get_qos_rate_limits b' bd = qos_effective limits);
}.

(** ** The operating system *)

Class SysOps := {
  sys_t : Type;
  sys_gettimeofday : sys_t -> sys_t * (Z * Z);
  sys_clock_gettime : sys_t -> sys_t * (Z * Z);
  sys_malloc : sys_t -> gset Z -> sys_t * Z;
}.

Class SysLaws `{SysOps} := {
  malloc_fresh y live y' a : sys_malloc y live = (y', a) -> a <> NULL -> a ∉ live;
}.

(** ** The whole environment *)

Class Spdk := {
  spdk_ring :: RingOps;
  spdk_pool :: PoolOps;
  spdk_dma :: DmaOps;
  spdk_bdev :: BdevOps;
  spdk_sys :: SysOps;
}.

Class SpdkLaws `{Spdk} := {
  spdk_ring_laws :: RingLaws;
  spdk_pool_laws :: PoolLaws;
  spdk_dma_laws :: DmaLaws;
  spdk_bdev_view :: BdevView;
  spdk_bdev_laws :: BdevLaws;
  spdk_sys_laws :: SysLaws;
}.

Section MediumLemmas.
Implicit Types (md : Z -> byte) (a x : Z) (n : nat) (bs : list byte).

Lemma medium_bytes_length md a n : length (medium_bytes md a n) = n.
Proof. unfold medium_bytes. by rewrite length_fmap, length_seq. Qed.

Lemma medium_bytes_lookup md a n i :
  (i < n)%nat -> medium_bytes md a n !! i = Some (md (a + Z.of_nat i)).
Proof.
  intros Hi. unfold medium_bytes. rewrite list_lookup_fmap, lookup_seq_lt by done. done.
Qed.

Lemma medium_bytes_take md a n k :
  (k <= n)%nat -> take k (medium_bytes md a n) = medium_bytes md a k.
Proof.
  intros Hk. apply list_eq. intros i. destruct (decide (i < k)%nat).
  - rewrite lookup_take_lt, !medium_bytes_lookup by lia. done.
  - rewrite !lookup_ge_None_2; [done|rewrite medium_bytes_length; lia|].
    rewrite length_take, medium_bytes_length. lia.
Qed.

Lemma medium_write_in md a bs x b :
  a <= x -> bs !! Z.to_nat (x - a) = Some b -> medium_write md a bs x = b.
Proof. intros ? H. unfold medium_write. rewrite decide_True, H by done. done. Qed.

Lemma medium_write_out md a bs x :
  x < a \/ a + Z.of_nat (length bs) <= x -> medium_write md a bs x = md x.
Proof.
  intros Hx. unfold medium_write. case_decide; [|done].
  rewrite lookup_ge_None_2 by lia. done.
Qed.

Lemma medium_bytes_write md md' a bs k :
  (forall x, md' x = medium_write md a bs x) -> (k <= length bs)%nat ->
  medium_bytes md' a k = take k bs.
Proof.
  intros Hmd Hk. apply list_eq. intros i. destruct (decide (i < k)%nat).
  - destruct (lookup_lt_is_Some_2 bs i) as [b Hb]; [lia|].
    rewrite medium_bytes_lookup, lookup_take_lt, Hb, Hmd by lia.
    rewrite (medium_write_in _ _ _ _ b); [done|lia|]. by replace (Z.to_nat _) with i by lia.
  - rewrite !lookup_ge_None_2; [done|rewrite length_take; lia|].
    rewrite medium_bytes_length. lia.
Qed.

Lemma medium_bytes_ext md md' a n :
  (forall x, a <= x < a + Z.of_nat n -> md x = md' x) ->
  medium_bytes md a n = medium_bytes md' a n.
Proof.
  intros H. unfold medium_bytes. apply list_fmap_ext. intros i x Hx.
  apply lookup_seq in Hx as [-> ?]. apply H. lia.
Qed.
End MediumLemmas.
