(* ===== verification/World.v ===== *)
(** The state the library runs on, and the primitive accesses its code is written
    with.

    The world holds [g_xpdk_ctx], the state of the environment's components, and the
    objects pointers lead to: messages, bytes, and the arrays and structures the
    client passes in, one map per type, keyed by address.  Following a pointer that
    leads nowhere is a fault. *)

From stdpp Require Import base gmap list strings.
From Stdlib Require Import Strings.Byte.
From S2P Require Import Prelude Types Memory Spdk.

Open Scope Z_scope.

Section World.
Context `{Spdk}.

Record world := Build_world {
  w_g : xpdk_context; (* g_xpdk_ctx *)
  w_ring : option ring_t; (* g_xpdk_ctx.msg_ring *)
  w_pool : option pool_t; (* g_xpdk_ctx.msg_pool *)
  w_dma : dma_t;
  w_bdev : bdev_t;
  w_sys : sys_t;
  w_msgs : gmap Z xpdk_msg; (* messages handed out by the pool *)
  w_mem : memory;
  w_dma_live : gmap Z Z; (* live DMA blocks and their sizes *)
  w_sctx : gmap Z sync_io_ctx; (* stack frames of the I/O handlers *)
  w_infos : gmap Z (list xpdk_bdev_info);
  w_limits : gmap Z (list Z);
  w_stats : gmap Z xpdk_perf_stats;
  w_iovs : gmap Z (list xpdk_iovec);
  w_vctx : gmap Z xpdk_vectored_ctx;
  w_ios : gmap Z (list xpdk_batch_io);
  w_batch : gmap Z xpdk_batch_ctx;
  w_calls : list (Z * Z * Z) (* calls of client callbacks: function, ctx, status *)
}.

Definition set_w_g (v : xpdk_context) (r : world) : world :=
  Build_world v (r.(w_ring)) (r.(w_pool)) (r.(w_dma)) (r.(w_bdev)) (r.(w_sys)) (r.(w_msgs)) (r.(w_mem)) (r.(w_dma_live)) (r.(w_sctx)) (r.(w_infos)) (r.(w_limits)) (r.(w_stats)) (r.(w_iovs)) (r.(w_vctx)) (r.(w_ios)) (r.(w_batch)) (r.(w_calls)).

Definition set_w_ring (v : option ring_t) (r : world) : world :=
  Build_world (r.(w_g)) v (r.(w_pool)) (r.(w_dma)) (r.(w_bdev)) (r.(w_sys)) (r.(w_msgs)) (r.(w_mem)) (r.(w_dma_live)) (r.(w_sctx)) (r.(w_infos)) (r.(w_limits)) (r.(w_stats)) (r.(w_iovs)) (r.(w_vctx)) (r.(w_ios)) (r.(w_batch)) (r.(w_calls)).

Definition set_w_pool (v : option pool_t) (r : world) : world :=
  Build_world (r.(w_g)) (r.(w_ring)) v (r.(w_dma)) (r.(w_bdev)) (r.(w_sys)) (r.(w_msgs)) (r.(w_mem)) (r.(w_dma_live)) (r.(w_sctx)) (r.(w_infos)) (r.(w_limits)) (r.(w_stats)) (r.(w_iovs)) (r.(w_vctx)) (r.(w_ios)) (r.(w_batch)) (r.(w_calls)).

Definition set_w_dma (v : dma_t) (r : world) : world :=
  Build_world (r.(w_g)) (r.(w_ring)) (r.(w_pool)) v (r.(w_bdev)) (r.(w_sys)) (r.(w_msgs)) (r.(w_mem)) (r.(w_dma_live)) (r.(w_sctx)) (r.(w_infos)) (r.(w_limits)) (r.(w_stats)) (r.(w_iovs)) (r.(w_vctx)) (r.(w_ios)) (r.(w_batch)) (r.(w_calls)).

Definition set_w_bdev (v : bdev_t) (r : world) : world :=
  Build_world (r.(w_g)) (r.(w_ring)) (r.(w_pool)) (r.(w_dma)) v (r.(w_sys)) (r.(w_msgs)) (r.(w_mem)) (r.(w_dma_live)) (r.(w_sctx)) (r.(w_infos)) (r.(w_limits)) (r.(w_stats)) (r.(w_iovs)) (r.(w_vctx)) (r.(w_ios)) (r.(w_batch)) (r.(w_calls)).

Definition set_w_sys (v : sys_t) (r : world) : world :=
  Build_world (r.(w_g)) (r.(w_ring)) (r.(w_pool)) (r.(w_dma)) (r.(w_bdev)) v (r.(w_msgs)) (r.(w_mem)) (r.(w_dma_live)) (r.(w_sctx)) (r.(w_infos)) (r.(w_limits)) (r.(w_stats)) (r.(w_iovs)) (r.(w_vctx)) (r.(w_ios)) (r.(w_batch)) (r.(w_calls)).

Definition set_w_msgs (v : gmap Z xpdk_msg) (r : world) : world :=
  Build_world (r.(w_g)) (r.(w_ring)) (r.(w_pool)) (r.(w_dma)) (r.(w_bdev)) (r.(w_sys)) v (r.(w_mem)) (r.(w_dma_live)) (r.(w_sctx)) (r.(w_infos)) (r.(w_limits)) (r.(w_stats)) (r.(w_iovs)) (r.(w_vctx)) (r.(w_ios)) (r.(w_batch)) (r.(w_calls)).

Definition set_w_mem (v : memory) (r : world) : world :=
  Build_world (r.(w_g)) (r.(w_ring)) (r.(w_pool)) (r.(w_dma)) (r.(w_bdev)) (r.(w_sys)) (r.(w_msgs)) v (r.(w_dma_live)) (r.(w_sctx)) (r.(w_infos)) (r.(w_limits)) (r.(w_stats)) (r.(w_iovs)) (r.(w_vctx)) (r.(w_ios)) (r.(w_batch)) (r.(w_calls)).

Definition set_w_dma_live (v : gmap Z Z) (r : world) : world :=
  Build_world (r.(w_g)) (r.(w_ring)) (r.(w_pool)) (r.(w_dma)) (r.(w_bdev)) (r.(w_sys)) (r.(w_msgs)) (r.(w_mem)) v (r.(w_sctx)) (r.(w_infos)) (r.(w_limits)) (r.(w_stats)) (r.(w_iovs)) (r.(w_vctx)) (r.(w_ios)) (r.(w_batch)) (r.(w_calls)).

Definition set_w_sctx (v : gmap Z sync_io_ctx) (r : world) : world :=
  Build_world (r.(w_g)) (r.(w_ring)) (r.(w_pool)) (r.(w_dma)) (r.(w_bdev)) (r.(w_sys)) (r.(w_msgs)) (r.(w_mem)) (r.(w_dma_live)) v (r.(w_infos)) (r.(w_limits)) (r.(w_stats)) (r.(w_iovs)) (r.(w_vctx)) (r.(w_ios)) (r.(w_batch)) (r.(w_calls)).

Definition set_w_infos (v : gmap Z (list xpdk_bdev_info)) (r : world) : world :=
  Build_world (r.(w_g)) (r.(w_ring)) (r.(w_pool)) (r.(w_dma)) (r.(w_bdev)) (r.(w_sys)) (r.(w_msgs)) (r.(w_mem)) (r.(w_dma_live)) (r.(w_sctx)) v (r.(w_limits)) (r.(w_stats)) (r.(w_iovs)) (r.(w_vctx)) (r.(w_ios)) (r.(w_batch)) (r.(w_calls)).

Definition set_w_limits (v : gmap Z (list Z)) (r : world) : world :=
  Build_world (r.(w_g)) (r.(w_ring)) (r.(w_pool)) (r.(w_dma)) (r.(w_bdev)) (r.(w_sys)) (r.(w_msgs)) (r.(w_mem)) (r.(w_dma_live)) (r.(w_sctx)) (r.(w_infos)) v (r.(w_stats)) (r.(w_iovs)) (r.(w_vctx)) (r.(w_ios)) (r.(w_batch)) (r.(w_calls)).

Definition set_w_stats (v : gmap Z xpdk_perf_stats) (r : world) : world :=
  Build_world (r.(w_g)) (r.(w_ring)) (r.(w_pool)) (r.(w_dma)) (r.(w_bdev)) (r.(w_sys)) (r.(w_msgs)) (r.(w_mem)) (r.(w_dma_live)) (r.(w_sctx)) (r.(w_infos)) (r.(w_limits)) v (r.(w_iovs)) (r.(w_vctx)) (r.(w_ios)) (r.(w_batch)) (r.(w_calls)).

Definition set_w_iovs (v : gmap Z (list xpdk_iovec)) (r : world) : world :=
  Build_world (r.(w_g)) (r.(w_ring)) (r.(w_pool)) (r.(w_dma)) (r.(w_bdev)) (r.(w_sys)) (r.(w_msgs)) (r.(w_mem)) (r.(w_dma_live)) (r.(w_sctx)) (r.(w_infos)) (r.(w_limits)) (r.(w_stats)) v (r.(w_vctx)) (r.(w_ios)) (r.(w_batch)) (r.(w_calls)).

Definition set_w_vctx (v : gmap Z xpdk_vectored_ctx) (r : world) : world :=
  Build_world (r.(w_g)) (r.(w_ring)) (r.(w_pool)) (r.(w_dma)) (r.(w_bdev)) (r.(w_sys)) (r.(w_msgs)) (r.(w_mem)) (r.(w_dma_live)) (r.(w_sctx)) (r.(w_infos)) (r.(w_limits)) (r.(w_stats)) (r.(w_iovs)) v (r.(w_ios)) (r.(w_batch)) (r.(w_calls)).

Definition set_w_ios (v : gmap Z (list xpdk_batch_io)) (r : world) : world :=
  Build_world (r.(w_g)) (r.(w_ring)) (r.(w_pool)) (r.(w_dma)) (r.(w_bdev)) (r.(w_sys)) (r.(w_msgs)) (r.(w_mem)) (r.(w_dma_live)) (r.(w_sctx)) (r.(w_infos)) (r.(w_limits)) (r.(w_stats)) (r.(w_iovs)) (r.(w_vctx)) v (r.(w_batch)) (r.(w_calls)).

Definition set_w_batch (v : gmap Z xpdk_batch_ctx) (r : world) : world :=
  Build_world (r.(w_g)) (r.(w_ring)) (r.(w_pool)) (r.(w_dma)) (r.(w_bdev)) (r.(w_sys)) (r.(w_msgs)) (r.(w_mem)) (r.(w_dma_live)) (r.(w_sctx)) (r.(w_infos)) (r.(w_limits)) (r.(w_stats)) (r.(w_iovs)) (r.(w_vctx)) (r.(w_ios)) v (r.(w_calls)).

Definition set_w_calls (v : list (Z * Z * Z)) (r : world) : world :=
  Build_world (r.(w_g)) (r.(w_ring)) (r.(w_pool)) (r.(w_dma)) (r.(w_bdev)) (r.(w_sys)) (r.(w_msgs)) (r.(w_mem)) (r.(w_dma_live)) (r.(w_sctx)) (r.(w_infos)) (r.(w_limits)) (r.(w_stats)) (r.(w_iovs)) (r.(w_vctx)) (r.(w_ios)) (r.(w_batch)) v.

Definition MW (A : Type) : Type := M world A.

(** ** The global context *)

Definition upd_g (f : xpdk_context -> xpdk_context) : MW unit :=
  modify (fun w => set_w_g (f (w_g w)) w).

(** [&g_xpdk_ctx.devices[i]], read and written as a whole. *)
Definition get_dev (i : Z) : MW xpdk_device :=
  let* w := get in
  if decide (0 <= i) then from_some IndexOutOfBounds (ctx_devices (w_g w) !! Z.to_nat i)
  else fail IndexOutOfBounds.

Definition upd_dev (i : Z) (f : xpdk_device -> xpdk_device) : MW unit :=
  let* d := get_dev i in
  upd_g (fun g => set_ctx_devices (<[Z.to_nat i := f d]> (ctx_devices g)) g).

(** ** Messages *)

Definition get_msg (p : Z) : MW xpdk_msg :=
  let* w := get in from_some BadAddress (w_msgs w !! p).

Definition upd_msg (p : Z) (f : xpdk_msg -> xpdk_msg) : MW unit :=
  let* m := get_msg p in
  modify (fun w => set_w_msgs (<[p := f m]> (w_msgs w)) w).

(** [msg->status = rc; msg->completed = true;] *)
Definition complete_msg (p rc : Z) : MW unit :=
  upd_msg p (fun m => set_msg_completed true (set_msg_status rc m)).

(** ** Bytes *)

Definition load (a n : Z) : MW (list byte) :=
  let* w := get in from_some BadAddress (load_bytes (w_mem w) a (Z.to_nat n)).

Definition store (a : Z) (bs : list byte) : MW unit :=
  let* w := get in
  let* m := from_some BadAddress (store_bytes (w_mem w) a bs) in
  modify (set_w_mem m).

Definition memcpy (dst src n : Z) : MW unit :=
  let* bs := load src n in store dst bs.

Definition memset0 (dst n : Z) : MW unit := store dst (replicate (Z.to_nat n) x00).

(** [spdk_dma_malloc] and [spdk_dma_free]; [NULL] when the allocator has no block. *)
Definition spdk_dma_malloc (size align : Z) : MW Z :=
  let* w := get in
  match spdk_dma_malloc_block (w_dma w) (w_mem w) size align with
  | (d, Some (a, bs)) =>
      modify (fun w => set_w_dma_live (<[a := size]> (w_dma_live w))
                         (set_w_mem (write_bytes (w_mem w) a bs) (set_w_dma d w))) ;;
      ret a
  | (d, None) => modify (set_w_dma d) ;; ret NULL
  end.

Definition spdk_dma_free (a : Z) : MW unit :=
  let* w := get in
  let* size := from_some DoubleFree (w_dma_live w !! a) in
  modify (fun w => set_w_dma_live (delete a (w_dma_live w))
                     (set_w_mem (unmap_bytes (w_mem w) a (Z.to_nat size)) w)).

(** ** Time *)

Definition gettimeofday : MW (Z * Z) :=
  let* w := get in
  let '(y, tv) := sys_gettimeofday (w_sys w) in
  modify (set_w_sys y) ;; ret tv.

Definition clock_gettime : MW (Z * Z) :=
  let* w := get in
  let '(y, ts) := sys_clock_gettime (w_sys w) in
  modify (set_w_sys y) ;; ret ts.

(** A client callback is observed: its call is appended to the log. *)
Definition call_user (f ctx status : Z) : MW unit :=
  modify (fun w => set_w_calls (w_calls w ++ [(f, ctx, status)]) w).

(** ** Writes to the bdev state *)

Definition set_bdev (b : bdev_t) : MW unit := modify (set_w_bdev b).

(** The submission functions ([spdk_bdev_read_blocks] and the like) follow the
    descriptor they are given. *)
Definition bdev_submit (r : io_req) : MW Z :=
  if decide (rq_desc r = NULL) then fail NullDeref
  else
    let* w := get in
    let '(b, rc) := spdk_bdev_submit (w_bdev w) (w_mem w) r in
    set_bdev b ;; ret rc.

(** The property functions follow the handle they are given. *)
Definition bdev_block_size (bd : Z) : MW Z :=
  if decide (bd = NULL) then fail NullDeref else ret (spdk_bdev_get_block_size bd).

(** ** Equations of the accesses *)

Definition w_put_msg (p : Z) (m : xpdk_msg) (w : world) : world :=
  set_w_msgs (<[p := m]> (w_msgs w)) w.

Definition w_put_dev (i : Z) (d : xpdk_device) (w : world) : world :=
  set_w_g (set_ctx_devices (<[Z.to_nat i := d]> (ctx_devices (w_g w))) (w_g w)) w.

Lemma get_dev_eq (w : world) i d :
  0 <= i -> ctx_devices (w_g w) !! Z.to_nat i = Some d -> get_dev i w = Ok d w.
Proof. intros ? Hd. unfold get_dev, bind, get. by rewrite decide_True, Hd by done. Qed.

Lemma upd_dev_eq (w : world) i d f :
  0 <= i -> ctx_devices (w_g w) !! Z.to_nat i = Some d ->
  upd_dev i f w = Ok tt (w_put_dev i (f d) w).
Proof. intros ? Hd. unfold upd_dev, bind. by rewrite (get_dev_eq w i d). Qed.

Lemma get_msg_eq (w : world) p m : w_msgs w !! p = Some m -> get_msg p w = Ok m w.
Proof. intros Hm. unfold get_msg, bind, get. by rewrite Hm. Qed.

Lemma upd_msg_eq (w : world) p m f :
  w_msgs w !! p = Some m -> upd_msg p f w = Ok tt (w_put_msg p (f m) w).
Proof. intros Hm. unfold upd_msg, bind. by rewrite (get_msg_eq w p m). Qed.

Lemma complete_msg_eq (w : world) p m rc :
  w_msgs w !! p = Some m ->
  complete_msg p rc w = Ok tt (w_put_msg p (set_msg_completed true (set_msg_status rc m)) w).
Proof. intros Hm. unfold complete_msg. by rewrite (upd_msg_eq w p m). Qed.

Lemma load_eq (w : world) a n bs :
  load_bytes (w_mem w) a (Z.to_nat n) = Some bs -> load a n w = Ok bs w.
Proof. intros Hb. unfold load, bind, get. by rewrite Hb. Qed.

Lemma store_eq (w : world) a bs :
  mapped (w_mem w) a (length bs) ->
  store a bs w = Ok tt (set_w_mem (write_bytes (w_mem w) a bs) w).
Proof.
  intros Hb. unfold store, bind, get. by rewrite store_bytes_mapped by done.
Qed.

Lemma dma_free_eq (w : world) a n :
  w_dma_live w !! a = Some n ->
  spdk_dma_free a w =
    Ok tt (set_w_dma_live (delete a (w_dma_live w))
             (set_w_mem (unmap_bytes (w_mem w) a (Z.to_nat n)) w)).
Proof. intros Hn. unfold spdk_dma_free, bind, get. by rewrite Hn. Qed.
End World.

Arguments world {_}.
Arguments MW {_} A.
