(* ===== verification/Sim.v ===== *)
(** A simulated environment: instances of every interface of [Spdk.v] with proofs of
    their laws.  Theorems about the library are applied to it in their witnesses, which
    shows that the laws can hold together. *)

From stdpp Require Import base gmap list strings sorting.
From Stdlib Require Import Strings.Byte.
From S2P Require Import Prelude Types Memory Spdk World.

Open Scope Z_scope.

#[local] Obligation Tactic := idtac.

(** ** Rings and pools *)

Record sim_ring := Build_sim_ring { sr_queue : list Z; sr_capacity : nat }.

#[local] Instance sim_ring_ops : RingOps := {|
  ring_t := sim_ring;
  spdk_ring_create size := Some (Build_sim_ring [] (Z.to_nat size));
  spdk_ring_enqueue r m :=
    if decide (length (sr_queue r) < sr_capacity r)%nat
    then (Build_sim_ring (sr_queue r ++ [m]) (sr_capacity r), 1) else (r, 0);
  spdk_ring_dequeue r :=
    match sr_queue r with
    | [] => (r, None)
    | m :: q => (Build_sim_ring q (sr_capacity r), Some m)
    end;
|}.

#[local] Program Instance sim_ring_laws : RingLaws := {|
  ring_queue := sr_queue;
  ring_capacity := sr_capacity;
|}.
Next Obligation. intros r m Hr. simpl. rewrite decide_True by done. eauto. Qed.
Next Obligation. intros r m Hr. simpl. rewrite decide_False by lia. eauto. Qed.
Next Obligation. intros r m q Hq. simpl. rewrite Hq. eauto. Qed.
Next Obligation. intros r Hq. simpl. rewrite Hq. eauto. Qed.

(** The elements of a pool, lowest address first. *)
Definition sim_usable (p : list Z) : list Z := filter (fun a => a <> NULL) p.

#[local] Instance sim_pool_ops : PoolOps := {|
  pool_t := list Z;
  spdk_mempool_create size := Some ((fun i => 4096 + 128 * Z.of_nat i) <$> seq 0 (Z.to_nat size));
  spdk_mempool_get p :=
    match sim_usable p with
    | [] => (p, NULL)
    | a :: _ => (filter (fun x => x <> a) p, a)
    end;
  spdk_mempool_put p a := a :: p;
|}.

#[local] Program Instance sim_pool_laws : PoolLaws := {|
  pool_free p := list_to_set p ∖ {[NULL]};
|}.
Next Obligation. intros p. set_solver. Qed.
Next Obligation.
  intros p p' a. simpl. destruct (sim_usable p) as [|x l] eqn:Hf;
    intros Heq; simplify_eq/=; [done|]. intros Hx.
  assert (a ∈ sim_usable p) as [_ Hin]%list_elem_of_filter
    by (rewrite Hf; left).
  split; [set_solver|]. apply set_eq. intros y.
  rewrite !elem_of_difference, !elem_of_list_to_set, list_elem_of_filter. set_solver.
Qed.
Next Obligation.
  intros p p'. simpl. destruct (sim_usable p) as [|x l] eqn:Hf.
  - intros [= <-]. assert ((list_to_set p ∖ {[NULL]} : gset Z) = ∅) as ->; [|done].
    apply set_eq. intros y. rewrite elem_of_difference, elem_of_list_to_set.
    split; [|set_solver]. intros [Hy Hne].
    assert (y ∈ sim_usable p) as Hy'
      by (apply list_elem_of_filter; set_solver).
    rewrite Hf in Hy'. set_solver.
  - intros [= <- ->].
    assert (NULL ∈ sim_usable p) as [Hx _]%list_elem_of_filter
      by (rewrite Hf; left). done.
Qed.
Next Obligation. intros p a Ha. simpl. set_solver. Qed.

(** ** The allocator: the first multiple of the alignment above every mapped address.
    The state is the number of blocks it is willing to give. *)

Definition mem_top (m : memory) : Z := map_fold (fun a _ t => Z.max (a + 1) t) 4096 m.

Definition align_up (x align : Z) : Z := (x / align + 1) * align.

#[local] Instance sim_dma_ops : DmaOps := {|
  dma_t := nat;
  spdk_dma_malloc_block d m size align :=
    match d with
    | O => (O, None)
    | S d' =>
        if decide (0 < align)
        then (d', Some (align_up (mem_top m) align, replicate (Z.to_nat size) xff))
        else (d, None)
    end;
|}.

Lemma mem_top_above (m : memory) :
  4096 <= mem_top m /\ (forall a b, m !! a = Some b -> a < mem_top m).
Proof.
  unfold mem_top. revert m. refine (map_fold_weak_ind
    (fun t m => 4096 <= t /\ forall a b, m !! a = Some b -> a < t) _ _ _ _).
  - split; [lia|]. intros a b Hab. by rewrite lookup_empty in Hab.
  - intros i x m t Hi [Ht Hm]. split; [lia|]. intros a b Hab.
    apply lookup_insert_Some in Hab as [[-> _]|[_ Hab]]; [lia|].
    specialize (Hm _ _ Hab). lia.
Qed.

#[local] Instance sim_dma_laws : DmaLaws.
Proof.
  constructor. intros d d' m size align a bs. simpl. destruct d as [|d1]; [done|].
  case_decide as Hal; [|done].
  intros [= <- <- <-]. destruct (mem_top_above m) as [Hlo Hab].
  assert (mem_top m < align_up (mem_top m) align) as Hup.
  { unfold align_up. pose proof (Z.mod_pos_bound (mem_top m) align Hal).
    pose proof (Z.div_mod (mem_top m) align ltac:(lia)). lia. }
  repeat split; [lia| |by rewrite length_replicate|].
  - unfold align_up. by rewrite Z.mod_mul by lia.
  - intros x Hx. destruct (m !! x) as [b|] eqn:Hb; [|done].
    apply Hab in Hb. lia.
Qed.

(** ** Block devices: two of 16 blocks of 8 bytes *)

Record sim_bdev := Build_sim_bdev {
  sb_outstanding : list work;
  sb_medium : gmap (Z * Z) byte;
  sb_qos : gmap Z (list Z);
  sb_lag : nat; (* idle polls before the next completion *)
  sb_script : list bool; (* outcomes of the next completions; success when empty *)
  sb_channels : bool (* I/O channels are available *)
}.

Definition sim_block_size : Z := 8.

Definition sim_num_blocks : Z := 1024.

Definition sim_medium (b : sim_bdev) (bd x : Z) : byte := default x00 (sb_medium b !! (bd, x)).

Definition sim_qos (b : sim_bdev) (bd : Z) : list Z :=
  let l := default [] (sb_qos b !! bd) in
  if decide (length l = 4%nat) then l else [0; 0; 0; 0].

Definition sim_by_name (name : string) : Z :=
  if decide (name = "Nvme0n1"%string) then 1
  else if decide (name = "Malloc0"%string) then 2 else NULL.

(** The medium with [bs] at [x]. *)
Fixpoint sim_write (m : gmap (Z * Z) byte) (bd x : Z) (bs : list byte) : gmap (Z * Z) byte :=
  match bs with
  | [] => m
  | b :: bs => <[(bd, x) := b]> (sim_write m bd (x + 1) bs)
  end.

Definition sim_desc_bdev (desc : Z) : Z := desc - 100.

Definition sim_next (b : sim_bdev) (rest : list work) (med : gmap (Z * Z) byte)
    (qos : gmap Z (list Z)) : sim_bdev :=
  Build_sim_bdev rest med qos (sb_lag b) (tail (sb_script b)) (sb_channels b).

Definition sim_status (success : bool) : Z := if success then 0 else -5.

Definition sim_poll (b : sim_bdev) (m : memory) : sim_bdev * option completion :=
  match sb_outstanding b, sb_lag b with
  | [], _ => (b, None)
  | _ :: _, S lag =>
      (Build_sim_bdev (sb_outstanding b) (sb_medium b) (sb_qos b) lag (sb_script b)
         (sb_channels b), None)
  | wk :: rest, O =>
      let success := default true (head (sb_script b)) in
      match wk with
      | WOpen msg name _ =>
          (sim_next b rest (sb_medium b) (sb_qos b),
           Some (OpenDone msg (100 + sim_by_name name) (sim_status success)))
      | WQos msg bd limits =>
          (sim_next b rest (sb_medium b)
             (if success then <[bd := limits]> (sb_qos b) else sb_qos b),
           Some (QosDone msg (sim_status success)))
      | WIo r =>
          let bd := sim_desc_bdev (rq_desc r) in
          let pos := rq_off r * sim_block_size in
          let len := Z.to_nat (rq_nblk r * sim_block_size) in
          match rq_kind r with
          | IoRead =>
              (sim_next b rest (sb_medium b) (sb_qos b),
               Some (IoDone r success
                 (if success then medium_bytes (sim_medium b bd) pos len else [])))
          | IoWrite =>
              (sim_next b rest
                 (if success
                  then sim_write (sb_medium b) bd pos (default [] (load_bytes m (rq_buf r) len))
                  else sb_medium b) (sb_qos b),
               Some (IoDone r success []))
          | IoWriteZeroes =>
              (sim_next b rest
                 (if success then sim_write (sb_medium b) bd pos (replicate len x00)
                  else sb_medium b) (sb_qos b),
               Some (IoDone r success []))
          | _ => (sim_next b rest (sb_medium b) (sb_qos b), Some (IoDone r success []))
          end
      end
  end.

Definition sim_add (b : sim_bdev) (wk : work) : sim_bdev :=
  Build_sim_bdev (sb_outstanding b ++ [wk]) (sb_medium b) (sb_qos b) (sb_lag b) (sb_script b)
    (sb_channels b).

#[local] Instance sim_bdev_ops : BdevOps := {|
  bdev_t := sim_bdev;
  spdk_bdev_get_name bd := if decide (bd = 1) then "Nvme0n1"%string else "Malloc0"%string;
  spdk_bdev_get_block_size _ := sim_block_size;
  spdk_bdev_get_num_blocks _ := sim_num_blocks;
  spdk_bdev_get_by_name _ := sim_by_name;
  spdk_for_each_bdev _ := [1; 2];
  spdk_bdev_open_ext b name write msg :=
    if decide (sim_by_name name = NULL) then (b, -19) else (sim_add b (WOpen msg name write), 0);
  spdk_bdev_get_io_channel b desc := (b, if sb_channels b then desc + 100 else NULL);
  spdk_put_io_channel b _ := b;
  spdk_bdev_close b _ := b;
  spdk_bdev_submit b _ r :=
    if decide (0 <= rq_off r /\ rq_off r + rq_nblk r <= sim_num_blocks)
    then (sim_add b (WIo r), 0) else (b, -22);
  spdk_bdev_set_qos_rate_limits b bd limits msg := sim_add b (WQos msg bd limits);
  spdk_bdev_get_qos_rate_limits b := sim_qos b;
  bdev_poll := sim_poll;
|}.

#[local] Instance sim_bdev_view : BdevView := {|
  outstanding := sb_outstanding;
  medium := sim_medium;
  desc_bdev := sim_desc_bdev;
  latency := sb_lag;
  qos_effective l := if decide (length l = 4%nat) then l else [0; 0; 0; 0];
|}.

Lemma lookup_sim_write (m : gmap (Z * Z) byte) bd x bs bd' y :
  sim_write m bd x bs !! (bd', y) =
    if decide (bd' = bd /\ x <= y < x + Z.of_nat (length bs))
    then bs !! Z.to_nat (y - x) else m !! (bd', y).
Proof.
  revert x. induction bs as [|b bs IH]; intros x; simpl.
  - by rewrite decide_False by lia.
  - destruct (decide ((bd, x) = (bd', y))) as [[= -> ->]|Hne].
    + by rewrite lookup_insert_eq, decide_True, Z.sub_diag by lia.
    + rewrite lookup_insert_ne, IH by done.
      assert (bd' = bd -> x <> y) by congruence.
      destruct (decide (bd' = bd /\ x + 1 <= y < x + 1 + Z.of_nat (length bs))).
      * rewrite decide_True by lia.
        by replace (Z.to_nat (y - x)) with (S (Z.to_nat (y - (x + 1)))) by lia.
      * by rewrite decide_False by lia.
Qed.

Lemma sim_medium_write b rest qos bd x bs bd' y :
  sim_medium (sim_next b rest (sim_write (sb_medium b) bd x bs) qos) bd' y =
    if decide (bd' = bd) then medium_write (sim_medium b bd') x bs y else sim_medium b bd' y.
Proof.
  unfold sim_medium at 1. simpl. rewrite lookup_sim_write.
  destruct (decide (bd' = bd)) as [->|]; [|by rewrite decide_False by tauto].
  destruct (decide (x <= y < x + Z.of_nat (length bs))) as [Hin|Hout].
  - rewrite decide_True by done. destruct (lookup_lt_is_Some_2 bs (Z.to_nat (y - x)))
      as [c Hc]; [lia|].
    rewrite Hc. simpl. symmetry. apply medium_write_in; [lia|done].
  - rewrite decide_False by tauto. symmetry. apply medium_write_out. lia.
Qed.

Lemma sim_qos_length b bd : length (sim_qos b bd) = 4%nat.
Proof. unfold sim_qos. by case_decide. Qed.

Lemma sim_media_write b rest qos m r bs :
  req_data m r = Some bs -> length bs = req_len sim_desc_bdev r ->
  media_change m r true (sim_medium b)
    (sim_medium (sim_next b rest
       (sim_write (sb_medium b) (sim_desc_bdev (rq_desc r)) (rq_off r * sim_block_size) bs) qos)).
Proof.
  intros Hbs Hl. unfold media_change. split_and!.
  - unfold req_data in Hbs. destruct (rq_kind r); naive_solver.
  - intros _ bs' Hbs' bd x. simplify_eq. by rewrite sim_medium_write.
  - intros bd x Hx. rewrite sim_medium_write. case_decide; [|done].
    apply medium_write_out. rewrite Hl. unfold req_pos in Hx. simpl in *. tauto.
Qed.

Lemma sim_media_same b rest qos m r s :
  s = false \/ req_data m r = None ->
  media_change m r s (sim_medium b) (sim_medium (sim_next b rest (sb_medium b) qos)).
Proof. intros Hs. unfold media_change. split_and!; naive_solver. Qed.

Lemma sim_poll_io_laws (b b' : sim_bdev) m r success data :
  sim_poll b m = (b', Some (IoDone r success data)) ->
  sb_outstanding b ≡ₚ WIo r :: sb_outstanding b' /\
  sim_qos b' = sim_qos b /\
  (rq_kind r = IoRead -> data =
     if success
     then medium_bytes (sim_medium b (sim_desc_bdev (rq_desc r)))
            (req_pos sim_desc_bdev r) (req_len sim_desc_bdev r)
     else []) /\
  media_change m r success (sim_medium b) (sim_medium b').
Proof.
  unfold sim_poll. destruct (sb_outstanding b) as [|[r'| |] rest]; [done| |by destruct (sb_lag b)..].
  destruct (sb_lag b) as [|lag]; [|done].
  destruct (rq_kind r') eqn:Hk; intros [= <- <- <- <-]; rewrite Hk; split_and!;
    try done; try (intros; congruence);
    try (apply sim_media_same; right; unfold req_data; by rewrite Hk);
    destruct (default true _); try (by apply sim_media_same; left).
  - destruct (load_bytes m (rq_buf r') (Z.to_nat (rq_nblk r' * sim_block_size))) as [bs|] eqn:Hb.
    + apply sim_media_write; [unfold req_data; by rewrite Hk|].
      by apply load_bytes_length in Hb.
    + apply sim_media_same. right. unfold req_data. by rewrite Hk.
  - apply sim_media_write; [unfold req_data; by rewrite Hk|by rewrite length_replicate].
Qed.

Ltac sim_poll_cases :=
  unfold bdev_poll, sim_bdev_ops, sim_poll in *; simpl in *;
  repeat match goal with
         | H : context [match ?x with _ => _ end] |- _ => destruct x eqn:?; simplify_eq/=
         end.

#[local] Instance sim_bdev_laws : BdevLaws.
Proof.
  constructor.
  - intros; simpl. unfold sim_block_size. lia.
  - intros; simpl. unfold sim_num_blocks. lia.
  - intros; simpl. apply sim_qos_length.
  - intros b m r b' Hs. simpl in Hs. case_decide; [|done].
    injection Hs as <-. unfold same_data. simpl. split_and!; (done || lia).
  - intros b m r b' rc Hs Hrc. simpl in Hs. case_decide; by simplify_eq.
  - intros b name write msg b' Hs. simpl in Hs. case_decide; by simplify_eq.
  - intros b name write msg b' rc Hs Hrc. simpl in Hs. case_decide; by simplify_eq.
  - intros b desc b' ch Hs. simpl in Hs. by simplify_eq.
  - done.
  - done.
  - done.
  - intros b m b' Hp. sim_poll_cases; unfold same_data; split_and!; (done || lia).
  - intros b m b' r success data Hp.
    by destruct (sim_poll_io_laws b b' m r success data Hp) as (? & ? & ? & ?).
  - intros b m b' msg desc status Hp. sim_poll_cases.
    exists bdev_name, write. split_and!; [done..|]. intros _. simpl.
    unfold sim_by_name, sim_desc_bdev, NULL. repeat case_decide; lia.
  - intros b m b' msg status Hp. sim_poll_cases.
    exists bdev, limits. repeat split; try done. intros Hst. unfold sim_status in Hst.
    destruct (default true (head (sb_script b))); [|done].
    simpl. unfold sim_qos. simpl. by rewrite lookup_insert_eq.
Qed.

(** ** The operating system: a clock that advances by a millisecond at each reading *)

Definition set_top (s : gset Z) : Z := set_fold Z.max 65536 s.

#[local] Instance sim_sys_ops : SysOps := {|
  sys_t := Z;
  sys_gettimeofday t := (t + 1000, (t / 1000000, t mod 1000000));
  sys_clock_gettime t := (t + 1000, (t / 1000000, t mod 1000000 * 1000));
  sys_malloc t live := (t, set_top live + 16);
|}.

Lemma set_top_above (s : gset Z) a : a ∈ s -> a <= set_top s.
Proof.
  unfold set_top. revert a.
  apply (set_fold_ind_L (fun t s => forall a, a ∈ s -> a <= t)); [set_solver|].
  intros x s' t _ IH a [->%elem_of_singleton|Ha%IH]%elem_of_union; lia.
Qed.

#[local] Instance sim_sys_laws : SysLaws.
Proof.
  constructor. intros y live y' a [= <- <-] _ Hin%set_top_above. lia.
Qed.

#[local] Instance sim_spdk : Spdk := {|
  spdk_ring := sim_ring_ops;
  spdk_pool := sim_pool_ops;
  spdk_dma := sim_dma_ops;
  spdk_bdev := sim_bdev_ops;
  spdk_sys := sim_sys_ops;
|}.

#[local] Instance sim_spdk_laws : SpdkLaws := {|
  spdk_ring_laws := sim_ring_laws;
  spdk_pool_laws := sim_pool_laws;
  spdk_dma_laws := sim_dma_laws;
  spdk_bdev_view := sim_bdev_view;
  spdk_bdev_laws := sim_bdev_laws;
  spdk_sys_laws := sim_sys_laws;
|}.

(** ** A world at rest

    The library is initialised in standard mode on the simulated environment: ring and
    pool of four messages, no device open, five bytes of client memory at 8192. *)

Definition sim_devices : list xpdk_device :=
  imap (fun i d => set_dev_fd (Z.of_nat i) d)
    (replicate (Z.to_nat XPDK_MAX_OPEN_DEVICES) device_zero).

Definition sim_context : xpdk_context :=
  Build_context true sim_devices (Build_opts None false (-1) 4 4 1000) 1 true 1 true true 0 0.

Definition sim_idle_bdev : sim_bdev := Build_sim_bdev [] ∅ ∅ 2 [] true.

Definition sim_world : world :=
  Build_world sim_context (Some (Build_sim_ring [] 4)) (Some [4096; 4224; 4352; 4480])
    10%nat sim_idle_bdev 1000000 ∅ (write_bytes ∅ 8192 [x41; x42; x43; x44; x45])
    ∅ ∅ ∅ ∅ ∅ ∅ ∅ ∅ ∅ [].

(** The same with "Nvme0n1" open for reading and writing as descriptor 0. *)
Definition sim_open_device : xpdk_device :=
  set_dev_in_use true (set_dev_flags O_RDWR (set_dev_bdev 1 (set_dev_desc 101
    (set_dev_channel 201 (set_dev_fd 0 device_zero))))).

Definition sim_open_world : world := w_put_dev 0 sim_open_device sim_world.

(** The same with an array of three [struct xpdk_bdev_info] at 20000. *)
Definition sim_info_world : world :=
  set_w_infos {[20000 := replicate 3 (Build_bdev_info EmptyString 0 0 0)]} sim_open_world.

(** The same with a structure for statistics at 30000 and two arrays of limits. *)
Definition sim_service_world : world :=
  set_w_stats {[30000 := perf_stats_zero]}
    (set_w_limits (<[40000 := [1000; 2000; 3000; 4000]]> {[40100 := [9; 9; 9; 9]]}) sim_open_world).

(** The same with a write-zeros request outstanding that is about to complete. *)
Definition sim_zeroing_world : world :=
  set_w_bdev (Build_sim_bdev [WIo (Build_io_req IoWriteZeroes 101 201 NULL 0 1 NoIoCb)]
                ∅ ∅ 0 [] true) sim_open_world.

(** The same with two segments, of two and three bytes, in an array at 50000. *)
Definition sim_iovs : list xpdk_iovec := [Build_iovec 8195 2; Build_iovec 8192 3].

Definition sim_iov_world : world := set_w_iovs {[50000 := sim_iovs]} sim_open_world.
