(* ===== verification/ReadRace.v ===== *)
(** The client and the SPDK thread, statement by statement, at the end of a synchronous read
    through a bounce buffer.

    The other files let the SPDK thread finish its turn before the client looks at its
    message.  Here both run at the grain of single statements, in any order: the client spins
    on [msg->completed] and reads the result (src/xpdk_core.c, [xpdk_msg_send_sync], and
    [xpdk_read]); the SPDK thread is inside [xpdk_spdk_handle_read], polling for the completion
    of the request, whose callback sets the flags, and then copies the data. *)

From stdpp Require Import base list relations.
From Stdlib Require Import Strings.Byte.
From S2P Require Import Prelude Types.

Open Scope Z_scope.

(** ** States *)

(** The client: the loop, the read of the status, the read of the count, the return. *)
Inductive client_pc :=
| CSpin
| CStatus
| CBytes
| CReturned (result : Z).

(** The SPDK thread: polling; the statements of [sync_io_completion_cb]; the test of the loop;
    the copy; the release of the bounce buffer; the end of the handler. *)
Inductive spdk_pc :=
| SPoll
| SCtxCompleted (success : bool)
| SCtxStatus (success : bool)
| SMsgStatus (success : bool)
| SMsgBytes (success : bool)
| SMsgCompleted
| SLoopTest
| SCopy
| SFree
| SEnd.

Record race_state := Build_race_state {
  rs_client : client_pc;
  rs_spdk : spdk_pc;
  rs_msg_completed : bool; (* msg->completed *)
  rs_msg_status : Z; (* msg->status *)
  rs_msg_bytes : Z; (* msg->io.bytes_transferred *)
  rs_ctx_completed : bool; (* ctx.completed *)
  rs_ctx_status : Z; (* ctx.status *)
  rs_user : list byte; (* the bytes at msg->io.buffer *)
  rs_bounce : option (list byte) (* the bounce buffer while it is allocated *)
}.

Section ReadRace.
(** The count of the request and the blocks the device reads. *)
Context (count : Z) (blocks : list byte).

(** ** Steps *)

Definition with_client (c : client_pc) (s : race_state) : race_state :=
  Build_race_state c (rs_spdk s) (rs_msg_completed s) (rs_msg_status s) (rs_msg_bytes s)
    (rs_ctx_completed s) (rs_ctx_status s) (rs_user s) (rs_bounce s).

(** [memcpy(msg->io.buffer, buffer, msg->io.count)] *)
Definition copied (b u : list byte) : list byte :=
  take (Z.to_nat count) b ++ drop (Z.to_nat count) u.

(** One statement of the client. *)
Inductive client_step : race_state -> race_state -> Prop :=
| client_spins s :
    rs_client s = CSpin -> rs_msg_completed s = false -> client_step s s
| client_sees s :
    rs_client s = CSpin -> rs_msg_completed s = true -> client_step s (with_client CStatus s)
| client_status_ok s :
    rs_client s = CStatus -> rs_msg_status s = XPDK_SUCCESS ->
    client_step s (with_client CBytes s)
| client_status_error s :
    rs_client s = CStatus -> rs_msg_status s <> XPDK_SUCCESS ->
    client_step s (with_client (CReturned (rs_msg_status s)) s)
| client_bytes s :
    rs_client s = CBytes -> client_step s (with_client (CReturned (rs_msg_bytes s)) s).

(** One statement of the SPDK thread; the device has put its data into the bounce buffer when
    its completion is delivered. *)
Inductive spdk_step : race_state -> race_state -> Prop :=
| spdk_polls c mc ms mb cc cs u b :
    spdk_step (Build_race_state c SPoll mc ms mb cc cs u b)
              (Build_race_state c SPoll mc ms mb cc cs u b)
| spdk_completion c mc ms mb cc cs u b (success : bool) :
    spdk_step (Build_race_state c SPoll mc ms mb cc cs u (Some b))
              (Build_race_state c (SCtxCompleted success) mc ms mb cc cs u
                 (Some (if success then blocks else b)))
| spdk_ctx_completed c mc ms mb cc cs u b success :
    spdk_step (Build_race_state c (SCtxCompleted success) mc ms mb cc cs u b)
              (Build_race_state c (SCtxStatus success) mc ms mb true cs u b)
| spdk_ctx_status c mc ms mb cc cs u b (success : bool) :
    spdk_step (Build_race_state c (SCtxStatus success) mc ms mb cc cs u b)
              (Build_race_state c (SMsgStatus success) mc ms mb cc
                 (if success then XPDK_SUCCESS else XPDK_ERROR_IO) u b)
| spdk_msg_status c mc ms mb cc cs u b success :
    spdk_step (Build_race_state c (SMsgStatus success) mc ms mb cc cs u b)
              (Build_race_state c (SMsgBytes success) mc cs mb cc cs u b)
| spdk_msg_bytes c mc ms mb cc cs u b (success : bool) :
    spdk_step (Build_race_state c (SMsgBytes success) mc ms mb cc cs u b)
              (Build_race_state c SMsgCompleted mc ms (if success then count else 0) cc cs u b)
| spdk_msg_completed c mc ms mb cc cs u b :
    spdk_step (Build_race_state c SMsgCompleted mc ms mb cc cs u b)
              (Build_race_state c SLoopTest true ms mb cc cs u b)
| spdk_loop_ends c mc ms mb cs u b :
    spdk_step (Build_race_state c SLoopTest mc ms mb true cs u b)
              (Build_race_state c (if decide (cs = XPDK_SUCCESS) then SCopy else SEnd)
                 mc ms mb true cs u b)
| spdk_copies c mc ms mb cc cs u b :
    spdk_step (Build_race_state c SCopy mc ms mb cc cs u (Some b))
              (Build_race_state c SFree mc ms mb cc cs (copied b u) (Some b))
| spdk_frees c mc ms mb cc cs u b :
    spdk_step (Build_race_state c SFree mc ms mb cc cs u (Some b))
              (Build_race_state c SEnd mc ms mb cc cs u None).

Inductive race_step : race_state -> race_state -> Prop :=
| step_client s s' : client_step s s' -> race_step s s'
| step_spdk s s' : spdk_step s s' -> race_step s s'.

(** The read was submitted; the client's buffer holds [old], the bounce buffer [junk]. *)
Definition race_init (old junk : list byte) : race_state :=
  Build_race_state CSpin SPoll false XPDK_SUCCESS 0 false XPDK_SUCCESS old (Some junk).

Definition race_reachable (old junk : list byte) : race_state -> Prop :=
  rtc race_step (race_init old junk).

(** ** The invariant *)

(** The status the callback of a request leaves. *)
Definition race_status (success : bool) : Z := if success then XPDK_SUCCESS else XPDK_ERROR_IO.

(** What holds of the shared data at each statement of the SPDK thread. *)
Definition spdk_inv (old : list byte) (s : race_state) : Prop :=
  match rs_spdk s with
  | SPoll =>
      rs_msg_completed s = false /\ rs_user s = old /\ exists b, rs_bounce s = Some b
  | SCtxCompleted ok | SCtxStatus ok =>
      rs_msg_completed s = false /\ rs_user s = old /\
      exists b, rs_bounce s = Some b /\ (ok = true -> b = blocks) /\
        (rs_spdk s = SCtxStatus ok -> rs_ctx_completed s = true)
  | SMsgStatus ok =>
      rs_msg_completed s = false /\ rs_user s = old /\ rs_ctx_completed s = true /\
      rs_ctx_status s = race_status ok /\
      exists b, rs_bounce s = Some b /\ (ok = true -> b = blocks)
  | SMsgBytes ok =>
      rs_msg_completed s = false /\ rs_user s = old /\ rs_ctx_completed s = true /\
      rs_ctx_status s = race_status ok /\ rs_msg_status s = race_status ok /\
      exists b, rs_bounce s = Some b /\ (ok = true -> b = blocks)
  | SMsgCompleted | SLoopTest | SCopy | SFree | SEnd =>
      exists ok : bool, rs_ctx_completed s = true /\ rs_ctx_status s = race_status ok /\
        rs_msg_status s = race_status ok /\ rs_msg_bytes s = (if ok then count else 0) /\
        (rs_msg_completed s = true \/ rs_spdk s = SMsgCompleted) /\
        match rs_spdk s with
        | SMsgCompleted =>
            rs_msg_completed s = false /\ rs_user s = old /\
            exists b, rs_bounce s = Some b /\ (ok = true -> b = blocks)
        | SLoopTest =>
            rs_user s = old /\ exists b, rs_bounce s = Some b /\ (ok = true -> b = blocks)
        | SCopy => ok = true /\ rs_user s = old /\ rs_bounce s = Some blocks
        | SFree => ok = true /\ rs_user s = copied blocks old /\ rs_bounce s = Some blocks
        | _ => if ok then rs_user s = copied blocks old /\ rs_bounce s = None
               else rs_user s = old /\ exists b, rs_bounce s = Some b
        end
  end.

(** What the client has seen. *)
Definition client_inv (s : race_state) : Prop :=
  match rs_client s with
  | CSpin => True
  | CStatus => rs_msg_completed s = true
  | CBytes => rs_msg_completed s = true /\ rs_msg_status s = XPDK_SUCCESS
  | CReturned r =>
      rs_msg_completed s = true /\
      (rs_msg_status s = XPDK_SUCCESS /\ r = rs_msg_bytes s \/
       rs_msg_status s <> XPDK_SUCCESS /\ r = rs_msg_status s)
  end.

Lemma client_step_inv old s s' :
  client_step s s' -> spdk_inv old s /\ client_inv s -> spdk_inv old s' /\ client_inv s'.
Proof.
  intros Hst [Hs Hc]. destruct Hst as [s Hp Hm|s Hp Hm|s Hp Hm|s Hp Hm|s Hp];
    unfold client_inv in Hc; rewrite Hp in Hc; destruct s; simpl in *; subst;
    (split; [exact Hs|]); unfold client_inv; simpl; tauto.
Qed.

(** Before the message is completed the client spins. *)
Lemma client_spinning s : client_inv s -> rs_msg_completed s = false -> rs_client s = CSpin.
Proof. unfold client_inv. intros Hc Hm. destruct (rs_client s); [done|congruence|destruct Hc; congruence..]. Qed.

Lemma spdk_step_inv old s s' :
  spdk_step s s' -> spdk_inv old s /\ client_inv s -> spdk_inv old s' /\ client_inv s'.
Proof.
  intros Hst [Hs Hc].
  assert (rs_msg_completed s = false -> rs_client s' = CSpin) as Hspin.
  { intros Hm. rewrite <- (client_spinning s Hc Hm). by destruct Hst. }
  assert (rs_client s' = CSpin -> client_inv s') as Htriv by (unfold client_inv; by intros ->).
  destruct Hst as [c mc ms mb cc cs u b|c mc ms mb cc cs u b ok|c mc ms mb cc cs u b ok
    |c mc ms mb cc cs u b ok|c mc ms mb cc cs u b ok|c mc ms mb cc cs u b ok
    |c mc ms mb cc cs u b|c mc ms mb cs u b|c mc ms mb cc cs u b|c mc ms mb cc cs u b];
    unfold spdk_inv in Hs |- *; simpl in *.
  - done.
  - destruct Hs as (-> & -> & _). split; [|by auto]. split_and!; [done..|]. eexists.
    split_and!; [done|by intros ->|done].
  - destruct Hs as (-> & -> & b0 & -> & Hb & _). split; [|by auto]. split_and!; [done..|].
    exists b0. by split_and!.
  - destruct Hs as (-> & -> & b0 & -> & Hb & Hcc). split; [|by auto]. split_and!; try done.
    + by apply Hcc.
    + by exists b0.
  - destruct Hs as (-> & -> & -> & -> & b0 & -> & Hb). split; [|by auto]. split_and!; try done.
    by exists b0.
  - destruct Hs as (-> & -> & -> & -> & -> & b0 & -> & Hb). split; [|by auto].
    exists ok. split_and!; try done; [by right|]. by exists b0.
  - destruct Hs as (ok & -> & -> & -> & -> & _ & -> & -> & b0 & -> & Hb). split; [|by auto].
    exists ok. split_and!; try done; [by left|]. by exists b0.
  - destruct Hs as (ok & _ & -> & -> & -> & [->|?] & -> & b0 & -> & Hb); [|done].
    split; [|done]. destruct ok; simpl.
    + rewrite (Hb eq_refl). exists true. split_and!; try done. by left.
    + exists false. split_and!; try done; [by left|]. by exists b0.
  - destruct Hs as (ok & -> & -> & -> & -> & [->|?] & -> & -> & [= ->]); [|done].
    split; [|done]. exists true. split_and!; try done. by left.
  - destruct Hs as (ok & -> & -> & -> & -> & [->|?] & -> & -> & [= ->]); [|done].
    split; [|done]. exists true. split_and!; try done. by left.
Qed.

Lemma reachable_inv old junk s :
  race_reachable old junk s -> spdk_inv old s /\ client_inv s.
Proof.
  unfold race_reachable. intros Hr.
  assert (forall s0, rtc race_step s0 s -> spdk_inv old s0 /\ client_inv s0 ->
    spdk_inv old s /\ client_inv s) as Hind.
  { clear Hr. induction 1 as [|s0 s1 s2 Hst _ IH]; [done|]. intros Hi. apply IH.
    destruct Hst; [by eapply client_step_inv|by eapply spdk_step_inv]. }
  apply (Hind _ Hr). split; [|done]. split_and!; try done. by exists junk.
Qed.

(** ** What the interleavings allow *)

(** However the client and the SPDK thread interleave, a synchronous read through a bounce
    buffer returns the count or [XPDK_ERROR_IO], never less; and once the handler is at its
    end, a success has the data in the client's buffer and the bounce buffer freed, a failure
    has the client's buffer untouched and the bounce buffer still allocated. *)
Theorem race_results old junk s :
  race_reachable old junk s ->
  (forall r, rs_client s = CReturned r -> r = count \/ r = XPDK_ERROR_IO) /\
  (rs_spdk s = SEnd ->
     rs_msg_status s = XPDK_SUCCESS /\ rs_user s = copied blocks old /\ rs_bounce s = None \/
     rs_msg_status s = XPDK_ERROR_IO /\ rs_user s = old /\ rs_bounce s <> None).
Proof.
  intros Hr. apply reachable_inv in Hr as [Hs Hc]. unfold spdk_inv, client_inv in *. split.
  - intros r Hcl. rewrite Hcl in Hc. destruct Hc as [Hm Hres].
    destruct (rs_spdk s); try (destruct Hs as (Hf & _); congruence);
      destruct Hs as (ok & _ & _ & Hst & Hb & _);
      destruct ok; simpl in Hst; rewrite Hst in Hres; destruct Hres as [[? ->]|[? ->]]; auto; done.
  - intros Hend. rewrite Hend in Hs. destruct Hs as (ok & _ & _ & Hst & _ & _ & Hok).
    destruct ok; simpl in Hst; [left; tauto|right]. destruct Hok as (? & b & ->). done.
Qed.

(** The callback has completed the message, the SPDK thread is about to leave its loop, and
    the client has returned. *)
Definition returned_early (old : list byte) : race_state :=
  Build_race_state (CReturned count) SLoopTest true XPDK_SUCCESS count true XPDK_SUCCESS old
    (Some blocks).

Lemma returned_early_reachable old junk : race_reachable old junk (returned_early old).
Proof.
  unfold race_reachable, race_init, returned_early.
  eapply rtc_l; [apply step_spdk, (spdk_completion _ _ _ _ _ _ _ _ true)|].
  eapply rtc_l; [apply step_spdk, spdk_ctx_completed|].
  eapply rtc_l; [apply step_spdk, spdk_ctx_status|].
  eapply rtc_l; [apply step_spdk, spdk_msg_status|].
  eapply rtc_l; [apply step_spdk, spdk_msg_bytes|].
  eapply rtc_l; [apply step_spdk, spdk_msg_completed|].
  eapply rtc_l; [by apply step_client, client_sees|].
  eapply rtc_l; [by apply step_client, client_status_ok|].
  eapply rtc_l; [by apply step_client, client_bytes|]. apply rtc_refl.
Qed.

(** C36: The client can return too early: there is an interleaving in which the read has
    returned the full count while its buffer still holds the old bytes, and the SPDK thread
    overwrites that buffer later, after the return. *)
Theorem race_stale_read old junk :
  exists s s',
    race_reachable old junk s /\ rs_client s = CReturned count /\ rs_user s = old /\
    rtc race_step s s' /\ rs_client s' = CReturned count /\ rs_user s' = copied blocks old.
Proof.
  exists (returned_early old).
  exists (Build_race_state (CReturned count) SEnd true XPDK_SUCCESS count true XPDK_SUCCESS
    (copied blocks old) None).
  split_and!; [apply returned_early_reachable|done|done| |done|done].
  eapply rtc_l; [apply step_spdk, spdk_loop_ends|]. rewrite decide_True by done.
  eapply rtc_l; [apply step_spdk, spdk_copies|].
  eapply rtc_l; [apply step_spdk, spdk_frees|]. apply rtc_refl.
Qed.
End ReadRace.

Lemma race_results_witness :
  race_reachable 1 [x41] [x00] [x2a] (returned_early 1 [x41] [x00]) /\
  (1 = 1 \/ 1 = XPDK_ERROR_IO).
Proof.
  split; [apply returned_early_reachable|].
  apply (proj1 (race_results 1 [x41] [x00] [x2a] (returned_early 1 [x41] [x00])
    (returned_early_reachable 1 [x41] [x00] [x2a]))). reflexivity.
Defined.
