(* ===== verification/Core.v ===== *)
(** src/xpdk_core.c, the parts every other file calls: error strings, options,
    CPU affinity, the table of open devices, messages and how they are sent.  (The poller and the
    life cycle of the library are in [Poller.v] and [Lifecycle.v].) *)

From stdpp Require Import base gmap list strings.
From Stdlib Require Import Strings.Byte.
From S2P Require Import Prelude Types Memory Spdk World Sim.

Open Scope Z_scope.

(** ** Error strings and options *)

Definition XPDK_DEFAULT_RING_SIZE : Z := 1024.

Definition XPDK_DEFAULT_POOL_SIZE : Z := 1024.

Definition XPDK_DEFAULT_POLL_PERIOD_US : Z := 1000.

Definition XPDK_TURBO_POLL_PERIOD_US : Z := 0.

Definition error_strings : list string :=
  ["Success"; "Invalid parameter"; "Out of memory"; "I/O error"; "Device busy";
   "No such device"; "QoS error"]%string.

(** [-error_code] overflows for [INT_MIN]; that call has no defined result. *)
Definition xpdk_strerror (error_code : Z) : option string :=
  if decide (error_code = INT_MIN) then None
  else
    let index := - error_code in
    if decide (index < 0 \/ index >= Z.of_nat (length error_strings))
    then Some "Unknown error"%string
    else error_strings !! Z.to_nat index.

(** [setaffinity_rc] is what [pthread_setaffinity_np] returns for the core. *)
Definition xpdk_set_cpu_affinity (setaffinity_rc : Z -> Z) (cpu_core : Z) : Z :=
  if decide (cpu_core < 0) then XPDK_SUCCESS
  else if decide (setaffinity_rc cpu_core <> 0) then XPDK_ERROR_IO
  else XPDK_SUCCESS.

(** The structure after the call; [opts] is not [NULL]. *)
Definition xpdk_opts_init (opts : xpdk_opts) : xpdk_opts :=
  Build_opts None false (-1) 0 0 XPDK_DEFAULT_POLL_PERIOD_US.

(** What [memset] leaves in the union of a message: every member is zero, and the
    member that is used is the one of the message's type. *)
Definition zero_params (type : xpdk_msg_type) : msg_params :=
  match type with
  | XPDK_MSG_OPEN => POpen ""%string 0 0
  | XPDK_MSG_CLOSE => PClose 0
  | XPDK_MSG_READ | XPDK_MSG_WRITE | XPDK_MSG_READV | XPDK_MSG_WRITEV
  | XPDK_MSG_FLUSH => PIo 0 NULL 0 0 0 None NULL
  | XPDK_MSG_BATCH_SUBMIT => PBatch NULL 0 None
  | XPDK_MSG_LIST_BDEVS => PList NULL 0 0
  | XPDK_MSG_GET_INFO => PGetInfo 0 NULL
  | XPDK_MSG_QOS_SET_LIMITS | XPDK_MSG_QOS_GET_LIMITS => PQos 0 NULL
  | XPDK_MSG_GET_PERF_STATS | XPDK_MSG_RESET_PERF_STATS => PPerf 0 NULL
  | XPDK_MSG_TRIM | XPDK_MSG_WRITE_ZEROS => PTrim 0 0 0
  | XPDK_MSG_SHUTDOWN => PNone
  end.

Section Core.
Context `{Spdk}.

(** ** The table of open devices *)

Fixpoint find_free_fd_from (n : nat) (i : Z) : MW Z :=
  match n with
  | O => ret XPDK_ERROR_NOMEM
  | S n =>
      let* d := get_dev i in
      if negb (dev_in_use d)
      then upd_dev i (set_dev_in_use true) ;; ret i
      else find_free_fd_from n (i + 1)
  end.

Definition xpdk_find_free_fd : MW Z :=
  find_free_fd_from (Z.to_nat XPDK_MAX_OPEN_DEVICES) 0.

(** The device a descriptor denotes, as its index in the table; [None] is [NULL]. *)
Definition xpdk_get_device (fd : Z) : MW (option Z) :=
  if decide (fd < 0 \/ fd >= XPDK_MAX_OPEN_DEVICES) then ret None
  else
    let* d := get_dev fd in
    if negb (dev_in_use d) then ret None else ret (Some fd).

Definition xpdk_put_device (dev : option Z) : MW unit :=
  match dev with
  | None => ret tt
  | Some i => upd_dev i (set_dev_in_use false)
  end.

(** ** Messages *)

Definition xpdk_msg_alloc (type : xpdk_msg_type) : MW Z :=
  let* w := get in
  let* pool := from_some NullDeref (w_pool w) in
  let '(pool, msg) := spdk_mempool_get pool in
  modify (set_w_pool (Some pool)) ;;
  if decide (msg = NULL) then ret NULL
  else
    modify (fun w => set_w_msgs
      (<[msg := Build_msg type NULL false XPDK_SUCCESS (zero_params type)]> (w_msgs w)) w) ;;
    ret msg.

(** A message that went back to the pool is no longer accessible. *)
Definition xpdk_msg_free (msg : Z) : MW unit :=
  if decide (msg = NULL) then ret tt
  else
    let* w := get in
    let* pool := from_some NullDeref (w_pool w) in
    modify (fun w => set_w_msgs (delete msg (w_msgs w))
                       (set_w_pool (Some (spdk_mempool_put pool msg)) w)).

(** [spdk_ring_enqueue(g_xpdk_ctx.msg_ring, &msg, 1, NULL)] *)
Definition ring_enqueue (msg : Z) : MW Z :=
  let* w := get in
  let* ring := from_some NullDeref (w_ring w) in
  let '(ring, count) := spdk_ring_enqueue ring msg in
  modify (set_w_ring (Some ring)) ;; ret count.

Definition xpdk_msg_send_async (msg : Z) : MW Z :=
  if decide (msg = NULL) then ret XPDK_ERROR_INVALID
  else
    let* count := ring_enqueue msg in
    if decide (count <> 1) then ret XPDK_ERROR_BUSY else ret XPDK_SUCCESS.

(** [sched_yield] is what the SPDK thread does while the caller spins; [fuel] bounds
    the number of turns. *)
Definition xpdk_msg_send_sync (sched_yield : MW unit) (fuel : nat) (msg : Z) : MW Z :=
  if decide (msg = NULL) then ret XPDK_ERROR_INVALID
  else
    let* count := ring_enqueue msg in
    if decide (count <> 1) then ret XPDK_ERROR_BUSY
    else
      while fuel (let* m := get_msg msg in ret (negb (msg_completed m))) sched_yield ;;
      let* m := get_msg msg in ret (msg_status m).
(** Allocate a message, fill it in, send it, free it: the common body of the requests
    that return the status of their message. *)
Definition send_request (sched_yield : MW unit) (fuel : nat)
    (type : xpdk_msg_type) (params : msg_params) : MW Z :=
  let* msg := xpdk_msg_alloc type in
  if decide (msg = NULL) then ret XPDK_ERROR_NOMEM
  else
    upd_msg msg (set_msg_u params) ;;
    let* rc := xpdk_msg_send_sync sched_yield fuel msg in
    xpdk_msg_free msg ;;
    ret rc.
End Core.

(** ** Well-formed tables

    The table has its 256 slots and each slot knows its own number. *)
Definition devices_wf (ds : list xpdk_device) : Prop :=
  length ds = Z.to_nat XPDK_MAX_OPEN_DEVICES /\
  (forall (i : nat) d, ds !! i = Some d -> dev_fd d = Z.of_nat i).

(** ** Lemmas on the table *)

Section Table.
Context `{Spdk}.
Implicit Types (w : world) (i j fd : Z) (n : nat).

Abbreviation devs w := (ctx_devices (w_g w)).

Lemma devices_wf_lookup ds i :
  devices_wf ds -> 0 <= i < XPDK_MAX_OPEN_DEVICES -> is_Some (ds !! Z.to_nat i).
Proof. intros [Hl _] Hi. apply lookup_lt_is_Some. rewrite Hl. lia. Qed.

Lemma devices_wf_insert ds i d :
  devices_wf ds -> 0 <= i -> dev_fd d = i -> devices_wf (<[Z.to_nat i := d]> ds).
Proof.
  intros [Hl Hfd] Hi Hd. split; [by rewrite length_insert|].
  intros k d' [(<- & <- & _)|(_ & Hk)]%list_lookup_insert_Some; [lia|by apply Hfd].
Qed.

Lemma find_free_fd_from_spec w n i :
  0 <= i -> Z.of_nat (length (devs w)) = i + Z.of_nat n ->
  (exists j d, i <= j /\ devs w !! Z.to_nat j = Some d /\ dev_in_use d = false /\
     (forall k d', i <= k < j -> devs w !! Z.to_nat k = Some d' -> dev_in_use d' = true) /\
     find_free_fd_from n i w = Ok j (w_put_dev j (set_dev_in_use true d) w)) \/
  ((forall k d', i <= k -> devs w !! Z.to_nat k = Some d' -> dev_in_use d' = true) /\
     find_free_fd_from n i w = Ok XPDK_ERROR_NOMEM w).
Proof.
  revert i. induction n as [|n IH]; intros i Hi Hlen; simpl.
  - right. split; [|done]. intros k d' Hk Hd. apply lookup_lt_Some in Hd. lia.
  - destruct (lookup_lt_is_Some_2 (devs w) (Z.to_nat i)) as [d Hd]; [lia|].
    rewrite (bind_ok _ _ _ _ _ (get_dev_eq w i d Hi Hd)).
    destruct (dev_in_use d) eqn:Hu; simpl.
    + destruct (IH (i + 1)) as [(j & d' & Hj & Hd' & Hu' & Hall & ->)|[Hall ->]]; [lia|lia|..].
      * left. exists j, d'. split_and!; try done; [lia|]. intros k e Hk He.
        destruct (decide (k = i)) as [->|]; [congruence|]. apply (Hall k); [lia|done].
      * right. split; [|done]. intros k e Hk He.
        destruct (decide (k = i)) as [->|]; [congruence|]. apply (Hall k); [lia|done].
    + left. exists i, d. split_and!; try done; [intros; lia|].
      by rewrite (bind_ok _ _ _ _ _ (upd_dev_eq w i d _ Hi Hd)).
Qed.

Lemma get_device_some w fd d :
  0 <= fd < XPDK_MAX_OPEN_DEVICES -> devs w !! Z.to_nat fd = Some d -> dev_in_use d = true ->
  xpdk_get_device fd w = Ok (Some fd) w.
Proof.
  intros Hfd Hd Hu. unfold xpdk_get_device. rewrite decide_False by lia.
  by rewrite (bind_ok _ _ _ _ _ (get_dev_eq w fd d (proj1 Hfd) Hd)), Hu.
Qed.

Lemma get_device_none w fd :
  devices_wf (devs w) ->
  (forall d, 0 <= fd -> devs w !! Z.to_nat fd = Some d -> dev_in_use d = false) ->
  xpdk_get_device fd w = Ok None w.
Proof.
  intros Hwf Hu. unfold xpdk_get_device. case_decide as Hr; [done|].
  destruct (devices_wf_lookup (devs w) fd) as [d Hd]; [done|lia|].
  rewrite (bind_ok _ _ _ _ _ (get_dev_eq w fd d ltac:(lia) Hd)), (Hu d) by (done || lia).
  done.
Qed.

(** [xpdk_find_free_fd] returns the lowest free descriptor and marks that slot and
    no other; it reports [XPDK_ERROR_NOMEM], changing nothing, exactly when all 256 slots
    are taken. *)
Theorem xpdk_find_free_fd_lowest w :
  devices_wf (devs w) ->
  (exists fd d, 0 <= fd < XPDK_MAX_OPEN_DEVICES /\
     devs w !! Z.to_nat fd = Some d /\ dev_in_use d = false /\
     (forall k d', 0 <= k < fd -> devs w !! Z.to_nat k = Some d' -> dev_in_use d' = true) /\
     xpdk_find_free_fd w = Ok fd (w_put_dev fd (set_dev_in_use true d) w)) \/
  ((forall k d', 0 <= k -> devs w !! Z.to_nat k = Some d' -> dev_in_use d' = true) /\
     xpdk_find_free_fd w = Ok XPDK_ERROR_NOMEM w).
Proof.
  intros [Hl _].
  destruct (find_free_fd_from_spec w (Z.to_nat XPDK_MAX_OPEN_DEVICES) 0)
    as [(j & d & Hj & Hd & Hu & Hall & Heq)|[Hall Heq]]; [lia|lia|left|by right].
  exists j, d. pose proof (lookup_lt_Some _ _ _ Hd). split_and!; try done; lia.
Qed.
End Table.

Lemma sim_devices_wf : devices_wf sim_devices.
Proof.
  split; [by vm_compute|]. intros i d Hd. unfold sim_devices in Hd.
  apply list_lookup_imap_Some in Hd as (d' & _ & ->). done.
Qed.

Lemma xpdk_find_free_fd_lowest_witness :
  devices_wf (ctx_devices (w_g sim_world)) /\
  exists w', xpdk_find_free_fd sim_world = Ok 0 w'.
Proof.
  split; [exact sim_devices_wf|].
  assert (match xpdk_find_free_fd sim_world with Ok fd _ => fd | _ => -1 end = 0) as Hfd
    by (vm_compute; reflexivity).
  destruct (xpdk_find_free_fd_lowest sim_world sim_devices_wf)
    as [(fd & d & _ & _ & _ & _ & Heq)|[_ Heq]]; rewrite Heq in Hfd; [subst fd; eauto|done].
Defined.

(** [xpdk_strerror] names each documented error code by its own string, and answers
    every other code, within the range of [int] less [INT_MIN], with "Unknown error"
    without reading outside its table. *)
Theorem xpdk_strerror_total error_code :
  is_int error_code -> error_code <> INT_MIN ->
  exists s, xpdk_strerror error_code = Some s /\
    (s = "Unknown error"%string <-> ~ (-6 <= error_code <= 0)) /\
    (-6 <= error_code <= 0 -> error_strings !! Z.to_nat (- error_code) = Some s).
Proof.
  intros Hi Hmin. unfold xpdk_strerror. rewrite decide_False by done.
  change (Z.of_nat (length error_strings)) with 7. case_decide as Hr.
  - eexists. split; [done|]. split; [|intros; lia]. split; [intros; lia|done].
  - destruct (lookup_lt_is_Some_2 error_strings (Z.to_nat (- error_code))) as [s Hs].
    { simpl. lia. }
    exists s. split; [done|]. split; [|done]. split; [|intros; lia].
    intros ->. assert (Z.to_nat (- error_code) < 7)%nat as Hlt by lia.
    revert Hs Hlt. generalize (Z.to_nat (- error_code)). intros k Hs Hlt.
    do 7 (destruct k as [|k]; [done|]). lia.
Qed.

Lemma xpdk_strerror_total_witness :
  exists s, xpdk_strerror XPDK_ERROR_BUSY = Some s /\ s = "Device busy"%string.
Proof.
  destruct (xpdk_strerror_total XPDK_ERROR_BUSY) as (s & Hs & _ & Ht).
  - vm_compute. split; discriminate.
  - vm_compute. discriminate.
  - exists s. split; [done|]. assert (-6 <= XPDK_ERROR_BUSY <= 0) as Hr by (vm_compute; split; discriminate).
    specialize (Ht Hr). vm_compute in Ht. congruence.
Defined.
