(* ===== verification/Blocks.v ===== *)
(** Block arithmetic: how a byte range becomes a range of blocks.  The same two lines
    are in the read, write, trim and write-zeros handlers. *)

From stdpp Require Import base list numbers.
From S2P Require Import Prelude.

Open Scope Z_scope.

(** [uint64_t offset_blocks = offset / block_size;] *)
Definition offset_blocks (offset block_size : Z) : Z := offset / block_size.

(** [uint32_t num_blocks = (count + block_size - 1) / block_size;] the sum is computed
    in 64 bits and the quotient stored in 32. *)
Definition num_blocks (count block_size : Z) : Z :=
  u32 (u64 (count + block_size - 1) / block_size).

(** [num_blocks * block_size], a product of two [uint32_t]. *)
Definition dma_size (count block_size : Z) : Z :=
  u32 (num_blocks count block_size * block_size).

(** The two quotients; a zero block size is a division by zero. *)
Definition block_range {St} (offset count block_size : Z) : M St (Z * Z) :=
  if decide (block_size = 0) then fail DivByZero
  else ret (offset_blocks offset block_size, num_blocks count block_size).

(** ** Properties *)

Section Arithmetic.
Implicit Types (count offset block_size : Z).

(** The number of blocks without any wrap-around. *)
Definition ceil_blocks count block_size : Z := (count + block_size - 1) / block_size.

Lemma ceil_blocks_bounds count block_size :
  0 < block_size ->
  count <= ceil_blocks count block_size * block_size < count + block_size.
Proof.
  intros Hbs. unfold ceil_blocks.
  pose proof (Z.div_mod (count + block_size - 1) block_size ltac:(lia)) as Hdm.
  pose proof (Z.mod_pos_bound (count + block_size - 1) block_size Hbs). nia.
Qed.

Lemma ceil_blocks_nonneg count block_size :
  0 < block_size -> 0 <= count -> 0 <= ceil_blocks count block_size.
Proof. intros. apply Z.div_pos; lia. Qed.

Lemma num_blocks_ceil count block_size :
  0 < block_size < 2 ^ 32 -> 0 <= count -> count + block_size <= 2 ^ 64 ->
  num_blocks count block_size = u32 (ceil_blocks count block_size).
Proof.
  intros Hbs Hc Ho. unfold num_blocks, u64, ceil_blocks.
  rewrite (Z.mod_small (count + block_size - 1)) by lia. done.
Qed.

Lemma num_blocks_exact count block_size :
  0 < block_size < 2 ^ 32 -> 0 <= count -> count + block_size <= 2 ^ 32 ->
  num_blocks count block_size = ceil_blocks count block_size.
Proof.
  intros Hbs Hc Ho. rewrite num_blocks_ceil by lia. unfold u32.
  pose proof (ceil_blocks_bounds count block_size ltac:(lia)).
  pose proof (ceil_blocks_nonneg count block_size ltac:(lia) Hc).
  apply Z.mod_small. nia.
Qed.

Lemma dma_size_exact count block_size :
  0 < block_size < 2 ^ 32 -> 0 <= count -> count + block_size <= 2 ^ 32 ->
  dma_size count block_size = num_blocks count block_size * block_size.
Proof.
  intros Hbs Hc Ho. unfold dma_size. rewrite num_blocks_exact by lia.
  pose proof (ceil_blocks_bounds count block_size ltac:(lia)).
  pose proof (ceil_blocks_nonneg count block_size ltac:(lia) Hc).
  apply Z.mod_small. nia.
Qed.

Lemma num_blocks_pos count block_size :
  0 < block_size < 2 ^ 32 -> 0 < count -> count + block_size <= 2 ^ 32 ->
  0 < num_blocks count block_size.
Proof.
  intros Hbs Hc Ho. rewrite num_blocks_exact by lia.
  pose proof (ceil_blocks_bounds count block_size ltac:(lia)). nia.
Qed.

Lemma num_blocks_multiple count block_size :
  0 < block_size < 2 ^ 32 -> 0 <= count -> count + block_size <= 2 ^ 32 ->
  count mod block_size = 0 -> num_blocks count block_size * block_size = count.
Proof.
  intros Hbs Hc Ho Hm. rewrite num_blocks_exact by lia.
  pose proof (ceil_blocks_bounds count block_size ltac:(lia)).
  pose proof (Z.div_mod count block_size ltac:(lia)) as Hdm. rewrite Hm in Hdm.
  set (q := ceil_blocks count block_size) in *. set (k := count / block_size) in *.
  assert (k <= q) by (apply (Z.mul_le_mono_pos_r _ _ block_size); lia).
  assert (q < k + 1) by (apply (Z.mul_lt_mono_pos_r block_size); lia).
  replace q with k by lia. lia.
Qed.

Lemma offset_blocks_aligned offset block_size :
  0 < block_size -> offset mod block_size = 0 ->
  offset_blocks offset block_size * block_size = offset.
Proof.
  intros Hbs Ha. unfold offset_blocks.
  pose proof (Z.div_mod offset block_size ltac:(lia)). lia.
Qed.

(** C35: Up to 2^32 bytes (less one block) a transfer is described by the least whole
    number of blocks that covers it, the DMA buffer has exactly that many blocks, and so
    the copy of [count] bytes stays inside it. *)
Theorem transfer_geometry count block_size :
  0 < block_size < 2 ^ 32 -> 0 <= count -> count + block_size <= 2 ^ 32 ->
  dma_size count block_size = num_blocks count block_size * block_size /\
  count <= dma_size count block_size < count + block_size /\
  (forall k, 0 <= k -> count <= k * block_size -> num_blocks count block_size <= k).
Proof.
  intros Hbs Hc Ho. rewrite dma_size_exact, num_blocks_exact by lia.
  pose proof (ceil_blocks_bounds count block_size ltac:(lia)).
  split_and!; [done|lia|lia|]. intros k Hk Hck. nia.
Qed.

(** Beyond that the 32-bit products wrap: as soon as the covering blocks reach 2^32
    bytes, the DMA buffer is smaller than the number of bytes that are copied. *)
Theorem transfer_geometry_overflow count block_size :
  0 < block_size < 2 ^ 32 -> 0 <= count -> count + block_size <= 2 ^ 64 ->
  2 ^ 32 <= ceil_blocks count block_size * block_size ->
  dma_size count block_size < count.
Proof.
  intros Hbs Hc Ho Hwrap. unfold dma_size. rewrite num_blocks_ceil by lia. unfold u32.
  rewrite Z.mul_mod_idemp_l by lia.
  pose proof (ceil_blocks_bounds count block_size ltac:(lia)).
  set (p := ceil_blocks count block_size * block_size) in *.
  pose proof (Z.div_mod p (2 ^ 32) ltac:(lia)).
  assert (1 <= p / 2 ^ 32) by (apply Z.div_le_lower_bound; lia). lia.
Qed.
End Arithmetic.

Lemma transfer_geometry_witness :
  dma_size 5000 512 = num_blocks 5000 512 * 512 /\ num_blocks 5000 512 = 10.
Proof.
  split; [|by vm_compute].
  apply (transfer_geometry 5000 512); lia.
Defined.

Lemma transfer_geometry_overflow_witness : dma_size (2 ^ 32) 512 < 2 ^ 32.
Proof.
  apply transfer_geometry_overflow; [lia|lia|lia|]. vm_compute. discriminate.
Defined.
