(* ===== verification/Perf.v ===== *)
(** src/xpdk_perf.c: the statistics of a device, and the trim and write-zeros
    requests. *)

From stdpp Require Import base gmap list strings.
From Stdlib Require Import Strings.Byte.
From S2P Require Import Prelude Types Memory Spdk World Core Blocks.

Open Scope Z_scope.

(** ** Accounting, on the values *)

(** The exponential moving average: [(avg * 7 + latency_us) / 8], or the sample itself
    for the first operation. *)
Definition ema (first : bool) (avg latency_us : Z) : Z :=
  if first then latency_us else u64 (u64 (avg * 7) + latency_us) / 8.

(** Lines 31-55 of [xpdk_perf_stats_update]: counters and averages. *)
Definition perf_record (stats : xpdk_perf_stats) (io_type : xpdk_io_type_t)
    (bytes latency_us : Z) (success : bool) : xpdk_perf_stats :=
  if success then
    match io_type with
    | XPDK_IO_READ =>
        let ops := u64 (ps_total_read_ops stats + 1) in
        set_ps_avg_read_latency_us
          (ema (bool_decide (ops = 1)) (ps_avg_read_latency_us stats) latency_us)
          (set_ps_total_bytes_read (u64 (ps_total_bytes_read stats + bytes))
             (set_ps_total_read_ops ops stats))
    | XPDK_IO_WRITE =>
        let ops := u64 (ps_total_write_ops stats + 1) in
        set_ps_avg_write_latency_us
          (ema (bool_decide (ops = 1)) (ps_avg_write_latency_us stats) latency_us)
          (set_ps_total_bytes_written (u64 (ps_total_bytes_written stats + bytes))
             (set_ps_total_write_ops ops stats))
    | _ => stats
    end
  else set_ps_errors (u64 (ps_errors stats + 1)) stats.

Definition total_ops (stats : xpdk_perf_stats) : Z :=
  u64 (ps_total_read_ops stats + ps_total_write_ops stats).

Definition total_bytes (stats : xpdk_perf_stats) : Z :=
  u64 (ps_total_bytes_read stats + ps_total_bytes_written stats).

(** [x * 1000000 / time], in [uint64_t]. *)
Definition per_second (x time : Z) : Z := u64 (x * 1000000) / time.

(** Lines 58-71: the one-second window. *)
Definition perf_window (dev : xpdk_device) (current_time : Z) : xpdk_device :=
  let time_window := u64 (current_time - dev_stats_window_start dev) in
  if decide (time_window >= 1000000) then
    let stats := dev_perf_stats dev in
    let ops := total_ops stats in
    let bytes := total_bytes stats in
    set_dev_stats_window_start current_time
      (set_dev_last_total_bytes bytes
        (set_dev_last_total_ops ops
          (set_dev_perf_stats
            (set_ps_current_bandwidth
               (per_second (u64 (bytes - dev_last_total_bytes dev)) time_window)
               (set_ps_current_iops
                  (per_second (u64 (ops - dev_last_total_ops dev)) time_window) stats))
            dev)))
  else dev.

(** Lines 127-141 of the get handler: averages over the time since the start. *)
Definition perf_overall (stats : xpdk_perf_stats) (uptime : Z) : xpdk_perf_stats :=
  if decide (uptime > 0) then
    let s1 := if decide (total_ops stats > 0)
              then set_ps_current_iops (per_second (total_ops stats) uptime) stats
              else stats in
    if decide (total_bytes s1 > 0)
    then set_ps_current_bandwidth (per_second (total_bytes s1) uptime) s1
    else s1
  else stats.

Section Perf.
Context `{Spdk}.

Definition get_time_us : MW Z :=
  let* tv := gettimeofday in
  ret (u64 (u64 (u64 (fst tv) * 1000000) + snd tv)).

Definition xpdk_perf_stats_init (dev : Z) : MW Z :=
  upd_dev dev (set_dev_perf_stats perf_stats_zero) ;;
  let* now := get_time_us in
  upd_dev dev (set_dev_stats_start_time now) ;;
  ret XPDK_SUCCESS.

Definition xpdk_perf_stats_update (dev : option Z) (io_type : xpdk_io_type_t)
    (bytes latency_us : Z) (success : bool) : MW unit :=
  match dev with
  | None => ret tt
  | Some i =>
      upd_dev i (fun d => set_dev_perf_stats
        (perf_record (dev_perf_stats d) io_type bytes latency_us success) d) ;;
      let* current_time := get_time_us in
      upd_dev i (fun d => perf_window d current_time)
  end.

(** ** Handlers *)

Definition xpdk_spdk_handle_get_perf_stats (msg : Z) : MW unit :=
  let* m := get_msg msg in
  match msg_u m with
  | PPerf fd stats =>
      let* dev := xpdk_get_device fd in
      match dev with
      | None => complete_msg msg XPDK_ERROR_INVALID
      | Some i =>
          let* current_time := get_time_us in
          upd_dev i (fun d => set_dev_perf_stats
            (perf_overall (dev_perf_stats d)
               (u64 (current_time - dev_stats_start_time d))) d) ;;
          let* d := get_dev i in
          let* w := get in
          let* _ := from_some BadAddress (w_stats w !! stats) in
          modify (fun w => set_w_stats (<[stats := dev_perf_stats d]> (w_stats w)) w) ;;
          complete_msg msg XPDK_SUCCESS
      end
  | _ => fail WrongUnionMember
  end.

Definition xpdk_spdk_handle_reset_perf_stats (msg : Z) : MW unit :=
  let* m := get_msg msg in
  match msg_u m with
  | PPerf fd _ =>
      let* dev := xpdk_get_device fd in
      match dev with
      | None => complete_msg msg XPDK_ERROR_INVALID
      | Some i =>
          upd_dev i (set_dev_perf_stats perf_stats_zero) ;;
          let* now := get_time_us in
          upd_dev i (set_dev_stats_start_time now) ;;
          upd_dev i (fun d => set_dev_stats_window_start (dev_stats_start_time d) d) ;;
          upd_dev i (set_dev_last_total_ops 0) ;;
          upd_dev i (set_dev_last_total_bytes 0) ;;
          complete_msg msg XPDK_SUCCESS
      end
  | _ => fail WrongUnionMember
  end.

(** The trim and write-zeros handlers, which differ in the request they submit. *)
Definition handle_range (kind : io_kind) (msg : Z) : MW unit :=
  let* m := get_msg msg in
  match msg_u m with
  | PTrim fd offset length =>
      let* dev := xpdk_get_device fd in
      match dev with
      | None => complete_msg msg XPDK_ERROR_INVALID
      | Some i =>
          let* d := get_dev i in
          let* block_size := bdev_block_size (dev_bdev d) in
          let* range := block_range offset length block_size in
          let* rc := bdev_submit (Build_io_req kind (dev_desc d) (dev_channel d) NULL
                                    (fst range) (snd range) NoIoCb) in
          complete_msg msg (if decide (rc = 0) then XPDK_SUCCESS else XPDK_ERROR_IO)
      end
  | _ => fail WrongUnionMember
  end.

Definition xpdk_spdk_handle_trim (msg : Z) : MW unit := handle_range IoUnmap msg.

Definition xpdk_spdk_handle_write_zeros (msg : Z) : MW unit := handle_range IoWriteZeroes msg.

(** ** The client's side *)

Variable sched_yield : MW unit.
Variable fuel : nat.

Definition xpdk_get_perf_stats (fd stats : Z) : MW Z :=
  if decide (stats = NULL) then ret XPDK_ERROR_INVALID
  else send_request sched_yield fuel XPDK_MSG_GET_PERF_STATS (PPerf fd stats).

Definition xpdk_reset_perf_stats (fd : Z) : MW Z :=
  send_request sched_yield fuel XPDK_MSG_RESET_PERF_STATS (PPerf fd NULL).

Definition xpdk_trim (fd offset length : Z) : MW Z :=
  send_request sched_yield fuel XPDK_MSG_TRIM (PTrim fd offset length).

Definition xpdk_write_zeros (fd offset length : Z) : MW Z :=
  send_request sched_yield fuel XPDK_MSG_WRITE_ZEROS (PTrim fd offset length).
End Perf.

(** ** Properties of the accounting *)

(** One finished operation, as [xpdk_perf_stats_update] is told about it. *)
Record sample := Build_sample {
  s_type : xpdk_io_type_t;
  s_bytes : Z;
  s_latency : Z;
  s_success : bool
}.

Definition perf_run (stats : xpdk_perf_stats) (l : list sample) : xpdk_perf_stats :=
  foldl (fun st s => perf_record st (s_type s) (s_bytes s) (s_latency s) (s_success s)) stats l.

Definition is_op (t : xpdk_io_type_t) (s : sample) : bool :=
  s_success s && bool_decide (s_type s = t).

Definition count_ops (t : xpdk_io_type_t) (l : list sample) : Z :=
  Z.of_nat (length (filter (fun s => is_op t s = true) l)).

Definition sum_bytes (t : xpdk_io_type_t) (l : list sample) : Z :=
  foldr (fun s acc => (if is_op t s then s_bytes s else 0) + acc) 0 l.

Definition count_errors (l : list sample) : Z :=
  Z.of_nat (length (filter (fun s => s_success s = false) l)).

Definition avg_latency (t : xpdk_io_type_t) (st : xpdk_perf_stats) : Z :=
  match t with
  | XPDK_IO_READ => ps_avg_read_latency_us st
  | _ => ps_avg_write_latency_us st
  end.

Section Accounting.
Implicit Types (l : list sample) (st : xpdk_perf_stats).

Lemma u64_add_mod x y : u64 (u64 x + y) = u64 (x + y).
Proof. unfold u64. by rewrite Z.add_mod_idemp_l by lia. Qed.

Lemma ema_bounds lo hi avg lat :
  0 <= lo -> hi * 8 < 2 ^ 64 -> lo <= avg <= hi -> lo <= lat <= hi ->
  lo <= ema false avg lat <= hi.
Proof.
  intros Hlo Hhi Ha Hl. unfold ema, u64.
  rewrite (Z.mod_small (avg * 7)), (Z.mod_small (avg * 7 + lat)) by lia.
  split; [apply Z.div_le_lower_bound; lia|apply Z.div_le_upper_bound; lia].
Qed.

Lemma count_ops_snoc t l s :
  count_ops t (l ++ [s]) = count_ops t l + (if is_op t s then 1 else 0).
Proof.
  unfold count_ops. rewrite filter_app, length_app, Nat2Z.inj_add, filter_cons, filter_nil.
  by destruct (is_op t s).
Qed.

Lemma sum_bytes_snoc t l s :
  sum_bytes t (l ++ [s]) = sum_bytes t l + (if is_op t s then s_bytes s else 0).
Proof. unfold sum_bytes. induction l as [|x l IH]; simpl; [lia|]. rewrite IH. lia. Qed.

Lemma count_errors_snoc l s :
  count_errors (l ++ [s]) = count_errors l + (if s_success s then 0 else 1).
Proof.
  unfold count_errors. rewrite filter_app, length_app, Nat2Z.inj_add, filter_cons, filter_nil.
  by destruct (s_success s).
Qed.

Lemma perf_run_snoc st l s :
  perf_run st (l ++ [s]) =
    perf_record (perf_run st l) (s_type s) (s_bytes s) (s_latency s) (s_success s).
Proof. unfold perf_run. by rewrite foldl_app. Qed.

Lemma perf_run_counters l :
  ps_total_read_ops (perf_run perf_stats_zero l) = u64 (count_ops XPDK_IO_READ l) /\
  ps_total_write_ops (perf_run perf_stats_zero l) = u64 (count_ops XPDK_IO_WRITE l) /\
  ps_total_bytes_read (perf_run perf_stats_zero l) = u64 (sum_bytes XPDK_IO_READ l) /\
  ps_total_bytes_written (perf_run perf_stats_zero l) = u64 (sum_bytes XPDK_IO_WRITE l) /\
  ps_errors (perf_run perf_stats_zero l) = u64 (count_errors l).
Proof.
  induction l as [|[t b lat ok] l IH] using rev_ind; [done|].
  destruct IH as (IH1 & IH2 & IH3 & IH4 & IH5).
  rewrite perf_run_snoc, !count_ops_snoc, !sum_bytes_snoc, count_errors_snoc.
  unfold perf_record, is_op. simpl.
  destruct ok; [destruct t|]; simpl;
    rewrite ?IH1, ?IH2, ?IH3, ?IH4, ?IH5, ?u64_add_mod, ?Z.add_0_r; done.
Qed.

Lemma u64_small x : 0 <= x < 2 ^ 64 -> u64 x = x.
Proof. apply Z.mod_small. Qed.

Lemma perf_run_average t lo hi l :
  t = XPDK_IO_READ \/ t = XPDK_IO_WRITE ->
  0 <= lo -> hi * 8 < 2 ^ 64 -> count_ops t l < 2 ^ 64 ->
  Forall (fun s => is_op t s = true -> lo <= s_latency s <= hi) l ->
  0 < count_ops t l ->
  lo <= avg_latency t (perf_run perf_stats_zero l) <= hi.
Proof.
  intros Ht Hlo Hhi. induction l as [|[t' b lat ok] l IH] using rev_ind; [done|].
  rewrite perf_run_snoc, count_ops_snoc, Forall_app, Forall_singleton.
  intros Hc [Hl Hs] Hpos.
  destruct (perf_run_counters l) as (Hr & Hw & _).
  assert (0 <= count_ops t l) by (unfold count_ops; lia).
  unfold perf_record, is_op in *. simpl in *.
  destruct ok; simpl in *; [|apply IH; (done || lia)].
  destruct Ht as [-> | ->]; destruct t'; simpl in *; try (apply IH; (done || lia));
    rewrite ?Hr, ?Hw, u64_add_mod, u64_small by lia; case_bool_decide as Hone; simpl;
    try (by apply Hs); (apply ema_bounds; [done|done|apply IH; (done || lia)|by apply Hs]).
Qed.

(** Starting from zeroed statistics, the counters are at any moment the numbers of
    successful reads and writes, their bytes and the number of failures (modulo 2^64),
    whatever the interleaving of operations. *)
Theorem perf_counters_exact l :
  ps_total_read_ops (perf_run perf_stats_zero l) = u64 (count_ops XPDK_IO_READ l) /\
  ps_total_write_ops (perf_run perf_stats_zero l) = u64 (count_ops XPDK_IO_WRITE l) /\
  ps_total_bytes_read (perf_run perf_stats_zero l) = u64 (sum_bytes XPDK_IO_READ l) /\
  ps_total_bytes_written (perf_run perf_stats_zero l) = u64 (sum_bytes XPDK_IO_WRITE l) /\
  ps_errors (perf_run perf_stats_zero l) = u64 (count_errors l).
Proof. apply perf_run_counters. Qed.

(** C34: As long as nothing wraps, the exponential moving average of the read (or write)
    latencies never leaves the interval spanned by the latencies that were reported. *)
Theorem perf_average_within_samples t lo hi l :
  t = XPDK_IO_READ \/ t = XPDK_IO_WRITE ->
  0 <= lo -> hi * 8 < 2 ^ 64 -> count_ops t l < 2 ^ 64 ->
  Forall (fun s => is_op t s = true -> lo <= s_latency s <= hi) l ->
  0 < count_ops t l ->
  lo <= avg_latency t (perf_run perf_stats_zero l) <= hi.
Proof. apply perf_run_average. Qed.

(** When a window of at least a second closes, the reported rates are the operations
    and bytes since the last window divided by its length, the baselines become the
    current totals and a new window starts; within the window nothing changes. *)
Theorem perf_window_rates d now :
  is_u64 now -> 0 <= dev_stats_window_start d <= now ->
  0 <= dev_last_total_ops d <= total_ops (dev_perf_stats d) ->
  0 <= dev_last_total_bytes d <= total_bytes (dev_perf_stats d) ->
  total_bytes (dev_perf_stats d) * 1000000 < 2 ^ 64 ->
  total_ops (dev_perf_stats d) * 1000000 < 2 ^ 64 ->
  let elapsed := now - dev_stats_window_start d in
  let ops := total_ops (dev_perf_stats d) - dev_last_total_ops d in
  let bytes := total_bytes (dev_perf_stats d) - dev_last_total_bytes d in
  if decide (elapsed < 1000000) then perf_window d now = d
  else
    ps_current_iops (dev_perf_stats (perf_window d now)) = ops * 1000000 / elapsed /\
    ps_current_bandwidth (dev_perf_stats (perf_window d now)) = bytes * 1000000 / elapsed /\
    dev_last_total_ops (perf_window d now) = total_ops (dev_perf_stats d) /\
    dev_last_total_bytes (perf_window d now) = total_bytes (dev_perf_stats d) /\
    dev_stats_window_start (perf_window d now) = now.
Proof.
  unfold is_u64. intros Hnow Hws Ho Hb Hbm Hom. cbv zeta. unfold perf_window.
  rewrite (u64_small (now - _)) by lia. case_decide.
  - by rewrite decide_False by lia.
  - rewrite decide_True by lia. simpl. unfold per_second.
    rewrite (u64_small (total_ops _ - _)), (u64_small (total_bytes _ - _)) by lia.
    rewrite !u64_small by lia. done.
Qed.
End Accounting.

Lemma perf_average_within_samples_witness :
  let l := [Build_sample XPDK_IO_READ 512 100 true; Build_sample XPDK_IO_WRITE 512 7 true;
            Build_sample XPDK_IO_READ 512 200 true] in
  100 <= avg_latency XPDK_IO_READ (perf_run perf_stats_zero l) <= 200.
Proof.
  apply perf_average_within_samples; [by left|lia|lia|by vm_compute| |by vm_compute].
  repeat constructor; vm_compute; try discriminate; intros _; split; discriminate.
Defined.

Lemma perf_window_rates_witness :
  let d := set_dev_perf_stats (set_ps_total_bytes_read 8192 (set_ps_total_read_ops 2
             perf_stats_zero)) device_zero in
  ps_current_iops (dev_perf_stats (perf_window d 2000000)) = 1.
Proof.
  intros d. pose proof (perf_window_rates d 2000000) as Hw.
  destruct Hw as [Hi _]; [vm_compute; split; [discriminate|reflexivity] |
    vm_compute; split; discriminate | vm_compute; split; discriminate |
    vm_compute; split; discriminate | vm_compute; reflexivity | vm_compute; reflexivity |].
  rewrite Hi. vm_compute. reflexivity.
Defined.
