(* ===== verification/Bdev.v ===== *)
(** src/xpdk_bdev.c: listing, opening, closing and describing block devices. *)

From stdpp Require Import base gmap list strings.
From Stdlib Require Import Strings.Byte.
From S2P Require Import Prelude Types Memory Spdk World Core Perf.

Open Scope Z_scope.

Section Bdev.
Context `{Spdk}.

(** [&devices[i]]: an element of an array of [struct xpdk_bdev_info]. *)
Definition put_info (devices i : Z) (info : xpdk_bdev_info) : MW unit :=
  let* w := get in
  let* l := from_some BadAddress (w_infos w !! devices) in
  if decide (0 <= i < Z.of_nat (length l))
  then modify (fun w => set_w_infos (<[devices := <[Z.to_nat i := info]> l]> (w_infos w)) w)
  else fail IndexOutOfBounds.

(** The properties of a device as [bdev_list_iter] and the get-info handler copy them:
    the name is cut to what fits in 256 bytes with its terminator. *)
Definition bdev_info (bd : Z) : xpdk_bdev_info :=
  let block_size := spdk_bdev_get_block_size bd in
  let num_blocks := spdk_bdev_get_num_blocks bd in
  Build_bdev_info (String.substring 0 255 (spdk_bdev_get_name bd))
    block_size num_blocks (u64 (block_size * num_blocks)).

(** One call of the iteration; the result is the new [list_ctx->count]. *)
Definition bdev_list_iter (devices max_devices count bd : Z) : MW Z :=
  if decide (count >= max_devices) then ret count
  else put_info devices count (bdev_info bd) ;; ret (count + 1).

Fixpoint bdev_list_loop (devices max_devices count : Z) (bds : list Z) : MW Z :=
  match bds with
  | [] => ret count
  | bd :: bds =>
      let* count := bdev_list_iter devices max_devices count bd in
      bdev_list_loop devices max_devices count bds
  end.

Definition xpdk_spdk_handle_list_bdevs (msg : Z) : MW unit :=
  let* m := get_msg msg in
  match msg_u m with
  | PList devices max_devices _ =>
      let* w := get in
      let* count := bdev_list_loop devices max_devices 0 (spdk_for_each_bdev (w_bdev w)) in
      upd_msg msg (set_msg_u (PList devices max_devices count)) ;;
      complete_msg msg XPDK_SUCCESS
  | _ => fail WrongUnionMember
  end.

(** The completion of an open, run from a poll of the SPDK thread. *)
Definition bdev_open_complete (desc status msg : Z) : MW unit :=
  if decide (status <> 0) then complete_msg msg XPDK_ERROR_IO
  else
    let* m := get_msg msg in
    match msg_u m with
    | POpen _ _ result_fd =>
        upd_dev result_fd (set_dev_desc desc) ;;
        let* w := get in
        let '(b, ch) := spdk_bdev_get_io_channel (w_bdev w) desc in
        set_bdev b ;;
        upd_dev result_fd (set_dev_channel ch) ;;
        if decide (ch = NULL) then
          let* w := get in
          set_bdev (spdk_bdev_close (w_bdev w) desc) ;;
          upd_dev result_fd (set_dev_desc NULL) ;;
          complete_msg msg XPDK_ERROR_IO
        else
          let* _ := xpdk_perf_stats_init result_fd in
          complete_msg msg XPDK_SUCCESS
    | _ => fail WrongUnionMember
    end.

(** [(flags & O_RDWR) || (flags & O_WRONLY)] *)
Definition write_access (flags : Z) : bool :=
  bool_decide (Z.land flags O_RDWR <> 0 \/ Z.land flags O_WRONLY <> 0).

Definition xpdk_spdk_handle_open (msg : Z) : MW unit :=
  let* m := get_msg msg in
  match msg_u m with
  | POpen bdev_name flags _ =>
      let* w := get in
      let bdev := spdk_bdev_get_by_name (w_bdev w) bdev_name in
      if decide (bdev = NULL) then complete_msg msg XPDK_ERROR_NODEV
      else
        let* fd := xpdk_find_free_fd in
        if decide (fd < 0) then complete_msg msg fd
        else
          upd_dev fd (fun d => set_dev_flags flags (set_dev_bdev bdev d)) ;;
          upd_msg msg (set_msg_u (POpen bdev_name flags fd)) ;;
          let* w := get in
          let '(b, rc) := spdk_bdev_open_ext (w_bdev w) bdev_name (write_access flags) msg in
          set_bdev b ;;
          if decide (rc <> 0) then
            xpdk_put_device (Some fd) ;;
            complete_msg msg XPDK_ERROR_IO
          else ret tt
  | _ => fail WrongUnionMember
  end.

Definition xpdk_spdk_handle_close (msg : Z) : MW unit :=
  let* m := get_msg msg in
  match msg_u m with
  | PClose fd =>
      let* dev := xpdk_get_device fd in
      match dev with
      | None => complete_msg msg XPDK_ERROR_INVALID
      | Some i =>
          let* d := get_dev i in
          when (bool_decide (dev_channel d <> NULL))
            (let* w := get in
             set_bdev (spdk_put_io_channel (w_bdev w) (dev_channel d)) ;;
             upd_dev i (set_dev_channel NULL)) ;;
          when (bool_decide (dev_desc d <> NULL))
            (let* w := get in
             set_bdev (spdk_bdev_close (w_bdev w) (dev_desc d)) ;;
             upd_dev i (set_dev_desc NULL)) ;;
          upd_dev i (set_dev_bdev NULL) ;;
          upd_dev i (set_dev_flags 0) ;;
          xpdk_put_device (Some i) ;;
          complete_msg msg XPDK_SUCCESS
      end
  | _ => fail WrongUnionMember
  end.

Definition xpdk_spdk_handle_get_info (msg : Z) : MW unit :=
  let* m := get_msg msg in
  match msg_u m with
  | PGetInfo fd info =>
      let* dev := xpdk_get_device fd in
      match dev with
      | None => complete_msg msg XPDK_ERROR_INVALID
      | Some i =>
          let* d := get_dev i in
          if decide (dev_bdev d = NULL) then complete_msg msg XPDK_ERROR_INVALID
          else
            put_info info 0 (bdev_info (dev_bdev d)) ;;
            complete_msg msg XPDK_SUCCESS
      end
  | _ => fail WrongUnionMember
  end.

(** ** The client's side *)

Variable sched_yield : MW unit.
Variable fuel : nat.

Definition is_initialized : MW bool := gets (fun w => ctx_initialized (w_g w)).

Definition xpdk_list_bdevs (devices max_devices : Z) : MW Z :=
  let* initialized := is_initialized in
  if negb initialized then ret XPDK_ERROR_INVALID
  else if decide (devices = NULL \/ max_devices <= 0) then ret XPDK_ERROR_INVALID
  else
    let* msg := xpdk_msg_alloc XPDK_MSG_LIST_BDEVS in
    if decide (msg = NULL) then ret XPDK_ERROR_NOMEM
    else
      upd_msg msg (set_msg_u (PList devices max_devices 0)) ;;
      let* rc := xpdk_msg_send_sync sched_yield fuel msg in
      let* m := get_msg msg in
      let* rc :=
        if decide (rc = XPDK_SUCCESS) then
          match msg_u m with
          | PList _ _ count => ret count
          | _ => fail WrongUnionMember
          end
        else ret rc in
      xpdk_msg_free msg ;;
      ret rc.

Definition xpdk_open (bdev_name : option string) (flags : Z) : MW Z :=
  let* initialized := is_initialized in
  if negb initialized then ret XPDK_ERROR_INVALID
  else
    match bdev_name with
    | None => ret XPDK_ERROR_INVALID
    | Some name =>
        let* msg := xpdk_msg_alloc XPDK_MSG_OPEN in
        if decide (msg = NULL) then ret XPDK_ERROR_NOMEM
        else
          upd_msg msg (set_msg_u (POpen name flags 0)) ;;
          let* rc := xpdk_msg_send_sync sched_yield fuel msg in
          let* m := get_msg msg in
          let* fd :=
            if decide (rc = XPDK_SUCCESS) then
              match msg_u m with
              | POpen _ _ result_fd => ret result_fd
              | _ => fail WrongUnionMember
              end
            else ret rc in
          xpdk_msg_free msg ;;
          ret fd
    end.

Definition xpdk_close (fd : Z) : MW Z :=
  let* initialized := is_initialized in
  if negb initialized then ret XPDK_ERROR_INVALID
  else send_request sched_yield fuel XPDK_MSG_CLOSE (PClose fd).

Definition xpdk_get_info (fd info : Z) : MW Z :=
  let* initialized := is_initialized in
  if negb initialized then ret XPDK_ERROR_INVALID
  else if decide (info = NULL) then ret XPDK_ERROR_INVALID
  else send_request sched_yield fuel XPDK_MSG_GET_INFO (PGetInfo fd info).
End Bdev.
