(* ===== verification/Qos.v ===== *)
(** src/xpdk_qos.c: rate limits. *)

From stdpp Require Import base gmap list strings.
From Stdlib Require Import Strings.Byte.
From S2P Require Import Prelude Types Memory Spdk World Core.

Open Scope Z_scope.

Definition qos_rate_limit_names : list string := ["rw_iops"; "rw_bps"; "r_bps"; "w_bps"]%string.

(** The enumeration has no negative value and its type is unsigned. *)
Definition xpdk_qos_get_rate_limit_name (type : Z) : option string :=
  if decide (u32 type >= XPDK_QOS_NUM_RATE_LIMIT_TYPES) then Some "unknown"%string
  else qos_rate_limit_names !! Z.to_nat (u32 type).

Section Qos.
Context `{Spdk}.

(** The [XPDK_QOS_NUM_RATE_LIMIT_TYPES] elements of a limits array. *)
Definition get_limits (p : Z) : MW (list Z) :=
  let* w := get in
  let* l := from_some BadAddress (w_limits w !! p) in
  if decide (Z.of_nat (length l) < XPDK_QOS_NUM_RATE_LIMIT_TYPES) then fail IndexOutOfBounds
  else ret (take (Z.to_nat XPDK_QOS_NUM_RATE_LIMIT_TYPES) l).

Definition put_limits (p : Z) (limits : list Z) : MW unit :=
  let* w := get in
  let* l := from_some BadAddress (w_limits w !! p) in
  if decide (Z.of_nat (length l) < XPDK_QOS_NUM_RATE_LIMIT_TYPES) then fail IndexOutOfBounds
  else modify (fun w => set_w_limits
         (<[p := limits ++ drop (Z.to_nat XPDK_QOS_NUM_RATE_LIMIT_TYPES) l]> (w_limits w)) w).

Definition xpdk_qos_set_limits_complete (msg status : Z) : MW unit :=
  complete_msg msg (if decide (status = 0) then XPDK_SUCCESS else XPDK_ERROR_QOS).

Definition xpdk_spdk_handle_qos_set_limits (msg : Z) : MW unit :=
  let* m := get_msg msg in
  match msg_u m with
  | PQos fd limits =>
      let* dev := xpdk_get_device fd in
      match dev with
      | None => complete_msg msg XPDK_ERROR_INVALID
      | Some i =>
          let* d := get_dev i in
          let* l := get_limits limits in
          let* w := get in
          set_bdev (spdk_bdev_set_qos_rate_limits (w_bdev w) (dev_bdev d) l msg)
      end
  | _ => fail WrongUnionMember
  end.

Definition xpdk_spdk_handle_qos_get_limits (msg : Z) : MW unit :=
  let* m := get_msg msg in
  match msg_u m with
  | PQos fd limits =>
      let* dev := xpdk_get_device fd in
      match dev with
      | None => complete_msg msg XPDK_ERROR_INVALID
      | Some i =>
          let* d := get_dev i in
          let* w := get in
          put_limits limits (spdk_bdev_get_qos_rate_limits (w_bdev w) (dev_bdev d)) ;;
          complete_msg msg XPDK_SUCCESS
      end
  | _ => fail WrongUnionMember
  end.

(** ** The client's side *)

Variable sched_yield : MW unit.
Variable fuel : nat.

Definition xpdk_qos_set_rate_limits (fd limits : Z) : MW Z :=
  if decide (limits = NULL) then ret XPDK_ERROR_INVALID
  else send_request sched_yield fuel XPDK_MSG_QOS_SET_LIMITS (PQos fd limits).

Definition xpdk_qos_get_rate_limits (fd limits : Z) : MW Z :=
  if decide (limits = NULL) then ret XPDK_ERROR_INVALID
  else send_request sched_yield fuel XPDK_MSG_QOS_GET_LIMITS (PQos fd limits).

(** An array of limits on the caller's stack: it lives at an address that is not in
    use and is gone when the caller returns. *)
Definition with_stack_limits (limits : list Z) (k : Z -> MW Z) : MW Z :=
  let* w := get in
  let p := fresh ({[NULL]} ∪ dom (w_limits w)) in
  modify (fun w => set_w_limits (<[p := limits]> (w_limits w)) w) ;;
  let* rc := k p in
  modify (fun w => set_w_limits (delete p (w_limits w)) w) ;;
  ret rc.

Definition xpdk_qos_enable_simple (fd rw_iops_limit rw_bps_limit : Z) : MW Z :=
  let limits := replicate (Z.to_nat XPDK_QOS_NUM_RATE_LIMIT_TYPES) 0 in
  let limits := <[Z.to_nat XPDK_QOS_RW_IOPS_RATE_LIMIT := rw_iops_limit]> limits in
  let limits := <[Z.to_nat XPDK_QOS_RW_BPS_RATE_LIMIT := rw_bps_limit]> limits in
  with_stack_limits limits (xpdk_qos_set_rate_limits fd).

Definition xpdk_qos_disable (fd : Z) : MW Z :=
  with_stack_limits (replicate (Z.to_nat XPDK_QOS_NUM_RATE_LIMIT_TYPES) 0)
    (xpdk_qos_set_rate_limits fd).
End Qos.
