(* ===== verification/Io.v ===== *)
(** src/xpdk_io.c: the read, write and flush handlers of the SPDK thread with their
    completion callbacks, and the synchronous operations of the client. *)

From stdpp Require Import base gmap list strings.
From Stdlib Require Import Strings.Byte.
From S2P Require Import Prelude Types Memory Spdk World Core Blocks Bdev.

Open Scope Z_scope.

Section Io.
Context `{Spdk}.

(** ** Completion callbacks *)

Definition get_sctx (ctx : Z) : MW sync_io_ctx :=
  let* w := get in from_some BadAddress (w_sctx w !! ctx).

Definition put_sctx (ctx : Z) (c : sync_io_ctx) : MW unit :=
  modify (fun w => set_w_sctx (<[ctx := c]> (w_sctx w)) w).

(** The frame is gone when the handler returns. *)
Definition pop_sctx (ctx : Z) : MW unit :=
  modify (fun w => set_w_sctx (delete ctx (w_sctx w)) w).

(** [msg->io.bytes_transferred = n] *)
Definition set_bytes_transferred (n : Z) (u : msg_params) : msg_params :=
  match u with
  | PIo fd buffer count offset _ cb uctx => PIo fd buffer count offset n cb uctx
  | _ => u
  end.

Definition sync_io_completion_cb (success : bool) (ctx : Z) : MW unit :=
  let* c := get_sctx ctx in
  let status := if success then XPDK_SUCCESS else XPDK_ERROR_IO in
  put_sctx ctx (Build_sync_io_ctx (sc_msg c) true status (sc_bytes_transferred c)) ;;
  upd_msg (sc_msg c) (fun m =>
    set_msg_completed true
      (set_msg_u (set_bytes_transferred (if success then sc_bytes_transferred c else 0)
                    (msg_u m))
        (set_msg_status status m))).

(** [invoke] runs the callback a message carries. *)
Variable invoke : xpdk_io_callback_t -> Z -> Z -> MW unit.

Definition async_io_completion_cb (success : bool) (msg : Z) : MW unit :=
  let* m := get_msg msg in
  match msg_u m with
  | PIo _ _ _ _ _ cb user_ctx =>
      let status := if success then XPDK_SUCCESS else XPDK_ERROR_IO in
      match cb with
      | Some f => invoke f user_ctx status
      | None => ret tt
      end ;;
      let* m := get_msg msg in
      when (bool_decide (msg_ctx m <> NULL)) (spdk_dma_free (msg_ctx m)) ;;
      xpdk_msg_free msg
  | _ => fail WrongUnionMember
  end.

(** ** Handlers *)

(** [spdk_thread_poll(g_xpdk_ctx.spdk_thread, 0, 0)], called while a handler waits. *)
Variable thread_poll : MW unit.
Variable fuel : nat.

(** [while (!ctx.completed) spdk_thread_poll(...);] *)
Definition wait_io (ctx : Z) : MW unit :=
  while fuel (let* c := get_sctx ctx in ret (negb (sc_completed c))) thread_poll.

(** [dev == NULL || dev->bdev == NULL || dev->desc == NULL || dev->channel == NULL]:
    the device when the test fails. *)
Definition get_io_device (fd : Z) : MW (option xpdk_device) :=
  let* dev := xpdk_get_device fd in
  match dev with
  | None => ret None
  | Some i =>
      let* d := get_dev i in
      if decide (dev_bdev d = NULL \/ dev_desc d = NULL \/ dev_channel d = NULL)
      then ret None else ret (Some d)
  end.

(** The callback and its argument for a read or a write. *)
Definition completion_of (cb : option xpdk_io_callback_t) (msg : Z) : io_cb :=
  match cb with
  | Some _ => AsyncIoCb msg
  | None => SyncIoCb msg
  end.

Definition xpdk_spdk_handle_read (msg : Z) : MW unit :=
  let* m := get_msg msg in
  match msg_u m with
  | PIo fd user_buffer count offset _ callback _ =>
      let* dev := get_io_device fd in
      match dev with
      | None => complete_msg msg XPDK_ERROR_INVALID
      | Some d =>
          if decide (Z.land (dev_flags d) O_WRONLY <> 0)
          then complete_msg msg XPDK_ERROR_INVALID
          else
            let block_size := spdk_bdev_get_block_size (dev_bdev d) in
            let* range := block_range offset count block_size in
            let need_aligned_buffer :=
              bool_decide (user_buffer mod block_size <> 0 \/ count mod block_size <> 0) in
            let* aligned :=
              if need_aligned_buffer then
                let* b := spdk_dma_malloc (u32 (snd range * block_size)) block_size in
                if decide (b = NULL) then ret None
                else upd_msg msg (set_msg_ctx b) ;; ret (Some b)
              else ret (Some user_buffer) in
            match aligned with
            | None => complete_msg msg XPDK_ERROR_NOMEM
            | Some buffer =>
              put_sctx msg (Build_sync_io_ctx msg false XPDK_SUCCESS count) ;;
              let* rc := bdev_submit
                (Build_io_req IoRead (dev_desc d) (dev_channel d) buffer
                   (fst range) (snd range) (completion_of callback msg)) in
              (if decide (rc <> 0) then
                 when need_aligned_buffer (spdk_dma_free buffer) ;;
                 complete_msg msg XPDK_ERROR_IO
               else
                 match callback with
                 | None =>
                     wait_io msg ;;
                     let* c := get_sctx msg in
                     when (need_aligned_buffer && bool_decide (sc_status c = XPDK_SUCCESS))
                       (memcpy user_buffer buffer count ;;
                        spdk_dma_free buffer)
                 | Some _ => ret tt
                 end) ;;
              pop_sctx msg
            end
      end
  | _ => fail WrongUnionMember
  end.

Definition xpdk_spdk_handle_write (msg : Z) : MW unit :=
  let* m := get_msg msg in
  match msg_u m with
  | PIo fd user_buffer count offset _ callback _ =>
      let* dev := get_io_device fd in
      match dev with
      | None => complete_msg msg XPDK_ERROR_INVALID
      | Some d =>
          if decide (Z.land (dev_flags d) O_RDONLY <> 0)
          then complete_msg msg XPDK_ERROR_INVALID
          else
            let block_size := spdk_bdev_get_block_size (dev_bdev d) in
            let* range := block_range offset count block_size in
            let* buffer := spdk_dma_malloc (u32 (snd range * block_size)) block_size in
            if decide (buffer = NULL) then complete_msg msg XPDK_ERROR_NOMEM
            else
              memset0 buffer (u32 (snd range * block_size)) ;;
              memcpy buffer user_buffer count ;;
              upd_msg msg (set_msg_ctx buffer) ;;
              put_sctx msg (Build_sync_io_ctx msg false XPDK_SUCCESS count) ;;
              let* rc := bdev_submit
                (Build_io_req IoWrite (dev_desc d) (dev_channel d) buffer
                   (fst range) (snd range) (completion_of callback msg)) in
              (if decide (rc <> 0) then
                 spdk_dma_free buffer ;;
                 complete_msg msg XPDK_ERROR_IO
               else
                 match callback with
                 | None => wait_io msg ;; spdk_dma_free buffer
                 | Some _ => ret tt
                 end) ;;
              pop_sctx msg
      end
  | _ => fail WrongUnionMember
  end.

Definition xpdk_spdk_handle_flush (msg : Z) : MW unit :=
  let* m := get_msg msg in
  match msg_u m with
  | PIo fd _ _ _ _ _ _ =>
      let* dev := get_io_device fd in
      match dev with
      | None => complete_msg msg XPDK_ERROR_INVALID
      | Some d =>
          put_sctx msg (Build_sync_io_ctx msg false XPDK_SUCCESS 0) ;;
          let* rc := bdev_submit
            (Build_io_req IoFlush (dev_desc d) (dev_channel d) NULL 0
               (spdk_bdev_get_num_blocks (dev_bdev d)) (SyncIoCb msg)) in
          (if decide (rc <> 0) then complete_msg msg XPDK_ERROR_IO else wait_io msg) ;;
          pop_sctx msg
      end
  | _ => fail WrongUnionMember
  end.
End Io.

(** ** The client's side *)

Section IoClient.
Context `{Spdk}.
Variable sched_yield : MW unit.
Variable fuel : nat.

(** [(rc == XPDK_SUCCESS) ? (ssize_t)msg->io.bytes_transferred : rc] *)
Definition io_result (rc : Z) (m : xpdk_msg) : MW Z :=
  if decide (rc = XPDK_SUCCESS) then
    match msg_u m with
    | PIo _ _ _ _ n _ _ => ret n
    | _ => fail WrongUnionMember
    end
  else ret rc.

(** The common text of [xpdk_read] and [xpdk_write]. *)
Definition sync_io (type : xpdk_msg_type) (fd buffer count offset : Z) : MW Z :=
  let* initialized := is_initialized in
  if negb initialized then ret XPDK_ERROR_INVALID
  else if decide (buffer = NULL \/ count = 0) then ret XPDK_ERROR_INVALID
  else
    let* msg := xpdk_msg_alloc type in
    if decide (msg = NULL) then ret XPDK_ERROR_NOMEM
    else
      upd_msg msg (set_msg_u (PIo fd buffer count offset 0 None NULL)) ;;
      let* rc := xpdk_msg_send_sync sched_yield fuel msg in
      let* m := get_msg msg in
      let* result := io_result rc m in
      xpdk_msg_free msg ;;
      ret result.

Definition xpdk_read (fd buffer count offset : Z) : MW Z :=
  sync_io XPDK_MSG_READ fd buffer count offset.

Definition xpdk_write (fd buffer count offset : Z) : MW Z :=
  sync_io XPDK_MSG_WRITE fd buffer count offset.

Definition xpdk_flush (fd : Z) : MW Z :=
  let* initialized := is_initialized in
  if negb initialized then ret XPDK_ERROR_INVALID
  else send_request sched_yield fuel XPDK_MSG_FLUSH (PIo fd NULL 0 0 0 None NULL).
End IoClient.
