(* ===== verification/Async.v ===== *)
(** src/xpdk_async.c: asynchronous reads and writes, and polling. *)

From stdpp Require Import base gmap list strings.
From Stdlib Require Import Strings.Byte.
From S2P Require Import Prelude Types Memory Spdk World Core Bdev.

Open Scope Z_scope.

Section Async.
Context `{Spdk}.

(** The common text of [xpdk_read_async] and [xpdk_write_async]. *)
Definition async_io (type : xpdk_msg_type) (fd buffer count offset : Z)
    (callback : option xpdk_io_callback_t) (ctx : Z) : MW Z :=
  let* initialized := is_initialized in
  if negb initialized then ret XPDK_ERROR_INVALID
  else if decide (buffer = NULL \/ count = 0 \/ callback = None) then ret XPDK_ERROR_INVALID
  else
    let* msg := xpdk_msg_alloc type in
    if decide (msg = NULL) then ret XPDK_ERROR_NOMEM
    else
      upd_msg msg (set_msg_u (PIo fd buffer count offset 0 callback ctx)) ;;
      let* rc := xpdk_msg_send_async msg in
      if decide (rc <> XPDK_SUCCESS) then xpdk_msg_free msg ;; ret rc
      else ret XPDK_SUCCESS.

Definition xpdk_read_async (fd buffer count offset : Z)
    (callback : option xpdk_io_callback_t) (ctx : Z) : MW Z :=
  async_io XPDK_MSG_READ fd buffer count offset callback ctx.

Definition xpdk_write_async (fd buffer count offset : Z)
    (callback : option xpdk_io_callback_t) (ctx : Z) : MW Z :=
  async_io XPDK_MSG_WRITE fd buffer count offset callback ctx.

(** [spdk_thread_poll] with a bound on the messages it handles. *)
Variable thread_poll : Z -> MW Z.

Definition xpdk_poll (max_completions : Z) : MW Z :=
  let* initialized := is_initialized in
  if negb initialized then ret XPDK_ERROR_INVALID
  else thread_poll (if decide (max_completions <= 0) then 1 else max_completions).
End Async.
