(* ===== verification/Vectored.v ===== *)
(** src/xpdk_vectored.c: scatter/gather operations through a linear buffer. *)

From stdpp Require Import base gmap list strings.
From Stdlib Require Import Strings.Byte.
From S2P Require Import Prelude Types Memory Spdk World Core Bdev Io Async.

Open Scope Z_scope.

(** [calculate_iovec_size] on the elements of the array: a sum in [size_t]. *)
Fixpoint iovec_size (total : Z) (iov : list xpdk_iovec) : Z :=
  match iov with
  | [] => total
  | v :: iov => iovec_size (u64 (total + iov_len v)) iov
  end.

Section Vectored.
Context `{Spdk}.

(** ** Buffers *)

Definition xpdk_alloc_buffer (size alignment : Z) : MW Z :=
  if decide (size = 0) then ret NULL
  else spdk_dma_malloc size (if decide (alignment = 0) then 4096 else alignment).

Definition xpdk_free_buffer (buffer : Z) : MW unit :=
  if decide (buffer = NULL) then ret tt else spdk_dma_free buffer.

(** ** Gathering and scattering *)

(** The first [iovcnt] elements of the array at [iov]. *)
Definition get_iovs (iov iovcnt : Z) : MW (list xpdk_iovec) :=
  let* w := get in
  let* l := from_some BadAddress (w_iovs w !! iov) in
  if decide (iovcnt <= Z.of_nat (length l)) then ret (take (Z.to_nat iovcnt) l)
  else fail IndexOutOfBounds.

Definition calculate_iovec_size (iov iovcnt : Z) : MW Z :=
  let* l := get_iovs iov iovcnt in ret (iovec_size 0 l).

Fixpoint gather (l : list xpdk_iovec) (dst : Z) : MW unit :=
  match l with
  | [] => ret tt
  | v :: l => memcpy dst (iov_base v) (iov_len v) ;; gather l (dst + iov_len v)
  end.

Definition iovec_to_buffer (iov iovcnt buffer : Z) : MW unit :=
  let* l := get_iovs iov iovcnt in gather l buffer.

Fixpoint scatter (l : list xpdk_iovec) (src : Z) : MW unit :=
  match l with
  | [] => ret tt
  | v :: l => memcpy (iov_base v) src (iov_len v) ;; scatter l (src + iov_len v)
  end.

Definition buffer_to_iovec (buffer iov iovcnt : Z) : MW unit :=
  let* l := get_iovs iov iovcnt in scatter l buffer.

(** ** Synchronous operations *)

Variable sched_yield : MW unit.
Variable fuel : nat.

Definition xpdk_readv (fd iov iovcnt offset : Z) : MW Z :=
  let* initialized := is_initialized in
  if negb initialized then ret XPDK_ERROR_INVALID
  else if decide (iov = NULL \/ iovcnt <= 0) then ret XPDK_ERROR_INVALID
  else
    let* total_size := calculate_iovec_size iov iovcnt in
    if decide (total_size = 0) then ret XPDK_ERROR_INVALID
    else
      let* temp_buffer := xpdk_alloc_buffer total_size 0 in
      if decide (temp_buffer = NULL) then ret XPDK_ERROR_NOMEM
      else
        let* bytes_read := xpdk_read sched_yield fuel fd temp_buffer total_size offset in
        when (bool_decide (bytes_read > 0)) (buffer_to_iovec temp_buffer iov iovcnt) ;;
        xpdk_free_buffer temp_buffer ;;
        ret bytes_read.

Definition xpdk_writev (fd iov iovcnt offset : Z) : MW Z :=
  let* initialized := is_initialized in
  if negb initialized then ret XPDK_ERROR_INVALID
  else if decide (iov = NULL \/ iovcnt <= 0) then ret XPDK_ERROR_INVALID
  else
    let* total_size := calculate_iovec_size iov iovcnt in
    if decide (total_size = 0) then ret XPDK_ERROR_INVALID
    else
      let* temp_buffer := xpdk_alloc_buffer total_size 0 in
      if decide (temp_buffer = NULL) then ret XPDK_ERROR_NOMEM
      else
        iovec_to_buffer iov iovcnt temp_buffer ;;
        let* bytes_written := xpdk_write sched_yield fuel fd temp_buffer total_size offset in
        xpdk_free_buffer temp_buffer ;;
        ret bytes_written.

(** ** Asynchronous operations *)

(** [malloc(sizeof(struct xpdk_vectored_ctx))] filled with [v]. *)
Definition malloc_vctx (v : xpdk_vectored_ctx) : MW Z :=
  let* w := get in
  let '(y, p) := sys_malloc (w_sys w) (dom (w_vctx w)) in
  modify (set_w_sys y) ;;
  when (bool_decide (p <> NULL))
    (modify (fun w => set_w_vctx (<[p := v]> (w_vctx w)) w)) ;;
  ret p.

Definition xpdk_readv_async (fd iov iovcnt offset : Z)
    (callback : option xpdk_io_callback_t) (ctx : Z) : MW Z :=
  let* initialized := is_initialized in
  if negb initialized then ret XPDK_ERROR_INVALID
  else
    match callback with
    | None => ret XPDK_ERROR_INVALID
    | Some cb =>
        if decide (iov = NULL \/ iovcnt <= 0) then ret XPDK_ERROR_INVALID
        else
          let* total_size := calculate_iovec_size iov iovcnt in
          if decide (total_size = 0) then ret XPDK_ERROR_INVALID
          else
            let* temp_buffer := xpdk_alloc_buffer total_size 0 in
            if decide (temp_buffer = NULL) then ret XPDK_ERROR_NOMEM
            else
              let* v_ctx := malloc_vctx (Build_vectored_ctx cb ctx iov iovcnt temp_buffer true) in
              if decide (v_ctx = NULL) then
                xpdk_free_buffer temp_buffer ;; ret XPDK_ERROR_NOMEM
              else
                xpdk_read_async fd temp_buffer total_size offset (Some VectoredCallback) v_ctx
    end.

Definition xpdk_writev_async (fd iov iovcnt offset : Z)
    (callback : option xpdk_io_callback_t) (ctx : Z) : MW Z :=
  let* initialized := is_initialized in
  if negb initialized then ret XPDK_ERROR_INVALID
  else
    match callback with
    | None => ret XPDK_ERROR_INVALID
    | Some cb =>
        if decide (iov = NULL \/ iovcnt <= 0) then ret XPDK_ERROR_INVALID
        else
          let* total_size := calculate_iovec_size iov iovcnt in
          if decide (total_size = 0) then ret XPDK_ERROR_INVALID
          else
            let* temp_buffer := xpdk_alloc_buffer total_size 0 in
            if decide (temp_buffer = NULL) then ret XPDK_ERROR_NOMEM
            else
              iovec_to_buffer iov iovcnt temp_buffer ;;
              let* v_ctx := malloc_vctx (Build_vectored_ctx cb ctx iov iovcnt temp_buffer false) in
              if decide (v_ctx = NULL) then
                xpdk_free_buffer temp_buffer ;; ret XPDK_ERROR_NOMEM
              else
                xpdk_write_async fd temp_buffer total_size offset (Some VectoredCallback) v_ctx
    end.

(** [invoke] runs the client's callback. *)
Variable invoke : xpdk_io_callback_t -> Z -> Z -> MW unit.

Definition xpdk_vectored_completion_callback (ctx status : Z) : MW unit :=
  let* w := get in
  let* v := from_some BadAddress (w_vctx w !! ctx) in
  when (vc_is_read v && bool_decide (status = XPDK_SUCCESS))
    (buffer_to_iovec (vc_temp_buffer v) (vc_iov v) (vc_iovcnt v)) ;;
  invoke (vc_original_callback v) (vc_original_ctx v) status ;;
  xpdk_free_buffer (vc_temp_buffer v) ;;
  modify (fun w => set_w_vctx (delete ctx (w_vctx w)) w).
End Vectored.
