(* ===== verification/Batch.v ===== *)
(** src/xpdk_batch.c: batch contexts with their queues of pending and completed
    operations, the single-message batch interface and its handler. *)

From stdpp Require Import base gmap list strings.
From Stdlib Require Import Strings.Byte.
From S2P Require Import Prelude Types Memory Spdk World Core Bdev Io Async.

Open Scope Z_scope.

(** ** Queues as arrays *)

Abbreviation queue := (list (option xpdk_batch_io)).

(** [q[i] = io]; [None] when [i] is outside the array. *)
Definition queue_put (q : queue) (i : Z) (io : xpdk_batch_io) : option queue :=
  if decide (0 <= i < Z.of_nat (length q)) then Some (<[Z.to_nat i := Some io]> q) else None.

(** [q[i]]; [None] outside the array or when it was never written. *)
Definition queue_get (q : queue) (i : Z) : option xpdk_batch_io :=
  if decide (0 <= i < Z.of_nat (length q)) then mjoin (q !! Z.to_nat i) else None.

(** [memmove(&q[0], &q[k], n * sizeof q[0])] *)
Definition queue_shift (q : queue) (k n : Z) : option queue :=
  if decide (0 <= k /\ 0 <= n /\ k + n <= Z.of_nat (length q))
  then Some (take (Z.to_nat n) (drop (Z.to_nat k) q) ++ drop (Z.to_nat n) q)
  else None.

(** ** Operations on a context, each one critical section *)

(** Lines 98-105 of [xpdk_batch_submit_one]: [None] when the queue is full. *)
Definition batch_enqueue (ctx : xpdk_batch_ctx) (io : xpdk_batch_io) :
    option (option xpdk_batch_ctx) :=
  if decide (bc_pending_ios ctx >= bc_max_ios ctx) then Some None
  else
    q ← queue_put (bc_pending_queue ctx) (bc_pending_ios ctx) io;
    Some (Some (set_bc_pending_ios (bc_pending_ios ctx + 1) (set_bc_pending_queue q ctx))).

(** Line 132: the submission failed. *)
Definition batch_unqueue (ctx : xpdk_batch_ctx) : xpdk_batch_ctx :=
  set_bc_pending_ios (bc_pending_ios ctx - 1) ctx.

(** Lines 184-204 of [xpdk_batch_completion_callback]: the first pending operation moves
    to the completed queue.  [None] is an access outside an array. *)
Definition batch_complete (ctx : xpdk_batch_ctx) (status : Z) : option xpdk_batch_ctx :=
  if decide (0 < bc_pending_ios ctx) then
    io ← queue_get (bc_pending_queue ctx) 0;
    cq ← queue_put (bc_completed_queue ctx) (bc_completed_ios ctx) (set_io_status status io);
    pq ← queue_shift (bc_pending_queue ctx) 1 (bc_pending_ios ctx - 1);
    Some (set_bc_pending_ios (bc_pending_ios ctx - 1)
           (set_bc_pending_queue pq
             (set_bc_completed_ios (bc_completed_ios ctx + 1)
               (set_bc_completed_queue cq ctx))))
  else Some ctx.

(** Line 162: one completion has been processed. *)
Definition batch_pop (ctx : xpdk_batch_ctx) : xpdk_batch_ctx :=
  set_bc_completed_ios (bc_completed_ios ctx - 1) ctx.

(** Lines 166-170: the remaining completions move to the front. *)
Definition batch_compact (ctx : xpdk_batch_ctx) (processed : Z) : option xpdk_batch_ctx :=
  if decide (bc_completed_ios ctx > 0 /\ processed > 0) then
    cq ← queue_shift (bc_completed_queue ctx) processed (bc_completed_ios ctx);
    Some (set_bc_completed_queue cq ctx)
  else Some ctx.

(** The context [xpdk_batch_init] returns when nothing it allocates fails. *)
Definition batch_ctx_new (max_ios : Z) : xpdk_batch_ctx :=
  Build_batch_ctx max_ios 0 0 (replicate (Z.to_nat max_ios) None)
    (replicate (Z.to_nat max_ios) None) None.

(** The deadline of [xpdk_batch_wait], lines 245-255. *)
Definition batch_deadline (now : Z * Z) (timeout_ms : Z) : Z * Z :=
  let sec := fst now + timeout_ms / 1000 in
  let nsec := snd now + (timeout_ms mod 1000) * 1000000 in
  if decide (nsec >= 1000000000) then (sec + 1, nsec - 1000000000) else (sec, nsec).

(** Lines 272-274. *)
Definition deadline_passed (now deadline : Z * Z) : bool :=
  bool_decide (fst now > fst deadline \/ (fst now = fst deadline /\ snd now >= snd deadline)).

Section Batch.
Context `{Spdk}.

Definition get_bctx (ctx : Z) : MW xpdk_batch_ctx :=
  let* w := get in from_some BadAddress (w_batch w !! ctx).

Definition put_bctx (ctx : Z) (c : xpdk_batch_ctx) : MW unit :=
  modify (fun w => set_w_batch (<[ctx := c]> (w_batch w)) w).

(** [malloc] of the context and of its two arrays, the two [pthread] initialisations.
    [NULL] when one fails; what was obtained before is given back. *)
Definition xpdk_batch_init (mutex_rc cond_rc : Z) (max_ios : Z) : MW Z :=
  if decide (max_ios <= 0 \/ max_ios > 1024) then ret NULL
  else
    let* w := get in
    let '(y, ctx) := sys_malloc (w_sys w) (dom (w_batch w)) in
    modify (set_w_sys y) ;;
    if decide (ctx = NULL) then ret NULL
    else
      let* w := get in
      let '(y, pq) := sys_malloc (w_sys w) (dom (w_batch w)) in
      let '(y, cq) := sys_malloc y (dom (w_batch w)) in
      modify (set_w_sys y) ;;
      if decide (pq = NULL \/ cq = NULL) then ret NULL
      else if decide (mutex_rc <> 0 \/ cond_rc <> 0) then ret NULL
      else put_bctx ctx (batch_ctx_new max_ios) ;; ret ctx.

(** [cond_wait] is what other threads do while the caller waits. *)
Definition xpdk_batch_cleanup (cond_wait : MW unit) (fuel : nat) (ctx : Z) : MW unit :=
  if decide (ctx = NULL) then ret tt
  else
    while fuel (let* c := get_bctx ctx in ret (bool_decide (bc_pending_ios c > 0))) cond_wait ;;
    modify (fun w => set_w_batch (delete ctx (w_batch w)) w).

Definition xpdk_batch_submit_one (ctx : Z) (io : option xpdk_batch_io) : MW Z :=
  match io with
  | None => ret XPDK_ERROR_INVALID
  | Some io =>
      if decide (ctx = NULL) then ret XPDK_ERROR_INVALID
      else
        let* c := get_bctx ctx in
        let* q := from_some IndexOutOfBounds (batch_enqueue c io) in
        match q with
        | None => ret XPDK_ERROR_BUSY
        | Some c =>
            put_bctx ctx c ;;
            let* rc :=
              match io_type io with
              | XPDK_IO_READ =>
                  xpdk_read_async (io_fd io) (io_buffer io) (io_count io) (io_offset io)
                    (Some BatchCallback) ctx
              | XPDK_IO_WRITE =>
                  xpdk_write_async (io_fd io) (io_buffer io) (io_count io) (io_offset io)
                    (Some BatchCallback) ctx
              | _ => ret XPDK_ERROR_INVALID
              end in
            when (bool_decide (rc <> XPDK_SUCCESS))
              (let* c := get_bctx ctx in put_bctx ctx (batch_unqueue c)) ;;
            ret rc
        end
  end.

Definition xpdk_batch_completion_callback (ctx status : Z) : MW unit :=
  let* c := get_bctx ctx in
  let* c := from_some IndexOutOfBounds (batch_complete c status) in
  put_bctx ctx c.

(** [invoke] runs a callback. *)
Variable invoke : xpdk_io_callback_t -> Z -> Z -> MW unit.

(** Lines 150-163; the first argument is [max_completions - processed]. *)
Fixpoint process_loop (n : nat) (ctx processed : Z) : MW Z :=
  match n with
  | O => ret processed
  | S n =>
      let* c := get_bctx ctx in
      if decide (bc_completed_ios c > 0) then
        let* io := from_some IndexOutOfBounds (queue_get (bc_completed_queue c) processed) in
        match bc_global_callback c with
        | Some f => invoke f (io_user_ctx io) (io_status io)
        | None => ret tt
        end ;;
        let* c := get_bctx ctx in
        put_bctx ctx (batch_pop c) ;;
        process_loop n ctx (processed + 1)
      else ret processed
  end.

Definition xpdk_batch_process_completions (ctx max_completions : Z) : MW Z :=
  if decide (ctx = NULL) then ret XPDK_ERROR_INVALID
  else
    let* processed := process_loop (Z.to_nat max_completions) ctx 0 in
    let* c := get_bctx ctx in
    let* c := from_some IndexOutOfBounds (batch_compact c processed) in
    put_bctx ctx c ;;
    ret processed.

(** ** The single-message interface *)

Definition xpdk_batch_submit (ios count : Z) (callback : option xpdk_io_callback_t) : MW Z :=
  if decide (ios = NULL \/ count <= 0) then ret XPDK_ERROR_INVALID
  else
    let* msg := xpdk_msg_alloc XPDK_MSG_BATCH_SUBMIT in
    if decide (msg = NULL) then ret XPDK_ERROR_NOMEM
    else
      upd_msg msg (set_msg_u (PBatch ios count callback)) ;;
      let* rc := xpdk_msg_send_async msg in
      when (bool_decide (rc <> XPDK_SUCCESS)) (xpdk_msg_free msg) ;;
      ret rc.

Variable sched_yield : MW unit.
Variable fuel : nat.

(** One element of the batch: the result of its submission. *)
Definition batch_submit_io (callback : option xpdk_io_callback_t) (io : xpdk_batch_io) : MW Z :=
  match io_type io with
  | XPDK_IO_READ =>
      xpdk_read_async (io_fd io) (io_buffer io) (io_count io) (io_offset io) callback
        (io_user_ctx io)
  | XPDK_IO_WRITE =>
      xpdk_write_async (io_fd io) (io_buffer io) (io_count io) (io_offset io) callback
        (io_user_ctx io)
  | XPDK_IO_FLUSH =>
      let* rc := xpdk_flush sched_yield fuel (io_fd io) in
      match callback with
      | Some f => invoke f (io_user_ctx io) rc
      | None => ret tt
      end ;;
      ret rc
  | io_type_other _ =>
      match callback with
      | Some f => invoke f (io_user_ctx io) XPDK_ERROR_INVALID
      | None => ret tt
      end ;;
      ret XPDK_ERROR_INVALID
  end.

(** Lines 296-330, from element [i] on; [n] elements are left. *)
Fixpoint batch_submit_loop (n : nat) (ios i : Z) (callback : option xpdk_io_callback_t)
    (successful_submits : Z) : MW Z :=
  match n with
  | O => ret successful_submits
  | S n =>
      let* w := get in
      let* l := from_some BadAddress (w_ios w !! ios) in
      let* io := from_some IndexOutOfBounds (l !! Z.to_nat i) in
      let* rc := batch_submit_io callback io in
      modify (fun w => set_w_ios
        (alter (alter (set_io_status rc) (Z.to_nat i)) ios (w_ios w)) w) ;;
      batch_submit_loop n ios (i + 1) callback
        (if decide (rc = XPDK_SUCCESS) then successful_submits + 1 else successful_submits)
  end.

Definition xpdk_spdk_handle_batch_submit (msg : Z) : MW unit :=
  let* m := get_msg msg in
  match msg_u m with
  | PBatch ios count callback =>
      let* successful_submits := batch_submit_loop (Z.to_nat count) ios 0 callback 0 in
      complete_msg msg successful_submits
  | _ => fail WrongUnionMember
  end.

(** ** Waiting *)

(** [spdk_thread_poll] with a bound on the messages it handles. *)
Variable thread_poll : Z -> MW Z.

(** Lines 258-282; [turns] bounds the number of polls. *)
Fixpoint batch_wait_loop (turns : nat) (max_completions timeout_ms : Z) (deadline : Z * Z)
    (total_completions : Z) : MW Z :=
  if decide (total_completions < max_completions) then
    match turns with
    | O => spent
    | S turns =>
        let* completions := xpdk_poll thread_poll (max_completions - total_completions) in
        if decide (completions < 0) then ret completions
        else
          let total_completions := total_completions + completions in
          if decide (completions = 0 /\ timeout_ms > 0) then
            let* current_time := clock_gettime in
            if deadline_passed current_time deadline then ret total_completions
            else batch_wait_loop turns max_completions timeout_ms deadline total_completions
          else batch_wait_loop turns max_completions timeout_ms deadline total_completions
    end
  else ret total_completions.

Definition xpdk_batch_wait (turns : nat) (max_completions timeout_ms : Z) : MW Z :=
  if decide (max_completions <= 0) then ret XPDK_ERROR_INVALID
  else
    let* deadline :=
      if decide (timeout_ms > 0)
      then let* now := clock_gettime in ret (batch_deadline now timeout_ms)
      else ret (0, 0) in
    batch_wait_loop turns max_completions timeout_ms deadline 0.
End Batch.

(** ** What a batch context promises

    Two FIFO queues: operations that were submitted, and operations that were completed
    and not yet processed. *)

Record batch_spec := Build_batch_spec {
  bs_max : Z;
  bs_pending : list xpdk_batch_io;
  bs_completed : list xpdk_batch_io
}.

(** The queue [q] holds [l] in its first elements. *)
Definition holds (q : queue) (l : list xpdk_batch_io) : Prop :=
  exists rest, q = (Some <$> l) ++ rest.

(** The representation relation. *)
Record represents (c : xpdk_batch_ctx) (s : batch_spec) : Prop := {
  rep_max : bc_max_ios c = bs_max s;
  rep_pending : bc_pending_ios c = Z.of_nat (length (bs_pending s));
  rep_completed : bc_completed_ios c = Z.of_nat (length (bs_completed s));
  rep_pending_queue : holds (bc_pending_queue c) (bs_pending s);
  rep_completed_queue : holds (bc_completed_queue c) (bs_completed s);
  rep_pending_size : Z.of_nat (length (bc_pending_queue c)) = bs_max s;
  rep_completed_size : Z.of_nat (length (bc_completed_queue c)) = bs_max s
}.

Definition spec_enqueue (s : batch_spec) (io : xpdk_batch_io) : option batch_spec :=
  if decide (Z.of_nat (length (bs_pending s)) < bs_max s)
  then Some (Build_batch_spec (bs_max s) (bs_pending s ++ [io]) (bs_completed s))
  else None.

(** A completion retires the oldest pending operation. *)
Definition spec_complete (s : batch_spec) (status : Z) : batch_spec :=
  match bs_pending s with
  | [] => s
  | io :: p => Build_batch_spec (bs_max s) p (bs_completed s ++ [set_io_status status io])
  end.

(** Processing takes the [n] oldest completions. *)
Definition spec_process (s : batch_spec) (n : nat) : batch_spec :=
  Build_batch_spec (bs_max s) (bs_pending s) (drop n (bs_completed s)).

Section QueueLemmas.
Implicit Types (q : queue) (l : list xpdk_batch_io) (io : xpdk_batch_io).

Lemma holds_length q l : holds q l -> (length l <= length q)%nat.
Proof. intros [rest ->]. rewrite length_app, length_fmap. lia. Qed.

Lemma holds_put q l io :
  holds q l -> (length l < length q)%nat ->
  exists q', queue_put q (Z.of_nat (length l)) io = Some q' /\
    holds q' (l ++ [io]) /\ length q' = length q.
Proof.
  intros [rest ->] Hlt. unfold queue_put. rewrite decide_True by lia.
  eexists. split; [done|]. rewrite Nat2Z.id. split; [|by rewrite length_insert].
  destruct rest as [|x rest].
  { rewrite app_nil_r, length_fmap in Hlt. lia. }
  exists rest. rewrite fmap_app, <-app_assoc. simpl.
  replace (length l) with (length (Some <$> l) + 0)%nat by (rewrite length_fmap; lia).
  by rewrite insert_app_r.
Qed.

Lemma holds_put_full q l io :
  length l = length q -> queue_put q (Z.of_nat (length l)) io = None.
Proof. intros Hl. unfold queue_put. by rewrite decide_False by lia. Qed.

Lemma holds_get q l i :
  holds q l -> (i < length l)%nat -> queue_get q (Z.of_nat i) = l !! i.
Proof.
  intros Hq Hi. pose proof (holds_length _ _ Hq). destruct Hq as [rest ->].
  unfold queue_get. rewrite decide_True by lia. rewrite Nat2Z.id.
  rewrite lookup_app_l by (rewrite length_fmap; lia). rewrite list_lookup_fmap.
  by destruct (l !! i).
Qed.

Lemma holds_head q io l : holds q (io :: l) -> queue_get q 0 = Some io.
Proof. intros Hq. apply (holds_get q (io :: l) 0 Hq). simpl. lia. Qed.

Lemma holds_shift q l k :
  holds q l -> (k <= length l)%nat ->
  exists q', queue_shift q (Z.of_nat k) (Z.of_nat (length l - k)) = Some q' /\
    holds q' (drop k l) /\ length q' = length q.
Proof.
  intros Hq Hk. pose proof (holds_length _ _ Hq). destruct Hq as [rest ->].
  unfold queue_shift. rewrite decide_True by lia. rewrite !Nat2Z.id.
  eexists. split; [done|]. split.
  - rewrite drop_app_le by (rewrite length_fmap; lia).
    rewrite take_app_le by (rewrite length_drop, length_fmap; lia).
    rewrite take_ge by (rewrite length_drop, length_fmap; lia).
    rewrite <-fmap_drop. by eexists.
  - rewrite !length_app, length_take, !length_drop, !length_app, length_fmap. lia.
Qed.
End QueueLemmas.

Section BatchRefinement.
Implicit Types (c : xpdk_batch_ctx) (s : batch_spec) (io : xpdk_batch_io).

Lemma batch_new_represents max_ios :
  0 < max_ios <= 1024 ->
  represents (batch_ctx_new max_ios) (Build_batch_spec max_ios [] []).
Proof.
  intros Hm. split; simpl; try done; try (rewrite length_replicate; lia); by eexists.
Qed.

Lemma batch_enqueue_refines c s io :
  represents c s ->
  match spec_enqueue s io with
  | Some s' => exists c', batch_enqueue c io = Some (Some c') /\ represents c' s'
  | None => batch_enqueue c io = Some None
  end.
Proof.
  intros [Hm Hp Hc Hpq Hcq Hps Hcs]. unfold spec_enqueue, batch_enqueue.
  rewrite Hp, Hm. case_decide as Hroom.
  - rewrite decide_False by lia.
    destruct (holds_put (bc_pending_queue c) (bs_pending s) io) as (q' & Hq & Hh & Hl);
      [done|lia|].
    rewrite Hq. simpl. eexists. split; [done|].
    split; simpl; try done; [rewrite length_app; simpl; lia|lia].
  - by rewrite decide_True by lia.
Qed.

Lemma batch_complete_refines c s status :
  represents c s ->
  Z.of_nat (length (bs_completed s)) < bs_max s \/ bs_pending s = [] ->
  exists c', batch_complete c status = Some c' /\ represents c' (spec_complete s status).
Proof.
  intros Hrep Hroom. pose proof Hrep as [Hm Hp Hc Hpq Hcq Hps Hcs].
  unfold batch_complete, spec_complete. rewrite Hp.
  destruct (bs_pending s) as [|io p] eqn:Hpend; [eexists; by rewrite decide_False|].
  destruct Hroom as [Hroom|]; [|done]. rewrite decide_True by (simpl; lia).
  rewrite (holds_head _ _ _ Hpq). simpl.
  rewrite Hc. destruct (holds_put (bc_completed_queue c) (bs_completed s) (set_io_status status io))
    as (cq & Hcqe & Hch & Hcl); [done|lia|]. rewrite Hcqe. simpl.
  destruct (holds_shift (bc_pending_queue c) (io :: p) 1) as (pq & Hpqe & Hph & Hpl);
    [done|simpl; lia|].
  change (Z.of_nat 1) with 1 in Hpqe.
  replace (Z.of_nat (length (io :: p) - 1)) with (Z.of_nat (S (length p)) - 1) in Hpqe
    by (simpl; lia).
  simpl length. rewrite Hpqe. simpl. eexists. split; [done|].
  split; simpl in *; try done; rewrite ?length_app; simpl; lia.
Qed.

Lemma batch_complete_overflow c s status :
  represents c s -> Z.of_nat (length (bs_completed s)) = bs_max s -> bs_pending s <> [] ->
  batch_complete c status = None.
Proof.
  intros [Hm Hp Hc Hpq Hcq Hps Hcs] Hfull Hne. unfold batch_complete. rewrite Hp.
  destruct (bs_pending s) as [|io p] eqn:Hpend; [done|]. rewrite decide_True by (simpl; lia).
  rewrite (holds_head _ _ _ Hpq). simpl.
  rewrite Hc, holds_put_full by lia. done.
Qed.

Lemma batch_compact_refines c s (n : nat) :
  represents c s -> (n <= length (bs_completed s))%nat ->
  exists c', batch_compact (set_bc_completed_ios (Z.of_nat (length (bs_completed s) - n)) c)
               (Z.of_nat n) = Some c' /\ represents c' (spec_process s n).
Proof.
  intros [Hm Hp Hc Hpq Hcq Hps Hcs] Hn. unfold batch_compact. simpl.
  destruct (decide (Z.of_nat (length (bs_completed s) - n) > 0 /\ Z.of_nat n > 0)) as [Hd|Hd].
  - destruct (holds_shift _ _ n Hcq) as (q' & Hq & Hh & Hl); [lia|].
    rewrite Hq. simpl. eexists. split; [done|].
    split; simpl; try done; [rewrite length_drop; lia|lia].
  - eexists. split; [done|]. split; simpl; try done; [rewrite length_drop; lia|].
    destruct (decide (n = 0%nat)) as [->|]; [by rewrite drop_0|].
    rewrite drop_ge by lia. by eexists.
Qed.
End BatchRefinement.

(** ** Runs

    The steps of a context that is used through critical sections: submissions,
    completions (in whatever order the device has them) and processing. *)

Inductive batch_op : Type :=
| OpSubmit (io : xpdk_batch_io)
| OpComplete (status : Z)
| OpProcess (max_completions : Z).

(** What the loop of [xpdk_batch_process_completions] and the compaction after it leave
    when no other thread steps in between. *)
Definition batch_process (c : xpdk_batch_ctx) (max_completions : Z) : option xpdk_batch_ctx :=
  let n := Z.min (Z.max 0 max_completions) (bc_completed_ios c) in
  batch_compact (set_bc_completed_ios (bc_completed_ios c - n) c) n.

Definition batch_step (c : xpdk_batch_ctx) (o : batch_op) : option xpdk_batch_ctx :=
  match o with
  | OpSubmit io => r ← batch_enqueue c io; Some (default c r)
  | OpComplete status => batch_complete c status
  | OpProcess n => batch_process c n
  end.

Definition spec_step (s : batch_spec) (o : batch_op) : batch_spec :=
  match o with
  | OpSubmit io => default s (spec_enqueue s io)
  | OpComplete status => spec_complete s status
  | OpProcess n =>
      spec_process s (Z.to_nat (Z.min (Z.max 0 n) (Z.of_nat (length (bs_completed s)))))
  end.

Fixpoint batch_steps (c : xpdk_batch_ctx) (l : list batch_op) : option xpdk_batch_ctx :=
  match l with
  | [] => Some c
  | o :: l => c ← batch_step c o; batch_steps c l
  end.

(** At most [bs_max] completions ever wait to be processed. *)
Fixpoint within_capacity (s : batch_spec) (l : list batch_op) : bool :=
  bool_decide (Z.of_nat (length (bs_completed s)) <= bs_max s) &&
  match l with
  | [] => true
  | o :: l => within_capacity (spec_step s o) l
  end.

Lemma batch_step_refines c s o :
  represents c s -> Z.of_nat (length (bs_completed (spec_step s o))) <= bs_max s ->
  exists c', batch_step c o = Some c' /\ represents c' (spec_step s o).
Proof.
  intros Hrep Hcap. destruct o as [io|status|n]; simpl in *.
  - pose proof (batch_enqueue_refines c s io Hrep) as He.
    destruct (spec_enqueue s io) as [s'|]; simpl.
    + destruct He as (c' & -> & Hr). simpl. eauto.
    + rewrite He. simpl. eauto.
  - apply batch_complete_refines; [done|]. unfold spec_complete in Hcap.
    destruct (bs_pending s); [by right|left]. simpl in Hcap.
    rewrite length_app in Hcap. simpl in Hcap. lia.
  - unfold batch_process. rewrite (rep_completed _ _ Hrep).
    set (k := Z.to_nat _).
    destruct (batch_compact_refines c s k Hrep) as (c' & Hc & Hr); [lia|].
    exists c'. split; [|done]. rewrite <-Hc. f_equal; [f_equal|]; lia.
Qed.

Lemma spec_step_max s o : bs_max (spec_step s o) = bs_max s.
Proof.
  destruct o; simpl; unfold spec_enqueue, spec_complete; [by case_decide|by destruct (bs_pending s)|done].
Qed.

Lemma batch_steps_refines c s l :
  represents c s -> within_capacity s l = true ->
  exists c', batch_steps c l = Some c' /\ represents c' (foldl spec_step s l).
Proof.
  revert c s. induction l as [|o l IH]; intros c s Hrep Hcap; simpl in *; [eauto|].
  apply andb_prop in Hcap as [_ Hcap].
  assert (Z.of_nat (length (bs_completed (spec_step s o))) <= bs_max s) as Hle.
  { destruct l; simpl in Hcap; apply andb_prop in Hcap as [Hb _];
      apply bool_decide_eq_true in Hb; by rewrite spec_step_max in Hb. }
  destruct (batch_step_refines c s o Hrep Hle) as (c' & -> & Hr'). simpl. by apply IH.
Qed.

(** C30: A batch context implements two FIFO queues: from a new context, any sequence of
    submissions, completions and processing leaves the arrays and counters representing
    exactly the abstract queues, and touches no memory outside them, provided the
    completions waiting to be processed never exceed the size of the context. *)
Theorem batch_context_refines_queues max_ios l :
  0 < max_ios <= 1024 ->
  within_capacity (Build_batch_spec max_ios [] []) l = true ->
  exists c, batch_steps (batch_ctx_new max_ios) l = Some c /\
    represents c (foldl spec_step (Build_batch_spec max_ios [] []) l).
Proof. intros Hm Hc. by apply batch_steps_refines; [apply batch_new_represents|]. Qed.

(** Nothing enforces that proviso: a client that submits within the limit but does not
    process completions makes the completion callback write past the completed queue. *)
Theorem batch_completed_queue_overflow max_ios io status :
  0 < max_ios <= 1024 ->
  batch_steps (batch_ctx_new max_ios)
    (concat (replicate (Z.to_nat max_ios + 1) [OpSubmit io; OpComplete status])) = None.
Proof.
  intros Hm.
  assert (forall (n : nat) c s, represents c s -> bs_pending s = [] -> 0 < bs_max s ->
    Z.of_nat (length (bs_completed s)) + Z.of_nat n = bs_max s ->
    batch_steps c (concat (replicate (n + 1) [OpSubmit io; OpComplete status])) = None) as Hrun.
  { intros n. induction n as [|n IH]; intros c s Hrep Hp Hpos Hlen; simpl.
    all: pose proof (batch_enqueue_refines c s io Hrep) as He.
    all: unfold spec_enqueue in He; rewrite Hp, decide_True in He by (simpl; lia).
    all: destruct He as (c' & -> & Hr'); simpl.
    - rewrite (batch_complete_overflow c' _ status Hr'); simpl; [done|lia|done].
    - destruct (batch_complete_refines c' _ status Hr') as (c'' & -> & Hr''); [simpl; lia|].
      simpl. apply (IH c'' _ Hr''); simpl; [done|done|]. rewrite length_app. simpl. lia. }
  rewrite (Hrun _ _ (Build_batch_spec max_ios [] [])); simpl; try done; try lia.
  by apply batch_new_represents.
Qed.

Definition sample_io : xpdk_batch_io := Build_batch_io XPDK_IO_WRITE 0 8192 5 0 7 0 0.

Lemma batch_context_refines_queues_witness :
  exists c, batch_steps (batch_ctx_new 2)
    [OpSubmit sample_io; OpSubmit sample_io; OpSubmit sample_io; OpComplete 0; OpProcess 1] = Some c.
Proof.
  destruct (batch_context_refines_queues 2
    [OpSubmit sample_io; OpSubmit sample_io; OpSubmit sample_io; OpComplete 0; OpProcess 1])
    as (c & Hc & _); [lia|by vm_compute|eauto].
Defined.

Lemma batch_completed_queue_overflow_witness :
  batch_steps (batch_ctx_new 2) (concat (replicate 3 [OpSubmit sample_io; OpComplete 0])) = None.
Proof. apply (batch_completed_queue_overflow 2 sample_io 0). lia. Defined.
