(* ===== verification/Poller.v ===== *)
(** The SPDK thread: the message poller of src/xpdk_core.c, the delivery of completions
    to the callbacks of the library, and one turn of the thread's event loop, which is
    what runs while a client waits for its message. *)

From stdpp Require Import base gmap list strings.
From Stdlib Require Import Strings.Byte.
From S2P Require Import Prelude Types Memory Spdk World Core Perf Bdev Qos Io Async.
From S2P Require Import Vectored Batch.

Open Scope Z_scope.

Definition SPDK_POLLER_IDLE : Z := 0.

Definition SPDK_POLLER_BUSY : Z := 1.

Section Poller.
Context `{Spdk}.

(** ** Callbacks *)

(** A call through a function pointer.  The callback of a vectored operation calls the
    client's in turn; [depth] bounds that nesting. *)
Fixpoint invoke_callback (depth : nat) (cb : xpdk_io_callback_t) (ctx status : Z) : MW unit :=
  match cb with
  | UserCallback f => call_user f ctx status
  | BatchCallback => xpdk_batch_completion_callback ctx status
  | VectoredCallback =>
      match depth with
      | O => spent
      | S depth => xpdk_vectored_completion_callback (invoke_callback depth) ctx status
      end
  end.

Definition invoke : xpdk_io_callback_t -> Z -> Z -> MW unit := invoke_callback 2.

(** The device has transferred the data of a read before its callback runs; the bdev layer
    calls the callback a request was submitted with, also when that is [NULL]. *)
Definition deliver (c : completion) : MW unit :=
  match c with
  | IoDone r success data =>
      match rq_kind r with
      | IoRead => store (rq_buf r) data
      | _ => ret tt
      end ;;
      match rq_cb r with
      | SyncIoCb ctx => sync_io_completion_cb success ctx
      | AsyncIoCb msg => async_io_completion_cb invoke success msg
      | NoIoCb => fail NullDeref
      end
  | OpenDone msg desc status => bdev_open_complete desc status msg
  | QosDone msg status => xpdk_qos_set_limits_complete msg status
  end.

(** One poll of the bdev layer; whether it had a completion. *)
Definition poll_bdev : MW bool :=
  let* w := get in
  let '(b, c) := bdev_poll (w_bdev w) (w_mem w) in
  set_bdev b ;;
  match c with
  | None => ret false
  | Some c => deliver c ;; ret true
  end.

(** ** The poller *)

(** Bounds the polls of a handler that waits for its I/O. *)
Variable fuel : nat.

Definition nested_poll : MW unit := let* _ := poll_bdev in ret tt.

(** The cases of the [switch]; [true] for the message that ends the thread. *)
Definition dispatch (type : xpdk_msg_type) (msg : Z) : MW bool :=
  match type with
  | XPDK_MSG_OPEN => xpdk_spdk_handle_open msg ;; ret false
  | XPDK_MSG_CLOSE => xpdk_spdk_handle_close msg ;; ret false
  | XPDK_MSG_READ | XPDK_MSG_READV =>
      upd_g (fun g => set_ctx_total_io_operations (u64 (ctx_total_io_operations g + 1)) g) ;;
      xpdk_spdk_handle_read nested_poll fuel msg ;; ret false
  | XPDK_MSG_WRITE | XPDK_MSG_WRITEV =>
      upd_g (fun g => set_ctx_total_io_operations (u64 (ctx_total_io_operations g + 1)) g) ;;
      xpdk_spdk_handle_write nested_poll fuel msg ;; ret false
  | XPDK_MSG_FLUSH => xpdk_spdk_handle_flush nested_poll fuel msg ;; ret false
  | XPDK_MSG_LIST_BDEVS => xpdk_spdk_handle_list_bdevs msg ;; ret false
  | XPDK_MSG_GET_INFO => xpdk_spdk_handle_get_info msg ;; ret false
  | XPDK_MSG_QOS_SET_LIMITS => xpdk_spdk_handle_qos_set_limits msg ;; ret false
  | XPDK_MSG_QOS_GET_LIMITS => xpdk_spdk_handle_qos_get_limits msg ;; ret false
  | XPDK_MSG_GET_PERF_STATS => xpdk_spdk_handle_get_perf_stats msg ;; ret false
  | XPDK_MSG_RESET_PERF_STATS => xpdk_spdk_handle_reset_perf_stats msg ;; ret false
  | XPDK_MSG_TRIM => xpdk_spdk_handle_trim msg ;; ret false
  | XPDK_MSG_WRITE_ZEROS => xpdk_spdk_handle_write_zeros msg ;; ret false
  | XPDK_MSG_SHUTDOWN =>
      upd_g (set_ctx_spdk_thread_running false) ;;
      upd_msg msg (set_msg_completed true) ;; ret true
  | XPDK_MSG_BATCH_SUBMIT =>
      complete_msg msg XPDK_ERROR_INVALID ;; ret false
  end.

(** [switch (msg->type)] *)
Definition process_msg (msg : Z) : MW bool :=
  let* m := get_msg msg in dispatch (msg_type m) msg.

(** [spdk_ring_dequeue(g_xpdk_ctx.msg_ring, &msg, 1)] *)
Definition ring_dequeue : MW (option Z) :=
  let* w := get in
  let* ring := from_some NullDeref (w_ring w) in
  let '(ring, msg) := spdk_ring_dequeue ring in
  modify (set_w_ring (Some ring)) ;; ret msg.

(** The loop; [n] is [max_batch - i]. *)
Fixpoint poller_loop (n : nat) (processed : Z) : MW Z :=
  let result := if decide (processed > 0) then SPDK_POLLER_BUSY else SPDK_POLLER_IDLE in
  match n with
  | O => ret result
  | S n =>
      let* msg := ring_dequeue in
      match msg with
      | None => ret result
      | Some msg =>
          upd_g (fun g => set_ctx_total_messages_processed
                            (u64 (ctx_total_messages_processed g + 1)) g) ;;
          let* shutdown := process_msg msg in
          if (shutdown : bool) then ret SPDK_POLLER_BUSY else poller_loop n (processed + 1)
      end
  end.

Definition max_batch (turbo_mode : bool) : nat := if turbo_mode then 32 else 1.

Definition xpdk_msg_process_poller : MW Z :=
  let* turbo_mode := gets (fun w => opt_turbo_mode (ctx_opts (w_g w))) in
  poller_loop (max_batch turbo_mode) 0.

(** ** The event loop *)

(** [spdk_thread_poll] from the event loop or from [xpdk_poll]: the bdev layer's
    pollers and the message poller run; 1 when there was work. *)
Definition spdk_thread_poll (max_msgs : Z) : MW Z :=
  let* busy := poll_bdev in
  let* rc := xpdk_msg_process_poller in
  ret (if (busy : bool) then 1 else if decide (rc = SPDK_POLLER_BUSY) then 1 else 0).

(** One turn of [while (g_xpdk_ctx.spdk_thread_running)]. *)
Definition spdk_turn : MW unit :=
  let* running := gets (fun w => ctx_spdk_thread_running (w_g w)) in
  when running (let* _ := spdk_thread_poll 0 in ret tt).
End Poller.
