(* ===== verification/Idle.v ===== *)
(** Exchanges: how a request travels.  The client takes a message from the pool, fills it
    in, puts it on the ring and spins; the SPDK thread takes it off and handles it; the
    client reads the result and gives the message back.

    [idle] is the state between such exchanges; the lemmas below reduce a call of the
    client to the handler of its message. *)

From stdpp Require Import base gmap list strings.
From Stdlib Require Import Strings.Byte.
From S2P Require Import Prelude Types Memory Spdk World Sim Core Perf Bdev Qos Io Async.
From S2P Require Import Vectored Batch Poller.

Open Scope Z_scope.

Section Idle.
Context `{SpdkLaws}.
Implicit Types (w : world) (p : Z).

(** No message is queued, nothing is outstanding in the bdev layer, the free messages are
    not in use, live DMA blocks are mapped. *)
Record idle (w : world) : Prop := {
  idle_initialized : ctx_initialized (w_g w) = true;
  idle_running : ctx_spdk_thread_running (w_g w) = true;
  idle_devices : devices_wf (ctx_devices (w_g w));
  idle_ring : exists r, w_ring w = Some r /\ ring_queue r = [] /\ (0 < ring_capacity r)%nat;
  idle_pool : exists pl, w_pool w = Some pl /\ pool_free pl ## dom (w_msgs w);
  idle_outstanding : outstanding (w_bdev w) = [];
  idle_frames : w_sctx w = ∅;
  idle_dma : forall a n, w_dma_live w !! a = Some n ->
    0 < n /\ mapped (w_mem w) a (Z.to_nat n)
}.

(** Messages the pool can still give. *)
Definition free_msgs (w : world) : gset Z :=
  match w_pool w with
  | Some pl => pool_free pl
  | None => ∅
  end.

(** ** Allocation *)

Definition new_msg (type : xpdk_msg_type) : xpdk_msg :=
  Build_msg type NULL false XPDK_SUCCESS (zero_params type).

Lemma msg_alloc_eq w pl type :
  w_pool w = Some pl -> pool_free pl <> ∅ ->
  exists pl' p, xpdk_msg_alloc type w = Ok p (w_put_msg p (new_msg type) (set_w_pool (Some pl') w)) /\
    p <> NULL /\ p ∈ pool_free pl /\ pool_free pl' = pool_free pl ∖ {[p]}.
Proof.
  intros Hpl Hne. unfold xpdk_msg_alloc, bind, get. rewrite Hpl. simpl.
  destruct (spdk_mempool_get pl) as [pl' p] eqn:Hg.
  destruct (decide (p = NULL)) as [->|Hp].
  - apply mempool_get_null in Hg as [? _]. done.
  - destruct (mempool_get_some _ _ _ Hg Hp) as [Hin Hfree].
    exists pl', p. done.
Qed.

Lemma msg_alloc_empty w pl type :
  w_pool w = Some pl -> pool_free pl = ∅ ->
  exists pl', xpdk_msg_alloc type w = Ok NULL (set_w_pool (Some pl') w) /\ pool_free pl' = ∅.
Proof.
  intros Hpl Hne. unfold xpdk_msg_alloc, bind, get. rewrite Hpl. simpl.
  destruct (spdk_mempool_get pl) as [pl' p] eqn:Hg.
  destruct (decide (p = NULL)) as [->|Hp].
  - exists pl'. apply mempool_get_null in Hg as [_ ?]. done.
  - apply (mempool_get_some _ _ _ Hg) in Hp as [Hin _]. set_solver.
Qed.

Lemma msg_free_eq w pl p :
  p <> NULL -> w_pool w = Some pl ->
  xpdk_msg_free p w =
    Ok tt (set_w_msgs (delete p (w_msgs w)) (set_w_pool (Some (spdk_mempool_put pl p)) w)).
Proof.
  intros Hp Hpl. unfold xpdk_msg_free. rewrite decide_False by done.
  unfold bind, get. by rewrite Hpl.
Qed.

(** ** The ring *)

Lemma ring_enqueue_eq w r p :
  w_ring w = Some r -> (length (ring_queue r) < ring_capacity r)%nat ->
  exists r', ring_enqueue p w = Ok 1 (set_w_ring (Some r') w) /\
    ring_queue r' = ring_queue r ++ [p] /\ ring_capacity r' = ring_capacity r.
Proof.
  intros Hr Hroom. destruct (enqueue_room r p Hroom) as (r' & Heq & Hq & Hc).
  exists r'. split_and!; try done. unfold ring_enqueue, bind, get. rewrite Hr. simpl.
  by rewrite Heq.
Qed.

Lemma ring_dequeue_cons w r p q :
  w_ring w = Some r -> ring_queue r = p :: q ->
  exists r', ring_dequeue w = Ok (Some p) (set_w_ring (Some r') w) /\
    ring_queue r' = q /\ ring_capacity r' = ring_capacity r.
Proof.
  intros Hr Hq. destruct (dequeue_cons r p q Hq) as (r' & Heq & Hq' & Hc).
  exists r'. split_and!; try done. unfold ring_dequeue, bind, get. rewrite Hr. simpl.
  by rewrite Heq.
Qed.

Lemma ring_dequeue_nil w r :
  w_ring w = Some r -> ring_queue r = [] ->
  exists r', ring_dequeue w = Ok None (set_w_ring (Some r') w) /\
    ring_queue r' = [] /\ ring_capacity r' = ring_capacity r.
Proof.
  intros Hr Hq. destruct (dequeue_nil r Hq) as (r' & Heq & Hq' & Hc).
  exists r'. split_and!; try done. unfold ring_dequeue, bind, get. rewrite Hr. simpl.
  by rewrite Heq.
Qed.

(** ** The poller *)

(** [g_xpdk_ctx.total_messages_processed++] *)
Definition bump (w : world) : world :=
  set_w_g (set_ctx_total_messages_processed
             (u64 (ctx_total_messages_processed (w_g w) + 1)) (w_g w)) w.

Lemma bump_eq w :
  upd_g (fun g => set_ctx_total_messages_processed (u64 (ctx_total_messages_processed g + 1)) g) w =
    Ok tt (bump w).
Proof. reflexivity. Qed.

Lemma poller_empty fuel w r :
  w_ring w = Some r -> ring_queue r = [] ->
  exists r', xpdk_msg_process_poller fuel w = Ok SPDK_POLLER_IDLE (set_w_ring (Some r') w) /\
    ring_queue r' = [] /\ ring_capacity r' = ring_capacity r.
Proof.
  intros Hr Hq. destruct (ring_dequeue_nil w r Hr Hq) as (r' & Heq & Hq' & Hc).
  exists r'. split_and!; try done. unfold xpdk_msg_process_poller, bind at 1, gets.
  destruct (opt_turbo_mode _); simpl; by rewrite (bind_ok _ _ _ _ _ Heq).
Qed.

Lemma set_ring_id w r : w_ring w = Some r -> set_w_ring (Some r) w = w.
Proof. destruct w; simpl. by intros ->. Qed.

(** One message on the ring: what the poller does with it is up to its handler. *)
Lemma poller_one w r p :
  w_ring w = Some r -> ring_queue r = [p] ->
  exists r1 r2,
    ring_queue r1 = [] /\ ring_queue r2 = [] /\ ring_capacity r2 = ring_capacity r /\
    forall fuel w1,
      process_msg fuel p (bump (set_w_ring (Some r1) w)) = Ok false w1 -> w_ring w1 = Some r1 ->
      xpdk_msg_process_poller fuel w = Ok SPDK_POLLER_BUSY (set_w_ring (Some r2) w1).
Proof.
  intros Hr Hq. destruct (ring_dequeue_cons w r p [] Hr Hq) as (r1 & Heq & Hq1 & Hc1).
  destruct (dequeue_nil r1 Hq1) as (r2 & Heq2 & Hq2 & Hc2).
  exists r1, (if opt_turbo_mode (ctx_opts (w_g w)) then r2 else r1).
  split_and!; [done|by destruct (opt_turbo_mode _)|by destruct (opt_turbo_mode _); lia|].
  intros fuel w1 Hp Hring. unfold xpdk_msg_process_poller, bind at 1, gets, max_batch.
  destruct (opt_turbo_mode _); cbn -[ring_dequeue process_msg];
    rewrite (bind_ok _ _ _ _ _ Heq);
    unfold bind at 1, upd_g, modify; fold (bump (set_w_ring (Some r1) w));
    rewrite (bind_ok _ _ _ _ _ Hp).
  - unfold ring_dequeue, bind, get. by rewrite Hring; simpl; rewrite Heq2.
  - by rewrite (set_ring_id w1 r1) by done.
Qed.

(** ** Polls of the bdev layer *)

Lemma poll_bdev_eq w b c :
  bdev_poll (w_bdev w) (w_mem w) = (b, c) ->
  poll_bdev w =
    match c with
    | None => Ok false (set_w_bdev b w)
    | Some c => bind (deliver c) (fun _ => ret true) (set_w_bdev b w)
    end.
Proof. intros Hp. unfold poll_bdev, bind at 1, get. rewrite Hp. by destruct c. Qed.

(** With nothing outstanding a poll finds nothing. *)
Lemma bdev_poll_nothing b me :
  outstanding b = [] ->
  exists b', bdev_poll b me = (b', None) /\ outstanding b' = [] /\ same_data b b'.
Proof.
  intros Ho. destruct (bdev_poll b me) as [b' [c|]] eqn:Hp.
  - exfalso. destruct c as [rq s d|msg desc st|msg st].
    + apply poll_io in Hp as (Hperm & _). rewrite Ho in Hperm.
      by apply Permutation_nil_cons in Hperm.
    + apply poll_open in Hp as (name & wr & Hperm & _). rewrite Ho in Hperm.
      by apply Permutation_nil_cons in Hperm.
    + apply poll_qos in Hp as (bd & l & Hperm & _). rewrite Ho in Hperm.
      by apply Permutation_nil_cons in Hperm.
  - exists b'. apply poll_none in Hp as (Ho' & Hs & _). rewrite Ho in Ho'. done.
Qed.

Lemma poll_bdev_nothing w :
  outstanding (w_bdev w) = [] ->
  exists b', poll_bdev w = Ok false (set_w_bdev b' w) /\
    outstanding b' = [] /\ same_data (w_bdev w) b'.
Proof.
  intros Ho. destruct (bdev_poll_nothing (w_bdev w) (w_mem w) Ho) as (b' & Hb & Ho' & Hsd).
  exists b'. split_and!; try done. by apply poll_bdev_eq in Hb.
Qed.

(** ** Calls into the environment *)

Lemma bdev_submit_cases w rq :
  rq_desc rq <> NULL ->
  (exists b, bdev_submit rq w = Ok 0 (set_w_bdev b w) /\
     outstanding b = outstanding (w_bdev w) ++ [WIo rq] /\ same_data (w_bdev w) b /\
     0 <= rq_off rq /\
     rq_off rq + rq_nblk rq <= spdk_bdev_get_num_blocks (desc_bdev (rq_desc rq))) \/
  (exists b rc, rc <> 0 /\ bdev_submit rq w = Ok rc (set_w_bdev b w) /\
     outstanding b = outstanding (w_bdev w) /\ same_data (w_bdev w) b).
Proof.
  intros Hd. unfold bdev_submit. rewrite decide_False by done. unfold bind, get.
  destruct (spdk_bdev_submit (w_bdev w) (w_mem w) rq) as [b rc] eqn:Hs.
  destruct (decide (rc = 0)) as [->|Hrc]; [left|right].
  - exists b. by apply submit_ok in Hs as (? & ? & ? & ?).
  - exists b, rc. apply submit_err in Hs as (? & ?); done.
Qed.

Lemma dma_malloc_cases w size align :
  (exists dm, spdk_dma_malloc size align w = Ok NULL (set_w_dma dm w)) \/
  (exists dm a junk, spdk_dma_malloc size align w =
     Ok a (set_w_dma_live (<[a := size]> (w_dma_live w))
             (set_w_mem (write_bytes (w_mem w) a junk) (set_w_dma dm w))) /\
     0 < a /\ a mod align = 0 /\ length junk = Z.to_nat size /\
     unmapped (w_mem w) a (length junk)).
Proof.
  unfold spdk_dma_malloc, bind, get.
  destruct (spdk_dma_malloc_block (w_dma w) (w_mem w) size align) as [dm [[a junk]|]] eqn:Hd;
    [right|left; by exists dm].
  exists dm, a, junk. apply dma_block_spec in Hd as (? & ? & ? & ?). done.
Qed.

(** ** One exchange *)

(** The world after the message was queued and the bdev layer polled. *)
Definition received (b : bdev_t) (r : ring_t) (w : world) : world :=
  bump (set_w_ring (Some r) (set_w_bdev b w)).

(** A turn whose poll of the bdev layer finds nothing completed. *)
Lemma turn_one_from w r p b :
  w_ring w = Some r -> ring_queue r = [p] -> bdev_poll (w_bdev w) (w_mem w) = (b, None) ->
  ctx_spdk_thread_running (w_g w) = true ->
  exists r1 r2,
    ring_queue r1 = [] /\ ring_queue r2 = [] /\ ring_capacity r2 = ring_capacity r /\
    forall fuel w1,
      process_msg fuel p (received b r1 w) = Ok false w1 -> w_ring w1 = Some r1 ->
      spdk_turn fuel w = Ok tt (set_w_ring (Some r2) w1).
Proof.
  intros Hr Hq Hb Hrun. apply poll_bdev_eq in Hb.
  destruct (poller_one (set_w_bdev b w) r p) as (r1 & r2 & Hq1 & Hq2 & Hc2 & Hpo); [done..|].
  exists r1, r2. split_and!; try done. intros fuel w1 Hp Hw1.
  specialize (Hpo fuel w1 Hp Hw1).
  unfold spdk_turn, bind at 1, gets. rewrite Hrun. simpl. unfold spdk_thread_poll.
  by rewrite (bind_ok _ _ _ _ _ (eq_trans (bind_ok _ _ _ _ _ Hb) (bind_ok _ _ _ _ _ Hpo))).
Qed.

Lemma turn_one w r p :
  w_ring w = Some r -> ring_queue r = [p] -> outstanding (w_bdev w) = [] ->
  ctx_spdk_thread_running (w_g w) = true ->
  exists b r1 r2,
    outstanding b = [] /\ same_data (w_bdev w) b /\
    ring_queue r1 = [] /\ ring_queue r2 = [] /\ ring_capacity r2 = ring_capacity r /\
    forall fuel w1,
      process_msg fuel p (received b r1 w) = Ok false w1 -> w_ring w1 = Some r1 ->
      spdk_turn fuel w = Ok tt (set_w_ring (Some r2) w1).
Proof.
  intros Hr Hq Ho Hrun. destruct (bdev_poll_nothing (w_bdev w) (w_mem w) Ho) as (b & Hb & Ho' & Hsd).
  destruct (turn_one_from w r p b Hr Hq Hb Hrun) as (r1 & r2 & Ht). by exists b, r1, r2.
Qed.

(** The client's spin on [msg->completed]. *)
Definition pending_test (p : Z) : MW bool :=
  let* m := get_msg p in ret (negb (msg_completed m)).

Lemma pending_test_eq w p m :
  w_msgs w !! p = Some m -> pending_test p w = Ok (negb (msg_completed m)) w.
Proof. intros Hm. unfold pending_test. by rewrite (bind_ok _ _ _ _ _ (get_msg_eq w p m Hm)). Qed.

(** A message sent to a thread with nothing else to do: the first turn runs its handler, then
    the client spins on. *)
Lemma send_sync_from w r p m b :
  p <> NULL -> w_ring w = Some r -> ring_queue r = [] -> (0 < ring_capacity r)%nat ->
  bdev_poll (w_bdev w) (w_mem w) = (b, None) -> ctx_spdk_thread_running (w_g w) = true ->
  w_msgs w !! p = Some m -> msg_completed m = false ->
  exists r1 r2,
    ring_queue r2 = [] /\ ring_capacity r2 = ring_capacity r /\
    forall fuel w1 n w2 m2,
      process_msg fuel p (received b r1 w) = Ok false w1 -> w_ring w1 = Some r1 ->
      while n (pending_test p) (spdk_turn fuel) (set_w_ring (Some r2) w1) = Ok tt w2 ->
      w_msgs w2 !! p = Some m2 ->
      xpdk_msg_send_sync (spdk_turn fuel) (S n) p w = Ok (msg_status m2) w2.
Proof.
  intros Hp Hr Hq Hcap Hb Hrun Hm Hmc.
  destruct (ring_enqueue_eq w r p Hr) as (r0 & He & Hq0 & Hc0); [by rewrite Hq|].
  rewrite Hq in Hq0. simpl in Hq0.
  destruct (turn_one_from (set_w_ring (Some r0) w) r0 p b)
    as (r1 & r2 & Hq1 & Hq2 & Hc2 & Ht); [done..|].
  exists r1, r2. split_and!; [done|lia|].
  intros fuel w1 n w2 m2 Hpr Hw1 Hwhile Hm2. specialize (Ht fuel w1 Hpr Hw1).
  unfold xpdk_msg_send_sync. rewrite decide_False by done.
  rewrite (bind_ok _ _ _ _ _ He). rewrite decide_False by lia. fold (pending_test p).
  rewrite (bind_ok _ _ _ _ _ (eq_trans (while_step (pending_test p) (spdk_turn fuel) n
    (set_w_ring (Some r0) w) (set_w_ring (Some r2) w1)
    (eq_trans (pending_test_eq (set_w_ring (Some r0) w) p m Hm) ltac:(by rewrite Hmc)) Ht)
    Hwhile)).
  by rewrite (bind_ok _ _ _ _ _ (get_msg_eq w2 p m2 Hm2)).
Qed.

(** ** Completions that arrive later *)

(** A turn with an empty ring. *)
Lemma turn_quiet w r b c w2 :
  w_ring w = Some r -> ring_queue r = [] -> ctx_spdk_thread_running (w_g w) = true ->
  bdev_poll (w_bdev w) (w_mem w) = (b, c) ->
  match c with
  | None => w2 = set_w_bdev b w
  | Some c => deliver c (set_w_bdev b w) = Ok tt w2
  end ->
  w_ring w2 = Some r ->
  exists r', ring_queue r' = [] /\ ring_capacity r' = ring_capacity r /\
    forall fuel, spdk_turn fuel w = Ok tt (set_w_ring (Some r') w2).
Proof.
  intros Hr Hq Hrun Hp Hc Hr2.
  exists (fst (spdk_ring_dequeue r)). destruct (dequeue_nil r Hq) as (r' & Hd & Hq' & Hc').
  rewrite Hd. simpl. split_and!; [done..|]. intros fuel.
  assert (exists busy, poll_bdev w = Ok busy w2) as [busy Hb].
  { rewrite (poll_bdev_eq w b c Hp). destruct c as [c|]; [|subst; eauto].
    rewrite (bind_ok _ _ _ _ _ Hc). eauto. }
  assert (ring_dequeue w2 = Ok None (set_w_ring (Some r') w2)) as Hdq
    by (unfold ring_dequeue, bind, get; rewrite Hr2; simpl; by rewrite Hd).
  assert (xpdk_msg_process_poller fuel w2 = Ok SPDK_POLLER_IDLE (set_w_ring (Some r') w2)) as Hpo.
  { unfold xpdk_msg_process_poller, bind at 1, gets.
    destruct (opt_turbo_mode _); simpl; by rewrite (bind_ok _ _ _ _ _ Hdq). }
  unfold spdk_turn, bind at 1, gets. rewrite Hrun. simpl. unfold spdk_thread_poll.
  by rewrite (bind_ok _ _ _ _ _ (eq_trans (bind_ok _ _ _ _ _ Hb) (bind_ok _ _ _ _ _ Hpo))).
Qed.

(** What a poll may deliver when only [wk] is outstanding. *)
Definition completes (wk : work) (b b' : bdev_t) (c : completion) : Prop :=
  outstanding b' = [] /\
  match wk, c with
  | WOpen msg name _, OpenDone msg' desc status =>
      msg' = msg /\ same_data b b' /\
      (status = 0 -> desc <> NULL /\ desc_bdev desc = spdk_bdev_get_by_name b name)
  | WQos msg bd limits, QosDone msg' status =>
      msg' = msg /\ medium b' = medium b /\
      (status = 0 -> spdk_bdev_get_qos_rate_limits b' bd = qos_effective limits)
  | WIo r, IoDone r' _ _ => r' = r
  | _, _ => False
  end.

Lemma poll_completes b m b' c wk :
  outstanding b = [wk] -> bdev_poll b m = (b', Some c) -> completes wk b b' c.
Proof.
  intros Ho Hp. unfold completes. destruct c as [r s data|msg desc st|msg st].
  - apply poll_io in Hp as (Hperm & _). rewrite Ho in Hperm.
    by apply Permutation_singleton_l in Hperm as [= -> ->].
  - apply poll_open in Hp as (name & wr & Hperm & Hsd & Hst). rewrite Ho in Hperm.
    by apply Permutation_singleton_l in Hperm as [= -> ->].
  - apply poll_qos in Hp as (bd & l & Hperm & Hmd & _ & Hst). rewrite Ho in Hperm.
    by apply Permutation_singleton_l in Hperm as [= -> ->].
Qed.

(** The client spins until [wk], the only outstanding work, has completed its message. *)
Lemma wait_work w r p m wk (Q : world -> Prop) :
  w_ring w = Some r -> ring_queue r = [] -> ctx_spdk_thread_running (w_g w) = true ->
  w_msgs w !! p = Some m -> msg_completed m = false -> outstanding (w_bdev w) = [wk] ->
  (forall b b' c r', same_data (w_bdev w) b -> completes wk b b' c ->
     exists w2 m2, deliver c (set_w_ring (Some r') (set_w_bdev b' w)) = Ok tt w2 /\
       w_ring w2 = Some r' /\ w_msgs w2 !! p = Some m2 /\ msg_completed m2 = true /\ Q w2) ->
  exists k w2 r2, ring_queue r2 = [] /\ ring_capacity r2 = ring_capacity r /\ Q w2 /\
    forall fuel n, (k <= n)%nat ->
      while n (pending_test p) (spdk_turn fuel) w = Ok tt (set_w_ring (Some r2) w2).
Proof.
  intros Hr Hq Hrun Hm Hmc Ho Hdel.
  set (I := fun k w1 =>
    (exists b r1, w1 = set_w_ring (Some r1) (set_w_bdev b w) /\ ring_queue r1 = [] /\
       ring_capacity r1 = ring_capacity r /\ same_data (w_bdev w) b /\
       outstanding b = [wk] /\ k = S (latency b)) \/
    (exists w2 m2 r2, w1 = set_w_ring (Some r2) w2 /\ ring_queue r2 = [] /\
       ring_capacity r2 = ring_capacity r /\ w_msgs w2 !! p = Some m2 /\
       msg_completed m2 = true /\ Q w2)).
  destruct (while_terminates_all (pending_test p) spdk_turn I
    (fun w1 => exists w2 r2, w1 = set_w_ring (Some r2) w2 /\ ring_queue r2 = [] /\
       ring_capacity r2 = ring_capacity r /\ Q w2))
    with (k := S (latency (w_bdev w))) (s := w)
    as (w' & (w2 & r2 & -> & Hq2 & Hc2 & HQ) & Hw).
  - intros k w1 [(b & r1 & -> & Hq1 & Hc1 & Hsd & Hob & ->)
                |(w2 & m2 & r2 & -> & Hq2 & Hc2 & Hm2 & Hmc2 & HQ)].
    + right. split; [by rewrite (pending_test_eq _ p m), Hmc|].
      destruct (bdev_poll b (w_mem w)) as [b' [c|]] eqn:Hp.
      * destruct (Hdel b b' c r1 Hsd (poll_completes _ _ _ _ _ Hob Hp))
          as (w2 & m2 & Hd & Hr2 & Hm2 & Hmc2 & HQ).
        destruct (turn_quiet (set_w_ring (Some r1) (set_w_bdev b w)) r1 b' (Some c) w2)
          as (r' & Hq' & Hc' & Ht); [done..|].
        exists 0%nat, (set_w_ring (Some r') w2). split_and!; [done|lia|].
        right. exists w2, m2, r'. split_and!; (done || lia).
      * destruct (turn_quiet (set_w_ring (Some r1) (set_w_bdev b w)) r1 b' None
          (set_w_ring (Some r1) (set_w_bdev b' w))) as (r' & Hq' & Hc' & Ht); [done..|].
        apply poll_none in Hp as (Ho' & Hs & Hl). rewrite Hob in Ho', Hl.
        exists (S (latency b')), (set_w_ring (Some r') (set_w_bdev b' w)).
        split_and!; [done|specialize (Hl ltac:(done)); lia|]. left. exists b', r'.
        split_and!; try done; [lia|]. destruct Hsd as (? & ? & ?), Hs as (? & ? & ?).
        split_and!; congruence.
    + left. split; [by rewrite (pending_test_eq _ p m2), Hmc2|by eauto 10].
  - left. exists (w_bdev w), r. split_and!; try done. destruct w; simpl in *. by subst.
  - by exists (S (latency (w_bdev w))), w2, r2.
Qed.

(** ** A request of the client *)

Lemma process_msg_eq fuel p m w :
  w_msgs w !! p = Some m -> process_msg fuel p w = dispatch fuel (msg_type m) p w.
Proof.
  intros Hm. unfold process_msg. by rewrite (bind_ok _ _ _ _ _ (get_msg_eq w p m Hm)).
Qed.

(** Allocate a message, fill it in, send it and go on with the status it got. *)
Definition request (turn : MW unit) (n : nat) (type : xpdk_msg_type) (params : msg_params)
    (K : Z -> Z -> MW Z) : MW Z :=
  let* msg := xpdk_msg_alloc type in
  if decide (msg = NULL) then ret XPDK_ERROR_NOMEM
  else
    upd_msg msg (set_msg_u params) ;;
    let* rc := xpdk_msg_send_sync turn n msg in
    K msg rc.

(** The message as the client sends it. *)
Definition sent_msg (type : xpdk_msg_type) (params : msg_params) : xpdk_msg :=
  set_msg_u params (new_msg type).

(** The world the handler of message [p] starts in. *)
Definition at_handler (p : Z) (m : xpdk_msg) (pl : pool_t) (b : bdev_t) (r : ring_t)
    (w : world) : world :=
  received b r (w_put_msg p m (set_w_pool (Some pl) w)).

(** The world when the message of a finished request is back in the pool. *)
Definition returned (p : Z) (pl : pool_t) (r : ring_t) (w1 : world) : world :=
  set_w_msgs (delete p (w_msgs w1))
    (set_w_pool (Some (spdk_mempool_put pl p)) (set_w_ring (Some r) w1)).

(** What the exchange of message [p] starts from and leaves in the ring and the pool. *)
Record exchange (w : world) (p : Z) (pl : pool_t) (b : bdev_t) (r1 r2 : ring_t) : Prop := {
  ex_not_null : p <> NULL;
  ex_fresh : w_msgs w !! p = None;
  ex_outstanding : outstanding b = [];
  ex_same : same_data (w_bdev w) b;
  ex_ring : ring_queue r2 = [] /\ (0 < ring_capacity r2)%nat;
  ex_pool : pool_free (spdk_mempool_put pl p) = free_msgs w
}.

(** A request to a thread whose next poll finds nothing. *)
Lemma request_from w type params r pl0 b :
  ctx_spdk_thread_running (w_g w) = true -> w_ring w = Some r -> ring_queue r = [] ->
  (0 < ring_capacity r)%nat -> w_pool w = Some pl0 -> pool_free pl0 ## dom (w_msgs w) ->
  bdev_poll (w_bdev w) (w_mem w) = (b, None) -> free_msgs w <> ∅ ->
  exists p pl r1 r2, p <> NULL /\ w_msgs w !! p = None /\
    ring_queue r2 = [] /\ (0 < ring_capacity r2)%nat /\
    pool_free (spdk_mempool_put pl p) = free_msgs w /\
    forall fuel n w1 w2 m2 K,
      process_msg fuel p (at_handler p (sent_msg type params) pl b r1 w) = Ok false w1 ->
      w_ring w1 = Some r1 ->
      while n (pending_test p) (spdk_turn fuel) (set_w_ring (Some r2) w1) = Ok tt w2 ->
      w_msgs w2 !! p = Some m2 ->
      request (spdk_turn fuel) (S n) type params K w = K p (msg_status m2) w2.
Proof.
  intros Hrun Hr Hq Hcap Hpl Hdis Hb Hfree.
  unfold free_msgs in Hfree. rewrite Hpl in Hfree.
  destruct (msg_alloc_eq w pl0 type Hpl Hfree) as (pl & p & Halloc & Hp & Hin & Hpl').
  set (w0 := w_put_msg p (sent_msg type params) (set_w_pool (Some pl) w)).
  destruct (send_sync_from w0 r p (sent_msg type params) b)
    as (r1 & r2 & Hq2 & Hc2 & Hsend);
    [done..|simpl; apply lookup_insert_eq|done|].
  exists p, pl, r1, r2. split_and!; [done| |done|lia| |].
  - apply not_elem_of_dom. set_solver.
  - rewrite mempool_put_free by done. unfold free_msgs. rewrite Hpl, Hpl'.
    by rewrite <- union_difference_singleton_L by done.
  - intros fuel n w1 w2 m2 K Hpr Hring Hwhile Hm2. unfold request.
    rewrite (bind_ok _ _ _ _ _ Halloc), decide_False by done.
    erewrite bind_ok by (apply (upd_msg_eq _ p (new_msg type)); simpl; apply lookup_insert_eq).
    replace (w_put_msg p _ (w_put_msg _ _ _)) with w0
      by (unfold w0, w_put_msg; simpl; by rewrite insert_insert_eq).
    by rewrite (bind_ok _ _ _ _ _ (Hsend fuel w1 n w2 m2 Hpr Hring Hwhile Hm2)).
Qed.

Lemma request_eq w type params :
  idle w -> free_msgs w <> ∅ ->
  exists p pl b r1 r2, exchange w p pl b r1 r2 /\
    forall fuel n w1 w2 m2 K,
      process_msg fuel p (at_handler p (sent_msg type params) pl b r1 w) = Ok false w1 ->
      w_ring w1 = Some r1 ->
      while n (pending_test p) (spdk_turn fuel) (set_w_ring (Some r2) w1) = Ok tt w2 ->
      w_msgs w2 !! p = Some m2 ->
      request (spdk_turn fuel) (S n) type params K w = K p (msg_status m2) w2.
Proof.
  intros [Hi Hrun _ (r & Hr & Hq & Hcap) (pl0 & Hpl & Hdis) Ho _ _] Hfree.
  destruct (bdev_poll_nothing (w_bdev w) (w_mem w) Ho) as (b & Hb & Ho' & Hsd).
  destruct (request_from w type params r pl0 b Hrun Hr Hq Hcap Hpl Hdis Hb Hfree)
    as (p & pl & r1 & r2 & Hp & Hfresh & Hq2 & Hc2 & Hpf & Hreq).
  exists p, pl, b, r1, r2. split; [|exact Hreq]. by split.
Qed.

(** A handler that completes the message at once. *)
Lemma request_one w type params :
  idle w -> free_msgs w <> ∅ ->
  exists p pl b r1 r2, exchange w p pl b r1 r2 /\
    forall fuel n w1 m1 K, (0 < n)%nat ->
      process_msg fuel p (at_handler p (sent_msg type params) pl b r1 w) = Ok false w1 ->
      w_ring w1 = Some r1 -> w_msgs w1 !! p = Some m1 -> msg_completed m1 = true ->
      request (spdk_turn fuel) n type params K w =
        K p (msg_status m1) (set_w_ring (Some r2) w1).
Proof.
  intros Hidle Hfree. destruct (request_eq w type params Hidle Hfree)
    as (p & pl & b & r1 & r2 & Hex & Hreq).
  exists p, pl, b, r1, r2. split; [done|]. intros fuel n w1 m1 K Hn Hpr Hring Hm1 Hmc.
  destruct n as [|n]; [lia|]. apply (Hreq fuel n w1); try done. apply while_stop.
  by rewrite (pending_test_eq _ p m1), Hmc.
Qed.

Lemma return_eq w1 p pl r :
  p <> NULL -> w_pool w1 = Some pl ->
  xpdk_msg_free p (set_w_ring (Some r) w1) = Ok tt (returned p pl r w1).
Proof. intros Hp Hpl. by rewrite (msg_free_eq _ pl p). Qed.

(** [send_request] as a [request]. *)
Lemma send_request_eq turn n type params w :
  send_request turn n type params w =
    request turn n type params (fun p rc => xpdk_msg_free p ;; ret rc) w.
Proof. done. Qed.

(** What a handler that completes its message at once has to establish. *)
Definition serves (type : xpdk_msg_type) (params : msg_params) (Q : Z -> world -> Prop)
    (w : world) : Prop :=
  forall p pl b r1 r2, exchange w p pl b r1 r2 ->
  exists k w1 m1,
    (forall fuel, (k <= fuel)%nat ->
       dispatch fuel type p (at_handler p (sent_msg type params) pl b r1 w) = Ok false w1) /\
    w_ring w1 = Some r1 /\ w_pool w1 = Some pl /\
    w_msgs w1 !! p = Some m1 /\ msg_completed m1 = true /\
    Q (msg_status m1) (returned p pl r2 w1).

Lemma send_request_serves w type params (Q : Z -> world -> Prop) :
  idle w -> free_msgs w <> ∅ -> serves type params Q w ->
  exists k rc w', (forall fuel n, (k <= fuel)%nat -> (0 < n)%nat ->
    send_request (spdk_turn fuel) n type params w = Ok rc w') /\ Q rc w'.
Proof.
  intros Hidle Hfree Hs.
  destruct (request_one w type params Hidle Hfree) as (p & pl & b & r1 & r2 & Hex & Hreq).
  destruct (Hs p pl b r1 r2 Hex) as (k & w1 & m1 & Hpr & Hring & Hpool & Hm1 & Hmc & HQ).
  exists k, (msg_status m1), (returned p pl r2 w1). split; [|done]. intros fuel n Hf Hn.
  assert (process_msg fuel p (at_handler p (sent_msg type params) pl b r1 w) = Ok false w1)
    by (rewrite (process_msg_eq fuel p (sent_msg type params)) by (simpl; apply lookup_insert_eq);
        by apply Hpr).
  rewrite send_request_eq, (Hreq fuel n w1 m1) by auto.
  by rewrite (bind_ok _ _ _ _ _ (return_eq w1 p pl r2 (ex_not_null _ _ _ _ _ _ Hex) Hpool)).
Qed.

Lemma request_no_message turn n type params K w pl :
  w_pool w = Some pl -> pool_free pl = ∅ ->
  exists pl', request turn n type params K w = Ok XPDK_ERROR_NOMEM (set_w_pool (Some pl') w) /\
    pool_free pl' = ∅.
Proof.
  intros Hpl He. destruct (msg_alloc_empty w pl type Hpl He) as (pl' & Ha & He').
  exists pl'. split; [|done]. unfold request. by rewrite (bind_ok _ _ _ _ _ Ha).
Qed.
(** An idle library stays as it is when its thread goes on. *)
Lemma idle_poll w :
  idle w -> exists b r,
    (forall fuel n, spdk_thread_poll fuel n w = Ok 0 (set_w_ring (Some r) (set_w_bdev b w))) /\
    idle (set_w_ring (Some r) (set_w_bdev b w)) /\ same_data (w_bdev w) b.
Proof.
  intros Hidle. pose proof Hidle as [_ Hrun _ (r & Hr & Hq & Hcap) _ Ho _ _].
  destruct (poll_bdev_nothing w Ho) as (b & Hb & Ho' & Hsd).
  assert (exists r', ring_queue r' = [] /\ ring_capacity r' = ring_capacity r /\ forall fuel,
    xpdk_msg_process_poller fuel (set_w_bdev b w) = Ok SPDK_POLLER_IDLE (set_w_ring (Some r') (set_w_bdev b w)))
    as (r' & Hq' & Hc' & Hp).
  { destruct (ring_dequeue_nil (set_w_bdev b w) r Hr Hq) as (r2 & Heq & Hq2 & Hc2).
    exists r2. split_and!; [done|done|]. intros fuel.
    unfold xpdk_msg_process_poller, bind at 1, gets.
    destruct (opt_turbo_mode _); simpl; by rewrite (bind_ok _ _ _ _ _ Heq). }
  exists b, r'. split_and!; [| |done].
  - intros fuel n. unfold spdk_thread_poll.
    by rewrite (bind_ok _ _ _ _ _ Hb), (bind_ok _ _ _ _ _ (Hp fuel)).
  - destruct Hidle. split; try done. exists r'. split_and!; [done|done|lia].
Qed.

End Idle.

(** [served Hh] discharges what [serves] asks of a handler whose run is the equation [Hh],
    up to what is special about its result. *)
Ltac served Hh :=
  split_and!;
    [intros ? _; unfold dispatch; by rewrite (bind_ok _ _ _ _ _ Hh)|done|done
    |simpl; apply lookup_insert_eq|done|done|..].

(** ** The simulated worlds are idle *)

Lemma sim_idle : @idle sim_spdk sim_spdk_laws sim_world.
Proof.
  split; try done.
  - apply sim_devices_wf.
  - eexists. split; [done|]. split; [done|]. simpl. lia.
  - eexists. split; [done|]. simpl. set_solver.
Qed.

Lemma sim_idle_open : @idle sim_spdk sim_spdk_laws sim_open_world.
Proof.
  destruct sim_idle as [? ? Hwf Hr Hp ? ? ?]. split; try done.
  by apply devices_wf_insert.
Qed.

Lemma sim_free : @free_msgs sim_spdk sim_spdk_laws sim_open_world <> ∅.
Proof. cbv [free_msgs]. simpl. set_solver. Qed.

Lemma sim_idle_info : @idle sim_spdk sim_spdk_laws sim_info_world.
Proof. destruct sim_idle_open. by split. Qed.

Lemma sim_idle_service : @idle sim_spdk sim_spdk_laws sim_service_world.
Proof. destruct sim_idle_open. by split. Qed.

Lemma sim_idle_iov : @idle sim_spdk sim_spdk_laws sim_iov_world.
Proof. destruct sim_idle_open. by split. Qed.
