(* ===== verification/IoCorrect.v ===== *)
(** Correctness of synchronous I/O: what [xpdk_read], [xpdk_write] and [xpdk_flush] do to
    the client's memory, to the medium and to the resources of the library. *)

From stdpp Require Import base gmap list strings.
From Stdlib Require Import Strings.Byte.
From S2P Require Import Prelude Types Memory Spdk World Sim Core Blocks Perf Bdev Qos Io.
From S2P Require Import Async Vectored Batch Poller Idle.

Open Scope Z_scope.

Section IoCorrect.
Context `{SpdkLaws}.
Implicit Types (w : world) (p : Z) (d : xpdk_device) (m : xpdk_msg) (r : io_req) (s : bool).

(** A slot with everything an I/O needs; its descriptor belongs to its device. *)
Record io_open (d : xpdk_device) : Prop := {
  io_open_in_use : dev_in_use d = true;
  io_open_bdev : dev_bdev d <> NULL;
  io_open_desc : dev_desc d <> NULL;
  io_open_channel : dev_channel d <> NULL;
  io_open_handle : desc_bdev (dev_desc d) = dev_bdev d
}.

Definition open_at (w : world) (fd : Z) (d : xpdk_device) : Prop :=
  0 <= fd < XPDK_MAX_OPEN_DEVICES /\ ctx_devices (w_g w) !! Z.to_nat fd = Some d /\ io_open d.

Lemma get_io_device_eq w fd d :
  open_at w fd d -> get_io_device fd w = Ok (Some d) w.
Proof.
  intros (Hfd & Hd & Ho). unfold get_io_device.
  rewrite (bind_ok _ _ _ _ _ (get_device_some w fd d Hfd Hd (io_open_in_use d Ho))).
  rewrite (bind_ok _ _ _ _ _ (get_dev_eq w fd d (proj1 Hfd) Hd)).
  destruct Ho. rewrite decide_False by tauto. done.
Qed.

(** ** Waiting for a request *)

(** What the device puts into memory by the time [r] completes. *)
Definition io_mem (r : io_req) (s : bool) (w : world) : memory :=
  match rq_kind r with
  | IoRead =>
      if s then write_bytes (w_mem w) (rq_buf r)
             (medium_bytes (medium (w_bdev w) (desc_bdev (rq_desc r)))
                (req_pos desc_bdev r) (req_len desc_bdev r))
      else w_mem w
  | _ => w_mem w
  end.

Definition io_status_of (s : bool) : Z := if s then XPDK_SUCCESS else XPDK_ERROR_IO.

Definition io_done_msg (s : bool) (n : Z) (m : xpdk_msg) : xpdk_msg :=
  set_msg_completed true
    (set_msg_u (set_bytes_transferred (if s then n else 0) (msg_u m))
      (set_msg_status (io_status_of s) m)).

(** The world when the wait is over. *)
Definition io_finished (p : Z) (r : io_req) (n : Z) (m : xpdk_msg) (s : bool) (b : bdev_t)
    (w : world) : world :=
  w_put_msg p (io_done_msg s n m)
    (set_w_sctx (<[p := Build_sync_io_ctx p true (io_status_of s) n]> (w_sctx w))
      (set_w_mem (io_mem r s w) (set_w_bdev b w))).

(** What completing [r] did to the media and the limits. *)
Definition io_effect (r : io_req) (s : bool) (w : world) (b : bdev_t) : Prop :=
  outstanding b = [] /\
  spdk_bdev_get_qos_rate_limits b = spdk_bdev_get_qos_rate_limits (w_bdev w) /\
  media_change (w_mem w) r s (medium (w_bdev w)) (medium b).

Lemma io_effect_unchanged r s w b :
  io_effect r s w b -> rq_kind r = IoRead \/ rq_kind r = IoFlush -> medium b = medium (w_bdev w).
Proof. intros (_ & _ & Hch & _). apply Hch. Qed.

Lemma set_bdev_id w : set_w_bdev (w_bdev w) w = w.
Proof. by destruct w. Qed.

(** One poll while exactly [r] is outstanding. *)
Lemma nested_poll_step w p r n m :
  outstanding (w_bdev w) = [WIo r] -> rq_cb r = SyncIoCb p ->
  w_sctx w !! p = Some (Build_sync_io_ctx p false XPDK_SUCCESS n) ->
  w_msgs w !! p = Some m ->
  (rq_kind r = IoRead -> mapped (w_mem w) (rq_buf r) (req_len desc_bdev r)) ->
  (exists b, nested_poll w = Ok tt (set_w_bdev b w) /\ outstanding b = [WIo r] /\
     same_data (w_bdev w) b /\ (latency b < latency (w_bdev w))%nat) \/
  (exists b s, nested_poll w = Ok tt (io_finished p r n m s b w) /\ io_effect r s w b).
Proof.
  intros Ho Hcb Hctx Hm Hmap. unfold nested_poll, bind at 1 2.
  destruct (bdev_poll (w_bdev w) (w_mem w)) as [b c] eqn:Hp.
  rewrite (poll_bdev_eq w b c Hp). destruct c as [c|].
  - right. destruct c as [r' s data|msg desc st|msg st].
    + apply poll_io in Hp as (Hperm & Hqos & _ & Hread & Hmedia). rewrite Ho in Hperm.
      apply Permutation_singleton_l in Hperm as [= Hr Hb]. subst r'.
      exists b, s. split; [|done].
      unfold deliver, io_finished, io_mem. rewrite Hcb.
      assert (forall w0, w_sctx w0 = w_sctx w -> w_msgs w0 = w_msgs w ->
        sync_io_completion_cb s p w0 =
          Ok tt (w_put_msg p (io_done_msg s n m)
            (set_w_sctx (<[p := Build_sync_io_ctx p true (io_status_of s) n]> (w_sctx w)) w0)))
        as Hcbeq.
      { intros w0 Hs0 Hm0. unfold sync_io_completion_cb, get_sctx, put_sctx.
        unfold bind at 1 2, get. rewrite Hs0, Hctx. simpl. unfold bind at 1, modify.
        rewrite (upd_msg_eq _ p m) by (simpl; by rewrite Hm0). rewrite Hs0. done. }
      destruct (rq_kind r) eqn:Hk;
        try (unfold bind, ret; rewrite Hcbeq by done; done).
      rewrite (Hread eq_refl). unfold bind.
      destruct s.
      * rewrite store_eq by (simpl; rewrite medium_bytes_length; by apply Hmap).
        rewrite Hcbeq by done. done.
      * rewrite store_eq by (intros x Hx; simpl in Hx; lia). simpl.
        rewrite Hcbeq by done. by destruct w.
    + apply poll_open in Hp as (name & wr & Hperm & _). rewrite Ho in Hperm.
      by apply Permutation_singleton_l in Hperm as [= ?].
    + apply poll_qos in Hp as (bd & l & Hperm & _). rewrite Ho in Hperm.
      by apply Permutation_singleton_l in Hperm as [= ?].
  - left. exists b. apply poll_none in Hp as (Ho' & Hs & Hl). rewrite Ho in Ho'.
    split_and!; try done. apply Hl. by rewrite Ho.
Qed.

Lemma same_data_medium b b' : same_data b b' -> medium b' = medium b.
Proof. by intros [? _]. Qed.

Lemma io_effect_same_data r s w b1 b :
  same_data (w_bdev w) b1 -> io_effect r s (set_w_bdev b1 w) b -> io_effect r s w b.
Proof.
  intros (Hmd & Hq & _) (Ho & Hqos & Hch). unfold io_effect. simpl in *.
  rewrite Hmd, Hq in *. done.
Qed.

Lemma io_finished_same_data p r n m s b b1 w :
  same_data (w_bdev w) b1 ->
  io_finished p r n m s b (set_w_bdev b1 w) = io_finished p r n m s b w.
Proof. intros (Hmd & _). unfold io_finished, io_mem. simpl. by rewrite Hmd. Qed.

(** The wait returns, with enough fuel for the idle polls of the device, when the request
    has completed. *)
Lemma wait_io_eq w p r n m :
  outstanding (w_bdev w) = [WIo r] -> rq_cb r = SyncIoCb p ->
  w_sctx w !! p = Some (Build_sync_io_ctx p false XPDK_SUCCESS n) ->
  w_msgs w !! p = Some m ->
  (rq_kind r = IoRead -> mapped (w_mem w) (rq_buf r) (req_len desc_bdev r)) ->
  exists b s, io_effect r s w b /\
    forall fuel, (latency (w_bdev w) < fuel)%nat ->
      wait_io nested_poll fuel p w = Ok tt (io_finished p r n m s b w).
Proof.
  intros Ho Hcb Hctx Hm Hmap.
  set (test := let* c := get_sctx p in ret (negb (sc_completed c))).
  assert (forall w1 c, w_sctx w1 !! p = Some c -> test w1 = Ok (negb (sc_completed c)) w1) as Ht.
  { intros w1 c Hc. unfold test, get_sctx, bind, get. by rewrite Hc. }
  destruct (while_terminates test nested_poll
    (fun k w1 => (exists b, w1 = set_w_bdev b w /\ outstanding b = [WIo r] /\
                    same_data (w_bdev w) b /\ k = S (latency b)) \/
                 (exists b s, w1 = io_finished p r n m s b w /\ io_effect r s w b))
    (fun w1 => exists b s, w1 = io_finished p r n m s b w /\ io_effect r s w b))
    with (k := S (latency (w_bdev w))) (s := w) as (w' & (b & s & -> & Heff) & Hw).
  - intros k w1 [(b & -> & Hob & Hsd & ->)|(b & s & -> & Heff)].
    + right. split; [by erewrite Ht by (simpl; exact Hctx)|].
      destruct (nested_poll_step (set_w_bdev b w) p r n m)
        as [(b' & Heq & Hob' & Hsd' & Hlt)|(b' & s & Heq & Heff)]; [done..| |].
      * exists (S (latency b')), (set_w_bdev b' w). split_and!; [done|simpl in Hlt; lia|].
        left. exists b'. split_and!; try done.
        destruct Hsd as (? & ? & ?), Hsd' as (? & ? & ?). simpl in *.
        split_and!; congruence.
      * exists 0%nat, (io_finished p r n m s b' w).
        rewrite Heq, io_finished_same_data by done. split_and!; [done|lia|].
        right. exists b', s. split; [done|]. by apply (io_effect_same_data r s w b).
    + left. split; [|by eauto]. by erewrite Ht by (simpl; apply lookup_insert_eq).
  - left. exists (w_bdev w). by rewrite set_bdev_id.
  - exists b, s. split; [done|]. intros fuel Hf. apply Hw. lia.
Qed.

(** A synchronous request, from its submission to its completion. *)
Definition framed (p n : Z) (w : world) : world :=
  set_w_sctx (<[p := Build_sync_io_ctx p false XPDK_SUCCESS n]> (w_sctx w)) w.

Lemma submit_and_wait w p m r n :
  w_msgs w !! p = Some m -> outstanding (w_bdev w) = [] ->
  rq_cb r = SyncIoCb p -> rq_desc r <> NULL ->
  (rq_kind r = IoRead -> mapped (w_mem w) (rq_buf r) (req_len desc_bdev r)) ->
  (exists b rc, rc <> 0 /\ bdev_submit r (framed p n w) = Ok rc (set_w_bdev b (framed p n w)) /\
     outstanding b = [] /\ same_data (w_bdev w) b) \/
  (exists b0 b s k, bdev_submit r (framed p n w) = Ok 0 (set_w_bdev b0 (framed p n w)) /\
     io_effect r s w b /\
     forall fuel, (k <= fuel)%nat ->
       wait_io nested_poll fuel p (set_w_bdev b0 (framed p n w)) =
         Ok tt (io_finished p r n m s b (framed p n w))).
Proof.
  intros Hm Ho Hcb Hd Hmap.
  destruct (bdev_submit_cases (framed p n w) r Hd)
    as [(b0 & Hs & Ho0 & Hsd & _)|(b & rc & Hrc & Hs & Ho' & Hsd)]; simpl in *.
  - right. rewrite Ho in Ho0. simpl in Ho0.
    destruct (wait_io_eq (set_w_bdev b0 (framed p n w)) p r n m) as (b & s & Heff & Hw);
      [done|done|simpl; apply lookup_insert_eq|done|done|].
    exists b0, b, s, (S (latency b0)). split_and!; [done| |].
    + apply (io_effect_same_data r s (framed p n w) b0 b) in Heff; [|done]. exact Heff.
    + intros fuel Hf. rewrite Hw by (simpl; lia). by rewrite io_finished_same_data.
  - left. exists b, rc. by rewrite Ho in Ho'.
Qed.

(** ** The read handler *)

(** A world that differs from [w] in what an I/O handler may change: its message, the
    device, memory and the DMA allocator. *)
Definition io_world (p : Z) (m' : xpdk_msg) (b : bdev_t) (me : memory) (dm : dma_t)
    (dl : gmap Z Z) (w : world) : world :=
  set_w_dma dm (set_w_dma_live dl (set_w_mem me (set_w_bdev b (w_put_msg p m' w)))).

(** Where on the medium a transfer starts: [offset] rounded down to a block. *)
Definition start_of (d : xpdk_device) (offset : Z) : Z :=
  offset_blocks offset (spdk_bdev_get_block_size (dev_bdev d)) *
  spdk_bdev_get_block_size (dev_bdev d).

(** The bounce buffer is needed. *)
Definition needs_bounce (d : xpdk_device) (ub count : Z) : Prop :=
  ub mod spdk_bdev_get_block_size (dev_bdev d) <> 0 \/
  count mod spdk_bdev_get_block_size (dev_bdev d) <> 0.

(** Status, memory and live DMA blocks after a synchronous read. *)
Inductive read_outcome (w : world) (d : xpdk_device) (ub count offset : Z) :
    Z -> memory -> gmap Z Z -> Prop :=
| read_ok :
    read_outcome w d ub count offset XPDK_SUCCESS
      (write_bytes (w_mem w) ub
         (medium_bytes (medium (w_bdev w) (dev_bdev d)) (start_of d offset) (Z.to_nat count)))
      (w_dma_live w)
| read_no_memory :
    read_outcome w d ub count offset XPDK_ERROR_NOMEM (w_mem w) (w_dma_live w)
| read_not_done :
    read_outcome w d ub count offset XPDK_ERROR_IO (w_mem w) (w_dma_live w)
| read_leak a junk :
    needs_bounce d ub count -> unmapped (w_mem w) a (length junk) ->
    count <= Z.of_nat (length junk) ->
    read_outcome w d ub count offset XPDK_ERROR_IO (write_bytes (w_mem w) a junk)
      (<[a := Z.of_nat (length junk)]> (w_dma_live w)).

(** What the message of a finished I/O says. *)
Definition io_reported (m m' : xpdk_msg) (status count : Z) : Prop :=
  msg_completed m' = true /\ msg_status m' = status /\
  (status = XPDK_SUCCESS -> msg_u m' = set_bytes_transferred count (msg_u m)).

Lemma io_reported_error m m0 status count :
  status <> XPDK_SUCCESS ->
  io_reported m (set_msg_completed true (set_msg_status status m0)) status count.
Proof. intros Hne. by split_and!. Qed.

Lemma io_reported_done m m0 s n :
  msg_u m0 = msg_u m -> io_reported m (io_done_msg s n m0) (io_status_of s) n.
Proof. intros Hu. destruct s; by split_and!; simpl; rewrite ?Hu. Qed.

Section Requests.
Context (w : world) (p : Z) (m : xpdk_msg) (fd ub count offset bt uctx : Z) (d : xpdk_device).
Hypothesis Hmsg : w_msgs w !! p = Some m.
Hypothesis Hu : msg_u m = PIo fd ub count offset bt None uctx.
Hypothesis Hopen : open_at w fd d.
Hypothesis Hcount : 0 < count.
Hypothesis Hsmall : count + spdk_bdev_get_block_size (dev_bdev d) <= 2 ^ 32.
Hypothesis Hmapped : mapped (w_mem w) ub (Z.to_nat count).
Hypothesis Hquiet : outstanding (w_bdev w) = [].
Hypothesis Hframe : w_sctx w !! p = None.
Hypothesis Hlive : forall a n, w_dma_live w !! a = Some n ->
  0 < n /\ mapped (w_mem w) a (Z.to_nat n).

Abbreviation bs := (spdk_bdev_get_block_size (dev_bdev d)).

Lemma bs_range : 0 < bs < 2 ^ 32.
Proof. apply block_size_range. Qed.

Definition read_req (buf : Z) : io_req :=
  Build_io_req IoRead (dev_desc d) (dev_channel d) buf
    (offset_blocks offset bs) (num_blocks count bs) (SyncIoCb p).

Lemma dma_size_eq : u32 (num_blocks count bs * bs) = num_blocks count bs * bs.
Proof. apply dma_size_exact; [apply bs_range|lia|done]. Qed.

Lemma req_len_eq (r : io_req) :
  rq_desc r = dev_desc d -> rq_nblk r = num_blocks count bs ->
  req_len desc_bdev r = Z.to_nat (num_blocks count bs * bs).
Proof.
  intros Hd Hn. unfold req_len. rewrite Hd, Hn.
  destruct Hopen as (_ & _ & Ho). by rewrite (io_open_handle d Ho).
Qed.

Lemma req_pos_eq (r : io_req) :
  rq_desc r = dev_desc d -> rq_off r = offset_blocks offset bs ->
  req_pos desc_bdev r = start_of d offset.
Proof.
  intros Hd Hn. unfold req_pos, start_of. rewrite Hd, Hn.
  destruct Hopen as (_ & _ & Ho). by rewrite (io_open_handle d Ho).
Qed.

(** A new block is not one of the live ones. *)
Lemma fresh_block_not_live a (junk : list byte) :
  unmapped (w_mem w) a (length junk) -> (0 < length junk)%nat -> w_dma_live w !! a = None.
Proof.
  intros Hun Hpos. destruct (w_dma_live w !! a) as [n|] eqn:Ha; [|done].
  apply Hlive in Ha as [Hn Hma]. destruct (Hma a) as [x Hx]; [lia|].
  rewrite Hun in Hx by lia. done.
Qed.

(** ** The read handler, case by case *)

Hypothesis Hflags : Z.land (dev_flags d) O_WRONLY = 0.

Definition handled (h : nat -> MW unit) (out : Z -> memory -> gmap Z Z -> Prop)
    (eff : bdev_t -> Z -> Prop) : Prop :=
  exists k st m' b me dm dl,
    out st me dl /\ io_reported m m' st count /\ outstanding b = [] /\ eff b st /\
    forall fuel, (k <= fuel)%nat -> h fuel w = Ok tt (io_world p m' b me dm dl w).

Definition same_medium (b : bdev_t) (_ : Z) : Prop := medium b = medium (w_bdev w).

Lemma handled_intro h out eff k st m' b me dm dl :
  out st me dl -> io_reported m m' st count -> outstanding b = [] -> eff b st ->
  (forall fuel, (k <= fuel)%nat -> h fuel w = Ok tt (io_world p m' b me dm dl w)) ->
  handled h out eff.
Proof. intros. by exists k, st, m', b, me, dm, dl. Qed.

(** The handler from the submission on. *)
Definition read_tail (fuel : nat) (need : bool) (buffer : Z) : MW unit :=
  put_sctx p (Build_sync_io_ctx p false XPDK_SUCCESS count) ;;
  let* rc := bdev_submit (read_req buffer) in
  (if decide (rc <> 0) then
     when need (spdk_dma_free buffer) ;; complete_msg p XPDK_ERROR_IO
   else
     wait_io nested_poll fuel p ;;
     let* c := get_sctx p in
     when (need && bool_decide (sc_status c = XPDK_SUCCESS))
       (memcpy ub buffer count ;; spdk_dma_free buffer)) ;;
  pop_sctx p.

Lemma handle_read_eq fuel :
  xpdk_spdk_handle_read nested_poll fuel p w =
    (if decide (needs_bounce d ub count) then
       let* a := spdk_dma_malloc (num_blocks count bs * bs) bs in
       if decide (a = NULL) then complete_msg p XPDK_ERROR_NOMEM
       else upd_msg p (set_msg_ctx a) ;; read_tail fuel true a
     else read_tail fuel false ub) w.
Proof.
  pose proof bs_range as Hbs. unfold xpdk_spdk_handle_read.
  rewrite (bind_ok _ _ _ _ _ (get_msg_eq w p m Hmsg)), Hu.
  rewrite (bind_ok _ _ _ _ _ (get_io_device_eq w fd d Hopen)).
  rewrite decide_False by (rewrite Hflags; tauto). unfold block_range at 1.
  rewrite decide_False by lia. rewrite bind_ret_l. simpl fst. simpl snd.
  rewrite dma_size_eq. unfold needs_bounce.
  destruct (decide (ub mod bs <> 0 \/ count mod bs <> 0)) as [Hn|Hn].
  - rewrite bool_decide_eq_true_2 by done. unfold read_tail, bind.
    destruct (spdk_dma_malloc _ _ w) as [a w1|e|w1]; [|reflexivity..].
    destruct (decide (a = NULL)); [reflexivity|].
    by destruct (upd_msg p (set_msg_ctx a) w1).
  - by rewrite bool_decide_eq_false_2 by done.
Qed.

Lemma get_sctx_finished w1 r n m1 s b :
  get_sctx p (io_finished p r n m1 s b w1) =
    Ok (Build_sync_io_ctx p true (io_status_of s) n) (io_finished p r n m1 s b w1).
Proof. unfold get_sctx, bind, get. simpl. by rewrite lookup_insert_eq. Qed.

(** The frame goes; what remains of a finished request. *)
Lemma pop_finished w1 r n m1 s b :
  w_sctx w1 !! p = None ->
  pop_sctx p (io_finished p r n m1 s b (framed p n w1)) =
    Ok tt (io_world p (io_done_msg s n m1) b (io_mem r s w1) (w_dma w1) (w_dma_live w1) w1).
Proof.
  intros Hn. unfold pop_sctx, modify. f_equal.
  unfold io_finished, io_world, io_mem, framed. destruct w1; simpl in *. f_equal.
  by rewrite !delete_insert_eq, delete_id.
Qed.

(** The same when the request was refused and its message completed with [m1]. *)
Lemma pop_refused w1 n m1 b :
  w_sctx w1 !! p = None ->
  pop_sctx p (w_put_msg p m1 (set_w_bdev b (framed p n w1))) =
    Ok tt (io_world p m1 b (w_mem w1) (w_dma w1) (w_dma_live w1) w1).
Proof.
  intros Hn. unfold pop_sctx, modify. f_equal. unfold io_world, framed.
  destruct w1; simpl in *. f_equal. by rewrite delete_insert_eq, delete_id.
Qed.

Lemma handle_read_direct :
  ~ needs_bounce d ub count ->
  handled (fun fuel => xpdk_spdk_handle_read nested_poll fuel p)
    (read_outcome w d ub count offset) same_medium.
Proof.
  intros Hno. pose proof bs_range as Hbs.
  assert (req_len desc_bdev (read_req ub) = Z.to_nat count) as Hrl.
  { unfold needs_bounce in Hno. rewrite (req_len_eq (read_req ub)) by done.
    by rewrite num_blocks_multiple by (lia || done). }
  assert (forall fuel, xpdk_spdk_handle_read nested_poll fuel p w = read_tail fuel false ub w) as Heq.
  { intros fuel. by rewrite handle_read_eq, decide_False by done. }
  destruct (submit_and_wait w p m (read_req ub) count) as
    [(b & rc & Hrc & Hs & Ho & Hsd)|(b0 & b & s & k & Hs & Heff & Hw)];
    [done|done|done|by destruct Hopen as (_ & _ & []) |by rewrite Hrl|..].
  - eapply (handled_intro _ _ _ 0 _ _ b (w_mem w) (w_dma w) (w_dma_live w));
      [apply read_not_done|by apply io_reported_error|done|by apply same_data_medium|].
    intros fuel _. rewrite Heq. unfold read_tail.
    rewrite (bind_ok _ _ _ _ _ (eq_refl : put_sctx p _ w = Ok tt (framed p count w))).
    rewrite (bind_ok _ _ _ _ _ Hs). rewrite decide_True by done. simpl when.
    rewrite bind_assoc, bind_ret_l, (bind_ok _ _ _ _ _
      (complete_msg_eq (set_w_bdev b (framed p count w)) p m _ Hmsg)).
    by rewrite pop_refused.
  - apply (handled_intro _ _ _ k (io_status_of s) (io_done_msg s count m) b (io_mem (read_req ub) s w) (w_dma w) (w_dma_live w));
      [|by apply io_reported_done|by destruct Heff|by eapply io_effect_unchanged; [|left]|].
    + unfold io_mem, io_status_of. simpl. destruct s; [|apply read_not_done].
      destruct Hopen as (_ & _ & Ho). rewrite Hrl, (io_open_handle d Ho).
      rewrite (req_pos_eq (read_req ub)) by done. apply read_ok.
    + intros fuel Hf. rewrite Heq. unfold read_tail.
      rewrite (bind_ok _ _ _ _ _ (eq_refl : put_sctx p _ w = Ok tt (framed p count w))).
      rewrite (bind_ok _ _ _ _ _ Hs). rewrite decide_False by lia.
      rewrite bind_assoc, (bind_ok _ _ _ _ _ (Hw fuel Hf)).
      rewrite bind_assoc, (bind_ok _ _ _ _ _ (get_sctx_finished _ _ _ _ _ _)).
      simpl andb. simpl when. by rewrite bind_ret_l, pop_finished.
Qed.

(** The world once the bounce buffer is allocated and recorded in the message. *)
Definition bounced (a : Z) (junk : list byte) (dm : dma_t) : world :=
  io_world p (set_msg_ctx a m) (w_bdev w) (write_bytes (w_mem w) a junk) dm
    (<[a := Z.of_nat (length junk)]> (w_dma_live w)) w.

Lemma bounced_eq a (junk : list byte) dm (size : Z) :
  0 <= size -> length junk = Z.to_nat size ->
  upd_msg p (set_msg_ctx a)
    (set_w_dma_live (<[a := size]> (w_dma_live w))
      (set_w_mem (write_bytes (w_mem w) a junk) (set_w_dma dm w))) =
  Ok tt (bounced a junk dm).
Proof.
  intros Hs Hl. assert (size = Z.of_nat (length junk)) as -> by lia.
  by rewrite (upd_msg_eq _ p m).
Qed.

Lemma io_world_bounced a junk dm0 m1 b me dm dl :
  io_world p m1 b me dm dl (bounced a junk dm0) = io_world p m1 b me dm dl w.
Proof. unfold bounced, io_world, w_put_msg. simpl. by rewrite insert_insert_eq. Qed.

(** A finished request as the frame of its handler over the world it leaves. *)
Definition in_frame (c : sync_io_ctx) (w1 : world) : world :=
  set_w_sctx (<[p := c]> (w_sctx w)) w1.

Lemma io_finished_bounced a junk dm r n m1 s b :
  io_finished p r n m1 s b (framed p n (bounced a junk dm)) =
    in_frame (Build_sync_io_ctx p true (io_status_of s) n)
      (io_world p (io_done_msg s n m1) b (io_mem r s (bounced a junk dm)) dm
         (<[a := Z.of_nat (length junk)]> (w_dma_live w)) w).
Proof.
  unfold io_finished, in_frame, framed, bounced, io_world, io_mem, w_put_msg. simpl.
  by rewrite !insert_insert_eq.
Qed.

Lemma pop_in_frame c m1 b me dm dl :
  pop_sctx p (in_frame c (io_world p m1 b me dm dl w)) = Ok tt (io_world p m1 b me dm dl w).
Proof.
  unfold pop_sctx, modify, in_frame. simpl. by rewrite delete_insert_id by exact Hframe.
Qed.

Lemma free_in_frame a (junk : list byte) c m1 b me dm :
  unmapped (w_mem w) a (length junk) -> (0 < length junk)%nat ->
  spdk_dma_free a (in_frame c (io_world p m1 b me dm
      (<[a := Z.of_nat (length junk)]> (w_dma_live w)) w)) =
    Ok tt (in_frame c (io_world p m1 b (unmap_bytes me a (length junk)) dm (w_dma_live w) w)).
Proof.
  intros Hun Hpos. rewrite (dma_free_eq _ a (Z.of_nat (length junk)))
    by (simpl; apply lookup_insert_eq).
  unfold in_frame, io_world. simpl. rewrite Nat2Z.id, delete_insert_eq, delete_id; [done|].
  by apply (fresh_block_not_live a junk).
Qed.
Lemma framed_bounced a junk dm b n :
  set_w_bdev b (framed p n (bounced a junk dm)) =
    in_frame (Build_sync_io_ctx p false XPDK_SUCCESS n)
      (io_world p (set_msg_ctx a m) b (write_bytes (w_mem w) a junk) dm
         (<[a := Z.of_nat (length junk)]> (w_dma_live w)) w).
Proof. done. Qed.

Lemma complete_in_frame c m1 b me dm dl rc :
  complete_msg p rc (in_frame c (io_world p m1 b me dm dl w)) =
    Ok tt (in_frame c (io_world p (set_msg_completed true (set_msg_status rc m1)) b me dm dl w)).
Proof.
  rewrite (complete_msg_eq _ p m1) by (simpl; apply lookup_insert_eq).
  unfold in_frame, io_world, w_put_msg. simpl. by rewrite insert_insert_eq.
Qed.

Lemma get_sctx_in_frame c w1 : get_sctx p (in_frame c w1) = Ok c (in_frame c w1).
Proof. unfold get_sctx, bind, get. simpl. by rewrite lookup_insert_eq. Qed.

(** The end of a read through a bounce buffer that holds the transferred [data]. *)
Lemma copy_back a (junk data : list byte) c m1 b dm :
  unmapped (w_mem w) a (length junk) -> length junk = length data ->
  (Z.to_nat count <= length data)%nat ->
  (memcpy ub a count ;; spdk_dma_free a)
    (in_frame c (io_world p m1 b (write_bytes (write_bytes (w_mem w) a junk) a data) dm
       (<[a := Z.of_nat (length junk)]> (w_dma_live w)) w)) =
    Ok tt (in_frame c (io_world p m1 b (write_bytes (w_mem w) ub (take (Z.to_nat count) data)) dm
       (w_dma_live w) w)).
Proof.
  intros Hun Hl Hle. unfold memcpy. rewrite bind_assoc.
  erewrite bind_ok by (apply load_eq; simpl; apply (load_bytes_take _ _ (length data));
    [apply load_write_same|done]).
  erewrite bind_ok by (apply store_eq; simpl; rewrite length_take_le by done;
    do 2 apply mapped_write; exact Hmapped).
  change (set_w_mem ?x (in_frame c (io_world p m1 b ?y dm ?l w)))
    with (in_frame c (io_world p m1 b x dm l w)).
  rewrite free_in_frame by (done || lia). do 3 f_equal.
  rewrite Hl. apply bounce_buffer_gone; (done || lia).
Qed.

Lemma blocks_cover : count <= num_blocks count bs * bs.
Proof.
  pose proof bs_range as Hbs. rewrite num_blocks_exact by lia.
  destruct (ceil_blocks_bounds count bs (proj1 Hbs)). done.
Qed.

(** The read through a fresh bounce buffer. *)
Lemma read_tail_bounced a junk dm :
  needs_bounce d ub count -> length junk = Z.to_nat (num_blocks count bs * bs) ->
  unmapped (w_mem w) a (length junk) ->
  exists k st m' b me dl,
    read_outcome w d ub count offset st me dl /\ io_reported m m' st count /\
    outstanding b = [] /\ medium b = medium (w_bdev w) /\
    forall fuel, (k <= fuel)%nat ->
      read_tail fuel true a (bounced a junk dm) = Ok tt (io_world p m' b me dm dl w).
Proof.
  intros Hneed Hl Hun. pose proof blocks_cover as Hcover. pose proof bs_range as Hbs.
  assert (req_len desc_bdev (read_req a) = length junk) as Hrl
    by (rewrite Hl; by apply req_len_eq).
  assert (0 < length junk)%nat as Hpos by lia. set (wb := bounced a junk dm).
  destruct (submit_and_wait wb p (set_msg_ctx a m) (read_req a) count) as
    [(b & rc & Hrc & Hs & Ho & Hsd)|(b0 & b & s & k & Hs & Heff & Hw)];
    [simpl; apply lookup_insert_eq|done|done|by destruct Hopen as (_ & _ & [])
    |rewrite Hrl; intros _; apply mapped_write_self|..].
  - exists 0%nat, XPDK_ERROR_IO. do 4 eexists.
    split_and!; [apply read_not_done|by apply io_reported_error|done|by apply same_data_medium|].
    intros fuel _. unfold read_tail.
    rewrite (bind_ok _ _ _ _ _ (eq_refl : put_sctx p _ wb = Ok tt (framed p count wb))).
    rewrite (bind_ok _ _ _ _ _ Hs). rewrite decide_True by done. simpl when.
    unfold wb at 1. rewrite framed_bounced, bind_assoc.
    rewrite (bind_ok _ _ _ _ _ (free_in_frame _ _ _ _ _ _ _ Hun Hpos)).
    rewrite (bind_ok _ _ _ _ _ (complete_in_frame _ _ _ _ _ _ _)), pop_in_frame.
    by rewrite unmap_write_fresh.
  - exists k, (io_status_of s), (io_done_msg s count (set_msg_ctx a m)), b.
    unfold wb in Hw. rewrite io_finished_bounced in Hw.
    assert (forall fuel (Hf : (k <= fuel)%nat) me dl,
      when (true && bool_decide (io_status_of s = XPDK_SUCCESS)) (memcpy ub a count ;; spdk_dma_free a)
        (in_frame (Build_sync_io_ctx p true (io_status_of s) count)
         (io_world p (io_done_msg s count (set_msg_ctx a m)) b (io_mem (read_req a) s wb) dm
         (<[a := Z.of_nat (length junk)]> (w_dma_live w)) w)) =
      Ok tt (in_frame (Build_sync_io_ctx p true (io_status_of s) count)
         (io_world p (io_done_msg s count (set_msg_ctx a m)) b me dm dl w)) ->
      read_tail fuel true a wb =
        Ok tt (io_world p (io_done_msg s count (set_msg_ctx a m)) b me dm dl w)) as Hgo.
    { intros fuel Hf me dl Hcopy. unfold read_tail.
      rewrite (bind_ok _ _ _ _ _ (eq_refl : put_sctx p _ wb = Ok tt (framed p count wb))).
      rewrite (bind_ok _ _ _ _ _ Hs). rewrite decide_False by lia.
      rewrite bind_assoc, (bind_ok _ _ _ _ _ (Hw fuel Hf)).
      rewrite bind_assoc, (bind_ok _ _ _ _ _ (get_sctx_in_frame _ _)).
      by rewrite (bind_ok _ _ _ _ _ Hcopy), pop_in_frame. }
    destruct s; do 2 eexists; split_and!;
      try (by apply io_reported_done); try (by destruct Heff);
      try (by eapply (io_effect_unchanged _ _ wb); [|left]).
    + apply read_ok.
    + intros fuel Hf. apply Hgo; [done|]. destruct Hopen as (_ & _ & Hio).
      unfold io_mem. cbn [rq_kind read_req rq_buf rq_desc].
      rewrite Hrl, (req_pos_eq (read_req a)), (io_open_handle d Hio) by done.
      simpl when. rewrite copy_back by (rewrite ?medium_bytes_length; done || lia).
      by rewrite medium_bytes_take by lia.
    + apply read_leak; (done || lia).
    + intros fuel Hf. by apply Hgo.
Qed.

Lemma handle_read_ok :
  handled (fun fuel => xpdk_spdk_handle_read nested_poll fuel p)
    (read_outcome w d ub count offset) same_medium.
Proof.
  destruct (decide (needs_bounce d ub count)) as [Hneed|Hno]; [|by apply handle_read_direct].
  pose proof bs_range as Hbs. pose proof blocks_cover as Hcover.
  assert (forall fuel, xpdk_spdk_handle_read nested_poll fuel p w =
    (let* a := spdk_dma_malloc (num_blocks count bs * bs) bs in
     if decide (a = NULL) then complete_msg p XPDK_ERROR_NOMEM
     else upd_msg p (set_msg_ctx a) ;; read_tail fuel true a) w) as Heq.
  { intros fuel. by rewrite handle_read_eq, decide_True by done. }
  destruct (dma_malloc_cases w (num_blocks count bs * bs) bs)
    as [(dm & Hm)|(dm & a & junk & Hm & Ha & Hal & Hl & Hun)].
  - eapply (handled_intro _ _ _ 0 _ _ (w_bdev w) (w_mem w) dm (w_dma_live w));
      [apply read_no_memory|by apply io_reported_error|done|done|].
    intros fuel _. rewrite Heq, (bind_ok _ _ _ _ _ Hm), decide_True by done.
    rewrite (complete_msg_eq _ p m) by done. by destruct w.
  - destruct (read_tail_bounced a junk dm Hneed Hl Hun)
      as (k & st & m' & b & me & dl & Hout & Hrep & Ho & Hmd & Hrun).
    assert (0 <= num_blocks count bs * bs) as Hpos by lia.
    apply (handled_intro _ _ _ k st m' b me dm dl); try done.
    intros fuel Hf. rewrite Heq, (bind_ok _ _ _ _ _ Hm), decide_False by (unfold NULL; lia).
    rewrite (bind_ok _ _ _ _ _ (bounced_eq a junk dm _ Hpos Hl)). by apply Hrun.
Qed.

(** ** The write handler *)

(** What goes to the device: the data, zero-padded to the end of its last block. *)
Definition padded (data : list byte) : list byte :=
  data ++ replicate (Z.to_nat (num_blocks count bs * bs) - length data) x00.

Definition write_req (buf : Z) : io_req :=
  Build_io_req IoWrite (dev_desc d) (dev_channel d) buf
    (offset_blocks offset bs) (num_blocks count bs) (SyncIoCb p).

(** A successful write put the padded data on the medium of its device; whatever its
    status, nothing outside of its blocks changed. *)
Definition write_effect (data : list byte) (b : bdev_t) (st : Z) : Prop :=
  (st = XPDK_SUCCESS -> forall bd x, medium b bd x =
     if decide (bd = dev_bdev d)
     then medium_write (medium (w_bdev w) bd) (start_of d offset) (padded data) x
     else medium (w_bdev w) bd x) /\
  (forall bd x, bd <> dev_bdev d \/ x < start_of d offset \/
     start_of d offset + num_blocks count bs * bs <= x ->
     medium b bd x = medium (w_bdev w) bd x).

Lemma write_effect_none data b st :
  st <> XPDK_SUCCESS -> medium b = medium (w_bdev w) -> write_effect data b st.
Proof. intros Hst Hb. split; [done|]. intros bd x _. by rewrite Hb. Qed.

(** Status of a write; memory and the live blocks are as before in every case. *)
Definition write_outcome (st : Z) (me : memory) (dl : gmap Z Z) : Prop :=
  (st = XPDK_SUCCESS \/ st = XPDK_ERROR_IO \/ st = XPDK_ERROR_NOMEM) /\
  me = w_mem w /\ dl = w_dma_live w.

Definition write_tail (fuel : nat) (buffer : Z) : MW unit :=
  put_sctx p (Build_sync_io_ctx p false XPDK_SUCCESS count) ;;
  let* rc := bdev_submit (write_req buffer) in
  (if decide (rc <> 0) then
     spdk_dma_free buffer ;; complete_msg p XPDK_ERROR_IO
   else
     wait_io nested_poll fuel p ;; spdk_dma_free buffer) ;;
  pop_sctx p.

(** The write from a fresh buffer that holds the padded data. *)
Lemma write_tail_bounced a data dm :
  length data = Z.to_nat count -> unmapped (w_mem w) a (length (padded data)) ->
  exists k st m' b,
    write_outcome st (w_mem w) (w_dma_live w) /\ io_reported m m' st count /\
    outstanding b = [] /\ write_effect data b st /\
    forall fuel, (k <= fuel)%nat ->
      write_tail fuel a (bounced a (padded data) dm) =
        Ok tt (io_world p m' b (w_mem w) dm (w_dma_live w) w).
Proof.
  intros Hd Hun. pose proof blocks_cover as Hcover.
  assert (length (padded data) = Z.to_nat (num_blocks count bs * bs)) as Hl
    by (unfold padded; rewrite length_app, length_replicate; lia).
  assert (req_len desc_bdev (write_req a) = length (padded data)) as Hrl
    by (rewrite Hl; by apply req_len_eq).
  assert (0 < length (padded data))%nat as Hpos by lia.
  set (wb := bounced a (padded data) dm).
  destruct (submit_and_wait wb p (set_msg_ctx a m) (write_req a) count) as
    [(b & rc & Hrc & Hs & Ho & Hsd)|(b0 & b & s & k & Hs & Heff & Hw)];
    [simpl; apply lookup_insert_eq|done|done|by destruct Hopen as (_ & _ & [])|done|..].
  - exists 0%nat, XPDK_ERROR_IO. do 2 eexists.
    split_and!; [by unfold write_outcome; auto|by apply io_reported_error|done
      |by apply write_effect_none; [|apply same_data_medium]|].
    intros fuel _. unfold write_tail.
    rewrite (bind_ok _ _ _ _ _ (eq_refl : put_sctx p _ wb = Ok tt (framed p count wb))).
    rewrite (bind_ok _ _ _ _ _ Hs). rewrite decide_True by done.
    unfold wb at 1. rewrite framed_bounced, bind_assoc.
    rewrite (bind_ok _ _ _ _ _ (free_in_frame _ _ _ _ _ _ _ Hun Hpos)).
    rewrite (bind_ok _ _ _ _ _ (complete_in_frame _ _ _ _ _ _ _)), pop_in_frame.
    by rewrite unmap_write_fresh.
  - exists k, (io_status_of s), (io_done_msg s count (set_msg_ctx a m)), b.
    destruct Heff as (Ho & _ & Hch & Heff & Hout).
    split_and!; [destruct s; by unfold write_outcome; auto|by apply io_reported_done|done| |].
    + destruct Hopen as (_ & _ & Hio). rewrite Hrl, (req_pos_eq (write_req a)), Hl in Hout by done.
      cbn [rq_desc write_req] in *. rewrite (io_open_handle d Hio) in *. split.
      * intros Hst bd x. destruct s; [|done].
        rewrite (Heff eq_refl (padded data))
          by (unfold req_data; simpl rq_kind; rewrite Hrl; apply load_write_same).
        by rewrite (req_pos_eq (write_req a)) by done.
      * intros bd x Hx. apply Hout. lia.
    + intros fuel Hf. unfold write_tail.
      rewrite (bind_ok _ _ _ _ _ (eq_refl : put_sctx p _ wb = Ok tt (framed p count wb))).
      rewrite (bind_ok _ _ _ _ _ Hs). rewrite decide_False by lia.
      rewrite bind_assoc, (bind_ok _ _ _ _ _ (Hw fuel Hf)).
      unfold wb. rewrite io_finished_bounced.
      rewrite (bind_ok _ _ _ _ _ (free_in_frame _ _ _ _ _ _ _ Hun Hpos)), pop_in_frame.
      unfold io_mem. simpl. by rewrite unmap_write_fresh.
Qed.

(** [memset], [memcpy] and the record in the message leave the padded data. *)
Lemma fill_bounced (K : MW unit) a (junk data : list byte) dm :
  length junk = Z.to_nat (num_blocks count bs * bs) ->
  unmapped (w_mem w) a (length junk) ->
  load_bytes (w_mem w) ub (Z.to_nat count) = Some data ->
  (memset0 a (num_blocks count bs * bs) ;; memcpy a ub count ;;
   upd_msg p (set_msg_ctx a) ;; K)
    (set_w_dma_live (<[a := num_blocks count bs * bs]> (w_dma_live w))
      (set_w_mem (write_bytes (w_mem w) a junk) (set_w_dma dm w))) =
  K (bounced a (padded data) dm).
Proof.
  intros Hl Hun Hdata. pose proof blocks_cover as Hcover.
  pose proof (load_bytes_length _ _ _ _ Hdata) as Hdl.
  assert (length (replicate (Z.to_nat (num_blocks count bs * bs)) x00) = length junk) as Hz
    by (by rewrite length_replicate).
  assert (disjoint_range a (length junk) ub (Z.to_nat count)) as Hdis.
  { destruct (unmapped_mapped_disjoint _ _ _ _ _ Hun Hmapped) as [|[?|?]]; [done|lia|lia]. }
  unfold memset0 at 1.
  erewrite bind_ok by (apply store_eq; rewrite Hz; apply mapped_write_self).
  unfold memcpy. rewrite bind_assoc.
  erewrite bind_ok by (apply load_eq; simpl; rewrite write_write_same by (by rewrite Hz);
    rewrite load_write_disjoint by (rewrite Hz; exact Hdis); exact Hdata).
  erewrite bind_ok by (apply store_eq; simpl; apply (mapped_le _ _ (length junk)); [|lia];
    apply mapped_write, mapped_write_self).
  erewrite bind_ok by (apply (upd_msg_eq _ p m); done).
  f_equal. unfold bounced, io_world, w_put_msg. simpl.
  rewrite (write_write_same _ _ junk) by (by rewrite Hz). rewrite write_prefix by (rewrite Hz; lia).
  unfold padded. rewrite drop_replicate, length_app, length_replicate.
  by replace (Z.of_nat (length data + _)) with (num_blocks count bs * bs) by lia.
Qed.

Lemma handle_write_ok data :
  load_bytes (w_mem w) ub (Z.to_nat count) = Some data ->
  handled (fun fuel => xpdk_spdk_handle_write nested_poll fuel p)
    write_outcome (write_effect data).
Proof.
  intros Hdata. pose proof bs_range as Hbs. pose proof blocks_cover as Hcover.
  pose proof (load_bytes_length _ _ _ _ Hdata) as Hdl.
  assert (forall fuel, xpdk_spdk_handle_write nested_poll fuel p w =
    (let* a := spdk_dma_malloc (num_blocks count bs * bs) bs in
     if decide (a = NULL) then complete_msg p XPDK_ERROR_NOMEM
     else memset0 a (num_blocks count bs * bs) ;; memcpy a ub count ;;
          upd_msg p (set_msg_ctx a) ;; write_tail fuel a) w) as Heq.
  { intros fuel. unfold xpdk_spdk_handle_write.
    rewrite (bind_ok _ _ _ _ _ (get_msg_eq w p m Hmsg)), Hu.
    rewrite (bind_ok _ _ _ _ _ (get_io_device_eq w fd d Hopen)).
    rewrite decide_False by (rewrite Z.land_0_r; tauto). unfold block_range.
    rewrite decide_False by lia. rewrite bind_ret_l. simpl fst. simpl snd.
    by rewrite dma_size_eq. }
  destruct (dma_malloc_cases w (num_blocks count bs * bs) bs)
    as [(dm & Hm)|(dm & a & junk & Hm & Ha & Hal & Hl & Hun)].
  - eapply (handled_intro _ _ _ 0 XPDK_ERROR_NOMEM _ (w_bdev w) (w_mem w) dm (w_dma_live w));
      [by unfold write_outcome; auto|by apply io_reported_error|done|by apply write_effect_none|].
    intros fuel _. rewrite Heq, (bind_ok _ _ _ _ _ Hm), decide_True by done.
    rewrite (complete_msg_eq _ p m) by done. by destruct w.
  - assert (length (padded data) = length junk) as Hpl
      by (unfold padded; rewrite length_app, length_replicate; lia).
    destruct (write_tail_bounced a data dm Hdl ltac:(by rewrite Hpl))
      as (k & st & m' & b & Hout & Hrep & Ho & Hmd & Hrun).
    apply (handled_intro _ _ _ k st m' b (w_mem w) dm (w_dma_live w)); try done.
    intros fuel Hf. rewrite Heq, (bind_ok _ _ _ _ _ Hm), decide_False by (unfold NULL; lia).
    rewrite (fill_bounced (write_tail fuel a) a junk data dm Hl Hun Hdata). by apply Hrun.
Qed.
End Requests.

(** ** The flush handler *)

Lemma handle_flush_ok w p m fd ub count offset bt cb uctx d :
  w_msgs w !! p = Some m -> msg_u m = PIo fd ub count offset bt cb uctx ->
  open_at w fd d -> outstanding (w_bdev w) = [] -> w_sctx w !! p = None ->
  exists k m' b,
    (msg_status m' = XPDK_SUCCESS \/ msg_status m' = XPDK_ERROR_IO) /\
    msg_completed m' = true /\ outstanding b = [] /\ medium b = medium (w_bdev w) /\
    forall fuel, (k <= fuel)%nat ->
      xpdk_spdk_handle_flush nested_poll fuel p w =
        Ok tt (io_world p m' b (w_mem w) (w_dma w) (w_dma_live w) w).
Proof.
  intros Hm Hu Hopen Ho Hfr.
  set (r := Build_io_req IoFlush (dev_desc d) (dev_channel d) NULL 0
              (spdk_bdev_get_num_blocks (dev_bdev d)) (SyncIoCb p)).
  assert (forall fuel, xpdk_spdk_handle_flush nested_poll fuel p w =
    (let* rc := bdev_submit r in
     (if decide (rc <> 0) then complete_msg p XPDK_ERROR_IO else wait_io nested_poll fuel p) ;;
     pop_sctx p) (framed p 0 w)) as Heq.
  { intros fuel. unfold xpdk_spdk_handle_flush.
    rewrite (bind_ok _ _ _ _ _ (get_msg_eq w p m Hm)), Hu.
    by rewrite (bind_ok _ _ _ _ _ (get_io_device_eq w fd d Hopen)). }
  destruct (submit_and_wait w p m r 0) as
    [(b & rc & Hrc & Hs & Hob & Hsd)|(b0 & b & s & k & Hs & Heff & Hw)];
    [done|done|done|by destruct Hopen as (_ & _ & [])|done|..].
  - exists 0%nat, (set_msg_completed true (set_msg_status XPDK_ERROR_IO m)), b.
    split_and!; [by right|done|done|by apply same_data_medium|].
    intros fuel _. rewrite Heq, (bind_ok _ _ _ _ _ Hs), decide_True by done.
    rewrite (bind_ok _ _ _ _ _ (complete_msg_eq (set_w_bdev b (framed p 0 w)) p m _ Hm)).
    by rewrite pop_refused.
  - exists k, (io_done_msg s 0 m), b. split_and!;
      [destruct s; [by left|by right]|done|apply Heff|by eapply io_effect_unchanged; [|right]|].
    intros fuel Hf. rewrite Heq, (bind_ok _ _ _ _ _ Hs), decide_False by lia.
    by rewrite (bind_ok _ _ _ _ _ (Hw fuel Hf)), pop_finished.
Qed.
End IoCorrect.
