(* ===== verification/SyncIo.v ===== *)
(** The synchronous operations of the client, from the call to its return: [xpdk_read],
    [xpdk_write] and [xpdk_flush] together with the poller and the handler that serve
    them.  Every theorem here is total: enough fuel gives the stated result. *)

From stdpp Require Import base gmap list strings.
From Stdlib Require Import Strings.Byte.
From S2P Require Import Prelude Types Memory Spdk World Sim Core Blocks Perf Bdev Qos Io.
From S2P Require Import Async Vectored Batch Poller Idle IoCorrect.

Open Scope Z_scope.

Section SyncIo.
Context `{SpdkLaws}.
Implicit Types (w : world) (p : Z) (d : xpdk_device).

(** The library is idle again and holds no more than before. *)
Record settled (w w' : world) : Prop := {
  settled_idle : idle w';
  settled_msgs : w_msgs w' = w_msgs w;
  settled_free : free_msgs w' = free_msgs w;
  settled_devices : ctx_devices (w_g w') = ctx_devices (w_g w);
  settled_calls : w_calls w' = w_calls w;
  settled_iovs : w_iovs w' = w_iovs w;
  settled_infos : w_infos w' = w_infos w;
  settled_limits : w_limits w' = w_limits w;
  settled_stats : w_stats w' = w_stats w
}.

(** [g_xpdk_ctx.total_io_operations++] *)
Definition count_io (w : world) : world :=
  set_w_g (set_ctx_total_io_operations (u64 (ctx_total_io_operations (w_g w) + 1)) (w_g w)) w.

Lemma settled_io w p pl b r1 r2 m m' b' me dm dl :
  idle w -> exchange w p pl b r1 r2 -> outstanding b' = [] ->
  (forall a n, dl !! a = Some n -> 0 < n /\ mapped me a (Z.to_nat n)) ->
  settled w (returned p pl r2 (io_world p m' b' me dm dl (at_handler p m pl b r1 w))) /\
  settled w (returned p pl r2 (io_world p m' b' me dm dl (count_io (at_handler p m pl b r1 w)))).
Proof.
  intros [Hi Hrun Hwf Hring (pl0 & Hpl & Hdis) Ho Hfr Hdma] [Hp Hfresh Hob Hsd Hr2 Hpool] Ho' Hdl.
  assert (delete p (<[p := m']> (<[p := m]> (w_msgs w))) = w_msgs w) as Hmsgs
    by (by rewrite !delete_insert_eq, delete_id).
  assert (pool_free (spdk_mempool_put pl p) = pool_free pl0) as Hpf
    by (rewrite Hpool; unfold free_msgs; by rewrite Hpl).
  split; (split; [split|..]; simpl; rewrite ?Hmsgs; try done; [by eauto|]);
    (eexists; split; [done|]; by rewrite Hpf).
Qed.

(** The message type of a read or a write selects its handler. *)
Definition io_handler (type : xpdk_msg_type) (fuel : nat) (p : Z) : MW unit :=
  match type with
  | XPDK_MSG_WRITE => xpdk_spdk_handle_write nested_poll fuel p
  | _ => xpdk_spdk_handle_read nested_poll fuel p
  end.

Lemma process_io fuel p m type w :
  w_msgs w !! p = Some m -> msg_type m = type ->
  type = XPDK_MSG_READ \/ type = XPDK_MSG_WRITE ->
  process_msg fuel p w = (io_handler type fuel p ;; ret false) (count_io w).
Proof.
  intros Hm Ht Htype. rewrite (process_msg_eq fuel p m w Hm), Ht. by destruct Htype as [->| ->].
Qed.

(** A synchronous read or write, from what its handler does. *)
Lemma sync_io_handled w type fd ub count offset
    (out : Z -> memory -> gmap Z Z -> Prop) (eff : bdev_t -> Z -> Prop) :
  type = XPDK_MSG_READ \/ type = XPDK_MSG_WRITE ->
  idle w -> free_msgs w <> ∅ -> ub <> NULL -> count <> 0 ->
  (forall p pl b r1 r2, exchange w p pl b r1 r2 ->
     let m := sent_msg type (PIo fd ub count offset 0 None NULL) in
     handled (count_io (at_handler p m pl b r1 w)) p m count
       (fun fuel => io_handler type fuel p) out eff) ->
  (forall st me dl, out st me dl ->
     forall a n, dl !! a = Some n -> 0 < n /\ mapped me a (Z.to_nat n)) ->
  exists k st w',
    (forall fuel n, (k <= fuel)%nat -> (0 < n)%nat ->
       sync_io (spdk_turn fuel) n type fd ub count offset w =
         Ok (if decide (st = XPDK_SUCCESS) then count else st) w') /\
    out st (w_mem w') (w_dma_live w') /\ eff (w_bdev w') st /\ settled w w'.
Proof.
  intros Htype Hidle Hfree Hub Hcount Hh Hdma.
  set (params := PIo fd ub count offset 0 None NULL) in *.
  destruct (request_one w type params Hidle Hfree) as (p & pl & b & r1 & r2 & Hex & Hreq).
  destruct (Hh p pl b r1 r2 Hex) as (k & st & m' & b' & me & dm & dl & Hout & Hrep & Ho & He & Hrun).
  destruct Hrep as (Hdone & Hst & Hbytes).
  destruct (settled_io w p pl b r1 r2 (sent_msg type params) m' b' me dm dl)
    as [_ Hset]; [done..|by eapply Hdma|].
  set (w1 := io_world p m' b' me dm dl (count_io (at_handler p (sent_msg type params) pl b r1 w)))
    in *.
  exists k, st, (returned p pl r2 w1). split_and!; [|exact Hout|exact He|exact Hset].
  intros fuel n Hf Hn. unfold sync_io, is_initialized.
  rewrite (bind_ok _ _ _ _ _ (eq_refl : gets _ w = Ok _ w)), (idle_initialized w Hidle).
  cbn [negb]. rewrite decide_False by tauto.
  etrans; [apply (Hreq fuel n w1 m'
    (fun msg rc => let* m := get_msg msg in let* result := io_result rc m in
       xpdk_msg_free msg ;; ret result) Hn)|].
  - rewrite (process_io fuel p (sent_msg type params) type);
      [|simpl; apply lookup_insert_eq|done|done].
    by rewrite (bind_ok _ _ _ _ _ (Hrun fuel Hf)).
  - done.
  - simpl. apply lookup_insert_eq.
  - done.
  - erewrite bind_ok by (apply (get_msg_eq _ p m'); simpl; apply lookup_insert_eq).
    rewrite Hst. unfold io_result at 1. case_decide as Hs.
    + rewrite (Hbytes Hs). simpl. rewrite bind_ret_l.
      by rewrite (bind_ok _ _ _ _ _ (return_eq w1 p pl r2 (ex_not_null _ _ _ _ _ _ Hex) eq_refl)).
    + rewrite bind_ret_l.
      by rewrite (bind_ok _ _ _ _ _ (return_eq w1 p pl r2 (ex_not_null _ _ _ _ _ _ Hex) eq_refl)).
Qed.

(** A buffer the client may pass: accessible, not empty, and small enough for the block
    arithmetic to stay within 32 bits. *)
Record valid_buffer (w : world) (d : xpdk_device) (ub count : Z) : Prop := {
  vb_not_null : ub <> NULL;
  vb_count : 0 < count;
  vb_small : count + spdk_bdev_get_block_size (dev_bdev d) <= 2 ^ 32;
  vb_mapped : mapped (w_mem w) ub (Z.to_nat count)
}.

Lemma read_outcome_same w0 w d ub count offset st me dl :
  w_mem w0 = w_mem w -> w_dma_live w0 = w_dma_live w ->
  medium (w_bdev w0) = medium (w_bdev w) ->
  read_outcome w0 d ub count offset st me dl -> read_outcome w d ub count offset st me dl.
Proof.
  intros Hm Hd Hmd [| | |a junk Hn Hun Hc]; rewrite ?Hmd, ?Hd, ?Hm in *;
    [apply read_ok|apply read_no_memory|apply read_not_done|by apply read_leak].
Qed.

Lemma read_outcome_live w d ub count offset st me dl :
  (forall a n, w_dma_live w !! a = Some n -> 0 < n /\ mapped (w_mem w) a (Z.to_nat n)) ->
  0 < count -> read_outcome w d ub count offset st me dl ->
  forall a n, dl !! a = Some n -> 0 < n /\ mapped me a (Z.to_nat n).
Proof.
  intros Hlive Hc Hout a n Ha.
  destruct Hout as [| | |a0 junk Hn Hun Hl]; try (by apply Hlive).
  - destruct (Hlive a n Ha). split; [done|by apply mapped_write].
  - apply lookup_insert_Some in Ha as [[<- <-]|[_ Ha]].
    + split; [lia|]. rewrite Nat2Z.id. apply mapped_write_self.
    + destruct (Hlive a n Ha). split; [done|by apply mapped_write].
Qed.

(** The handler of a read, started from an exchange of an idle library. *)
Lemma read_handled w fd d ub count offset p pl b r1 r2 :
  idle w -> open_at w fd d -> Z.land (dev_flags d) O_WRONLY = 0 -> valid_buffer w d ub count ->
  exchange w p pl b r1 r2 ->
  let m := sent_msg XPDK_MSG_READ (PIo fd ub count offset 0 None NULL) in
  handled (count_io (at_handler p m pl b r1 w)) p m count
    (fun fuel => io_handler XPDK_MSG_READ fuel p)
    (read_outcome w d ub count offset) (fun b' _ => medium b' = medium (w_bdev w)).
Proof.
  intros Hidle Hopen Hflags [Hub Hc Hs Hma] Hex m. destruct (ex_same _ _ _ _ _ _ Hex) as (Hmd & _).
  destruct (handle_read_ok (count_io (at_handler p m pl b r1 w)) p m fd ub count offset 0 NULL d)
    as (k & st & m' & b' & me & dm & dl & Hout & Hrep & Ho & He & Hrun);
    [simpl; apply lookup_insert_eq|done|done|done|done|done|apply Hex
    |simpl; by rewrite (idle_frames w Hidle)|apply (idle_dma w Hidle)|done|].
  exists k, st, m', b', me, dm, dl. split_and!; try done.
  - revert Hout. by apply read_outcome_same.
  - by rewrite He.
Qed.

Lemma write_handled w fd d ub count offset data p pl b r1 r2 :
  idle w -> open_at w fd d -> valid_buffer w d ub count ->
  load_bytes (w_mem w) ub (Z.to_nat count) = Some data ->
  exchange w p pl b r1 r2 ->
  let m := sent_msg XPDK_MSG_WRITE (PIo fd ub count offset 0 None NULL) in
  handled (count_io (at_handler p m pl b r1 w)) p m count
    (fun fuel => io_handler XPDK_MSG_WRITE fuel p)
    (write_outcome w) (write_effect w count offset d data).
Proof.
  intros Hidle Hopen [Hub Hc Hs Hma] Hdata Hex m. destruct (ex_same _ _ _ _ _ _ Hex) as (Hmd & _).
  destruct (handle_write_ok (count_io (at_handler p m pl b r1 w)) p m fd ub count offset 0 NULL d)
    with (data := data)
    as (k & st & m' & b' & me & dm & dl & Hout & Hrep & Ho & He & Hrun);
    [simpl; apply lookup_insert_eq|done|done|done|done|done|apply Hex
    |simpl; by rewrite (idle_frames w Hidle)|apply (idle_dma w Hidle)|done|].
  exists k, st, m', b', me, dm, dl. split_and!; try done.
  unfold write_effect in *. simpl in *. by rewrite Hmd in He.
Qed.

Lemma read_returns w fd d ub count offset :
  idle w -> free_msgs w <> ∅ -> open_at w fd d -> Z.land (dev_flags d) O_WRONLY = 0 ->
  valid_buffer w d ub count ->
  exists k st w',
    (forall fuel n, (k <= fuel)%nat -> (0 < n)%nat ->
       xpdk_read (spdk_turn fuel) n fd ub count offset w =
         Ok (if decide (st = XPDK_SUCCESS) then count else st) w') /\
    read_outcome w d ub count offset st (w_mem w') (w_dma_live w') /\
    medium (w_bdev w') = medium (w_bdev w) /\ settled w w'.
Proof.
  intros Hidle Hfree Hopen Hflags Hvb. pose proof Hvb as [? ? _ _].
  apply (sync_io_handled w XPDK_MSG_READ fd ub count offset
    (read_outcome w d ub count offset) (fun b' _ => medium b' = medium (w_bdev w)));
    [by left|done|done|done|lia| |by intros; eapply read_outcome_live; [apply idle_dma|..]].
  intros. by eapply read_handled.
Qed.


Lemma write_returns w fd d ub count offset data :
  idle w -> free_msgs w <> ∅ -> open_at w fd d -> valid_buffer w d ub count ->
  load_bytes (w_mem w) ub (Z.to_nat count) = Some data ->
  exists k st w',
    (forall fuel n, (k <= fuel)%nat -> (0 < n)%nat ->
       xpdk_write (spdk_turn fuel) n fd ub count offset w =
         Ok (if decide (st = XPDK_SUCCESS) then count else st) w') /\
    write_outcome w st (w_mem w') (w_dma_live w') /\
    write_effect w count offset d data (w_bdev w') st /\ settled w w'.
Proof.
  intros Hidle Hfree Hopen Hvb Hdata. pose proof Hvb as [? ? _ _].
  apply (sync_io_handled w XPDK_MSG_WRITE fd ub count offset
    (write_outcome w) (write_effect w count offset d data));
    [by right|done|done|done|lia| |].
  - intros. by eapply write_handled.
  - intros st me dl (_ & -> & ->). apply (idle_dma w Hidle).
Qed.

(** C2: A synchronous write of a valid buffer on an open device returns.  On success it
    returns [count] and the medium of its device holds, from the offset rounded down to a
    block, the data followed by zeros to the end of the last block; whatever it returns,
    no byte outside of those blocks and no other device changed, the client's memory and
    the live DMA blocks are as before, and every message is back in the pool. *)
Theorem xpdk_write_correct w fd d ub count offset data :
  idle w -> free_msgs w <> ∅ -> open_at w fd d -> valid_buffer w d ub count ->
  load_bytes (w_mem w) ub (Z.to_nat count) = Some data ->
  exists k st w',
    (forall fuel n, (k <= fuel)%nat -> (0 < n)%nat ->
       xpdk_write (spdk_turn fuel) n fd ub count offset w =
         Ok (if decide (st = XPDK_SUCCESS) then count else st) w') /\
    write_outcome w st (w_mem w') (w_dma_live w') /\
    write_effect w count offset d data (w_bdev w') st /\ settled w w'.
Proof. apply write_returns. Qed.

Lemma write_then_read_medium w count offset d data b :
  length data = Z.to_nat count -> write_effect w count offset d data b XPDK_SUCCESS ->
  medium_bytes (medium b (dev_bdev d)) (start_of d offset) (Z.to_nat count) = data.
Proof.
  intros Hl [Hw _]. specialize (Hw eq_refl).
  rewrite (medium_bytes_write (medium (w_bdev w) (dev_bdev d)) _ _
    (padded count d data)).
  - unfold padded. by rewrite take_app_length'.
  - intros x. rewrite Hw, decide_True by done. done.
  - unfold padded. rewrite length_app. lia.
Qed.

Lemma settled_buffer w w' d ub count :
  w_mem w' = w_mem w -> valid_buffer w d ub count -> valid_buffer w' d ub count.
Proof. intros Hm [? ? ? ?]. split; try done. by rewrite Hm. Qed.

Lemma settled_open w w' fd d : settled w w' -> open_at w fd d -> open_at w' fd d.
Proof. intros [_ _ _ Hd _ _ _ _]. unfold open_at. by rewrite Hd. Qed.


(** The handler of a request that is refused outright. *)
Lemma rejected_handled w type fd ub count offset p pl b r1 r2 :
  exchange w p pl b r1 r2 ->
  let m := sent_msg type (PIo fd ub count offset 0 None NULL) in
  (forall fuel, io_handler type fuel p (count_io (at_handler p m pl b r1 w)) =
     complete_msg p XPDK_ERROR_INVALID (count_io (at_handler p m pl b r1 w))) ->
  handled (count_io (at_handler p m pl b r1 w)) p m count
    (fun fuel => io_handler type fuel p)
    (fun st me dl => st = XPDK_ERROR_INVALID /\ me = w_mem w /\ dl = w_dma_live w)
    (fun b' _ => medium b' = medium (w_bdev w)).
Proof.
  intros Hex m Hh. destruct (ex_same _ _ _ _ _ _ Hex) as (Hmd & _).
  eapply (handled_intro _ _ _ _ _ _ _ 0 XPDK_ERROR_INVALID _ b (w_mem w) (w_dma w)
    (w_dma_live w)); [done|by apply (io_reported_error m m)|apply Hex|done|].
  intros fuel _. rewrite Hh. by rewrite (complete_msg_eq _ p m) by (simpl; apply lookup_insert_eq).
Qed.

(** No open device behind [fd]. *)
Definition not_open (w : world) (fd : Z) : Prop :=
  forall d, 0 <= fd -> ctx_devices (w_g w) !! Z.to_nat fd = Some d -> dev_in_use d = false.

(** No device that can do I/O behind [fd]: the slot is free, or it lacks its device, its
    descriptor or its channel. *)
Definition no_io_device (w : world) (fd : Z) : Prop :=
  forall d, 0 <= fd -> ctx_devices (w_g w) !! Z.to_nat fd = Some d ->
    dev_in_use d = false \/ dev_bdev d = NULL \/ dev_desc d = NULL \/ dev_channel d = NULL.

Lemma not_open_no_io w fd : not_open w fd -> no_io_device w fd.
Proof. intros Hno d Hfd Hd. left. by apply Hno. Qed.

Lemma get_io_device_none w fd :
  devices_wf (ctx_devices (w_g w)) -> no_io_device w fd -> get_io_device fd w = Ok None w.
Proof.
  intros Hwf Hno. unfold get_io_device, xpdk_get_device. case_decide as Hr; [done|].
  destruct (devices_wf_lookup (ctx_devices (w_g w)) fd) as [d Hd]; [done|lia|].
  assert (get_dev fd w = Ok d w) as Hget by (apply get_dev_eq; [lia|done]).
  rewrite bind_assoc, (bind_ok _ _ _ _ _ Hget).
  destruct (Hno d ltac:(lia) Hd) as [->|Hnull]; [done|].
  destruct (dev_in_use d); [|done]. cbn [negb]. rewrite bind_ret_l, (bind_ok _ _ _ _ _ Hget).
  by rewrite decide_True.
Qed.

Lemma rejected_handler w fuel p m type fd ub count offset cb ctx :
  w_msgs w !! p = Some m -> msg_u m = PIo fd ub count offset 0 cb ctx ->
  devices_wf (ctx_devices (w_g w)) ->
  (type = XPDK_MSG_READ \/ type = XPDK_MSG_WRITE) /\ no_io_device w fd \/
  type = XPDK_MSG_READ /\ (exists d, open_at w fd d /\ Z.land (dev_flags d) O_WRONLY <> 0) ->
  io_handler type fuel p w = complete_msg p XPDK_ERROR_INVALID w.
Proof.
  intros Hm Hu Hwf [[Ht Hno]|(-> & d & Hopen & Hfl)];
    [assert (io_handler type fuel p = xpdk_spdk_handle_write nested_poll fuel p \/
             io_handler type fuel p = xpdk_spdk_handle_read nested_poll fuel p) as [->| ->]
       by (destruct Ht as [->| ->]; auto)|simpl];
    unfold xpdk_spdk_handle_write, xpdk_spdk_handle_read;
    rewrite (bind_ok _ _ _ _ _ (get_msg_eq w p m Hm)), Hu.
  - by rewrite (bind_ok _ _ _ _ _ (get_io_device_none w fd Hwf Hno)).
  - by rewrite (bind_ok _ _ _ _ _ (get_io_device_none w fd Hwf Hno)).
  - by rewrite (bind_ok _ _ _ _ _ (get_io_device_eq w fd d Hopen)), decide_True.
Qed.

Lemma sync_io_rejected w type fd ub count offset :
  idle w -> ub <> NULL -> count <> 0 -> free_msgs w <> ∅ ->
  type = XPDK_MSG_READ \/ type = XPDK_MSG_WRITE ->
  no_io_device w fd \/ type = XPDK_MSG_READ /\
    (exists d, open_at w fd d /\ Z.land (dev_flags d) O_WRONLY <> 0) ->
  exists k w', (forall fuel n, (k <= fuel)%nat -> (0 < n)%nat ->
      sync_io (spdk_turn fuel) n type fd ub count offset w = Ok XPDK_ERROR_INVALID w') /\
    w_mem w' = w_mem w /\ w_dma_live w' = w_dma_live w /\
    medium (w_bdev w') = medium (w_bdev w) /\ settled w w'.
Proof.
  intros Hidle Hub Hc Hf Ht Hrej.
  destruct (sync_io_handled w type fd ub count offset
    (fun st me dl => st = XPDK_ERROR_INVALID /\ me = w_mem w /\ dl = w_dma_live w)
    (fun b' _ => medium b' = medium (w_bdev w)))
    as (k & st & w' & Hr & (-> & Hm & Hd) & Hmd & Hs); [done..| | |].
  - intros p pl b r1 r2 Hex. apply (rejected_handled w type fd ub count offset p pl b r1 r2 Hex).
    intros fuel. eapply rejected_handler;
      [simpl; apply lookup_insert_eq|done|apply (idle_devices w Hidle)|tauto].
  - intros st me dl (_ & -> & ->). apply (idle_dma w Hidle).
  - by exists k, w'.
Qed.

(** C24: The refusals of a synchronous read or write.  An uninitialised library, a [NULL]
    buffer or a zero count give [XPDK_ERROR_INVALID] at once, with no change at all; an
    empty message pool gives [XPDK_ERROR_NOMEM]; a descriptor without a device that can do I/O, or
    a read of a device opened write-only, gives [XPDK_ERROR_INVALID] through the SPDK thread,
    with memory, live DMA blocks, media, messages and table as before. *)
Theorem sync_io_refusals w type fd ub count offset :
  type = XPDK_MSG_READ \/ type = XPDK_MSG_WRITE ->
  (ctx_initialized (w_g w) = false \/ ub = NULL \/ count = 0 ->
   forall turn n, sync_io turn n type fd ub count offset w = Ok XPDK_ERROR_INVALID w) /\
  (idle w -> ub <> NULL -> count <> 0 -> free_msgs w = ∅ ->
   forall turn n, exists pl, sync_io turn n type fd ub count offset w =
     Ok XPDK_ERROR_NOMEM (set_w_pool (Some pl) w) /\ pool_free pl = ∅) /\
  (idle w -> ub <> NULL -> count <> 0 -> free_msgs w <> ∅ ->
   no_io_device w fd \/ type = XPDK_MSG_READ /\
     (exists d, open_at w fd d /\ Z.land (dev_flags d) O_WRONLY <> 0) ->
   exists k w', (forall fuel n, (k <= fuel)%nat -> (0 < n)%nat ->
       sync_io (spdk_turn fuel) n type fd ub count offset w = Ok XPDK_ERROR_INVALID w') /\
     w_mem w' = w_mem w /\ w_dma_live w' = w_dma_live w /\
     medium (w_bdev w') = medium (w_bdev w) /\ settled w w').
Proof.
  intros Ht. unfold sync_io, is_initialized. split_and!.
  - intros Hbad turn n. unfold bind at 1, gets.
    destruct (ctx_initialized (w_g w)) eqn:Hi; [|done]. cbn [negb].
    by rewrite decide_True by (destruct Hbad; [congruence|done]).
  - intros Hidle Hub Hc Hf turn n. unfold bind at 1, gets.
    rewrite (idle_initialized w Hidle). cbn [negb]. rewrite decide_False by tauto.
    destruct (idle_pool w Hidle) as (pl & Hpl & _). unfold free_msgs in Hf. rewrite Hpl in Hf.
    by apply (request_no_message turn n type _
      (fun msg rc => let* m := get_msg msg in let* result := io_result rc m in
         xpdk_msg_free msg ;; ret result) w pl).
  - intros Hidle Hub Hc Hf Hrej.
    by apply sync_io_rejected.
Qed.

Lemma flush_returns w fd d :
  idle w -> free_msgs w <> ∅ -> open_at w fd d ->
  exists k rc w',
    (forall fuel n, (k <= fuel)%nat -> (0 < n)%nat ->
       xpdk_flush (spdk_turn fuel) n fd w = Ok rc w') /\
    (rc = XPDK_SUCCESS \/ rc = XPDK_ERROR_IO) /\
    w_mem w' = w_mem w /\ w_dma_live w' = w_dma_live w /\
    medium (w_bdev w') = medium (w_bdev w) /\ settled w w'.
Proof.
  intros Hidle Hfree Hopen.
  destruct (send_request_serves w XPDK_MSG_FLUSH (PIo fd NULL 0 0 0 None NULL)
    (fun rc w' => (rc = XPDK_SUCCESS \/ rc = XPDK_ERROR_IO) /\
       w_mem w' = w_mem w /\ w_dma_live w' = w_dma_live w /\
       medium (w_bdev w') = medium (w_bdev w) /\ settled w w'))
    as (k & rc & w' & Hr & HQ); [done|done| |].
  - intros p pl b r1 r2 Hex. set (m := sent_msg _ _).
    destruct (handle_flush_ok (at_handler p m pl b r1 w) p m fd NULL 0 0 0 None NULL d)
      as (k & m' & b' & Hst & Hc & Ho & Hmd & Hrun);
      [simpl; apply lookup_insert_eq|done|done|apply Hex|simpl; by rewrite (idle_frames w Hidle)|].
    exists k, (io_world p m' b' (w_mem w) (w_dma w) (w_dma_live w) (at_handler p m pl b r1 w)), m'.
    split_and!; try done.
    + intros fuel Hf. unfold dispatch. by rewrite (bind_ok _ _ _ _ _ (Hrun fuel Hf)).
    + simpl. apply lookup_insert_eq.
    + simpl. rewrite Hmd. by destruct (ex_same _ _ _ _ _ _ Hex) as (? & _).
    + exact (proj1 (settled_io w p pl b r1 r2 m m' b' (w_mem w) (w_dma w) (w_dma_live w)
        Hidle Hex Ho (idle_dma w Hidle))).
  - exists k, rc, w'. split; [|done]. intros fuel n Hf Hn. unfold xpdk_flush, is_initialized.
    rewrite (bind_ok _ _ _ _ _ (eq_refl : gets _ w = Ok _ w)), (idle_initialized w Hidle).
    by apply Hr.
Qed.

Lemma flush_rejected w fd :
  idle w -> free_msgs w <> ∅ -> no_io_device w fd ->
  exists k w',
    (forall fuel n, (k <= fuel)%nat -> (0 < n)%nat ->
       xpdk_flush (spdk_turn fuel) n fd w = Ok XPDK_ERROR_INVALID w') /\
    w_mem w' = w_mem w /\ settled w w'.
Proof.
  intros Hidle Hfree Hno.
  destruct (send_request_serves w XPDK_MSG_FLUSH (PIo fd NULL 0 0 0 None NULL)
    (fun rc w' => rc = XPDK_ERROR_INVALID /\ w_mem w' = w_mem w /\ settled w w'))
    as (k & rc & w' & Hr & -> & HQ); [done|done| |].
  - intros p pl b r1 r2 Hex. set (m := sent_msg _ _).
    set (m' := set_msg_completed true (set_msg_status XPDK_ERROR_INVALID m)).
    exists 0%nat, (w_put_msg p m' (at_handler p m pl b r1 w)), m'.
    split_and!; try done.
    + intros fuel _. set (wh := at_handler p m pl b r1 w).
      assert (w_msgs wh !! p = Some m) as Hm by (simpl; apply lookup_insert_eq).
      assert (xpdk_spdk_handle_flush nested_poll fuel p wh = Ok tt (w_put_msg p m' wh)) as Hh.
      { unfold xpdk_spdk_handle_flush. rewrite (bind_ok _ _ _ _ _ (get_msg_eq wh p m Hm)).
        change (msg_u m) with (PIo fd NULL 0 0 0 None NULL). cbv beta iota.
        rewrite (bind_ok _ _ _ _ _ (get_io_device_none wh fd (idle_devices w Hidle) Hno)).
        by rewrite (complete_msg_eq wh p m). }
      unfold dispatch. by rewrite (bind_ok _ _ _ _ _ Hh).
    + simpl. apply lookup_insert_eq.
    + exact (proj1 (settled_io w p pl b r1 r2 m m' b (w_mem w) (w_dma w) (w_dma_live w)
        Hidle Hex (ex_outstanding _ _ _ _ _ _ Hex) (idle_dma w Hidle))).
  - exists k, w'. split; [|done]. intros fuel n Hf Hn. unfold xpdk_flush, is_initialized.
    rewrite (bind_ok _ _ _ _ _ (eq_refl : gets _ w = Ok _ w)), (idle_initialized w Hidle).
    by apply Hr.
Qed.

(** [xpdk_flush] of an open device returns [XPDK_SUCCESS] or [XPDK_ERROR_IO] and changes
    neither memory, nor the media, nor what the library holds. *)
Theorem xpdk_flush_correct w fd d :
  idle w -> free_msgs w <> ∅ -> open_at w fd d ->
  exists k rc w',
    (forall fuel n, (k <= fuel)%nat -> (0 < n)%nat ->
       xpdk_flush (spdk_turn fuel) n fd w = Ok rc w') /\
    (rc = XPDK_SUCCESS \/ rc = XPDK_ERROR_IO) /\
    w_mem w' = w_mem w /\ w_dma_live w' = w_dma_live w /\
    medium (w_bdev w') = medium (w_bdev w) /\ settled w w'.
Proof. apply flush_returns. Qed.
End SyncIo.

Lemma sim_open_at : @open_at sim_spdk sim_spdk_laws sim_open_world 0 sim_open_device.
Proof. split; [unfold XPDK_MAX_OPEN_DEVICES; lia|]. split; [by vm_compute|]. by split. Qed.

Lemma sim_valid_buffer :
  @valid_buffer sim_spdk sim_open_world sim_open_device 8192 5.
Proof.
  split; [done|lia|simpl; unfold sim_block_size; lia|].
  apply load_bytes_mapped. vm_compute. by eexists.
Qed.


Lemma xpdk_write_correct_witness :
  exists k st w',
    (forall fuel n, (k <= fuel)%nat -> (0 < n)%nat ->
       @xpdk_write sim_spdk (spdk_turn fuel) n 0 8192 5 16 sim_open_world =
         Ok (if decide (st = XPDK_SUCCESS) then 5 else st) w') /\
    @settled sim_spdk sim_spdk_laws sim_open_world w'.
Proof.
  destruct (@xpdk_write_correct sim_spdk sim_spdk_laws sim_open_world 0 sim_open_device 8192 5 16
    [x41; x42; x43; x44; x45] sim_idle_open sim_free sim_open_at sim_valid_buffer
    ltac:(by vm_compute)) as (k & st & w' & Hr & _ & _ & Hs).
  by exists k, st, w'.
Defined.


Lemma sync_io_refusals_witness :
  exists k w', (forall fuel n, (k <= fuel)%nat -> (0 < n)%nat ->
     @sync_io sim_spdk (spdk_turn fuel) n XPDK_MSG_READ 7 8192 5 0 sim_open_world =
       Ok XPDK_ERROR_INVALID w') /\ w_mem w' = w_mem sim_open_world.
Proof.
  destruct (@sync_io_refusals sim_spdk sim_spdk_laws sim_open_world XPDK_MSG_READ 7 8192 5 0
    (or_introl eq_refl)) as (_ & _ & Hrej).
  destruct (Hrej sim_idle_open) as (k & w' & Hr & Hm & _);
    [done|done|exact sim_free| |by exists k, w'].
  left. intros d _ Hd. vm_compute in Hd. injection Hd as <-. by left.
Defined.

Lemma xpdk_flush_correct_witness :
  exists k rc w', (forall fuel n, (k <= fuel)%nat -> (0 < n)%nat ->
    @xpdk_flush sim_spdk (spdk_turn fuel) n 0 sim_open_world = Ok rc w') /\
    w_mem w' = w_mem sim_open_world.
Proof.
  destruct (@xpdk_flush_correct sim_spdk sim_spdk_laws sim_open_world 0 sim_open_device
    sim_idle_open sim_free sim_open_at) as (k & rc & w' & Hr & _ & Hm & _).
  by exists k, rc, w'.
Defined.
