(* ===== verification/Devices.v ===== *)
(** Opening, closing and describing devices, from the client's call to its return. *)

From stdpp Require Import base gmap list strings.
From Stdlib Require Import Strings.Byte.
From S2P Require Import Prelude Types Memory Spdk World Sim Core Blocks Perf Bdev Qos Io.
From S2P Require Import Async Vectored Batch Poller Idle IoCorrect SyncIo.

Open Scope Z_scope.

Section Slots.
Context `{Spdk}.
Implicit Types (w : world) (p i : Z) (d : xpdk_device) (m : xpdk_msg).

Abbreviation devs w := (ctx_devices (w_g w)).

(** ** Code that works on one message and one slot

    [dev_world] is [w] with message [p], slot [i], the bdev layer and the clock replaced:
    all that the handlers below change. *)

Definition dev_world (p : Z) (m : xpdk_msg) (i : Z) (d : xpdk_device) (b : bdev_t) (y : sys_t)
    (w : world) : world :=
  set_w_sys y (w_put_msg p m (w_put_dev i d (set_w_bdev b w))).

(** The time a reading of the clock gives. *)
Definition time_of (y : sys_t) : Z :=
  let tv := snd (sys_gettimeofday y) in u64 (u64 (u64 (fst tv) * 1000000) + snd tv).

Section Slot.
Context (w : world) (p : Z) (i : Z) (d0 : xpdk_device).
Hypothesis Hi : 0 <= i.
Hypothesis Hd0 : devs w !! Z.to_nat i = Some d0.

Lemma slot_lookup d : <[Z.to_nat i := d]> (devs w) !! Z.to_nat i = Some d.
Proof. apply list_lookup_insert_eq. by eapply lookup_lt_Some. Qed.

Lemma dev_world_intro m :
  w_msgs w !! p = Some m -> w = dev_world p m i d0 (w_bdev w) (w_sys w) w.
Proof.
  intros Hm. unfold dev_world, w_put_msg, w_put_dev.
  destruct w as [g]; simpl in *. rewrite insert_id by done. destruct g; simpl in *.
  by rewrite list_insert_id.
Qed.

Lemma dw_get_dev m d b y : get_dev i (dev_world p m i d b y w) = Ok d (dev_world p m i d b y w).
Proof. apply get_dev_eq; [done|]. apply slot_lookup. Qed.

Lemma dw_upd_dev m d b y f :
  upd_dev i f (dev_world p m i d b y w) = Ok tt (dev_world p m i (f d) b y w).
Proof.
  rewrite (upd_dev_eq _ i d) by (done || apply slot_lookup). f_equal.
  unfold dev_world, w_put_dev, w_put_msg. simpl. by rewrite list_insert_insert_eq.
Qed.

Lemma dw_put_device m d b y :
  xpdk_put_device (Some i) (dev_world p m i d b y w) =
    Ok tt (dev_world p m i (set_dev_in_use false d) b y w).
Proof. apply dw_upd_dev. Qed.

Lemma dw_get_msg m d b y : get_msg p (dev_world p m i d b y w) = Ok m (dev_world p m i d b y w).
Proof. apply get_msg_eq. simpl. apply lookup_insert_eq. Qed.

Lemma dw_upd_msg m d b y f :
  upd_msg p f (dev_world p m i d b y w) = Ok tt (dev_world p (f m) i d b y w).
Proof.
  rewrite (upd_msg_eq _ p m) by (simpl; apply lookup_insert_eq). f_equal.
  unfold dev_world, w_put_msg. simpl. by rewrite insert_insert_eq.
Qed.

Lemma dw_complete_msg m d b y rc :
  complete_msg p rc (dev_world p m i d b y w) =
    Ok tt (dev_world p (set_msg_completed true (set_msg_status rc m)) i d b y w).
Proof. exact (dw_upd_msg m d b y (fun m => set_msg_completed true (set_msg_status rc m))). Qed.

Lemma dw_set_bdev m d b y b' :
  set_bdev b' (dev_world p m i d b y w) = Ok tt (dev_world p m i d b' y w).
Proof. done. Qed.

Lemma dw_get_time m d b y :
  get_time_us (dev_world p m i d b y w) =
    Ok (time_of y) (dev_world p m i d b (fst (sys_gettimeofday y)) w).
Proof.
  unfold get_time_us, gettimeofday, time_of, bind, get. simpl. by destruct (sys_gettimeofday y).
Qed.

Lemma dw_get_device m d b y :
  i < XPDK_MAX_OPEN_DEVICES -> dev_in_use d = true ->
  xpdk_get_device i (dev_world p m i d b y w) = Ok (Some i) (dev_world p m i d b y w).
Proof. intros Hlt Hu. by apply (get_device_some _ i d); [|apply slot_lookup|]. Qed.
End Slot.
End Slots.

(** [dw] runs the next statement on a [dev_world]. *)
Ltac dw :=
  first
    [ erewrite bind_ok by (eapply dw_upd_dev; done)
    | erewrite bind_ok by (eapply dw_get_dev; done)
    | erewrite bind_ok by (eapply dw_upd_msg; done)
    | erewrite bind_ok by (eapply dw_get_msg; done)
    | erewrite bind_ok by (eapply dw_complete_msg; done)
    | erewrite bind_ok by (eapply dw_put_device; done)
    | erewrite bind_ok by (eapply dw_get_time; done)
    | erewrite bind_ok by (eapply dw_set_bdev; done)
    | erewrite dw_complete_msg by done ]; cbv beta zeta.

Section Devices.
Context `{SpdkLaws}.
Implicit Types (w : world) (p i : Z) (d : xpdk_device) (m : xpdk_msg).

Abbreviation devs w := (ctx_devices (w_g w)).

(** ** Closing *)

Definition closed (d : xpdk_device) : xpdk_device :=
  set_dev_in_use false (set_dev_flags 0 (set_dev_bdev NULL (set_dev_desc NULL
    (set_dev_channel NULL d)))).

Definition done_msg (rc : Z) (m : xpdk_msg) : xpdk_msg :=
  set_msg_completed true (set_msg_status rc m).

(** The two conditional statements of the close handler. *)
Lemma drop_channel w p m i d0 d b y :
  0 <= i -> devs w !! Z.to_nat i = Some d0 ->
  exists b', outstanding b' = outstanding b /\ same_data b b' /\
    when (bool_decide (dev_channel d <> NULL))
      (let* w := get in
       set_bdev (spdk_put_io_channel (w_bdev w) (dev_channel d)) ;;
       upd_dev i (set_dev_channel NULL)) (dev_world p m i d b y w) =
    Ok tt (dev_world p m i (set_dev_channel NULL d) b' y w).
Proof.
  intros Hi Hd. case_bool_decide as Hc.
  - exists (spdk_put_io_channel b (dev_channel d)). destruct (put_channel_frame b (dev_channel d)).
    split_and!; try done.
    exact (dw_upd_dev w p i d0 Hi Hd m d (spdk_put_io_channel b (dev_channel d)) y _).
  - exists b. split_and!; try done. destruct d; simpl in *. by subst.
Qed.

Lemma drop_desc w p m i d0 d b y :
  0 <= i -> devs w !! Z.to_nat i = Some d0 ->
  exists b', outstanding b' = outstanding b /\ same_data b b' /\
    when (bool_decide (dev_desc d <> NULL))
      (let* w := get in
       set_bdev (spdk_bdev_close (w_bdev w) (dev_desc d)) ;;
       upd_dev i (set_dev_desc NULL)) (dev_world p m i d b y w) =
    Ok tt (dev_world p m i (set_dev_desc NULL d) b' y w).
Proof.
  intros Hi Hd. case_bool_decide as Hc.
  - exists (spdk_bdev_close b (dev_desc d)). destruct (close_frame b (dev_desc d)).
    split_and!; try done.
    exact (dw_upd_dev w p i d0 Hi Hd m d (spdk_bdev_close b (dev_desc d)) y _).
  - exists b. split_and!; try done. destruct d; simpl in *. by subst.
Qed.

Lemma same_data_trans b1 b2 b3 : same_data b1 b2 -> same_data b2 b3 -> same_data b1 b3.
Proof. intros (? & ? & ?) (? & ? & ?). split_and!; congruence. Qed.

Lemma handle_close_eq w p m i d :
  w_msgs w !! p = Some m -> msg_u m = PClose i ->
  0 <= i < XPDK_MAX_OPEN_DEVICES -> devs w !! Z.to_nat i = Some d -> dev_in_use d = true ->
  exists b, outstanding b = outstanding (w_bdev w) /\ same_data (w_bdev w) b /\
    xpdk_spdk_handle_close p w =
      Ok tt (dev_world p (done_msg XPDK_SUCCESS m) i (closed d) b (w_sys w) w).
Proof.
  intros Hm Hu [Hi Hlt] Hd Huse.
  destruct (drop_channel w p m i d d (w_bdev w) (w_sys w) Hi Hd) as (b1 & Ho1 & Hs1 & Hch).
  destruct (drop_desc w p m i d (set_dev_channel NULL d) b1 (w_sys w) Hi Hd)
    as (b2 & Ho2 & Hs2 & Hde).
  exists b2. split_and!; [congruence|by eapply same_data_trans|].
  rewrite (dev_world_intro w p i d Hd m Hm) at 1. unfold xpdk_spdk_handle_close.
  dw. rewrite Hu. erewrite bind_ok by (eapply dw_get_device; done). cbv beta iota. dw.
  rewrite (bind_ok _ _ _ _ _ Hch), (bind_ok _ _ _ _ _ Hde). do 4 dw. done.
Qed.

(** ** The end of an exchange *)

(** Idle again, with every message back; the table may have changed. *)
Record at_rest (w w' : world) : Prop := {
  at_rest_idle : idle w';
  at_rest_msgs : w_msgs w' = w_msgs w;
  at_rest_free : free_msgs w' = free_msgs w;
  at_rest_mem : w_mem w' = w_mem w;
  at_rest_live : w_dma_live w' = w_dma_live w;
  at_rest_medium : medium (w_bdev w') = medium (w_bdev w);
  at_rest_calls : w_calls w' = w_calls w
}.

(** The objects of the client besides its memory are as they were. *)
Definition same_arrays (w w' : world) : Prop :=
  w_limits w' = w_limits w /\ w_stats w' = w_stats w /\ w_iovs w' = w_iovs w.

Definition same_objects (w w' : world) : Prop :=
  w_infos w' = w_infos w /\ same_arrays w w'.

Lemma rest_intro w p pl b r1 r2 w1 :
  idle w -> exchange w p pl b r1 r2 ->
  delete p (w_msgs w1) = w_msgs w -> w_sctx w1 = w_sctx w ->
  ctx_initialized (w_g w1) = true -> ctx_spdk_thread_running (w_g w1) = true ->
  devices_wf (devs w1) -> outstanding (w_bdev w1) = [] ->
  medium (w_bdev w1) = medium (w_bdev w) -> w_mem w1 = w_mem w ->
  w_dma_live w1 = w_dma_live w -> w_calls w1 = w_calls w ->
  at_rest w (returned p pl r2 w1).
Proof.
  intros [Hin Hrun Hwf Hring (pl0 & Hpl & Hdis) _ Hfr Hdma] [Hp Hfresh Hob Hsd Hr2 Hpool].
  intros Hm Hs Hin1 Hrun1 Hwf1 Ho1 Hmd Hmem Hlive Hcalls.
  assert (pool_free (spdk_mempool_put pl p) = pool_free pl0) as Hpf
    by (rewrite Hpool; unfold free_msgs; by rewrite Hpl).
  split; [split|..]; simpl; rewrite ?Hm, ?Hs, ?Hlive, ?Hmem; try done.
  - by eauto.
  - eexists. split; [done|]. by rewrite Hpf.
Qed.

Lemma drop_msg w p (m m' : xpdk_msg) :
  w_msgs w !! p = None -> delete p (<[p := m']> (<[p := m]> (w_msgs w))) = w_msgs w.
Proof. intros Hp. by rewrite !delete_insert_eq, delete_id. Qed.

(** A handler that stopped in a [dev_world] of the world it started in, or changed only its
    message. *)
Lemma returned_rest w p pl b r1 r2 m m' i d b' y :
  idle w -> exchange w p pl b r1 r2 -> 0 <= i -> dev_fd d = i ->
  outstanding b' = [] -> medium b' = medium (w_bdev w) ->
  at_rest w (returned p pl r2 (dev_world p m' i d b' y (at_handler p m pl b r1 w))).
Proof.
  intros Hidle Hex Hi Hfd Ho Hmd. apply (rest_intro w p pl b r1 r2); try done; simpl.
  - apply drop_msg, Hex.
  - apply (idle_initialized w Hidle).
  - apply (idle_running w Hidle).
  - apply devices_wf_insert; [apply (idle_devices w Hidle)|done|done].
Qed.

Lemma returned_rest_msg w p pl b r1 r2 m m' :
  idle w -> exchange w p pl b r1 r2 ->
  at_rest w (returned p pl r2 (w_put_msg p m' (at_handler p m pl b r1 w))).
Proof.
  intros Hidle Hex. apply (rest_intro w p pl b r1 r2); try done; simpl.
  - apply drop_msg, Hex.
  - apply (idle_initialized w Hidle).
  - apply (idle_running w Hidle).
  - apply (idle_devices w Hidle).
  - apply Hex.
  - by destruct (ex_same _ _ _ _ _ _ Hex) as (? & _).
Qed.

(** The device in slot [i], if it is in use. *)
Definition in_slot (w : world) (i : Z) (d : xpdk_device) : Prop :=
  0 <= i < XPDK_MAX_OPEN_DEVICES /\ devs w !! Z.to_nat i = Some d.

Lemma in_slot_fd w i d : idle w -> in_slot w i d -> dev_fd d = i.
Proof.
  intros Hidle [Hi Hd]. destruct (idle_devices w Hidle) as [_ Hfd]. rewrite (Hfd _ _ Hd). lia.
Qed.

Lemma close_returns w fd d :
  idle w -> free_msgs w <> ∅ -> in_slot w fd d -> dev_in_use d = true ->
  exists k w',
    (forall fuel n, (k <= fuel)%nat -> (0 < n)%nat ->
       xpdk_close (spdk_turn fuel) n fd w = Ok XPDK_SUCCESS w') /\
    devs w' = <[Z.to_nat fd := closed d]> (devs w) /\ at_rest w w'.
Proof.
  intros Hidle Hfree Hslot Huse. pose proof Hslot as [Hfd Hd].
  destruct (send_request_serves w XPDK_MSG_CLOSE (PClose fd)
    (fun rc w' => rc = XPDK_SUCCESS /\ devs w' = <[Z.to_nat fd := closed d]> (devs w) /\
       at_rest w w')) as (k & rc & w' & Hr & -> & Hds & Hrest); [done|done| |].
  - intros p pl b r1 r2 Hex. set (m := sent_msg _ _).
    assert (w_msgs (at_handler p m pl b r1 w) !! p = Some m) as Hm
      by (simpl; apply lookup_insert_eq).
    destruct (handle_close_eq (at_handler p m pl b r1 w) p m fd d Hm)
      as (b' & Ho & Hsd & Hh); [done..|].
    exists 0%nat, (dev_world p (done_msg XPDK_SUCCESS m) fd (closed d) b' (w_sys w)
      (at_handler p m pl b r1 w)), (done_msg XPDK_SUCCESS m).
    split_and!; try done.
    + intros fuel _. unfold dispatch. by rewrite (bind_ok _ _ _ _ _ Hh).
    + simpl. apply lookup_insert_eq.
    + destruct (ex_same _ _ _ _ _ _ Hex) as (Hmd & _), Hsd as (Hmd' & _).
      apply returned_rest; try done; [lia|exact (in_slot_fd w fd d Hidle Hslot)|rewrite Ho; apply Hex
        |simpl in *; congruence].
  - exists k, w'. split; [|done]. intros fuel n Hf Hn. unfold xpdk_close, is_initialized.
    rewrite (bind_ok _ _ _ _ _ (eq_refl : gets _ w = Ok _ w)), (idle_initialized w Hidle).
    by apply Hr.
Qed.

(** C27: [xpdk_close] of a descriptor in use returns [XPDK_SUCCESS] and frees its slot: not
    in use, no device, descriptor, channel or flags left; no other slot changes. *)
Theorem xpdk_close_correct w fd d :
  idle w -> free_msgs w <> ∅ -> in_slot w fd d -> dev_in_use d = true ->
  exists k w',
    (forall fuel n, (k <= fuel)%nat -> (0 < n)%nat ->
       xpdk_close (spdk_turn fuel) n fd w = Ok XPDK_SUCCESS w') /\
    devs w' = <[Z.to_nat fd := closed d]> (devs w) /\ at_rest w w'.
Proof. apply close_returns. Qed.

(** ** Opening *)

(** [i] is the lowest free slot, and [d] is in it. *)
Definition lowest_free (w : world) (i : Z) (d : xpdk_device) : Prop :=
  in_slot w i d /\ dev_in_use d = false /\
  (forall k d', 0 <= k < i -> devs w !! Z.to_nat k = Some d' -> dev_in_use d' = true).

Definition table_full (w : world) : Prop :=
  forall k d, 0 <= k -> devs w !! Z.to_nat k = Some d -> dev_in_use d = true.

Lemma find_free_fd_cases w :
  devices_wf (devs w) ->
  (exists i d, lowest_free w i d /\
     xpdk_find_free_fd w = Ok i (w_put_dev i (set_dev_in_use true d) w)) \/
  (table_full w /\ xpdk_find_free_fd w = Ok XPDK_ERROR_NOMEM w).
Proof.
  intros [Hl _].
  destruct (find_free_fd_from_spec w (Z.to_nat XPDK_MAX_OPEN_DEVICES) 0)
    as [(j & d & Hj & Hd & Hu & Hall & Heq)|[Hall Heq]]; [lia|lia|left|by right].
  exists j, d. pose proof (lookup_lt_Some _ _ _ Hd). unfold lowest_free, in_slot.
  split_and!; try done; lia.
Qed.

(** The slot while the open is under way. *)
Definition claimed (bd flags : Z) (d : xpdk_device) : xpdk_device :=
  set_dev_flags flags (set_dev_bdev bd (set_dev_in_use true d)).

Inductive open_started (w : world) (p : Z) (m : xpdk_msg) (name : string) (flags : Z) :
    world -> Prop :=
| open_no_device :
    spdk_bdev_get_by_name (w_bdev w) name = NULL ->
    open_started w p m name flags (w_put_msg p (done_msg XPDK_ERROR_NODEV m) w)
| open_no_slot :
    spdk_bdev_get_by_name (w_bdev w) name <> NULL -> table_full w ->
    open_started w p m name flags (w_put_msg p (done_msg XPDK_ERROR_NOMEM m) w)
| open_refused i d b :
    spdk_bdev_get_by_name (w_bdev w) name <> NULL -> lowest_free w i d ->
    outstanding b = outstanding (w_bdev w) -> same_data (w_bdev w) b ->
    open_started w p m name flags
      (dev_world p (done_msg XPDK_ERROR_IO (set_msg_u (POpen name flags i) m)) i
         (set_dev_in_use false (claimed (spdk_bdev_get_by_name (w_bdev w) name) flags d))
         b (w_sys w) w)
| open_accepted i d b :
    spdk_bdev_get_by_name (w_bdev w) name <> NULL -> lowest_free w i d ->
    outstanding b = outstanding (w_bdev w) ++ [WOpen p name (write_access flags)] ->
    same_data (w_bdev w) b ->
    open_started w p m name flags
      (dev_world p (set_msg_u (POpen name flags i) m) i
         (claimed (spdk_bdev_get_by_name (w_bdev w) name) flags d) b (w_sys w) w).

Lemma handle_open_started w p m name flags rfd :
  w_msgs w !! p = Some m -> msg_u m = POpen name flags rfd -> devices_wf (devs w) ->
  exists w1, xpdk_spdk_handle_open p w = Ok tt w1 /\ open_started w p m name flags w1.
Proof.
  intros Hm Hu Hwf. set (bd := spdk_bdev_get_by_name (w_bdev w) name).
  unfold xpdk_spdk_handle_open. rewrite (bind_ok _ _ _ _ _ (get_msg_eq w p m Hm)), Hu.
  rewrite (bind_ok _ _ _ _ _ (eq_refl : get w = Ok w w)). fold bd.
  destruct (decide (bd = NULL)) as [Hbd|Hbd].
  { eexists. rewrite (complete_msg_eq w p m) by done. split; [done|by constructor]. }
  destruct (find_free_fd_cases w Hwf) as [(i & d & Hlow & Hf)|[Hfull Hf]];
    rewrite (bind_ok _ _ _ _ _ Hf); cycle 1.
  { eexists. rewrite decide_True by done. rewrite (complete_msg_eq w p m) by done.
    split; [done|by constructor]. }
  pose proof Hlow as ([[Hi Hlt] Hd] & _).
  rewrite decide_False by lia.
  assert (w_put_dev i (set_dev_in_use true d) w =
    dev_world p m i (set_dev_in_use true d) (w_bdev w) (w_sys w) w) as ->.
  { unfold dev_world, w_put_msg, w_put_dev. destruct w; simpl in *. by rewrite insert_id. }
  do 2 dw. rewrite bind_get.
  destruct (spdk_bdev_open_ext _ name (write_access flags) p) as [b rc] eqn:Ho. simpl in Ho.
  dw. destruct (decide (rc <> 0)) as [Hrc|Hrc].
  - apply open_err in Ho as [Hob Hsd]; [|done]. dw. dw. eexists. split; [done|].
    by apply open_refused.
  - assert (rc = 0) as -> by lia. apply open_ok in Ho as [Hob Hsd].
    eexists. split; [done|]. by apply open_accepted.
Qed.

(** The slot of a device that was opened. *)
Definition ready (desc ch now : Z) (d : xpdk_device) : xpdk_device :=
  set_dev_stats_start_time now (set_dev_perf_stats perf_stats_zero
    (set_dev_channel ch (set_dev_desc desc d))).

(** The completion of an open: success, or one of the two failures, which leave the slot in
    use. *)
Inductive open_finished (m : xpdk_msg) (d : xpdk_device) (desc status : Z) :
    xpdk_msg -> xpdk_device -> Prop :=
| open_good ch now :
    status = 0 -> ch <> NULL ->
    open_finished m d desc status (done_msg XPDK_SUCCESS m) (ready desc ch now d)
| open_bad_status :
    status <> 0 -> open_finished m d desc status (done_msg XPDK_ERROR_IO m) d
| open_bad_channel :
    status = 0 -> open_finished m d desc status (done_msg XPDK_ERROR_IO m)
      (set_dev_desc NULL (set_dev_channel NULL d)).

Lemma open_complete_finished w p i d0 m d b y desc status name flags :
  0 <= i -> devs w !! Z.to_nat i = Some d0 -> msg_u m = POpen name flags i ->
  exists m' d' b' y',
    bdev_open_complete desc status p (dev_world p m i d b y w) =
      Ok tt (dev_world p m' i d' b' y' w) /\
    open_finished m d desc status m' d' /\ outstanding b' = outstanding b /\ same_data b b'.
Proof.
  intros Hi Hd Hu. unfold bdev_open_complete. destruct (decide (status <> 0)) as [Hs|Hs].
  { do 4 eexists. split; [by dw|]. by split; [apply open_bad_status|]. }
  dw. rewrite Hu. dw. rewrite bind_get.
  destruct (spdk_bdev_get_io_channel _ desc) as [b1 ch] eqn:Hch. simpl in Hch.
  apply channel_frame in Hch as [Ho1 Hs1]. do 2 dw.
  destruct (decide (ch = NULL)) as [->|Hne].
  - rewrite bind_get. do 2 dw. do 4 eexists. split; [by dw|].
    destruct (close_frame b1 desc) as [Ho2 Hs2].
    split; [exact (open_bad_channel m d desc status ltac:(lia))|]. split; [|by eapply same_data_trans].
    simpl in *. congruence.
  - unfold xpdk_perf_stats_init. rewrite bind_assoc. dw. rewrite bind_assoc. dw.
    rewrite bind_assoc. dw. rewrite bind_ret_l. do 4 eexists. split; [by dw|].
    split; [apply open_good; [lia|done]|done].
Qed.

(** Result and table after [xpdk_open]. *)
Inductive open_outcome (w : world) (name : string) (flags : Z) :
    Z -> list xpdk_device -> Prop :=
| opened i d desc ch now :
    lowest_free w i d -> desc <> NULL -> ch <> NULL ->
    spdk_bdev_get_by_name (w_bdev w) name <> NULL ->
    desc_bdev desc = spdk_bdev_get_by_name (w_bdev w) name ->
    open_outcome w name flags i
      (<[Z.to_nat i :=
           ready desc ch now (claimed (spdk_bdev_get_by_name (w_bdev w) name) flags d)]> (devs w))
| not_found :
    spdk_bdev_get_by_name (w_bdev w) name = NULL ->
    open_outcome w name flags XPDK_ERROR_NODEV (devs w)
| no_slot :
    table_full w -> open_outcome w name flags XPDK_ERROR_NOMEM (devs w)
| not_opened i d :
    lowest_free w i d ->
    open_outcome w name flags XPDK_ERROR_IO
      (<[Z.to_nat i := set_dev_in_use false
           (claimed (spdk_bdev_get_by_name (w_bdev w) name) flags d)]> (devs w))
| slot_leaked i d d' :
    lowest_free w i d ->
    d' = claimed (spdk_bdev_get_by_name (w_bdev w) name) flags d \/
    d' = set_dev_desc NULL (set_dev_channel NULL
           (claimed (spdk_bdev_get_by_name (w_bdev w) name) flags d)) ->
    open_outcome w name flags XPDK_ERROR_IO (<[Z.to_nat i := d']> (devs w)).

(** The end of [xpdk_open]: the result is read and the message goes back. *)
Definition open_return (p rc : Z) : MW Z :=
  let* m := get_msg p in
  let* fd :=
    if decide (rc = XPDK_SUCCESS) then
      match msg_u m with
      | POpen _ _ result_fd => ret result_fd
      | _ => fail WrongUnionMember
      end
    else ret rc in
  xpdk_msg_free p ;;
  ret fd.

Lemma open_return_eq w1 p pl r m name flags i rc :
  p <> NULL -> w_pool w1 = Some pl -> w_msgs w1 !! p = Some m ->
  rc = XPDK_SUCCESS /\ msg_u m = POpen name flags i \/ rc <> XPDK_SUCCESS ->
  open_return p rc (set_w_ring (Some r) w1) =
    Ok (if decide (rc = XPDK_SUCCESS) then i else rc) (returned p pl r w1).
Proof.
  intros Hp Hpl Hm Hrc. unfold open_return.
  rewrite (bind_ok _ _ _ _ _ (get_msg_eq (set_w_ring (Some r) w1) p m Hm)).
  destruct Hrc as [[-> ->]|Hrc]; [|rewrite !decide_False by done]; simpl;
    by rewrite bind_ret_l, (bind_ok _ _ _ _ _ (return_eq w1 p pl r Hp Hpl)).
Qed.

(** From what the handler did to the result of the call, when that is at once ... *)
Lemma open_at_once w p pl b r1 r2 name flags w1 :
  idle w -> exchange w p pl b r1 r2 ->
  let m := sent_msg XPDK_MSG_OPEN (POpen name flags 0) in
  open_started (at_handler p m pl b r1 w) p m name flags w1 -> outstanding (w_bdev w1) = [] ->
  exists m1, w_msgs w1 !! p = Some m1 /\ msg_completed m1 = true /\ w_ring w1 = Some r1 /\
    w_pool w1 = Some pl /\ msg_status m1 <> XPDK_SUCCESS /\ at_rest w (returned p pl r2 w1) /\
    same_objects w (returned p pl r2 w1) /\
    open_outcome w name flags (msg_status m1) (devs (returned p pl r2 w1)).
Proof.
  intros Hidle Hex m Hst Ho. pose proof Hex as [_ Hfr Hob (Hmd & _ & Hnm) _ _].
  assert (forall rc, at_rest w (returned p pl r2
    (w_put_msg p (done_msg rc m) (at_handler p m pl b r1 w)))) as Hrej
    by (intros; by apply returned_rest_msg).
  destruct Hst as [Hn|Hn Hfull|i d b' Hn Hlow Hob' Hsd|i d b' Hn Hlow Hob' Hsd];
    [exists (done_msg XPDK_ERROR_NODEV m)|exists (done_msg XPDK_ERROR_NOMEM m)
    |exists (done_msg XPDK_ERROR_IO (set_msg_u (POpen name flags i) m))|].
  - split_and!; try done; [simpl; apply lookup_insert_eq|].
    simpl in Hn. rewrite Hnm in Hn. exact (not_found w name flags Hn).
  - split_and!; try done; [simpl; apply lookup_insert_eq|]. exact (no_slot w name flags Hfull).
  - pose proof (in_slot_fd w i d Hidle (proj1 Hlow)) as Hfd.
    split_and!; try done; [simpl; apply lookup_insert_eq| |].
    + destruct Hlow as ([[? _] _] & _), Hsd as (Hmd' & _).
      simpl in Hob', Hmd'.
      apply (returned_rest w p pl b r1 r2 m); [done|done|done|done|congruence|congruence].
    + simpl. rewrite Hnm. exact (not_opened w name flags i d Hlow).
  - simpl in Ho, Hob'. rewrite Ho, Hob in Hob'. by destruct (outstanding b').
Qed.

(** ... and when it is up to the bdev layer. *)
Lemma open_later w p pl b r1 r2 name flags i d b1 :
  idle w -> exchange w p pl b r1 r2 -> lowest_free w i d ->
  spdk_bdev_get_by_name (w_bdev w) name <> NULL ->
  outstanding b1 = [WOpen p name (write_access flags)] -> same_data (w_bdev w) b1 ->
  let m := sent_msg XPDK_MSG_OPEN (POpen name flags 0) in
  let m1 := set_msg_u (POpen name flags i) m in
  let wh := at_handler p m pl b r1 w in
  let w1 := dev_world p m1 i (claimed (spdk_bdev_get_by_name (w_bdev w) name) flags d) b1
              (w_sys w) wh in
  exists k w2 m2 r3,
    (forall fuel n, (k <= n)%nat ->
       while n (pending_test p) (spdk_turn fuel) (set_w_ring (Some r2) w1) =
         Ok tt (set_w_ring (Some r3) w2)) /\
    w_msgs w2 !! p = Some m2 /\ w_pool w2 = Some pl /\ msg_u m2 = POpen name flags i /\
    at_rest w (returned p pl r3 w2) /\ same_objects w (returned p pl r3 w2) /\
    open_outcome w name flags (if decide (msg_status m2 = XPDK_SUCCESS) then i else msg_status m2)
      (devs (returned p pl r3 w2)).
Proof.
  intros Hidle Hex Hlow Hbd Ho1 Hsd m m1 wh w1.
  pose proof (in_slot_fd w i d Hidle (proj1 Hlow)) as Hfd.
  pose proof Hlow as ([[Hi Hlt] Hd] & _). pose proof Hex as [_ _ _ _ [Hq2 Hc2] _].
  set (bd := spdk_bdev_get_by_name (w_bdev w) name) in *.
  destruct (wait_work (set_w_ring (Some r2) w1) r2 p m1
    (WOpen p name (write_access flags))
    (fun w2 => exists m2 d2 b2 y2 r', w2 = dev_world p m2 i d2 b2 y2 (set_w_ring (Some r') wh) /\
       outstanding b2 = [] /\ medium b2 = medium (w_bdev w) /\ dev_fd d2 = i /\
       msg_u m2 = POpen name flags i /\
       open_outcome w name flags
         (if decide (msg_status m2 = XPDK_SUCCESS) then i else msg_status m2)
         (<[Z.to_nat i := d2]> (devs w))))
    as (k & w2 & r3 & Hq3 & Hc3 & (m2 & d2 & b2 & y2 & r' & -> & Ho2 & Hmd2 & Hfd2 & Hu2 & Hout) & Hw);
    [done|done|apply (idle_running w Hidle)|simpl; apply lookup_insert_eq|done|done| |].
  - intros b0 b' c r' Hsd0 [Hob' Hc]. destruct c as [|msg desc st|]; [done| |done].
    destruct Hc as (-> & Hsd' & Hst). simpl in Hsd0.
    destruct (open_complete_finished (set_w_ring (Some r') wh) p i d m1 (claimed bd flags d) b'
      (w_sys w) desc st name flags) as (m2 & d2 & b2 & y2 & Hrun & Hfin & Ho2 & Hsd2); [done..|].
    exists (dev_world p m2 i d2 b2 y2 (set_w_ring (Some r') wh)), m2.
    destruct (same_data_trans _ _ _ (same_data_trans _ _ _ (same_data_trans _ _ _ Hsd Hsd0) Hsd')
      Hsd2) as (Hmd2 & _). destruct (same_data_trans _ _ _ Hsd Hsd0) as (_ & _ & Hnm).
    split_and!; [exact Hrun|done|simpl; apply lookup_insert_eq|by destruct Hfin|].
    exists m2, d2, b2, y2, r'. split_and!; [done|congruence|done|by destruct Hfin|by destruct Hfin|].
    rewrite Hnm in Hst. destruct Hfin as [ch now H0' Hch|Hne|H0'].
    + destruct (Hst H0') as [? ?]. by apply opened.
    + apply (slot_leaked w name flags i d _ Hlow). by left.
    + apply (slot_leaked w name flags i d _ Hlow). by right.
  - exists k, (dev_world p m2 i d2 b2 y2 (set_w_ring (Some r') wh)), m2, r3.
    split_and!; [done|simpl; apply lookup_insert_eq|done|done| |done..|exact Hout].
    assert (exchange w p pl b r1 r3) as Hex3.
    { destruct Hex. split; try done. split; [done|]. simpl in Hc3. lia. }
    exact (returned_rest w p pl b r1 r3 m m2 i d2 b2 y2 Hidle Hex3 Hi Hfd2 Ho2 Hmd2).
Qed.


Lemma lowest_free_at_handler w p m pl b r i d :
  lowest_free (at_handler p m pl b r w) i d -> lowest_free w i d.
Proof. done. Qed.

Lemma open_returns w name flags :
  idle w -> free_msgs w <> ∅ ->
  exists k rc w',
    (forall fuel n, (k <= n)%nat ->
       xpdk_open (spdk_turn fuel) n (Some name) flags w = Ok rc w') /\
    open_outcome w name flags rc (devs w') /\ at_rest w w' /\ same_objects w w'.
Proof.
  intros Hidle Hfree.
  set (m := sent_msg XPDK_MSG_OPEN (POpen name flags 0)).
  destruct (request_eq w XPDK_MSG_OPEN (POpen name flags 0) Hidle Hfree)
    as (p & pl & b & r1 & r2 & Hex & Hreq). fold m in Hreq.
  pose proof Hex as [Hp _ Hob (Hmd & Hqs & Hnm) _ _].
  assert (w_msgs (at_handler p m pl b r1 w) !! p = Some m) as Hm
    by (simpl; apply lookup_insert_eq).
  destruct (handle_open_started (at_handler p m pl b r1 w) p m name flags 0 Hm)
    as (w1 & Hh & Hst); [done|apply (idle_devices w Hidle)|].
  assert (forall fuel, process_msg fuel p (at_handler p m pl b r1 w) = Ok false w1) as Hpr.
  { intros fuel. rewrite (process_msg_eq fuel p m _ Hm).
    change (msg_type m) with XPDK_MSG_OPEN. unfold dispatch.
    by rewrite (bind_ok _ _ _ _ _ Hh). }
  assert (forall fuel n, (0 < n)%nat -> xpdk_open (spdk_turn fuel) n (Some name) flags w =
    request (spdk_turn fuel) n XPDK_MSG_OPEN (POpen name flags 0) open_return w) as Heq.
  { intros fuel n Hn. unfold xpdk_open, is_initialized.
    by rewrite (bind_ok _ _ _ _ _ (eq_refl : gets _ w = Ok _ w)), (idle_initialized w Hidle). }
  destruct (decide (outstanding (w_bdev w1) = [])) as [Ho|Ho].
  - destruct (open_at_once w p pl b r1 r2 name flags w1 Hidle Hex Hst Ho)
      as (m1 & Hm1 & Hmc & Hr1 & Hpl & Hne & Hrest & Hsame & Hout).
    exists 1%nat, (msg_status m1), (returned p pl r2 w1). split_and!; try done.
    intros fuel n Hn. rewrite Heq by lia. destruct n as [|n]; [lia|].
    erewrite (Hreq fuel n w1 (set_w_ring (Some r2) w1) m1);
      [|done|done|by apply while_stop; rewrite (pending_test_eq _ p m1), Hmc|done].
    rewrite (open_return_eq w1 p pl r2 m1 name flags 0) by (try done; by right).
    by rewrite decide_False.
  - destruct Hst as [Hn|Hn Hfull|i d b' Hn Hlow Hob' Hsd|i d b' Hn Hlow Hob' Hsd];
      try (exfalso; apply Ho; done || (simpl in *; congruence)).
    apply lowest_free_at_handler in Hlow. simpl in Hn, Hob', Hsd. rewrite Hob in Hob'.
    rewrite Hnm in Hn.
    destruct (open_later w p pl b r1 r2 name flags i d b') as
      (k & w2 & m2 & r3 & Hw & Hm2 & Hpl2 & Hu2 & Hrest & Hsame & Hout); [done..|by eapply same_data_trans|].
    exists (S k), (if decide (msg_status m2 = XPDK_SUCCESS) then i else msg_status m2),
      (returned p pl r3 w2). split_and!; [|exact Hout|exact Hrest|apply Hsame..].
    intros fuel n Hn'. rewrite Heq by lia. destruct n as [|n]; [lia|].
    erewrite (Hreq fuel n _ (set_w_ring (Some r3) w2) m2); [|apply Hpr|done| |exact Hm2]; cycle 1.
    { simpl. rewrite Hnm. apply (Hw fuel). lia. }
    apply open_return_eq with (m := m2) (name := name) (flags := flags); try done.
    destruct (decide (msg_status m2 = XPDK_SUCCESS)); [by left|by right].
Qed.


(** ** Descriptors that are not open *)

(** The descriptor of a request that names one. *)
Definition request_fd (type : xpdk_msg_type) (params : msg_params) : option Z :=
  match type, params with
  | XPDK_MSG_CLOSE, PClose fd => Some fd
  | XPDK_MSG_FLUSH, PIo fd _ _ _ _ _ _ => Some fd
  | XPDK_MSG_GET_INFO, PGetInfo fd _ => Some fd
  | XPDK_MSG_QOS_SET_LIMITS, PQos fd _ | XPDK_MSG_QOS_GET_LIMITS, PQos fd _ => Some fd
  | XPDK_MSG_GET_PERF_STATS, PPerf fd _ | XPDK_MSG_RESET_PERF_STATS, PPerf fd _ => Some fd
  | XPDK_MSG_TRIM, PTrim fd _ _ | XPDK_MSG_WRITE_ZEROS, PTrim fd _ _ => Some fd
  | _, _ => None
  end.

Lemma dispatch_not_open fuel w p m type fd :
  w_msgs w !! p = Some m -> request_fd type (msg_u m) = Some fd ->
  devices_wf (devs w) -> not_open w fd ->
  dispatch fuel type p w = Ok false (w_put_msg p (done_msg XPDK_ERROR_INVALID m) w).
Proof.
  intros Hm Hfd Hwf Hno.
  assert (forall (h : MW unit), h w = complete_msg p XPDK_ERROR_INVALID w ->
    (h ;; ret false) w = Ok false (w_put_msg p (done_msg XPDK_ERROR_INVALID m) w)) as Hend.
  { intros h Hh. rewrite (complete_msg_eq w p m) in Hh by done.
    by rewrite (bind_ok _ _ _ _ _ Hh). }
  pose proof (get_device_none w fd Hwf Hno) as Hnone.
  pose proof (get_io_device_none w fd Hwf (not_open_no_io w fd Hno)) as Hnone'.
  destruct type, (msg_u m) eqn:Hu; try done; simpl in Hfd; injection Hfd as ->;
    unfold dispatch; apply Hend;
    unfold xpdk_spdk_handle_close, xpdk_spdk_handle_flush, xpdk_spdk_handle_get_info,
      xpdk_spdk_handle_qos_set_limits, xpdk_spdk_handle_qos_get_limits,
      xpdk_spdk_handle_get_perf_stats, xpdk_spdk_handle_reset_perf_stats,
      xpdk_spdk_handle_trim, xpdk_spdk_handle_write_zeros, handle_range;
    rewrite (bind_ok _ _ _ _ _ (get_msg_eq w p m Hm)), Hu;
    by first [rewrite (bind_ok _ _ _ _ _ Hnone)|rewrite (bind_ok _ _ _ _ _ Hnone')].
Qed.

Lemma request_rejected w type params fd :
  idle w -> free_msgs w <> ∅ -> request_fd type params = Some fd -> not_open w fd ->
  exists k w',
    (forall fuel n, (k <= fuel)%nat -> (0 < n)%nat ->
       send_request (spdk_turn fuel) n type params w = Ok XPDK_ERROR_INVALID w') /\
    devs w' = devs w /\ at_rest w w'.
Proof.
  intros Hidle Hfree Hfd Hno.
  destruct (send_request_serves w type params (fun rc w' => rc = XPDK_ERROR_INVALID /\
    devs w' = devs w /\ at_rest w w')) as (k & rc & w' & Hr & -> & ? & ?); [done|done| |by eauto].
  intros p pl b r1 r2 Hex. set (m := sent_msg type params).
  exists 0%nat, (w_put_msg p (done_msg XPDK_ERROR_INVALID m) (at_handler p m pl b r1 w)),
    (done_msg XPDK_ERROR_INVALID m).
  split_and!; try done.
  - intros fuel _. apply (dispatch_not_open fuel _ p m type fd); try done;
      [simpl; apply lookup_insert_eq|apply (idle_devices w Hidle)].
  - simpl. apply lookup_insert_eq.
  - by apply returned_rest_msg.
Qed.


(** ** Describing *)

Lemma get_info_returns w fd d info l :
  idle w -> free_msgs w <> ∅ -> in_slot w fd d -> dev_in_use d = true -> dev_bdev d <> NULL ->
  info <> NULL -> w_infos w !! info = Some l -> l <> [] ->
  exists k w',
    (forall fuel n, (k <= fuel)%nat -> (0 < n)%nat ->
       xpdk_get_info (spdk_turn fuel) n fd info w = Ok XPDK_SUCCESS w') /\
    w_infos w' = <[info := bdev_info (dev_bdev d) :: tail l]> (w_infos w) /\
    devs w' = devs w /\ at_rest w w' /\ same_arrays w w'.
Proof.
  intros Hidle Hfree [Hfd Hd] Huse Hbd Hinfo Hl Hne.
  destruct (send_request_serves w XPDK_MSG_GET_INFO (PGetInfo fd info)
    (fun rc w' => rc = XPDK_SUCCESS /\
       w_infos w' = <[info := bdev_info (dev_bdev d) :: tail l]> (w_infos w) /\
       devs w' = devs w /\ at_rest w w' /\ same_arrays w w'))
    as (k & rc & w' & Hr & -> & ? & ? & ? & ?); [done|done| |].
  - intros p pl b r1 r2 Hex. set (m := sent_msg _ _). set (wh := at_handler p m pl b r1 w).
    assert (w_msgs wh !! p = Some m) as Hm by (simpl; apply lookup_insert_eq).
    set (wi := set_w_infos (<[info := bdev_info (dev_bdev d) :: tail l]> (w_infos w)) wh).
    assert (put_info info 0 (bdev_info (dev_bdev d)) wh = Ok tt wi) as Hput.
    { unfold put_info. rewrite bind_get. simpl. rewrite Hl. destruct l as [|x l]; [done|].
      unfold from_some. rewrite bind_ret_l, decide_True by (simpl; lia). done. }
    assert (xpdk_spdk_handle_get_info p wh =
      Ok tt (w_put_msg p (done_msg XPDK_SUCCESS m) wi)) as Hh.
    { unfold xpdk_spdk_handle_get_info. rewrite (bind_ok _ _ _ _ _ (get_msg_eq wh p m Hm)). simpl.
      rewrite (bind_ok _ _ _ _ _ (get_device_some wh fd d Hfd Hd Huse)).
      rewrite (bind_ok _ _ _ _ _ (get_dev_eq wh fd d (proj1 Hfd) Hd)), decide_False by done.
      rewrite (bind_ok _ _ _ _ _ Hput). by rewrite (complete_msg_eq wi p m). }
    exists 0%nat, (w_put_msg p (done_msg XPDK_SUCCESS m) wi), (done_msg XPDK_SUCCESS m).
    split_and!; try done.
    + intros fuel _. unfold dispatch. by rewrite (bind_ok _ _ _ _ _ Hh).
    + simpl. apply lookup_insert_eq.
    + destruct (returned_rest_msg w p pl b r1 r2 m (done_msg XPDK_SUCCESS m) Hidle Hex)
        as [[] ? ? ? ? ? ?]. by split; [split|..].
  - exists k, w'. split; [|done]. intros fuel n Hf Hn. unfold xpdk_get_info, is_initialized.
    rewrite (bind_ok _ _ _ _ _ (eq_refl : gets _ w = Ok _ w)), (idle_initialized w Hidle).
    cbn [negb]. rewrite decide_False by done. by apply Hr.
Qed.

(** [xpdk_get_info] of an open descriptor fills in the caller's structure, and only
    that: name (at most 255 characters), block size, number of blocks, and the capacity as
    their product modulo 2^64. *)
Theorem xpdk_get_info_correct w fd d info l :
  idle w -> free_msgs w <> ∅ -> in_slot w fd d -> dev_in_use d = true -> dev_bdev d <> NULL ->
  info <> NULL -> w_infos w !! info = Some l -> l <> [] ->
  exists k w',
    (forall fuel n, (k <= fuel)%nat -> (0 < n)%nat ->
       xpdk_get_info (spdk_turn fuel) n fd info w = Ok XPDK_SUCCESS w') /\
    w_infos w' = <[info := bdev_info (dev_bdev d) :: tail l]> (w_infos w) /\
    devs w' = devs w /\ at_rest w w'.
Proof.
  intros. destruct (get_info_returns w fd d info l) as (k & w' & ? & ? & ? & ? & _); [done..|].
  by exists k, w'.
Qed.

(** ** Listing *)

Definition put_infos (devices : Z) (l : list xpdk_bdev_info) (w : world) : world :=
  set_w_infos (<[devices := l]> (w_infos w)) w.

Lemma put_info_eq w devices pre x suf info :
  w_infos w !! devices = Some (pre ++ x :: suf) ->
  put_info devices (Z.of_nat (length pre)) info w = Ok tt (put_infos devices (pre ++ info :: suf) w).
Proof.
  intros Hl. unfold put_info. rewrite bind_get, Hl. unfold from_some.
  rewrite bind_ret_l, decide_True by (rewrite length_app; simpl; lia).
  by rewrite Nat2Z.id, insert_app_r_alt, Nat.sub_diag by lia.
Qed.

(** The iteration fills the array from [pre] on until it or the list of devices ends. *)
Lemma bdev_list_loop_eq devices max bds w pre suf :
  w_infos w !! devices = Some (pre ++ suf) -> (length pre <= max)%nat ->
  (max <= length pre + length suf)%nat ->
  let some := take (max - length pre) bds in
  bdev_list_loop devices (Z.of_nat max) (Z.of_nat (length pre)) bds w =
    Ok (Z.of_nat (length pre + length some))
       (put_infos devices (pre ++ (bdev_info <$> some) ++ drop (length some) suf) w).
Proof.
  revert w pre suf. induction bds as [|bd bds IH]; intros w pre suf Hl Hle Hlen some; subst some; simpl.
  - rewrite take_nil. simpl. unfold ret, put_infos. rewrite Nat.add_0_r. f_equal.
    destruct w; simpl in *. by rewrite insert_id.
  - unfold bdev_list_iter. destruct (max - length pre)%nat as [|k] eqn:Hk.
    + rewrite decide_True by lia. rewrite bind_ret_l. simpl.
      specialize (IH w pre suf Hl Hle Hlen). by rewrite Hk in IH.
    + rewrite decide_False by lia. destruct suf as [|x suf]; [simpl in Hlen; lia|].
      rewrite bind_assoc, (bind_ok _ _ _ _ _ (put_info_eq w devices pre x suf _ Hl)), bind_ret_l.
      replace (Z.of_nat (length pre) + 1) with (Z.of_nat (length (pre ++ [bdev_info bd])))
        by (rewrite length_app; simpl; lia).
      rewrite (IH _ (pre ++ [bdev_info bd]) suf);
        [|simpl; rewrite lookup_insert_eq; by rewrite <- app_assoc
         |rewrite length_app; simpl; lia|rewrite length_app; simpl in *; lia].
      rewrite length_app. simpl length.
      replace (max - (length pre + 1))%nat with k by lia. simpl.
      f_equal; [lia|]. unfold put_infos. simpl. by rewrite insert_insert_eq, <- app_assoc.
Qed.

Lemma handle_list_eq w p m devices max l c :
  w_msgs w !! p = Some m -> msg_u m = PList devices (Z.of_nat max) c ->
  w_infos w !! devices = Some l -> (max <= length l)%nat ->
  let some := take max (spdk_for_each_bdev (w_bdev w)) in
  xpdk_spdk_handle_list_bdevs p w =
    Ok tt (w_put_msg p
             (done_msg XPDK_SUCCESS
               (set_msg_u (PList devices (Z.of_nat max) (Z.of_nat (length some))) m))
             (put_infos devices ((bdev_info <$> some) ++ drop (length some) l) w)).
Proof.
  intros Hm Hu Hl Hmax some. unfold xpdk_spdk_handle_list_bdevs.
  rewrite (bind_ok _ _ _ _ _ (get_msg_eq w p m Hm)), Hu, bind_get.
  pose proof (bdev_list_loop_eq devices max (spdk_for_each_bdev (w_bdev w)) w [] l Hl
    ltac:(simpl; lia) ltac:(simpl; lia)) as Hloop.
  simpl in Hloop. rewrite Nat.sub_0_r in Hloop. fold some in Hloop.
  rewrite (bind_ok _ _ _ _ _ Hloop).
  erewrite bind_ok by (apply (upd_msg_eq _ p m); done).
  erewrite complete_msg_eq by (simpl; apply lookup_insert_eq).
  unfold w_put_msg. simpl. by rewrite insert_insert_eq.
Qed.

Lemma list_bdevs_returns w devices max_devices l :
  idle w -> free_msgs w <> ∅ -> devices <> NULL -> 0 < max_devices ->
  w_infos w !! devices = Some l -> Z.of_nat (length l) = max_devices ->
  exists k b w',
    let some := take (Z.to_nat max_devices) (spdk_for_each_bdev b) in
    same_data (w_bdev w) b /\
    (forall fuel n, (k <= fuel)%nat -> (0 < n)%nat ->
       xpdk_list_bdevs (spdk_turn fuel) n devices max_devices w = Ok (Z.of_nat (length some)) w') /\
    w_infos w' = <[devices := (bdev_info <$> some) ++ drop (length some) l]> (w_infos w) /\
    devs w' = devs w /\ at_rest w w' /\ same_arrays w w' /\ w_bdev w' = b.
Proof.
  intros Hidle Hfree Hdev Hpos Hl Hlen.
  destruct (request_one w XPDK_MSG_LIST_BDEVS (PList devices max_devices 0) Hidle Hfree)
    as (p & pl & b & r1 & r2 & Hex & Hreq).
  set (m := sent_msg _ _) in *. set (wh := at_handler p m pl b r1 w) in *.
  set (some := take (Z.to_nat max_devices) (spdk_for_each_bdev b)).
  assert (w_msgs wh !! p = Some m) as Hm by (simpl; apply lookup_insert_eq).
  pose proof (handle_list_eq wh p m devices (Z.to_nat max_devices) l 0 Hm
    ltac:(simpl; by rewrite Z2Nat.id by lia) Hl ltac:(lia)) as Hh. simpl in Hh. fold some in Hh.
  rewrite Z2Nat.id in Hh by lia.
  set (m1 := done_msg XPDK_SUCCESS (set_msg_u (PList devices max_devices (Z.of_nat (length some))) m)) in *.
  set (w1 := w_put_msg p m1 (put_infos devices ((bdev_info <$> some) ++ drop (length some) l) wh)) in *.
  exists 0%nat, b, (returned p pl r2 w1). split_and!; try done.
  - apply Hex.
  - intros fuel n _ Hn. unfold xpdk_list_bdevs, is_initialized.
    rewrite (bind_ok _ _ _ _ _ (eq_refl : gets _ w = Ok _ w)), (idle_initialized w Hidle).
    cbn [negb]. rewrite decide_False by lia.
    etrans; [apply (Hreq fuel n w1 m1
      (fun msg rc => let* m := get_msg msg in
         let* rc := if decide (rc = XPDK_SUCCESS) then
           match msg_u m with PList _ _ count => ret count | _ => fail WrongUnionMember end
           else ret rc in
         xpdk_msg_free msg ;; ret rc) Hn); try done|].
    + rewrite (process_msg_eq fuel p m _ Hm). change (msg_type m) with XPDK_MSG_LIST_BDEVS.
      unfold dispatch. by rewrite (bind_ok _ _ _ _ _ Hh).
    + simpl. apply lookup_insert_eq.
    + erewrite bind_ok by (apply (get_msg_eq _ p m1); simpl; apply lookup_insert_eq).
      simpl. rewrite bind_ret_l.
      by rewrite (bind_ok _ _ _ _ _ (return_eq w1 p pl r2 (ex_not_null _ _ _ _ _ _ Hex) eq_refl)).
  - destruct (returned_rest_msg w p pl b r1 r2 m m1 Hidle Hex) as [[] ? ? ? ? ? ?].
    by split; [split|..].
Qed.
(** [xpdk_list_bdevs] on an array of [max_devices] structures returns how many it
    filled in: the devices SPDK enumerates, in its order, up to [max_devices] of them; the
    rest of the array, and everything else, is as before. *)
Theorem xpdk_list_bdevs_correct w devices max_devices l :
  idle w -> free_msgs w <> ∅ -> devices <> NULL -> 0 < max_devices ->
  w_infos w !! devices = Some l -> Z.of_nat (length l) = max_devices ->
  exists k b w',
    let some := take (Z.to_nat max_devices) (spdk_for_each_bdev b) in
    same_data (w_bdev w) b /\
    (forall fuel n, (k <= fuel)%nat -> (0 < n)%nat ->
       xpdk_list_bdevs (spdk_turn fuel) n devices max_devices w = Ok (Z.of_nat (length some)) w') /\
    w_infos w' = <[devices := (bdev_info <$> some) ++ drop (length some) l]> (w_infos w) /\
    devs w' = devs w /\ at_rest w w'.
Proof.
  intros. destruct (list_bdevs_returns w devices max_devices l)
    as (k & b & w' & ? & ? & ? & ? & ? & _); [done..|].
  by exists k, b, w'.
Qed.
End Devices.

Lemma sim_in_slot : @in_slot sim_spdk sim_open_world 0 sim_open_device.
Proof. split; [unfold XPDK_MAX_OPEN_DEVICES; lia|by vm_compute]. Qed.

Lemma sim_not_open : @not_open sim_spdk sim_open_world 7.
Proof. intros d _ Hd. vm_compute in Hd. by injection Hd as <-. Qed.

Lemma xpdk_close_correct_witness :
  exists k w', (forall fuel n, (k <= fuel)%nat -> (0 < n)%nat ->
    @xpdk_close sim_spdk (spdk_turn fuel) n 0 sim_open_world = Ok XPDK_SUCCESS w') /\
    ctx_devices (w_g w') = ctx_devices (w_g (w_put_dev 0 (closed sim_open_device) sim_open_world)).
Proof.
  destruct (@xpdk_close_correct sim_spdk sim_spdk_laws sim_open_world 0 sim_open_device
    sim_idle_open sim_free sim_in_slot eq_refl) as (k & w' & Hr & Hd & _).
  by exists k, w'.
Defined.



Lemma xpdk_get_info_correct_witness :
  exists k w', (forall fuel n, (k <= fuel)%nat -> (0 < n)%nat ->
    @xpdk_get_info sim_spdk (spdk_turn fuel) n 0 20000 sim_info_world = Ok XPDK_SUCCESS w') /\
    w_infos w' !! 20000 = Some (Build_bdev_info "Nvme0n1" 8 1024 8192 ::
      replicate 2 (Build_bdev_info EmptyString 0 0 0)).
Proof.
  destruct (@xpdk_get_info_correct sim_spdk sim_spdk_laws sim_info_world 0 sim_open_device 20000
    (replicate 3 (Build_bdev_info EmptyString 0 0 0)) sim_idle_info sim_free sim_in_slot eq_refl)
    as (k & w' & Hr & Hi & _); [done|done|by vm_compute|done|].
  exists k, w'. split; [done|]. rewrite Hi, lookup_insert_eq. by vm_compute.
Defined.

Lemma xpdk_list_bdevs_correct_witness :
  exists k rc w', (forall fuel n, (k <= fuel)%nat -> (0 < n)%nat ->
    @xpdk_list_bdevs sim_spdk (spdk_turn fuel) n 20000 3 sim_info_world = Ok rc w').
Proof.
  destruct (@xpdk_list_bdevs_correct sim_spdk sim_spdk_laws sim_info_world 20000 3
    (replicate 3 (Build_bdev_info EmptyString 0 0 0)) sim_idle_info sim_free)
    as (k & b & w' & _ & Hr & _); [done|lia|by vm_compute|done|].
  by exists k, (Z.of_nat (length (take (Z.to_nat 3) (@spdk_for_each_bdev sim_bdev_ops b)))), w'.
Defined.
