(* ===== verification/Session.v ===== *)
(** Sessions: any sequence of opens, closes, reads, writes and flushes, in any order and on
    any descriptors, runs to its end and keeps the invariant of the library. *)

From stdpp Require Import base gmap list strings.
From Stdlib Require Import Strings.Byte.
From S2P Require Import Prelude Types Memory Spdk World Sim Core Blocks Perf Bdev Qos Io.
From S2P Require Import Async Vectored Batch Poller Idle IoCorrect SyncIo Devices.

Open Scope Z_scope.

Section Session.
Context `{SpdkLaws}.
Implicit Types (w : world) (d : xpdk_device).

Abbreviation devs w := (ctx_devices (w_g w)).

(** ** The invariant *)

(** A slot is ready for I/O on the device it names, or has neither descriptor nor channel. *)
Definition slot_ok (d : xpdk_device) : Prop :=
  io_open d \/ dev_desc d = NULL /\ dev_channel d = NULL.

Record sound (w : world) : Prop := {
  sound_idle : idle w;
  sound_free : free_msgs w <> ∅;
  sound_slots : forall i d, devs w !! i = Some d -> slot_ok d
}.

(** What a call leaves alone: messages, client callbacks, and what memory is accessible. *)
Record kept (w w' : world) : Prop := {
  kept_msgs : w_msgs w' = w_msgs w;
  kept_free : free_msgs w' = free_msgs w;
  kept_calls : w_calls w' = w_calls w;
  kept_mapped : forall a n, mapped (w_mem w) a n -> mapped (w_mem w') a n
}.

Lemma kept_refl w : kept w w.
Proof. by split. Qed.

Lemma kept_trans w1 w2 w3 : kept w1 w2 -> kept w2 w3 -> kept w1 w3.
Proof. intros [] []. split; [congruence..|auto]. Qed.

Lemma settled_sound w w' :
  sound w -> settled w w' -> (forall a n, mapped (w_mem w) a n -> mapped (w_mem w') a n) ->
  sound w' /\ kept w w'.
Proof.
  intros [Hidle Hfree Hs] [Hi Hm Hf Hd Hc _ _ _] Hmap. split; [|by split].
  split; [done|by rewrite Hf|]. by rewrite Hd.
Qed.

Lemma at_rest_sound w w' :
  sound w -> at_rest w w' -> (forall i d, devs w' !! i = Some d -> slot_ok d) ->
  sound w' /\ kept w w'.
Proof.
  intros [Hidle Hfree Hs] [Hi Hm Hf Hme Hl Hmd Hc] Hsl. split; [|split; [done..|by rewrite Hme]].
  split; [done|by rewrite Hf|done].
Qed.

Lemma slots_insert w i d :
  sound w -> slot_ok d -> forall j d', <[i := d]> (devs w) !! j = Some d' -> slot_ok d'.
Proof.
  intros Hs Hd j d' Hj. apply list_lookup_insert_Some in Hj as [(_ & <- & _)|[_ Hj]]; [done|].
  by apply (sound_slots w Hs j).
Qed.

(** A descriptor leads to a device that is ready, or to none that can do I/O. *)
Lemma slots_device w fd :
  devices_wf (devs w) -> (forall i d, devs w !! i = Some d -> slot_ok d) ->
  (exists d, open_at w fd d) \/ no_io_device w fd.
Proof.
  intros [Hl _] Hs.
  destruct (decide (0 <= fd)) as [Hfd|Hfd]; [|right; intros d Hd; lia].
  destruct (devs w !! Z.to_nat fd) as [d|] eqn:Hd; [|right; intros d _ Hd'; congruence].
  destruct (Hs _ _ Hd) as [Ho|[Hn _]].
  - left. exists d. split_and!; [done| |done|done].
    apply lookup_lt_Some in Hd. rewrite Hl in Hd. lia.
  - right. intros d' _ Hd'. assert (d' = d) as -> by congruence. tauto.
Qed.

Lemma sound_device w fd : sound w -> (exists d, open_at w fd d) \/ no_io_device w fd.
Proof. intros Hs. apply slots_device; [apply idle_devices|]; apply Hs. Qed.

(** ** Calls *)

Inductive client_call :=
| CallOpen (name : string) (flags : Z)
| CallClose (fd : Z)
| CallRead (fd buffer count offset : Z)
| CallWrite (fd buffer count offset : Z)
| CallFlush (fd : Z).

Definition run_call (sched_yield : MW unit) (fuel : nat) (c : client_call) : MW Z :=
  match c with
  | CallOpen name flags => xpdk_open sched_yield fuel (Some name) flags
  | CallClose fd => xpdk_close sched_yield fuel fd
  | CallRead fd buffer count offset => xpdk_read sched_yield fuel fd buffer count offset
  | CallWrite fd buffer count offset => xpdk_write sched_yield fuel fd buffer count offset
  | CallFlush fd => xpdk_flush sched_yield fuel fd
  end.

Fixpoint run_calls (sched_yield : MW unit) (fuel : nat) (l : list client_call) : MW (list Z) :=
  match l with
  | [] => ret []
  | c :: l =>
      let* rc := run_call sched_yield fuel c in
      let* rcs := run_calls sched_yield fuel l in
      ret (rc :: rcs)
  end.

(** The buffers of a call are accessible and below the sizes at which 32 bits wrap around,
    for every device. *)
Definition call_ok (me : memory) (c : client_call) : Prop :=
  match c with
  | CallRead _ ub count _ | CallWrite _ ub count _ =>
      ub <> NULL /\ 0 < count /\ mapped me ub (Z.to_nat count) /\
      (forall bd, count + spdk_bdev_get_block_size bd <= 2 ^ 32)
  | _ => True
  end.

(** What a call may return. *)
Definition call_result (c : client_call) (rc : Z) : Prop :=
  match c with
  | CallOpen _ _ =>
      0 <= rc < XPDK_MAX_OPEN_DEVICES \/
      rc = XPDK_ERROR_NODEV \/ rc = XPDK_ERROR_NOMEM \/ rc = XPDK_ERROR_IO
  | CallClose _ => rc = XPDK_SUCCESS \/ rc = XPDK_ERROR_INVALID
  | CallRead _ _ count _ | CallWrite _ _ count _ =>
      rc = count \/ rc = XPDK_ERROR_INVALID \/ rc = XPDK_ERROR_NOMEM \/ rc = XPDK_ERROR_IO
  | CallFlush _ => rc = XPDK_SUCCESS \/ rc = XPDK_ERROR_INVALID \/ rc = XPDK_ERROR_IO
  end.

(** A call from a sound world: it returns, the world is sound again. *)
Definition call_safe (w : world) (c : client_call) : Prop :=
  exists k rc w',
    (forall fuel n, (k <= fuel)%nat -> (k <= n)%nat -> (0 < n)%nat ->
       run_call (spdk_turn fuel) n c w = Ok rc w') /\
    call_result c rc /\ sound w' /\ kept w w'.
Lemma open_safe w name flags : sound w -> call_safe w (CallOpen name flags).
Proof.
  intros Hs. destruct (open_returns w name flags (sound_idle w Hs) (sound_free w Hs))
    as (k & rc & w' & Hr & Hout & Hrest & _).
  exists k, rc, w'. split; [intros fuel n _ Hk _; by apply Hr|].
  assert (forall i d, lowest_free w i d -> dev_desc d = NULL /\ dev_channel d = NULL) as Hnull.
  { intros i d ([_ Hd] & Hu & _). destruct (sound_slots w Hs _ _ Hd) as [[Huse _ _ _ _]|]; [|done].
    congruence. }
  split.
  - destruct Hout as [i d desc ch now [[? _] _]| | | |]; simpl; auto.
  - apply at_rest_sound; [done..|]. remember (devs w') as ds eqn:Hds. clear Hds.
    destruct Hout as [i d desc ch now Hlow Hdesc Hch Hbd Hh|Hn|Hfull|i d Hlow|i d d' Hlow Hd'];
      try (by apply (sound_slots w Hs)); apply (slots_insert w); try done.
    + left. by split.
    + right. by apply (Hnull i d).
    + right. destruct Hd' as [->| ->]; [by apply (Hnull i d)|done].
Qed.

Lemma slot_or_not w fd :
  devices_wf (devs w) -> (exists d, in_slot w fd d /\ dev_in_use d = true) \/ not_open w fd.
Proof.
  intros [Hl _]. unfold in_slot, not_open.
  destruct (devs w !! Z.to_nat fd) as [d|] eqn:Hd; [|right; intros d _ Hd'; congruence].
  destruct (decide (0 <= fd)) as [Hfd|Hfd]; [|right; intros d' Hfd'; lia].
  destruct (dev_in_use d) eqn:Hu; [left|right; intros d' _ Hd'; congruence].
  exists d. apply lookup_lt_Some in Hd. rewrite Hl in Hd. split; [|done]. split; [lia|done].
Qed.

Lemma close_safe w fd : sound w -> call_safe w (CallClose fd).
Proof.
  intros Hs. pose proof Hs as [Hidle Hfree _].
  destruct (slot_or_not w fd (idle_devices w Hidle)) as [(d & Hslot & Huse)|Hno].
  - destruct (close_returns w fd d Hidle Hfree Hslot Huse) as (k & w' & Hr & Hd & Hrest).
    exists k, XPDK_SUCCESS, w'. split; [intros fuel n Hk _ Hn; by apply Hr|].
    split; [by left|]. apply at_rest_sound; [done..|]. rewrite Hd. apply (slots_insert w); [done|].
    by right.
  - destruct (request_rejected w XPDK_MSG_CLOSE (PClose fd) fd Hidle Hfree eq_refl Hno)
      as (k & w' & Hr & Hd & Hrest).
    exists k, XPDK_ERROR_INVALID, w'. split; [|split; [by right|]].
    + intros fuel n Hk _ Hn. simpl. unfold xpdk_close, is_initialized.
      rewrite (bind_ok _ _ _ _ _ (eq_refl : gets _ w = Ok _ w)), (idle_initialized w Hidle).
      by apply Hr.
    + apply at_rest_sound; [done..|]. rewrite Hd. apply (sound_slots w Hs).
Qed.

Lemma flush_safe w fd : sound w -> call_safe w (CallFlush fd).
Proof.
  intros Hs. pose proof Hs as [Hidle Hfree _]. destruct (sound_device w fd Hs) as [[d Hopen]|Hno].
  - destruct (flush_returns w fd d Hidle Hfree Hopen) as (k & rc & w' & Hr & Hrc & Hm & _ & _ & Hset).
    exists k, rc, w'. split; [intros fuel n Hk _ Hn; by apply Hr|].
    split; [simpl; tauto|]. apply settled_sound; [done..|]. by rewrite Hm.
  - destruct (flush_rejected w fd Hidle Hfree Hno) as (k & w' & Hr & Hm & Hset).
    exists k, XPDK_ERROR_INVALID, w'. split; [intros fuel n Hk _ Hn; by apply Hr|].
    split; [simpl; tauto|]. apply settled_sound; [done..|]. by rewrite Hm.
Qed.

(** The part of reads and writes that refuses. *)
Lemma io_refused w type fd ub count offset :
  sound w -> type = XPDK_MSG_READ \/ type = XPDK_MSG_WRITE -> ub <> NULL -> 0 < count ->
  no_io_device w fd \/ type = XPDK_MSG_READ /\
    (exists d, open_at w fd d /\ Z.land (dev_flags d) O_WRONLY <> 0) ->
  exists k w',
    (forall fuel n, (k <= fuel)%nat -> (0 < n)%nat ->
       sync_io (spdk_turn fuel) n type fd ub count offset w = Ok XPDK_ERROR_INVALID w') /\
    sound w' /\ kept w w'.
Proof.
  intros Hs Ht Hub Hc Hrej. pose proof Hs as [Hidle Hfree _].
  destruct (sync_io_rejected w type fd ub count offset Hidle Hub ltac:(lia) Hfree Ht Hrej)
    as (k & w' & Hr & Hm & _ & _ & Hset).
  exists k, w'. split; [done|]. apply settled_sound; [done..|]. by rewrite Hm.
Qed.

Lemma write_safe w fd ub count offset :
  sound w -> call_ok (w_mem w) (CallWrite fd ub count offset) ->
  call_safe w (CallWrite fd ub count offset).
Proof.
  intros Hs (Hub & Hc & Hma & Hsmall). pose proof Hs as [Hidle Hfree _].
  destruct (sound_device w fd Hs) as [[d Hopen]|Hno].
  - pose proof (proj1 (load_bytes_mapped _ _ _) Hma) as [data Hdata].
    destruct (write_returns w fd d ub count offset data)
      as (k & st & w' & Hr & (Hst & Hm & _) & _ & Hset); [done..|by split|done|].
    exists k, (if decide (st = XPDK_SUCCESS) then count else st), w'.
    split; [intros fuel n Hk _ Hn; by apply Hr|].
    split; [destruct Hst as [->|[->| ->]]; simpl; auto|].
    apply settled_sound; [done..|]. by rewrite Hm.
  - destruct (io_refused w XPDK_MSG_WRITE fd ub count offset) as (k & w' & Hr & Hs' & Hk'); auto.
    exists k, XPDK_ERROR_INVALID, w'. split; [intros fuel n Hk _ Hn; by apply Hr|].
    split; [simpl; auto|done].
Qed.

Lemma read_safe w fd ub count offset :
  sound w -> call_ok (w_mem w) (CallRead fd ub count offset) ->
  call_safe w (CallRead fd ub count offset).
Proof.
  intros Hs (Hub & Hc & Hma & Hsmall). pose proof Hs as [Hidle Hfree _].
  assert (forall w', sound w' /\ kept w w' -> (exists k, forall fuel n, (k <= fuel)%nat ->
    (0 < n)%nat -> sync_io (spdk_turn fuel) n XPDK_MSG_READ fd ub count offset w =
      Ok XPDK_ERROR_INVALID w') -> call_safe w (CallRead fd ub count offset)) as Hrefuse.
  { intros w' Hw' [k Hr]. exists k, XPDK_ERROR_INVALID, w'.
    split; [intros fuel n Hk _ Hn; by apply Hr|]. split; [simpl; auto|done]. }
  destruct (sound_device w fd Hs) as [[d Hopen]|Hno];
    [destruct (decide (Z.land (dev_flags d) O_WRONLY = 0)) as [Hfl|Hfl]|].
  - destruct (read_returns w fd d ub count offset) as (k & st & w' & Hr & Hout & _ & Hset);
      [done..|by split|].
    exists k, (if decide (st = XPDK_SUCCESS) then count else st), w'.
    split; [intros fuel n Hk _ Hn; by apply Hr|]. split; [by destruct Hout; simpl; auto|].
    apply settled_sound; [done..|]. intros a n Han. destruct Hout; try done; by apply mapped_write.
  - destruct (io_refused w XPDK_MSG_READ fd ub count offset) as (k & w' & Hr & Hw'); eauto 6.
  - destruct (io_refused w XPDK_MSG_READ fd ub count offset) as (k & w' & Hr & Hw'); eauto.
Qed.

Lemma call_step w c : sound w -> call_ok (w_mem w) c -> call_safe w c.
Proof.
  destruct c; intros Hs Hok; [by apply open_safe|by apply close_safe|by apply read_safe
    |by apply write_safe|by apply flush_safe].
Qed.

Lemma call_ok_kept w w' c : kept w w' -> call_ok (w_mem w) c -> call_ok (w_mem w') c.
Proof. intros [_ _ _ Hm]. destruct c; simpl; naive_solver. Qed.

End Session.

Lemma sim_sound : @sound sim_spdk sim_spdk_laws sim_open_world.
Proof.
  split; [exact sim_idle_open|exact sim_free|].
  intros i d Hd. change (ctx_devices (w_g sim_open_world)) with
    (<[0%nat := sim_open_device]> (ctx_devices (w_g sim_world))) in Hd.
  apply list_lookup_insert_Some in Hd as [(_ & <- & _)|[_ Hd]].
  - left. apply sim_open_at.
  - right. change (sim_devices !! i = Some d) in Hd. unfold sim_devices in Hd.
    apply list_lookup_imap_Some in Hd as (d' & Hd' & ->).
    apply lookup_replicate in Hd' as [-> _]. done.
Qed.

(** A close of a free descriptor, an open, a read and a flush of descriptor 0, its close, and
    a read that comes too late. *)
Definition sim_calls : list client_call :=
  [CallClose 7; CallOpen "Malloc0" O_RDWR; CallRead 0 8192 5 16; CallFlush 0; CallClose 0;
   CallRead 0 8192 5 16].

