(* ===== verification/Clients.v ===== *)
(** Several client threads at once.

    Each thread makes one synchronous call after the other.  The pieces of a call between which
    other threads can run are the steps here: the client fills in its message, puts it on the
    ring, looks at it until it is completed, and reads the result; meanwhile the SPDK thread
    polls the bdev layer and serves the messages of the ring one by one.  The steps of all
    threads may come in any order. *)

From stdpp Require Import base gmap list strings.
From Stdlib Require Import Strings.Byte.
From S2P Require Import Prelude Types Memory Spdk World Sim Core Blocks Perf Bdev Qos Io.
From S2P Require Import Async Vectored Batch Poller Idle IoCorrect SyncIo Devices Session.

Open Scope Z_scope.

(** Where a thread is in its current call: before it, with its message filled in, with the
    message on the ring, with the answer. *)
Inductive thread_pc :=
| TReady
| TFilled (msg : Z)
| TWaiting (msg : Z)
| TAnswered (msg rc : Z).

Record thread := Build_thread {
  th_todo : list client_call; (* the call it is in, and those to come *)
  th_pc : thread_pc
}.

(** What happens to a call: it is made, it is carried out with a status, it returns. *)
Inductive event :=
| EvCall (c : client_call)
| EvServe (c : client_call) (status : Z)
| EvReturn (rc : Z).

Definition trace : Type := list (nat * event).

Section Clients.
Context `{Spdk}.

(** ** The code, in pieces *)

(** The type of the message of a call, and what the client fills in. *)
Definition call_type (c : client_call) : xpdk_msg_type :=
  match c with
  | CallOpen _ _ => XPDK_MSG_OPEN
  | CallClose _ => XPDK_MSG_CLOSE
  | CallRead _ _ _ _ => XPDK_MSG_READ
  | CallWrite _ _ _ _ => XPDK_MSG_WRITE
  | CallFlush _ => XPDK_MSG_FLUSH
  end.

Definition call_params (c : client_call) : msg_params :=
  match c with
  | CallOpen name flags => POpen name flags 0
  | CallClose fd => PClose fd
  | CallRead fd buffer count offset | CallWrite fd buffer count offset =>
      PIo fd buffer count offset 0 None NULL
  | CallFlush fd => PIo fd NULL 0 0 0 None NULL
  end.

Definition bad_arguments (c : client_call) : bool :=
  match c with
  | CallRead _ buffer count _ | CallWrite _ buffer count _ => bool_decide (buffer = NULL \/ count = 0)
  | _ => false
  end.

(** A call up to [xpdk_msg_send_sync]: the value it returns at once, or the message it sends. *)
Definition begin_call (c : client_call) : MW (Z + Z) :=
  let* initialized := is_initialized in
  if negb initialized then ret (inl XPDK_ERROR_INVALID)
  else if bad_arguments c then ret (inl XPDK_ERROR_INVALID)
  else
    let* msg := xpdk_msg_alloc (call_type c) in
    if decide (msg = NULL) then ret (inl XPDK_ERROR_NOMEM)
    else upd_msg msg (set_msg_u (call_params c)) ;; ret (inr msg).

(** A call from the return of [xpdk_msg_send_sync] on. *)
Definition end_call (c : client_call) (msg rc : Z) : MW Z :=
  match c with
  | CallOpen _ _ =>
      let* m := get_msg msg in
      let* fd :=
        if decide (rc = XPDK_SUCCESS) then
          match msg_u m with
          | POpen _ _ result_fd => ret result_fd
          | _ => fail WrongUnionMember
          end
        else ret rc in
      xpdk_msg_free msg ;;
      ret fd
  | CallRead _ _ _ _ | CallWrite _ _ _ _ =>
      let* m := get_msg msg in
      let* result := io_result rc m in
      xpdk_msg_free msg ;;
      ret result
  | CallClose _ | CallFlush _ => xpdk_msg_free msg ;; ret rc
  end.

(** One iteration of the loop of the message poller. *)
Definition serve (fuel : nat) : MW (option Z) :=
  let* msg := ring_dequeue in
  match msg with
  | None => ret None
  | Some msg =>
      upd_g (fun g => set_ctx_total_messages_processed
                        (u64 (ctx_total_messages_processed g + 1)) g) ;;
      let* _ := process_msg fuel msg in
      ret (Some msg)
  end.

(** The pieces make up the calls ... *)
Lemma begin_call_then {B} c (K : Z + Z -> MW B) w :
  (let* r := begin_call c in K r) w =
    (if negb (ctx_initialized (w_g w)) then K (inl XPDK_ERROR_INVALID)
     else if bad_arguments c then K (inl XPDK_ERROR_INVALID)
     else
       let* msg := xpdk_msg_alloc (call_type c) in
       if decide (msg = NULL) then K (inl XPDK_ERROR_NOMEM)
       else upd_msg msg (set_msg_u (call_params c)) ;; K (inr msg)) w.
Proof.
  unfold begin_call. rewrite bind_assoc. unfold bind at 1, is_initialized, gets.
  destruct (ctx_initialized (w_g w)); [|done]. cbn [negb]. destruct (bad_arguments c); [done|].
  unfold bind. destruct (xpdk_msg_alloc (call_type c) w) as [msg w1| |]; [|done|done].
  destruct (decide (msg = NULL)); [done|]. by destruct (upd_msg _ _ w1).
Qed.

Lemma run_call_pieces turn n c w :
  run_call turn n c w =
    (let* r := begin_call c in
     match r with
     | inl rc => ret rc
     | inr msg => let* rc := xpdk_msg_send_sync turn n msg in end_call c msg rc
     end) w.
Proof.
  rewrite begin_call_then.
  destruct c; simpl; unfold xpdk_open, xpdk_close, xpdk_read, xpdk_write, xpdk_flush, sync_io,
    send_request; unfold bind at 1, is_initialized, gets;
    (destruct (ctx_initialized (w_g w)); [|done]); simpl; try done;
    case_bool_decide; by rewrite ?decide_True, ?decide_False by done.
Qed.

(** ... and the loop of the poller. *)
Lemma dispatch_ends fuel type p w s w' :
  dispatch fuel type p w = Ok s w' -> type <> XPDK_MSG_SHUTDOWN -> s = false.
Proof.
  assert (forall (m : MW unit) w, (m ;; ret false) w = Ok s w' -> s = false) as Hend.
  { intros m w0. unfold bind. destruct (m w0); [|done..]. by intros [= ->]. }
  intros Hd Ht. destruct type; try done; try (by eapply Hend);
    (eapply Hend; unfold dispatch in Hd; unfold bind at 1, upd_g, modify in Hd; exact Hd).
Qed.

Lemma serve_poller fuel n processed w p w' :
  serve fuel w = Ok (Some p) w' ->
  (forall m, w_msgs w !! p = Some m -> msg_type m <> XPDK_MSG_SHUTDOWN) ->
  poller_loop fuel (S n) processed w = poller_loop fuel n (processed + 1) w'.
Proof.
  intros Hs Hm. cbn [poller_loop]. unfold serve in Hs. unfold bind at 1. unfold bind at 1 in Hs.
  destruct (ring_dequeue w) as [[q|] w1| |] eqn:Hr; try done.
  assert (w_msgs w1 = w_msgs w) as Hw.
  { unfold ring_dequeue, bind, get in Hr. destruct (w_ring w); [|done]. simpl in Hr.
    destruct (spdk_ring_dequeue _). injection Hr as _ <-. done. }
  unfold bind at 1, upd_g at 1, modify at 1. unfold bind at 1, upd_g at 1, modify at 1 in Hs.
  unfold bind at 1. unfold bind at 1 in Hs. destruct (process_msg fuel q _) as [sd w2| |] eqn:Hp; try done.
  injection Hs as -> ->. unfold process_msg, bind at 1 in Hp.
  destruct (get_msg p _) as [m w3| |] eqn:Hg; try done.
  unfold get_msg, bind, get in Hg. simpl in Hg. rewrite Hw in Hg.
  destruct (w_msgs w !! p) as [m'|] eqn:Hp'; [|done]. injection Hg as -> <-.
  by rewrite (dispatch_ends _ _ _ _ _ _ Hp (Hm m eq_refl)).
Qed.

(** ** Steps *)

Record system := Build_system {
  sy_world : world;
  sy_threads : gmap nat thread
}.

(** Thread [i] goes on, leaving the world [w]. *)
Definition goes_on (i : nat) (todo : list client_call) (pc : thread_pc) (w : world)
    (s : system) : system :=
  Build_system w (<[i := Build_thread todo pc]> (sy_threads s)).

(** The steps of thread [i], which is in the call [c] with the calls [cs] to come.  While its
    message is not completed it only looks. *)
Inductive thread_step (i : nat) (s : system) : trace -> system -> Prop :=
| step_refused c cs rc w' :
    sy_threads s !! i = Some (Build_thread (c :: cs) TReady) ->
    begin_call c (sy_world s) = Ok (inl rc) w' ->
    thread_step i s [(i, EvCall c); (i, EvReturn rc)] (goes_on i cs TReady w' s)
| step_filled c cs msg w' :
    sy_threads s !! i = Some (Build_thread (c :: cs) TReady) ->
    begin_call c (sy_world s) = Ok (inr msg) w' ->
    thread_step i s [(i, EvCall c)] (goes_on i (c :: cs) (TFilled msg) w' s)
| step_sent c cs msg w' :
    sy_threads s !! i = Some (Build_thread (c :: cs) (TFilled msg)) ->
    ring_enqueue msg (sy_world s) = Ok 1 w' ->
    thread_step i s [] (goes_on i (c :: cs) (TWaiting msg) w' s)
| step_not_sent c cs msg count w' :
    sy_threads s !! i = Some (Build_thread (c :: cs) (TFilled msg)) ->
    ring_enqueue msg (sy_world s) = Ok count w' -> count <> 1 ->
    thread_step i s [] (goes_on i (c :: cs) (TAnswered msg XPDK_ERROR_BUSY) w' s)
| step_looks c cs msg m w' :
    sy_threads s !! i = Some (Build_thread (c :: cs) (TWaiting msg)) ->
    get_msg msg (sy_world s) = Ok m w' ->
    thread_step i s []
      (goes_on i (c :: cs)
         (if msg_completed m then TAnswered msg (msg_status m) else TWaiting msg) w' s)
| step_returns c cs msg rc result w' :
    sy_threads s !! i = Some (Build_thread (c :: cs) (TAnswered msg rc)) ->
    end_call c msg rc (sy_world s) = Ok result w' ->
    thread_step i s [(i, EvReturn result)] (goes_on i cs TReady w' s).

(** The SPDK thread polls the bdev layer. *)
Inductive poll_step (s : system) : trace -> system -> Prop :=
| step_polls busy w' :
    poll_bdev (sy_world s) = Ok busy w' ->
    poll_step s [] (Build_system w' (sy_threads s)).

(** The SPDK thread looks at the ring: it finds nothing, or serves a message, which belongs to
    some thread. *)
Inductive serve_step (s : system) : trace -> system -> Prop :=
| step_nothing w' :
    (forall fuel, serve fuel (sy_world s) = Ok None w') ->
    serve_step s [] (Build_system w' (sy_threads s))
| step_serves k i c cs msg m w' :
    (forall fuel, (k <= fuel)%nat -> serve fuel (sy_world s) = Ok (Some msg) w') ->
    sy_threads s !! i = Some (Build_thread (c :: cs) (TWaiting msg)) ->
    w_msgs w' !! msg = Some m ->
    serve_step s [(i, EvServe c (msg_status m))] (Build_system w' (sy_threads s)).

(** Whose step it is. *)
Inductive actor :=
| Client (i : nat)
| SpdkPolls
| SpdkServes.

Definition sys_step (a : actor) : system -> trace -> system -> Prop :=
  match a with
  | Client i => thread_step i
  | SpdkPolls => poll_step
  | SpdkServes => serve_step
  end.

(** An execution: whose steps it takes and what happens in it. *)
Inductive sys_run (s : system) : list actor -> trace -> system -> Prop :=
| run_none : sys_run s [] [] s
| run_more l tr s1 a es s2 :
    sys_run s l tr s1 -> sys_step a s1 es s2 -> sys_run s (l ++ [a]) (tr ++ es) s2.

(** The threads at the start. *)
Definition start (w : world) (P : gmap nat (list client_call)) : system :=
  Build_system w ((fun cs => Build_thread cs TReady) <$> P).

(** Every thread has made all its calls. *)
Definition finished (s : system) : Prop :=
  forall i t, sy_threads s !! i = Some t -> t = Build_thread [] TReady.

(** ** What is seen of an execution *)

(** The calls carried out, in order. *)
Definition served (tr : trace) : list (client_call * Z) :=
  omap (fun e => match snd e with EvServe c st => Some (c, st) | _ => None end) tr.

(** What thread [i] has to do with. *)
Definition events_of (i : nat) (tr : trace) : list event :=
  omap (fun e => if decide (fst e = i) then Some (snd e) else None) tr.

(** The value a call returns for the status of its message. *)
Definition call_value (c : client_call) (st : Z) : Z :=
  match c with
  | CallRead _ _ count _ | CallWrite _ _ count _ => if decide (st = XPDK_SUCCESS) then count else st
  | _ => st
  end.

(** The calls [cs] one after the other: each is carried out once, between the moment it is made
    and the moment it returns, and returns what it was carried out with; or it returns an
    error without having been carried out, because there was no message or no room. *)
Inductive one_by_one : list event -> list client_call -> Prop :=
| one_none : one_by_one [] []
| one_served l cs c st :
    one_by_one l cs ->
    one_by_one (l ++ [EvCall c; EvServe c st; EvReturn (call_value c st)]) (cs ++ [c])
| one_refused l cs c rc :
    one_by_one l cs -> rc = XPDK_ERROR_NOMEM \/ rc = XPDK_ERROR_BUSY ->
    one_by_one (l ++ [EvCall c; EvReturn rc]) (cs ++ [c]).

(** The events of a thread that makes the calls [cs]: some calls are over, and the next one may
    have been made, and may have been carried out. *)
Definition history_of (cs : list client_call) (l : list event) : Prop :=
  exists l0 fin rest, fin ++ rest = cs /\ one_by_one l0 fin /\
    (l = l0 \/
     exists c rest', rest = c :: rest' /\
       (l = l0 ++ [EvCall c] \/ exists st, l = l0 ++ [EvCall c; EvServe c st])).
End Clients.

Section Serving.
Context `{SpdkLaws}.
Implicit Types (w : world) (d : xpdk_device) (c : client_call) (q : list Z).

Abbreviation devs w := (ctx_devices (w_g w)).

(** ** What a call does, when it is carried out alone *)

(** Nothing a call works on differs. *)
Definition same_store w w' : Prop :=
  w_mem w' = w_mem w /\ w_dma_live w' = w_dma_live w /\
  medium (w_bdev w') = medium (w_bdev w) /\ devs w' = devs w.

(** The status of a call and the store after it. *)
Inductive call_spec w w' : client_call -> Z -> Prop :=
| spec_read fd d ub count offset st :
    open_at w fd d -> Z.land (dev_flags d) O_WRONLY = 0 ->
    read_outcome w d ub count offset st (w_mem w') (w_dma_live w') ->
    medium (w_bdev w') = medium (w_bdev w) -> devs w' = devs w ->
    call_spec w w' (CallRead fd ub count offset) st
| spec_write fd d ub count offset data st :
    open_at w fd d -> load_bytes (w_mem w) ub (Z.to_nat count) = Some data ->
    write_outcome w st (w_mem w') (w_dma_live w') ->
    write_effect w count offset d data (w_bdev w') st -> devs w' = devs w ->
    call_spec w w' (CallWrite fd ub count offset) st
| spec_flush fd d st :
    open_at w fd d -> st = XPDK_SUCCESS \/ st = XPDK_ERROR_IO -> same_store w w' ->
    call_spec w w' (CallFlush fd) st
| spec_close fd d :
    in_slot w fd d -> dev_in_use d = true ->
    w_mem w' = w_mem w -> w_dma_live w' = w_dma_live w ->
    medium (w_bdev w') = medium (w_bdev w) ->
    devs w' = <[Z.to_nat fd := closed d]> (devs w) ->
    call_spec w w' (CallClose fd) XPDK_SUCCESS
| spec_refused c :
    match c with
    | CallRead fd _ _ _ =>
        no_io_device w fd \/ exists d, open_at w fd d /\ Z.land (dev_flags d) O_WRONLY <> 0
    | CallWrite fd _ _ _ | CallFlush fd => no_io_device w fd
    | CallClose fd => not_open w fd
    | CallOpen _ _ => False
    end ->
    same_store w w' -> call_spec w w' c XPDK_ERROR_INVALID.

(** Calls carried out one after the other from [w0]. *)
Inductive serial (w0 : world) : list (client_call * Z) -> world -> Prop :=
| serial_none w : same_store w0 w -> serial w0 [] w
| serial_then h w w1 w2 c st :
    serial w0 h w -> call_spec w w1 c st -> same_store w1 w2 -> serial w0 (h ++ [(c, st)]) w2.

(** ** The library at work *)

(** The messages [q] are on the ring, and the SPDK thread is between two of them. *)
Record at_work w q : Prop := {
  aw_initialized : ctx_initialized (w_g w) = true;
  aw_running : ctx_spdk_thread_running (w_g w) = true;
  aw_devices : devices_wf (devs w);
  aw_slots : forall i d, devs w !! i = Some d -> slot_ok d;
  aw_ring : exists r, w_ring w = Some r /\ ring_queue r = q /\ (0 < ring_capacity r)%nat;
  aw_outstanding : outstanding (w_bdev w) = [];
  aw_frames : w_sctx w = ∅;
  aw_dma : forall a n, w_dma_live w !! a = Some n -> 0 < n /\ mapped (w_mem w) a (Z.to_nat n)
}.

(** The message of a call on its way, and the message that answers it. *)
Definition call_sent c : xpdk_msg := sent_msg (call_type c) (call_params c).

Definition answered c (st : Z) (m : xpdk_msg) : Prop :=
  msg_completed m = true /\ msg_status m = st /\
  match c with
  | CallRead fd ub count offset | CallWrite fd ub count offset =>
      st = XPDK_SUCCESS -> msg_u m = PIo fd ub count offset count None NULL
  | _ => True
  end.

(** What the service of message [p], of call [c], leaves. *)
Record carried_out w q (p : Z) c (st : Z) w' : Prop := {
  co_spec : call_spec w w' c st;
  co_work : at_work w' q;
  co_msgs : exists m', w_msgs w' = <[p := m']> (w_msgs w) /\ answered c st m';
  co_pool : w_pool w' = w_pool w;
  co_mapped : forall a n, mapped (w_mem w) a n -> mapped (w_mem w') a n
}.

Definition carries_out w q p c : Prop :=
  exists k st w', carried_out w q p c st w' /\
    forall fuel, (k <= fuel)%nat -> dispatch fuel (call_type c) p w = Ok false w'.

(** A handler that changed its message, the media, and memory and blocks of its own. *)
Lemma io_at_work w q p m b me dm dl :
  at_work w q -> outstanding b = [] ->
  (forall a n, dl !! a = Some n -> 0 < n /\ mapped me a (Z.to_nat n)) ->
  at_work (io_world p m b me dm dl (count_io w)) q /\ at_work (io_world p m b me dm dl w) q.
Proof. intros [] Ho Hdl. by split; split. Qed.

(** A call that is refused: only its message changes. *)
Lemma refused_runs w q p c (count_it : bool) :
  at_work w q -> w_msgs w !! p = Some (call_sent c) ->
  (forall w', same_store w w' -> call_spec w w' c XPDK_ERROR_INVALID) ->
  (forall fuel, dispatch fuel (call_type c) p w =
     Ok false (w_put_msg p (done_msg XPDK_ERROR_INVALID (call_sent c))
       (if count_it then count_io w else w))) ->
  carries_out w q p c.
Proof.
  intros [] Hm Hspec Hd. set (m' := done_msg XPDK_ERROR_INVALID (call_sent c)) in *.
  exists 0%nat, XPDK_ERROR_INVALID, (w_put_msg p m' (if count_it then count_io w else w)).
  split; [|by intros fuel _; apply Hd]. destruct count_it; (split; [by apply Hspec|by split|..]);
    try done; exists m'; (split; [done|]); (split; [done|]); by destruct c.
Qed.

Lemma refused_io w q p c fd ub count offset :
  at_work w q -> w_msgs w !! p = Some (call_sent c) ->
  call_params c = PIo fd ub count offset 0 None NULL ->
  (call_type c = XPDK_MSG_READ \/ call_type c = XPDK_MSG_WRITE) /\ no_io_device w fd \/
  call_type c = XPDK_MSG_READ /\
    (exists d, open_at w fd d /\ Z.land (dev_flags d) O_WRONLY <> 0) ->
  forall fuel, dispatch fuel (call_type c) p w =
    Ok false (w_put_msg p (done_msg XPDK_ERROR_INVALID (call_sent c)) (count_io w)).
Proof.
  intros Hw Hm Hp Hrej fuel.
  assert (io_handler (call_type c) fuel p (count_io w) = complete_msg p XPDK_ERROR_INVALID (count_io w))
    as Hh by (by eapply rejected_handler; [exact Hm|exact Hp|apply Hw|]).
  rewrite (complete_msg_eq (count_io w) p (call_sent c)) in Hh by done.
  etrans; [symmetry; exact (process_msg_eq fuel p (call_sent c) w Hm)|].
  rewrite (process_io fuel p (call_sent c) (call_type c) w Hm) by (done || tauto).
  by rewrite (bind_ok _ _ _ _ _ Hh).
Qed.

(** A read or a write from what its handler does. *)
Lemma io_call_runs w q p c fd ub count offset (out : Z -> memory -> gmap Z Z -> Prop)
    (eff : bdev_t -> Z -> Prop) :
  at_work w q -> w_msgs w !! p = Some (call_sent c) ->
  c = CallRead fd ub count offset \/ c = CallWrite fd ub count offset ->
  handled (count_io w) p (call_sent c) count (fun fuel => io_handler (call_type c) fuel p) out eff ->
  (forall st me dl, out st me dl ->
     (forall a n, dl !! a = Some n -> 0 < n /\ mapped me a (Z.to_nat n)) /\
     (forall a n, mapped (w_mem w) a n -> mapped me a n)) ->
  (forall st w', out st (w_mem w') (w_dma_live w') -> eff (w_bdev w') st -> devs w' = devs w ->
     call_spec w w' c st) ->
  carries_out w q p c.
Proof.
  intros Hw Hm Hc (k & st & m' & b & me & dm & dl & Hout & (Hdone & Hst & Hby) & Ho & He & Hrun) Hdl Hspec.
  set (w' := io_world p m' b me dm dl (count_io w)).
  destruct (Hdl st me dl Hout) as [Hlive Hmap].
  exists k, st, w'. split.
  - split; [by apply Hspec|exact (proj1 (io_at_work w q p m' b me dm dl Hw Ho Hlive))|exists m'; split; [done|]|done|done].
    split_and!; [done|done|]. destruct Hc as [->| ->]; intros E; exact (Hby E).
  - intros fuel Hf. etrans; [symmetry; exact (process_msg_eq fuel p (call_sent c) w Hm)|].
    rewrite (process_io fuel p (call_sent c) (call_type c) w Hm) by (destruct Hc as [->| ->]; auto).
    by rewrite (bind_ok _ _ _ _ _ (Hrun fuel Hf)).
Qed.

Lemma read_runs w q p fd ub count offset :
  let c := CallRead fd ub count offset in
  at_work w q -> w_msgs w !! p = Some (call_sent c) -> call_ok (w_mem w) c -> carries_out w q p c.
Proof.
  intros c Hw Hm (Hub & Hc & Hma & Hsmall). pose proof Hw as [_ _ Hwf Hsl _ Ho Hfr Hdma].
  destruct (slots_device w fd Hwf Hsl) as [[d Hopen]|Hno];
    [destruct (decide (Z.land (dev_flags d) O_WRONLY = 0)) as [Hfl|Hfl]|].
  - apply (io_call_runs w q p c fd ub count offset (read_outcome (count_io w) d ub count offset)
      (fun b _ => medium b = medium (w_bdev w))); [done|done|by left| | |].
    + apply (handle_read_ok (count_io w) p (call_sent c) fd ub count offset 0 NULL d); try done.
      simpl. by rewrite Hfr.
    + intros st me dl Hout. split; [exact (read_outcome_live (count_io w) d ub count offset st me dl Hdma Hc Hout)|].
      intros a n Ha.
      destruct Hout; try done; by apply mapped_write.
    + intros st w' Hout Hmd Hds. eapply spec_read; try done. by apply (read_outcome_same (count_io w)).
  - apply (refused_runs w q p c true); [done|done|intros; apply spec_refused; simpl; eauto|].
    by eapply (refused_io w q p c fd ub count offset); eauto.
  - apply (refused_runs w q p c true); [done|done|intros; apply spec_refused; simpl; eauto|].
    by eapply (refused_io w q p c fd ub count offset); eauto.
Qed.

Lemma write_runs w q p fd ub count offset :
  let c := CallWrite fd ub count offset in
  at_work w q -> w_msgs w !! p = Some (call_sent c) -> call_ok (w_mem w) c -> carries_out w q p c.
Proof.
  intros c Hw Hm (Hub & Hc & Hma & Hsmall). pose proof Hw as [_ _ Hwf Hsl _ Ho Hfr Hdma].
  destruct (slots_device w fd Hwf Hsl) as [[d Hopen]|Hno].
  - pose proof (proj1 (load_bytes_mapped _ _ _) Hma) as [data Hdata].
    apply (io_call_runs w q p c fd ub count offset (write_outcome w)
      (write_effect w count offset d data)); [done|done|by right| | |].
    + apply (handle_write_ok (count_io w) p (call_sent c) fd ub count offset 0 NULL d); try done.
      simpl. by rewrite Hfr.
    + by intros st me dl (_ & -> & ->).
    + intros st w' Hout He Hds. by eapply spec_write.
  - apply (refused_runs w q p c true); [done|done|intros; by apply spec_refused|].
    by eapply (refused_io w q p c fd ub count offset); eauto.
Qed.

Lemma flush_runs w q p fd :
  at_work w q -> w_msgs w !! p = Some (call_sent (CallFlush fd)) -> carries_out w q p (CallFlush fd).
Proof.
  intros Hw Hm. pose proof Hw as [_ _ Hwf Hsl _ Ho Hfr Hdma].
  destruct (slots_device w fd Hwf Hsl) as [[d Hopen]|Hno].
  - destruct (handle_flush_ok w p (call_sent (CallFlush fd)) fd NULL 0 0 0 None NULL d)
      as (k & m' & b & Hst & Hc & Hob & Hmd & Hrun); [done..|by rewrite Hfr|].
    exists k, (msg_status m'), (io_world p m' b (w_mem w) (w_dma w) (w_dma_live w) w). split.
    + split; [by eapply spec_flush; [..|split_and!]|exact (proj2 (io_at_work w q p m' b _ _ _ Hw Hob Hdma))
        |by exists m'|done|done].
    + intros fuel Hf. simpl. by rewrite (bind_ok _ _ _ _ _ (Hrun fuel Hf)).
  - apply (refused_runs w q p _ false); [done|done|intros; by apply spec_refused|]. intros fuel. simpl.
    unfold xpdk_spdk_handle_flush. rewrite bind_assoc, (bind_ok _ _ _ _ _ (get_msg_eq w p _ Hm)).
    change (msg_u (call_sent (CallFlush fd))) with (PIo fd NULL 0 0 0 None NULL). cbv beta iota.
    rewrite bind_assoc, (bind_ok _ _ _ _ _ (get_io_device_none w fd Hwf Hno)).
    by rewrite (bind_ok _ _ _ _ _ (complete_msg_eq w p _ _ Hm)).
Qed.

Lemma close_runs w q p fd :
  at_work w q -> w_msgs w !! p = Some (call_sent (CallClose fd)) -> carries_out w q p (CallClose fd).
Proof.
  intros Hw Hm. pose proof Hw as [? ? Hwf Hsl ? Ho ? ?].
  assert ((exists d, in_slot w fd d /\ dev_in_use d = true) \/ not_open w fd)
    as [(d & [Hfd Hd] & Huse)|Hno] by (by apply slot_or_not).
  - destruct (handle_close_eq w p (call_sent (CallClose fd)) fd d) as (b & Hob & (Hmd & _) & Hrun);
      [done..|].
    set (m' := done_msg XPDK_SUCCESS (call_sent (CallClose fd))) in *.
    exists 0%nat, XPDK_SUCCESS, (dev_world p m' fd (closed d) b (w_sys w) w). split.
    + split; [by eapply (spec_close _ _ fd d)| |exists m'; split; [done|by split_and!]|done|done].
      destruct (Hwf) as [_ Hfds]. specialize (Hfds _ _ Hd). split; try done; simpl.
      * apply devices_wf_insert; [done|lia|]. simpl. rewrite Hfds. lia.
      * intros k e He. apply list_lookup_insert_Some in He as [(_ & <- & _)|[_ He]]; [by right|eauto].
      * by rewrite Hob.
    + intros fuel _. simpl. by rewrite (bind_ok _ _ _ _ _ Hrun).
  - apply (refused_runs w q p _ false); [done|done|intros; by apply spec_refused|]. intros fuel.
    by apply (dispatch_not_open fuel w p (call_sent (CallClose fd)) XPDK_MSG_CLOSE fd).
Qed.

Definition no_open c : Prop := forall name flags, c <> CallOpen name flags.

Lemma dispatch_runs w q p c :
  at_work w q -> w_msgs w !! p = Some (call_sent c) -> call_ok (w_mem w) c -> no_open c ->
  carries_out w q p c.
Proof.
  intros Hw Hm Hok Hno. destruct c; [by destruct (Hno name flags)|by apply close_runs
    |by apply read_runs|by apply write_runs|by apply flush_runs].
Qed.

(** The SPDK thread serves the first message of the ring. *)
Lemma serve_runs w q p c :
  at_work w (p :: q) -> w_msgs w !! p = Some (call_sent c) -> call_ok (w_mem w) c -> no_open c ->
  exists k st w', carried_out w q p c st w' /\
    forall fuel, (k <= fuel)%nat -> serve fuel w = Ok (Some p) w'.
Proof.
  intros Hw Hm Hok Hno. pose proof Hw as [? ? ? ? (r & Hr & Hq & Hcap) ? ? ?].
  destruct (ring_dequeue_cons w r p q Hr Hq) as (r1 & Hdq & Hq1 & Hc1).
  set (w1 := bump (set_w_ring (Some r1) w)).
  assert (at_work w1 q) as Hw1 by (split; try done; exists r1; split_and!; [done|done|lia]).
  destruct (dispatch_runs w1 q p c Hw1 Hm Hok Hno) as (k & st & w' & [Hsp Hwk Hms Hpl Hmp] & Hrun).
  exists k, st, w'. split.
  - split; try done. destruct Hsp; [by eapply spec_read; try done; apply (read_outcome_same w1)
      |by eapply spec_write|by eapply spec_flush|by eapply spec_close|by apply spec_refused].
  - intros fuel Hf. unfold serve. rewrite (bind_ok _ _ _ _ _ Hdq).
    rewrite (bind_ok _ _ _ _ _ (bump_eq (set_w_ring (Some r1) w))). fold w1.
    erewrite bind_ok; [done|]. rewrite (process_msg_eq fuel p (call_sent c) w1 Hm). by apply Hrun.
Qed.
End Serving.
