(* ===== verification/Linearize.v ===== *)
(** The invariant of several client threads at once: whose message is which, what is on the
    ring, and how far each thread is; every step of a client and of the SPDK thread keeps it. *)

From stdpp Require Import base gmap list strings.
From Stdlib Require Import Strings.Byte.
From S2P Require Import Prelude Types Memory Spdk World Sim Core Blocks Perf Bdev Qos Io.
From S2P Require Import Async Vectored Batch Poller Idle IoCorrect SyncIo Devices Session Clients.

Open Scope Z_scope.

(** ** Events *)

Lemma served_app tr tr' : served (tr ++ tr') = served tr ++ served tr'.
Proof. apply omap_app. Qed.

Lemma events_of_app i tr tr' : events_of i (tr ++ tr') = events_of i tr ++ events_of i tr'.
Proof. apply omap_app. Qed.

(** The events of thread [i] alone. *)
Definition of_thread (i : nat) (l : list event) : trace := pair i <$> l.

Lemma events_of_cons i j e tr :
  events_of i ((j, e) :: tr) = (if decide (j = i) then [e] else []) ++ events_of i tr.
Proof. unfold events_of. simpl. by case_decide. Qed.

Lemma events_of_same i l : events_of i (of_thread i l) = l.
Proof.
  induction l as [|e l IH]; [done|]. unfold of_thread. rewrite fmap_cons, events_of_cons.
  rewrite decide_True by done. simpl. by f_equal.
Qed.

Lemma events_of_other i j l : i <> j -> events_of j (of_thread i l) = [].
Proof.
  intros Hij. induction l as [|e l IH]; [done|]. unfold of_thread. rewrite fmap_cons, events_of_cons.
  by rewrite decide_False.
Qed.

Section Linearize.
Context `{SpdkLaws}.
Implicit Types (w : world) (c : client_call) (q : list Z) (s : system) (t : thread) (tr : trace).

Abbreviation devs w := (ctx_devices (w_g w)).

Lemma same_store_refl w : same_store w w.
Proof. by split_and!. Qed.

Lemma same_store_trans w1 w2 w3 : same_store w1 w2 -> same_store w2 w3 -> same_store w1 w3.
Proof. intros (? & ? & ? & ?) (? & ? & ? & ?). split_and!; congruence. Qed.

Lemma serial_same w0 h w w' : serial w0 h w -> same_store w w' -> serial w0 h w'.
Proof.
  intros [w1 Hs|h1 w1 w2 w3 c st Hs Hc Hs'] Hw.
  - by apply serial_none, (same_store_trans _ w1).
  - eapply serial_then; [done..|]. by eapply same_store_trans.
Qed.

(** ** The invariant *)

(** The message a thread holds. *)
Definition th_msg t : option Z :=
  match th_pc t with
  | TReady => None
  | TFilled p | TWaiting p | TAnswered p _ => Some p
  end.

(** The events [l] of a thread that has the calls [cs] to make, and the state of its message. *)
Definition thread_ok w q (cs : list client_call) (l : list event) t : Prop :=
  exists l0 fin, one_by_one l0 fin /\ fin ++ th_todo t = cs /\
    match th_pc t with
    | TReady => l = l0
    | TFilled p => exists c rest, th_todo t = c :: rest /\
        l = l0 ++ [EvCall c] /\ w_msgs w !! p = Some (call_sent c) /\ (p ∉ q)
    | TWaiting p => exists c rest, th_todo t = c :: rest /\
        ((p ∈ q) /\ l = l0 ++ [EvCall c] /\ w_msgs w !! p = Some (call_sent c) \/
         (p ∉ q) /\ exists st m, l = l0 ++ [EvCall c; EvServe c st] /\
           w_msgs w !! p = Some m /\ answered c st m)
    | TAnswered p rc => exists c rest, th_todo t = c :: rest /\ (p ∉ q) /\
        (rc = XPDK_ERROR_BUSY /\ l = l0 ++ [EvCall c] /\ w_msgs w !! p = Some (call_sent c) \/
         exists m, l = l0 ++ [EvCall c; EvServe c rc] /\ w_msgs w !! p = Some m /\ answered c rc m)
    end.

Lemma thread_ok_frame w w' q q' cs l t :
  (forall p, th_msg t = Some p -> w_msgs w' !! p = w_msgs w !! p /\ (p ∈ q' <-> p ∈ q)) ->
  thread_ok w q cs l t -> thread_ok w' q' cs l t.
Proof.
  unfold thread_ok, th_msg. intros Hfr (l0 & fin & H1 & H2 & H3). exists l0, fin. split_and!; [done..|].
  destruct (th_pc t) as [|p|p|p rc]; [done|destruct (Hfr p eq_refl) as [Hm Hq]..];
    destruct H3 as (c & rest & H3); exists c, rest; by rewrite Hm, Hq.
Qed.

(** [own] says which thread holds a message, [q] what is on the ring. *)
Record inv (w0 : world) (P : gmap nat (list client_call)) tr s (own : gmap Z nat) q : Prop := {
  inv_work : at_work (sy_world s) q;
  inv_serial : serial w0 (served tr) (sy_world s);
  inv_dom : forall i, is_Some (sy_threads s !! i) <-> is_Some (P !! i);
  inv_threads : forall i t cs, sy_threads s !! i = Some t -> P !! i = Some cs ->
    thread_ok (sy_world s) q cs (events_of i tr) t;
  inv_calls : forall i t, sy_threads s !! i = Some t ->
    Forall (fun c => call_ok (w_mem (sy_world s)) c /\ no_open c) (th_todo t);
  inv_own : forall i t p, sy_threads s !! i = Some t -> (th_msg t = Some p <-> own !! p = Some i);
  inv_owner : forall p i, own !! p = Some i -> is_Some (sy_threads s !! i);
  inv_queue : NoDup q /\ forall p, p ∈ q -> exists i c cs,
    sy_threads s !! i = Some (Build_thread (c :: cs) (TWaiting p));
  inv_pool : exists pl, w_pool (sy_world s) = Some pl /\ pool_free pl ## dom own /\
    pool_free pl ∪ dom own = free_msgs w0;
  inv_msgs : forall p, own !! p = None -> w_msgs (sy_world s) !! p = w_msgs w0 !! p
}.

(** The calls the threads are to make. *)
Definition calls_ok w (P : gmap nat (list client_call)) : Prop :=
  forall i cs, P !! i = Some cs -> Forall (fun c => call_ok (w_mem w) c /\ no_open c) cs.

Lemma inv_start w P : sound w -> calls_ok w P -> inv w P [] (start w P) ∅ [].
Proof.
  intros [Hidle _ Hsl] HP. pose proof Hidle as [? ? ? ? (pl & Hpl & _) ? ? ?].
  assert (forall i t, sy_threads (start w P) !! i = Some t ->
    exists cs, P !! i = Some cs /\ t = Build_thread cs TReady) as Hth.
  { intros i t Ht. apply lookup_fmap_Some in Ht as (cs & <- & Hcs). by exists cs. }
  split.
  - by split.
  - by apply serial_none, same_store_refl.
  - intros i. simpl. by rewrite lookup_fmap, fmap_is_Some.
  - intros i t cs Ht Hcs. destruct (Hth i t Ht) as (cs' & Hcs' & ->). rewrite Hcs' in Hcs.
    injection Hcs as ->. exists [], []. split_and!; [apply one_none|done|done].
  - intros i t Ht. destruct (Hth i t Ht) as (cs & Hcs & ->). by apply (HP i).
  - intros i t p Ht. destruct (Hth i t Ht) as (cs & _ & ->). rewrite lookup_empty. done.
  - intros p i. by rewrite lookup_empty.
  - split; [constructor|]. intros p Hp. by apply not_elem_of_nil in Hp.
  - exists pl. rewrite dom_empty_L. split_and!; [done|set_solver|]. unfold free_msgs. simpl.
    rewrite Hpl. set_solver.
  - done.
Qed.

(** ** A step of a client *)

Section ThreadStep.
Context (w0 : world) (P : gmap nat (list client_call)) (tr : trace) (s : system)
  (own : gmap Z nat) (q : list Z).
Hypothesis Hinv : inv w0 P tr s own q.
Context (i : nat) (t : thread).
Hypothesis Ht : sy_threads s !! i = Some t.

(** The messages of the other threads, and the ring. *)
Definition others_keep w' (own' : gmap Z nat) (q' : list Z) : Prop :=
  forall p j, j <> i -> (own' !! p = Some j <-> own !! p = Some j) /\
    (own !! p = Some j -> w_msgs w' !! p = w_msgs (sy_world s) !! p /\ (p ∈ q' <-> p ∈ q)).

Definition pool_ok w' (own' : gmap Z nat) : Prop :=
  (exists pl, w_pool w' = Some pl /\ pool_free pl ## dom own' /\
     pool_free pl ∪ dom own' = free_msgs w0) /\
  forall p, own' !! p = None -> w_msgs w' !! p = w_msgs w0 !! p.

Lemma inv_goes_on todo pc w' own' q' l :
  at_work w' q' -> same_store (sy_world s) w' -> served (of_thread i l) = [] ->
  (forall cs, P !! i = Some cs -> thread_ok w' q' cs (events_of i tr ++ l) (Build_thread todo pc)) ->
  (todo = th_todo t \/ todo = tail (th_todo t)) ->
  others_keep w' own' q' -> (forall p, th_msg (Build_thread todo pc) = Some p <-> own' !! p = Some i) ->
  NoDup q' ->
  (forall p, p ∈ q' -> (p ∈ q) /\ own !! p <> Some i \/ pc = TWaiting p /\ todo <> []) ->
  pool_ok w' own' ->
  inv w0 P (tr ++ of_thread i l) (goes_on i todo pc w' s) own' q'.
Proof.
  intros Hw Hst Hsv Hok Htodo Hoth Hmine Hnd Hq' [Hpool Hmsgs].
  destruct Hinv as [_ Hser Hdom Hths Hcalls Hown Howner [_ Hq] _ _].
  assert (forall j u, sy_threads (goes_on i todo pc w' s) !! j = Some u ->
    j = i /\ u = Build_thread todo pc \/ j <> i /\ sy_threads s !! j = Some u) as Hlook.
  { intros j u Hu. simpl in Hu. apply lookup_insert_Some in Hu as [[<- <-]|[? ?]]; auto. }
  split; simpl.
  - done.
  - rewrite served_app, Hsv, app_nil_r. by eapply serial_same.
  - intros j. rewrite <- Hdom. destruct (decide (j = i)) as [->|Hj].
    + rewrite lookup_insert_eq, Ht. done.
    + by rewrite lookup_insert_ne.
  - intros j u cs Hu Hcs. destruct (Hlook j u Hu) as [[-> ->]|[Hj Hu']]; rewrite events_of_app.
    + rewrite events_of_same. by apply Hok.
    + rewrite events_of_other, app_nil_r by done. eapply thread_ok_frame; [|by apply Hths].
      intros p Hp. apply (Hoth p j Hj). by apply (Hown j u).
  - intros j u Hu. destruct Hst as (Hm & _). rewrite Hm.
    destruct (Hlook j u Hu) as [[-> ->]|[Hj Hu']]; [|by apply (Hcalls j)].
    specialize (Hcalls i t Ht). simpl. destruct Htodo as [->| ->]; [done|]. by apply Forall_tail.
  - intros j u p Hu. destruct (Hlook j u Hu) as [[-> ->]|[Hj Hu']]; [apply Hmine|].
    rewrite (Hown j u p Hu'). by rewrite (proj1 (Hoth p j Hj)).
  - intros p j Hp. destruct (decide (j = i)) as [->|Hj]; [by rewrite lookup_insert_eq|].
    rewrite lookup_insert_ne by done. apply (Howner p). by apply (Hoth p j Hj).
  - split; [done|]. intros p Hp. destruct (Hq' p Hp) as [[Hpq Hne]|[-> Hne]].
    + destruct (Hq p Hpq) as (j & c & cs & Hj). exists j, c, cs.
      rewrite lookup_insert_ne; [done|]. intros <-. apply Hne. by apply (Hown i _ p Hj).
    + destruct todo as [|c cs]; [done|]. exists i, c, cs. apply lookup_insert_eq.
  - done.
  - done.
Qed.
End ThreadStep.

(** *** The pieces of a call *)

Lemma begin_call_cases w pl c :
  ctx_initialized (w_g w) = true -> w_pool w = Some pl -> bad_arguments c = false ->
  (exists pl', begin_call c w = Ok (inl XPDK_ERROR_NOMEM) (set_w_pool (Some pl') w) /\
     pool_free pl = ∅ /\ pool_free pl' = ∅) \/
  (exists pl' p, begin_call c w = Ok (inr p) (w_put_msg p (call_sent c) (set_w_pool (Some pl') w)) /\
     p ∈ pool_free pl /\ pool_free pl' = pool_free pl ∖ {[p]}).
Proof.
  intros Hi Hpl Hbad.
  assert (begin_call c w = (let* msg := xpdk_msg_alloc (call_type c) in
    if decide (msg = NULL) then ret (inl XPDK_ERROR_NOMEM)
    else upd_msg msg (set_msg_u (call_params c)) ;; ret (inr msg)) w) as ->.
  { unfold begin_call, is_initialized, bind at 1, gets. by rewrite Hi, Hbad. }
  destruct (decide (pool_free pl = ∅)) as [He|Hne].
  - destruct (msg_alloc_empty w pl (call_type c) Hpl He) as (pl' & Ha & He').
    left. exists pl'. split_and!; [|done|done]. by rewrite (bind_ok _ _ _ _ _ Ha).
  - destruct (msg_alloc_eq w pl (call_type c) Hpl Hne) as (pl' & p & Ha & Hp & Hin & Hf).
    right. exists pl', p. split_and!; [|done|done].
    rewrite (bind_ok _ _ _ _ _ Ha), decide_False by done.
    rewrite (bind_ok _ _ _ _ _ (upd_msg_eq _ p (new_msg (call_type c)) _ (lookup_insert_eq _ _ _))).
    unfold w_put_msg, ret. simpl. by rewrite insert_insert_eq.
Qed.

Lemma call_ok_arguments (me : memory) c : call_ok me c -> bad_arguments c = false.
Proof. destruct c; simpl; try done; intros (? & ? & _); apply bool_decide_eq_false; lia. Qed.

(** The message is back in the pool. *)
Definition given_back (p : Z) (pl : pool_t) w : world :=
  set_w_msgs (delete p (w_msgs w)) (set_w_pool (Some (spdk_mempool_put pl p)) w).

Lemma end_call_eq w pl p c rc m :
  p <> NULL -> w_pool w = Some pl -> w_msgs w !! p = Some m -> no_open c ->
  answered c rc m \/ rc <> XPDK_SUCCESS ->
  end_call c p rc w = Ok (call_value c rc) (given_back p pl w).
Proof.
  intros Hp Hpl Hm Hno Ha. pose proof (msg_free_eq w pl p Hp Hpl) as Hf. fold (given_back p pl w) in Hf.
  destruct c as [name flags|fd|fd ub count offset|fd ub count offset|fd]; simpl;
    [by destruct (Hno name flags)|by rewrite (bind_ok _ _ _ _ _ Hf)| | |by rewrite (bind_ok _ _ _ _ _ Hf)].
  all: rewrite (bind_ok _ _ _ _ _ (get_msg_eq w p m Hm)); unfold io_result at 1; case_decide as Hrc;
    [destruct Ha as [(_ & _ & Hu)|]; [rewrite (Hu Hrc)|done]|]; rewrite bind_ret_l;
    by rewrite (bind_ok _ _ _ _ _ Hf).
Qed.

Lemma free_not_null w p : p ∈ free_msgs w -> p <> NULL.
Proof.
  unfold free_msgs. destruct (w_pool w) as [pl|]; [|set_solver]. intros Hp ->. by apply (pool_no_null pl).
Qed.

(** *** The steps *)

Section Steps.
Context (w0 : world) (P : gmap nat (list client_call)) (tr : trace) (s : system)
  (own : gmap Z nat) (q : list Z).
Hypothesis Hinv : inv w0 P tr s own q.
Context (i : nat) (c : client_call) (cs : list client_call).

Abbreviation w := (sy_world s).

(** What is known of thread [i]. *)
Lemma current_call pc :
  sy_threads s !! i = Some (Build_thread (c :: cs) pc) -> call_ok (w_mem w) c /\ no_open c.
Proof. intros Ht. by pose proof (inv_calls _ _ _ _ _ _ Hinv _ _ Ht) as [? _]%Forall_cons. Qed.

Lemma held_msg pc p :
  sy_threads s !! i = Some (Build_thread (c :: cs) pc) -> th_msg (Build_thread (c :: cs) pc) = Some p ->
  own !! p = Some i /\ p <> NULL /\
  exists pl, w_pool w = Some pl /\ (p ∉ pool_free pl) /\ pool_free pl ## dom own /\
    pool_free pl ∪ dom own = free_msgs w0.
Proof.
  intros Ht Hp. apply (inv_own _ _ _ _ _ _ Hinv i _ p Ht) in Hp. split; [done|].
  apply elem_of_dom_2 in Hp. destruct (inv_pool _ _ _ _ _ _ Hinv) as (pl & Hpl & Hd & Hu).
  split; [apply (free_not_null w0); set_solver|]. exists pl. split_and!; [done|set_solver|done|done].
Qed.

Lemma others_same w' : w_msgs w' = w_msgs w -> others_keep s own q i w' own q.
Proof. intros Hm p j _. by rewrite Hm. Qed.

Lemma ready_owns_nothing p : sy_threads s !! i = Some (Build_thread (c :: cs) TReady) -> own !! p <> Some i.
Proof. intros Ht Hp. by apply (inv_own _ _ _ _ _ _ Hinv i _ p Ht) in Hp. Qed.

Lemma refused_inv rc w' :
  sy_threads s !! i = Some (Build_thread (c :: cs) TReady) -> begin_call c w = Ok (inl rc) w' ->
  inv w0 P (tr ++ of_thread i [EvCall c; EvReturn rc]) (goes_on i cs TReady w' s) own q.
Proof.
  intros Ht Hb. destruct (current_call _ Ht) as [Hok _]. pose proof Hinv as [Hw _ _ Hths _ _ _ [Hnd _] (pl & Hpl & Hdis & Hu) Hms].
  destruct (begin_call_cases w pl c (aw_initialized _ _ Hw) Hpl (call_ok_arguments _ _ Hok))
    as [(pl' & Hb' & He & He')|(pl' & p & Hb' & _)]; rewrite Hb' in Hb; [|done]. injection Hb as <- <-.
  eapply inv_goes_on; try done.
  - destruct Hw. by split.
  - intros cs0 Hcs0. destruct (Hths i _ cs0 Ht Hcs0) as (l0 & fin & Hone & Hfin & ->).
    exists (l0 ++ [EvCall c; EvReturn XPDK_ERROR_NOMEM]), (fin ++ [c]).
    split_and!; [by apply one_refused; [|left]|by rewrite <- app_assoc|done].
  - by right.
  - intros p. split; [done|]. intros Hp. by destruct (ready_owns_nothing p Ht).
  - intros p Hp. left. split; [done|]. by apply ready_owns_nothing.
  - split; [|done]. exists pl'. rewrite He'. split_and!; [done|set_solver|]. by rewrite <- Hu, He.
Qed.

Lemma filled_inv p w' :
  sy_threads s !! i = Some (Build_thread (c :: cs) TReady) -> begin_call c w = Ok (inr p) w' ->
  inv w0 P (tr ++ of_thread i [EvCall c]) (goes_on i (c :: cs) (TFilled p) w' s) (<[p := i]> own) q.
Proof.
  intros Ht Hb. destruct (current_call _ Ht) as [Hok _].
  pose proof Hinv as [Hw _ _ Hths _ _ _ [Hnd Hq] (pl & Hpl & Hdis & Hu) Hms].
  destruct (begin_call_cases w pl c (aw_initialized _ _ Hw) Hpl (call_ok_arguments _ _ Hok))
    as [(pl' & Hb' & _)|(pl' & p' & Hb' & Hin & Hf)]; rewrite Hb' in Hb; [done|]. injection Hb as -> <-.
  assert (own !! p = None) as Hno by (apply not_elem_of_dom; set_solver).
  assert (p ∉ q) as Hpq.
  { intros Hp. destruct (Hq p Hp) as (j & c' & cs' & Hj).
    apply (inv_own _ _ _ _ _ _ Hinv j _ p) in Hj as [Hj _]. by rewrite Hj in Hno. }
  eapply inv_goes_on; try done.
  - destruct Hw. by split.
  - intros cs0 Hcs0. destruct (Hths i _ cs0 Ht Hcs0) as (l0 & fin & Hone & Hfin & ->).
    exists l0, fin. split_and!; [done|done|]. exists c, cs. split_and!; [done|done| |done].
    simpl. apply lookup_insert_eq.
  - by left.
  - intros p' j Hj. simpl. destruct (decide (p' = p)) as [->|Hne].
    + rewrite lookup_insert_eq, Hno. split; [|done]. split; [by intros [= ->]|done].
    + by rewrite !lookup_insert_ne by done.
  - intros p'. simpl. destruct (decide (p' = p)) as [->|Hne]; [by rewrite lookup_insert_eq|].
    rewrite lookup_insert_ne by done. split; [by intros [= ->]|].
    intros Hp. by destruct (ready_owns_nothing p' Ht).
  - intros p' Hp. left. split; [done|]. by apply ready_owns_nothing.
  - split.
    + exists pl'. rewrite Hf, dom_insert_L. split_and!; [done|set_solver|]. rewrite <- Hu.
      apply set_eq. intros x. destruct (decide (x = p)); set_solver.
    + intros p' Hp'. simpl. destruct (decide (p' = p)) as [->|Hne]; [by rewrite lookup_insert_eq in Hp'|].
      rewrite lookup_insert_ne in Hp' by done. rewrite lookup_insert_ne by done. by apply Hms.
Qed.

(** A step after which thread [i] holds the same message and nobody's message changed. *)
Lemma holding_inv pc pc' p w' q' l :
  sy_threads s !! i = Some (Build_thread (c :: cs) pc) ->
  th_msg (Build_thread (c :: cs) pc) = Some p -> th_msg (Build_thread (c :: cs) pc') = Some p ->
  at_work w' q' -> same_store w w' -> w_msgs w' = w_msgs w -> w_pool w' = w_pool w ->
  served (of_thread i l) = [] ->
  (forall cs0, P !! i = Some cs0 ->
     thread_ok w' q' cs0 (events_of i tr ++ l) (Build_thread (c :: cs) pc')) ->
  NoDup q' -> (forall p', p' ∈ q' -> (p' ∈ q) /\ p' <> p \/ pc' = TWaiting p') ->
  (forall p', p' <> p -> (p' ∈ q' <-> p' ∈ q)) ->
  inv w0 P (tr ++ of_thread i l) (goes_on i (c :: cs) pc' w' s) own q'.
Proof.
  intros Ht Hp Hp' Hw Hst Hm Hpl Hsv Hok Hnd Hq' Hqq. pose proof Hinv as [_ _ _ _ _ Hown _ _ Hpool Hms].
  pose proof (proj1 (Hown i _ p Ht) Hp) as Hi.
  eapply inv_goes_on; try done.
  - by left.
  - intros p' j Hj. rewrite Hm. split; [done|]. intros Hpj. split; [done|]. apply Hqq. intros ->. congruence.
  - intros p'. rewrite <- (Hown i _ p' Ht). by rewrite Hp, Hp'.
  - intros p' Hin. destruct (Hq' p' Hin) as [[? Hne]|?]; [left|by right]. split; [done|].
    intros Hpi. apply (Hown i _ p' Ht) in Hpi. rewrite Hp in Hpi. by injection Hpi as ->.
  - unfold pool_ok. by rewrite Hm, Hpl.
Qed.

Lemma ring_enqueue_cases p :
  (exists w', ring_enqueue p w = Ok 1 w' /\ at_work w' (q ++ [p]) /\ same_store w w' /\
     w_msgs w' = w_msgs w /\ w_pool w' = w_pool w) \/
  (exists w', ring_enqueue p w = Ok 0 w' /\ at_work w' q /\ same_store w w' /\
     w_msgs w' = w_msgs w /\ w_pool w' = w_pool w).
Proof.
  pose proof (inv_work _ _ _ _ _ _ Hinv) as [? ? ? ? (r & Hr & Hq & Hcap) ? ? ?].
  destruct (decide (length q < ring_capacity r)%nat) as [Hroom|Hfull]; [left|right].
  - rewrite <- Hq in Hroom. destruct (ring_enqueue_eq w r p Hr Hroom) as (r' & He & Hq' & Hc').
    exists (set_w_ring (Some r') w). split_and!; try done. split; try done.
    exists r'. split_and!; [done|by rewrite Hq', Hq|lia].
  - destruct (enqueue_full r p) as (r' & He & Hq' & Hc'); [rewrite Hq; lia|].
    exists (set_w_ring (Some r') w). split_and!; try done.
    + unfold ring_enqueue, bind, get. rewrite Hr. simpl. by rewrite He.
    + split; try done. exists r'. split_and!; [done|congruence|lia].
Qed.

Lemma sent_inv p w' :
  sy_threads s !! i = Some (Build_thread (c :: cs) (TFilled p)) -> ring_enqueue p w = Ok 1 w' ->
  inv w0 P (tr ++ of_thread i []) (goes_on i (c :: cs) (TWaiting p) w' s) own (q ++ [p]).
Proof.
  intros Ht He. pose proof Hinv as [_ _ Hdom Hths _ _ _ [Hnd _] _ _].
  destruct (ring_enqueue_cases p) as [(w1 & He' & Hw & Hst & Hm & Hpl)|(w1 & He' & _)];
    rewrite He' in He; [|done]. injection He as ->.
  assert (p ∉ q) as Hpq.
  { destruct (proj1 (Hdom i) ltac:(by rewrite Ht)) as [cs0 Hcs0].
    by destruct (Hths i _ cs0 Ht Hcs0) as (l0 & fin & _ & _ & c' & rest & _ & _ & _ & ?). }
  apply (holding_inv (TFilled p) (TWaiting p) p); try done.
  - intros cs0 Hcs0. rewrite app_nil_r.
    destruct (Hths i _ cs0 Ht Hcs0) as (l0 & fin & Hone & Hfin & c' & rest & Htd & -> & Hmsg & _).
    exists l0, fin. split_and!; [done|done|]. exists c', rest. split; [done|]. left.
    split_and!; [set_solver|done|by rewrite Hm].
  - apply NoDup_app. split_and!; [done|set_solver|apply NoDup_singleton].
  - intros p' [Hp'|Hp']%elem_of_app; [|apply list_elem_of_singleton in Hp' as ->; by right].
    left. split; [done|]. by intros ->.
  - set_solver.
Qed.

Lemma not_sent_inv p count w' :
  sy_threads s !! i = Some (Build_thread (c :: cs) (TFilled p)) ->
  ring_enqueue p w = Ok count w' -> count <> 1 ->
  inv w0 P (tr ++ of_thread i []) (goes_on i (c :: cs) (TAnswered p XPDK_ERROR_BUSY) w' s) own q.
Proof.
  intros Ht He Hne. pose proof Hinv as [_ _ Hdom Hths _ _ _ [Hnd _] _ _].
  destruct (ring_enqueue_cases p) as [(w1 & He' & _)|(w1 & He' & Hw & Hst & Hm & Hpl)];
    rewrite He' in He; injection He as <- ->; [done|].
  assert (p ∉ q) as Hpq.
  { destruct (proj1 (Hdom i) ltac:(by rewrite Ht)) as [cs0 Hcs0].
    by destruct (Hths i _ cs0 Ht Hcs0) as (l0 & fin & _ & _ & c' & rest & _ & _ & _ & ?). }
  apply (holding_inv (TFilled p) (TAnswered p XPDK_ERROR_BUSY) p); try done.
  - intros cs0 Hcs0. rewrite app_nil_r.
    destruct (Hths i _ cs0 Ht Hcs0) as (l0 & fin & Hone & Hfin & c' & rest & Htd & -> & Hmsg & _).
    exists l0, fin. split_and!; [done|done|]. exists c', rest. split_and!; [done|done|]. left.
    by rewrite Hm.
  - intros p' Hp'. left. split; [done|]. by intros ->.
Qed.

Lemma looks_inv p m w' :
  sy_threads s !! i = Some (Build_thread (c :: cs) (TWaiting p)) -> get_msg p w = Ok m w' ->
  inv w0 P (tr ++ of_thread i [])
    (goes_on i (c :: cs) (if msg_completed m then TAnswered p (msg_status m) else TWaiting p) w' s) own q.
Proof.
  intros Ht Hg. pose proof Hinv as [Hw _ Hdom Hths _ _ _ [Hnd _] _ _].
  destruct (proj1 (Hdom i) ltac:(by rewrite Ht)) as [cs0 Hcs0].
  pose proof (Hths i _ cs0 Ht Hcs0) as (l0 & fin & Hone & Hfin & c' & rest & Htd & Hcase).
  assert (w_msgs w !! p = Some m /\ w' = w) as [Hm ->].
  { unfold get_msg, bind, get in Hg. destruct (w_msgs w !! p) as [m'|]; [|done].
    injection Hg as -> <-. done. }
  apply (holding_inv (TWaiting p)  (if msg_completed m then TAnswered p (msg_status m) else TWaiting p) p);
    try done; [by destruct (msg_completed m)| |].
  - intros cs1 Hcs1. rewrite app_nil_r. rewrite Hcs0 in Hcs1. injection Hcs1 as <-.
    exists l0, fin. split_and!; [done|done|]. simpl. destruct Hcase as [(Hin & Hl & Hs)|(Hnin & st & m' & Hl & Hs & Ha)].
    + rewrite Hm in Hs. injection Hs as ->. simpl. exists c', rest. split; [done|]. by left.
    + rewrite Hm in Hs. injection Hs as <-. pose proof Ha as (-> & Hst & _). exists c', rest.
      split_and!; [done|done|]. right. exists m. by rewrite Hst.
  - intros p' Hp'. destruct (decide (p' = p)) as [->|]; [|by left].
    destruct Hcase as [(_ & _ & Hs)|(Hnin & _)]; [|done]. rewrite Hm in Hs. injection Hs as ->. by right.
Qed.

(** A thread that has its answer returns it. *)
Lemma answered_returns p rc :
  sy_threads s !! i = Some (Build_thread (c :: cs) (TAnswered p rc)) ->
  exists pl, w_pool w = Some pl /\ end_call c p rc w = Ok (call_value c rc) (given_back p pl w).
Proof.
  intros Ht. destruct (held_msg _ p Ht eq_refl) as (Hi & Hnn & pl & Hpl & _).
  destruct (proj1 (inv_dom _ _ _ _ _ _ Hinv i) ltac:(by rewrite Ht)) as [cs0 Hcs0].
  destruct (inv_threads _ _ _ _ _ _ Hinv i _ cs0 Ht Hcs0)
    as (l0 & fin & _ & _ & c' & rest & [= <- <-] & _ & Hcase).
  exists pl. split; [done|]. destruct (current_call _ Ht) as [_ Hno].
  destruct Hcase as [(-> & _ & Hm)|(m & _ & Hm & Ha)]; (eapply end_call_eq; [done..|]);
    [by right|by left].
Qed.

Lemma returns_inv p rc result w' :
  free_msgs w0 ## dom (w_msgs w0) ->
  sy_threads s !! i = Some (Build_thread (c :: cs) (TAnswered p rc)) ->
  end_call c p rc w = Ok result w' ->
  inv w0 P (tr ++ of_thread i [EvReturn result]) (goes_on i cs TReady w' s) (delete p own) q.
Proof.
  intros Hfresh Ht He. destruct (answered_returns p rc Ht) as (pl & Hpl & He'). rewrite He' in He.
  injection He as <- <-. destruct (held_msg _ p Ht eq_refl) as (Hi & Hnn & pl' & Hpl' & Hnf & Hd & Hu).
  rewrite Hpl in Hpl'. injection Hpl' as <-.
  pose proof Hinv as [Hw _ _ Hths _ Hown _ [Hnd _] _ Hms].
  eapply inv_goes_on; try done.
  - destruct Hw. by split.
  - intros cs0 Hcs0. destruct (Hths i _ cs0 Ht Hcs0)
      as (l0 & fin & Hone & Hfin & c' & rest & [= <- <-] & Hpq & Hcase).
    destruct Hcase as [(-> & -> & Hm)|(m & -> & Hm & Ha)].
    + exists (l0 ++ [EvCall c; EvReturn (call_value c XPDK_ERROR_BUSY)]), (fin ++ [c]).
      rewrite <- !app_assoc. split_and!; [|done|done]. apply one_refused; [done|right]. by destruct c.
    + exists (l0 ++ [EvCall c; EvServe c rc; EvReturn (call_value c rc)]), (fin ++ [c]).
      rewrite <- !app_assoc. split_and!; [by apply one_served|done|done].
  - by right.
  - intros p' j Hj. simpl. destruct (decide (p' = p)) as [->|Hne].
    + rewrite lookup_delete_eq, Hi. split; [|congruence]. split; [done|congruence].
    + by rewrite !lookup_delete_ne by done.
  - intros p'. simpl. split; [done|]. intros Hp'. apply lookup_delete_Some in Hp' as [Hne Hp'].
    apply (Hown i _ p' Ht) in Hp'. by injection Hp' as ->.
  - intros p' Hp'. left. split; [done|]. intros Hpi. apply (Hown i _ p' Ht) in Hpi as [= ->].
    destruct (proj1 (inv_dom _ _ _ _ _ _ Hinv i) ltac:(by rewrite Ht)) as [cs0 Hcs0].
    by destruct (Hths i _ cs0 Ht Hcs0) as (l0 & fin & _ & _ & c' & rest & _ & Hpq & _).
  - split.
    + exists (spdk_mempool_put pl p). rewrite mempool_put_free, dom_delete_L by done.
      split_and!; [done|set_solver|]. rewrite <- Hu. apply elem_of_dom_2 in Hi. apply set_eq. intros x.
      destruct (decide (x = p)); set_solver.
    + intros p' Hp'. simpl. destruct (decide (p' = p)) as [->|Hne].
      * rewrite lookup_delete_eq. symmetry. apply not_elem_of_dom. apply elem_of_dom_2 in Hi.
        assert (p ∈ free_msgs w0) by set_solver. set_solver.
      * rewrite lookup_delete_ne in Hp' by done. rewrite lookup_delete_ne by done. by apply Hms.
Qed.
End Steps.

(** ** A step of the SPDK thread *)

Section SpdkSteps.
Context (w0 : world) (P : gmap nat (list client_call)) (tr : trace) (s : system)
  (own : gmap Z nat) (q : list Z).
Hypothesis Hinv : inv w0 P tr s own q.

Abbreviation w := (sy_world s).

Lemma quiet_inv w' :
  at_work w' q -> same_store w w' -> w_msgs w' = w_msgs w -> w_pool w' = w_pool w ->
  inv w0 P (tr ++ []) (Build_system w' (sy_threads s)) own q.
Proof.
  intros Hw Hst Hm Hpl. destruct Hinv as [_ Hser Hdom Hths Hcalls Hown Howner Hq Hpool Hms].
  rewrite app_nil_r. split; simpl; try done.
  - by eapply serial_same.
  - intros i t cs Ht Hcs. eapply thread_ok_frame; [|by apply Hths]. intros p _. by rewrite Hm.
  - destruct Hst as (Hme & _). by rewrite Hme.
  - by rewrite Hpl.
  - by rewrite Hm.
Qed.

Lemma poll_runs :
  exists w', poll_bdev w = Ok false w' /\ at_work w' q /\ same_store w w' /\
    w_msgs w' = w_msgs w /\ w_pool w' = w_pool w.
Proof.
  pose proof (inv_work _ _ _ _ _ _ Hinv) as [? ? ? ? ? Ho ? ?].
  destruct (poll_bdev_nothing w Ho) as (b & Hb & Ho' & (Hmd & _)).
  exists (set_w_bdev b w). split_and!; [done|by split|by split_and!|done|done].
Qed.

Lemma serve_nothing : q = [] ->
  exists w', (forall fuel, serve fuel w = Ok None w') /\ at_work w' q /\ same_store w w' /\
    w_msgs w' = w_msgs w /\ w_pool w' = w_pool w.
Proof.
  intros ->. pose proof (inv_work _ _ _ _ _ _ Hinv) as [? ? ? ? (r & Hr & Hq & Hcap) ? ? ?].
  destruct (ring_dequeue_nil w r Hr Hq) as (r' & Hd & Hq' & Hc').
  exists (set_w_ring (Some r') w). split_and!; try done; [intros fuel; unfold serve;
    by rewrite (bind_ok _ _ _ _ _ Hd)|]. split; try done. exists r'. split_and!; [done|done|lia].
Qed.

(** The first message of the ring and its thread. *)
Lemma serve_first p q' : q = p :: q' ->
  exists i c cs k st w' m,
    sy_threads s !! i = Some (Build_thread (c :: cs) (TWaiting p)) /\
    carried_out w q' p c st w' /\ w_msgs w' = <[p := m]> (w_msgs w) /\ answered c st m /\
    forall fuel, (k <= fuel)%nat -> serve fuel w = Ok (Some p) w'.
Proof.
  intros ->. destruct Hinv as [Hw _ Hdom Hths Hcalls _ _ [_ Hq] _ _].
  destruct (Hq p ltac:(by left)) as (i & c & cs & Ht). exists i, c, cs.
  destruct (proj1 (Hdom i) ltac:(by rewrite Ht)) as [cs0 Hcs0].
  destruct (Hths i _ cs0 Ht Hcs0) as (l0 & fin & _ & _ & c' & rest & [= <- <-] & Hcase).
  pose proof (Hcalls i _ Ht) as [[Hok Hno] _]%Forall_cons.
  destruct Hcase as [(_ & _ & Hm)|(Hn & _)]; [|destruct Hn; by left].
  destruct (serve_runs w q' p c Hw Hm Hok Hno) as (k & st & w' & Hco & Hrun).
  destruct (co_msgs _ _ _ _ _ _ Hco) as (m & Hms & Ha). by exists k, st, w', m.
Qed.

Lemma serves_inv p q' i c cs st w' m :
  q = p :: q' -> sy_threads s !! i = Some (Build_thread (c :: cs) (TWaiting p)) ->
  carried_out w q' p c st w' -> w_msgs w' = <[p := m]> (w_msgs w) -> answered c st m ->
  inv w0 P (tr ++ of_thread i [EvServe c st]) (Build_system w' (sy_threads s)) own q'.
Proof.
  intros -> Ht [Hsp Hwk _ Hpl Hmap] Hm Ha.
  destruct Hinv as [_ Hser Hdom Hths Hcalls Hown Howner [Hnd Hq] Hpool Hms].
  pose proof (proj1 (Hown i _ p Ht) eq_refl) as Hi.
  apply NoDup_cons in Hnd as [Hpq Hnd]. split; cbn [sy_world sy_threads]; try done.
  - rewrite served_app. eapply serial_then; [exact Hser|exact Hsp|apply same_store_refl].
  - intros j t cs0 Hj Hcs0. rewrite events_of_app. destruct (decide (j = i)) as [->|Hne].
    + rewrite events_of_same. rewrite Ht in Hj. injection Hj as <-.
      destruct (Hths i _ cs0 Ht Hcs0) as (l0 & fin & Hone & Hfin & c' & rest & [= <- <-] & Hcase).
      exists l0, fin. split_and!; [done|done|]. exists c, cs. split; [done|]. right. split; [done|].
      exists st, m. split_and!; [|rewrite Hm; apply lookup_insert_eq|done].
      destruct Hcase as [(_ & -> & _)|(Hn & _)]; [by rewrite <- app_assoc|]. destruct Hn. by left.
    + rewrite events_of_other, app_nil_r by done. eapply thread_ok_frame; [|by apply Hths].
      intros p' Hp'. apply (Hown j t p' Hj) in Hp'.
      assert (p' <> p) by (intros ->; congruence).
      rewrite Hm, lookup_insert_ne by done. split; [done|]. set_solver.
  - intros j t Hj. eapply Forall_impl; [by apply (Hcalls j)|]. intros c' [Hok Hno]. split; [|done].
    destruct c'; simpl in *; naive_solver.
  - split; [done|]. intros p' Hp'. apply Hq. by right.
  - by rewrite Hpl.
  - intros p' Hp'. rewrite Hm, lookup_insert_ne; [by apply Hms|]. intros <-. congruence.
Qed.

Lemma poll_step_inv es s' : poll_step s es s' -> inv w0 P (tr ++ es) s' own q.
Proof.
  intros [busy w' Hp]. destruct poll_runs as (w1 & Hp' & Hwk & Hst & Hms & Hpl).
  rewrite Hp' in Hp. injection Hp as _ <-. by apply quiet_inv.
Qed.

(** A look at the ring finds nothing only when there is nothing. *)
Lemma serve_step_cases es s' :
  serve_step s es s' ->
  (q = [] /\ es = [] /\ sy_threads s' = sy_threads s /\ inv w0 P (tr ++ es) s' own q) \/
  (exists p q', q = p :: q' /\ sy_threads s' = sy_threads s /\ inv w0 P (tr ++ es) s' own q').
Proof.
  assert (q = [] \/ exists p q', q = p :: q') as Eq by (destruct q; eauto).
  intros [w' Hn|k i c cs p m w' Hs Ht Hm].
  - destruct Eq as [Eq|(p & q' & Eq)].
    + destruct (serve_nothing Eq) as (w1 & Hn' & Hwk & Hst & Hms & Hpl). specialize (Hn 0%nat).
      rewrite Hn' in Hn. injection Hn as <-. left. split_and!; try done. by apply quiet_inv.
    + destruct (serve_first p q' Eq) as (i & c & cs & k & st & w1 & m & _ & _ & _ & _ & Hs).
      specialize (Hs k ltac:(lia)). by rewrite Hn in Hs.
  - destruct Eq as [Eq|(p' & q' & Eq)].
    + destruct (serve_nothing Eq) as (w1 & Hn' & _). specialize (Hs k ltac:(lia)). by rewrite Hn' in Hs.
    + destruct (serve_first p' q' Eq) as (i' & c' & cs' & k' & st & w1 & m' & Ht' & Hco & Hms & Ha & Hs').
      specialize (Hs (k + k')%nat ltac:(lia)). rewrite Hs' in Hs by lia. injection Hs as -> ->.
      assert (i' = i) as ->.
      { apply (inv_own _ _ _ _ _ _ Hinv i' _ p) in Ht' as [Ht' _].
        apply (inv_own _ _ _ _ _ _ Hinv i _ p) in Ht as [Ht _].
        specialize (Ht' eq_refl). specialize (Ht eq_refl). congruence. }
      rewrite Ht in Ht'. injection Ht' as -> ->. rewrite Hms, lookup_insert_eq in Hm. injection Hm as ->.
      right. exists p, q'. pose proof Ha as (_ & -> & _). split_and!; [done|done|].
      by eapply (serves_inv p q' i).
Qed.
End SpdkSteps.

(** ** Executions *)

Lemma thread_step_inv w0 P tr s own q i es s' :
  inv w0 P tr s own q -> free_msgs w0 ## dom (w_msgs w0) -> thread_step i s es s' ->
  exists own' q', inv w0 P (tr ++ es) s' own' q'.
Proof.
  intros Hinv Hfr [c cs rc w' Ht Hb|c cs p w' Ht Hb|c cs p w' Ht He|c cs p n w' Ht He Hn
    |c cs p m w' Ht Hg|c cs p rc r w' Ht He].
  - exists own, q. by apply (refused_inv w0 P tr s own q Hinv i c).
  - exists (<[p := i]> own), q. by apply (filled_inv w0 P tr s own q Hinv i c).
  - exists own, (q ++ [p]). by apply (sent_inv w0 P tr s own q Hinv i c).
  - exists own, q. by eapply (not_sent_inv w0 P tr s own q Hinv i c).
  - exists own, q. by apply (looks_inv w0 P tr s own q Hinv i c).
  - exists (delete p own), q. by eapply (returns_inv w0 P tr s own q Hinv i c).
Qed.

Lemma step_inv w0 P tr s own q a es s' :
  inv w0 P tr s own q -> free_msgs w0 ## dom (w_msgs w0) -> sys_step a s es s' ->
  exists own' q', inv w0 P (tr ++ es) s' own' q'.
Proof.
  intros Hinv Hfr. destruct a as [i| |]; simpl.
  - by eapply thread_step_inv.
  - intros Hp. exists own, q. by apply (poll_step_inv w0 P tr s own q Hinv).
  - intros [(_ & _ & _ & ?)|(p & q' & _ & _ & ?)]%(serve_step_cases w0 P tr s own q Hinv); eauto.
Qed.

Lemma run_inv w0 P tr s own q l tr' s' :
  inv w0 P tr s own q -> free_msgs w0 ## dom (w_msgs w0) -> sys_run s l tr' s' ->
  exists own' q', inv w0 P (tr ++ tr') s' own' q'.
Proof.
  intros Hinv Hfr Hrun. induction Hrun as [|l tr' s1 a es s2 _ (own' & q' & IH) Hst].
  - exists own, q. by rewrite app_nil_r.
  - rewrite app_assoc. by eapply step_inv.
Qed.

Lemma sound_fresh w : sound w -> free_msgs w ## dom (w_msgs w).
Proof.
  intros [Hidle _ _]. destruct (idle_pool _ Hidle) as (pl & Hpl & Hd). unfold free_msgs. by rewrite Hpl.
Qed.

Lemma reached_inv w0 P l tr s :
  sound w0 -> calls_ok w0 P -> sys_run (start w0 P) l tr s -> exists own q, inv w0 P tr s own q.
Proof.
  intros Hs HP Hrun. by eapply (run_inv w0 P [] (start w0 P) ∅ []); [apply inv_start|apply sound_fresh|].
Qed.

(** When all calls have returned, every message is back. *)
Lemma finished_sound w0 P tr s own q :
  sound w0 -> inv w0 P tr s own q -> finished s ->
  sound (sy_world s) /\ w_msgs (sy_world s) = w_msgs w0 /\ free_msgs (sy_world s) = free_msgs w0.
Proof.
  intros Hs [[? ? ? ? (r & Hr & Hq & Hc) ? ? ?] _ _ _ _ Hown Howner [_ Hqu] (pl & Hpl & Hd & Hu) Hms] Hfin.
  assert (own = ∅) as ->.
  { apply map_empty. intros p. destruct (own !! p) as [i|] eqn:Ep; [|done].
    destruct (Howner p i Ep) as [t Ht]. apply (Hown i t p Ht) in Ep. by rewrite (Hfin i t Ht) in Ep. }
  assert (q = []) as ->.
  { destruct q as [|p q']; [done|]. destruct (Hqu p ltac:(by left)) as (i & c & cs & Ht).
    by specialize (Hfin i _ Ht). }
  assert (w_msgs (sy_world s) = w_msgs w0) as Hm.
  { apply map_eq. intros p. apply Hms, lookup_empty. }
  assert (free_msgs (sy_world s) = free_msgs w0) as Hf.
  { unfold free_msgs at 1. rewrite Hpl, <- Hu, dom_empty_L. set_solver. }
  split_and!; [|done|done]. split; [|rewrite Hf; apply Hs|done]. split; try done; [by exists r|].
  exists pl. split; [done|]. pose proof (sound_fresh w0 Hs) as Hfr. rewrite <- Hf, <- Hm in Hfr.
  unfold free_msgs in Hfr. by rewrite Hpl in Hfr.
Qed.

Lemma thread_ok_history w q cs l t : thread_ok w q cs l t -> history_of cs l.
Proof.
  intros (l0 & fin & Hone & Hfin & Hpc). exists l0, fin, (th_todo t). split_and!; [done|done|].
  destruct (th_pc t); [by left|right..]; destruct Hpc as (c & rest & -> & Hl); exists c, rest;
    (split; [done|]); naive_solver.
Qed.

Lemma thread_ok_finished w q cs l : thread_ok w q cs l (Build_thread [] TReady) -> one_by_one l cs.
Proof. intros (l0 & fin & Hone & Hfin & ->). simpl in Hfin. rewrite app_nil_r in Hfin. by subst. Qed.

End Linearize.
