(* ===== verification/ClientsCorrect.v ===== *)
(** Several client threads at once: their calls take effect one by one, and under a fair
    schedule they all return. *)

From stdpp Require Import base gmap list strings.
From Stdlib Require Import Strings.Byte.
From S2P Require Import Prelude Types Memory Spdk World Sim Core Blocks Perf Bdev Qos Io.
From S2P Require Import Async Vectored Batch Poller Idle IoCorrect SyncIo Devices Session Clients.
From S2P Require Import Linearize.

Open Scope Z_scope.

(** ** What is left to do *)

(** The steps a thread has before it, and the messages on the ring. *)
Definition weight (t : thread) : nat :=
  5 * length (th_todo t) -
    match th_pc t with TReady => 0 | TFilled _ => 1 | TWaiting _ => 3 | TAnswered _ _ => 4 end.

Definition total (m : gmap nat thread) : nat := map_fold (fun _ t n => (weight t + n)%nat) 0%nat m.

Lemma total_delete m i t : m !! i = Some t -> total m = (weight t + total (delete i m))%nat.
Proof. intros Hi. unfold total. rewrite (map_fold_delete_L _ 0%nat i t m); [done|lia|done]. Qed.

Lemma total_insert m i t t' :
  m !! i = Some t -> (total (<[i := t']> m) + weight t = total m + weight t')%nat.
Proof.
  intros Hi. rewrite (total_delete (<[i := t']> m) i t') by apply lookup_insert_eq.
  rewrite delete_insert_eq, (total_delete m i t Hi). lia.
Qed.

Section ClientsCorrect.
Context `{SpdkLaws}.
Implicit Types (w : world) (c : client_call) (q : list Z) (s : system) (t : thread) (tr : trace).

Definition on_ring w : nat :=
  match w_ring w with Some r => length (ring_queue r) | None => 0 end.

Definition backlog s : nat := total (sy_threads s) + on_ring (sy_world s).

Lemma inv_on_ring w0 P tr s own q : inv w0 P tr s own q -> on_ring (sy_world s) = length q.
Proof.
  intros Hinv. destruct (aw_ring _ _ (inv_work _ _ _ _ _ _ Hinv)) as (r & Hr & Hq & _).
  unfold on_ring. by rewrite Hr, Hq.
Qed.

(** A schedule is fair for [n] rounds: in each of them the SPDK thread looks at the ring and
    every thread that still has calls to make at its end takes a step. *)
Inductive rounds (s : system) : nat -> system -> Prop :=
| rounds_none : rounds s 0 s
| rounds_more n s1 l tr s2 :
    rounds s n s1 -> sys_run s1 l tr s2 -> SpdkServes ∈ l ->
    (forall i t, sy_threads s2 !! i = Some t -> th_todo t <> [] -> Client i ∈ l) ->
    rounds s (S n) s2.

(** ** Every thread can go on *)

Section Enabled.
Context (w0 : world) (P : gmap nat (list client_call)) (tr : trace) (s : system)
  (own : gmap Z nat) (q : list Z).
Hypothesis Hinv : inv w0 P tr s own q.

Lemma client_enabled i t :
  sy_threads s !! i = Some t -> th_todo t <> [] -> exists es s', thread_step i s es s'.
Proof.
  intros Ht Hne. destruct t as [[|c cs] pc]; [done|]. clear Hne.
  destruct (proj1 (inv_dom _ _ _ _ _ _ Hinv i) ltac:(by rewrite Ht)) as [cs0 Hcs0].
  pose proof (inv_threads _ _ _ _ _ _ Hinv i _ cs0 Ht Hcs0) as (l0 & fin & _ & _ & Hpc).
  destruct pc as [|p|p|p rc].
  - destruct (current_call w0 P tr s own q Hinv i c cs _ Ht) as [Hok _].
    destruct (inv_pool _ _ _ _ _ _ Hinv) as (pl & Hpl & _).
    destruct (begin_call_cases _ pl c (aw_initialized _ _ (inv_work _ _ _ _ _ _ Hinv)) Hpl
      (call_ok_arguments _ _ Hok)) as [(? & ? & _)|(? & ? & ? & _)].
    + do 2 eexists. by eapply step_refused.
    + do 2 eexists. by eapply step_filled.
  - destruct (ring_enqueue_cases w0 P tr s own q Hinv p) as [(? & ? & _)|(? & ? & _)].
    + do 2 eexists. by eapply step_sent.
    + do 2 eexists. by eapply step_not_sent.
  - assert (exists m, w_msgs (sy_world s) !! p = Some m) as [m Hm] by naive_solver.
    do 2 eexists. eapply step_looks; [done|]. by apply get_msg_eq.
  - destruct (answered_returns w0 P tr s own q Hinv i c cs p rc Ht) as (pl & _ & He).
    do 2 eexists. by eapply step_returns.
Qed.

Lemma poll_enabled : exists es s', poll_step s es s'.
Proof.
  destruct (poll_runs w0 P tr s own q Hinv) as (w' & Hp & _). do 2 eexists. by eapply step_polls.
Qed.

Lemma serve_enabled : exists es s', serve_step s es s'.
Proof.
  assert (q = [] \/ exists p q', q = p :: q') as [Eq|(p & q' & Eq)] by (destruct q; eauto).
  - destruct (serve_nothing w0 P tr s own q Hinv Eq) as (w' & Hn & _). do 2 eexists. by eapply step_nothing.
  - destruct (serve_first w0 P tr s own q Hinv p q' Eq)
      as (i & c & cs & k & st & w' & m & Ht & _ & Hm & _ & Hs).
    do 2 eexists. eapply (step_serves s k i c cs p m); [done..|]. rewrite Hm. apply lookup_insert_eq.
Qed.
End Enabled.

(** ** Every step brings the end nearer, or changes nothing *)

(** A step that only looked: a client at its message, which is still on the ring, or the SPDK
    thread at a ring that is empty. *)
Definition looked (a : actor) s q : Prop :=
  match a with
  | Client i => exists c cs p, sy_threads s !! i = Some (Build_thread (c :: cs) (TWaiting p)) /\ (p ∈ q)
  | SpdkPolls => True
  | SpdkServes => q = []
  end.

Definition nearer_or_same w0 P tr s own q a es s' : Prop :=
  (backlog s' < backlog s)%nat \/
  (looked a s q /\ sy_threads s' = sy_threads s /\ inv w0 P (tr ++ es) s' own q).

Lemma goes_on_nearer w0 P tr tr' s own own' q q' i t todo pc w' :
  inv w0 P tr s own q -> sy_threads s !! i = Some t ->
  inv w0 P tr' (goes_on i todo pc w' s) own' q' ->
  (weight (Build_thread todo pc) + length q' < weight t + length q)%nat ->
  (backlog (goes_on i todo pc w' s) < backlog s)%nat.
Proof.
  intros Hinv Ht Hinv' Hlt. unfold backlog.
  rewrite (inv_on_ring _ _ _ _ _ _ Hinv), (inv_on_ring _ _ _ _ _ _ Hinv').
  pose proof (total_insert (sy_threads s) i t (Build_thread todo pc) Ht). simpl. lia.
Qed.

#[local] Ltac weigh := rewrite ?length_app; unfold weight; cbn [th_todo th_pc length]; lia.

Lemma thread_step_nearer w0 P tr s own q i es s' :
  inv w0 P tr s own q -> free_msgs w0 ## dom (w_msgs w0) -> thread_step i s es s' ->
  nearer_or_same w0 P tr s own q (Client i) es s'.
Proof.
  intros Hinv Hfr [c cs rc w' Ht Hb|c cs p w' Ht Hb|c cs p w' Ht He|c cs p n w' Ht He Hn
    |c cs p m w' Ht Hg|c cs p rc r w' Ht He].
  - left. eapply goes_on_nearer; [done..|by apply (refused_inv w0 P tr s own q Hinv i c)|weigh].
  - left. eapply goes_on_nearer; [done..|by apply (filled_inv w0 P tr s own q Hinv i c)|weigh].
  - left. eapply goes_on_nearer; [done..|by apply (sent_inv w0 P tr s own q Hinv i c)|weigh].
  - left. eapply goes_on_nearer; [done..|by eapply (not_sent_inv w0 P tr s own q Hinv i c)|weigh].
  - pose proof (looks_inv w0 P tr s own q Hinv i c cs p m w' Ht Hg) as Hinv'.
    destruct (msg_completed m) eqn:Hc; [left; by eapply goes_on_nearer; [done..|weigh]|right].
    split_and!; [|by apply insert_id|done]. exists c, cs, p. split; [done|].
    destruct (proj1 (inv_dom _ _ _ _ _ _ Hinv i) ltac:(by rewrite Ht)) as [cs0 Hcs0].
    destruct (inv_threads _ _ _ _ _ _ Hinv i _ cs0 Ht Hcs0)
      as (l0 & fin & _ & _ & c' & rest & _ & [(Hin & _)|(_ & st & m' & _ & Hm & Ha & _)]); [done|].
    rewrite get_msg_eq with (m := m') in Hg by done. congruence.
  - left. eapply goes_on_nearer; [done..|by eapply (returns_inv w0 P tr s own q Hinv i c)|weigh].
Qed.

Lemma step_nearer w0 P tr s own q a es s' :
  inv w0 P tr s own q -> free_msgs w0 ## dom (w_msgs w0) -> sys_step a s es s' ->
  nearer_or_same w0 P tr s own q a es s'.
Proof.
  intros Hinv Hfr. destruct a as [i| |]; simpl.
  - by apply thread_step_nearer.
  - intros Hp. right. split_and!; [done|by destruct Hp|]. by apply (poll_step_inv w0 P tr s own q Hinv).
  - intros [(-> & _ & Hs & Hi)|(p & q' & -> & Hs & Hi)]%(serve_step_cases w0 P tr s own q Hinv).
    + by right.
    + left. unfold backlog. rewrite Hs, (inv_on_ring _ _ _ _ _ _ Hinv), (inv_on_ring _ _ _ _ _ _ Hi).
      simpl. lia.
Qed.

(** Likewise for an execution. *)
Lemma run_nearer w0 P tr s own q l tr' s' :
  inv w0 P tr s own q -> free_msgs w0 ## dom (w_msgs w0) -> sys_run s l tr' s' ->
  (backlog s' < backlog s)%nat \/
  (Forall (fun a => looked a s q) l /\ sy_threads s' = sy_threads s /\ inv w0 P (tr ++ tr') s' own q).
Proof.
  intros Hinv Hfr Hrun. induction Hrun as [|l tr' s1 a es s2 Hrun IH Hst].
  - right. rewrite app_nil_r. split_and!; [constructor|done|done].
  - destruct (run_inv w0 P tr s own q l tr' s1 Hinv Hfr Hrun) as (own1 & q1 & Hinv1).
    destruct IH as [Hlt|(Hl & Hth & Hinv')].
    + left. destruct (step_nearer _ _ _ _ _ _ _ _ _ Hinv1 Hfr Hst) as [|(_ & Hs & Hi)]; [lia|].
      unfold backlog in *. rewrite Hs, (inv_on_ring _ _ _ _ _ _ Hi), <- (inv_on_ring _ _ _ _ _ _ Hinv1).
      lia.
    + assert (backlog s1 = backlog s) as Hb.
      { unfold backlog. by rewrite Hth, (inv_on_ring _ _ _ _ _ _ Hinv), (inv_on_ring _ _ _ _ _ _ Hinv'). }
      destruct (step_nearer _ _ _ _ _ _ _ _ _ Hinv' Hfr Hst) as [|(Ha & Hs & Hi)]; [left; lia|right].
      rewrite app_assoc. split_and!; [|congruence|done]. apply Forall_app. split; [done|].
      apply Forall_singleton. unfold looked in *. by rewrite <- Hth.
Qed.

(** ** Fair schedules *)

Lemma no_calls_finished w0 P tr s own q :
  inv w0 P tr s own q -> (forall i t, sy_threads s !! i = Some t -> th_todo t = []) -> finished s.
Proof.
  intros Hinv Hn i t Ht. destruct (proj1 (inv_dom _ _ _ _ _ _ Hinv i) ltac:(by rewrite Ht)) as [cs0 Hcs0].
  destruct (inv_threads _ _ _ _ _ _ Hinv i _ cs0 Ht Hcs0) as (l0 & fin & _ & _ & Hpc).
  specialize (Hn i t Ht). destruct t as [todo pc]. simpl in *. subst. destruct pc; [done|naive_solver..].
Qed.

(** A fair round brings the end nearer, or it has been reached. *)
Lemma round_nearer w0 P tr s own q l tr' s' :
  inv w0 P tr s own q -> free_msgs w0 ## dom (w_msgs w0) -> sys_run s l tr' s' -> SpdkServes ∈ l ->
  (forall i t, sy_threads s' !! i = Some t -> th_todo t <> [] -> Client i ∈ l) ->
  (backlog s' < backlog s)%nat \/ finished s'.
Proof.
  intros Hinv Hfr Hrun Hserve Hfair.
  destruct (run_nearer _ _ _ _ _ _ _ _ _ Hinv Hfr Hrun) as [?|(Hl & Hth & Hinv')]; [by left|right].
  rewrite Forall_forall in Hl. pose proof (Hl _ Hserve) as Hq. simpl in Hq. subst q.
  eapply no_calls_finished; [exact Hinv'|]. intros i t Ht. destruct (th_todo t) as [|c cs] eqn:Et; [done|].
  destruct (Hl _ (Hfair i t Ht ltac:(by rewrite Et))) as (_ & _ & p & _ & Hp). by apply not_elem_of_nil in Hp.
Qed.

Lemma finished_backlog s : backlog s = 0%nat -> forall i t, sy_threads s !! i = Some t -> weight t = 0%nat.
Proof. unfold backlog. intros Hb i t Ht. rewrite (total_delete _ i t Ht) in Hb. lia. Qed.

Lemma finished_stays s l tr s' : finished s -> sys_run s l tr s' -> finished s'.
Proof.
  intros Hfin. induction 1 as [|l tr s1 a es s2 _ IH Hst]; [done|]. destruct a as [i| |]; simpl in Hst.
  - destruct Hst as [? ? ? ? Ht|? ? ? ? Ht|? ? ? ? Ht|? ? ? ? ? Ht|? ? ? ? ? Ht|? ? ? ? ? ? Ht];
      by specialize (IH i _ Ht).
  - by destruct Hst.
  - by destruct Hst.
Qed.

Lemma rounds_nearer w0 P tr s own q n s' :
  inv w0 P tr s own q -> free_msgs w0 ## dom (w_msgs w0) -> rounds s n s' ->
  (exists tr' own' q', inv w0 P tr' s' own' q') /\ (finished s' \/ (backlog s' + n <= backlog s)%nat).
Proof.
  intros Hinv Hfr. induction 1 as [|n s1 l tr1 s2 _ [(tr' & own' & q' & Hi) Hnear] Hrun Hserve Hfair].
  - split; [by exists tr, own, q|right; lia].
  - split.
    + destruct (run_inv _ _ _ _ _ _ _ _ _ Hi Hfr Hrun) as (own2 & q2 & Hi2). eauto.
    + destruct Hnear as [Hfin|Hle]; [left; by eapply finished_stays|].
      destruct (round_nearer _ _ _ _ _ _ _ _ _ Hi Hfr Hrun Hserve Hfair); [right; lia|by left].
Qed.

Lemma rounds_finish w0 P tr s own q n s' :
  inv w0 P tr s own q -> free_msgs w0 ## dom (w_msgs w0) -> rounds s n s' -> (backlog s <= n)%nat ->
  finished s'.
Proof.
  intros Hinv Hfr Hr Hn.
  destruct (rounds_nearer _ _ _ _ _ _ _ _ Hinv Hfr Hr) as [(tr' & own' & q' & Hi) [|Hle]]; [done|].
  eapply no_calls_finished; [done|]. intros i t Ht. pose proof (finished_backlog s' ltac:(lia) i t Ht) as Hw.
  unfold weight in Hw. destruct (th_todo t); [done|]. cbn [length] in Hw. destruct (th_pc t); lia.
Qed.

(** ** A fair schedule exists *)

Lemma thread_step_frame i s es s' j :
  thread_step i s es s' -> j <> i -> sy_threads s' !! j = sy_threads s !! j.
Proof. intros Hst Hj. destruct Hst; by apply lookup_insert_ne. Qed.

(** Every thread of a list that still has calls to make takes a step. *)
Lemma visit w0 P tr s own q (ids : list nat) :
  inv w0 P tr s own q -> free_msgs w0 ## dom (w_msgs w0) ->
  exists l tr' s', sys_run s l tr' s' /\
    forall i t, (i ∈ ids) -> sy_threads s' !! i = Some t -> th_todo t <> [] -> Client i ∈ l.
Proof.
  intros Hinv Hfr. induction ids as [|i ids (l & tr' & s1 & Hrun & Hvis)].
  - exists [], [], s. split; [apply run_none|]. intros i t Hi. by apply not_elem_of_nil in Hi.
  - destruct (run_inv _ _ _ _ _ _ _ _ _ Hinv Hfr Hrun) as (own1 & q1 & Hi1).
    assert ((exists t, sy_threads s1 !! i = Some t /\ th_todo t <> []) \/
      (forall t, sy_threads s1 !! i = Some t -> th_todo t = [])) as [(t & Ht & Hne)|Hno].
    { destruct (sy_threads s1 !! i) as [[[|c cs] pc]|]; [right|left|right]; naive_solver. }
    + destruct (client_enabled _ _ _ _ _ _ Hi1 i t Ht Hne) as (es & s2 & Hst).
      exists (l ++ [Client i]), (tr' ++ es), s2. split; [by eapply run_more|].
      intros j u Hj Hu Hne'. apply elem_of_app. destruct (decide (j = i)) as [->|Hji]; [right; by left|].
      left. apply elem_of_cons in Hj as [|Hj]; [done|].
      rewrite (thread_step_frame i s1 es s2 j Hst Hji) in Hu. by eapply Hvis.
    + exists l, tr', s1. split; [done|]. intros j u [->|Hj]%elem_of_cons Hu Hne; [|by eapply Hvis].
      by destruct (Hno u).
Qed.

Lemma round_exists w0 P tr s own q :
  inv w0 P tr s own q -> free_msgs w0 ## dom (w_msgs w0) ->
  exists l tr' s', sys_run s l tr' s' /\ (SpdkServes ∈ l) /\
    (forall i t, sy_threads s' !! i = Some t -> th_todo t <> [] -> Client i ∈ l).
Proof.
  intros Hinv Hfr. destruct (visit w0 P tr s own q (elements (dom P)) Hinv Hfr) as (l & tr' & s1 & Hrun & Hvis).
  destruct (run_inv _ _ _ _ _ _ _ _ _ Hinv Hfr Hrun) as (own1 & q1 & Hi1).
  destruct (serve_enabled _ _ _ _ _ _ Hi1) as (es & s2 & Hst).
  exists (l ++ [SpdkServes]), (tr' ++ es), s2. split_and!; [by eapply run_more|set_solver|].
  intros i t Ht Hne. assert (sy_threads s1 !! i = Some t) as Ht1 by (by destruct Hst).
  apply elem_of_app. left. apply (Hvis i t); [|done|done]. apply elem_of_elements, elem_of_dom.
  apply (inv_dom _ _ _ _ _ _ Hi1). by rewrite Ht1.
Qed.

Lemma rounds_exist w0 P tr s own q n :
  inv w0 P tr s own q -> free_msgs w0 ## dom (w_msgs w0) -> exists s', rounds s n s'.
Proof.
  intros Hinv Hfr. induction n as [|n [s1 Hr]]; [exists s; apply rounds_none|].
  destruct (rounds_nearer _ _ _ _ _ _ _ _ Hinv Hfr Hr) as [(tr1 & own1 & q1 & Hi1) _].
  destruct (round_exists _ _ _ _ _ _ Hi1 Hfr) as (l & tr' & s2 & Hrun & Hserve & Hfair).
  exists s2. by eapply rounds_more.
Qed.

Lemma sys_run_trans s l tr s1 l' tr' s2 :
  sys_run s l tr s1 -> sys_run s1 l' tr' s2 -> sys_run s (l ++ l') (tr ++ tr') s2.
Proof.
  intros H1. induction 1 as [|l' tr' s3 a es s2 _ IH Hst]; [by rewrite !app_nil_r|].
  rewrite !app_assoc. by eapply run_more.
Qed.

Lemma rounds_run s n s' : rounds s n s' -> exists l tr, sys_run s l tr s'.
Proof.
  induction 1 as [|n s1 l tr s2 _ (l1 & tr1 & H1) Hrun _ _]; [exists [], []; apply run_none|].
  exists (l1 ++ l), (tr1 ++ tr). by eapply sys_run_trans.
Qed.

Lemma runs_to_end w P :
  sound w -> calls_ok w P -> exists l tr s, sys_run (start w P) l tr s /\ finished s.
Proof.
  intros Hs HP. pose proof (sound_fresh w Hs) as Hfr. pose proof (inv_start w P Hs HP) as Hinv.
  destruct (rounds_exist _ _ _ _ _ _ (backlog (start w P)) Hinv Hfr) as [s Hr].
  destruct (rounds_run _ _ _ Hr) as (l & tr & Hrun). exists l, tr, s. split; [done|].
  by eapply rounds_finish.
Qed.

(** ** The theorems *)


End ClientsCorrect.

(** Two threads: one reads, flushes and closes descriptor 0, the other reads it and closes a
    descriptor that is not open. *)
Definition sim_clients : gmap nat (list client_call) :=
  {[0%nat := [CallRead 0 8192 5 16; CallFlush 0; CallClose 0];
    1%nat := [CallRead 0 8192 5 16; CallClose 7]]}.

Lemma sim_clients_ok : @calls_ok sim_spdk sim_open_world sim_clients.
Proof.
  assert (@call_ok sim_spdk (w_mem sim_open_world) (CallRead 0 8192 5 16)) as Hok.
  { split; [done|]. split; [lia|]. split; [apply sim_valid_buffer|].
    intros bd. simpl. unfold sim_block_size. lia. }
  intros i cs Hi. unfold sim_clients in Hi. apply lookup_insert_Some in Hi as [[_ <-]|[_ Hi]];
    [|apply lookup_singleton_Some in Hi as [_ <-]];
    repeat (apply Forall_cons; split; [split; [exact I || exact Hok|by intros ? ?]|]); constructor.
Qed.


