(* ===== verification/Services.v ===== *)
(** Statistics, trim, write-zeros and rate limits, from the client's call to its return. *)

From stdpp Require Import base gmap list strings.
From Stdlib Require Import Strings.Byte.
From S2P Require Import Prelude Types Memory Spdk World Sim Core Blocks Perf Bdev Qos Io.
From S2P Require Import Async Vectored Batch Poller Idle IoCorrect SyncIo Devices.

Open Scope Z_scope.

Section Services.
Context `{SpdkLaws}.
Implicit Types (w : world) (p i : Z) (d : xpdk_device) (m : xpdk_msg).

Abbreviation devs w := (ctx_devices (w_g w)).

(** ** Statistics *)

(** A slot after the statistics were reset at time [now]. *)
Definition reset_at (now : Z) (d : xpdk_device) : xpdk_device :=
  set_dev_last_total_bytes 0 (set_dev_last_total_ops 0 (set_dev_stats_window_start now
    (set_dev_stats_start_time now (set_dev_perf_stats perf_stats_zero d)))).

Lemma handle_reset_eq w p m i d stats :
  w_msgs w !! p = Some m -> msg_u m = PPerf i stats -> in_slot w i d -> dev_in_use d = true ->
  exists y, xpdk_spdk_handle_reset_perf_stats p w =
    Ok tt (dev_world p (done_msg XPDK_SUCCESS m) i (reset_at (time_of (w_sys w)) d) (w_bdev w) y w).
Proof.
  intros Hm Hu [[Hi Hlt] Hd] Huse. eexists.
  rewrite (dev_world_intro w p i d Hd m Hm) at 1. unfold xpdk_spdk_handle_reset_perf_stats.
  dw. rewrite Hu. erewrite bind_ok by (eapply dw_get_device; done). cbv beta iota.
  do 6 dw. by dw.
Qed.

(** [xpdk_reset_perf_stats] of an open descriptor zeroes its statistics and restarts
    both of its time bases at the present time. *)
Theorem xpdk_reset_perf_stats_correct w fd d :
  idle w -> free_msgs w <> ∅ -> in_slot w fd d -> dev_in_use d = true ->
  exists k w',
    (forall fuel n, (k <= fuel)%nat -> (0 < n)%nat ->
       xpdk_reset_perf_stats (spdk_turn fuel) n fd w = Ok XPDK_SUCCESS w') /\
    devs w' = <[Z.to_nat fd := reset_at (time_of (w_sys w)) d]> (devs w) /\ at_rest w w'.
Proof.
  intros Hidle Hfree Hslot Huse. pose proof Hslot as [Hfd Hd].
  destruct (send_request_serves w XPDK_MSG_RESET_PERF_STATS (PPerf fd NULL)
    (fun rc w' => rc = XPDK_SUCCESS /\
       devs w' = <[Z.to_nat fd := reset_at (time_of (w_sys w)) d]> (devs w) /\
       at_rest w w')) as (k & rc & w' & Hr & -> & Hds & Hrest); [done|done| |by exists k, w'].
  intros p pl b r1 r2 Hex. set (m := sent_msg _ _).
  destruct (handle_reset_eq (at_handler p m pl b r1 w) p m fd d NULL) as (y & Hh);
    [simpl; apply lookup_insert_eq|done..|].
  exists 0%nat. do 2 eexists. served Hh; try done.
  destruct (ex_same _ _ _ _ _ _ Hex) as (Hmd & _).
    apply returned_rest; [done|done|lia|exact (in_slot_fd w fd d Hidle Hslot)|apply Hex|done].
Qed.

(** The statistics as the get handler brings them up to date. *)
Definition current_stats (y : sys_t) (d : xpdk_device) : xpdk_perf_stats :=
  perf_overall (dev_perf_stats d) (u64 (time_of y - dev_stats_start_time d)).

Lemma handle_get_stats_eq w p m i d stats :
  w_msgs w !! p = Some m -> msg_u m = PPerf i stats -> in_slot w i d -> dev_in_use d = true ->
  is_Some (w_stats w !! stats) ->
  exists y, xpdk_spdk_handle_get_perf_stats p w =
    Ok tt (set_w_stats (<[stats := current_stats (w_sys w) d]> (w_stats w))
      (dev_world p (done_msg XPDK_SUCCESS m) i
         (set_dev_perf_stats (current_stats (w_sys w) d) d) (w_bdev w) y w)).
Proof.
  intros Hm Hu [[Hi Hlt] Hd] Huse [old Hst]. eexists.
  rewrite (dev_world_intro w p i d Hd m Hm) at 1. unfold xpdk_spdk_handle_get_perf_stats.
  dw. rewrite Hu. erewrite bind_ok by (eapply dw_get_device; done). cbv beta iota.
  do 3 dw. rewrite bind_get. simpl. rewrite Hst. unfold from_some. rewrite bind_ret_l.
  unfold bind at 1, modify.
  erewrite complete_msg_eq by (simpl; apply lookup_insert_eq).
  unfold w_put_msg, dev_world, current_stats, set_w_stats. cbn -[perf_overall u64 time_of].
  by rewrite insert_insert_eq.
Qed.

(** [xpdk_get_perf_stats] of an open descriptor stores in the caller's structure the
    statistics of its slot with the rates brought up to date over the time since they were
    started, and keeps them in the slot. *)
Theorem xpdk_get_perf_stats_correct w fd d stats :
  idle w -> free_msgs w <> ∅ -> in_slot w fd d -> dev_in_use d = true ->
  stats <> NULL -> is_Some (w_stats w !! stats) ->
  exists k w',
    (forall fuel n, (k <= fuel)%nat -> (0 < n)%nat ->
       xpdk_get_perf_stats (spdk_turn fuel) n fd stats w = Ok XPDK_SUCCESS w') /\
    w_stats w' = <[stats := current_stats (w_sys w) d]> (w_stats w) /\
    devs w' = <[Z.to_nat fd := set_dev_perf_stats (current_stats (w_sys w) d) d]> (devs w) /\
    at_rest w w'.
Proof.
  intros Hidle Hfree Hslot Huse Hne Hst. pose proof Hslot as [Hfd Hd].
  destruct (send_request_serves w XPDK_MSG_GET_PERF_STATS (PPerf fd stats)
    (fun rc w' => rc = XPDK_SUCCESS /\
       w_stats w' = <[stats := current_stats (w_sys w) d]> (w_stats w) /\
       devs w' = <[Z.to_nat fd := set_dev_perf_stats (current_stats (w_sys w) d) d]> (devs w) /\
       at_rest w w')) as (k & rc & w' & Hr & -> & Hss & Hds & Hrest); [done|done| |].
  - intros p pl b r1 r2 Hex. set (m := sent_msg _ _).
    destruct (handle_get_stats_eq (at_handler p m pl b r1 w) p m fd d stats) as (y & Hh);
      [simpl; apply lookup_insert_eq|done..|].
    exists 0%nat. do 2 eexists. served Hh; try done.
    destruct (ex_same _ _ _ _ _ _ Hex) as (Hmd & _).
      destruct (returned_rest w p pl b r1 r2 m (done_msg XPDK_SUCCESS m) fd
        (set_dev_perf_stats (current_stats (w_sys w) d) d) b y) as [[] ? ? ? ? ? ?];
        [done|done|lia|exact (in_slot_fd w fd d Hidle Hslot)|apply Hex|done|].
      by split; [split|..].
  - exists k, w'. split; [|done]. intros fuel n Hf Hn. unfold xpdk_get_perf_stats.
    rewrite decide_False by done. by apply Hr.
Qed.

(** ** Trim and write-zeros *)

(** The request of a byte range. *)
Definition range_req (kind : io_kind) (d : xpdk_device) (offset length : Z) : io_req :=
  let bs := spdk_bdev_get_block_size (dev_bdev d) in
  Build_io_req kind (dev_desc d) (dev_channel d) NULL (offset_blocks offset bs)
    (num_blocks length bs) NoIoCb.

Lemma handle_range_eq w p m i d kind offset length :
  w_msgs w !! p = Some m -> msg_u m = PTrim i offset length -> open_at w i d ->
  exists b rc, handle_range kind p w =
    Ok tt (w_put_msg p (done_msg (if decide (rc = 0) then XPDK_SUCCESS else XPDK_ERROR_IO) m)
             (set_w_bdev b w)) /\
    same_data (w_bdev w) b /\
    outstanding b = outstanding (w_bdev w) ++
      (if decide (rc = 0) then [WIo (range_req kind d offset length)] else []).
Proof.
  intros Hm Hu (Hi & Hd & [Huse Hbd Hde _ _]). unfold handle_range.
  rewrite (bind_ok _ _ _ _ _ (get_msg_eq w p m Hm)), Hu.
  rewrite (bind_ok _ _ _ _ _ (get_device_some w i d Hi Hd Huse)).
  rewrite (bind_ok _ _ _ _ _ (get_dev_eq w i d (proj1 Hi) Hd)).
  unfold bdev_block_size. rewrite decide_False, bind_ret_l by done.
  pose proof (block_size_range (dev_bdev d)) as Hbs. unfold block_range.
  rewrite decide_False, bind_ret_l by lia. simpl fst. simpl snd.
  fold (range_req kind d offset length).
  destruct (bdev_submit_cases w (range_req kind d offset length) Hde)
    as [(b & Hs & Ho & Hsd & _)|(b & rc & Hrc & Hs & Ho & Hsd)];
    rewrite (bind_ok _ _ _ _ _ Hs).
  - exists b, 0. rewrite !decide_True by done. by rewrite (complete_msg_eq _ p m).
  - exists b, rc. rewrite !decide_False by done. rewrite app_nil_r.
    by rewrite (complete_msg_eq _ p m).
Qed.

(** The two operations on a byte range and the requests they submit. *)
Definition range_op (type : xpdk_msg_type) (kind : io_kind) : Prop :=
  type = XPDK_MSG_TRIM /\ kind = IoUnmap \/ type = XPDK_MSG_WRITE_ZEROS /\ kind = IoWriteZeroes.

(** The operation was accepted and is still under way, or it was refused. *)
Definition range_outcome (req : io_req) (w : world) (rc : Z) (w' : world) : Prop :=
  w_msgs w' = w_msgs w /\ free_msgs w' = free_msgs w /\ w_mem w' = w_mem w /\
  devs w' = devs w /\ medium (w_bdev w') = medium (w_bdev w) /\
  (rc = XPDK_SUCCESS /\ outstanding (w_bdev w') = [WIo req] \/
   rc = XPDK_ERROR_IO /\ outstanding (w_bdev w') = []).

(** [xpdk_trim] and [xpdk_write_zeros] on an open device submit the unmap or zero
    request for the blocks of their range and return at once: [XPDK_SUCCESS] means the
    request was accepted, and it is still outstanding and the medium unchanged then;
    [XPDK_ERROR_IO] means it was refused.  Nothing else changes. *)
Theorem range_requests_submit w type kind fd d offset length :
  range_op type kind -> idle w -> free_msgs w <> ∅ -> open_at w fd d ->
  exists k rc w',
    (forall fuel n, (k <= fuel)%nat -> (0 < n)%nat ->
       send_request (spdk_turn fuel) n type (PTrim fd offset length) w = Ok rc w') /\
    range_outcome (range_req kind d offset length) w rc w'.
Proof.
  intros Hop Hidle Hfree Hopen.
  apply (send_request_serves w type (PTrim fd offset length)
    (range_outcome (range_req kind d offset length) w)); [done|done|].
  intros p pl b r1 r2 Hex. set (m := sent_msg _ _). set (wh := at_handler p m pl b r1 w).
  destruct (handle_range_eq wh p m fd d kind offset length) as (b' & rc & Hh & (Hmd & _) & Ho);
    [simpl; apply lookup_insert_eq|done|done|].
  exists 0%nat, (w_put_msg p (done_msg (if decide (rc = 0) then XPDK_SUCCESS else XPDK_ERROR_IO) m)
    (set_w_bdev b' wh)),
    (done_msg (if decide (rc = 0) then XPDK_SUCCESS else XPDK_ERROR_IO) m).
  split_and!; try done.
  - intros fuel _. destruct Hop as [[-> ->]|[-> ->]]; unfold dispatch;
      [unfold xpdk_spdk_handle_trim|unfold xpdk_spdk_handle_write_zeros];
      by rewrite (bind_ok _ _ _ _ _ Hh).
  - simpl. apply lookup_insert_eq.
  - destruct Hex as [? Hfresh Hob (Hmd0 & _) ? Hpool]. simpl in Ho, Hmd. rewrite Hob in Ho.
    unfold range_outcome. split_and!; try done; simpl.
    + by apply drop_msg.
    + congruence.
    + destruct (decide (rc = 0)); simpl in *; [left|right]; done.
Qed.

(** The completion of a trim or write-zeros has no callback to go to: with one
    outstanding, the poll that completes it calls through a [NULL] pointer. *)
Theorem range_completion_faults w kind d offset length b c :
  outstanding (w_bdev w) = [WIo (range_req kind d offset length)] ->
  kind = IoUnmap \/ kind = IoWriteZeroes ->
  bdev_poll (w_bdev w) (w_mem w) = (b, Some c) ->
  poll_bdev w = Fault NullDeref.
Proof.
  intros Ho Hk Hp. rewrite (poll_bdev_eq w b (Some c) Hp).
  destruct (poll_completes _ _ _ _ _ Ho Hp) as [_ Hc]. destruct c; try done. subst r.
  by destruct Hk as [->| ->].
Qed.

(** ** Rate limits *)

(** Four limits or more in the array. *)
Definition limits_at (w : world) (ptr : Z) (l : list Z) : Prop :=
  ptr <> NULL /\ w_limits w !! ptr = Some l /\ (4 <= length l)%nat.

Lemma get_limits_eq w ptr l : limits_at w ptr l -> get_limits ptr w = Ok (take 4 l) w.
Proof.
  intros (_ & Hl & Hlen). unfold get_limits. rewrite bind_get, Hl. unfold from_some.
  rewrite bind_ret_l, decide_False by (unfold XPDK_QOS_NUM_RATE_LIMIT_TYPES; lia). done.
Qed.

Lemma put_limits_eq w ptr l limits :
  limits_at w ptr l ->
  put_limits ptr limits w =
    Ok tt (set_w_limits (<[ptr := limits ++ drop 4 l]> (w_limits w)) w).
Proof.
  intros (_ & Hl & Hlen). unfold put_limits. rewrite bind_get, Hl. unfold from_some.
  rewrite bind_ret_l, decide_False by (unfold XPDK_QOS_NUM_RATE_LIMIT_TYPES; lia). done.
Qed.

Lemma handle_qos_set_eq w p m i d ptr l :
  w_msgs w !! p = Some m -> msg_u m = PQos i ptr -> in_slot w i d -> dev_in_use d = true ->
  limits_at w ptr l ->
  xpdk_spdk_handle_qos_set_limits p w =
    Ok tt (set_w_bdev (spdk_bdev_set_qos_rate_limits (w_bdev w) (dev_bdev d) (take 4 l) p) w).
Proof.
  intros Hm Hu [Hi Hd] Huse Hl. unfold xpdk_spdk_handle_qos_set_limits.
  rewrite (bind_ok _ _ _ _ _ (get_msg_eq w p m Hm)), Hu.
  rewrite (bind_ok _ _ _ _ _ (get_device_some w i d Hi Hd Huse)).
  rewrite (bind_ok _ _ _ _ _ (get_dev_eq w i d (proj1 Hi) Hd)).
  by rewrite (bind_ok _ _ _ _ _ (get_limits_eq w ptr l Hl)).
Qed.

Lemma handle_qos_get_eq w p m i d ptr l :
  w_msgs w !! p = Some m -> msg_u m = PQos i ptr -> in_slot w i d -> dev_in_use d = true ->
  limits_at w ptr l ->
  xpdk_spdk_handle_qos_get_limits p w =
    Ok tt (w_put_msg p (done_msg XPDK_SUCCESS m)
      (set_w_limits (<[ptr := spdk_bdev_get_qos_rate_limits (w_bdev w) (dev_bdev d) ++ drop 4 l]>
         (w_limits w)) w)).
Proof.
  intros Hm Hu [Hi Hd] Huse Hl. unfold xpdk_spdk_handle_qos_get_limits.
  rewrite (bind_ok _ _ _ _ _ (get_msg_eq w p m Hm)), Hu.
  rewrite (bind_ok _ _ _ _ _ (get_device_some w i d Hi Hd Huse)).
  rewrite (bind_ok _ _ _ _ _ (get_dev_eq w i d (proj1 Hi) Hd)), bind_get.
  rewrite (bind_ok _ _ _ _ _ (put_limits_eq w ptr l _ Hl)). by rewrite (complete_msg_eq _ p m).
Qed.

(** What setting limits results in. *)
Definition set_outcome (w : world) (bd : Z) (limits : list Z) (rc : Z) (w' : world) : Prop :=
  at_rest w w' /\ devs w' = devs w /\ w_limits w' = w_limits w /\
  (rc = XPDK_SUCCESS /\ spdk_bdev_get_qos_rate_limits (w_bdev w') bd = qos_effective limits \/
   rc = XPDK_ERROR_QOS).

(** The wait for new limits, in the world the handler left. *)
Lemma qos_set_waits w p pl b r1 r2 m bd limits :
  idle w -> exchange w p pl b r1 r2 -> msg_completed m = false ->
  let wh := at_handler p m pl b r1 w in
  exists k r3 rc b2 r',
    let w2 := w_put_msg p (done_msg rc m) (set_w_ring (Some r') (set_w_bdev b2 wh)) in
    exchange w p pl b r1 r3 /\ outstanding b2 = [] /\ medium b2 = medium (w_bdev w) /\
    (rc = XPDK_SUCCESS /\ spdk_bdev_get_qos_rate_limits b2 bd = qos_effective limits \/
     rc = XPDK_ERROR_QOS) /\
    forall fuel n, (k <= n)%nat ->
      while n (pending_test p) (spdk_turn fuel)
        (set_w_ring (Some r2) (set_w_bdev (spdk_bdev_set_qos_rate_limits b bd limits p) wh)) =
        Ok tt (set_w_ring (Some r3) w2).
Proof.
  intros Hidle Hex Hmc wh. pose proof Hex as [Hp Hfresh Hob (Hmd & _ & Hnm) [Hq2 Hc2] Hpool].
  assert (w_msgs wh !! p = Some m) as Hm by (simpl; apply lookup_insert_eq).
  set (b1 := spdk_bdev_set_qos_rate_limits b bd limits p).
  destruct (set_qos_frame b bd limits p) as [Ho1 (Hs1 & _)]. fold b1 in Ho1, Hs1.
  rewrite Hob in Ho1. simpl in Ho1.
  destruct (wait_work (set_w_ring (Some r2) (set_w_bdev b1 wh)) r2 p m (WQos p bd limits)
    (fun w2 => exists rc b2 r', w2 = w_put_msg p (done_msg rc m)
         (set_w_ring (Some r') (set_w_bdev b2 wh)) /\
       outstanding b2 = [] /\ medium b2 = medium (w_bdev w) /\
       (rc = XPDK_SUCCESS /\ spdk_bdev_get_qos_rate_limits b2 bd = qos_effective limits
        \/ rc = XPDK_ERROR_QOS)))
    as (k & w2 & r3 & Hq3 & Hc3 & (rc & b2 & r' & -> & Ho2 & Hmd2 & Hrc) & Hw);
    [done|done|apply (idle_running w Hidle)|done|done|done| |].
  - intros b0 b' c r' (Hsd0 & _) [Hob' Hc]. destruct c as [|msg desc st|msg st]; [done|done|].
    destruct Hc as (-> & Hmd' & Hst). simpl in Hsd0.
    set (rc := if decide (st = 0) then XPDK_SUCCESS else XPDK_ERROR_QOS).
    exists (w_put_msg p (done_msg rc m) (set_w_ring (Some r') (set_w_bdev b' wh))), (done_msg rc m).
    split_and!; [|done|simpl; apply lookup_insert_eq|done|].
    + simpl. unfold xpdk_qos_set_limits_complete. fold rc. by rewrite (complete_msg_eq _ p m).
    + exists rc, b', r'. split_and!; [done|done|congruence|].
      unfold rc. destruct (decide (st = 0)) as [->|]; [left|right]; eauto.
  - exists k, r3, rc, b2, r'. split_and!; try done.
    destruct Hex. split; try done. split; [done|]. simpl in Hc3. lia.
Qed.

Lemma qos_set_returns w fd d ptr l :
  idle w -> free_msgs w <> ∅ -> in_slot w fd d -> dev_in_use d = true -> limits_at w ptr l ->
  exists k rc w',
    (forall fuel n, (k <= n)%nat ->
       xpdk_qos_set_rate_limits (spdk_turn fuel) n fd ptr w = Ok rc w') /\
    set_outcome w (dev_bdev d) (take 4 l) rc w'.
Proof.
  intros Hidle Hfree Hslot Huse Hl.
  destruct (request_eq w XPDK_MSG_QOS_SET_LIMITS (PQos fd ptr) Hidle Hfree)
    as (p & pl & b & r1 & r2 & Hex & Hreq).
  set (m := sent_msg _ _) in *. set (wh := at_handler p m pl b r1 w) in *.
  assert (w_msgs wh !! p = Some m) as Hm by (simpl; apply lookup_insert_eq).
  pose proof (handle_qos_set_eq wh p m fd d ptr l Hm eq_refl Hslot Huse Hl) as Hh. simpl in Hh.
  destruct (qos_set_waits w p pl b r1 r2 m (dev_bdev d) (take 4 l) Hidle Hex eq_refl)
    as (k & r3 & rc & b2 & r' & Hex3 & Ho2 & Hmd2 & Hrc & Hw). fold wh in Hw.
  set (w2 := w_put_msg p (done_msg rc m) (set_w_ring (Some r') (set_w_bdev b2 wh))) in *.
  exists (S k), rc, (returned p pl r3 w2). split.
  - intros fuel n Hn. destruct n as [|n]; [lia|]. unfold xpdk_qos_set_rate_limits.
    destruct Hl as (Hne & _). rewrite decide_False, send_request_eq by done.
    erewrite (Hreq fuel n _ _ (done_msg rc m)); [| | |apply Hw; lia|simpl; apply lookup_insert_eq].
    + by rewrite (bind_ok _ _ _ _ _
        (return_eq w2 p pl r3 (ex_not_null _ _ _ _ _ _ Hex) eq_refl)).
    + rewrite (process_msg_eq fuel p m _ Hm). change (msg_type m) with XPDK_MSG_QOS_SET_LIMITS.
      unfold dispatch. by rewrite (bind_ok _ _ _ _ _ Hh).
    + done.
  - split; [|done].
    apply (rest_intro w p pl b r1 r3); try done; simpl; [apply drop_msg, Hex|apply Hidle..].
Qed.

(** What asking for limits results in. *)
Lemma qos_get_returns w fd d ptr l :
  idle w -> free_msgs w <> ∅ -> in_slot w fd d -> dev_in_use d = true -> limits_at w ptr l ->
  exists k w',
    (forall fuel n, (k <= fuel)%nat -> (0 < n)%nat ->
       xpdk_qos_get_rate_limits (spdk_turn fuel) n fd ptr w = Ok XPDK_SUCCESS w') /\
    w_limits w' =
      <[ptr := spdk_bdev_get_qos_rate_limits (w_bdev w) (dev_bdev d) ++ drop 4 l]> (w_limits w) /\
    devs w' = devs w /\ at_rest w w'.
Proof.
  intros Hidle Hfree Hslot Huse Hl.
  destruct (send_request_serves w XPDK_MSG_QOS_GET_LIMITS (PQos fd ptr)
    (fun rc w' => rc = XPDK_SUCCESS /\ w_limits w' =
      <[ptr := spdk_bdev_get_qos_rate_limits (w_bdev w) (dev_bdev d) ++ drop 4 l]> (w_limits w) /\
      devs w' = devs w /\ at_rest w w')) as (k & rc & w' & Hr & -> & ?); [done|done| |].
  - intros p pl b r1 r2 Hex. set (m := sent_msg _ _). set (wh := at_handler p m pl b r1 w).
    assert (w_msgs wh !! p = Some m) as Hm by (simpl; apply lookup_insert_eq).
    pose proof (handle_qos_get_eq wh p m fd d ptr l Hm eq_refl Hslot Huse Hl) as Hh.
    destruct (ex_same _ _ _ _ _ _ Hex) as (_ & Hq & _). simpl in Hh. rewrite Hq in Hh.
    eexists 0%nat, _, (done_msg XPDK_SUCCESS m). served Hh; try done.
    destruct (returned_rest_msg w p pl b r1 r2 m (done_msg XPDK_SUCCESS m) Hidle Hex)
        as [[] ? ? ? ? ? ?]. by split; [split|..].
  - exists k, w'. split; [|done]. intros fuel n Hf Hn. unfold xpdk_qos_get_rate_limits.
    destruct Hl as (Hne & _). rewrite decide_False by done. by apply Hr.
Qed.

(** C33: Limits that were set are read back: after [xpdk_qos_set_rate_limits] with the four
    limits at [src] returned [XPDK_SUCCESS], [xpdk_qos_get_rate_limits] returns
    [XPDK_SUCCESS] and stores at [dst] what SPDK makes of them, leaving what follows the
    four elements; a failed set returns [XPDK_ERROR_QOS]. *)
Theorem qos_set_get_roundtrip w fd d src ls dst ld :
  idle w -> free_msgs w <> ∅ -> in_slot w fd d -> dev_in_use d = true ->
  limits_at w src ls -> limits_at w dst ld ->
  exists k rc1 w',
    (forall fuel n, (k <= fuel)%nat -> (k <= n)%nat ->
       (let* rc1 := xpdk_qos_set_rate_limits (spdk_turn fuel) n fd src in
        let* rc2 := xpdk_qos_get_rate_limits (spdk_turn fuel) n fd dst in
        ret (rc1, rc2)) w = Ok (rc1, XPDK_SUCCESS) w') /\
    (rc1 = XPDK_SUCCESS \/ rc1 = XPDK_ERROR_QOS) /\
    (rc1 = XPDK_SUCCESS ->
     w_limits w' = <[dst := qos_effective (take 4 ls) ++ drop 4 ld]> (w_limits w)) /\
    devs w' = devs w /\ idle w' /\ free_msgs w' = free_msgs w.
Proof.
  intros Hidle Hfree Hslot Huse Hls Hld.
  destruct (qos_set_returns w fd d src ls Hidle Hfree Hslot Huse Hls)
    as (k1 & rc1 & w1 & Hr1 & Hrest1 & Hds1 & Hl1 & Hrc1).
  destruct (qos_get_returns w1 fd d dst ld) as (k2 & w2 & Hr2 & Hl2 & Hds2 & Hrest2).
  - apply Hrest1.
  - by rewrite (at_rest_free _ _ Hrest1).
  - unfold in_slot. by rewrite Hds1.
  - done.
  - unfold limits_at. by rewrite Hl1.
  - exists (S (k1 + k2)), rc1, w2. split_and!.
    + intros fuel n Hf Hn. rewrite (bind_ok _ _ _ _ _ (Hr1 fuel n ltac:(lia))).
      by rewrite (bind_ok _ _ _ _ _ (Hr2 fuel n ltac:(lia) ltac:(lia))).
    + destruct Hrc1 as [[? _]|?]; auto.
    + intros Hs. destruct Hrc1 as [[_ He]|He]; [|by rewrite Hs in He]. by rewrite Hl2, He, Hl1.
    + congruence.
    + apply Hrest2.
    + by rewrite (at_rest_free _ _ Hrest2), (at_rest_free _ _ Hrest1).
Qed.

(** An array on the stack of the caller. *)
Lemma stack_limits_set w fd d limits :
  idle w -> free_msgs w <> ∅ -> in_slot w fd d -> dev_in_use d = true -> length limits = 4%nat ->
  exists k rc w',
    (forall fuel n, (k <= n)%nat ->
       with_stack_limits limits (xpdk_qos_set_rate_limits (spdk_turn fuel) n fd) w = Ok rc w') /\
    set_outcome w (dev_bdev d) limits rc w'.
Proof.
  intros Hidle Hfree Hslot Huse Hlen.
  set (ptr := fresh ({[NULL]} ∪ dom (w_limits w)) : Z).
  assert (ptr ∉ {[NULL]} ∪ dom (w_limits w)) as Hfresh by apply is_fresh.
  set (w0 := set_w_limits (<[ptr := limits]> (w_limits w)) w).
  destruct (qos_set_returns w0 fd d ptr limits) as (k & rc & w1 & Hr & Hrest & Hds & Hl & Hrc);
    [by destruct Hidle|done|done|done| |].
  { split_and!; [set_solver|simpl; apply lookup_insert_eq|lia]. }
  rewrite take_ge in Hrc by lia.
  exists k, rc, (set_w_limits (delete ptr (w_limits w1)) w1). split.
  - intros fuel n Hn. unfold with_stack_limits. rewrite bind_get. fold ptr.
    unfold bind at 1, modify at 1. fold w0. by rewrite (bind_ok _ _ _ _ _ (Hr fuel n Hn)).
  - split_and!; [|done| |done].
    + destruct Hrest as [[] ? ? ? ? ? ?]. by split; [split|..].
    + simpl. rewrite Hl. simpl. rewrite delete_insert_id; [done|].
      apply not_elem_of_dom. set_solver.
Qed.

(** [xpdk_qos_enable_simple] and [xpdk_qos_disable] of an open descriptor return; on
    [XPDK_SUCCESS] the limits in effect are what SPDK makes of the two given limits and zeros,
    or of four zeros.  The array they build is gone afterwards. *)
Theorem qos_convenience_correct w fd d rw_iops_limit rw_bps_limit :
  idle w -> free_msgs w <> ∅ -> in_slot w fd d -> dev_in_use d = true ->
  (exists k rc w',
     (forall fuel n, (k <= n)%nat -> xpdk_qos_enable_simple (spdk_turn fuel) n fd
        rw_iops_limit rw_bps_limit w = Ok rc w') /\
     set_outcome w (dev_bdev d) [rw_iops_limit; rw_bps_limit; 0; 0] rc w') /\
  (exists k rc w',
     (forall fuel n, (k <= n)%nat -> xpdk_qos_disable (spdk_turn fuel) n fd w = Ok rc w') /\
     set_outcome w (dev_bdev d) [0; 0; 0; 0] rc w').
Proof. intros. split; by apply stack_limits_set. Qed.
End Services.

Lemma xpdk_reset_perf_stats_correct_witness :
  exists k w', (forall fuel n, (k <= fuel)%nat -> (0 < n)%nat ->
    @xpdk_reset_perf_stats sim_spdk (spdk_turn fuel) n 0 sim_open_world = Ok XPDK_SUCCESS w').
Proof.
  destruct (@xpdk_reset_perf_stats_correct sim_spdk sim_spdk_laws sim_open_world 0 sim_open_device
    sim_idle_open sim_free sim_in_slot eq_refl) as (k & w' & Hr & _).
  by exists k, w'.
Defined.

Lemma xpdk_get_perf_stats_correct_witness :
  exists k w', (forall fuel n, (k <= fuel)%nat -> (0 < n)%nat ->
    @xpdk_get_perf_stats sim_spdk (spdk_turn fuel) n 0 30000 sim_service_world =
      Ok XPDK_SUCCESS w') /\ w_stats w' !! 30000 = Some perf_stats_zero.
Proof.
  destruct (@xpdk_get_perf_stats_correct sim_spdk sim_spdk_laws sim_service_world 0 sim_open_device
    30000 sim_idle_service sim_free sim_in_slot eq_refl) as (k & w' & Hr & Hs & _);
    [done|by eexists|].
  exists k, w'. split; [done|]. rewrite Hs, lookup_insert_eq. by vm_compute.
Defined.

Lemma range_requests_submit_witness :
  exists k rc w', (forall fuel n, (k <= fuel)%nat -> (0 < n)%nat ->
    @send_request sim_spdk (spdk_turn fuel) n XPDK_MSG_WRITE_ZEROS (PTrim 0 8 16) sim_open_world =
      Ok rc w').
Proof.
  destruct (@range_requests_submit sim_spdk sim_spdk_laws sim_open_world XPDK_MSG_WRITE_ZEROS
    IoWriteZeroes 0 sim_open_device 8 16 (or_intror (conj eq_refl eq_refl)) sim_idle_open sim_free
    sim_open_at) as (k & rc & w' & Hr & _).
  by exists k, rc, w'.
Defined.

Lemma range_completion_faults_witness : @poll_bdev sim_spdk sim_zeroing_world = Fault NullDeref.
Proof.
  eapply (@range_completion_faults sim_spdk sim_spdk_laws sim_zeroing_world IoWriteZeroes
    sim_open_device 0 8); [by vm_compute|by right|reflexivity].
Defined.

Lemma sim_limits :
  @limits_at sim_spdk sim_service_world 40000 [1000; 2000; 3000; 4000] /\
  @limits_at sim_spdk sim_service_world 40100 [9; 9; 9; 9].
Proof. by repeat split. Qed.

Lemma qos_set_get_roundtrip_witness :
  exists k rc1 w', (forall fuel n, (k <= fuel)%nat -> (k <= n)%nat ->
    (let* rc1 := @xpdk_qos_set_rate_limits sim_spdk (spdk_turn fuel) n 0 40000 in
     let* rc2 := @xpdk_qos_get_rate_limits sim_spdk (spdk_turn fuel) n 0 40100 in
     ret (rc1, rc2)) sim_service_world = Ok (rc1, XPDK_SUCCESS) w') /\
    (rc1 = XPDK_SUCCESS -> w_limits w' !! 40100 = Some [1000; 2000; 3000; 4000]).
Proof.
  destruct (@qos_set_get_roundtrip sim_spdk sim_spdk_laws sim_service_world 0 sim_open_device
    40000 [1000; 2000; 3000; 4000] 40100 [9; 9; 9; 9] sim_idle_service sim_free sim_in_slot eq_refl
    (proj1 sim_limits) (proj2 sim_limits)) as (k & rc1 & w' & Hr & _ & Hl & _).
  exists k, rc1, w'. split; [done|]. intros Hs. by rewrite (Hl Hs), lookup_insert_eq.
Defined.

Lemma qos_convenience_correct_witness :
  exists k rc w', (forall fuel n, (k <= n)%nat ->
    @xpdk_qos_disable sim_spdk (spdk_turn fuel) n 0 sim_open_world = Ok rc w').
Proof.
  destruct (@qos_convenience_correct sim_spdk sim_spdk_laws sim_open_world 0 sim_open_device 100 200
    sim_idle_open sim_free sim_in_slot eq_refl) as (_ & k & rc & w' & Hr & _).
  by exists k, rc, w'.
Defined.
