(* ===== verification/Lifecycle.v ===== *)
(** The life cycle of the library (src/xpdk_core.c): start-up of the SPDK thread,
    initialisation, shutdown. *)

From stdpp Require Import base gmap list strings.
From Stdlib Require Import Strings.Byte.
From S2P Require Import Prelude Types Memory Spdk World Sim Core Blocks Perf Bdev Qos Io.
From S2P Require Import Async Vectored Batch Poller Idle IoCorrect SyncIo Devices Session.

Open Scope Z_scope.

(** What the operating system and SPDK answer during start-up. *)
Record boot := Build_boot {
  bt_mutex_rc : Z; (* pthread_mutex_init *)
  bt_cond_rc : Z; (* pthread_cond_init *)
  bt_env_rc : Z; (* spdk_env_init *)
  bt_thread_rc : Z; (* pthread_create *)
  bt_affinity_rc : Z -> Z; (* pthread_setaffinity_np, by core *)
  bt_spdk_thread : Z; (* spdk_thread_create *)
  bt_poller : Z -> Z; (* spdk_poller_register, by period *)
  bt_delay : nat (* sleeps of the initialising thread before the new one has started *)
}.

Section Lifecycle.
Context `{Spdk}.
Variable bt : boot.

(** ** The SPDK thread *)

(** Lines 160-185: up to the event loop. *)
Definition thread_prologue : MW unit :=
  let* g := gets w_g in
  let _ := xpdk_set_cpu_affinity (bt_affinity_rc bt) (opt_cpu_core (ctx_opts g)) in
  if decide (bt_spdk_thread bt = NULL) then ret tt
  else
    upd_g (set_ctx_spdk_thread (bt_spdk_thread bt)) ;;
    let poll_period_us := if opt_turbo_mode (ctx_opts g) then XPDK_TURBO_POLL_PERIOD_US
                          else opt_poll_period_us (ctx_opts g) in
    upd_g (set_ctx_msg_poller (bt_poller bt poll_period_us)) ;;
    if decide (bt_poller bt poll_period_us = NULL) then ret tt
    else upd_g (set_ctx_spdk_thread_running true).

(** Lines 197-202: after the event loop. *)
Definition thread_epilogue : MW unit := upd_g (set_ctx_msg_poller NULL).

Definition is_running : MW bool := gets (fun w => ctx_spdk_thread_running (w_g w)).

(** [while (!g_xpdk_ctx.spdk_thread_running) usleep(1000);] [todo] is the number of sleeps
    until the new thread runs its prologue, [None] once it has. *)
Fixpoint wait_ready (fuel : nat) (todo : option nat) : MW unit :=
  let* running := is_running in
  if (running : bool) then ret tt
  else
    match fuel with
    | O => spent
    | S fuel =>
        match todo with
        | Some O => thread_prologue ;; wait_ready fuel None
        | Some (S delay) => wait_ready fuel (Some delay)
        | None => wait_ready fuel None
        end
    end.

(** ** Initialisation *)

Definition xpdk_init_spdk_thread (fuel : nat) (opts : xpdk_opts) : MW Z :=
  if decide (bt_env_rc bt < 0) then ret XPDK_ERROR_IO
  else
    let ring_size := if decide (opt_msg_ring_size opts > 0) then opt_msg_ring_size opts
                     else XPDK_DEFAULT_RING_SIZE in
    modify (set_w_ring (spdk_ring_create ring_size)) ;;
    match spdk_ring_create ring_size with
    | None => ret XPDK_ERROR_NOMEM
    | Some _ =>
        let pool_size := if decide (opt_msg_pool_size opts > 0) then opt_msg_pool_size opts
                         else XPDK_DEFAULT_POOL_SIZE in
        modify (set_w_pool (spdk_mempool_create pool_size)) ;;
        match spdk_mempool_create pool_size with
        | None =>
            modify (set_w_ring None) ;;
            ret XPDK_ERROR_NOMEM
        | Some _ =>
            if decide (bt_thread_rc bt <> 0) then
              modify (set_w_pool None) ;;
              modify (set_w_ring None) ;;
              ret XPDK_ERROR_IO
            else
              wait_ready fuel (Some (bt_delay bt)) ;;
              ret XPDK_SUCCESS
        end
    end.

(** Lines 340-349. *)
Definition opts_defaults (opts : xpdk_opts) : xpdk_opts :=
  let opts := if decide (opt_msg_ring_size opts = 0)
              then set_opt_msg_ring_size XPDK_DEFAULT_RING_SIZE opts else opts in
  let opts := if decide (opt_msg_pool_size opts = 0)
              then set_opt_msg_pool_size XPDK_DEFAULT_POOL_SIZE opts else opts in
  if decide (opt_poll_period_us opts = 0 /\ opt_turbo_mode opts = false)
  then set_opt_poll_period_us XPDK_DEFAULT_POLL_PERIOD_US opts else opts.

(** Lines 369-372. *)
Definition init_slots (ds : list xpdk_device) : list xpdk_device :=
  imap (fun i d => set_dev_in_use false (set_dev_fd (Z.of_nat i) d)) ds.

Definition xpdk_init_opts (fuel : nat) (opts : option xpdk_opts) : MW Z :=
  let* initialized := is_initialized in
  if (initialized : bool) then ret XPDK_SUCCESS
  else
    match opts with
    | None => ret XPDK_ERROR_INVALID
    | Some opts =>
        modify (fun w => set_w_ring None (set_w_pool None (set_w_g context_zero w))) ;;
        upd_g (set_ctx_opts (opts_defaults opts)) ;;
        if decide (bt_mutex_rc bt <> 0) then ret XPDK_ERROR_NOMEM
        else
          upd_g (set_ctx_sync_lock true) ;;
          if decide (bt_cond_rc bt <> 0) then
            upd_g (set_ctx_sync_lock false) ;;
            ret XPDK_ERROR_NOMEM
          else
            upd_g (set_ctx_sync_cond true) ;;
            upd_g (fun g => set_ctx_devices (init_slots (ctx_devices g)) g) ;;
            let* opts := gets (fun w => ctx_opts (w_g w)) in
            let* rc := xpdk_init_spdk_thread fuel opts in
            if decide (rc <> XPDK_SUCCESS) then
              upd_g (set_ctx_sync_cond false) ;;
              upd_g (set_ctx_sync_lock false) ;;
              ret rc
            else
              upd_g (set_ctx_initialized true) ;;
              ret XPDK_SUCCESS
    end.

Definition xpdk_init (fuel : nat) (config_file : option string) : MW Z :=
  let opts := xpdk_opts_init opts_zero in
  xpdk_init_opts fuel (Some (set_opt_config_file config_file opts)).

(** ** Shutdown *)

Variable sched_yield : MW unit.
Variable fuel : nat.

(** [pthread_join]: the other thread goes on until its event loop ends, then leaves. *)
Definition thread_join : MW unit := while fuel is_running sched_yield ;; thread_epilogue.

Definition xpdk_cleanup_spdk_thread : MW unit :=
  let* running := is_running in
  if negb running then ret tt
  else
    let* msg := xpdk_msg_alloc XPDK_MSG_SHUTDOWN in
    when (bool_decide (msg <> NULL))
      (let* _ := xpdk_msg_send_sync sched_yield fuel msg in xpdk_msg_free msg) ;;
    thread_join ;;
    modify (set_w_pool None) ;;
    modify (set_w_ring None).

(** Lines 403-407, from slot [i] on. *)
Fixpoint close_slots (n : nat) (i : Z) : MW unit :=
  match n with
  | O => ret tt
  | S n =>
      let* d := get_dev i in
      when (dev_in_use d) (let* _ := xpdk_close sched_yield fuel i in ret tt) ;;
      close_slots n (i + 1)
  end.

Definition xpdk_cleanup : MW unit :=
  let* initialized := is_initialized in
  if negb initialized then ret tt
  else
    close_slots (Z.to_nat XPDK_MAX_OPEN_DEVICES) 0 ;;
    xpdk_cleanup_spdk_thread ;;
    upd_g (set_ctx_sync_cond false) ;;
    upd_g (set_ctx_sync_lock false) ;;
    upd_g (set_ctx_initialized false).
End Lifecycle.

(** ** Properties *)

Section LifecycleCorrect.
Context `{SpdkLaws}.
Implicit Types (w : world) (bt : boot).

Abbreviation devs w := (ctx_devices (w_g w)).

Definition ring_size_of (opts : xpdk_opts) : Z := opt_msg_ring_size (opts_defaults opts).

Definition pool_size_of (opts : xpdk_opts) : Z := opt_msg_pool_size (opts_defaults opts).

Definition poll_period_of (opts : xpdk_opts) : Z :=
  if opt_turbo_mode (opts_defaults opts) then XPDK_TURBO_POLL_PERIOD_US
  else opt_poll_period_us (opts_defaults opts).

(** Start-up up to the creation of the thread succeeds. *)
Record boots bt (opts : xpdk_opts) (r : ring_t) (pl : pool_t) : Prop := {
  boots_mutex : bt_mutex_rc bt = 0;
  boots_cond : bt_cond_rc bt = 0;
  boots_env : 0 <= bt_env_rc bt;
  boots_ring : spdk_ring_create (ring_size_of opts) = Some r;
  boots_pool : spdk_mempool_create (pool_size_of opts) = Some pl;
  boots_thread : bt_thread_rc bt = 0
}.

(** The thread gets as far as its event loop. *)
Definition thread_starts bt (opts : xpdk_opts) : Prop :=
  bt_spdk_thread bt <> NULL /\ bt_poller bt (poll_period_of opts) <> NULL.

(** Sizes and their defaults. *)
Definition sizes_ok (opts : xpdk_opts) : Prop :=
  0 <= opt_msg_ring_size opts /\ 0 <= opt_msg_pool_size opts.

Lemma opts_defaults_positive opts :
  sizes_ok opts -> 0 < ring_size_of opts /\ 0 < pool_size_of opts.
Proof.
  intros [? ?]. unfold ring_size_of, pool_size_of, opts_defaults.
  repeat case_decide; simpl in *; unfold XPDK_DEFAULT_RING_SIZE, XPDK_DEFAULT_POOL_SIZE; lia.
Qed.

Lemma wait_ready_delay bt delay fuel w :
  ctx_spdk_thread_running (w_g w) = false -> (delay < fuel)%nat ->
  wait_ready bt fuel (Some delay) w =
    (thread_prologue bt ;; wait_ready bt (fuel - S delay) None) w.
Proof.
  revert fuel. induction delay as [|delay IH]; intros fuel Hr Hf;
    (destruct fuel as [|fuel]; [lia|]); simpl; unfold is_running, bind at 1, gets; rewrite Hr.
  - by rewrite Nat.sub_0_r.
  - rewrite IH by (done || lia). done.
Qed.

Lemma wait_ready_running bt fuel todo w :
  ctx_spdk_thread_running (w_g w) = true -> wait_ready bt fuel todo w = Ok tt w.
Proof. intros Hr. destruct fuel; simpl; unfold is_running, bind, gets; by rewrite Hr. Qed.

Lemma wait_ready_forever bt fuel w :
  ctx_spdk_thread_running (w_g w) = false -> wait_ready bt fuel None w = Running w.
Proof.
  intros Hr. induction fuel as [|fuel IH]; simpl; unfold is_running, bind at 1, gets; by rewrite Hr.
Qed.

(** The context when the thread is created. *)
Definition booting (opts : xpdk_opts) : xpdk_context :=
  set_ctx_devices (init_slots (ctx_devices context_zero))
    (set_ctx_sync_cond true (set_ctx_sync_lock true (set_ctx_opts (opts_defaults opts) context_zero))).

(** [xpdk_init_opts] up to the wait for the thread. *)
Lemma init_opts_waits bt fuel opts r pl w :
  ctx_initialized (w_g w) = false -> sizes_ok opts -> boots bt opts r pl ->
  xpdk_init_opts bt fuel (Some opts) w =
    (wait_ready bt fuel (Some (bt_delay bt)) ;;
     upd_g (set_ctx_initialized true) ;; ret XPDK_SUCCESS)
      (set_w_pool (Some pl) (set_w_ring (Some r) (set_w_g (booting opts) w))).
Proof.
  intros Hi Hsz [Hmu Hco Hen Hri Hpo Hth].
  destruct (opts_defaults_positive opts Hsz) as [Hrs Hps].
  unfold xpdk_init_opts, is_initialized, bind at 1, gets. rewrite Hi.
  unfold bind at 1, modify, bind at 1, upd_g, modify.
  rewrite decide_False by lia. unfold bind at 1. rewrite decide_False by lia.
  unfold bind at 1, bind at 1, bind at 1, gets. simpl w_g.
  unfold xpdk_init_spdk_thread. rewrite decide_False by lia. simpl ctx_opts.
  fold (ring_size_of opts). fold (pool_size_of opts).
  rewrite (decide_True (P := ring_size_of opts > 0)) by lia.
  rewrite (decide_True (P := pool_size_of opts > 0)) by lia.
  rewrite Hri, Hpo. unfold modify. rewrite decide_False by lia.
  rewrite !bind_assoc. unfold bind at 1. rewrite bind_assoc. unfold bind at 1.
  rewrite bind_assoc. by unfold bind; destruct (wait_ready _ _ _ _).
Qed.

Lemma init_slots_wf :
  devices_wf (init_slots (ctx_devices context_zero)) /\
  (forall k d, init_slots (ctx_devices context_zero) !! k = Some d ->
     dev_in_use d = false /\ slot_ok d).
Proof.
  split; [split|].
  - unfold init_slots. by rewrite length_imap.
  - intros i d Hd. unfold init_slots in Hd. by apply list_lookup_imap_Some in Hd as (d' & _ & ->).
  - intros k d Hd. unfold init_slots in Hd. apply list_lookup_imap_Some in Hd as (d' & Hd' & ->).
    apply lookup_replicate in Hd' as [-> _]. split; [done|by right].
Qed.

(** What start-up leaves alone: the client's memory and objects, and the devices. *)
Definition beside_context (w w' : world) : Prop :=
  w_mem w' = w_mem w /\ w_bdev w' = w_bdev w /\ w_infos w' = w_infos w /\
  w_limits w' = w_limits w /\ w_stats w' = w_stats w /\ w_iovs w' = w_iovs w /\
  w_calls w' = w_calls w /\ w_msgs w' = w_msgs w.

Lemma init_opts_returns bt opts r pl w :
  ctx_initialized (w_g w) = false -> sizes_ok opts -> boots bt opts r pl ->
  thread_starts bt opts ->
  ring_queue r = [] -> (0 < ring_capacity r)%nat ->
  pool_free pl <> ∅ -> pool_free pl ## dom (w_msgs w) -> outstanding (w_bdev w) = [] -> w_sctx w = ∅ ->
  (forall a n, w_dma_live w !! a = Some n -> 0 < n /\ mapped (w_mem w) a (Z.to_nat n)) ->
  exists w',
    (forall fuel, (bt_delay bt < fuel)%nat ->
       xpdk_init_opts bt fuel (Some opts) w = Ok XPDK_SUCCESS w') /\
    sound w' /\ free_msgs w' = pool_free pl /\ ctx_opts (w_g w') = opts_defaults opts /\
    (forall k d, devs w' !! k = Some d -> dev_in_use d = false) /\ beside_context w w'.
Proof.
  intros Hi Hsz Hb [Hth Hpo] Hq Hc Hne Hpl Ho Hs Hd. destruct init_slots_wf as [Hwf Hfree].
  set (w0 := set_w_pool (Some pl) (set_w_ring (Some r) (set_w_g (booting opts) w))).
  set (g1 := set_ctx_spdk_thread_running true
    (set_ctx_msg_poller (bt_poller bt (poll_period_of opts))
      (set_ctx_spdk_thread (bt_spdk_thread bt) (booting opts)))).
  exists (set_w_g (set_ctx_initialized true g1) w0). split_and!;
    [|split; [split; by eauto|done|apply Hfree]|done|done|apply Hfree|done].
  intros fuel Hf. rewrite (init_opts_waits bt fuel opts r pl w Hi Hsz Hb). fold w0.
  assert (thread_prologue bt w0 = Ok tt (set_w_g g1 w0)) as Hp.
  { unfold thread_prologue, bind at 1, gets. rewrite decide_False by done.
    unfold bind, upd_g, modify. simpl ctx_opts. fold (poll_period_of opts).
    by rewrite decide_False. }
  assert (wait_ready bt fuel (Some (bt_delay bt)) w0 = Ok tt (set_w_g g1 w0)) as Hw.
  { rewrite wait_ready_delay by done. rewrite (bind_ok _ _ _ _ _ Hp).
    by apply wait_ready_running. }
  rewrite (bind_ok _ _ _ _ _ Hw). reflexivity.
Qed.

(** C25: [xpdk_init_opts] brings up the library: when every step of the start-up succeeds it
    returns [XPDK_SUCCESS], however long the SPDK thread takes to start, with the options
    completed by their defaults, all 256 slots free and numbered, an empty message ring, the
    whole message pool available and the thread running: an idle state that satisfies the
    invariant of sessions. *)
Theorem xpdk_init_establishes_idle bt opts r pl w :
  ctx_initialized (w_g w) = false -> sizes_ok opts -> boots bt opts r pl ->
  thread_starts bt opts ->
  ring_queue r = [] -> (0 < ring_capacity r)%nat ->
  pool_free pl <> ∅ -> pool_free pl ## dom (w_msgs w) -> outstanding (w_bdev w) = [] -> w_sctx w = ∅ ->
  (forall a n, w_dma_live w !! a = Some n -> 0 < n /\ mapped (w_mem w) a (Z.to_nat n)) ->
  exists w',
    (forall fuel, (bt_delay bt < fuel)%nat ->
       xpdk_init_opts bt fuel (Some opts) w = Ok XPDK_SUCCESS w') /\
    sound w' /\ free_msgs w' = pool_free pl /\ ctx_opts (w_g w') = opts_defaults opts /\
    (forall k d, devs w' !! k = Some d -> dev_in_use d = false).
Proof.
  intros. destruct (init_opts_returns bt opts r pl w) as (w' & ? & ? & ? & ? & ? & _); [done..|].
  by exists w'.
Qed.

(** C40: If the new thread cannot create its SPDK thread or register its poller, it exits
    without telling: [xpdk_init_opts] then waits for ever, whatever the fuel. *)
Theorem xpdk_init_hangs bt opts r pl w fuel :
  ctx_initialized (w_g w) = false -> sizes_ok opts -> boots bt opts r pl ->
  ~ thread_starts bt opts -> exists w', xpdk_init_opts bt fuel (Some opts) w = Running w'.
Proof.
  intros Hi Hsz Hb Hno. rewrite (init_opts_waits bt fuel opts r pl w Hi Hsz Hb).
  set (w0 := set_w_pool _ _).
  assert (exists w1, thread_prologue bt w0 = Ok tt w1 /\
    ctx_spdk_thread_running (w_g w1) = false) as (w1 & Hp & Hr1).
  { unfold thread_prologue, bind at 1, gets. case_decide as Hn; [by eexists|].
    unfold bind, upd_g, modify. simpl ctx_opts. fold (poll_period_of opts).
    case_decide as Hn'; [by eexists|]. by destruct Hno. }
  assert (exists w2, wait_ready bt fuel (Some (bt_delay bt)) w0 = Running w2) as [w2 Hw];
    [|exists w2; unfold bind; by rewrite Hw].
  destruct (decide (bt_delay bt < fuel)%nat) as [Hlt|Hge].
  - exists w1. rewrite wait_ready_delay by done. rewrite (bind_ok _ _ _ _ _ Hp).
    by apply wait_ready_forever.
  - exists w0. assert (fuel <= bt_delay bt)%nat as Hle by lia. clear Hge. revert fuel Hle.
    generalize (bt_delay bt) as delay. induction delay as [|delay IH]; intros fuel Hle;
      (destruct fuel as [|fuel]; [done|]); [lia|]. apply (IH fuel). lia.
Qed.

(** What [xpdk_init_opts] answers when it does not start the library: it is already
    initialised ([XPDK_SUCCESS], nothing changes), the options are [NULL]
    ([XPDK_ERROR_INVALID], nothing changes), or a step fails - mutex or condition, SPDK
    environment, ring, pool, thread; then the library stays uninitialised and holds neither
    ring, nor pool, nor mutex, nor condition. *)
Theorem xpdk_init_failures bt opts w fuel :
  (ctx_initialized (w_g w) = true ->
   forall o, xpdk_init_opts bt fuel o w = Ok XPDK_SUCCESS w) /\
  (ctx_initialized (w_g w) = false ->
   xpdk_init_opts bt fuel None w = Ok XPDK_ERROR_INVALID w) /\
  (ctx_initialized (w_g w) = false -> sizes_ok opts ->
   forall rc,
   (rc = XPDK_ERROR_NOMEM /\ (bt_mutex_rc bt <> 0 \/ bt_cond_rc bt <> 0)) \/
   (bt_mutex_rc bt = 0 /\ bt_cond_rc bt = 0 /\
    (rc = XPDK_ERROR_IO /\ bt_env_rc bt < 0 \/
     0 <= bt_env_rc bt /\
     (rc = XPDK_ERROR_NOMEM /\ spdk_ring_create (ring_size_of opts) = None \/
      is_Some (spdk_ring_create (ring_size_of opts)) /\
      (rc = XPDK_ERROR_NOMEM /\ spdk_mempool_create (pool_size_of opts) = None \/
       is_Some (spdk_mempool_create (pool_size_of opts)) /\ rc = XPDK_ERROR_IO /\ bt_thread_rc bt <> 0)))) ->
   exists w', xpdk_init_opts bt fuel (Some opts) w = Ok rc w' /\
     ctx_initialized (w_g w') = false /\ w_ring w' = None /\ w_pool w' = None /\
     ctx_sync_lock (w_g w') = false /\ ctx_sync_cond (w_g w') = false).
Proof.
  unfold xpdk_init_opts, is_initialized. split_and!.
  - intros Hi o. unfold bind, gets. by rewrite Hi.
  - intros Hi. unfold bind, gets. by rewrite Hi.
  - intros Hi Hsz rc Hcase. destruct (opts_defaults_positive opts Hsz) as [Hrs Hps].
    unfold bind at 1, gets. rewrite Hi. unfold bind at 1, modify, bind at 1, upd_g, modify.
    destruct (decide (bt_mutex_rc bt <> 0)) as [Hmu|Hmu].
    { destruct Hcase as [[-> _]|[? _]]; [by eexists|lia]. }
    unfold bind at 1. destruct (decide (bt_cond_rc bt <> 0)) as [Hco|Hco].
    { destruct Hcase as [[-> _]|(_ & ? & _)]; [by eexists|lia]. }
    destruct Hcase as [[_ [?|?]]|(_ & _ & Hcase)]; [lia|lia|].
    unfold bind at 1, bind at 1, bind at 1, gets, xpdk_init_spdk_thread.
    destruct (decide (bt_env_rc bt < 0)) as [He|He].
    { destruct Hcase as [[-> _]|[? _]]; [by eexists|lia]. }
    destruct Hcase as [[_ ?]|[_ Hcase]]; [lia|]. simpl ctx_opts.
    fold (ring_size_of opts). fold (pool_size_of opts).
    rewrite (decide_True (P := ring_size_of opts > 0)) by lia.
    rewrite (decide_True (P := pool_size_of opts > 0)) by lia.
    destruct Hcase as [[-> ->]|([r ->] & [[-> ->]|([pl ->] & -> & Ht)])]; [by eexists..|].
    rewrite decide_True by done. by eexists.
Qed.

(** ** Shutdown *)

(** No slot from [i] on is in use, and the slots below are those of [ds]. *)
Definition closed_from (i : Z) (ds ds' : list xpdk_device) : Prop :=
  forall k d, ds' !! k = Some d ->
    (i <= Z.of_nat k -> dev_in_use d = false) /\ (Z.of_nat k < i -> ds !! k = Some d).

Lemma close_slots_eq n i w :
  idle w -> free_msgs w <> ∅ -> 0 <= i -> i + Z.of_nat n = XPDK_MAX_OPEN_DEVICES ->
  exists k w',
    (forall fuel t, (k <= fuel)%nat -> (0 < t)%nat ->
       close_slots (spdk_turn fuel) t n i w = Ok tt w') /\
    closed_from i (devs w) (devs w') /\ at_rest w w'.
Proof.
  revert i w. induction n as [|n IH]; intros i w Hidle Hfree Hi Hn.
  - exists 0%nat, w. split_and!; try done. intros k d Hd. split; [|done].
    apply lookup_lt_Some in Hd. destruct (idle_devices w Hidle) as [Hl _]. lia.
  - destruct (devices_wf_lookup (devs w) i) as [d Hd]; [apply (idle_devices w Hidle)|lia|].
    assert (exists k0 w1, (forall fuel t, (k0 <= fuel)%nat -> (0 < t)%nat ->
        when (dev_in_use d) (let* _ := xpdk_close (spdk_turn fuel) t i in ret tt) w = Ok tt w1) /\
      (exists d1, dev_in_use d1 = false /\ devs w1 = <[Z.to_nat i := d1]> (devs w)) /\
      at_rest w w1) as (k0 & w1 & Hclose & (d1 & Hu1 & Hds1) & Hrest1).
    { destruct (dev_in_use d) eqn:Hu.
      - destruct (close_returns w i d) as (k0 & w1 & Hr & Hds & Hrest);
          [done|done|split; [lia|done]|done|].
        exists k0, w1. split_and!; [|by exists (closed d)|done]. intros fuel t Hf Ht.
        simpl. by rewrite (bind_ok _ _ _ _ _ (Hr fuel t Hf Ht)).
      - exists 0%nat, w. split_and!; [done| |by split]. exists d. by rewrite list_insert_id. }
    destruct (IH (i + 1) w1) as (k1 & w2 & Hr & Hcl & Hrest2);
      [apply Hrest1|by rewrite (at_rest_free _ _ Hrest1)|lia|lia|].
    exists (k0 + k1)%nat, w2. split_and!.
    + intros fuel t Hf Ht. simpl. rewrite (bind_ok _ _ _ _ _ (get_dev_eq w i d Hi Hd)).
      rewrite (bind_ok _ _ _ _ _ (Hclose fuel t ltac:(lia) Ht)). apply Hr; [lia|done].
    + intros k d' Hd'. destruct (Hcl k d' Hd') as [Hge Hlt]. split.
      * intros Hk. destruct (decide (Z.of_nat k = i)) as [Heq|]; [|apply Hge; lia].
        assert (devs w1 !! k = Some d') as Hk1 by (apply Hlt; lia). rewrite Hds1 in Hk1.
        subst i. rewrite Nat2Z.id in Hk1. rewrite list_lookup_insert_eq in Hk1; [congruence|].
        rewrite Nat2Z.id in Hd. by apply lookup_lt_Some in Hd.
      * intros Hk. assert (devs w1 !! k = Some d') as Hk1 by (apply Hlt; lia).
        rewrite Hds1, list_lookup_insert_ne in Hk1 by lia. done.
    + destruct Hrest1, Hrest2. split; congruence.
Qed.

(** The turn that takes the shutdown message off the ring. *)
Definition stopped (p : Z) (m : xpdk_msg) (w : world) : world :=
  w_put_msg p (set_msg_completed true m)
    (set_w_g (set_ctx_spdk_thread_running false (w_g w)) w).

Lemma shutdown_turn w r p m b :
  w_ring w = Some r -> ring_queue r = [p] -> bdev_poll (w_bdev w) (w_mem w) = (b, None) ->
  ctx_spdk_thread_running (w_g w) = true ->
  w_msgs w !! p = Some m -> msg_type m = XPDK_MSG_SHUTDOWN ->
  exists r1, forall fuel, spdk_turn fuel w = Ok tt (stopped p m (received b r1 w)).
Proof.
  intros Hr Hq Hb Hrun Hm Ht. apply poll_bdev_eq in Hb.
  destruct (ring_dequeue_cons (set_w_bdev b w) r p [] Hr Hq) as (r1 & Hdq & _ & _).
  exists r1. intros fuel.
  assert (process_msg fuel p (received b r1 w) = Ok true (stopped p m (received b r1 w))) as Hp.
  { rewrite (process_msg_eq fuel p m), Ht by done. unfold dispatch, bind, upd_g, modify.
    by erewrite upd_msg_eq. }
  assert (xpdk_msg_process_poller fuel (set_w_bdev b w) =
    Ok SPDK_POLLER_BUSY (stopped p m (received b r1 w))) as Hpo.
  { unfold xpdk_msg_process_poller, bind at 1, gets, max_batch.
    destruct (opt_turbo_mode _); cbn -[ring_dequeue process_msg];
      rewrite (bind_ok _ _ _ _ _ Hdq); unfold bind at 1, upd_g, modify;
      fold (bump (set_w_ring (Some r1) (set_w_bdev b w)));
      fold (received b r1 w); by rewrite (bind_ok _ _ _ _ _ Hp). }
  unfold spdk_turn, bind at 1, gets. rewrite Hrun. simpl. unfold spdk_thread_poll.
  by rewrite (bind_ok _ _ _ _ _ (eq_trans (bind_ok _ _ _ _ _ Hb) (bind_ok _ _ _ _ _ Hpo))).
Qed.

(** Stopping a thread whose next poll finds nothing completed. *)
Lemma cleanup_thread_from w r pl0 b :
  ctx_spdk_thread_running (w_g w) = true -> w_ring w = Some r -> ring_queue r = [] ->
  (0 < ring_capacity r)%nat -> w_pool w = Some pl0 -> pool_free pl0 ## dom (w_msgs w) ->
  bdev_poll (w_bdev w) (w_mem w) = (b, None) -> free_msgs w <> ∅ ->
  exists w', (forall fuel t, (0 < t)%nat ->
      xpdk_cleanup_spdk_thread (spdk_turn fuel) t w = Ok tt w') /\
    ctx_spdk_thread_running (w_g w') = false /\ ctx_msg_poller (w_g w') = NULL /\
    w_ring w' = None /\ w_pool w' = None /\ devs w' = devs w /\ w_msgs w' = w_msgs w /\
    w_mem w' = w_mem w /\ w_bdev w' = b /\ w_sctx w' = w_sctx w /\ w_dma_live w' = w_dma_live w /\
    w_calls w' = w_calls w.
Proof.
  intros Hrun Hr Hq Hcap Hpl Hdis Hb Hfree.
  unfold free_msgs in Hfree. rewrite Hpl in Hfree.
  destruct (msg_alloc_eq w pl0 XPDK_MSG_SHUTDOWN Hpl Hfree) as (pl & p & Halloc & Hp & Hin & _).
  set (m := new_msg XPDK_MSG_SHUTDOWN) in *. set (w0 := w_put_msg p m (set_w_pool (Some pl) w)) in *.
  assert (w_msgs w !! p = None) as Hfresh by (apply not_elem_of_dom; set_solver).
  assert (w_msgs w0 !! p = Some m) as Hm by (simpl; apply lookup_insert_eq).
  destruct (ring_enqueue_eq w0 r p Hr) as (r0 & He & Hq0 & Hc0); [by rewrite Hq|].
  rewrite Hq in Hq0. simpl in Hq0.
  destruct (shutdown_turn (set_w_ring (Some r0) w0) r0 p m b) as (r1 & Ht); [done..|].
  set (w1 := stopped p m (received b r1 (set_w_ring (Some r0) w0))) in *.
  assert (w_msgs w1 !! p = Some (set_msg_completed true m)) as Hm1
    by (simpl; apply lookup_insert_eq).
  assert (forall fuel t, (0 < t)%nat ->
    xpdk_msg_send_sync (spdk_turn fuel) t p w0 = Ok XPDK_SUCCESS w1) as Hsend.
  { intros fuel t Hpos. destruct t as [|t]; [lia|]. unfold xpdk_msg_send_sync.
    rewrite decide_False by done. rewrite (bind_ok _ _ _ _ _ He), decide_False by lia.
    fold (pending_test p). erewrite bind_ok.
    - by rewrite (bind_ok _ _ _ _ _ (get_msg_eq w1 p _ Hm1)).
    - etrans; [apply (while_step _ _ t _ w1); [|apply Ht]|].
      + by rewrite (pending_test_eq _ p m).
      + apply while_stop. by rewrite (pending_test_eq _ p _ Hm1). }
  exists (set_w_ring None (set_w_pool None (set_w_g (set_ctx_msg_poller NULL (w_g w1))
    (set_w_msgs (delete p (w_msgs w1)) w1)))).
  split_and!; try done; [|simpl; by apply drop_msg].
  intros fuel t Hpos. unfold xpdk_cleanup_spdk_thread, is_running at 1, bind at 1, gets.
  rewrite Hrun. cbn [negb]. rewrite (bind_ok _ _ _ _ _ Halloc), bool_decide_eq_true_2 by done.
  cbn [when]. rewrite bind_assoc, (bind_ok _ _ _ _ _ (Hsend fuel t Hpos)).
  rewrite (bind_ok _ _ _ _ _ (msg_free_eq w1 pl p Hp eq_refl)).
  unfold thread_join. rewrite bind_assoc. erewrite bind_ok by (by apply while_stop). done.
Qed.

Lemma cleanup_thread_eq w :
  idle w -> free_msgs w <> ∅ ->
  exists w', (forall fuel t, (0 < t)%nat ->
      xpdk_cleanup_spdk_thread (spdk_turn fuel) t w = Ok tt w') /\
    ctx_spdk_thread_running (w_g w') = false /\ ctx_msg_poller (w_g w') = NULL /\
    w_ring w' = None /\ w_pool w' = None /\ devs w' = devs w /\ w_msgs w' = w_msgs w /\
    w_mem w' = w_mem w /\ medium (w_bdev w') = medium (w_bdev w) /\
    outstanding (w_bdev w') = [] /\ w_sctx w' = w_sctx w /\ w_dma_live w' = w_dma_live w /\
    w_calls w' = w_calls w.
Proof.
  intros [Hi Hrun _ (r & Hr & Hq & Hcap) (pl0 & Hpl & Hdis) Ho _ _] Hfree.
  destruct (bdev_poll_nothing (w_bdev w) (w_mem w) Ho) as (b & Hb & Ho' & Hsd).
  destruct (cleanup_thread_from w r pl0 b Hrun Hr Hq Hcap Hpl Hdis Hb Hfree)
    as (w' & Hc & ? & ? & ? & ? & ? & ? & ? & Hbd & ? & ? & ?).
  exists w'. rewrite Hbd. split_and!; try done. apply Hsd.
Qed.

Lemma cleanup_returns w :
  idle w -> free_msgs w <> ∅ ->
  exists k w',
    (forall fuel t, (k <= fuel)%nat -> (0 < t)%nat ->
       xpdk_cleanup (spdk_turn fuel) t w = Ok tt w') /\
    ctx_initialized (w_g w') = false /\ ctx_spdk_thread_running (w_g w') = false /\
    ctx_msg_poller (w_g w') = NULL /\ w_ring w' = None /\ w_pool w' = None /\
    (forall i d, devs w' !! i = Some d -> dev_in_use d = false) /\
    ctx_sync_lock (w_g w') = false /\ ctx_sync_cond (w_g w') = false /\
    w_msgs w' = w_msgs w /\ w_mem w' = w_mem w /\ medium (w_bdev w') = medium (w_bdev w) /\
    outstanding (w_bdev w') = [] /\ w_sctx w' = w_sctx w /\ w_dma_live w' = w_dma_live w /\
    w_calls w' = w_calls w.
Proof.
  intros Hidle Hfree.
  destruct (close_slots_eq (Z.to_nat XPDK_MAX_OPEN_DEVICES) 0 w) as (k & w1 & Hcl & Hall & Hrest);
    [done|done|done|done|].
  destruct (cleanup_thread_eq w1) as (w2 & Hth & Hrun & Hpo & Hri & Hpl & Hds & Hms & Hme & Hmd & Hout & Hsc & Hdl & Hcs);
    [apply Hrest|by rewrite (at_rest_free _ _ Hrest)|].
  exists k, (set_w_g (set_ctx_initialized false (set_ctx_sync_lock false
    (set_ctx_sync_cond false (w_g w2)))) w2).
  split_and!; try done; simpl.
  - intros fuel t Hf Ht. unfold xpdk_cleanup, is_initialized, bind at 1, gets.
    rewrite (idle_initialized w Hidle). cbn [negb].
    rewrite (bind_ok _ _ _ _ _ (Hcl fuel t Hf Ht)). by rewrite (bind_ok _ _ _ _ _ (Hth fuel t Ht)).
  - intros i d Hd. simpl in Hd. rewrite Hds in Hd. apply (Hall i d Hd). lia.
  - rewrite Hms. apply Hrest.
  - rewrite Hme. apply Hrest.
  - rewrite Hmd. apply Hrest.
  - rewrite Hsc, (idle_frames w1 (at_rest_idle _ _ Hrest)). symmetry. apply Hidle.
  - rewrite Hdl. apply Hrest.
  - rewrite Hcs. apply Hrest.
Qed.

(** C28: [xpdk_cleanup] of an idle library returns: every slot is free, the SPDK thread has
    stopped and left no poller, ring and pool are gone, and the library is uninitialised. *)
Theorem xpdk_cleanup_correct w :
  idle w -> free_msgs w <> ∅ ->
  exists k w',
    (forall fuel t, (k <= fuel)%nat -> (0 < t)%nat ->
       xpdk_cleanup (spdk_turn fuel) t w = Ok tt w') /\
    ctx_initialized (w_g w') = false /\ ctx_spdk_thread_running (w_g w') = false /\
    ctx_msg_poller (w_g w') = NULL /\ w_ring w' = None /\ w_pool w' = None /\
    (forall i d, devs w' !! i = Some d -> dev_in_use d = false) /\
    ctx_sync_lock (w_g w') = false /\ ctx_sync_cond (w_g w') = false /\
    w_msgs w' = w_msgs w /\ w_mem w' = w_mem w /\ medium (w_bdev w') = medium (w_bdev w).
Proof.
  intros Hidle Hfree. destruct (cleanup_returns w Hidle Hfree) as (k & w' & Hr). exists k, w'. tauto.
Qed.
End LifecycleCorrect.

(** ** Start-up on the simulated environment *)

Definition sim_boot (thread : Z) : boot :=
  Build_boot 0 0 0 0 (fun _ => 0) thread (fun _ => 1) 3.

Definition sim_opts : xpdk_opts :=
  set_opt_msg_ring_size 4 (set_opt_msg_pool_size 4 (xpdk_opts_init opts_zero)).

Definition sim_down_world : world :=
  set_w_ring None (set_w_pool None (set_w_g context_zero sim_world)).

Lemma sim_boots thread :
  @boots sim_spdk (sim_boot thread) sim_opts (Build_sim_ring [] 4) [4096; 4224; 4352; 4480].
Proof. by split. Qed.

Lemma sim_sizes : sizes_ok sim_opts.
Proof. by split. Qed.

Lemma xpdk_init_establishes_idle_witness :
  exists w', (forall fuel, (3 < fuel)%nat ->
    xpdk_init_opts (sim_boot 1) fuel (Some sim_opts) sim_down_world = Ok XPDK_SUCCESS w') /\
    @sound sim_spdk sim_spdk_laws w'.
Proof.
  destruct (@xpdk_init_establishes_idle sim_spdk sim_spdk_laws (sim_boot 1) sim_opts
    (Build_sim_ring [] 4) [4096; 4224; 4352; 4480] sim_down_world eq_refl sim_sizes
    (sim_boots 1)) as (w' & Hr & Hidle & _); [by split|done|simpl; lia|by vm_compute|set_solver|done|done|done|].
  by exists w'.
Defined.

Lemma xpdk_init_hangs_witness :
  exists w', xpdk_init_opts (sim_boot NULL) 100 (Some sim_opts) sim_down_world = Running w'.
Proof.
  apply (@xpdk_init_hangs sim_spdk (sim_boot NULL) sim_opts
    (Build_sim_ring [] 4) [4096; 4224; 4352; 4480] sim_down_world 100 eq_refl sim_sizes
    (sim_boots NULL)). by intros [Hn _].
Defined.

Lemma xpdk_init_failures_witness :
  xpdk_init_opts (sim_boot 1) 5 None sim_down_world = Ok XPDK_ERROR_INVALID sim_down_world.
Proof.
  destruct (@xpdk_init_failures sim_spdk (sim_boot 1) sim_opts sim_down_world 5)
    as (_ & Hnull & _).
  by apply Hnull.
Defined.

Lemma xpdk_cleanup_correct_witness :
  exists k w', (forall fuel t, (k <= fuel)%nat -> (0 < t)%nat ->
    @xpdk_cleanup sim_spdk (spdk_turn fuel) t sim_open_world = Ok tt w') /\
    ctx_initialized (w_g w') = false.
Proof.
  destruct (@xpdk_cleanup_correct sim_spdk sim_spdk_laws sim_open_world sim_idle_open sim_free)
    as (k & w' & Hr & Hi & _).
  by exists k, w'.
Defined.
