(* ===== verification/Pending.v ===== *)
(** A trim or write-zeros that is still under way while the library is used on: every turn of
    the SPDK thread may be the one that completes it, through a null pointer. *)

From stdpp Require Import base gmap list strings.
From Stdlib Require Import Strings.Byte.
From S2P Require Import Prelude Types Memory Spdk World Sim Core Blocks Perf Bdev Qos Io.
From S2P Require Import Async Vectored Batch Poller Idle IoCorrect SyncIo Devices Services Lifecycle.

Open Scope Z_scope.

Section Pending.
Context `{SpdkLaws}.
Implicit Types (w : world) (r : io_req) (d : xpdk_device).

Abbreviation devs w := (ctx_devices (w_g w)).

(** Nothing to do but [r], which has no callback. *)
Record pending (r : io_req) (w : world) : Prop := {
  pd_initialized : ctx_initialized (w_g w) = true;
  pd_running : ctx_spdk_thread_running (w_g w) = true;
  pd_devices : devices_wf (devs w);
  pd_ring : exists q, w_ring w = Some q /\ ring_queue q = [] /\ (0 < ring_capacity q)%nat;
  pd_pool : exists pl, w_pool w = Some pl /\ pool_free pl ## dom (w_msgs w);
  pd_outstanding : outstanding (w_bdev w) = [WIo r];
  pd_no_callback : rq_cb r = NoIoCb /\ (rq_kind r = IoUnmap \/ rq_kind r = IoWriteZeroes)
}.

(** The next poll completes [r], or it finds nothing. *)
Lemma pending_poll r w :
  pending r w ->
  (exists b c, bdev_poll (w_bdev w) (w_mem w) = (b, Some c)) \/
  (exists b, bdev_poll (w_bdev w) (w_mem w) = (b, None) /\ outstanding b = [WIo r] /\
     same_data (w_bdev w) b).
Proof.
  intros Hp. destruct (bdev_poll (w_bdev w) (w_mem w)) as [b [c|]] eqn:Hb; [left; eauto|right].
  exists b. apply poll_none in Hb as (Ho & Hsd & _). rewrite (pd_outstanding _ _ Hp) in Ho. done.
Qed.

(** The turn that completes it calls through the null pointer. *)
Lemma pending_turn_faults r w b c fuel :
  outstanding (w_bdev w) = [WIo r] ->
  rq_cb r = NoIoCb /\ (rq_kind r = IoUnmap \/ rq_kind r = IoWriteZeroes) ->
  ctx_spdk_thread_running (w_g w) = true -> bdev_poll (w_bdev w) (w_mem w) = (b, Some c) ->
  spdk_turn fuel w = Fault NullDeref.
Proof.
  intros Ho [Hcb Hk] Hrun Hb. destruct (poll_completes _ _ _ _ _ Ho Hb) as [_ Hc].
  destruct c as [r' s data| |]; try done. subst r'.
  assert (poll_bdev w = Fault NullDeref) as Hf.
  { rewrite (poll_bdev_eq w b _ Hb). unfold bind, deliver. rewrite Hcb. by destruct Hk as [->| ->]. }
  unfold spdk_turn, bind at 1, gets. rewrite Hrun. cbn [when].
  unfold spdk_thread_poll, bind at 1. unfold bind at 1. by rewrite Hf.
Qed.

(** A message sent then never comes back. *)
Lemma pending_send_faults r w p m b c :
  pending r w -> p <> NULL -> w_msgs w !! p = Some m -> msg_completed m = false ->
  bdev_poll (w_bdev w) (w_mem w) = (b, Some c) ->
  forall fuel n, (0 < n)%nat -> xpdk_msg_send_sync (spdk_turn fuel) n p w = Fault NullDeref.
Proof.
  intros Hpd Hp Hm Hmc Hb fuel n Hn. destruct n as [|n]; [lia|].
  destruct (pd_ring _ _ Hpd) as (q & Hq & Hqq & Hcap).
  destruct (ring_enqueue_eq w q p Hq) as (q0 & He & _ & _); [by rewrite Hqq|].
  unfold xpdk_msg_send_sync. rewrite decide_False by done.
  rewrite (bind_ok _ _ _ _ _ He). rewrite decide_False by lia. fold (pending_test p).
  unfold bind at 1. cbn [while].
  rewrite (bind_ok _ _ _ _ _ (pending_test_eq (set_w_ring (Some q0) w) p m Hm)), Hmc. cbn [negb].
  unfold bind at 1.
  by rewrite (pending_turn_faults r (set_w_ring (Some q0) w) b c fuel (pd_outstanding _ _ Hpd)
    (pd_no_callback _ _ Hpd) (pd_running _ _ Hpd) Hb).
Qed.

Lemma pending_request_faults r w type params K b c :
  pending r w -> free_msgs w <> ∅ -> bdev_poll (w_bdev w) (w_mem w) = (b, Some c) ->
  forall fuel n, (0 < n)%nat -> request (spdk_turn fuel) n type params K w = Fault NullDeref.
Proof.
  intros Hpd Hfree Hb fuel n Hn. destruct (pd_pool _ _ Hpd) as (pl0 & Hpl & Hdis).
  unfold free_msgs in Hfree. rewrite Hpl in Hfree.
  destruct (msg_alloc_eq w pl0 type Hpl Hfree) as (pl & p & Halloc & Hp & Hin & Hpl2).
  set (m := new_msg type) in *. unfold request.
  rewrite (bind_ok _ _ _ _ _ Halloc), decide_False by done.
  erewrite bind_ok by (apply (upd_msg_eq _ p m); simpl; apply lookup_insert_eq).
  set (w1 := w_put_msg p _ (w_put_msg p m (set_w_pool (Some pl) w))). unfold bind at 1.
  rewrite (pending_send_faults r w1 p (set_msg_u params m) b c); try done.
  - destruct Hpd. split; try done. exists pl. split; [done|]. simpl. rewrite Hpl2, !dom_insert.
    set_solver.
  - simpl. apply lookup_insert_eq.
Qed.

(** ** Starting one *)

(** [xpdk_trim] or [xpdk_write_zeros] of an idle library leaves it pending, or idle when the
    request is refused. *)
Lemma range_returns w type kind fd d offset length :
  range_op type kind -> idle w -> free_msgs w <> ∅ -> open_at w fd d ->
  exists k rc w',
    (forall fuel n, (k <= fuel)%nat -> (0 < n)%nat ->
       send_request (spdk_turn fuel) n type (PTrim fd offset length) w = Ok rc w') /\
    w_msgs w' = w_msgs w /\ free_msgs w' = free_msgs w /\ w_mem w' = w_mem w /\
    devs w' = devs w /\ medium (w_bdev w') = medium (w_bdev w) /\
    (rc = XPDK_SUCCESS /\ pending (range_req kind d offset length) w' \/
     rc = XPDK_ERROR_IO /\ idle w').
Proof.
  intros Hop Hidle Hfree Hopen.
  destruct (send_request_serves w type (PTrim fd offset length)
    (fun rc w' => w_msgs w' = w_msgs w /\ free_msgs w' = free_msgs w /\ w_mem w' = w_mem w /\
       devs w' = devs w /\ medium (w_bdev w') = medium (w_bdev w) /\
       (rc = XPDK_SUCCESS /\ pending (range_req kind d offset length) w' \/
        rc = XPDK_ERROR_IO /\ idle w'))) as (k & rc & w' & Hr & HQ); [done|done| |by exists k, rc, w'].
  intros p pl b r1 r2 Hex. set (m := sent_msg _ _). set (wh := at_handler p m pl b r1 w).
  destruct (handle_range_eq wh p m fd d kind offset length) as (b' & rc & Hh & (Hmd & _) & Ho);
    [simpl; apply lookup_insert_eq|done|done|].
  set (st := if decide (rc = 0) then XPDK_SUCCESS else XPDK_ERROR_IO) in *.
  exists 0%nat, (w_put_msg p (done_msg st m) (set_w_bdev b' wh)), (done_msg st m).
  assert (w_msgs w !! p = None) as Hfresh by apply Hex.
  assert (delete p (<[p := done_msg st m]> (<[p := m]> (w_msgs w))) = w_msgs w) as Hms
    by (by apply drop_msg).
  destruct Hidle as [Hi Hrun Hwf _ (pl0 & Hpl & Hdis) _ Hfr Hdma].
  destruct Hex as [? _ Hob (Hmd0 & _) Hr2 Hpool]. simpl in Ho, Hmd. rewrite Hob in Ho.
  split_and!; try done.
  - intros fuel _. destruct Hop as [[-> ->]|[-> ->]]; unfold dispatch;
      [unfold xpdk_spdk_handle_trim|unfold xpdk_spdk_handle_write_zeros];
      by rewrite (bind_ok _ _ _ _ _ Hh).
  - simpl. apply lookup_insert_eq.
  - simpl. congruence.
  - assert (exists pl1, Some (spdk_mempool_put pl p) = Some pl1 /\ pool_free pl1 ## dom (w_msgs w)) as Hp1.
    { eexists. split; [done|]. rewrite Hpool. unfold free_msgs. by rewrite Hpl. }
    unfold st in *. destruct (decide (rc = 0)); [left|right]; split; try done; split; simpl;
      rewrite ?Hms; try done; try (by exists r2).
    by destruct Hop as [[_ ->]|[_ ->]]; split; auto.
Qed.

(** ** Closing the device and shutting down *)

(** Memory, messages and media as before, and [r] still under way. *)
Definition pending_from (r : io_req) (w w' : world) : Prop :=
  pending r w' /\ w_msgs w' = w_msgs w /\ free_msgs w' = free_msgs w /\ w_mem w' = w_mem w /\
  medium (w_bdev w') = medium (w_bdev w).

Lemma pending_close r w fd d :
  pending r w -> free_msgs w <> ∅ -> in_slot w fd d -> dev_in_use d = true ->
  (forall fuel n, (0 < n)%nat -> xpdk_close (spdk_turn fuel) n fd w = Fault NullDeref) \/
  (exists w', (forall fuel n, (0 < n)%nat -> xpdk_close (spdk_turn fuel) n fd w = Ok XPDK_SUCCESS w') /\
     devs w' = <[Z.to_nat fd := closed d]> (devs w) /\ pending_from r w w').
Proof.
  intros Hpd Hfree [Hfd Hd] Huse.
  assert (forall turn n, xpdk_close turn n fd w =
    request turn n XPDK_MSG_CLOSE (PClose fd) (fun p rc => xpdk_msg_free p ;; ret rc) w) as Heq.
  { intros turn n. unfold xpdk_close, is_initialized, bind at 1, gets.
    by rewrite (pd_initialized _ _ Hpd). }
  destruct (pending_poll r w Hpd) as [(b & c & Hb)|(b & Hb & Hob & Hsd)]; [left|right].
  { intros fuel n Hn. rewrite Heq. by apply (pending_request_faults r w _ _ _ b c). }
  pose proof Hpd as [Hi Hrun Hwf (q & Hq & Hqq & Hcap) (pl0 & Hpl & Hdis) Ho Hnc].
  destruct (request_from w XPDK_MSG_CLOSE (PClose fd) q pl0 b)
    as (p & pl & r1 & r2 & Hp & Hfresh & Hq2 & Hc2 & Hpf & Hreq); [done..|].
  set (m := sent_msg XPDK_MSG_CLOSE (PClose fd)) in *.
  destruct (handle_close_eq (at_handler p m pl b r1 w) p m fd d) as (b' & Ho' & Hsd' & Hh);
    [simpl; apply lookup_insert_eq|done..|].
  set (w1 := dev_world p _ fd (closed d) b' _ (at_handler p m pl b r1 w)) in Hh.
  exists (returned p pl r2 w1). split_and!; [|done|].
  - intros fuel n Hn. destruct n as [|n]; [lia|]. rewrite Heq.
    rewrite (Hreq fuel n w1 (set_w_ring (Some r2) w1) (done_msg XPDK_SUCCESS m)).
    + by rewrite (bind_ok _ _ _ _ _ (return_eq w1 p pl r2 Hp eq_refl)).
    + rewrite (process_msg_eq fuel p m) by (simpl; apply lookup_insert_eq).
      unfold dispatch. cbn [msg_type m sent_msg set_msg_u new_msg].
      by rewrite (bind_ok _ _ _ _ _ Hh).
    + done.
    + apply while_stop. erewrite pending_test_eq by (simpl; apply lookup_insert_eq). done.
    + simpl. apply lookup_insert_eq.
  - assert (delete p (<[p := done_msg XPDK_SUCCESS m]> (<[p := m]> (w_msgs w))) = w_msgs w) as Hms
      by (by apply drop_msg).
    assert (devices_wf (<[Z.to_nat fd := closed d]> (devs w))) as Hwf'.
    { apply devices_wf_insert; [done|lia|]. destruct Hwf as [_ Hwf]. simpl. rewrite (Hwf _ _ Hd). lia. }
    split_and!; simpl; [split; simpl; rewrite ?Hms; try done| done|done|done|].
    + by exists r2.
    + eexists. split; [done|]. rewrite Hpf. unfold free_msgs. by rewrite Hpl.
    + simpl in Ho'. congruence.
    + destruct Hsd as (Hmd & _), Hsd' as (Hmd' & _). simpl in Hmd'. congruence.
Qed.

Lemma close_no_slots w turn t : forall n i,
  (forall k d, devs w !! k = Some d -> dev_in_use d = false) -> 0 <= i ->
  i + Z.of_nat n = Z.of_nat (length (devs w)) -> close_slots turn t n i w = Ok tt w.
Proof.
  induction n as [|n IH]; intros i Hu Hi Hn; [done|]. cbn [close_slots].
  destruct (lookup_lt_is_Some_2 (devs w) (Z.to_nat i)) as [d Hd]; [lia|].
  rewrite (bind_ok _ _ _ _ _ (get_dev_eq w i d Hi Hd)), (Hu _ _ Hd). cbn [when].
  rewrite bind_ret_l. apply IH; [done|lia|lia].
Qed.

(** Stopping the thread, with no device left open. *)
Lemma pending_cleanup r w :
  pending r w -> free_msgs w <> ∅ -> (forall k d, devs w !! k = Some d -> dev_in_use d = false) ->
  (forall fuel n, (0 < n)%nat -> xpdk_cleanup (spdk_turn fuel) n w = Fault NullDeref) \/
  (exists w', (forall fuel n, (0 < n)%nat -> xpdk_cleanup (spdk_turn fuel) n w = Ok tt w') /\
     ctx_initialized (w_g w') = false /\ ctx_spdk_thread_running (w_g w') = false /\
     ctx_msg_poller (w_g w') = NULL /\ w_ring w' = None /\ w_pool w' = None /\
     devs w' = devs w /\ ctx_sync_lock (w_g w') = false /\ ctx_sync_cond (w_g w') = false /\
     w_mem w' = w_mem w /\ medium (w_bdev w') = medium (w_bdev w) /\
     outstanding (w_bdev w') = [WIo r]).
Proof.
  intros Hpd Hfree Hu. pose proof Hpd as [Hi Hrun [Hlen _] (q & Hq & Hqq & Hcap) (pl0 & Hpl & Hdis) Ho Hnc].
  assert (forall turn n, xpdk_cleanup turn n w =
    (xpdk_cleanup_spdk_thread turn n ;; upd_g (set_ctx_sync_cond false) ;;
     upd_g (set_ctx_sync_lock false) ;; upd_g (set_ctx_initialized false)) w) as Heq.
  { intros turn n. unfold xpdk_cleanup, is_initialized, bind at 1, gets. rewrite Hi. cbn [negb].
    assert (close_slots turn n (Z.to_nat XPDK_MAX_OPEN_DEVICES) 0 w = Ok tt w) as Hcs
      by (apply close_no_slots; [done|lia|rewrite Hlen; unfold XPDK_MAX_OPEN_DEVICES; lia]).
    by rewrite (bind_ok _ _ _ _ _ Hcs). }
  destruct (pending_poll r w Hpd) as [(b & c & Hb)|(b & Hb & Hob & Hsd)]; [left|right].
  - intros fuel n Hn. rewrite Heq. unfold bind at 1. unfold free_msgs in Hfree. rewrite Hpl in Hfree.
    destruct (msg_alloc_eq w pl0 XPDK_MSG_SHUTDOWN Hpl Hfree) as (pl & p & Halloc & Hp & Hin & Hpl2).
    unfold xpdk_cleanup_spdk_thread, is_running at 1, bind at 1, gets. rewrite Hrun. cbn [negb].
    rewrite (bind_ok _ _ _ _ _ Halloc), bool_decide_eq_true_2 by done. cbn [when].
    rewrite bind_assoc. unfold bind at 1.
    rewrite (pending_send_faults r _ p (new_msg XPDK_MSG_SHUTDOWN) b c); try done;
      [|simpl; apply lookup_insert_eq].
    destruct Hpd. split; try done. exists pl. split; [done|]. simpl. rewrite Hpl2, dom_insert.
    set_solver.
  - destruct (cleanup_thread_from w q pl0 b Hrun Hq Hqq Hcap Hpl Hdis Hb Hfree)
      as (w1 & Hc & Hr1 & Hpo & Hri & Hpl1 & Hds & Hms & Hme & Hbd & _).
    exists (set_w_g (set_ctx_initialized false (set_ctx_sync_lock false
      (set_ctx_sync_cond false (w_g w1)))) w1).
    split_and!; try done; [|simpl; rewrite Hbd; apply Hsd|simpl; by rewrite Hbd].
    intros fuel n Hn. rewrite Heq. by rewrite (bind_ok _ _ _ _ _ (Hc fuel n Hn)).
Qed.
End Pending.
