(* ===== verification/VectoredCorrect.v ===== *)
(** Vectored I/O: gathering and scattering, and the synchronous operations built on them. *)

From stdpp Require Import base gmap list strings.
From Stdlib Require Import Strings.Byte.
From S2P Require Import Prelude Types Memory Spdk World Sim Core Blocks Perf Bdev Qos Io.
From S2P Require Import Async Vectored Batch Poller Idle IoCorrect SyncIo.

Open Scope Z_scope.

(** ** Segments *)

Lemma load_write_disjoint' (m : memory) a bs b n :
  disjoint_range a (length bs) b n \/ length bs = 0%nat \/ n = 0%nat ->
  load_bytes (write_bytes m a bs) b n = load_bytes m b n.
Proof. intros [?|[Hz| ->]]; [by apply load_write_disjoint|by destruct bs|done]. Qed.


Section Segments.
Implicit Types (m : memory) (l : list xpdk_iovec).

(** The bytes of the segments, one after the other. *)
Fixpoint iov_bytes (m : memory) (l : list xpdk_iovec) : option (list byte) :=
  match l with
  | [] => Some []
  | v :: l =>
      b ← load_bytes m (iov_base v) (Z.to_nat (iov_len v));
      bs ← iov_bytes m l;
      Some (b ++ bs)
  end.

(** The memory with [bs] distributed over the segments. *)
Fixpoint iov_fill (m : memory) (l : list xpdk_iovec) (bs : list byte) : memory :=
  match l with
  | [] => m
  | v :: l =>
      iov_fill (write_bytes m (iov_base v) (take (Z.to_nat (iov_len v)) bs)) l
        (drop (Z.to_nat (iov_len v)) bs)
  end.

Definition iov_total (l : list xpdk_iovec) : Z :=
  foldr (fun v t => iov_len v + t) 0 l.

(** No byte of the segment is one of the [n] bytes at [a]. *)
Definition iov_range_disjoint (v : xpdk_iovec) (a : Z) (n : nat) : Prop :=
  disjoint_range a n (iov_base v) (Z.to_nat (iov_len v)) \/
  n = 0%nat \/ Z.to_nat (iov_len v) = 0%nat.

(** The segments of a client: lengths are sizes, and no segment touches [n] bytes at [a]. *)
Definition iov_apart l (a : Z) (n : nat) : Prop :=
  Forall (fun v => 0 <= iov_len v /\ iov_range_disjoint v a n) l.

Fixpoint iov_disjoint l : Prop :=
  match l with
  | [] => True
  | v :: l => iov_apart l (iov_base v) (Z.to_nat (iov_len v)) /\ iov_disjoint l
  end.

Definition iov_mapped m l : Prop := Forall (fun v => mapped m (iov_base v) (Z.to_nat (iov_len v))) l.

Lemma iov_bytes_length m l bs :
  Forall (fun v => 0 <= iov_len v) l -> iov_bytes m l = Some bs ->
  Z.of_nat (length bs) = iov_total l.
Proof.
  intros Hl. revert bs. induction Hl as [|v l Hv _ IH]; intros bs Hbs; simpl in *; [by simplify_eq|].
  destruct (load_bytes m _ _) as [b|] eqn:Hb; simpl in Hbs; [|done].
  destruct (iov_bytes m l) as [cs|]; simpl in Hbs; [|done]. simplify_eq.
  rewrite length_app, (load_bytes_length _ _ _ _ Hb). specialize (IH cs eq_refl). lia.
Qed.

Lemma iov_bytes_ext m m' l :
  Forall (fun v => load_bytes m (iov_base v) (Z.to_nat (iov_len v)) =
                   load_bytes m' (iov_base v) (Z.to_nat (iov_len v))) l ->
  iov_bytes m l = iov_bytes m' l.
Proof. induction 1 as [|v l Hv _ IH]; simpl; [done|]. by rewrite Hv, IH. Qed.

Lemma iov_bytes_write m l a bs :
  iov_apart l a (length bs) -> iov_bytes (write_bytes m a bs) l = iov_bytes m l.
Proof.
  intros Ha. apply iov_bytes_ext. eapply Forall_impl; [exact Ha|]. intros v [_ Hd].
  destruct Hd as [Hd|[Hz|Hz]]; [by apply load_write_disjoint| |by rewrite Hz].
  by apply nil_length_inv in Hz as ->.
Qed.

Lemma iov_mapped_bytes m l : iov_mapped m l -> is_Some (iov_bytes m l).
Proof.
  induction 1 as [|v l Hv _ [bs IH]]; simpl; [by eexists|].
  apply load_bytes_mapped in Hv as [b ->]. simpl. rewrite IH. by eexists.
Qed.

Lemma iov_mapped_write m l a bs : iov_mapped m l -> iov_mapped (write_bytes m a bs) l.
Proof. intros Hm. eapply Forall_impl; [exact Hm|]. intros v. apply mapped_write. Qed.

(** The segments are apart from a range that was free while they were accessible. *)
Lemma iov_apart_fresh m l a n :
  Forall (fun v => 0 <= iov_len v) l -> iov_mapped m l -> unmapped m a n -> iov_apart l a n.
Proof.
  intros Hl Hm Hu. unfold iov_apart, iov_mapped in *. rewrite Forall_forall in *.
  intros v Hv. split; [by apply Hl|].
  exact (unmapped_mapped_disjoint m a n (iov_base v) (Z.to_nat (iov_len v)) Hu (Hm v Hv)).
Qed.

Lemma iov_apart_le l a n b k :
  iov_apart l a n -> a <= b -> b + Z.of_nat k <= a + Z.of_nat n -> iov_apart l b k.
Proof.
  intros Ha Hb Hk. eapply Forall_impl; [exact Ha|]. intros v [Hv Hd]. split; [done|].
  unfold iov_range_disjoint, disjoint_range in *. lia.
Qed.

(** ** Filling segments *)

Lemma load_fill_apart m l bs a n :
  iov_apart l a n -> load_bytes (iov_fill m l bs) a n = load_bytes m a n.
Proof.
  intros Ha. revert m bs. induction Ha as [|v l [Hv Hd] _ IH]; intros m bs; simpl; [done|].
  rewrite IH. destruct Hd as [Hd|[->|Hz]]; [|done|by rewrite Hz, take_0].
  apply load_write_disjoint. unfold disjoint_range in *. rewrite length_take. lia.
Qed.

Lemma iov_bytes_fill m l bs :
  Forall (fun v => 0 <= iov_len v) l -> iov_disjoint l ->
  Z.of_nat (length bs) = iov_total l -> iov_bytes (iov_fill m l bs) l = Some bs.
Proof.
  intros Hl. revert m bs. induction Hl as [|v l Hv Hl IH]; intros m bs Hd Hlen; simpl in *.
  - destruct bs; [done|simpl in Hlen; lia].
  - destruct Hd as [Ha Hd]. set (k := Z.to_nat (iov_len v)) in *.
    assert (0 <= iov_total l) as Ht by (clear -Hl; induction Hl; simpl; lia).
    rewrite load_fill_apart by done.
    pose proof (load_write_same m (iov_base v) (take k bs)) as Hs.
    rewrite length_take_le in Hs by lia. rewrite Hs. simpl.
    rewrite IH by (done || (rewrite length_drop; lia)). simpl. by rewrite take_drop.
Qed.

Lemma iov_fill_comm m l bs a cs :
  iov_apart l a (length cs) ->
  iov_fill (write_bytes m a cs) l bs = write_bytes (iov_fill m l bs) a cs.
Proof.
  intros Ha. revert m bs. induction Ha as [|v l [Hv Hd] _ IH]; intros m bs; simpl; [done|].
  rewrite <- IH. f_equal. destruct Hd as [Hd|[Hz|Hz]].
  - apply write_bytes_comm. unfold disjoint_range in *. rewrite length_take. lia.
  - by apply nil_length_inv in Hz as ->.
  - by rewrite Hz, take_0.
Qed.

Lemma lookup_fill_apart m l bs a n x :
  iov_apart l a n -> a <= x < a + Z.of_nat n -> iov_fill m l bs !! x = m !! x.
Proof.
  intros Ha Hx. revert m bs. induction Ha as [|v l [Hv Hd] _ IH]; intros m bs; simpl; [done|].
  rewrite IH. apply lookup_write_out. rewrite length_take.
  unfold iov_range_disjoint, disjoint_range in Hd. lia.
Qed.

Lemma mapped_fill m l bs a n : mapped m a n -> mapped (iov_fill m l bs) a n.
Proof.
  intros Hm. revert m bs Hm. induction l as [|v l IH]; intros m bs Hm; simpl; [done|].
  by apply IH, mapped_write.
Qed.
End Segments.

(** ** The loops *)

Section Loops.
Context `{Spdk}.
Implicit Types (w : world) (l : list xpdk_iovec).

Lemma gather_eq l dst w bs :
  iov_bytes (w_mem w) l = Some bs -> mapped (w_mem w) dst (length bs) ->
  iov_apart l dst (length bs) ->
  gather l dst w = Ok tt (set_w_mem (write_bytes (w_mem w) dst bs) w).
Proof.
  revert dst w bs. induction l as [|v l IH]; intros dst w bs Hb Hm Ha; simpl in *.
  - simplify_eq. by destruct w.
  - destruct (load_bytes (w_mem w) _ _) as [b|] eqn:Hl; simpl in Hb; [|done].
    destruct (iov_bytes (w_mem w) l) as [cs|] eqn:Hcs; simpl in Hb; [|done]. simplify_eq.
    pose proof (load_bytes_length _ _ _ _ Hl) as Hlen. rewrite length_app in *.
    apply Forall_cons in Ha as [[Hv _] Ha].
    unfold memcpy. rewrite bind_assoc, (bind_ok _ _ _ _ _ (load_eq w _ _ b Hl)).
    assert (mapped (w_mem w) dst (length b)) as Hmb by (eapply mapped_le; [exact Hm|lia]).
    rewrite (bind_ok _ _ _ _ _ (store_eq w dst b Hmb)).
    replace (dst + iov_len v) with (dst + Z.of_nat (length b)) by lia.
    rewrite (IH (dst + Z.of_nat (length b)) _ cs); simpl.
    + by rewrite write_bytes_app, write_bytes_comm by (unfold disjoint_range; lia).
    + rewrite iov_bytes_write; [done|]. eapply iov_apart_le; [exact Ha|lia|lia].
    + apply mapped_write. intros x Hx. apply Hm. lia.
    + eapply iov_apart_le; [exact Ha|lia|lia].
Qed.

Lemma scatter_eq l src w bs :
  load_bytes (w_mem w) src (length bs) = Some bs -> Z.of_nat (length bs) = iov_total l ->
  iov_mapped (w_mem w) l -> iov_apart l src (length bs) ->
  scatter l src w = Ok tt (set_w_mem (iov_fill (w_mem w) l bs) w).
Proof.
  revert src w bs. induction l as [|v l IH]; intros src w bs Hb Ht Hm Ha; simpl in *.
  - by destruct w.
  - apply Forall_cons in Ha as [[Hv Hd] Ha]. apply Forall_cons in Hm as [Hmv Hm].
    set (k := Z.to_nat (iov_len v)) in *.
    assert (0 <= iov_total l) as Htl
      by (clear -Ha; induction Ha as [|? ? [? _]]; simpl; lia).
    assert (k <= length bs)%nat as Hk by lia.
    rewrite <- (take_drop k bs), length_app, load_bytes_app in Hb.
    rewrite length_take_le in Hb by done.
    destruct (load_bytes (w_mem w) src k) as [b1|] eqn:H1; simpl in Hb; [|done].
    destruct (load_bytes (w_mem w) (src + Z.of_nat k) (length (drop k bs))) as [b2|] eqn:H2;
      simpl in Hb; [|done].
    apply load_bytes_length in H1 as Hl1. injection Hb as Hb.
    apply app_inj_1 in Hb as [-> ->]; [|by rewrite length_take_le].
    unfold memcpy. rewrite bind_assoc, (bind_ok _ _ _ _ _ (load_eq w src (iov_len v) _ H1)).
    erewrite bind_ok by (apply store_eq; by rewrite Hl1).
    replace (src + iov_len v) with (src + Z.of_nat k) by lia.
    apply (IH _ (set_w_mem _ w)); simpl.
    + rewrite load_write_disjoint'; [done|]. rewrite length_take_le, length_drop by done.
      unfold iov_range_disjoint, disjoint_range in *. lia.
    + rewrite length_drop. lia.
    + by apply iov_mapped_write.
    + eapply iov_apart_le; [exact Ha|lia|rewrite length_drop; lia].
Qed.
End Loops.

(** ** The synchronous operations *)

Section VectoredCorrect.
Context `{SpdkLaws}.
Implicit Types (w : world) (d : xpdk_device) (l : list xpdk_iovec).

(** An array of segments the client may pass for a transfer on [d]. *)
Record valid_iov (w : world) (d : xpdk_device) (iov iovcnt : Z) (l : list xpdk_iovec) : Prop := {
  vi_not_null : iov <> NULL;
  vi_count : 0 < iovcnt;
  vi_array : exists l0, w_iovs w !! iov = Some l0 /\ iovcnt <= Z.of_nat (length l0) /\
    l = take (Z.to_nat iovcnt) l0;
  vi_lengths : Forall (fun v => 0 <= iov_len v) l;
  vi_total : 0 < iov_total l;
  vi_small : iov_total l + spdk_bdev_get_block_size (dev_bdev d) <= 2 ^ 32;
  vi_mapped : iov_mapped (w_mem w) l
}.

Lemma iovec_size_eq t l :
  0 <= t -> Forall (fun v => 0 <= iov_len v) l -> t + iov_total l < 2 ^ 64 ->
  iovec_size t l = t + iov_total l.
Proof.
  intros Ht Hl. revert t Ht. induction Hl as [|v l Hv Hl IH]; intros t Ht Hs; simpl in *; [lia|].
  assert (0 <= iov_total l) by (clear -Hl; induction Hl; simpl; lia).
  unfold u64. rewrite Z.mod_small by lia. rewrite IH by lia. lia.
Qed.

Lemma get_iovs_eq w iov iovcnt l0 :
  w_iovs w !! iov = Some l0 -> iovcnt <= Z.of_nat (length l0) ->
  get_iovs iov iovcnt w = Ok (take (Z.to_nat iovcnt) l0) w.
Proof.
  intros Hl Hc. unfold get_iovs. rewrite bind_get, Hl. unfold from_some.
  by rewrite bind_ret_l, decide_True.
Qed.

Lemma valid_iov_get w d iov iovcnt l w1 :
  valid_iov w d iov iovcnt l -> w_iovs w1 = w_iovs w -> get_iovs iov iovcnt w1 = Ok l w1.
Proof.
  intros [_ _ (l0 & Hl0 & Hc & ->) _ _ _ _] Hw. apply get_iovs_eq; [by rewrite Hw|done].
Qed.

Lemma valid_iov_size w d iov iovcnt l :
  valid_iov w d iov iovcnt l -> calculate_iovec_size iov iovcnt w = Ok (iov_total l) w.
Proof.
  intros Hv. unfold calculate_iovec_size.
  rewrite (bind_ok _ _ _ _ _ (valid_iov_get w d iov iovcnt l w Hv eq_refl)).
  destruct Hv as [_ _ _ Hl Ht Hs _]. pose proof (block_size_range (dev_bdev d)).
  by rewrite iovec_size_eq by (done || lia).
Qed.

(** The world with a temporary buffer. *)
Definition with_temp (a : Z) (junk : list byte) (dm : dma_t) (w : world) : world :=
  set_w_dma_live (<[a := Z.of_nat (length junk)]> (w_dma_live w))
    (set_w_mem (write_bytes (w_mem w) a junk) (set_w_dma dm w)).

Lemma alloc_temp w size :
  0 < size ->
  (exists dm, xpdk_alloc_buffer size 0 w = Ok NULL (set_w_dma dm w)) \/
  (exists dm a junk, xpdk_alloc_buffer size 0 w = Ok a (with_temp a junk dm w) /\
     a <> NULL /\ Z.of_nat (length junk) = size /\ unmapped (w_mem w) a (length junk)).
Proof.
  intros Hs. unfold xpdk_alloc_buffer. rewrite decide_False by lia.
  destruct (dma_malloc_cases w size 4096) as [(dm & Hm)|(dm & a & junk & Hm & Ha & _ & Hl & Hu)];
    simpl; [left; by exists dm|right].
  exists dm, a, junk. assert (Z.of_nat (length junk) = size) as Heq by lia.
  split_and!; try done; [|unfold NULL; lia]. unfold with_temp. by rewrite Heq.
Qed.

(** Only the DMA allocator and the bytes of a fresh range differ. *)
Lemma with_temp_idle w a junk dm :
  idle w -> (0 < length junk)%nat -> idle (with_temp a junk dm w).
Proof.
  intros [? ? ? ? ? ? ? Hdma] Hpos. split; try done. simpl. intros x n Hx.
  apply lookup_insert_Some in Hx as [[<- <-]|[_ Hx]].
  - split; [lia|]. rewrite Nat2Z.id. apply mapped_write_self.
  - destruct (Hdma x n Hx). split; [done|]. by apply mapped_write.
Qed.

Lemma temp_idle w a junk dm bs :
  idle w -> (0 < length junk)%nat ->
  idle (set_w_mem (write_bytes (w_mem (with_temp a junk dm w)) a bs) (with_temp a junk dm w)).
Proof.
  intros Hidle Hpos. destruct (with_temp_idle w a junk dm Hidle Hpos) as [? ? ? ? ? ? ? Hdma].
  split; try done. intros x n Hx. destruct (Hdma x n Hx). split; [done|by apply mapped_write].
Qed.

(** The temporary buffer goes. *)
Lemma temp_not_live w a (junk : list byte) :
  idle w -> (0 < length junk)%nat -> unmapped (w_mem w) a (length junk) -> w_dma_live w !! a = None.
Proof.
  intros Hidle Hpos Hu. destruct (w_dma_live w !! a) as [n|] eqn:Ha; [|done].
  apply (idle_dma w Hidle) in Ha as [Hn Hma]. destruct (Hma a) as [x Hx]; [lia|].
  rewrite Hu in Hx by lia. done.
Qed.

Lemma free_temp w1 a n :
  a <> NULL -> w_dma_live w1 !! a = Some n ->
  xpdk_free_buffer a w1 =
    Ok tt (set_w_dma_live (delete a (w_dma_live w1))
             (set_w_mem (unmap_bytes (w_mem w1) a (Z.to_nat n)) w1)).
Proof.
  intros Ha Hn. unfold xpdk_free_buffer. rewrite decide_False by done. by apply dma_free_eq.
Qed.

(** Freeing a block leaves the library settled. *)
Lemma settled_free_temp w w0 w1 a me :
  settled w0 w1 -> w_msgs w0 = w_msgs w -> free_msgs w0 = free_msgs w ->
  ctx_devices (w_g w0) = ctx_devices (w_g w) -> w_calls w0 = w_calls w ->
  w_iovs w0 = w_iovs w -> w_infos w0 = w_infos w -> w_limits w0 = w_limits w ->
  w_stats w0 = w_stats w ->
  (forall x n, delete a (w_dma_live w1) !! x = Some n -> 0 < n /\ mapped me x (Z.to_nat n)) ->
  settled w (set_w_dma_live (delete a (w_dma_live w1)) (set_w_mem me w1)).
Proof.
  intros [Hi ? ? ? ? ? ? ? ?] E1 E2 E3 E4 E5 E6 E7 E8 Hm.
  split; [by destruct Hi; split|by rewrite <- E1|by rewrite <- E2|by rewrite <- E3
    |by rewrite <- E4|by rewrite <- E5|by rewrite <- E6|by rewrite <- E7|by rewrite <- E8].
Qed.

Lemma unmap_temp m a (junk bs : list byte) :
  unmapped m a (length junk) -> length bs = length junk ->
  unmap_bytes (write_bytes (write_bytes m a junk) a bs) a (length junk) = m.
Proof.
  intros Hu Hl. rewrite write_write_same by done. rewrite <- Hl. apply unmap_write_fresh.
  by rewrite Hl.
Qed.

(** The operations once their arguments are checked. *)
Lemma writev_eq turn n w fd d iov iovcnt offset l :
  idle w -> valid_iov w d iov iovcnt l ->
  xpdk_writev turn n fd iov iovcnt offset w =
    (let* temp_buffer := xpdk_alloc_buffer (iov_total l) 0 in
     if decide (temp_buffer = NULL) then ret XPDK_ERROR_NOMEM
     else
       iovec_to_buffer iov iovcnt temp_buffer ;;
       let* bytes_written := xpdk_write turn n fd temp_buffer (iov_total l) offset in
       xpdk_free_buffer temp_buffer ;;
       ret bytes_written) w.
Proof.
  intros Hidle Hv. pose proof Hv as [Hne Hcnt _ _ Htot _ _].
  unfold xpdk_writev, is_initialized, bind at 1, gets.
  rewrite (idle_initialized w Hidle). cbn [negb]. rewrite decide_False by lia.
  by rewrite (bind_ok _ _ _ _ _ (valid_iov_size w d iov iovcnt l Hv)), decide_False by lia.
Qed.

Lemma readv_eq turn n w fd d iov iovcnt offset l :
  idle w -> valid_iov w d iov iovcnt l ->
  xpdk_readv turn n fd iov iovcnt offset w =
    (let* temp_buffer := xpdk_alloc_buffer (iov_total l) 0 in
     if decide (temp_buffer = NULL) then ret XPDK_ERROR_NOMEM
     else
       let* bytes_read := xpdk_read turn n fd temp_buffer (iov_total l) offset in
       when (bool_decide (bytes_read > 0)) (buffer_to_iovec temp_buffer iov iovcnt) ;;
       xpdk_free_buffer temp_buffer ;;
       ret bytes_read) w.
Proof.
  intros Hidle Hv. pose proof Hv as [Hne Hcnt _ _ Htot _ _].
  unfold xpdk_readv, is_initialized, bind at 1, gets.
  rewrite (idle_initialized w Hidle). cbn [negb]. rewrite decide_False by lia.
  by rewrite (bind_ok _ _ _ _ _ (valid_iov_size w d iov iovcnt l Hv)), decide_False by lia.
Qed.

Lemma settled_dma w dm : idle w -> settled w (set_w_dma dm w).
Proof. intros []. by split; [split|..]. Qed.

(** A temporary buffer is one the client may pass. *)
Lemma temp_valid w d a (junk : list byte) dm total :
  a <> NULL -> 0 < total -> total + spdk_bdev_get_block_size (dev_bdev d) <= 2 ^ 32 ->
  Z.of_nat (length junk) = total -> valid_buffer (with_temp a junk dm w) d a total.
Proof.
  intros Ha Ht Hs Hl. split; [done|done|done|]. simpl.
  replace (Z.to_nat total) with (length junk) by lia. apply mapped_write_self.
Qed.

Lemma writev_returns w fd d iov iovcnt offset l data :
  idle w -> free_msgs w <> ∅ -> open_at w fd d -> valid_iov w d iov iovcnt l ->
  iov_bytes (w_mem w) l = Some data ->
  exists k st w',
    (forall fuel n, (k <= fuel)%nat -> (0 < n)%nat ->
       xpdk_writev (spdk_turn fuel) n fd iov iovcnt offset w =
         Ok (if decide (st = XPDK_SUCCESS) then iov_total l else st) w') /\
    write_outcome w st (w_mem w') (w_dma_live w') /\
    write_effect w (iov_total l) offset d data (w_bdev w') st /\ settled w w'.
Proof.
  intros Hidle Hfree Hopen Hv Hdata. pose proof Hv as [Hne Hcnt _ Hlen Htot Hsmall Hmap].
  pose proof (iov_bytes_length _ _ _ Hlen Hdata) as Hdl.
  destruct (alloc_temp w (iov_total l) Htot)
    as [(dm & Ha)|(dm & a & junk & Ha & Hnn & Hjl & Hun)].
  { exists 0%nat, XPDK_ERROR_NOMEM, (set_w_dma dm w).
    split_and!; [|unfold write_outcome; by auto|by apply write_effect_none|by apply settled_dma].
    intros fuel n _ _. by rewrite (writev_eq _ _ w fd d iov iovcnt offset l), (bind_ok _ _ _ _ _ Ha). }
  assert (0 < length junk)%nat as Hjp by lia. assert (length data = length junk) as Hdj by lia.
  set (wt := with_temp a junk dm w) in *.
  set (wg := set_w_mem (write_bytes (w_mem wt) a data) wt).
  assert (iov_apart l a (length data)) as Hap by (rewrite Hdj; by apply (iov_apart_fresh (w_mem w))).
  assert (gather l a wt = Ok tt wg) as Hg.
  { apply gather_eq; simpl; [|rewrite Hdj; apply mapped_write_self|done].
    rewrite iov_bytes_write; [done|]. by rewrite <- Hdj. }
  destruct (write_returns wg fd d a (iov_total l) offset data)
    as (k & st & w1 & Hr & (Hst & Hm1 & Hl1) & He & Hs);
    [by apply temp_idle|done|done| | |].
  { destruct (temp_valid w d a junk dm (iov_total l)); [done..|]. split; try done.
    simpl. by apply mapped_write. }
  { simpl. replace (Z.to_nat (iov_total l)) with (length data) by lia. apply load_write_same. }
  assert (unmap_bytes (w_mem w1) a (length junk) = w_mem w) as Hmem
    by (rewrite Hm1; by apply unmap_temp).
  assert (delete a (w_dma_live w1) = w_dma_live w) as Hlive
    by (rewrite Hl1; simpl; by rewrite delete_insert_id by (by eapply temp_not_live)).
  exists k, st, (set_w_dma_live (delete a (w_dma_live w1))
    (set_w_mem (unmap_bytes (w_mem w1) a (length junk)) w1)).
  split_and!; [|by simpl; rewrite Hmem, Hlive|done|].
  - intros fuel n Hf Hn. rewrite (writev_eq _ _ w fd d iov iovcnt offset l) by done.
    rewrite (bind_ok _ _ _ _ _ Ha), decide_False by done. unfold iovec_to_buffer.
    rewrite bind_assoc, (bind_ok _ _ _ _ _ (valid_iov_get w d iov iovcnt l wt Hv eq_refl)).
    rewrite (bind_ok _ _ _ _ _ Hg), (bind_ok _ _ _ _ _ (Hr fuel n Hf Hn)).
    rewrite (bind_ok _ _ _ _ _ (free_temp w1 a (Z.of_nat (length junk)) Hnn
      ltac:(rewrite Hl1; simpl; apply lookup_insert_eq))). by rewrite Nat2Z.id.
  - apply (settled_free_temp w wg w1); try done. rewrite Hlive, Hmem. apply (idle_dma w Hidle).
Qed.

(** C11: [xpdk_writev] writes the concatenation of its segments: it returns, with the total
    length or an error; on success the medium holds, from the offset rounded down to a block,
    the bytes of the segments one after the other and zeros to the end of the last block.
    Memory, live DMA blocks and messages are as before. *)
Theorem xpdk_writev_correct w fd d iov iovcnt offset l data :
  idle w -> free_msgs w <> ∅ -> open_at w fd d -> valid_iov w d iov iovcnt l ->
  iov_bytes (w_mem w) l = Some data ->
  exists k st w',
    (forall fuel n, (k <= fuel)%nat -> (0 < n)%nat ->
       xpdk_writev (spdk_turn fuel) n fd iov iovcnt offset w =
         Ok (if decide (st = XPDK_SUCCESS) then iov_total l else st) w') /\
    write_outcome w st (w_mem w') (w_dma_live w') /\
    write_effect w (iov_total l) offset d data (w_bdev w') st /\ settled w w'.
Proof. apply writev_returns. Qed.

(** Status, memory and live DMA blocks after [xpdk_readv]. *)
Inductive readv_outcome (w : world) (d : xpdk_device) (l : list xpdk_iovec) (offset : Z) :
    Z -> memory -> gmap Z Z -> Prop :=
| readv_ok :
    readv_outcome w d l offset XPDK_SUCCESS
      (iov_fill (w_mem w) l
         (medium_bytes (medium (w_bdev w) (dev_bdev d)) (start_of d offset)
            (Z.to_nat (iov_total l))))
      (w_dma_live w)
| readv_error st :
    st = XPDK_ERROR_NOMEM \/ st = XPDK_ERROR_IO ->
    readv_outcome w d l offset st (w_mem w) (w_dma_live w)
| readv_leak a junk :
    unmapped (w_mem w) a (length junk) -> iov_total l <= Z.of_nat (length junk) ->
    readv_outcome w d l offset XPDK_ERROR_IO (write_bytes (w_mem w) a junk)
      (<[a := Z.of_nat (length junk)]> (w_dma_live w)).

Lemma readv_outcome_live w d l offset st me dl :
  idle w -> 0 < iov_total l -> readv_outcome w d l offset st me dl ->
  forall a n, dl !! a = Some n -> 0 < n /\ mapped me a (Z.to_nat n).
Proof.
  intros Hidle Ht Hout a n Ha. pose proof (idle_dma w Hidle) as Hlive.
  destruct Hout as [|st Hst|a0 junk Hun Hl]; [|by apply Hlive|].
  - destruct (Hlive a n Ha). split; [done|by apply mapped_fill].
  - apply lookup_insert_Some in Ha as [[<- <-]|[_ Ha]].
    + split; [lia|]. rewrite Nat2Z.id. apply mapped_write_self.
    + destruct (Hlive a n Ha). split; [done|by apply mapped_write].
Qed.

(** What is left of a read through a temporary buffer when its data was scattered and the
    buffer freed. *)
Lemma readv_finish w d a junk dm l offset st me dl :
  idle w -> iov_apart l a (length junk) -> 0 < iov_total l ->
  Z.of_nat (length junk) = iov_total l -> unmapped (w_mem w) a (length junk) ->
  read_outcome (with_temp a junk dm w) d a (iov_total l) offset st me dl ->
  let bytes := medium_bytes (medium (w_bdev w) (dev_bdev d)) (start_of d offset)
                 (Z.to_nat (iov_total l)) in
  dl !! a = Some (iov_total l) /\
  (st = XPDK_SUCCESS -> load_bytes me a (length bytes) = Some bytes) /\
  readv_outcome w d l offset st
    (unmap_bytes (if decide (st = XPDK_SUCCESS) then iov_fill me l bytes else me) a (length junk))
    (delete a dl).
Proof.
  intros Hidle Hap Ht Hl Hun Hout bytes. assert (0 < length junk)%nat as Hpos by lia.
  pose proof (temp_not_live w a junk Hidle Hpos Hun) as Hlive.
  assert (length bytes = length junk) as Hbl by (unfold bytes; rewrite medium_bytes_length; lia).
  assert (delete a (<[a := Z.of_nat (length junk)]> (w_dma_live w)) = w_dma_live w) as Hdel
    by (by rewrite delete_insert_id).
  destruct Hout as [| | |a2 junk2 Hn Hun2 Hl2]; cbn [w_mem w_dma_live with_temp set_w_dma_live
    set_w_mem set_w_dma w_bdev] in *; rewrite ?Hdel.
  - split_and!; [rewrite lookup_insert_eq; by f_equal|intros _; apply load_write_same|].
    fold bytes. rewrite decide_True by done. rewrite write_write_same by done.
    rewrite iov_fill_comm by (by rewrite Hbl). rewrite <- Hbl, unmap_write_fresh; [apply readv_ok|].
    intros x Hx. rewrite Hbl in Hx. rewrite (lookup_fill_apart _ _ _ a (length junk)) by done.
    by apply Hun.
  - split_and!; [rewrite lookup_insert_eq; by f_equal|done|].
    rewrite decide_False by done. rewrite unmap_write_fresh by done. apply readv_error. by left.
  - split_and!; [rewrite lookup_insert_eq; by f_equal|done|].
    rewrite decide_False by done. rewrite unmap_write_fresh by done. apply readv_error. by right.
  - destruct (unmapped_mapped_disjoint _ _ _ _ _ Hun2 (mapped_write_self (w_mem w) a junk))
      as [Hdis|[?|?]]; [|lia|lia].
    assert (a2 <> a) as Hne by (unfold disjoint_range in Hdis; lia).
    split_and!; [rewrite lookup_insert_ne, lookup_insert_eq by done; by f_equal|done|].
    rewrite decide_False by done. rewrite delete_insert_ne, Hdel by done.
    rewrite unmap_write_comm by (unfold disjoint_range in *; lia).
    rewrite unmap_write_fresh by done. apply readv_leak; [|done].
    intros x Hx. rewrite <- (Hun2 x Hx), lookup_write_out; [done|].
    unfold disjoint_range in Hdis. lia.
Qed.

Lemma read_outcome_status w d ub count offset st me dl :
  read_outcome w d ub count offset st me dl ->
  st = XPDK_SUCCESS \/ st = XPDK_ERROR_NOMEM \/ st = XPDK_ERROR_IO.
Proof. intros []; auto. Qed.

Lemma read_outcome_mapped w d ub count offset st me dl a n :
  read_outcome w d ub count offset st me dl -> mapped (w_mem w) a n -> mapped me a n.
Proof. intros [] Hm; by try apply mapped_write. Qed.

Lemma readv_returns w fd d iov iovcnt offset l :
  idle w -> free_msgs w <> ∅ -> open_at w fd d -> Z.land (dev_flags d) O_WRONLY = 0 ->
  valid_iov w d iov iovcnt l ->
  exists k st w',
    (forall fuel n, (k <= fuel)%nat -> (0 < n)%nat ->
       xpdk_readv (spdk_turn fuel) n fd iov iovcnt offset w =
         Ok (if decide (st = XPDK_SUCCESS) then iov_total l else st) w') /\
    readv_outcome w d l offset st (w_mem w') (w_dma_live w') /\
    medium (w_bdev w') = medium (w_bdev w) /\ settled w w'.
Proof.
  intros Hidle Hfree Hopen Hflags Hv. pose proof Hv as [Hne Hcnt _ Hlen Htot Hsmall Hmap].
  destruct (alloc_temp w (iov_total l) Htot)
    as [(dm & Ha)|(dm & a & junk & Ha & Hnn & Hjl & Hun)].
  { exists 0%nat, XPDK_ERROR_NOMEM, (set_w_dma dm w).
    split_and!; [|exact (readv_error w d l offset _ (or_introl eq_refl))|done|by apply settled_dma].
    intros fuel n _ _. by rewrite (readv_eq _ _ w fd d iov iovcnt offset l), (bind_ok _ _ _ _ _ Ha). }
  assert (0 < length junk)%nat as Hjp by lia. set (wt := with_temp a junk dm w) in *.
  assert (iov_apart l a (length junk)) as Hap by (by apply (iov_apart_fresh (w_mem w))).
  destruct (read_returns wt fd d a (iov_total l) offset) as (k & st & w1 & Hr & Hout & Hmd & Hs);
    [by apply with_temp_idle|done|done|done|by apply temp_valid|].
  pose proof (read_outcome_status _ _ _ _ _ _ _ _ Hout) as Hst.
  destruct (readv_finish w d a junk dm l offset st (w_mem w1) (w_dma_live w1))
    as (Hlive & Hload & Hfin); [done..|].
  set (bytes := medium_bytes _ _ _) in *.
  assert (length bytes = length junk) as Hbl by (unfold bytes; rewrite medium_bytes_length; lia).
  set (me := if decide (st = XPDK_SUCCESS) then iov_fill (w_mem w1) l bytes else w_mem w1) in *.
  assert (when (bool_decide ((if decide (st = XPDK_SUCCESS) then iov_total l else st) > 0))
    (buffer_to_iovec a iov iovcnt) w1 = Ok tt (set_w_mem me w1)) as Hcopy.
  { unfold me. case_decide as Hs0.
    - rewrite bool_decide_eq_true_2 by lia. cbn [when]. unfold buffer_to_iovec.
      rewrite (bind_ok _ _ _ _ _ (valid_iov_get w d iov iovcnt l w1 Hv (settled_iovs _ _ Hs))).
      apply scatter_eq; [by apply Hload|lia| |by rewrite Hbl].
      eapply Forall_impl; [exact Hmap|]. intros v Hmv.
      eapply read_outcome_mapped; [exact Hout|]. by apply mapped_write.
    - rewrite bool_decide_eq_false_2 by (destruct Hst as [|[->| ->]]; done). by destruct w1. }
  exists k, st, (set_w_dma_live (delete a (w_dma_live w1))
    (set_w_mem (unmap_bytes me a (length junk)) w1)).
  split_and!; [|done|done|].
  - intros fuel n Hf Hn. rewrite (readv_eq _ _ w fd d iov iovcnt offset l) by done.
    rewrite (bind_ok _ _ _ _ _ Ha), decide_False by done.
    rewrite (bind_ok _ _ _ _ _ (Hr fuel n Hf Hn)), (bind_ok _ _ _ _ _ Hcopy).
    rewrite (bind_ok _ _ _ _ _ (free_temp (set_w_mem me w1) a (iov_total l) Hnn Hlive)).
    by replace (Z.to_nat (iov_total l)) with (length junk) by lia.
  - apply (settled_free_temp w wt w1); try done.
    by apply (readv_outcome_live w d l offset st).
Qed.


End VectoredCorrect.

(** ** On the simulated environment *)

Lemma sim_valid_iov :
  @valid_iov sim_spdk sim_iov_world sim_open_device 50000 2 sim_iovs.
Proof.
  split; [done|lia| |by repeat constructor|done|done|].
  - by exists sim_iovs.
  - repeat constructor; apply load_bytes_mapped; vm_compute; by eexists.
Qed.

Lemma sim_iov_disjoint : iov_disjoint sim_iovs.
Proof.
  split; [|by repeat constructor]. constructor; [|constructor]. split; [simpl; lia|].
  left. unfold disjoint_range. simpl. lia.
Qed.

Lemma xpdk_writev_correct_witness :
  exists k st w', (forall fuel n, (k <= fuel)%nat -> (0 < n)%nat ->
    @xpdk_writev sim_spdk (spdk_turn fuel) n 0 50000 2 16 sim_iov_world =
      Ok (if decide (st = XPDK_SUCCESS) then 5 else st) w').
Proof.
  destruct (@xpdk_writev_correct sim_spdk sim_spdk_laws sim_iov_world 0 sim_open_device 50000 2 16
    sim_iovs [x44; x45; x41; x42; x43] sim_idle_iov sim_free sim_open_at sim_valid_iov
    ltac:(by vm_compute)) as (k & st & w' & Hr & _).
  by exists k, st, w'.
Defined.


