(* ===== verification/AsyncCorrect.v ===== *)
(** Asynchronous reads and writes: what is queued, what the SPDK thread does with it turn by
    turn, and which callbacks are called. *)

From stdpp Require Import base gmap list strings.
From Stdlib Require Import Strings.Byte.
From S2P Require Import Prelude Types Memory Spdk World Sim Core Blocks Perf Bdev Qos Io.
From S2P Require Import Async Vectored Batch Poller Idle IoCorrect SyncIo.

Open Scope Z_scope.

Section AsyncCorrect.
Context `{SpdkLaws}.
Implicit Types (w : world) (p : Z) (d : xpdk_device) (m : xpdk_msg) (s : bool).

(** [n] turns of the SPDK thread's event loop. *)
Fixpoint turns (fuel n : nat) : MW unit :=
  match n with
  | O => ret tt
  | S n => spdk_turn fuel ;; turns fuel n
  end.

Lemma turns_app fuel n k w w1 :
  turns fuel n w = Ok tt w1 -> turns fuel (n + k) w = turns fuel k w1.
Proof.
  revert w. induction n as [|n IH]; intros w Hn; simpl in *; [by injection Hn as ->|].
  unfold bind in *. destruct (spdk_turn fuel w) as [[] w2| |]; [|done..]. by apply IH.
Qed.

(** Before the last of the [n] turns no callback has been called, and the library is up. *)
Definition quiet_turns (n : nat) (w : world) : Prop :=
  forall k, (k < n)%nat -> exists wk, (forall fuel, turns fuel k w = Ok tt wk) /\
    w_calls wk = w_calls w /\ ctx_initialized (w_g wk) = ctx_initialized (w_g w) /\
    ctx_spdk_thread_running (w_g wk) = ctx_spdk_thread_running (w_g w).

Lemma quiet_turns_S n w w1 :
  (forall fuel, spdk_turn fuel w = Ok tt w1) -> w_calls w1 = w_calls w ->
  ctx_initialized (w_g w1) = ctx_initialized (w_g w) ->
  ctx_spdk_thread_running (w_g w1) = ctx_spdk_thread_running (w_g w) ->
  quiet_turns n w1 -> quiet_turns (S n) w.
Proof.
  intros Ht Hc Hi Hr Hq [|k] Hk; [by exists w|].
  destruct (Hq k ltac:(lia)) as (wk & Hw & ? & ? & ?). exists wk. split_and!; [|congruence..].
  intros fuel. simpl. by rewrite (bind_ok _ _ _ _ _ (Ht fuel)).
Qed.

Lemma quiet_turns_1 w : quiet_turns 1 w.
Proof. intros k Hk. replace k with 0%nat by lia. by exists w. Qed.

(** With one piece of work outstanding and no message queued, some number of turns completes
    it. *)
Lemma turns_work w r wk (Q : world -> Prop) :
  w_ring w = Some r -> ring_queue r = [] -> ctx_spdk_thread_running (w_g w) = true ->
  outstanding (w_bdev w) = [wk] ->
  (forall b b' c r', same_data (w_bdev w) b -> outstanding b = [wk] ->
     bdev_poll b (w_mem w) = (b', Some c) ->
     exists w2, deliver c (set_w_ring (Some r') (set_w_bdev b' w)) = Ok tt w2 /\
       w_ring w2 = Some r' /\ Q w2) ->
  exists n w2 r2, ring_queue r2 = [] /\ ring_capacity r2 = ring_capacity r /\ Q w2 /\
    quiet_turns n w /\ forall fuel, turns fuel n w = Ok tt (set_w_ring (Some r2) w2).
Proof.
  intros Hr Hq Hrun Ho Hdel.
  assert (forall k b r1, latency b = k -> same_data (w_bdev w) b -> outstanding b = [wk] ->
    ring_queue r1 = [] -> ring_capacity r1 = ring_capacity r ->
    exists n w2 r2, ring_queue r2 = [] /\ ring_capacity r2 = ring_capacity r /\ Q w2 /\
      quiet_turns n (set_w_ring (Some r1) (set_w_bdev b w)) /\
      forall fuel, turns fuel n (set_w_ring (Some r1) (set_w_bdev b w)) =
        Ok tt (set_w_ring (Some r2) w2)) as Hgo.
  { intros k. induction (lt_wf k) as [k _ IH]. intros b r1 Hk Hsd Hob Hq1 Hc1.
    destruct (bdev_poll b (w_mem w)) as [b' [c|]] eqn:Hp.
    - destruct (Hdel b b' c r1 Hsd Hob Hp) as (w2 & Hd & Hr2 & HQ).
      destruct (turn_quiet (set_w_ring (Some r1) (set_w_bdev b w)) r1 b' (Some c) w2)
        as (r' & Hq' & Hc' & Ht); [done..|].
      exists 1%nat, w2, r'. split_and!; [done|lia|done|apply quiet_turns_1|]. intros fuel. simpl.
      by rewrite (bind_ok _ _ _ _ _ (Ht fuel)).
    - destruct (turn_quiet (set_w_ring (Some r1) (set_w_bdev b w)) r1 b' None
        (set_w_ring (Some r1) (set_w_bdev b' w))) as (r' & Hq' & Hc' & Ht); [done..|].
      apply poll_none in Hp as (Ho' & Hs & Hl). rewrite Hob in Ho', Hl.
      specialize (Hl ltac:(done)).
      destruct (IH (latency b') ltac:(lia) b' r') as (n & w2 & r2 & Hq2 & Hc2 & HQ & Hqt & Hn);
        [done| |done|done|lia|].
      { destruct Hsd as (? & ? & ?), Hs as (? & ? & ?). split_and!; congruence. }
      exists (S n), w2, r2. split_and!; [done|done|done|by eapply quiet_turns_S|]. intros fuel. simpl.
      by rewrite (bind_ok _ _ _ _ _ (Ht fuel)). }
  destruct (Hgo (latency (w_bdev w)) (w_bdev w) r) as (n & w2 & r2 & Hq2 & Hc2 & HQ & Hqt & Hn);
    [done..|].
  assert (set_w_ring (Some r) (set_w_bdev (w_bdev w) w) = w) as Hid by (destruct w; simpl in *; by subst).
  rewrite Hid in Hqt, Hn. by exists n, w2, r2.
Qed.

(** [n] turns lead from [w] to [w2], the callbacks called in the last of them at the
    earliest. *)
Definition finishes (n : nat) (w w2 : world) : Prop :=
  quiet_turns n w /\ forall fuel, turns fuel n w = Ok tt w2.

Lemma finishes_0 w : finishes 0 w w.
Proof. split; [|done]. intros k Hk. lia. Qed.

(** ** Queueing *)

Definition async_params (fd ub count offset : Z) (cb : xpdk_io_callback_t) (ctx : Z) : msg_params :=
  PIo fd ub count offset 0 (Some cb) ctx.

Lemma async_io_eq w type fd ub count offset cb ctx pl r :
  ctx_initialized (w_g w) = true -> ub <> NULL -> count <> 0 ->
  w_pool w = Some pl -> pool_free pl <> ∅ -> w_ring w = Some r ->
  exists p pl', p <> NULL /\ p ∈ pool_free pl /\ pool_free pl' = pool_free pl ∖ {[p]} /\
    async_io type fd ub count offset (Some cb) ctx w =
      (let* rc := xpdk_msg_send_async p in
       if decide (rc <> XPDK_SUCCESS) then xpdk_msg_free p ;; ret rc else ret XPDK_SUCCESS)
      (w_put_msg p (sent_msg type (async_params fd ub count offset cb ctx)) (set_w_pool (Some pl') w)).
Proof.
  intros Hi Hub Hc Hpl Hf Hr.
  destruct (msg_alloc_eq w pl type Hpl Hf) as (pl' & p & Ha & Hp & Hin & Hpl').
  exists p, pl'. split_and!; try done. unfold async_io, is_initialized, bind at 1, gets. rewrite Hi.
  cbn [negb]. rewrite decide_False by (intros [?|[?|?]]; done).
  rewrite (bind_ok _ _ _ _ _ Ha), decide_False by done.
  erewrite bind_ok by (apply (upd_msg_eq _ p (new_msg type)); simpl; apply lookup_insert_eq).
  unfold w_put_msg. simpl. by rewrite insert_insert_eq.
Qed.

Lemma send_async_room w p ring :
  p <> NULL -> w_ring w = Some ring -> (length (ring_queue ring) < ring_capacity ring)%nat ->
  exists ring', xpdk_msg_send_async p w = Ok XPDK_SUCCESS (set_w_ring (Some ring') w) /\
    ring_queue ring' = ring_queue ring ++ [p] /\ ring_capacity ring' = ring_capacity ring.
Proof.
  intros Hp Hr Hroom. destruct (ring_enqueue_eq w ring p Hr Hroom) as (ring' & He & Hq & Hc).
  exists ring'. split_and!; try done. unfold xpdk_msg_send_async. rewrite decide_False by done.
  by rewrite (bind_ok _ _ _ _ _ He).
Qed.

Lemma send_async_full w p ring :
  p <> NULL -> w_ring w = Some ring -> (ring_capacity ring <= length (ring_queue ring))%nat ->
  exists ring', xpdk_msg_send_async p w = Ok XPDK_ERROR_BUSY (set_w_ring (Some ring') w) /\
    ring_queue ring' = ring_queue ring /\ ring_capacity ring' = ring_capacity ring.
Proof.
  intros Hp Hr Hfull. destruct (enqueue_full ring p Hfull) as (ring' & He & Hq & Hc).
  exists ring'. split_and!; try done. unfold xpdk_msg_send_async. rewrite decide_False by done.
  unfold ring_enqueue, bind, get. rewrite Hr. simpl. by rewrite He.
Qed.

(** An asynchronous read or write with valid arguments returns at once.  With room in the
    ring it returns [XPDK_SUCCESS] and has put a fresh message with its parameters behind the
    messages already queued; with a full ring it returns [XPDK_ERROR_BUSY] and the message is
    back in the pool, the queue as before.  No message in use is touched and no callback is
    called. *)
Theorem async_request_queued w type fd ub count offset cb ctx pl ring :
  ctx_initialized (w_g w) = true -> ub <> NULL -> count <> 0 ->
  w_pool w = Some pl -> pool_free pl <> ∅ -> pool_free pl ## dom (w_msgs w) ->
  w_ring w = Some ring ->
  exists rc w' pl' ring',
    async_io type fd ub count offset (Some cb) ctx w = Ok rc w' /\
    w_pool w' = Some pl' /\ w_ring w' = Some ring' /\ ring_capacity ring' = ring_capacity ring /\
    w_calls w' = w_calls w /\ w_mem w' = w_mem w /\ w_g w' = w_g w /\
    ((length (ring_queue ring) < ring_capacity ring)%nat -> rc = XPDK_SUCCESS /\
       exists p, p ∈ pool_free pl /\ pool_free pl' = pool_free pl ∖ {[p]} /\
         ring_queue ring' = ring_queue ring ++ [p] /\
         w_msgs w' = <[p := sent_msg type (async_params fd ub count offset cb ctx)]> (w_msgs w)) /\
    ((ring_capacity ring <= length (ring_queue ring))%nat -> rc = XPDK_ERROR_BUSY /\
       pool_free pl' = pool_free pl /\ ring_queue ring' = ring_queue ring /\
       w_msgs w' = w_msgs w).
Proof.
  intros Hi Hub Hc Hpl Hf Hdis Hr.
  destruct (async_io_eq w type fd ub count offset cb ctx pl ring) as (p & pl' & Hp & Hin & Hpl' & Heq);
    [done..|].
  set (m := sent_msg _ _) in *. set (w0 := w_put_msg p m (set_w_pool (Some pl') w)) in *.
  assert (w_msgs w !! p = None) as Hfresh by (apply not_elem_of_dom; set_solver).
  destruct (decide (length (ring_queue ring) < ring_capacity ring)%nat) as [Hroom|Hfull].
  - destruct (send_async_room w0 p ring Hp Hr Hroom) as (ring' & Hs & Hq & Hcap).
    exists XPDK_SUCCESS, (set_w_ring (Some ring') w0), pl', ring'.
    split_and!; try done; [by rewrite Heq, (bind_ok _ _ _ _ _ Hs)| |intros; lia].
    intros _. split; [done|]. by exists p.
  - destruct (send_async_full w0 p ring Hp Hr) as (ring' & Hs & Hq & Hcap); [lia|].
    exists XPDK_ERROR_BUSY, (set_w_msgs (delete p (w_msgs w0))
      (set_w_pool (Some (spdk_mempool_put pl' p)) (set_w_ring (Some ring') w0))),
      (spdk_mempool_put pl' p), ring'.
    split_and!; try done.
    + rewrite Heq, (bind_ok _ _ _ _ _ Hs), decide_True by done.
      by rewrite (bind_ok _ _ _ _ _ (msg_free_eq (set_w_ring (Some ring') w0) pl' p Hp eq_refl)).
    + intros _. split_and!; [done| |done|].
      * rewrite mempool_put_free, Hpl' by done. by rewrite <- union_difference_singleton_L by done.
      * simpl. by rewrite delete_insert_id.
Qed.

(** An asynchronous read or write with a callback returns: a message is queued, or the request
    is refused without a trace. *)
Lemma async_io_world w type fd ub count offset cb ctx pl ring :
  w_pool w = Some pl -> pool_free pl ## dom (w_msgs w) -> w_ring w = Some ring ->
  exists rc pl' ring' ms,
    async_io type fd ub count offset (Some cb) ctx w =
      Ok rc (set_w_ring (Some ring') (set_w_pool (Some pl') (set_w_msgs ms w))) /\
    ring_capacity ring' = ring_capacity ring /\
    (rc = XPDK_SUCCESS /\ ub <> NULL /\ count <> 0 /\
       (exists p, p <> NULL /\ p ∈ pool_free pl /\ pool_free pl' = pool_free pl ∖ {[p]} /\
         ring_queue ring' = ring_queue ring ++ [p] /\
         ms = <[p := sent_msg type (async_params fd ub count offset cb ctx)]> (w_msgs w)) \/
     (rc = XPDK_ERROR_INVALID \/ rc = XPDK_ERROR_NOMEM \/ rc = XPDK_ERROR_BUSY) /\
       pool_free pl' = pool_free pl /\ ring_queue ring' = ring_queue ring /\ ms = w_msgs w).
Proof.
  intros Hpl Hdis Hr.
  match goal with |- ?G => assert (forall rc pl',
    async_io type fd ub count offset (Some cb) ctx w = Ok rc (set_w_pool (Some pl') w) ->
    pool_free pl' = pool_free pl -> rc = XPDK_ERROR_INVALID \/ rc = XPDK_ERROR_NOMEM -> G) as Hearly
  end.
  { intros rc pl' Heq Hf Hrc. exists rc, pl', ring, (w_msgs w). split_and!; [|done|right; tauto].
    rewrite Heq. f_equal. destruct w; simpl in *. by subst. }
  assert (set_w_pool (Some pl) w = w) as Hid by (destruct w; simpl in *; by subst).
  destruct (decide (ctx_initialized (w_g w) = true)) as [Hi|Hi]; [|apply not_true_is_false in Hi].
  2: { apply (Hearly XPDK_ERROR_INVALID pl); [|done|by left]. rewrite Hid.
       unfold async_io, is_initialized, bind, gets. by rewrite Hi. }
  assert (forall K : MW Z, (let* i := is_initialized in if negb i then ret XPDK_ERROR_INVALID else K) w = K w)
    as Hinit by (intros K; unfold is_initialized, bind, gets; by rewrite Hi).
  destruct (decide (ub = NULL \/ count = 0)) as [Hbad|Hgood].
  { apply (Hearly XPDK_ERROR_INVALID pl); [|done|by left]. unfold async_io.
    by rewrite Hinit, Hid, decide_True by tauto. }
  destruct (decide (pool_free pl = ∅)) as [He|He].
  { destruct (msg_alloc_empty w pl type Hpl He) as (pl' & Ha & Hf).
    apply (Hearly XPDK_ERROR_NOMEM pl'); [|congruence|by right]. unfold async_io.
    rewrite Hinit, decide_False by (intros [?|[?|?]]; tauto || done).
    by rewrite (bind_ok _ _ _ _ _ Ha). }
  clear Hearly. destruct (async_io_eq w type fd ub count offset cb ctx pl ring)
    as (p & pl' & Hp & Hin & Hpl' & Heq); [done|tauto|tauto|done..|].
  set (m := sent_msg _ _) in *. set (w0 := w_put_msg p m (set_w_pool (Some pl') w)) in *.
  destruct (decide (length (ring_queue ring) < ring_capacity ring)%nat) as [Hroom|Hfull].
  - destruct (send_async_room w0 p ring Hp Hr Hroom) as (ring' & Hs & Hq & Hcap).
    exists XPDK_SUCCESS, pl', ring', (<[p := m]> (w_msgs w)).
    split_and!; [by rewrite Heq, (bind_ok _ _ _ _ _ Hs)|done|left].
    split_and!; [done|tauto|tauto|]. by exists p.
  - destruct (send_async_full w0 p ring Hp Hr) as (ring' & Hs & Hq & Hcap); [lia|].
    exists XPDK_ERROR_BUSY, (spdk_mempool_put pl' p), ring', (w_msgs w).
    split_and!; [|done|right; split_and!; [tauto| |done|done]].
    + rewrite Heq, (bind_ok _ _ _ _ _ Hs), decide_True by done.
      rewrite (bind_ok _ _ _ _ _ (msg_free_eq (set_w_ring (Some ring') w0) pl' p Hp eq_refl)).
      simpl. rewrite delete_insert_id; [done|]. apply not_elem_of_dom. set_solver.
    + rewrite mempool_put_free, Hpl' by done. by rewrite <- union_difference_singleton_L by done.
Qed.

Lemma async_io_frame w type fd ub count offset cb ctx rc w1 :
  idle w -> async_io type fd ub count offset (Some cb) ctx w = Ok rc w1 ->
  w_calls w1 = w_calls w /\ w_g w1 = w_g w.
Proof.
  intros [_ _ _ (ring & Hr & _) (pl & Hpl & Hdis) _ _ _] Hcall.
  destruct (async_io_world w type fd ub count offset cb ctx pl ring Hpl Hdis Hr)
    as (rc' & pl' & ring' & ms & He & _). rewrite He in Hcall. by injection Hcall as <- <-.
Qed.

(** The callback a message carries, with its argument. *)
Definition callback_of (m : xpdk_msg) : option (xpdk_io_callback_t * Z) :=
  match msg_u m with
  | PIo _ _ _ _ _ (Some cb) ctx => Some (cb, ctx)
  | _ => None
  end.

(** ** The turn that handles the message *)

Lemma async_first_turn w type fd ub count offset cb ctx :
  idle w -> free_msgs w <> ∅ -> ub <> NULL -> count <> 0 ->
  type = XPDK_MSG_READ \/ type = XPDK_MSG_WRITE ->
  let m := sent_msg type (async_params fd ub count offset cb ctx) in
  exists p pl b r1 r2 w1, exchange w p pl b r1 r2 /\
    p ∈ free_msgs w /\ pool_free pl = free_msgs w ∖ {[p]} /\
    async_io type fd ub count offset (Some cb) ctx w = Ok XPDK_SUCCESS w1 /\
    forall fuel w2,
      io_handler type fuel p (count_io (at_handler p m pl b r1 w)) = Ok tt w2 ->
      w_ring w2 = Some r1 -> turns fuel 1 w1 = Ok tt (set_w_ring (Some r2) w2).
Proof.
  intros Hidle Hfree Hub Hc Htype m.
  pose proof Hidle as [Hi Hrun _ (ring & Hr & Hq & Hcap) (pl0 & Hpl & Hdis) Ho _ _].
  unfold free_msgs in Hfree. rewrite Hpl in Hfree.
  destruct (async_io_eq w type fd ub count offset cb ctx pl0 ring)
    as (p & pl & Hp & Hin & Hpl' & Heq); [done..|]. fold m in Heq.
  set (w0 := w_put_msg p m (set_w_pool (Some pl) w)) in *.
  destruct (send_async_room w0 p ring Hp Hr) as (ring' & Hs & Hq' & Hc'); [by rewrite Hq|].
  rewrite Hq in Hq'. simpl in Hq'.
  destruct (turn_one (set_w_ring (Some ring') w0) ring' p)
    as (b & r1 & r2 & Hob & Hsd & Hq1 & Hq2 & Hc2 & Ht); [done..|].
  exists p, pl, b, r1, r2, (set_w_ring (Some ring') w0). split_and!.
  - split; try done.
    + apply not_elem_of_dom. set_solver.
    + split; [done|lia].
    + rewrite mempool_put_free by done. unfold free_msgs. rewrite Hpl, Hpl'.
      by rewrite <- union_difference_singleton_L by done.
  - unfold free_msgs. by rewrite Hpl.
  - unfold free_msgs. by rewrite Hpl.
  - by rewrite Heq, (bind_ok _ _ _ _ _ Hs).
  - intros fuel w2 Hh Hr2. simpl. erewrite bind_ok; [reflexivity|]. apply Ht; [|done].
    rewrite (process_io fuel p m type); [|simpl; apply lookup_insert_eq|done|done].
    by rewrite (bind_ok _ _ _ _ _ Hh).
Qed.

(** ** The completion callback *)

(** A callback touches the log of calls and the batch contexts, and nothing of the library's
    own. *)
Definition touches_clients (w w' : world) : Prop :=
  exists calls batch, w' = set_w_calls calls (set_w_batch batch w).

(** The world when the callback returned, here [wc], and the message and the bounce buffer are
    free again. *)
Definition retired (p : Z) (pl : pool_t) (me : memory) (dl : gmap Z Z) (wc : world) : world :=
  set_w_msgs (delete p (w_msgs wc)) (set_w_pool (Some (spdk_mempool_put pl p))
    (set_w_mem me (set_w_dma_live dl wc))).

(** A callback that leaves the messages and the pool alone.  It runs before the bounce buffer is
    freed: [me] and [dl] are what is left of its memory and blocks. *)
Lemma completion_frees w p m pl cb ctx s wc me dl :
  p <> NULL -> w_msgs w !! p = Some m -> w_pool w = Some pl -> callback_of m = Some (cb, ctx) ->
  invoke cb ctx (io_status_of s) w = Ok tt wc -> w_msgs wc = w_msgs w -> w_pool wc = w_pool w ->
  msg_ctx m = NULL /\ me = w_mem wc /\ dl = w_dma_live wc \/
  msg_ctx m <> NULL /\ (exists n, w_dma_live wc !! msg_ctx m = Some n /\
    me = unmap_bytes (w_mem wc) (msg_ctx m) (Z.to_nat n) /\ dl = delete (msg_ctx m) (w_dma_live wc)) ->
  async_io_completion_cb invoke s p w = Ok tt (retired p pl me dl wc).
Proof.
  intros Hp Hm Hpl Ht Hinv Hms Hpw Hcase. unfold async_io_completion_cb.
  rewrite (bind_ok _ _ _ _ _ (get_msg_eq w p m Hm)). unfold callback_of in Ht.
  destruct (msg_u m) as [| | |fd ub count offset bt [cb'|] ctx'| | | | | |]; try done.
  injection Ht as -> ->. cbv zeta. fold (io_status_of s).
  rewrite (bind_ok _ _ _ _ _ Hinv). rewrite <- Hms in Hm. rewrite <- Hpw in Hpl.
  rewrite (bind_ok _ _ _ _ _ (get_msg_eq wc p m Hm)).
  destruct Hcase as [(Hz & -> & ->)|(Hnz & n & Hn & -> & ->)].
  - rewrite bool_decide_eq_false_2 by (intros Hne; by apply Hne). cbn [when]. rewrite bind_ret_l.
    rewrite (msg_free_eq wc pl p) by done. by destruct wc.
  - rewrite bool_decide_eq_true_2 by done. cbn [when].
    rewrite (bind_ok _ _ _ _ _ (dma_free_eq wc (msg_ctx m) n Hn)).
    by rewrite (msg_free_eq _ pl p) by done.
Qed.

Lemma completion_retires w p m pl cb ctx s wc me dl :
  p <> NULL -> w_msgs w !! p = Some m -> w_pool w = Some pl -> callback_of m = Some (cb, ctx) ->
  invoke cb ctx (io_status_of s) w = Ok tt wc -> touches_clients w wc ->
  msg_ctx m = NULL /\ me = w_mem w /\ dl = w_dma_live w \/
  msg_ctx m <> NULL /\ (exists n, w_dma_live w !! msg_ctx m = Some n /\
    me = unmap_bytes (w_mem w) (msg_ctx m) (Z.to_nat n) /\ dl = delete (msg_ctx m) (w_dma_live w)) ->
  async_io_completion_cb invoke s p w = Ok tt (retired p pl me dl wc).
Proof.
  intros Hp Hm Hpl Ht Hinv (calls & batch & ->) Hcase.
  by apply (completion_frees w p m pl cb ctx s _ me dl Hp Hm Hpl Ht Hinv).
Qed.

(** The same for a callback of a client. *)
Definition async_finished (p : Z) (pl : pool_t) (f ctx st : Z) (me : memory) (dl : gmap Z Z)
    (w : world) : world :=
  retired p pl me dl (set_w_calls (w_calls w ++ [(f, ctx, st)]) w).

(** ** The handlers *)

Section AsyncRequests.
Context (w : world) (p : Z) (m : xpdk_msg) (fd ub count offset bt : Z) (cb : xpdk_io_callback_t)
  (uctx : Z) (d : xpdk_device).
Hypothesis Hmsg : w_msgs w !! p = Some m.
Hypothesis Hu : msg_u m = PIo fd ub count offset bt (Some cb) uctx.
Hypothesis Hopen : open_at w fd d.
Hypothesis Hcount : 0 < count.
Hypothesis Hsmall : count + spdk_bdev_get_block_size (dev_bdev d) <= 2 ^ 32.
Hypothesis Hmapped : mapped (w_mem w) ub (Z.to_nat count).
Hypothesis Hframe : w_sctx w !! p = None.
Hypothesis Hlive : forall a n, w_dma_live w !! a = Some n ->
  0 < n /\ mapped (w_mem w) a (Z.to_nat n).

Abbreviation bs := (spdk_bdev_get_block_size (dev_bdev d)).

Definition async_req (kind : io_kind) (buf : Z) : io_req :=
  Build_io_req kind (dev_desc d) (dev_channel d) buf
    (offset_blocks offset bs) (num_blocks count bs) (AsyncIoCb p).

(** The handlers from the submission on, for a message with a callback. *)
Definition async_tail (kind : io_kind) (need : bool) (buffer : Z) : MW unit :=
  put_sctx p (Build_sync_io_ctx p false XPDK_SUCCESS count) ;;
  let* rc := bdev_submit (async_req kind buffer) in
  (if decide (rc <> 0) then when need (spdk_dma_free buffer) ;; complete_msg p XPDK_ERROR_IO
   else ret tt) ;;
  pop_sctx p.

Lemma handle_read_async_eq fuel :
  Z.land (dev_flags d) O_WRONLY = 0 ->
  xpdk_spdk_handle_read nested_poll fuel p w =
    (if decide (needs_bounce d ub count) then
       let* a := spdk_dma_malloc (num_blocks count bs * bs) bs in
       if decide (a = NULL) then complete_msg p XPDK_ERROR_NOMEM
       else upd_msg p (set_msg_ctx a) ;; async_tail IoRead true a
     else async_tail IoRead false ub) w.
Proof.
  intros Hflags. pose proof (block_size_range (dev_bdev d)) as Hbs. unfold xpdk_spdk_handle_read.
  rewrite (bind_ok _ _ _ _ _ (get_msg_eq w p m Hmsg)), Hu.
  rewrite (bind_ok _ _ _ _ _ (get_io_device_eq w fd d Hopen)).
  rewrite decide_False by (rewrite Hflags; tauto). unfold block_range at 1.
  rewrite decide_False by lia. rewrite bind_ret_l. simpl fst. simpl snd.
  rewrite (dma_size_eq count d) by done. unfold needs_bounce.
  destruct (decide (ub mod bs <> 0 \/ count mod bs <> 0)) as [Hn|Hn].
  - rewrite bool_decide_eq_true_2 by done. unfold async_tail, bind.
    destruct (spdk_dma_malloc _ _ w) as [a w1|e|w1]; [|reflexivity..].
    destruct (decide (a = NULL)); [reflexivity|].
    by destruct (upd_msg p (set_msg_ctx a) w1).
  - by rewrite bool_decide_eq_false_2 by done.
Qed.

Lemma handle_write_async_eq fuel :
  xpdk_spdk_handle_write nested_poll fuel p w =
    (let* a := spdk_dma_malloc (num_blocks count bs * bs) bs in
     if decide (a = NULL) then complete_msg p XPDK_ERROR_NOMEM
     else memset0 a (num_blocks count bs * bs) ;; memcpy a ub count ;;
          upd_msg p (set_msg_ctx a) ;; async_tail IoWrite true a) w.
Proof.
  pose proof (block_size_range (dev_bdev d)) as Hbs. unfold xpdk_spdk_handle_write.
  rewrite (bind_ok _ _ _ _ _ (get_msg_eq w p m Hmsg)), Hu.
  rewrite (bind_ok _ _ _ _ _ (get_io_device_eq w fd d Hopen)).
  rewrite decide_False by (rewrite Z.land_0_r; tauto). unfold block_range.
  rewrite decide_False by lia. rewrite bind_ret_l. simpl fst. simpl snd.
  by rewrite (dma_size_eq count d) by done.
Qed.

(** What a handler leaves behind: a message it gave up, completed with an error, or a request
    under way. *)
Inductive async_handled (kind : io_kind) : world -> Prop :=
| async_dropped st m' b dm :
    st = XPDK_ERROR_NOMEM \/ st = XPDK_ERROR_IO ->
    msg_status m' = st -> msg_completed m' = true -> callback_of m' = callback_of m ->
    outstanding b = outstanding (w_bdev w) -> same_data (w_bdev w) b ->
    async_handled kind (io_world p m' b (w_mem w) dm (w_dma_live w) w)
| async_direct b :
    kind = IoRead -> ~ needs_bounce d ub count ->
    outstanding b = outstanding (w_bdev w) ++ [WIo (async_req kind ub)] ->
    same_data (w_bdev w) b ->
    async_handled kind (io_world p m b (w_mem w) (w_dma w) (w_dma_live w) w)
| async_bounced b a data dm :
    (kind = IoRead -> needs_bounce d ub count) ->
    (kind = IoWrite -> exists bytes, data = padded count d bytes /\
       load_bytes (w_mem w) ub (Z.to_nat count) = Some bytes) ->
    a <> NULL -> length data = Z.to_nat (num_blocks count bs * bs) -> (0 < length data)%nat ->
    unmapped (w_mem w) a (length data) ->
    outstanding b = outstanding (w_bdev w) ++ [WIo (async_req kind a)] ->
    same_data (w_bdev w) b ->
    async_handled kind (io_world p (set_msg_ctx a m) b (write_bytes (w_mem w) a data) dm
      (<[a := Z.of_nat (length data)]> (w_dma_live w)) w).

Lemma async_tail_bounced kind a data dm :
  (kind = IoRead -> needs_bounce d ub count) ->
  (kind = IoWrite -> exists bytes, data = padded count d bytes /\
     load_bytes (w_mem w) ub (Z.to_nat count) = Some bytes) ->
  a <> NULL -> length data = Z.to_nat (num_blocks count bs * bs) -> (0 < length data)%nat ->
  unmapped (w_mem w) a (length data) ->
  exists w1, async_tail kind true a (bounced w p m a data dm) = Ok tt w1 /\ async_handled kind w1.
Proof.
  intros Hr Hw Ha Hl Hpos Hun. set (wb := bounced w p m a data dm).
  destruct (bdev_submit_cases (framed p count wb) (async_req kind a))
    as [(b & Hs & Ho & Hsd & _)|(b & rc & Hrc & Hs & Ho & Hsd)];
    [by destruct Hopen as (_ & _ & [])| |]; simpl in Ho;
    unfold async_tail;
    rewrite (bind_ok _ _ _ _ _ (eq_refl : put_sctx p _ wb = Ok tt (framed p count wb)));
    rewrite (bind_ok _ _ _ _ _ Hs); unfold wb at 1; rewrite framed_bounced.
  - rewrite decide_False, bind_ret_l by lia. rewrite pop_in_frame by done.
    eexists. split; [done|]. by apply async_bounced.
  - rewrite decide_True by done. cbn [when]. rewrite bind_assoc.
    rewrite (bind_ok _ _ _ _ _ (free_in_frame w p Hlive _ _ _ _ _ _ _ Hun Hpos)).
    rewrite (bind_ok _ _ _ _ _ (complete_in_frame w p _ _ _ _ _ _ _)).
    rewrite pop_in_frame by done. rewrite unmap_write_fresh by done.
    eexists. split; [done|]. apply (async_dropped kind XPDK_ERROR_IO); auto.
Qed.

Lemma async_no_memory kind dm :
  async_handled kind (w_put_msg p (set_msg_completed true (set_msg_status XPDK_ERROR_NOMEM m))
    (set_w_dma dm w)).
Proof.
  exact (async_dropped kind XPDK_ERROR_NOMEM
    (set_msg_completed true (set_msg_status XPDK_ERROR_NOMEM m)) (w_bdev w) dm
    (or_introl eq_refl) eq_refl eq_refl eq_refl eq_refl (conj eq_refl (conj eq_refl eq_refl))).
Qed.

(** A handler that does not wait does not need fuel. *)
Lemma without_fuel (h : nat -> MW unit) (rhs : MW unit) (P : world -> Prop) :
  (forall fuel, h fuel w = rhs w) -> (exists w1, rhs w = Ok tt w1 /\ P w1) ->
  exists w1, (forall fuel, h fuel w = Ok tt w1) /\ P w1.
Proof. intros Heq (w1 & Hr & HP). exists w1. split; [|done]. intros fuel. by rewrite Heq. Qed.

Lemma handle_write_async :
  exists w1, (forall fuel, xpdk_spdk_handle_write nested_poll fuel p w = Ok tt w1) /\
    async_handled IoWrite w1.
Proof.
  eapply (without_fuel (fun fuel => xpdk_spdk_handle_write nested_poll fuel p));
    [exact handle_write_async_eq|].
  pose proof (blocks_cover count d Hcount Hsmall) as Hcover.
  destruct (dma_malloc_cases w (num_blocks count bs * bs) bs)
    as [(dm & Hm)|(dm & a & junk & Hm & Ha & Hal & Hl & Hun)];
    rewrite (bind_ok _ _ _ _ _ Hm).
  - rewrite decide_True by done. rewrite (complete_msg_eq _ p m) by done.
    eexists. split; [done|]. apply async_no_memory.
  - rewrite decide_False by (unfold NULL; lia).
    pose proof (proj1 (load_bytes_mapped _ _ _) Hmapped) as [bytes Hbytes].
    pose proof (load_bytes_length _ _ _ _ Hbytes) as Hbl.
    rewrite (fill_bounced w p m ub count d Hmsg Hcount Hsmall Hmapped _ a junk bytes dm Hl Hun Hbytes).
    assert (length (padded count d bytes) = length junk) as Hpl
      by (unfold padded; rewrite length_app, length_replicate; lia).
    apply async_tail_bounced; [done|by exists bytes|unfold NULL; lia|by rewrite Hpl|lia|].
    by rewrite Hpl.
Qed.

Lemma handle_read_async :
  Z.land (dev_flags d) O_WRONLY = 0 ->
  exists w1, (forall fuel, xpdk_spdk_handle_read nested_poll fuel p w = Ok tt w1) /\
    async_handled IoRead w1.
Proof.
  intros Hflags. eapply (without_fuel (fun fuel => xpdk_spdk_handle_read nested_poll fuel p));
    [intros fuel; by apply handle_read_async_eq|].
  pose proof (blocks_cover count d Hcount Hsmall) as Hcover.
  destruct (decide (needs_bounce d ub count)) as [Hneed|Hno].
  - destruct (dma_malloc_cases w (num_blocks count bs * bs) bs)
      as [(dm & Hm)|(dm & a & junk & Hm & Ha & Hal & Hl & Hun)];
      rewrite (bind_ok _ _ _ _ _ Hm).
    + rewrite decide_True by done. rewrite (complete_msg_eq _ p m) by done.
      eexists. split; [done|]. apply async_no_memory.
    + rewrite decide_False by (unfold NULL; lia).
      assert (0 <= num_blocks count bs * bs) as Hpos by lia.
      rewrite (bind_ok _ _ _ _ _ (bounced_eq w p m Hmsg a junk dm _ Hpos Hl)).
      apply async_tail_bounced; [done|done|unfold NULL; lia|done|lia|done].
  - destruct (bdev_submit_cases (framed p count w) (async_req IoRead ub))
      as [(b & Hs & Ho & Hsd & _)|(b & rc & Hrc & Hs & Ho & Hsd)];
      [by destruct Hopen as (_ & _ & [])| |]; simpl in Ho;
      unfold async_tail;
      rewrite (bind_ok _ _ _ _ _ (eq_refl : put_sctx p _ w = Ok tt (framed p count w)));
      rewrite (bind_ok _ _ _ _ _ Hs).
    + rewrite decide_False, bind_ret_l by lia. exists (io_world p m b (w_mem w) (w_dma w)
        (w_dma_live w) w). split; [|by apply async_direct].
      unfold pop_sctx, modify, io_world, framed, w_put_msg. simpl.
      rewrite delete_insert_id by done. by rewrite (insert_id (w_msgs w) p m) by exact Hmsg.
    + rewrite decide_True by done. cbn [when]. rewrite bind_assoc, bind_ret_l.
      rewrite (bind_ok _ _ _ _ _ (complete_msg_eq (set_w_bdev b (framed p count w)) p m _ Hmsg)).
      rewrite pop_refused by done. eexists. split; [done|].
      apply (async_dropped IoRead XPDK_ERROR_IO); auto.
Qed.
End AsyncRequests.
(** ** From the call to the callback *)

(** The callback was called, once; the library holds no more than before. *)
Definition async_mem (kind : io_kind) (w : world) (d : xpdk_device) (ub count offset : Z)
    (s : bool) : memory :=
  match kind with
  | IoRead =>
      if decide (s = true /\ ~ needs_bounce d ub count)
      then write_bytes (w_mem w) ub
             (medium_bytes (medium (w_bdev w) (dev_bdev d)) (start_of d offset) (Z.to_nat count))
      else w_mem w
  | _ => w_mem w
  end.

Definition async_effect (kind : io_kind) (w : world) (d : xpdk_device) (ub count offset : Z)
    (s : bool) (b : bdev_t) : Prop :=
  match kind with
  | IoRead => medium b = medium (w_bdev w)
  | _ => forall data, load_bytes (w_mem w) ub (Z.to_nat count) = Some data ->
           write_effect w count offset d data b (io_status_of s)
  end.

Record async_called (kind : io_kind) (w : world) (d : xpdk_device) (ub count offset f ctx : Z)
    (s : bool) (w' : world) : Prop := {
  called_settled :
    settled (set_w_calls (w_calls w ++ [(f, ctx, io_status_of s)]) w) w';
  called_mem : w_mem w' = async_mem kind w d ub count offset s;
  called_live : w_dma_live w' = w_dma_live w;
  called_effect : async_effect kind w d ub count offset s (w_bdev w')
}.

(** Nothing is left to do and the callback was not called; a message is lost to the pool. *)
Record async_silent (w w' : world) : Prop := {
  silent_idle : idle w';
  silent_calls : w_calls w' = w_calls w;
  silent_mem : w_mem w' = w_mem w;
  silent_live : w_dma_live w' = w_dma_live w;
  silent_batch : w_batch w' = w_batch w;
  silent_medium : medium (w_bdev w') = medium (w_bdev w);
  silent_devices : ctx_devices (w_g w') = ctx_devices (w_g w);
  silent_vctx : w_vctx w' = w_vctx w;
  silent_iovs : w_iovs w' = w_iovs w;
  silent_infos : w_infos w' = w_infos w;
  silent_lost : exists p m, p ∈ free_msgs w /\ free_msgs w' = free_msgs w ∖ {[p]} /\
    msg_completed m = true /\ msg_status m <> XPDK_SUCCESS /\ w_msgs w' = <[p := m]> (w_msgs w)
}.

Lemma settled_async w p pl b r1 r2 m m1 b0 me0 dm dl0 ra b' r3 f ctx st me dl :
  idle w -> exchange w p pl b r1 r2 -> outstanding b' = [] ->
  ring_queue r3 = [] -> ring_capacity r3 = ring_capacity r2 ->
  (forall a n, dl !! a = Some n -> 0 < n /\ mapped me a (Z.to_nat n)) ->
  settled (set_w_calls (w_calls w ++ [(f, ctx, st)]) w)
    (set_w_ring (Some r3) (async_finished p pl f ctx st me dl
      (set_w_ring (Some ra) (set_w_bdev b' (set_w_ring (Some r2)
        (io_world p m1 b0 me0 dm dl0 (count_io (at_handler p m pl b r1 w)))))))).
Proof.
  intros [Hi Hrun Hwf Hring (pl0 & Hpl & Hdis) Ho Hfr Hdma] [Hp Hfresh Hob Hsd [_ Hcap] Hpool]
    Ho' Hq3 Hc3 Hdl.
  assert (delete p (<[p := m1]> (<[p := m]> (w_msgs w))) = w_msgs w) as Hmsgs
    by (by rewrite !delete_insert_eq, delete_id).
  assert (pool_free (spdk_mempool_put pl p) = pool_free pl0) as Hpf
    by (rewrite Hpool; unfold free_msgs; by rewrite Hpl).
  split; [split|..]; simpl; rewrite ?Hmsgs; try done.
  - exists r3. split_and!; [done|done|lia].
  - eexists. split; [done|]. by rewrite Hpf.
Qed.

Lemma silent_async w p pl b r1 r2 m m' b' dm :
  idle w -> exchange w p pl b r1 r2 -> p ∈ free_msgs w -> pool_free pl = free_msgs w ∖ {[p]} ->
  outstanding b' = [] -> same_data (w_bdev w) b' ->
  msg_completed m' = true -> msg_status m' <> XPDK_SUCCESS ->
  async_silent w (set_w_ring (Some r2)
    (io_world p m' b' (w_mem w) dm (w_dma_live w) (at_handler p m pl b r1 w))) /\
  async_silent w (set_w_ring (Some r2)
    (io_world p m' b' (w_mem w) dm (w_dma_live w) (count_io (at_handler p m pl b r1 w)))).
Proof.
  intros [Hi Hrun Hwf Hring (pl0 & Hpl & Hdis) Ho Hfr Hdma] [Hp Hfresh Hob Hsd Hr2 Hpool]
    Hin Hpf Ho' Hsd' Hmc Hst.
  assert (<[p := m']> (<[p := m]> (w_msgs w)) = <[p := m']> (w_msgs w)) as Hmsgs
    by apply insert_insert_eq.
  assert (pool_free pl ## dom (<[p := m']> (w_msgs w))) as Hdis'.
  { rewrite Hpf. unfold free_msgs in *. rewrite Hpl in *. rewrite dom_insert. set_solver. }
  split; (split; [split|..]; simpl; rewrite ?Hmsgs; try done;
    [by exists r2|by exists pl|by apply same_data_medium|by exists p, m']).
Qed.

Lemma poll_single_io b me b' c r :
  outstanding b = [WIo r] -> bdev_poll b me = (b', Some c) ->
  exists s data, c = IoDone r s data /\ outstanding b' = [] /\
    (rq_kind r = IoRead -> data =
       if s then medium_bytes (medium b (desc_bdev (rq_desc r))) (req_pos desc_bdev r)
                   (req_len desc_bdev r)
       else []) /\
    media_change me r s (medium b) (medium b').
Proof.
  intros Ho Hp. pose proof (poll_completes b me b' c (WIo r) Ho Hp) as Hc.
  destruct c as [r' s data|? ? ?|? ?], Hc as [Ho' Hc]; [subst r'|done..].
  apply poll_io in Hp as (_ & _ & _ & Hread & Hmedia). by exists s, data.
Qed.

(** The memory when the device transferred the data of a read. *)
Definition transferred (r : io_req) (data : list byte) (me : memory) : memory :=
  match rq_kind r with IoRead => write_bytes me (rq_buf r) data | _ => me end.

(** The only request under way, with a message and a callback, reaches its completion callback
    after some turns; what the callback does then is left to [Q]. *)
Lemma request_turns w1 ring p r (Q : world -> Prop) :
  w_ring w1 = Some ring -> ring_queue ring = [] -> ctx_spdk_thread_running (w_g w1) = true ->
  outstanding (w_bdev w1) = [WIo r] -> rq_cb r = AsyncIoCb p ->
  (rq_kind r = IoRead -> mapped (w_mem w1) (rq_buf r) (req_len desc_bdev r)) ->
  (forall s data b' ra, outstanding b' = [] ->
     (rq_kind r = IoRead -> data =
        if s then medium_bytes (medium (w_bdev w1) (desc_bdev (rq_desc r))) (req_pos desc_bdev r)
                    (req_len desc_bdev r)
        else []) ->
     media_change (w_mem w1) r s (medium (w_bdev w1)) (medium b') ->
     exists w2, async_io_completion_cb invoke s p
       (set_w_mem (transferred r data (w_mem w1)) (set_w_ring (Some ra) (set_w_bdev b' w1))) =
         Ok tt w2 /\ w_ring w2 = Some ra /\ Q w2) ->
  exists n w2 r2, ring_queue r2 = [] /\ ring_capacity r2 = ring_capacity ring /\ Q w2 /\
    quiet_turns n w1 /\ forall fuel, turns fuel n w1 = Ok tt (set_w_ring (Some r2) w2).
Proof.
  intros Hr Hq Hrun Ho Hcb Hmap Hcall.
  apply (turns_work w1 ring (WIo r)); [done..|]. intros bx b' c ra Hsx Hox Hp.
  destruct (poll_single_io _ _ _ _ _ Hox Hp) as (s & data & -> & Ho' & Hread & Hmedia).
  rewrite (proj1 Hsx) in Hread, Hmedia.
  destruct (Hcall s data b' ra Ho' Hread Hmedia) as (w2 & Hw2 & Hr2 & HQ).
  exists w2. split_and!; [|done|done]. unfold deliver. rewrite Hcb.
  eapply eq_trans; [|exact Hw2]. apply (bind_ok _ (fun _ : unit => async_io_completion_cb invoke s p)
    _ tt). unfold transferred. destruct (rq_kind r); try (by destruct w1).
  apply (store_eq (set_w_ring (Some ra) (set_w_bdev b' w1))).
  specialize (Hread eq_refl). specialize (Hmap eq_refl).
  destruct s; subst data; simpl; [by rewrite medium_bytes_length|]. intros x Hx. simpl in Hx. lia.
Qed.

Section AsyncRuns.
Context (w : world) (p : Z) (pl : pool_t) (b : bdev_t) (r1 r2 : ring_t).
Context (type : xpdk_msg_type) (fd ub count offset f uctx : Z) (d : xpdk_device).
Hypothesis Hidle : idle w.
Hypothesis Hex : exchange w p pl b r1 r2.
Hypothesis Hopen : open_at w fd d.
Hypothesis Hvb : valid_buffer w d ub count.

Abbreviation m := (sent_msg type (async_params fd ub count offset (UserCallback f) uctx)).
Abbreviation w0 := (count_io (at_handler p m pl b r1 w)).
Abbreviation bs := (spdk_bdev_get_block_size (dev_bdev d)).
Abbreviation req := (async_req p count offset d).

Lemma async_live kind s a n :
  w_dma_live w !! a = Some n -> 0 < n /\ mapped (async_mem kind w d ub count offset s) a (Z.to_nat n).
Proof.
  intros Ha. destruct (idle_dma w Hidle a n Ha) as [? ?]. split; [done|]. unfold async_mem.
  destruct kind; try done. case_decide; [|done]. by apply mapped_write.
Qed.

(** Some number of turns completes the request of [async_handled], whatever its kind. *)
Lemma async_runs kind m1 b0 me0 dm dl0 buf :
  outstanding b0 = [WIo (req kind buf)] -> same_data b b0 -> msg_u m1 = msg_u m ->
  (kind = IoRead -> mapped me0 buf (req_len desc_bdev (req kind buf))) ->
  (forall s data b', media_change me0 (req kind buf) s (medium (w_bdev w)) (medium b') ->
     (kind = IoRead -> data =
        if s then medium_bytes (medium (w_bdev w) (dev_bdev d)) (start_of d offset)
                    (req_len desc_bdev (req kind buf))
        else []) ->
     let mem1 := match kind with IoRead => write_bytes me0 buf data | _ => me0 end in
     async_effect kind w d ub count offset s b' /\
     (msg_ctx m1 = NULL /\ async_mem kind w d ub count offset s = mem1 /\ w_dma_live w = dl0 \/
      msg_ctx m1 <> NULL /\ (exists n, dl0 !! msg_ctx m1 = Some n /\
        async_mem kind w d ub count offset s = unmap_bytes mem1 (msg_ctx m1) (Z.to_nat n) /\
        w_dma_live w = delete (msg_ctx m1) dl0))) ->
  exists n s w2, async_called kind w d ub count offset f uctx s w2 /\
    finishes n (set_w_ring (Some r2) (io_world p m1 b0 me0 dm dl0 w0)) w2.
Proof.
  intros Ho Hsd Hu Hmap Hstep. set (w1 := set_w_ring (Some r2) (io_world p m1 b0 me0 dm dl0 w0)).
  destruct (request_turns w1 r2 p (req kind buf) (fun w2 => exists s b' ra me,
    w2 = async_finished p pl f uctx (io_status_of s) (async_mem kind w d ub count offset s)
      (w_dma_live w) (set_w_mem me (set_w_ring (Some ra) (set_w_bdev b' w1))) /\
    outstanding b' = [] /\ async_effect kind w d ub count offset s b'))
    as (n & w2 & r3 & Hq3 & Hc3 & (s & b' & ra & me & -> & Ho' & He) & Hqt & Hn);
    [done|apply Hex|by apply (idle_running w Hidle)|done|done|exact Hmap| |].
  - intros s data b' ra Ho' Hread Hmedia.
    assert (medium (w_bdev w1) = medium (w_bdev w)) as Hmd.
    { destruct Hsd as (Hsd & _), (ex_same _ _ _ _ _ _ Hex) as (Hb & _). simpl. congruence. }
    rewrite Hmd in Hread, Hmedia. rewrite (req_pos_eq w fd offset d Hopen (req kind buf)) in Hread by done.
    destruct (proj2 (proj2 Hopen)) as [_ _ _ _ Hdesc].
    cbn [rq_kind rq_desc async_req] in Hread. rewrite Hdesc in Hread.
    destruct (Hstep s data b' Hmedia Hread) as (He & Hcase).
    set (W := set_w_mem _ (set_w_ring (Some ra) (set_w_bdev b' w1))).
    exists (async_finished p pl f uctx (io_status_of s) (async_mem kind w d ub count offset s)
      (w_dma_live w) W).
    split_and!; [|done|by exists s, b', ra, (transferred (req kind buf) data me0)].
    apply (completion_retires W p m1 pl (UserCallback f) uctx s);
      [apply Hex|simpl; apply lookup_insert_eq|done| |done| |exact Hcase].
    + unfold callback_of. by rewrite Hu.
    + exists (w_calls W ++ [(f, uctx, io_status_of s)]), (w_batch W). done.
  - exists n, s, (set_w_ring (Some r3) (async_finished p pl f uctx (io_status_of s)
      (async_mem kind w d ub count offset s) (w_dma_live w)
      (set_w_mem me (set_w_ring (Some ra) (set_w_bdev b' w1))))).
    split; [|done]. split; [|done..].
    exact (settled_async w p pl b r1 r2 m m1 b0 me dm dl0 ra b' r3 f uctx _ _ _ Hidle Hex Ho' Hq3 Hc3
      (async_live kind s)).
Qed.

Lemma write_media_effect data buf me0 s b' :
  length data = Z.to_nat count -> load_bytes me0 buf (length (padded count d data)) =
    Some (padded count d data) ->
  media_change me0 (req IoWrite buf) s (medium (w_bdev w)) (medium b') ->
  write_effect w count offset d data b' (io_status_of s).
Proof.
  intros Hl Hload (_ & Heff & Hout). destruct Hvb as [_ Hc Hs _].
  pose proof (blocks_cover count d Hc Hs) as Hcover.
  assert (length (padded count d data) = Z.to_nat (num_blocks count bs * bs)) as Hpl
    by (unfold padded; rewrite length_app, length_replicate; lia).
  assert (req_len desc_bdev (req IoWrite buf) = length (padded count d data)) as Hrl
    by (rewrite Hpl; by apply (req_len_eq w fd count d Hopen)).
  rewrite Hrl, (req_pos_eq w fd offset d Hopen (req IoWrite buf)), Hpl in Hout by done.
  destruct (proj2 (proj2 Hopen)) as [_ _ _ _ Hdesc].
  cbn [rq_desc async_req] in *. rewrite Hdesc in *. split.
  - intros Hst bd x. destruct s; [|done].
    rewrite (Heff eq_refl (padded count d data))
      by (unfold req_data; simpl rq_kind; by rewrite Hrl).
    by rewrite (req_pos_eq w fd offset d Hopen (req IoWrite buf)) by done.
  - intros bd x Hx. apply Hout. lia.
Qed.

(** A request through a bounce buffer. *)
Lemma bounced_runs kind a data dm b0 :
  kind = IoRead \/ kind = IoWrite ->
  (kind = IoRead -> needs_bounce d ub count) ->
  (kind = IoWrite -> exists bytes, data = padded count d bytes /\
     load_bytes (w_mem w) ub (Z.to_nat count) = Some bytes) ->
  a <> NULL -> length data = Z.to_nat (num_blocks count bs * bs) -> (0 < length data)%nat ->
  unmapped (w_mem w) a (length data) ->
  outstanding b0 = [WIo (req kind a)] -> same_data b b0 ->
  exists n s w2, async_called kind w d ub count offset f uctx s w2 /\
    finishes n (set_w_ring (Some r2)
      (io_world p (set_msg_ctx a m) b0 (write_bytes (w_mem w) a data) dm
        (<[a := Z.of_nat (length data)]> (w_dma_live w)) w0)) w2.
Proof.
  intros Hk Hrd Hwr Ha Hl Hpos Hun Ho Hsd.
  assert (req_len desc_bdev (req kind a) = length data) as Hrl
    by (rewrite Hl; by apply (req_len_eq w fd count d Hopen)).
  assert (w_dma_live w !! a = None) as Hnl
    by (by apply (fresh_block_not_live w (idle_dma w Hidle) a data)).
  apply (async_runs kind (set_msg_ctx a m) b0 _ dm _ a Ho Hsd eq_refl).
  - intros _. rewrite Hrl. apply mapped_write_self.
  - intros s bytes b' Hmedia Hread mem1. split.
    + destruct Hk as [->| ->]; simpl.
      * apply Hmedia. by left.
      * intros data0 Hd0. destruct (Hwr eq_refl) as (bytes0 & -> & Hb0).
        rewrite Hb0 in Hd0. injection Hd0 as ->.
        apply (write_media_effect _ a (write_bytes (w_mem w) a (padded count d data0)));
          [by eapply load_bytes_length|apply load_write_same|done].
    + right. split; [done|]. exists (Z.of_nat (length data)). simpl.
      split_and!; [apply lookup_insert_eq| |by rewrite delete_insert_id].
      rewrite Nat2Z.id. assert (unmap_bytes mem1 a (length data) = w_mem w) as ->.
      { unfold mem1. destruct Hk as [->| ->]; [|by apply unmap_write_fresh].
        specialize (Hread eq_refl). destruct s; subst bytes.
        - rewrite write_write_same by (by rewrite medium_bytes_length).
          set (got := medium_bytes _ _ _).
          assert (length got = length data) as <- by (unfold got; by rewrite medium_bytes_length).
          apply unmap_write_fresh. unfold got. by rewrite medium_bytes_length, Hrl.
        - simpl. by apply unmap_write_fresh. }
      unfold async_mem. destruct Hk as [->| ->]; [|done].
      rewrite decide_False; [done|]. intros [_ Hno]. by apply Hno, Hrd.
Qed.

(** A read straight into the client's buffer. *)
Lemma direct_runs b0 :
  ~ needs_bounce d ub count -> outstanding b0 = [WIo (req IoRead ub)] -> same_data b b0 ->
  exists n s w2, async_called IoRead w d ub count offset f uctx s w2 /\
    finishes n (set_w_ring (Some r2)
      (io_world p m b0 (w_mem w) (w_dma w) (w_dma_live w) w0)) w2.
Proof.
  intros Hno Ho Hsd. pose proof (block_size_range (dev_bdev d)) as Hbs.
  destruct Hvb as [_ Hc Hsmall Hmapped].
  assert (req_len desc_bdev (req IoRead ub) = Z.to_nat count) as Hrl.
  { unfold needs_bounce in Hno. rewrite (req_len_eq w fd count d Hopen (req IoRead ub)) by done.
    by rewrite num_blocks_multiple by (lia || done). }
  apply (async_runs IoRead m b0 _ (w_dma w) _ ub Ho Hsd eq_refl).
  - intros _. by rewrite Hrl.
  - intros s bytes b' Hmedia Hread mem1. split; [apply Hmedia; by left|]. left.
    split_and!; [done| |done]. unfold mem1, async_mem. specialize (Hread eq_refl).
    destruct s; subst bytes.
    + by rewrite decide_True, Hrl by done.
    + by rewrite decide_False by (by intros [? _]).
Qed.

(** What the first turn leaves is completed, or is given up without a word. *)
Lemma handled_runs kind w1 :
  kind = IoRead \/ kind = IoWrite ->
  p ∈ free_msgs w -> pool_free pl = free_msgs w ∖ {[p]} ->
  async_handled w0 p m ub count offset d kind w1 ->
  exists n w2, ((exists s, async_called kind w d ub count offset f uctx s w2) \/ async_silent w w2) /\
    finishes n (set_w_ring (Some r2) w1) w2.
Proof.
  pose proof (ex_outstanding _ _ _ _ _ _ Hex) as Hnone.
  intros Hk Hin Hpf [st m' b' dm Hst Hs Hmc _ Ho Hsd|b' -> Hno Ho Hsd
    |b' a data dm Hrd Hwr Ha Hl Hpos Hun Ho Hsd]; cbn [w_bdev count_io at_handler] in Ho;
    simpl in Ho; rewrite Hnone in Ho.
  - exists 0%nat, (set_w_ring (Some r2) (io_world p m' b' (w_mem w) dm (w_dma_live w) w0)).
    split; [right|apply finishes_0].
    apply (silent_async w p pl b r1 r2 m m' b' dm); try done.
    + destruct Hsd as (? & ? & ?), (ex_same _ _ _ _ _ _ Hex) as (? & ? & ?).
      split_and!; etrans; done.
    + rewrite Hs. by destruct Hst as [->| ->].
  - destruct (direct_runs b' Hno Ho Hsd) as (n & s & w2 & Hc & Hn). exists n, w2. eauto.
  - destruct (bounced_runs kind a data dm b' Hk Hrd Hwr Ha Hl Hpos Hun Ho Hsd)
      as (n & s & w2 & Hc & Hn). exists n, w2. eauto.
Qed.
End AsyncRuns.

(** A request on an open device, whatever its callback, from its call to the end of its
    handler. *)
Lemma async_handler_turn w type kind fd d ub count offset cb ctx :
  idle w -> free_msgs w <> ∅ -> open_at w fd d -> valid_buffer w d ub count ->
  type = XPDK_MSG_READ /\ kind = IoRead /\ Z.land (dev_flags d) O_WRONLY = 0 \/
  type = XPDK_MSG_WRITE /\ kind = IoWrite ->
  let m := sent_msg type (async_params fd ub count offset cb ctx) in
  exists p pl b r1 r2 w1 wh, exchange w p pl b r1 r2 /\
    p ∈ free_msgs w /\ pool_free pl = free_msgs w ∖ {[p]} /\
    async_io type fd ub count offset (Some cb) ctx w = Ok XPDK_SUCCESS w1 /\
    (forall fuel, turns fuel 1 w1 = Ok tt (set_w_ring (Some r2) wh)) /\
    async_handled (count_io (at_handler p m pl b r1 w)) p m ub count offset d kind wh.
Proof.
  intros Hidle Hfree Hopen Hvb Hkind m. pose proof Hvb as [Hub Hc Hs Hma].
  destruct (async_first_turn w type fd ub count offset cb ctx)
    as (p & pl & b & r1 & r2 & w1 & Hex & Hin & Hpf & Hcall & Hturn); [done..|lia|naive_solver|].
  fold m in Hturn. set (w0 := count_io (at_handler p m pl b r1 w)) in *.
  assert (exists wh, (forall fuel, io_handler type fuel p w0 = Ok tt wh) /\
    async_handled w0 p m ub count offset d kind wh) as (wh & Hh & Hah).
  { assert (w_sctx w0 !! p = None) as Hfr by (simpl; by rewrite (idle_frames w Hidle)).
    assert (w_msgs w0 !! p = Some m) as Hm by (simpl; apply lookup_insert_eq).
    destruct Hkind as [(-> & -> & Hfl)|(-> & ->)].
    - by apply (handle_read_async w0 p m fd ub count offset 0 cb ctx d Hm eq_refl Hopen Hc Hs
        Hfr (idle_dma w Hidle)).
    - by apply (handle_write_async w0 p m fd ub count offset 0 cb ctx d Hm eq_refl Hopen Hc Hs
        Hma Hfr (idle_dma w Hidle)). }
  assert (w_ring wh = Some r1) as Hring by (by destruct Hah).
  exists p, pl, b, r1, r2, w1, wh. split_and!; try done.
  intros fuel. exact (Hturn fuel wh (Hh fuel) Hring).
Qed.

(** The same for a client's callback, to the request's end. *)
Lemma async_io_ends w type kind fd d ub count offset f ctx :
  idle w -> free_msgs w <> ∅ -> open_at w fd d -> valid_buffer w d ub count ->
  type = XPDK_MSG_READ /\ kind = IoRead /\ Z.land (dev_flags d) O_WRONLY = 0 \/
  type = XPDK_MSG_WRITE /\ kind = IoWrite ->
  exists w1 n w2,
    async_io type fd ub count offset (Some (UserCallback f)) ctx w = Ok XPDK_SUCCESS w1 /\
    w_calls w1 = w_calls w /\ ctx_initialized (w_g w1) = true /\
    ctx_spdk_thread_running (w_g w1) = true /\ finishes n w1 w2 /\
    ((exists s, async_called kind w d ub count offset f ctx s w2) \/ async_silent w w2).
Proof.
  intros Hidle Hfree Hopen Hvb Hkind.
  destruct (async_handler_turn w type kind fd d ub count offset (UserCallback f) ctx)
    as (p & pl & b & r1 & r2 & w1 & wh & Hex & Hin & Hpf & Hcall & Hturn & Hah); [done..|].
  destruct (handled_runs w p pl b r1 r2 type fd ub count offset f ctx d Hidle Hex Hopen Hvb kind wh)
    as (n & w2 & Hout & Hn); [naive_solver|done..|].
  destruct (async_io_frame _ _ _ _ _ _ _ _ _ _ Hidle Hcall) as [Hc1 Hg1].
  assert (w_calls wh = w_calls w /\ ctx_initialized (w_g wh) = ctx_initialized (w_g w) /\
    ctx_spdk_thread_running (w_g wh) = ctx_spdk_thread_running (w_g w)) as (Hch & Hih & Hrh)
    by (by destruct Hah).
  exists w1, (S n), w2. split_and!; [done|done|by rewrite Hg1; apply Hidle|by rewrite Hg1; apply Hidle| |done].
  destruct Hn as [Hq Hn]. assert (forall fuel, spdk_turn fuel w1 = Ok tt (set_w_ring (Some r2) wh)) as Ht.
  { intros fuel. specialize (Hturn fuel). simpl in Hturn. unfold bind in Hturn.
    destruct (spdk_turn fuel w1) as [[] wt| |]; [|done..]. by injection Hturn as ->. }
  split; [|intros fuel; simpl; by rewrite (bind_ok _ _ _ _ _ (Ht fuel))].
  eapply quiet_turns_S; [exact Ht|simpl; congruence..|done].
Qed.

Lemma ends_with_turns (m : MW Z) w (P : world -> Prop) :
  (exists w1 n w2, m w = Ok XPDK_SUCCESS w1 /\ w_calls w1 = w_calls w /\
     ctx_initialized (w_g w1) = true /\ ctx_spdk_thread_running (w_g w1) = true /\
     finishes n w1 w2 /\ P w2) ->
  exists w1 n w2, m w = Ok XPDK_SUCCESS w1 /\ (forall fuel, turns fuel n w1 = Ok tt w2) /\ P w2.
Proof. intros (w1 & n & w2 & Hm & _ & _ & _ & [_ Hn] & HP). by exists w1, n, w2. Qed.


(** C10: An asynchronous read of a valid buffer on a readable open device returns
    [XPDK_SUCCESS] at once and ends after some turns of the SPDK thread.  When the callback
    is called with success and the buffer and the count are multiples of the block size, the
    buffer holds the bytes of the medium; when they are not, the callback reports success
    while the client's memory is exactly as before ([async_mem]): the bounce buffer is freed
    without being copied.  The media never change.  A request given up before it reached
    the device calls no callback and loses its message. *)
Theorem async_read_completes w fd d ub count offset f ctx :
  idle w -> free_msgs w <> ∅ -> open_at w fd d -> Z.land (dev_flags d) O_WRONLY = 0 ->
  valid_buffer w d ub count ->
  exists w1 n w2,
    xpdk_read_async fd ub count offset (Some (UserCallback f)) ctx w = Ok XPDK_SUCCESS w1 /\
    (forall fuel, turns fuel n w1 = Ok tt w2) /\
    ((exists s, async_called IoRead w d ub count offset f ctx s w2) \/ async_silent w w2).
Proof. intros. apply ends_with_turns, async_io_ends; auto. Qed.

Lemma bad_descriptor_silent w type fd ub count offset cb ctx :
  idle w -> free_msgs w <> ∅ -> ub <> NULL -> count <> 0 ->
  type = XPDK_MSG_READ \/ type = XPDK_MSG_WRITE ->
  no_io_device w fd \/ type = XPDK_MSG_READ /\
    (exists d, open_at w fd d /\ Z.land (dev_flags d) O_WRONLY <> 0) ->
  exists w1 w2,
    async_io type fd ub count offset (Some cb) ctx w = Ok XPDK_SUCCESS w1 /\
    (forall fuel, spdk_turn fuel w1 = Ok tt w2) /\ async_silent w w2.
Proof.
  intros Hidle Hfree Hub Hc Htype Hrej.
  destruct (async_first_turn w type fd ub count offset cb ctx)
    as (p & pl & b & r1 & r2 & w1 & Hex & Hin & Hpf & Hcall & Hturn); [done..|].
  set (m := sent_msg type (async_params fd ub count offset cb ctx)) in *.
  set (w0 := count_io (at_handler p m pl b r1 w)) in *.
  set (m' := set_msg_completed true (set_msg_status XPDK_ERROR_INVALID m)).
  assert (forall fuel, io_handler type fuel p w0 = Ok tt (w_put_msg p m' w0)) as Hh.
  { intros fuel. rewrite (rejected_handler w0 fuel p m type fd ub count offset
      (Some cb) ctx);
      [|simpl; apply lookup_insert_eq|done|apply (idle_devices w Hidle)|].
    - by rewrite (complete_msg_eq _ p m) by (simpl; apply lookup_insert_eq).
    - destruct Hrej as [Hno|Hwr]; [by left|by right]. }
  exists w1, (set_w_ring (Some r2) (w_put_msg p m' w0)). split_and!; [done| |].
  - intros fuel. specialize (Hturn fuel _ (Hh fuel) eq_refl). simpl in Hturn.
    unfold bind in Hturn. destruct (spdk_turn fuel w1) as [[] wt| |]; [|done..].
    by injection Hturn as ->.
  - apply (silent_async w p pl b r1 r2 m m' b (w_dma w)); try done; apply Hex.
Qed.

(** C37: An asynchronous read or write on a descriptor without a device that can do I/O, or a
    read of a device opened write-only, still returns [XPDK_SUCCESS]; one turn later the library is
    idle again, the callback was not called and will not be, and the message, completed
    with an error nobody reads, is lost to the pool. *)
Theorem async_bad_descriptor_silent w type fd ub count offset f ctx :
  idle w -> free_msgs w <> ∅ -> ub <> NULL -> count <> 0 ->
  type = XPDK_MSG_READ \/ type = XPDK_MSG_WRITE ->
  no_io_device w fd \/ type = XPDK_MSG_READ /\
    (exists d, open_at w fd d /\ Z.land (dev_flags d) O_WRONLY <> 0) ->
  exists w1 w2,
    async_io type fd ub count offset (Some (UserCallback f)) ctx w = Ok XPDK_SUCCESS w1 /\
    (forall fuel, spdk_turn fuel w1 = Ok tt w2) /\ async_silent w w2.
Proof. apply bad_descriptor_silent. Qed.

End AsyncCorrect.

(** ** Witnesses *)

Lemma async_request_queued_witness :
  exists rc w' pl' ring',
    @async_io sim_spdk XPDK_MSG_READ 0 8192 5 16 (Some (UserCallback 70)) 71 sim_open_world = Ok rc w' /\
    w_pool w' = Some pl' /\ w_ring w' = Some ring' /\ rc = XPDK_SUCCESS.
Proof.
  destruct (idle_pool _ sim_idle_open) as (pl & Hpl & Hdis).
  destruct (idle_ring _ sim_idle_open) as (ring & Hr & Hq & Hcap).
  pose proof sim_free as Hf. unfold free_msgs in Hf. rewrite Hpl in Hf.
  destruct (@async_request_queued sim_spdk sim_spdk_laws sim_open_world XPDK_MSG_READ 0 8192 5 16
    (UserCallback 70) 71 pl ring (idle_initialized _ sim_idle_open) ltac:(done) ltac:(done)
    Hpl Hf Hdis Hr)
    as (rc & w' & pl' & ring' & He & Hp & Hr' & _ & _ & _ & _ & Hroom & _).
  exists rc, w', pl', ring'. split_and!; [exact He|exact Hp|exact Hr'|].
  apply Hroom. rewrite Hq. exact Hcap.
Defined.


(** Five bytes into a buffer: not a multiple of the block, so memory stays as it is. *)
Lemma async_read_completes_witness :
  exists w1 n w2,
    @xpdk_read_async sim_spdk 0 8192 5 16 (Some (UserCallback 70)) 71 sim_open_world =
      Ok XPDK_SUCCESS w1 /\ (forall fuel, turns fuel n w1 = Ok tt w2) /\
    w_mem w2 = w_mem sim_open_world.
Proof.
  destruct (@async_read_completes sim_spdk sim_spdk_laws sim_open_world 0 sim_open_device
    8192 5 16 70 71 sim_idle_open sim_free sim_open_at eq_refl sim_valid_buffer)
    as (w1 & n & w2 & Hc & Hn & Hout).
  exists w1, n, w2. split_and!; [exact Hc|exact Hn|].
  destruct Hout as [(s & Hs)|Hs];
    [rewrite (called_mem _ _ _ _ _ _ _ _ _ _ Hs)|rewrite (silent_mem _ _ Hs); reflexivity].
  unfold async_mem. rewrite decide_False; [reflexivity|]. intros [_ Hno]. apply Hno. right.
  vm_compute. discriminate.
Defined.

Lemma async_bad_descriptor_silent_witness :
  exists w1 w2,
    @async_io sim_spdk XPDK_MSG_READ 7 8192 5 16 (Some (UserCallback 70)) 71 sim_open_world =
      Ok XPDK_SUCCESS w1 /\ (forall fuel, spdk_turn fuel w1 = Ok tt w2) /\
    w_calls w2 = w_calls sim_open_world.
Proof.
  destruct (@async_bad_descriptor_silent sim_spdk sim_spdk_laws sim_open_world XPDK_MSG_READ 7
    8192 5 16 70 71 sim_idle_open sim_free ltac:(done) ltac:(done) (or_introl eq_refl))
    as (w1 & w2 & Hc & Hn & Hs).
  - left. intros d _ Hd. vm_compute in Hd. injection Hd as <-. by left.
  - exists w1, w2. split_and!; [exact Hc|exact Hn|]. apply (silent_calls _ _ Hs).
Defined.
