(* ===== verification/VectoredAsync.v ===== *)
(** Asynchronous vectored I/O: the wrapped request, its completion callback, and what the
    client's segments hold when the client's callback is called. *)

From stdpp Require Import base gmap list strings.
From Stdlib Require Import Strings.Byte.
From S2P Require Import Prelude Types Memory Spdk World Sim Core Blocks Perf Bdev Qos Io.
From S2P Require Import Async Vectored Batch Poller Idle IoCorrect SyncIo VectoredCorrect AsyncCorrect.

Open Scope Z_scope.

Section VectoredAsync.
Context `{SpdkLaws}.
Implicit Types (w : world) (d : xpdk_device) (l : list xpdk_iovec) (rd s : bool).

(** ** Starting the operation *)

Lemma malloc_vctx_cases v w :
  (exists y, malloc_vctx v w = Ok NULL (set_w_sys y w)) \/
  (exists y q, malloc_vctx v w = Ok q (set_w_vctx (<[q := v]> (w_vctx w)) (set_w_sys y w)) /\
     q <> NULL /\ w_vctx w !! q = None).
Proof.
  unfold malloc_vctx. rewrite bind_get.
  destruct (sys_malloc (w_sys w) (dom (w_vctx w))) as [y q] eqn:Hq.
  destruct (decide (q = NULL)) as [->|Hne]; [left|right].
  - exists y. by rewrite bool_decide_eq_false_2 by (by intros ?).
  - exists y, q. rewrite bool_decide_eq_true_2 by done. split_and!; [done|done|].
    apply not_elem_of_dom. by apply (malloc_fresh _ _ _ _ Hq).
Qed.

(** The temporary buffer holds [bytes] and the context is filled. *)
Definition prepared (a : Z) (bytes : list byte) (dm : dma_t) (q : Z) (v : xpdk_vectored_ctx)
    (y : sys_t) (w : world) : world :=
  set_w_vctx (<[q := v]> (w_vctx w)) (set_w_sys y (with_temp a bytes dm w)).

(** Nothing was started and nothing is kept. *)
Record vectored_refused (w w' : world) : Prop := {
  refused_settled : settled w w';
  refused_mem : w_mem w' = w_mem w;
  refused_live : w_dma_live w' = w_dma_live w;
  refused_vctx : w_vctx w' = w_vctx w;
  refused_medium : medium (w_bdev w') = medium (w_bdev w)
}.

(** [xpdk_readv_async] or [xpdk_writev_async], and the request it makes. *)
Definition vectored_async (rd : bool) : Z -> Z -> Z -> Z -> option xpdk_io_callback_t -> Z -> MW Z :=
  if rd then xpdk_readv_async else xpdk_writev_async.

Definition vectored_type (rd : bool) : xpdk_msg_type := if rd then XPDK_MSG_READ else XPDK_MSG_WRITE.

Section Start.
Context (w : world) (fd : Z) (d : xpdk_device) (iov iovcnt offset : Z) (l : list xpdk_iovec).
Context (f ctx : Z).
Hypothesis Hidle : idle w.
Hypothesis Hv : valid_iov w d iov iovcnt l.

(** The context the operation keeps. *)
Definition vctx_of (a : Z) (rd : bool) : xpdk_vectored_ctx :=
  Build_vectored_ctx (UserCallback f) ctx iov iovcnt a rd.

Lemma vectored_async_eq rd :
  vectored_async rd fd iov iovcnt offset (Some (UserCallback f)) ctx w =
    (let* a := xpdk_alloc_buffer (iov_total l) 0 in
     if decide (a = NULL) then ret XPDK_ERROR_NOMEM
     else
       when (negb rd) (iovec_to_buffer iov iovcnt a) ;;
       let* q := malloc_vctx (vctx_of a rd) in
       if decide (q = NULL) then xpdk_free_buffer a ;; ret XPDK_ERROR_NOMEM
       else async_io (vectored_type rd) fd a (iov_total l) offset (Some VectoredCallback) q) w.
Proof.
  pose proof Hv as [Hne Hcnt _ _ Htot _ _].
  unfold vectored_async, xpdk_readv_async, xpdk_writev_async, is_initialized, vectored_type, vctx_of.
  destruct rd; cbn [negb when]; unfold bind at 1, gets; rewrite (idle_initialized w Hidle); cbn [negb];
    rewrite decide_False by lia;
    by rewrite (bind_ok _ _ _ _ _ (valid_iov_size w d iov iovcnt l Hv)), decide_False by lia.
Qed.

Lemma refused_no_memory dm y : vectored_refused w (set_w_sys y (set_w_dma dm w)).
Proof. destruct Hidle. by split; [split; [split|..]|..]. Qed.

(** Freeing the temporary buffer gives back the world before it. *)
Lemma free_temp_undoes a bytes dm y :
  a <> NULL -> (0 < length bytes)%nat -> unmapped (w_mem w) a (length bytes) ->
  xpdk_free_buffer a (set_w_sys y (with_temp a bytes dm w)) = Ok tt (set_w_sys y (set_w_dma dm w)).
Proof.
  intros Ha Hpos Hun. rewrite (free_temp _ a (Z.of_nat (length bytes)) Ha)
    by (simpl; apply lookup_insert_eq). simpl. rewrite Nat2Z.id, unmap_write_fresh by done.
  rewrite delete_insert_id by (by eapply temp_not_live). by destruct w.
Qed.

Lemma vectored_async_start rd :
  (exists w1, vectored_async rd fd iov iovcnt offset (Some (UserCallback f)) ctx w =
     Ok XPDK_ERROR_NOMEM w1 /\ vectored_refused w w1) \/
  (exists a bytes dm q y,
     a <> NULL /\ a mod 4096 = 0 /\ Z.of_nat (length bytes) = iov_total l /\
     unmapped (w_mem w) a (length bytes) /\
     (rd = false -> iov_bytes (w_mem w) l = Some bytes) /\
     q <> NULL /\ w_vctx w !! q = None /\
     vectored_async rd fd iov iovcnt offset (Some (UserCallback f)) ctx w =
       async_io (vectored_type rd) fd a (iov_total l) offset (Some VectoredCallback) q
         (prepared a bytes dm q (vctx_of a rd) y w)).
Proof.
  rewrite vectored_async_eq. pose proof Hv as [Hne Hcnt _ Hlen Htot _ Hmap].
  unfold xpdk_alloc_buffer. rewrite decide_False by lia. cbn [decide].
  destruct (dma_malloc_cases w (iov_total l) 4096)
    as [(dm & Ha)|(dm & a & junk & Ha & Hnn & Hal & Hjl & Hun)].
  { left. exists (set_w_sys (w_sys w) (set_w_dma dm w)).
    split; [|apply refused_no_memory]. erewrite bind_ok by exact Ha. by destruct w. }
  assert (0 < length junk)%nat as Hjp by lia.
  replace (iov_total l) with (Z.of_nat (length junk)) in Ha at 2 by lia.
  fold (with_temp a junk dm w) in Ha.
  destruct (iov_mapped_bytes _ _ Hmap) as [data Hdata].
  pose proof (iov_bytes_length _ _ _ Hlen Hdata) as Hdl. assert (length data = length junk) as Hdj by lia.
  set (bytes := if rd then junk else data).
  assert (length bytes = length junk) as Hbl by (unfold bytes; by destruct rd).
  assert (when (negb rd) (iovec_to_buffer iov iovcnt a) (with_temp a junk dm w) =
    Ok tt (with_temp a bytes dm w)) as Hfill.
  { unfold bytes. destruct rd; [done|]. cbn [negb when]. unfold iovec_to_buffer.
    rewrite (bind_ok _ _ _ _ _ (valid_iov_get w d iov iovcnt l (with_temp a junk dm w) Hv eq_refl)).
    assert (iov_apart l a (length data)) as Hap by (rewrite Hdj; by apply (iov_apart_fresh (w_mem w))).
    rewrite (gather_eq l a _ data); simpl; [|rewrite iov_bytes_write; [done|by rewrite <- Hdj]
      |rewrite Hdj; apply mapped_write_self|done].
    rewrite write_write_same by done. unfold with_temp. by rewrite Hdj. }
  destruct (malloc_vctx_cases (vctx_of a rd) (with_temp a bytes dm w))
    as [(y & Hq)|(y & q & Hq & Hqn & Hqf)].
  - left. exists (set_w_sys y (set_w_dma dm w)). split; [|apply refused_no_memory].
    erewrite bind_ok by exact Ha. rewrite decide_False by (unfold NULL; lia).
    rewrite (bind_ok _ _ _ _ _ Hfill), (bind_ok _ _ _ _ _ Hq), decide_True by done.
    erewrite bind_ok; [reflexivity|]. apply free_temp_undoes; rewrite ?Hbl; [unfold NULL; lia|done..].
  - right. exists a, bytes, dm, q, y. split_and!; try done; rewrite ?Hbl; [unfold NULL; lia|lia|done| |].
    + intros ->. done.
    + erewrite bind_ok by exact Ha. rewrite decide_False by (unfold NULL; lia).
      by rewrite (bind_ok _ _ _ _ _ Hfill), (bind_ok _ _ _ _ _ Hq), decide_False by done.
Qed.
End Start.

(** ** The completion callback *)

(** The world when [xpdk_vectored_completion_callback] returned: the client's callback was
    called, the temporary buffer and the context are gone. *)
Definition vectored_done (q a : Z) (me : memory) (c : Z * Z * Z) (W : world) : world :=
  set_w_vctx (delete q (w_vctx W)) (set_w_dma_live (delete a (w_dma_live W))
    (set_w_mem me (set_w_calls (w_calls W ++ [c]) W))).

(** The segments after an operation whose temporary buffer held [bytes]. *)
Definition scattered (rd s : bool) (me : memory) (l : list xpdk_iovec) (bytes : list byte) : memory :=
  if rd && s then iov_fill me l bytes else me.

Lemma vectored_invoke W q f ctx iov iovcnt a rd l M bytes s :
  w_vctx W !! q = Some (vctx_of iov iovcnt f ctx a rd) ->
  (forall W', w_iovs W' = w_iovs W -> get_iovs iov iovcnt W' = Ok l W') ->
  a <> NULL -> w_dma_live W !! a = Some (Z.of_nat (length bytes)) ->
  w_mem W = write_bytes M a bytes -> unmapped M a (length bytes) ->
  Z.of_nat (length bytes) = iov_total l -> Forall (fun v => 0 <= iov_len v) l -> iov_mapped M l ->
  invoke VectoredCallback q (io_status_of s) W =
    Ok tt (vectored_done q a (scattered rd s M l bytes) (f, ctx, io_status_of s) W).
Proof.
  intros Hq Hget Ha Hlive Hmem Hun Htot Hlen Hmap.
  assert (iov_apart l a (length bytes)) as Hap by (by apply (iov_apart_fresh M)).
  assert (unmap_bytes (write_bytes (scattered rd s M l bytes) a bytes) a (length bytes) =
    scattered rd s M l bytes) as Hgone.
  { apply unmap_write_fresh. unfold scattered. destruct (rd && s); [|done].
    intros x Hx. rewrite (lookup_fill_apart _ _ _ a (length bytes)) by done. by apply Hun. }
  assert (when (rd && bool_decide (io_status_of s = XPDK_SUCCESS)) (buffer_to_iovec a iov iovcnt) W =
    Ok tt (set_w_mem (write_bytes (scattered rd s M l bytes) a bytes) W)) as Hcopy.
  { replace (bool_decide (io_status_of s = XPDK_SUCCESS)) with s by (by destruct s).
    unfold scattered. destruct (rd && s); cbn [when]; [|rewrite <- Hmem; by destruct W].
    unfold buffer_to_iovec. rewrite (bind_ok _ _ _ _ _ (Hget W eq_refl)).
    rewrite (scatter_eq l a W bytes), Hmem, iov_fill_comm; try done;
      rewrite ?Hmem; [apply load_write_same|by apply iov_mapped_write]. }
  unfold invoke. cbn [invoke_callback]. unfold xpdk_vectored_completion_callback.
  rewrite bind_get, Hq. unfold from_some. rewrite bind_ret_l. cbn [vctx_of vc_is_read vc_temp_buffer
    vc_iov vc_iovcnt vc_original_callback vc_original_ctx invoke_callback].
  rewrite (bind_ok _ _ _ _ _ Hcopy).
  set (W1 := set_w_mem _ W). set (W2 := set_w_calls (w_calls W ++ [(f, ctx, io_status_of s)]) W1).
  rewrite (bind_ok _ _ _ _ _ (eq_refl : call_user f ctx (io_status_of s) W1 = Ok tt W2)).
  rewrite (bind_ok _ _ _ _ _ (free_temp W2 a (Z.of_nat (length bytes)) Ha Hlive)).
  rewrite Nat2Z.id. unfold vectored_done, modify. simpl. by rewrite Hgone.
Qed.

(** ** From the call to the callback *)

(** The client's callback was called, once, with [s]; [bytes] is what the temporary buffer held
    by then.  The buffer, the context and the message are free again. *)
Record vectored_called (rd : bool) (w : world) (d : xpdk_device) (l : list xpdk_iovec)
    (offset f ctx : Z) (s : bool) (bytes : list byte) (w' : world) : Prop := {
  vcalled_settled : settled (set_w_calls (w_calls w ++ [(f, ctx, io_status_of s)]) w) w';
  vcalled_mem : w_mem w' = scattered rd s (w_mem w) l bytes;
  vcalled_live : w_dma_live w' = w_dma_live w;
  vcalled_vctx : w_vctx w' = w_vctx w;
  vcalled_effect :
    if rd then medium (w_bdev w') = medium (w_bdev w)
    else forall data, iov_bytes (w_mem w) l = Some data ->
           write_effect w (iov_total l) offset d data (w_bdev w') (io_status_of s)
}.

(** The callback was not called and will not be: the message, the temporary buffer at [a] with
    its [bytes] and the context at [q] are lost. *)
Record vectored_silent (w : world) (a : Z) (bytes : list byte) (q : Z) (w' : world) : Prop := {
  vsilent_idle : idle w';
  vsilent_calls : w_calls w' = w_calls w;
  vsilent_mem : w_mem w' = write_bytes (w_mem w) a bytes;
  vsilent_live : w_dma_live w !! a = None /\
    w_dma_live w' = <[a := Z.of_nat (length bytes)]> (w_dma_live w);
  vsilent_vctx : w_vctx w !! q = None /\
    exists v, w_vctx w' = <[q := v]> (w_vctx w) /\ vc_temp_buffer v = a;
  vsilent_lost : exists p, p ∈ free_msgs w /\ free_msgs w' = free_msgs w ∖ {[p]};
  vsilent_medium : medium (w_bdev w') = medium (w_bdev w)
}.

Section Runs.
Context (w : world) (fd : Z) (d : xpdk_device) (iov iovcnt offset : Z) (l : list xpdk_iovec).
Context (f ctx : Z) (rd : bool).
Hypothesis Hidle : idle w.
Hypothesis Hopen : open_at w fd d.
Hypothesis Hv : valid_iov w d iov iovcnt l.
Context (a : Z) (bytes : list byte) (dm : dma_t) (q : Z) (y : sys_t).
Hypothesis Ha : a <> NULL.
Hypothesis Hbytes : Z.of_nat (length bytes) = iov_total l.
Hypothesis Hun : unmapped (w_mem w) a (length bytes).
Hypothesis Hdata : rd = false -> iov_bytes (w_mem w) l = Some bytes.
Hypothesis Hq : w_vctx w !! q = None.

Abbreviation wp := (prepared a bytes dm q (vctx_of iov iovcnt f ctx a rd) y w).
Abbreviation m := (sent_msg (vectored_type rd)
  (async_params fd a (iov_total l) offset VectoredCallback q)).

Context (p : Z) (pl : pool_t) (b : bdev_t) (r1 r2 : ring_t).
Hypothesis Hex : exchange wp p pl b r1 r2.

Abbreviation w0 := (count_io (at_handler p m pl b r1 wp)).

(** The world in which the completion callback of the request is called. *)
Definition at_callback (m1 : xpdk_msg) (b0 : bdev_t) (me0 : memory) (dm0 : dma_t) (dl : gmap Z Z)
    (me : memory) (ra : ring_t) (b' : bdev_t) : world :=
  set_w_mem me (set_w_ring (Some ra) (set_w_bdev b' (set_w_ring (Some r2)
    (io_world p m1 b0 me0 dm0 dl w0)))).

Lemma temp_blocks : (0 < length bytes)%nat /\ w_dma_live w !! a = None.
Proof.
  assert (0 < length bytes)%nat by (pose proof (vi_total _ _ _ _ _ Hv); lia).
  split; [done|]. by eapply temp_not_live.
Qed.

(** Memory, DMA blocks and client calls are what the operation changes. *)
Lemma vectored_settled m1 b0 me0 dm0 dl me ra b' r3 c me1 dl1 me2 :
  outstanding b' = [] -> ring_queue r3 = [] -> ring_capacity r3 = ring_capacity r2 ->
  (forall x n, dl1 !! x = Some n -> 0 < n /\ mapped me1 x (Z.to_nat n)) ->
  settled (set_w_calls (w_calls w ++ [c]) w)
    (set_w_ring (Some r3) (retired p pl me1 dl1
      (vectored_done q a me2 c (at_callback m1 b0 me0 dm0 dl me ra b')))).
Proof.
  intros Ho' Hq3 Hc3 Hdl.
  destruct Hidle as [Hi Hrun Hwf Hring (pl0 & Hpl & Hdis) Ho Hfr Hdma].
  destruct Hex as [Hp Hfresh Hob Hsd [_ Hcap] Hpool]. simpl in Hfresh.
  assert (delete p (<[p := m1]> (<[p := m]> (w_msgs w))) = w_msgs w) as Hmsgs
    by (by rewrite !delete_insert_eq, delete_id).
  assert (pool_free (spdk_mempool_put pl p) = pool_free pl0) as Hpf
    by (rewrite Hpool; unfold free_msgs; simpl; by rewrite Hpl).
  split; [split|..]; simpl; rewrite ?Hmsgs; try done.
  - exists r3. split_and!; [done|done|lia].
  - eexists. split; [done|]. by rewrite Hpf.
Qed.

(** The temporary buffer holds [bytes'] now.  Next to it there may be the bounce buffer of the
    handler, which goes when the callback has returned. *)
Inductive buffers_at (bytes' : list byte) (c : Z) (me : memory) (dl : gmap Z Z) : Prop :=
| buffer_only :
    c = NULL -> me = write_bytes (w_mem w) a bytes' -> dl = w_dma_live wp ->
    buffers_at bytes' c me dl
| buffer_and_bounce blk :
    c <> NULL -> (0 < length blk)%nat -> unmapped (w_mem wp) c (length blk) ->
    me = write_bytes (write_bytes (w_mem w) a bytes') c blk ->
    dl = <[c := Z.of_nat (length blk)]> (w_dma_live wp) -> buffers_at bytes' c me dl.

(** A free range next to the temporary buffer. *)
Lemma beside_temp c n :
  (0 < n)%nat -> unmapped (w_mem wp) c n ->
  disjoint_range a (length bytes) c n /\ unmapped (w_mem w) c n /\ c <> a.
Proof.
  intros Hn Hc. destruct temp_blocks as [Hpos _].
  destruct (unmapped_mapped_disjoint _ _ _ _ _ Hc (mapped_write_self (w_mem w) a bytes))
    as [Hd|[?|?]]; [|lia|lia]. unfold disjoint_range in *.
  split_and!; [lia| |lia]. intros x Hx. rewrite <- (Hc x Hx). simpl. symmetry.
  apply lookup_write_out. lia.
Qed.

(** Scattering leaves a free range free. *)
Lemma unmap_scattered s bytes' c blk :
  unmapped (w_mem w) c (length blk) ->
  unmap_bytes (scattered rd s (write_bytes (w_mem w) c blk) l bytes') c (length blk) =
    scattered rd s (w_mem w) l bytes'.
Proof.
  intros Hc. destruct Hv as [_ _ _ Hlen _ _ Hmap]. unfold scattered.
  destruct (rd && s); [|by apply unmap_write_fresh].
  assert (iov_apart l c (length blk)) as Hap by (by apply (iov_apart_fresh (w_mem w))).
  rewrite iov_fill_comm by done. apply unmap_write_fresh. intros x Hx.
  rewrite (lookup_fill_apart _ _ _ c (length blk)) by done. by apply Hc.
Qed.

Lemma scattered_live s bytes' x n :
  w_dma_live w !! x = Some n ->
  0 < n /\ mapped (scattered rd s (w_mem w) l bytes') x (Z.to_nat n).
Proof.
  intros Hx. destruct (idle_dma w Hidle x n Hx). split; [done|].
  unfold scattered. destruct (rd && s); [by apply mapped_fill|done].
Qed.

(** The completion callback returns; what is left is the segments and, until it is freed, the
    bounce buffer. *)
Lemma vectored_calls s m1 b0 me0 dm0 dl me ra b' bytes' :
  length bytes' = length bytes -> buffers_at bytes' (msg_ctx m1) me dl ->
  let W := at_callback m1 b0 me0 dm0 dl me ra b' in
  let me1 := scattered rd s (w_mem w) l bytes' in
  exists me2, invoke VectoredCallback q (io_status_of s) W =
      Ok tt (vectored_done q a me2 (f, ctx, io_status_of s) W) /\
    (msg_ctx m1 = NULL /\ me1 = me2 /\ w_dma_live w = delete a dl \/
     msg_ctx m1 <> NULL /\ exists n, delete a dl !! msg_ctx m1 = Some n /\
       me1 = unmap_bytes me2 (msg_ctx m1) (Z.to_nat n) /\
       w_dma_live w = delete (msg_ctx m1) (delete a dl)).
Proof.
  intros Hbl Hbuf W me1. pose proof Hv as [_ _ _ Hlen _ _ Hmap]. destruct temp_blocks as [Hpos Hnl].
  assert (forall M, w_dma_live W !! a = Some (Z.of_nat (length bytes')) ->
    w_mem W = write_bytes M a bytes' -> unmapped M a (length bytes') -> iov_mapped M l ->
    invoke VectoredCallback q (io_status_of s) W =
      Ok tt (vectored_done q a (scattered rd s M l bytes') (f, ctx, io_status_of s) W)) as Hcall.
  { intros M HM1 HM2 HM3 HM4. apply (vectored_invoke W q f ctx iov iovcnt); try done;
      [simpl; apply lookup_insert_eq| |by rewrite Hbl].
    intros W' HW'. by apply (valid_iov_get w d iov iovcnt l W' Hv). }
  destruct Hbuf as [Hc Hme Hdl|blk Hc Hb Hu Hme Hdl].
  - exists me1. split; [|left; by rewrite Hdl; simpl; rewrite delete_insert_id].
    apply Hcall; [simpl; rewrite Hdl, Hbl; apply lookup_insert_eq|done|by rewrite Hbl|done].
  - destruct (beside_temp _ _ Hb Hu) as (Hd & Hcw & Hca). set (x := msg_ctx m1) in *.
    exists (scattered rd s (write_bytes (w_mem w) x blk) l bytes'). split.
    + apply Hcall; [|simpl|..|by apply iov_mapped_write].
      * simpl. rewrite Hdl, Hbl. simpl. rewrite lookup_insert_ne by done. apply lookup_insert_eq.
      * rewrite Hme. apply write_bytes_comm. by rewrite Hbl.
      * rewrite Hbl. intros z Hz. rewrite lookup_write_out; [by apply Hun|].
        unfold disjoint_range in Hd. lia.
    + right. split; [done|]. exists (Z.of_nat (length blk)). rewrite Hdl. simpl. split_and!.
      * rewrite delete_insert_ne by done. apply lookup_insert_eq.
      * rewrite Nat2Z.id. unfold me1. by rewrite unmap_scattered.
      * rewrite delete_insert_ne, (delete_insert_id (w_dma_live w)) by done.
        rewrite delete_insert_id; [done|].
        apply (fresh_block_not_live w (idle_dma w Hidle) x blk); done.
Qed.

Lemma vectored_completes s m1 b0 me0 dm0 dl me ra b' bytes' :
  outstanding b' = [] -> callback_of m1 = Some (VectoredCallback, q) ->
  length bytes' = length bytes -> buffers_at bytes' (msg_ctx m1) me dl ->
  exists w2, async_io_completion_cb invoke s p (at_callback m1 b0 me0 dm0 dl me ra b') = Ok tt w2 /\
    w_ring w2 = Some ra /\ forall r3, ring_queue r3 = [] -> ring_capacity r3 = ring_capacity r2 ->
      let w3 := set_w_ring (Some r3) w2 in
      settled (set_w_calls (w_calls w ++ [(f, ctx, io_status_of s)]) w) w3 /\
      w_mem w3 = scattered rd s (w_mem w) l bytes' /\ w_dma_live w3 = w_dma_live w /\
      w_vctx w3 = w_vctx w /\ w_bdev w3 = b'.
Proof.
  intros Ho Hcb Hbl Hbuf. set (W := at_callback m1 b0 me0 dm0 dl me ra b').
  destruct (vectored_calls s m1 b0 me0 dm0 dl me ra b' bytes' Hbl Hbuf) as (me2 & Hinv & Hfree).
  fold W in Hinv. set (me1 := scattered rd s (w_mem w) l bytes') in *.
  exists (retired p pl me1 (w_dma_live w) (vectored_done q a me2 (f, ctx, io_status_of s) W)).
  split_and!; [|done|].
  - apply (completion_frees W p m1 pl VectoredCallback q s); try done; [apply Hex|].
    simpl. apply lookup_insert_eq.
  - intros r3 Hq3 Hc3. split_and!; [|done|done| |done].
    + apply vectored_settled; try done. intros. by apply scattered_live.
    + simpl. by rewrite delete_insert_id.
Qed.

(** What the temporary buffer of a read holds when the callback is called with success. *)
Definition temp_after : list byte :=
  if decide (needs_bounce d a (iov_total l)) then bytes
  else medium_bytes (medium (w_bdev w) (dev_bdev d)) (start_of d offset) (Z.to_nat (iov_total l)).

Abbreviation kind := (if rd then IoRead else IoWrite).
Abbreviation req := (async_req p (iov_total l) offset d).

(** A request under way, whatever its buffers, ends with the client's callback. *)
Lemma vectored_request_runs m1 b0 me0 dm0 dl buf :
  outstanding b0 = [WIo (req kind buf)] -> same_data b b0 -> msg_u m1 = msg_u m ->
  (rd = true -> mapped me0 buf (req_len desc_bdev (req kind buf))) ->
  (forall s data b', media_change me0 (req kind buf) s (medium (w_bdev w)) (medium b') ->
     (rd = true -> data = if s then medium_bytes (medium (w_bdev w) (dev_bdev d)) (start_of d offset)
                                       (req_len desc_bdev (req kind buf)) else []) ->
     (rd = false -> write_effect w (iov_total l) offset d bytes b' (io_status_of s)) /\
     buffers_at (if rd && s then temp_after else bytes) (msg_ctx m1)
       (transferred (req kind buf) data me0) dl) ->
  exists n s w2, vectored_called rd w d l offset f ctx s temp_after w2 /\
    forall fuel, turns fuel n (set_w_ring (Some r2) (io_world p m1 b0 me0 dm0 dl w0)) = Ok tt w2.
Proof.
  intros Ho Hsd Hu Hmap Hstep. set (w1 := set_w_ring (Some r2) (io_world p m1 b0 me0 dm0 dl w0)).
  assert (forall s : bool, length (if rd && s then temp_after else bytes) = length bytes) as Hlt.
  { intros s. destruct (rd && s); [|done]. unfold temp_after. case_decide; [done|].
    rewrite medium_bytes_length. lia. }
  destruct (request_turns w1 r2 p (req kind buf) (fun w2 => exists s,
      forall r3, ring_queue r3 = [] -> ring_capacity r3 = ring_capacity r2 ->
      vectored_called rd w d l offset f ctx s temp_after (set_w_ring (Some r3) w2)))
    as (n & w2 & r3 & Hq3 & Hc3 & (s & HQ) & _ & Hn);
    [done|apply Hex|by apply (idle_running w Hidle)|done|done| | |].
  - intros Hk. apply Hmap. by destruct rd.
  - intros s data b' ra Ho' Hread Hmedia.
    assert (medium (w_bdev w1) = medium (w_bdev w)) as Hmd.
    { destruct Hsd as (Hsd & _), (ex_same _ _ _ _ _ _ Hex) as (Hb & _). simpl in *. congruence. }
    rewrite Hmd in Hread, Hmedia.
    rewrite (req_pos_eq w fd offset d Hopen (req kind buf)) in Hread by done.
    destruct (proj2 (proj2 Hopen)) as [_ _ _ _ Hdesc].
    cbn [rq_kind rq_desc async_req] in Hread. rewrite Hdesc in Hread.
    destruct (Hstep s data b' Hmedia) as (He & Hbuf); [intros Hr; apply Hread; by rewrite Hr|].
    destruct (vectored_completes s m1 b0 me0 dm0 dl _ ra b' _ Ho'
      ltac:(unfold callback_of; by rewrite Hu) (Hlt s) Hbuf)
      as (w2 & Hw2 & Hr2 & Hfin).
    exists w2. split_and!; [exact Hw2|done|]. exists s. intros r3 Hq3 Hc3.
    destruct (Hfin r3 Hq3 Hc3) as (Hs & Hme & Hdl & Hvc & Hbd). split; try done.
    + rewrite Hme. unfold scattered. by destruct rd, s.
    + rewrite Hbd. destruct rd; [apply Hmedia; by left|]. intros data0 Hd0.
      rewrite (Hdata eq_refl) in Hd0. injection Hd0 as <-. by apply He.
  - exists n, s, (set_w_ring (Some r3) w2). split; [by apply HQ|done].
Qed.

Lemma prepared_valid : valid_buffer wp d a (iov_total l).
Proof.
  destruct Hv as [_ _ _ _ Ht Hs _].
  destruct (temp_valid w d a bytes dm (iov_total l) Ha Ht Hs Hbytes). by split.
Qed.

Lemma direct_read_runs b0 :
  rd = true -> ~ needs_bounce d a (iov_total l) -> outstanding b0 = [WIo (req IoRead a)] ->
  same_data b b0 ->
  exists n s w2, vectored_called rd w d l offset f ctx s temp_after w2 /\
    forall fuel, turns fuel n (set_w_ring (Some r2)
      (io_world p m b0 (w_mem w0) (w_dma w0) (w_dma_live w0) w0)) = Ok tt w2.
Proof.
  intros Hrd Hno Ho Hsd. destruct prepared_valid as [_ Hc Hsmall Hmapped].
  assert (kind = IoRead) as Hk by (by rewrite Hrd).
  pose proof (block_size_range (dev_bdev d)) as Hbs.
  assert (req_len desc_bdev (req IoRead a) = Z.to_nat (iov_total l)) as Hrl.
  { unfold needs_bounce in Hno. rewrite (req_len_eq w fd (iov_total l) d Hopen (req IoRead a)) by done.
    by rewrite num_blocks_multiple by (lia || done). }
  apply (vectored_request_runs m b0 _ _ _ a); rewrite ?Hk; try done; [by rewrite Hrl|].
  intros s data b' _ Hread. specialize (Hread Hrd). rewrite Hrl in Hread.
  split; [congruence|]. apply buffer_only; [done| |done].
  rewrite Hrd. unfold temp_after. rewrite decide_False by done. simpl. destruct s; subst data; [|done].
  apply write_write_same. rewrite medium_bytes_length. lia.
Qed.

Lemma bounced_request_runs c data dm0 b0 :
  (rd = true -> needs_bounce d a (iov_total l)) ->
  (rd = false -> exists bytes0, data = padded (iov_total l) d bytes0 /\
     load_bytes (w_mem wp) a (Z.to_nat (iov_total l)) = Some bytes0) ->
  c <> NULL -> length data = Z.to_nat (num_blocks (iov_total l) (spdk_bdev_get_block_size (dev_bdev d)) *
    spdk_bdev_get_block_size (dev_bdev d)) -> (0 < length data)%nat ->
  unmapped (w_mem wp) c (length data) -> outstanding b0 = [WIo (req kind c)] -> same_data b b0 ->
  exists n s w2, vectored_called rd w d l offset f ctx s temp_after w2 /\
    forall fuel, turns fuel n (set_w_ring (Some r2)
      (io_world p (set_msg_ctx c m) b0 (write_bytes (w_mem w0) c data) dm0
        (<[c := Z.of_nat (length data)]> (w_dma_live w0)) w0)) = Ok tt w2.
Proof.
  intros Hrd Hwr Hc Hl Hpos Hu Ho Hsd.
  assert (req_len desc_bdev (req kind c) = length data) as Hrl
    by (rewrite Hl; by apply (req_len_eq w fd (iov_total l) d Hopen)).
  apply (vectored_request_runs (set_msg_ctx c m) b0 _ dm0 _ c Ho Hsd eq_refl).
  - intros _. rewrite Hrl. apply mapped_write_self.
  - intros s data1 b' Hmedia Hread. split.
    + intros Hf. destruct (Hwr Hf) as (bytes0 & -> & Hb0). simpl in Hb0.
      replace (Z.to_nat (iov_total l)) with (length bytes) in Hb0 by lia.
      rewrite load_write_same in Hb0. injection Hb0 as <-.
      eapply (write_media_effect wp p fd a (iov_total l) offset d Hopen prepared_valid bytes c);
        [lia|apply load_write_same|]. rewrite Hf in Hmedia. exact Hmedia.
    + destruct rd; [rewrite Hrl in Hread; specialize (Hread eq_refl); specialize (Hrd eq_refl)|].
      * apply (buffer_and_bounce _ _ _ _ (if s then data1 else data)); try done; unfold temp_after;
          rewrite ?decide_True by done; destruct s; subst data1; simpl;
          rewrite ?medium_bytes_length; try done.
        by apply write_write_same; rewrite medium_bytes_length.
      * by apply (buffer_and_bounce _ _ _ _ data).
Qed.

Lemma vectored_handled_runs wh :
  p ∈ free_msgs wp -> pool_free pl = free_msgs wp ∖ {[p]} ->
  async_handled w0 p m a (iov_total l) offset d kind wh ->
  exists n w2, ((exists s, vectored_called rd w d l offset f ctx s temp_after w2) \/
      vectored_silent w a bytes q w2) /\
    forall fuel, turns fuel n (set_w_ring (Some r2) wh) = Ok tt w2.
Proof.
  pose proof (ex_outstanding _ _ _ _ _ _ Hex) as Hnone. destruct temp_blocks as [Hpos Hnl].
  assert (idle wp) as Hip by (destruct (with_temp_idle w a bytes dm Hidle Hpos); by split).
  intros Hin Hpf [st m' b' dm0 Hst Hs Hmc _ Ho Hsd|b' Hk Hno Ho Hsd
    |b' c data dm0 Hrd Hwr Hc Hl Hp0 Hu Ho Hsd]; cbn [w_bdev count_io at_handler] in Ho;
    simpl in Ho; rewrite Hnone in Ho.
  - exists 0%nat, (set_w_ring (Some r2) (io_world p m' b' (w_mem wp) dm0 (w_dma_live wp) w0)).
    split; [right|done].
    destruct (proj2 (silent_async wp p pl b r1 r2 m m' b' dm0 Hip Hex Hin Hpf Ho
      ltac:(destruct Hsd as (? & ? & ?), (ex_same _ _ _ _ _ _ Hex) as (? & ? & ?); split_and!; etrans; done)
      Hmc ltac:(rewrite Hs; by destruct Hst as [->| ->]))).
    destruct silent_lost as (p0 & _ & Hp0 & Hf0 & _).
    split; try done; [split; [done|]; by eexists|by exists p0].
  - destruct (direct_read_runs b') as (n & s & w2 & Hc & Hn); [by destruct rd|done| |done|].
    { by rewrite Hk in Ho. }
    exists n, w2. eauto.
  - destruct (bounced_request_runs c data dm0 b') as (n & s & w2 & Hcl & Hn); try done.
    { intros ->. by apply Hrd. }
    { intros ->. by apply Hwr. }
    exists n, w2. eauto.
Qed.
End Runs.

(** With a block size that divides the alignment of the temporary buffer, only a total that is
    not a multiple of the block needs the bounce buffer. *)
Lemma temp_after_blocks w d offset l a bytes :
  a mod 4096 = 0 -> 4096 mod spdk_bdev_get_block_size (dev_bdev d) = 0 ->
  temp_after w d offset l a bytes =
    if decide (iov_total l mod spdk_bdev_get_block_size (dev_bdev d) = 0)
    then medium_bytes (medium (w_bdev w) (dev_bdev d)) (start_of d offset) (Z.to_nat (iov_total l))
    else bytes.
Proof.
  intros Ha Hbs. set (bs := spdk_bdev_get_block_size (dev_bdev d)) in *.
  assert (0 < bs) as Hpos by (unfold bs; pose proof (block_size_range (dev_bdev d)); lia).
  assert (a mod bs = 0) as Hab.
  { apply Z.mod_divide in Ha, Hbs; [|lia..]. apply Z.mod_divide; [lia|]. by etrans. }
  unfold temp_after, needs_bounce. fold bs. rewrite Hab.
  destruct (decide (iov_total l mod bs = 0)); [by rewrite decide_False by lia|].
  by rewrite decide_True by lia.
Qed.

Lemma vectored_async_ends w rd fd d iov iovcnt offset l f ctx :
  idle w -> free_msgs w <> ∅ -> open_at w fd d ->
  (rd = true -> Z.land (dev_flags d) O_WRONLY = 0) -> valid_iov w d iov iovcnt l ->
  exists rc w1, vectored_async rd fd iov iovcnt offset (Some (UserCallback f)) ctx w = Ok rc w1 /\
    (rc = XPDK_ERROR_NOMEM /\ vectored_refused w w1 \/
     rc = XPDK_SUCCESS /\ exists n w2 a bytes q,
       (forall fuel, turns fuel n w1 = Ok tt w2) /\ a mod 4096 = 0 /\
       Z.of_nat (length bytes) = iov_total l /\ unmapped (w_mem w) a (length bytes) /\
       (rd = false -> iov_bytes (w_mem w) l = Some bytes) /\
       ((exists s, vectored_called rd w d l offset f ctx s (temp_after w d offset l a bytes) w2) \/
        vectored_silent w a bytes q w2)).
Proof.
  intros Hidle Hfree Hopen Hfl Hv.
  destruct (vectored_async_start w fd d iov iovcnt offset l f ctx Hidle Hv rd)
    as [(w1 & He & Hr)|(a & bytes & dm & q & y & Ha & Hal & Hbytes & Hun & Hdata & Hqn & Hq & He)].
  { exists XPDK_ERROR_NOMEM, w1. auto. }
  destruct (temp_blocks w d iov iovcnt l Hidle Hv a bytes Hbytes Hun) as [Hpos _].
  set (wp := prepared a bytes dm q _ y w) in *.
  assert (idle wp) as Hip by (destruct (with_temp_idle w a bytes dm Hidle Hpos); by split).
  destruct (async_handler_turn wp (vectored_type rd) (if rd then IoRead else IoWrite) fd d a
    (iov_total l) offset VectoredCallback q)
    as (p & pl & b & r1 & r2 & w1 & wh & Hex & Hin & Hpf & Hcall & Hturn & Hah); [done..| | |].
  { exact (prepared_valid w d iov iovcnt l f ctx rd Hv a bytes dm q y Ha Hbytes). }
  { destruct rd; [left; split_and!; [done|done|by apply Hfl]|by right]. }
  destruct (vectored_handled_runs w fd d iov iovcnt offset l f ctx rd Hidle Hopen Hv a bytes dm q y
    Ha Hbytes Hun Hdata Hq p pl b r1 r2 Hex wh Hin Hpf Hah) as (n & w2 & Hout & Hn).
  exists XPDK_SUCCESS, w1. split; [congruence|right]. split; [done|].
  exists (1 + n)%nat, w2, a, bytes, q. split_and!; try done.
  intros fuel. rewrite (turns_app fuel 1 n w1 _ (Hturn fuel)). apply Hn.
Qed.

(** C16: [xpdk_writev_async] with valid segments on an open device either returns
    [XPDK_ERROR_NOMEM] and keeps nothing, or returns [XPDK_SUCCESS], and after some turns of
    the SPDK thread nothing of it is under way any more.  Then either the client's callback
    was called exactly once: a success means that the bytes of the segments, one after the
    other and padded to a block, are on the medium, and the temporary buffer, the context and
    the message are free again.  Or the request was given up: the callback is never called,
    and message, temporary buffer and context are lost. *)
Theorem writev_async_completes w fd d iov iovcnt offset l f ctx :
  idle w -> free_msgs w <> ∅ -> open_at w fd d -> valid_iov w d iov iovcnt l ->
  exists rc w1,
    xpdk_writev_async fd iov iovcnt offset (Some (UserCallback f)) ctx w = Ok rc w1 /\
    (rc = XPDK_ERROR_NOMEM /\ vectored_refused w w1 \/
     rc = XPDK_SUCCESS /\ exists n w2 a bytes q,
       (forall fuel, turns fuel n w1 = Ok tt w2) /\ iov_bytes (w_mem w) l = Some bytes /\
       ((exists s, vectored_called false w d l offset f ctx s bytes w2) \/
        vectored_silent w a bytes q w2)).
Proof.
  intros Hidle Hfree Hopen Hv.
  destruct (vectored_async_ends w false fd d iov iovcnt offset l f ctx)
    as (rc & w1 & He & [Hr|(-> & n & w2 & a & bytes & q & Hn & _ & _ & _ & Hd & Hout)]); try done.
  - exists rc, w1. auto.
  - exists XPDK_SUCCESS, w1. split; [done|right]. split; [done|]. exists n, w2, a, bytes, q.
    split_and!; [done|by apply Hd|]. destruct Hout as [(s & [])|Hout]; [left; exists s; by split|by right].
Qed.

End VectoredAsync.

(** ** Witnesses *)

Lemma writev_async_completes_witness :
  exists rc w1,
    @xpdk_writev_async sim_spdk 0 50000 2 16 (Some (UserCallback 70)) 71 sim_iov_world = Ok rc w1 /\
    (rc = XPDK_ERROR_NOMEM \/ exists n w2, forall fuel, turns fuel n w1 = Ok tt w2).
Proof.
  destruct (@writev_async_completes sim_spdk sim_spdk_laws sim_iov_world 0 sim_open_device 50000 2 16
    sim_iovs 70 71 sim_idle_iov sim_free sim_open_at sim_valid_iov)
    as (rc & w1 & He & [[Hr _]|(_ & n & w2 & _ & _ & _ & Hn & _)]).
  - exists rc, w1. split; [exact He|]. left. exact Hr.
  - exists rc, w1. split; [exact He|]. right. exists n, w2. exact Hn.
Defined.


(** The same on the simulator: the read ends with one successful call, and the five bytes of the
    segments are those of the fresh temporary buffer, not the ones just written. *)
Example readv_async_run :
  let op := xpdk_writev_async 0 50000 2 16 (Some (UserCallback 70)) 71 ;; turns 9 9 ;;
            xpdk_readv_async 0 50000 2 16 (Some (UserCallback 70)) 72 ;; turns 9 9 in
  match @op sim_iov_world with
  | Ok _ w => (w_calls w, iov_bytes (w_mem w) sim_iovs, size (w_vctx w))
  | _ => ([], None, 7%nat)
  end = ([(70, 71, 0); (70, 72, 0)], Some (replicate 5 xff), 0%nat).
Proof. vm_compute. reflexivity. Qed.
