(* ===== verification/BatchCorrect.v ===== *)
(** Batches: the operations of src/xpdk_batch.c on the context in the store, against the
    abstract queues of [Batch], and what becomes of a batch sent as one message. *)

From stdpp Require Import base gmap list strings.
From Stdlib Require Import Strings.Byte.
From S2P Require Import Prelude Types Memory Spdk World Sim Core Blocks Perf Bdev Qos Io.
From S2P Require Import Async Vectored Batch Poller Idle IoCorrect SyncIo AsyncCorrect.

Open Scope Z_scope.

Section BatchCorrect.
Context `{SpdkLaws}.
Implicit Types (w : world) (c : xpdk_batch_ctx) (s : batch_spec) (io : xpdk_batch_io).

Definition w_put_bctx (ctx : Z) (c : xpdk_batch_ctx) (w : world) : world :=
  set_w_batch (<[ctx := c]> (w_batch w)) w.

Lemma get_bctx_eq w ctx c : w_batch w !! ctx = Some c -> get_bctx ctx w = Ok c w.
Proof. intros Hc. unfold get_bctx, bind, get. by rewrite Hc. Qed.

(** The store holds at [ctx] a context that represents the queues [s]. *)
Definition batch_at (w : world) (ctx : Z) (s : batch_spec) : Prop :=
  ctx <> NULL /\ exists c, w_batch w !! ctx = Some c /\ represents c s.

(** ** Processing completions *)

(** The calls of the client's callback for the operations [l]. *)
Definition batch_calls (cb : option xpdk_io_callback_t) (l : list xpdk_batch_io) :
    list (Z * Z * Z) :=
  match cb with
  | Some (UserCallback f) => (fun io => (f, io_user_ctx io, io_status io)) <$> l
  | _ => []
  end.

(** A context whose global callback is a function of the client, or none. *)
Definition client_callback (c : xpdk_batch_ctx) : Prop :=
  bc_global_callback c = None \/ exists f, bc_global_callback c = Some (UserCallback f).

Lemma process_loop_eq (n : nat) : forall w ctx c s (k : nat),
  represents c s -> client_callback c -> (k <= length (bs_completed s))%nat ->
  w_batch w !! ctx = Some (set_bc_completed_ios (Z.of_nat (length (bs_completed s) - k)) c) ->
  exists j : nat, j = (n `min` (length (bs_completed s) - k))%nat /\
    process_loop invoke n ctx (Z.of_nat k) w =
      Ok (Z.of_nat (k + j))
        (w_put_bctx ctx (set_bc_completed_ios (Z.of_nat (length (bs_completed s) - (k + j))) c)
          (set_w_calls (w_calls w ++ batch_calls (bc_global_callback c)
             (take j (drop k (bs_completed s)))) w)).
Proof.
  assert (forall w ctx c, w_batch w !! ctx = Some c ->
    w = w_put_bctx ctx c (set_w_calls (w_calls w ++ []) w)) as Hid.
  { intros w ctx c Hc. unfold w_put_bctx. rewrite app_nil_r. simpl. rewrite insert_id by done.
    by destruct w. }
  induction n as [|n IH]; intros w ctx c s k Hrep Hcb Hk Hc.
  - exists 0%nat. split; [done|]. simpl. unfold ret. rewrite Nat.add_0_r. f_equal.
    replace (batch_calls _ []) with (@nil (Z * Z * Z))
      by (by destruct (bc_global_callback c) as [[]|]). by apply Hid.
  - cbn [process_loop]. rewrite (bind_ok _ _ _ _ _ (get_bctx_eq _ _ _ Hc)).
    case_decide as Hd; simpl in Hd.
    + destruct (lookup_lt_is_Some_2 (bs_completed s) k) as [io Hio]; [lia|].
      assert (queue_get (bc_completed_queue c) (Z.of_nat k) = Some io) as Hget.
      { rewrite (holds_get _ _ _ (rep_completed_queue _ _ Hrep)) by lia. done. }
      simpl bc_completed_queue. rewrite Hget. cbn [from_some]. rewrite bind_ret_l.
      simpl bc_global_callback.
      set (w1 := set_w_calls (w_calls w ++ batch_calls (bc_global_callback c) [io]) w).
      assert ((match bc_global_callback c with
               | Some f => invoke f (io_user_ctx io) (io_status io)
               | None => ret tt
               end) w = Ok tt w1) as Hcall.
      { unfold w1. destruct Hcb as [->|[f ->]]; simpl; [|done]. rewrite app_nil_r. by destruct w. }
      rewrite (bind_ok _ _ _ _ _ Hcall).
      rewrite (bind_ok _ _ _ _ _ (get_bctx_eq w1 _ _ Hc)).
      set (c1 := set_bc_completed_ios (Z.of_nat (length (bs_completed s) - S k)) c).
      assert (batch_pop (set_bc_completed_ios (Z.of_nat (length (bs_completed s) - k)) c) = c1)
        as -> by (unfold batch_pop, c1; simpl; unfold set_bc_completed_ios; simpl; f_equal; lia).
      rewrite (bind_ok _ _ _ _ _ (eq_refl : put_bctx ctx c1 w1 = Ok tt (w_put_bctx ctx c1 w1))).
      destruct (IH (w_put_bctx ctx c1 w1) ctx c s (S k)) as (j & Hj & Heq);
        [done|done|lia|simpl; apply lookup_insert_eq|].
      exists (S j). split; [lia|]. replace (Z.of_nat k + 1) with (Z.of_nat (S k)) by lia.
      rewrite Heq. replace (S k + j)%nat with (k + S j)%nat by lia. f_equal.
      assert (batch_calls (bc_global_callback c) (take (S j) (drop k (bs_completed s))) =
        batch_calls (bc_global_callback c) [io] ++
        batch_calls (bc_global_callback c) (take j (drop (S k) (bs_completed s)))) as Hcalls
        by (rewrite (drop_S _ io k Hio); by destruct Hcb as [->|[f ->]]).
      rewrite Hcalls, app_assoc. unfold w_put_bctx, w1. simpl. by rewrite insert_insert_eq.
    + exists 0%nat. split; [lia|]. unfold ret. rewrite Nat.add_0_r. f_equal.
      replace (batch_calls _ _) with (@nil (Z * Z * Z))
        by (by destruct (bc_global_callback c) as [[]|]). by apply Hid.
Qed.
(** C32: [xpdk_batch_process_completions] takes the oldest completions off a batch context, as
    many as there are and at most [max_completions]; it returns their number, calls the
    callback of the context (when it has one) once for each of them, in order, with its
    user context and status, and leaves the abstract queues without them. *)
Theorem batch_process_completions_correct w ctx s max_completions :
  batch_at w ctx s ->
  (forall c, w_batch w !! ctx = Some c -> client_callback c) ->
  exists (n : nat) c w', w_batch w !! ctx = Some c /\
    Z.of_nat n = Z.min (Z.max 0 max_completions) (Z.of_nat (length (bs_completed s))) /\
    xpdk_batch_process_completions invoke ctx max_completions w = Ok (Z.of_nat n) w' /\
    batch_at w' ctx (spec_process s n) /\
    w_calls w' = w_calls w ++ batch_calls (bc_global_callback c) (take n (bs_completed s)) /\
    w_msgs w' = w_msgs w /\ w_mem w' = w_mem w.
Proof.
  intros (Hnn & c & Hc & Hrep) Hcb. specialize (Hcb c Hc).
  assert (c = set_bc_completed_ios (Z.of_nat (length (bs_completed s) - 0)) c) as Hself.
  { rewrite Nat.sub_0_r, <- (rep_completed _ _ Hrep). by destruct c. }
  destruct (process_loop_eq (Z.to_nat max_completions) w ctx c s 0 Hrep Hcb ltac:(lia))
    as (n & Hn & Heq); [by rewrite <- Hself|].
  rewrite Nat.add_0_l in Heq.
  destruct (batch_compact_refines c s n Hrep) as (c' & Hcomp & Hrep'); [lia|].
  set (w1 := w_put_bctx ctx _ _) in Heq.
  exists n, c, (w_put_bctx ctx c' w1). split_and!; [done|lia| | | |done|done].
  - unfold xpdk_batch_process_completions. rewrite decide_False by done.
    rewrite (bind_ok _ _ _ _ _ Heq).
    erewrite bind_ok by (apply get_bctx_eq; simpl; apply lookup_insert_eq).
    by rewrite Hcomp.
  - split; [done|]. exists c'. split; [simpl; apply lookup_insert_eq|done].
  - done.
Qed.

(** ** Submitting one operation *)

(** What of that concerns a batch. *)
Lemma async_io_returns w type fd ub count offset cb ctx pl ring :
  w_pool w = Some pl -> pool_free pl ## dom (w_msgs w) -> w_ring w = Some ring ->
  exists rc w' ring',
    async_io type fd ub count offset (Some cb) ctx w = Ok rc w' /\ w_ring w' = Some ring' /\
    w_batch w' = w_batch w /\ w_calls w' = w_calls w /\
    (rc = XPDK_SUCCESS -> exists p, ring_queue ring' = ring_queue ring ++ [p] /\
       p ∈ pool_free pl /\
       w_msgs w' = <[p := sent_msg type (async_params fd ub count offset cb ctx)]> (w_msgs w)) /\
    (rc <> XPDK_SUCCESS -> ring_queue ring' = ring_queue ring /\ w_msgs w' = w_msgs w).
Proof.
  intros Hpl Hdis Hr. destruct (async_io_world w type fd ub count offset cb ctx pl ring Hpl Hdis Hr)
    as (rc & pl' & ring' & ms & Heq & _ & Hout).
  exists rc, (set_w_ring (Some ring') (set_w_pool (Some pl') (set_w_msgs ms w))), ring'.
  destruct Hout as [(-> & _ & _ & p & _ & Hin & _ & Hq & ->)|(Hrc & _ & Hq & ->)].
  - split_and!; try done. intros _. by exists p.
  - split_and!; try done. intros ->. by destruct Hrc as [|[|]].
Qed.

Definition io_msg_type (io : xpdk_batch_io) : option xpdk_msg_type :=
  match io_type io with
  | XPDK_IO_READ => Some XPDK_MSG_READ
  | XPDK_IO_WRITE => Some XPDK_MSG_WRITE
  | _ => None
  end.

Lemma unqueue_represents c s io :
  represents c (Build_batch_spec (bs_max s) (bs_pending s ++ [io]) (bs_completed s)) ->
  represents (batch_unqueue c) s.
Proof.
  intros [Hm Hp Hc [rest Hpq] Hcq Hps Hcs]. simpl in *. split; simpl; try done.
  - rewrite Hp, length_app. simpl. lia.
  - exists (Some io :: rest). rewrite Hpq, fmap_app, <- app_assoc. done.
Qed.

(** The call of [xpdk_batch_submit_one] that submits the operation. *)
Definition submit_call (ctx : Z) (io : xpdk_batch_io) : MW Z :=
  match io_msg_type io with
  | Some type =>
      async_io type (io_fd io) (io_buffer io) (io_count io) (io_offset io) (Some BatchCallback) ctx
  | None => ret XPDK_ERROR_INVALID
  end.

Lemma submit_one_eq w ctx c c' io :
  ctx <> NULL -> w_batch w !! ctx = Some c -> batch_enqueue c io = Some (Some c') ->
  xpdk_batch_submit_one ctx (Some io) w =
    (let* rc := submit_call ctx io in
     when (bool_decide (rc <> XPDK_SUCCESS))
       (let* c := get_bctx ctx in put_bctx ctx (batch_unqueue c)) ;;
     ret rc) (w_put_bctx ctx c' w).
Proof.
  intros Hnn Hc He. unfold xpdk_batch_submit_one. rewrite decide_False by done.
  rewrite (bind_ok _ _ _ _ _ (get_bctx_eq _ _ _ Hc)), He. cbn [from_some]. rewrite bind_ret_l.
  rewrite (bind_ok _ _ _ _ _ (eq_refl : put_bctx ctx c' w = Ok tt (w_put_bctx ctx c' w))).
  unfold submit_call, io_msg_type. by destruct (io_type io).
Qed.

(** C31: [xpdk_batch_submit_one] on a context.  A full context gives [XPDK_ERROR_BUSY] and
    changes nothing.  Otherwise a success means that the operation is a read or a write, is
    the youngest pending one of the context, and that a message for it, with the completion
    callback of batches and the context, is the youngest on the ring; a failure leaves the
    abstract queues, the messages in use and the ring as they were.  An operation of another
    type is [XPDK_ERROR_INVALID].  The call always returns and no callback is called. *)
Theorem batch_submit_one_correct w ctx s io pl ring :
  batch_at w ctx s -> w_pool w = Some pl -> pool_free pl ## dom (w_msgs w) ->
  w_ring w = Some ring ->
  exists rc w' ring',
    xpdk_batch_submit_one ctx (Some io) w = Ok rc w' /\ w_ring w' = Some ring' /\
    w_calls w' = w_calls w /\
    (bs_max s <= Z.of_nat (length (bs_pending s)) -> rc = XPDK_ERROR_BUSY /\ w' = w) /\
    (Z.of_nat (length (bs_pending s)) < bs_max s -> io_msg_type io = None ->
       rc = XPDK_ERROR_INVALID) /\
    (rc = XPDK_SUCCESS ->
       batch_at w' ctx (Build_batch_spec (bs_max s) (bs_pending s ++ [io]) (bs_completed s)) /\
       exists type p, io_msg_type io = Some type /\ ring_queue ring' = ring_queue ring ++ [p] /\
         w_msgs w' = <[p := sent_msg type (async_params (io_fd io) (io_buffer io) (io_count io)
           (io_offset io) BatchCallback ctx)]> (w_msgs w)) /\
    (rc <> XPDK_SUCCESS ->
       batch_at w' ctx s /\ ring_queue ring' = ring_queue ring /\ w_msgs w' = w_msgs w).
Proof.
  intros Hat Hpl Hdis Hr. pose proof Hat as (Hnn & c & Hc & Hrep).
  pose proof (batch_enqueue_refines c s io Hrep) as He. unfold spec_enqueue in He.
  case_decide as Hroom.
  2: { exists XPDK_ERROR_BUSY, w, ring. split_and!; try done; try lia.
       unfold xpdk_batch_submit_one. rewrite decide_False by done.
       by rewrite (bind_ok _ _ _ _ _ (get_bctx_eq _ _ _ Hc)), He. }
  destruct He as (c' & He & Hrep'). pose proof (submit_one_eq w ctx c c' io Hnn Hc He) as Heq.
  set (w1 := w_put_bctx ctx c' w) in *.
  assert (exists rc w2 ring', submit_call ctx io w1 = Ok rc w2 /\ w_ring w2 = Some ring' /\
    w_batch w2 = w_batch w1 /\ w_calls w2 = w_calls w /\
    (io_msg_type io = None -> rc = XPDK_ERROR_INVALID) /\
    (rc = XPDK_SUCCESS -> exists type p, io_msg_type io = Some type /\
       ring_queue ring' = ring_queue ring ++ [p] /\
       w_msgs w2 = <[p := sent_msg type (async_params (io_fd io) (io_buffer io) (io_count io)
           (io_offset io) BatchCallback ctx)]> (w_msgs w)) /\
    (rc <> XPDK_SUCCESS -> ring_queue ring' = ring_queue ring /\ w_msgs w2 = w_msgs w))
    as (rc & w2 & ring' & Hcall & Hr2 & Hb2 & Hc2 & Hnone & Hok & Herr).
  { unfold submit_call. destruct (io_msg_type io) as [type|].
    - destruct (async_io_returns w1 type (io_fd io) (io_buffer io) (io_count io) (io_offset io)
        BatchCallback ctx pl ring) as (rc & w2 & ring' & ? & ? & ? & ? & Hok & Herr); [done..|].
      exists rc, w2, ring'. split_and!; try done. intros Hrc.
      destruct (Hok Hrc) as (p & ? & _ & ?). by exists type, p.
    - by exists XPDK_ERROR_INVALID, w1, ring. }
  assert (w_batch w2 !! ctx = Some c') as Hcx by (rewrite Hb2; simpl; apply lookup_insert_eq).
  rewrite Heq, (bind_ok _ _ _ _ _ Hcall). destruct (decide (rc = XPDK_SUCCESS)) as [->|Hne].
  - exists XPDK_SUCCESS, w2, ring'. split_and!; try done; try lia; try (by auto).
    split; [|by apply Hok]. split; [done|]. by exists c'.
  - exists rc, (w_put_bctx ctx (batch_unqueue c') w2), ring'.
    split_and!; try done; try lia; try (intros; by auto).
    + rewrite bool_decide_eq_true_2 by done. cbn [when]. rewrite bind_assoc.
      by rewrite (bind_ok _ _ _ _ _ (get_bctx_eq _ _ _ Hcx)).
    + intros _. destruct (Herr Hne) as [? ?]. split_and!; try done.
      split; [done|]. exists (batch_unqueue c'). split; [simpl; apply lookup_insert_eq|].
      by apply (unqueue_represents c' s io).
Qed.

(** ** A batch in one message *)

(** [xpdk_batch_submit] never runs its batch: with valid arguments it returns
    [XPDK_SUCCESS], and one turn later the library is idle again although no operation of the
    batch was submitted, no callback was called, and the array of the client still has its
    old status fields: the message, of a type that the poller does not dispatch, was
    completed with [XPDK_ERROR_INVALID] and is lost to the pool. *)
Theorem batch_submit_never_runs w ios count callback :
  idle w -> free_msgs w <> ∅ -> ios <> NULL -> 0 < count ->
  exists w1 w2,
    xpdk_batch_submit ios count callback w = Ok XPDK_SUCCESS w1 /\
    (forall fuel, spdk_turn fuel w1 = Ok tt w2) /\
    async_silent w w2 /\ w_ios w2 = w_ios w.
Proof.
  intros Hidle Hfree Hios Hcount.
  pose proof Hidle as [Hi Hrun _ (ring & Hr & Hq & Hcap) (pl0 & Hpl & Hdis) Ho _ _].
  pose proof Hfree as Hf. unfold free_msgs in Hf. rewrite Hpl in Hf.
  destruct (msg_alloc_eq w pl0 XPDK_MSG_BATCH_SUBMIT Hpl Hf) as (pl & p & Ha & Hp & Hin & Hpl').
  set (m := sent_msg XPDK_MSG_BATCH_SUBMIT (PBatch ios count callback)).
  set (w0 := w_put_msg p m (set_w_pool (Some pl) w)).
  destruct (send_async_room w0 p ring Hp Hr) as (ring' & Hs & Hq' & Hc'); [by rewrite Hq|].
  rewrite Hq in Hq'. simpl in Hq'.
  destruct (turn_one (set_w_ring (Some ring') w0) ring' p)
    as (b & r1 & r2 & Hob & Hsd & Hq1 & Hq2 & Hc2 & Ht); [done..|].
  set (m' := set_msg_completed true (set_msg_status XPDK_ERROR_INVALID m)).
  exists (set_w_ring (Some ring') w0), (set_w_ring (Some r2) (w_put_msg p m' (at_handler p m pl b r1 w))).
  split_and!; [| | |done].
  - unfold xpdk_batch_submit. rewrite decide_False by (intros [?|?]; [done|lia]).
    rewrite (bind_ok _ _ _ _ _ Ha), decide_False by done.
    erewrite bind_ok by (apply (upd_msg_eq _ p (new_msg XPDK_MSG_BATCH_SUBMIT)); simpl;
      apply lookup_insert_eq).
    assert (w_put_msg p (set_msg_u (PBatch ios count callback) (new_msg XPDK_MSG_BATCH_SUBMIT))
      (w_put_msg p (new_msg XPDK_MSG_BATCH_SUBMIT) (set_w_pool (Some pl) w)) = w0) as ->
      by (unfold w0, w_put_msg; simpl; by rewrite insert_insert_eq).
    by rewrite (bind_ok _ _ _ _ _ Hs).
  - intros fuel. apply Ht; [|done].
    rewrite (process_msg_eq fuel p m) by (simpl; apply lookup_insert_eq). simpl.
    erewrite bind_ok by (apply (complete_msg_eq _ p m); simpl; apply lookup_insert_eq). done.
  - apply (silent_async w p pl b r1 r2 m m' b (w_dma w)); try done.
    + split; try done; [apply not_elem_of_dom; set_solver|split; [done|lia]|].
      rewrite mempool_put_free by done. unfold free_msgs. rewrite Hpl, Hpl'.
      by rewrite <- union_difference_singleton_L by done.
    + unfold free_msgs. by rewrite Hpl.
    + unfold free_msgs. by rewrite Hpl.
Qed.

End BatchCorrect.

(** ** Witnesses *)

Local Existing Instances sim_spdk sim_spdk_laws.

(** A context of two operations with the queues of [Build_batch_spec 2 pending completed]. *)
Definition sim_batch_ctx (pending completed : list xpdk_batch_io) : xpdk_batch_ctx :=
  Build_batch_ctx 2 (Z.of_nat (length pending)) (Z.of_nat (length completed))
    ((Some <$> pending) ++ replicate (2 - length pending) None)
    ((Some <$> completed) ++ replicate (2 - length completed) None) (Some (UserCallback 70)).

Definition sim_batch_world (pending completed : list xpdk_batch_io) : world :=
  set_w_batch {[60000 := sim_batch_ctx pending completed]} sim_open_world.

Lemma sim_batch_at pending completed :
  (length pending <= 2)%nat -> (length completed <= 2)%nat ->
  batch_at (sim_batch_world pending completed) 60000 (Build_batch_spec 2 pending completed).
Proof.
  intros Hp Hc. split; [done|]. exists (sim_batch_ctx pending completed).
  split; [apply lookup_singleton_eq|].
  split; simpl; try done; try (by eexists);
    rewrite length_app, length_fmap, length_replicate; lia.
Qed.

Lemma batch_process_completions_correct_witness :
  exists (n : nat) w',
    xpdk_batch_process_completions invoke 60000 5 (sim_batch_world [] [sample_io; sample_io]) =
      Ok (Z.of_nat n) w' /\ Z.of_nat n = 2 /\ w_calls w' = [(70, 7, 0); (70, 7, 0)].
Proof.
  destruct (batch_process_completions_correct (sim_batch_world [] [sample_io; sample_io]) 60000
    (Build_batch_spec 2 [] [sample_io; sample_io]) 5
    (sim_batch_at [] [sample_io; sample_io] ltac:(simpl; lia) ltac:(simpl; lia)))
    as (n & c & w' & Hc & Hn & Hr & _ & Hcalls & _).
  - intros c Hc. assert (c = sim_batch_ctx [] [sample_io; sample_io]) as ->
      by (simpl in Hc; rewrite lookup_singleton_eq in Hc; by injection Hc).
    right. by exists 70.
  - exists n, w'. split_and!; [exact Hr|exact Hn|]. rewrite Hcalls.
    assert (c = sim_batch_ctx [] [sample_io; sample_io]) as ->
      by (simpl in Hc; rewrite lookup_singleton_eq in Hc; by injection Hc).
    assert (n = 2%nat) as -> by (simpl in Hn; lia). reflexivity.
Defined.

Lemma batch_submit_one_correct_witness :
  exists rc w' ring',
    xpdk_batch_submit_one 60000 (Some sample_io) (sim_batch_world [] []) = Ok rc w' /\
    w_ring w' = Some ring' /\ w_calls w' = [].
Proof.
  destruct (idle_pool _ sim_idle_open) as (pl & Hpl & Hdis).
  destruct (idle_ring _ sim_idle_open) as (ring & Hr & _).
  destruct (batch_submit_one_correct (sim_batch_world [] []) 60000 (Build_batch_spec 2 [] []) sample_io
    pl ring (sim_batch_at [] [] ltac:(simpl; lia) ltac:(simpl; lia)) Hpl Hdis Hr)
    as (rc & w' & ring' & He & Hr' & Hc & _).
  exists rc, w', ring'. split_and!; [exact He|exact Hr'|exact Hc].
Defined.

Lemma batch_submit_never_runs_witness :
  exists w1 w2,
    xpdk_batch_submit 61000 3 (Some (UserCallback 70)) sim_open_world = Ok XPDK_SUCCESS w1 /\
    (forall fuel, spdk_turn fuel w1 = Ok tt w2) /\ w_calls w2 = [].
Proof.
  destruct (batch_submit_never_runs sim_open_world 61000 3 (Some (UserCallback 70)) sim_idle_open
    sim_free ltac:(done) ltac:(done)) as (w1 & w2 & He & Ht & Hs & _).
  exists w1, w2. split_and!; [exact He|exact Ht|]. rewrite (silent_calls _ _ Hs). reflexivity.
Defined.
