(* ===== verification/InFlight.v ===== *)
(** Requests in flight: any number of asynchronous reads and writes, waiting on the ring or
    outstanding in the bdev layer, completed in whatever order the devices have, with the
    poller in either mode.  The invariant [in_flight] accounts for every message, every
    bounce buffer and every callback that is due; turns of the SPDK thread keep it and
    use up the work. *)

From stdpp Require Import base gmap list strings.
From Stdlib Require Import Strings.Byte.
From S2P Require Import Prelude Types Memory Spdk World Sim Core Blocks Perf Bdev Qos Io.
From S2P Require Import Async Vectored Batch Poller Idle IoCorrect SyncIo Devices Session.
From S2P Require Import AsyncCorrect BatchCorrect.

Open Scope Z_scope.

Abbreviation token := (xpdk_io_callback_t * Z)%type.

(** ** Callbacks that are due *)

(** The callbacks the messages in use still carry. *)
Definition due (ms : gmap Z xpdk_msg) : list token :=
  omap (fun x => callback_of (snd x)) (map_to_list ms).

Section Due.
Implicit Types (ms : gmap Z xpdk_msg) (p : Z) (m : xpdk_msg) (t : token).

Lemma due_insert ms p m t :
  ms !! p = None -> callback_of m = Some t -> due (<[p := m]> ms) ≡ₚ t :: due ms.
Proof. intros Hp Hm. unfold due. rewrite map_to_list_insert by done. simpl. by rewrite Hm. Qed.

Lemma due_delete ms p m t :
  ms !! p = Some m -> callback_of m = Some t -> due ms ≡ₚ t :: due (delete p ms).
Proof. intros Hp Hm. unfold due. rewrite <- map_to_list_delete by done. simpl. by rewrite Hm. Qed.

Lemma due_update ms p m m' :
  ms !! p = Some m -> callback_of m' = callback_of m -> due (<[p := m']> ms) ≡ₚ due ms.
Proof.
  intros Hp Hm. unfold due. rewrite <- (map_to_list_delete ms p m) by done.
  rewrite <- insert_delete_eq, map_to_list_insert by apply lookup_delete_eq. simpl. by rewrite Hm.
Qed.

Lemma difference_insert ms M p m : M !! p = None -> <[p := m]> ms ∖ M = <[p := m]> (ms ∖ M).
Proof.
  intros Hp. apply map_eq. intros i. rewrite lookup_difference.
  destruct (decide (i = p)) as [->|Hne]; [by rewrite Hp, !lookup_insert_eq|].
  by rewrite !lookup_insert_ne, lookup_difference by done.
Qed.

Lemma difference_delete ms M p : delete p ms ∖ M = delete p (ms ∖ M).
Proof.
  apply map_eq. intros i. rewrite lookup_difference.
  destruct (decide (i = p)) as [->|Hne]; [rewrite !lookup_delete_eq; by destruct (M !! p)|].
  by rewrite !lookup_delete_ne, lookup_difference by done.
Qed.

Lemma difference_lookup ms M p : M !! p = None -> (ms ∖ M) !! p = ms !! p.
Proof. intros Hp. by rewrite lookup_difference, Hp. Qed.
End Due.

Section InFlight.
Context `{SpdkLaws}.
Implicit Types (w : world) (p : Z) (d : xpdk_device) (m : xpdk_msg) (s : bool) (q : list Z).

(** ** What the completion path asks of the functions it calls

    [cb_env l] is what the callbacks rely on while those of [l] are due; calling one of them
    uses it up. *)

Class Callbacks := {
  cb_env : list token -> world -> Prop;
  cb_env_perm l l' w : l ≡ₚ l' -> cb_env l w -> cb_env l' w;
  cb_env_frame l w w' :
    w_calls w' = w_calls w -> w_batch w' = w_batch w -> cb_env l w -> cb_env l w';
  cb_env_call cb ctx l w st :
    st = XPDK_SUCCESS \/ st = XPDK_ERROR_IO ->
    cb_env ((cb, ctx) :: l) w ->
    exists w', invoke cb ctx st w = Ok tt w' /\ touches_clients w w' /\ cb_env l w';
}.

(** ** The invariant *)

(** The message a piece of outstanding work belongs to. *)
Definition work_msg (wk : work) : option Z :=
  match wk with
  | WIo r => match rq_cb r with AsyncIoCb p => Some p | _ => None end
  | _ => None
  end.

Definition job_msgs (b : bdev_t) : list Z := omap work_msg (outstanding b).

(** [n] bytes at [a] are memory of the client. *)
Definition within (C : gset Z) (a : Z) (n : nat) : Prop :=
  forall x, a <= x < a + Z.of_nat n -> x ∈ C.

Definition apart (C : gset Z) (a : Z) (n : nat) : Prop :=
  forall x, a <= x < a + Z.of_nat n -> x ∉ C.

(** A message that waits on the ring. *)
Definition queued_ok (C : gset Z) (w : world) (p : Z) : Prop :=
  p <> NULL /\ exists type fd ub count offset cb ctx,
    w_msgs w !! p = Some (sent_msg type (async_params fd ub count offset cb ctx)) /\
    (type = XPDK_MSG_READ \/ type = XPDK_MSG_WRITE) /\ 0 < count /\
    within C ub (Z.to_nat count) /\
    (forall d, open_at w fd d -> count + spdk_bdev_get_block_size (dev_bdev d) <= 2 ^ 32).

(** A request the device works on: its message, and the buffer the device uses, which is
    memory of the client or a live block that belongs to this message alone. *)
Definition job_ok (C : gset Z) (own : gmap Z Z) (w : world) (wk : work) : Prop :=
  exists r p m t, wk = WIo r /\ rq_cb r = AsyncIoCb p /\ p <> NULL /\
    w_msgs w !! p = Some m /\ callback_of m = Some t /\
    (msg_ctx m = NULL /\ within C (rq_buf r) (req_len desc_bdev r) \/
     msg_ctx m = rq_buf r /\ rq_buf r <> NULL /\ own !! rq_buf r = Some p /\
     w_dma_live w !! rq_buf r = Some (Z.of_nat (req_len desc_bdev r)) /\
     apart C (rq_buf r) (req_len desc_bdev r) /\
     (forall a n, w_dma_live w !! a = Some n -> a <> rq_buf r ->
        disjoint_range (rq_buf r) (req_len desc_bdev r) a (Z.to_nat n))).

(** [C]: the memory of the client; [D]: the blocks that are not bounce buffers; [M]: messages
    that are not under way; [T]: all messages; [own]: which bounce buffer belongs to which
    message; [q]: the messages waiting. *)
Record in_flight (E : Callbacks) (C : gset Z) (D : gmap Z Z) (M : gmap Z xpdk_msg) (T : gset Z)
    (own : gmap Z Z) (q : list Z) (w : world) : Prop := {
  fl_initialized : ctx_initialized (w_g w) = true;
  fl_running : ctx_spdk_thread_running (w_g w) = true;
  fl_devices : devices_wf (ctx_devices (w_g w));
  fl_slots : forall i d, ctx_devices (w_g w) !! i = Some d -> slot_ok d;
  fl_pool : exists pl, w_pool w = Some pl /\ pool_free pl ## dom (w_msgs w) /\
    pool_free pl ∪ dom (w_msgs w) = T;
  fl_frames : w_sctx w = ∅;
  fl_queued : forall p, p ∈ q -> queued_ok C w p;
  fl_jobs : forall wk, wk ∈ outstanding (w_bdev w) -> job_ok C own w wk;
  fl_distinct : NoDup (q ++ job_msgs (w_bdev w));
  fl_client : forall x, x ∈ C -> is_Some (w_mem w !! x);
  fl_live : forall a n, w_dma_live w !! a = Some n -> 0 < n /\ mapped (w_mem w) a (Z.to_nat n);
  fl_own : forall a p, own !! a = Some p -> D !! a = None /\
    p ∈ job_msgs (w_bdev w) /\ a <> NULL /\
    exists m, w_msgs w !! p = Some m /\ msg_ctx m = a;
  fl_rest : forall a, own !! a = None -> w_dma_live w !! a = D !! a;
  fl_done : forall p m, w_msgs w !! p = Some m -> p ∉ q -> p ∉ job_msgs (w_bdev w) ->
    M !! p = Some m \/ msg_completed m = true /\ msg_status m <> XPDK_SUCCESS;
  fl_kept : forall p m, M !! p = Some m ->
    w_msgs w !! p = Some m /\ p ∉ q ++ job_msgs (w_bdev w);
  fl_env : cb_env (due (w_msgs w ∖ M)) w
}.

#[local] Arguments fl_initialized {E C D M T own q w}.
#[local] Arguments fl_running {E C D M T own q w}.
#[local] Arguments fl_devices {E C D M T own q w}.
#[local] Arguments fl_slots {E C D M T own q w}.
#[local] Arguments fl_pool {E C D M T own q w}.
#[local] Arguments fl_frames {E C D M T own q w}.
#[local] Arguments fl_queued {E C D M T own q w}.
#[local] Arguments fl_jobs {E C D M T own q w}.
#[local] Arguments fl_distinct {E C D M T own q w}.
#[local] Arguments fl_client {E C D M T own q w}.
#[local] Arguments fl_live {E C D M T own q w}.
#[local] Arguments fl_own {E C D M T own q w}.
#[local] Arguments fl_rest {E C D M T own q w}.
#[local] Arguments fl_done {E C D M T own q w}.
#[local] Arguments fl_kept {E C D M T own q w}.
#[local] Arguments fl_env {E C D M T own q w}.

Definition ring_holds (w : world) (q : list Z) : Prop :=
  exists r, w_ring w = Some r /\ ring_queue r = q /\ (0 < ring_capacity r)%nat.

(** ** Consequences *)

Lemma job_msg C own w wk : job_ok C own w wk -> exists p, work_msg wk = Some p.
Proof. intros (r & p & m & t & -> & Hcb & _). exists p. simpl. by rewrite Hcb. Qed.

Lemma job_msgs_elem b r p :
  WIo r ∈ outstanding b -> rq_cb r = AsyncIoCb p -> p ∈ job_msgs b.
Proof. intros Hin Hcb. apply list_elem_of_omap. exists (WIo r). simpl. by rewrite Hcb. Qed.

(** A job stays one when its message does, and its block is left alone. *)
Lemma job_ok_frame C own own' w w' wk p :
  job_ok C own w wk -> work_msg wk = Some p -> w_msgs w' !! p = w_msgs w !! p ->
  (forall a n, own !! a = Some p -> w_dma_live w !! a = Some n ->
     own' !! a = Some p /\ w_dma_live w' !! a = Some n /\
     (forall a' n', w_dma_live w' !! a' = Some n' -> a' <> a ->
        w_dma_live w !! a' = Some n' \/ disjoint_range a (Z.to_nat n) a' (Z.to_nat n'))) ->
  job_ok C own' w' wk.
Proof.
  intros (r & p' & m & t & -> & Hcb & Hp & Hm & Ht & Hbuf) Hwk Hsame Hown.
  simpl in Hwk. rewrite Hcb in Hwk. injection Hwk as ->.
  exists r, p, m, t. split_and!; try done; [by rewrite Hsame|].
  destruct Hbuf as [Hd|(Hc & Hnn & Ho & Hl & Hap & Hdis)]; [by left|right].
  destruct (Hown _ _ Ho Hl) as (Ho' & Hl' & Hother). rewrite Nat2Z.id in Hother.
  split_and!; try done. intros a n Ha Hne.
  destruct (Hother a n Ha Hne); [by apply Hdis|done].
Qed.

Lemma in_flight_fresh E C D M T own q w p :
  in_flight E C D M T own q w -> p ∈ q \/ p ∈ job_msgs (w_bdev w) -> M !! p = None.
Proof.
  intros Hf Hp. destruct (M !! p) as [m|] eqn:HM; [|done].
  destruct (fl_kept Hf p m HM) as [_ Hno]. rewrite elem_of_app in Hno. tauto.
Qed.

(** The bytes a job's device writes are accessible. *)
Lemma job_mapped E C D M T own q w r :
  in_flight E C D M T own q w -> WIo r ∈ outstanding (w_bdev w) ->
  mapped (w_mem w) (rq_buf r) (req_len desc_bdev r).
Proof.
  intros Hf Hin. destruct (fl_jobs Hf _ Hin) as (r' & p & m & t & [= <-] & _ & _ & _ & _ & Hb).
  destruct Hb as [(_ & Hc)|(_ & _ & _ & Hl & _)].
  - intros x Hx. by apply (fl_client Hf), Hc.
  - apply (fl_live Hf) in Hl as [_ Hl]. by rewrite Nat2Z.id in Hl.
Qed.

(** ** A completion *)

Lemma retire_in_flight E C D M T own own' q w b r p m t pl wc me me1 dl :
  in_flight E C D M T own q w ->
  outstanding (w_bdev w) ≡ₚ WIo r :: outstanding b -> rq_cb r = AsyncIoCb p -> p <> NULL ->
  w_msgs w !! p = Some m -> callback_of m = Some t -> w_pool w = Some pl ->
  touches_clients (set_w_mem me1 (set_w_bdev b w)) wc -> cb_env (due (delete p (w_msgs w) ∖ M)) wc ->
  (forall x, x ∈ C -> is_Some (me !! x)) ->
  (forall a n, dl !! a = Some n -> 0 < n /\ mapped me a (Z.to_nat n)) ->
  dl ⊆ w_dma_live w ->
  (forall a p', own' !! a = Some p' <-> own !! a = Some p' /\ p' <> p) ->
  (forall a p', own !! a = Some p' -> p' <> p -> dl !! a = w_dma_live w !! a) ->
  (forall a, own' !! a = None -> dl !! a = D !! a) ->
  in_flight E C D M T own' q (retired p pl me dl wc).
Proof.
  intros Hf Hperm Hcb Hp Hm Ht Hpl (calls & batch & ->) Henv HC Hlive Hdl Hown Hother Hrest.
  assert (job_msgs (w_bdev w) ≡ₚ p :: job_msgs b) as Hjm.
  { unfold job_msgs. rewrite Hperm. simpl. by rewrite Hcb. }
  pose proof (fl_distinct Hf) as Hnd. rewrite Hjm in Hnd.
  apply NoDup_app in Hnd as (Hndq & Hsep & Hndj). apply NoDup_cons in Hndj as [Hpj Hndj].
  assert (p ∉ q) as Hpq by (intros Hq; apply (Hsep p Hq); by left).
  destruct (fl_pool Hf) as (pl' & Hpl' & Hdis & Htot). rewrite Hpl in Hpl'. injection Hpl' as <-.
  assert (p ∈ dom (w_msgs w)) as Hdom by (by apply elem_of_dom_2 in Hm).
  split; cbn [w_g w_pool w_msgs w_sctx w_bdev w_mem w_dma_live retired set_w_msgs set_w_pool
    set_w_mem set_w_dma_live set_w_calls set_w_batch set_w_bdev]; try apply Hf.
  - exists (spdk_mempool_put pl p). split; [done|].
    rewrite mempool_put_free, dom_delete_L by done. split; [set_solver|].
    rewrite <- Htot. apply set_eq. intros x. destruct (decide (x = p)); set_solver.
  - intros p' Hq. destruct (fl_queued Hf p' Hq) as (Hn & ty & fd & ub & ct & off & cb & cx & Hm' & Hrest').
    split; [done|]. exists ty, fd, ub, ct, off, cb, cx. split; [|done]. simpl.
    rewrite lookup_delete_ne by (intros ->; done). done.
  - intros wk Hin. assert (wk ∈ outstanding (w_bdev w)) as Hin' by (rewrite Hperm; by right).
    pose proof (fl_jobs Hf wk Hin') as Hok. destruct (job_msg _ _ _ _ Hok) as [p' Hwk].
    assert (p' <> p) as Hne by (intros ->; apply Hpj, list_elem_of_omap; by exists wk).
    apply (job_ok_frame C own own' w _ wk p' Hok Hwk); simpl.
    + by rewrite lookup_delete_ne.
    + intros a n Ha Hn. split_and!; [by apply Hown|by rewrite (Hother a p')|].
      intros a' n' Ha' _. left. by eapply lookup_weaken.
  - apply NoDup_app. split_and!; [done| |done]. intros x Hx Hx'. apply (Hsep x Hx). by right.
  - done.
  - done.
  - intros a p' [Ha Hne]%Hown. destruct (fl_own Hf a p' Ha) as (HD & Hin & Hnn & m' & Hm' & Hc).
    split_and!; [done| |done|exists m'; by rewrite lookup_delete_ne].
    rewrite Hjm in Hin. by apply elem_of_cons in Hin as [->|].
  - done.
  - intros p' m' Hm' Hq Hj. apply lookup_delete_Some in Hm' as [Hne Hm'].
    apply (fl_done Hf p' m' Hm' Hq). rewrite Hjm. by intros [->|]%elem_of_cons.
  - intros p' m' HM. destruct (fl_kept Hf p' m' HM) as [Hm' Hno]. rewrite Hjm, elem_of_app in Hno.
    rewrite lookup_delete_ne, elem_of_app by (intros ->; apply Hno; right; by left).
    split; [done|]. intros [?|?]; apply Hno; [by left|right; by right].
  - by apply (cb_env_frame _ (set_w_calls calls (set_w_batch batch (set_w_mem me1 (set_w_bdev b w))))).
Qed.

Lemma is_Some_write (me : memory) a bs x : is_Some (me !! x) -> is_Some (write_bytes me a bs !! x).
Proof.
  intros Hx. apply (mapped_write me a bs x 1); [|lia].
  intros y Hy. by replace y with x by lia.
Qed.

(** What is done with the buffer of a job: the ghost state and the memory after it. *)
Lemma release_buffer E C D M T own q w r p m me1 :
  in_flight E C D M T own q w -> WIo r ∈ outstanding (w_bdev w) -> rq_cb r = AsyncIoCb p ->
  w_msgs w !! p = Some m -> (forall x, is_Some (w_mem w !! x) -> is_Some (me1 !! x)) ->
  exists (own' : gmap Z Z) me dl,
    (msg_ctx m = NULL /\ me = me1 /\ dl = w_dma_live w \/
     msg_ctx m <> NULL /\ (exists n, w_dma_live w !! msg_ctx m = Some n /\
       me = unmap_bytes me1 (msg_ctx m) (Z.to_nat n) /\ dl = delete (msg_ctx m) (w_dma_live w))) /\
    (forall x, x ∈ C -> is_Some (me !! x)) /\
    (forall a n, dl !! a = Some n -> 0 < n /\ mapped me a (Z.to_nat n)) /\
    dl ⊆ w_dma_live w /\
    (forall a p', own' !! a = Some p' <-> own !! a = Some p' /\ p' <> p) /\
    (forall a p', own !! a = Some p' -> p' <> p -> dl !! a = w_dma_live w !! a) /\
    (forall a, own' !! a = None -> dl !! a = D !! a).
Proof.
  intros Hf Hin Hcb Hm Hme1.
  assert (forall a, own !! a = Some p -> a = msg_ctx m /\ a <> NULL) as Hmine.
  { intros a Ha. destruct (fl_own Hf a p Ha) as (_ & _ & Hnn & m' & Hm' & <-).
    split; [congruence|done]. }
  destruct (fl_jobs Hf _ Hin) as (r0 & p0 & m0 & t & [= <-] & Hcb0 & Hp & Hm0 & Ht & Hbuf).
  rewrite Hcb in Hcb0. injection Hcb0 as <-. rewrite Hm in Hm0. injection Hm0 as <-.
  destruct Hbuf as [(Hz & Hw)|(Hc & Hnn & Ho & Hl & Hap & Hdis)].
  - exists own, me1, (w_dma_live w). split_and!; [by left| | |done| |done|apply Hf].
    + intros x Hx. by apply Hme1, (fl_client Hf).
    + intros a n Ha. destruct (fl_live Hf a n Ha) as [? Hma]. split; [done|].
      intros x Hx. by apply Hme1, Hma.
    + intros a p'. split; [|by intros [? _]]. intros Ha. split; [done|]. intros ->.
      apply Hmine in Ha as [-> Ha]. done.
  - rewrite <- Hc in *. exists (delete (msg_ctx m) own),
      (unmap_bytes me1 (msg_ctx m) (req_len desc_bdev r)), (delete (msg_ctx m) (w_dma_live w)).
    split_and!.
    + right. split; [done|]. eexists. split_and!; [done| |done]. by rewrite Nat2Z.id.
    + intros x Hx. rewrite lookup_unmap_out; [by apply Hme1, (fl_client Hf)|].
      specialize (Hap x). destruct (decide (x < msg_ctx m)); [lia|].
      destruct (decide (msg_ctx m + Z.of_nat (req_len desc_bdev r) <= x)); [lia|].
      exfalso. apply Hap; [lia|done].
    + intros a n [Hne Ha]%lookup_delete_Some. destruct (fl_live Hf a n Ha) as [? Hma].
      split; [done|]. intros x Hx. specialize (Hdis a n Ha ltac:(done)). unfold disjoint_range in Hdis.
      rewrite lookup_unmap_out by lia. by apply Hme1, Hma.
    + apply delete_subseteq.
    + intros a p'. rewrite lookup_delete_Some. split.
      * intros [Hne Ha]. split; [done|]. intros ->. apply Hmine in Ha as [-> _]. done.
      * intros [Ha Hne]. split; [|done]. intros <-. congruence.
    + intros a p' Ha Hne. apply lookup_delete_ne. intros <-. congruence.
    + intros a [<-|Ha]%lookup_delete_None.
      * rewrite lookup_delete_eq. symmetry. apply (fl_own Hf _ _ Ho).
      * destruct (decide (a = msg_ctx m)) as [->|Hne]; [congruence|].
        rewrite lookup_delete_ne by done. by apply (fl_rest Hf).
Qed.

(** A completion, of whichever request, calls the callback of its message, frees the message
    and its bounce buffer, and leaves the others in flight. *)
Lemma deliver_in_flight E C D M T own q w b c :
  in_flight E C D M T own q w -> bdev_poll (w_bdev w) (w_mem w) = (b, Some c) ->
  exists own' w', deliver c (set_w_bdev b w) = Ok tt w' /\ in_flight E C D M T own' q w' /\
    w_ring w' = w_ring w /\ w_g w' = w_g w /\
    S (length (outstanding (w_bdev w'))) = length (outstanding (w_bdev w)).
Proof.
  intros Hf Hpoll. destruct c as [r s data|msg desc st|msg st].
  2: { apply poll_open in Hpoll as (name & wr & Hperm & _).
       destruct (fl_jobs Hf (WOpen msg name wr)) as (? & ? & ? & ? & ? & _); [|done].
       rewrite Hperm. by left. }
  2: { apply poll_qos in Hpoll as (bd & l & Hperm & _).
       destruct (fl_jobs Hf (WQos msg bd l)) as (? & ? & ? & ? & ? & _); [|done].
       rewrite Hperm. by left. }
  apply poll_io in Hpoll as (Hperm & _ & _ & Hread & _).
  assert (WIo r ∈ outstanding (w_bdev w)) as Hin by (rewrite Hperm; by left).
  destruct (fl_jobs Hf _ Hin) as (r0 & p & m & [cb ctx] & [= <-] & Hcb & Hp & Hm & Ht & _).
  destruct (fl_pool Hf) as (pl & Hpl & _).
  set (me1 := match rq_kind r with IoRead => write_bytes (w_mem w) (rq_buf r) data | _ => w_mem w end).
  assert (forall x, is_Some (w_mem w !! x) -> is_Some (me1 !! x)) as Hme1
    by (intros x Hx; unfold me1; destruct (rq_kind r); try done; by apply is_Some_write).
  destruct (release_buffer E C D M T own q w r p m me1 Hf Hin Hcb Hm Hme1)
    as (own' & me & dl & Hcase & H1 & H2 & H3 & H4 & H5 & H6).
  set (wb := set_w_mem me1 (set_w_bdev b w)).
  assert (M !! p = None) as HM by (by eapply in_flight_fresh; [|right; eapply job_msgs_elem]).
  assert (cb_env ((cb, ctx) :: due (delete p (w_msgs w) ∖ M)) wb) as Henv.
  { apply (cb_env_perm (due (w_msgs w ∖ M))).
    - rewrite difference_delete. apply due_delete with m; [by rewrite difference_lookup|done].
    - by apply (cb_env_frame _ w), (fl_env Hf). }
  destruct (cb_env_call cb ctx _ wb (io_status_of s) ltac:(destruct s; auto) Henv)
    as (wc & Hinv & Htouch & Henv').
  exists own', (retired p pl me dl wc).
  pose proof Htouch as (calls & batch & Hwc). split_and!.
  - unfold deliver. rewrite Hcb.
    assert ((match rq_kind r with IoRead => store (rq_buf r) data | _ => ret tt end)
      (set_w_bdev b w) = Ok tt wb) as Hs.
    { unfold wb, me1. destruct (rq_kind r); try reflexivity. apply (store_eq (set_w_bdev b w)). simpl.
      specialize (Hread eq_refl). pose proof (job_mapped _ _ _ _ _ _ _ _ _ Hf Hin) as Hma.
      destruct s; subst data; [by rewrite medium_bytes_length|]. intros x Hx. simpl in Hx. lia. }
    rewrite (bind_ok _ _ _ _ _ Hs).
    by apply (completion_retires wb p m pl cb ctx s wc me dl).
  - by apply (retire_in_flight E C D M T own own' q w b r p m (cb, ctx) pl wc me me1 dl).
  - by rewrite Hwc.
  - by rewrite Hwc.
  - rewrite Hwc. simpl. by rewrite Hperm.
Qed.

(** ** A message taken off the ring *)

(** What a handler hands to the device: nothing, when it completed its message with an error,
    or one job. *)
Definition handed_over (C : gset Z) (own : gmap Z Z) (p : Z) (m : xpdk_msg) (w : world)
    (new : list work) : Prop :=
  new = [] /\ msg_completed m = true /\ msg_status m <> XPDK_SUCCESS \/
  exists r, new = [WIo r] /\ rq_cb r = AsyncIoCb p /\ job_ok C own w (WIo r).

Section Handled.
Context (E : Callbacks) (C : gset Z) (D : gmap Z Z) (M : gmap Z xpdk_msg) (T : gset Z)
  (own own' : gmap Z Z) (p : Z) (q : list Z) (w : world) (m m' : xpdk_msg) (b : bdev_t)
  (me : memory) (dm : dma_t) (dl : gmap Z Z) (new : list work).
Hypothesis Hf : in_flight E C D M T own (p :: q) w.
Hypothesis Hm : w_msgs w !! p = Some m.
Hypothesis Ho : outstanding b = outstanding (w_bdev w) ++ new.
Let w' := io_world p m' b me dm dl w.
Hypothesis Hnew : handed_over C own' p m' w' new.

Lemma handled_msg_new : (p ∉ q) /\ (p ∉ job_msgs (w_bdev w)).
Proof.
  pose proof (fl_distinct Hf) as Hnd. simpl in Hnd. apply NoDup_cons in Hnd as [Hpn _].
  split; intros Hx; apply Hpn, elem_of_app; auto.
Qed.

Lemma handed_msgs : omap work_msg new = [] /\ new = [] \/ omap work_msg new = [p] /\ new <> [].
Proof. destruct Hnew as [(-> & _)|(r & -> & Hr & _)]; [by left|right]. simpl. by rewrite Hr. Qed.

Lemma handled_job_msgs x :
  x ∈ job_msgs b <-> (x ∈ job_msgs (w_bdev w)) \/ x = p /\ new <> [].
Proof.
  unfold job_msgs. rewrite Ho, omap_app, elem_of_app.
  destruct handed_msgs as [[-> ->]|[-> Hne]]; [|rewrite list_elem_of_singleton]; set_solver.
Qed.

Lemma handled_distinct : NoDup (q ++ job_msgs b).
Proof.
  pose proof (fl_distinct Hf) as Hnd. simpl in Hnd. apply NoDup_cons in Hnd as [Hpn Hnd].
  unfold job_msgs. rewrite Ho, omap_app, app_assoc. apply NoDup_app.
  destruct handed_msgs as [[-> _]|[-> _]]; split_and!; try done.
  - intros x _. apply not_elem_of_nil.
  - apply NoDup_nil_2.
  - by intros x Hx ->%list_elem_of_singleton.
  - apply NoDup_singleton.
Qed.

Lemma handled_jobs wk :
  (forall a n p', own !! a = Some p' -> p' <> p -> w_dma_live w !! a = Some n ->
     own' !! a = Some p' /\ dl !! a = Some n /\
     (forall a' n', dl !! a' = Some n' -> a' <> a ->
        w_dma_live w !! a' = Some n' \/ disjoint_range a (Z.to_nat n) a' (Z.to_nat n'))) ->
  wk ∈ outstanding b -> job_ok C own' w' wk.
Proof.
  intros Hjobs Hin. rewrite Ho in Hin. apply elem_of_app in Hin as [Hin|Hin].
  - pose proof (fl_jobs Hf wk Hin) as Hok. destruct (job_msg _ _ _ _ Hok) as [p' Hwk].
    assert (p' <> p) as Hne
      by (intros ->; apply (proj2 handled_msg_new), list_elem_of_omap; by exists wk).
    apply (job_ok_frame C own own' w _ wk p' Hok Hwk); simpl.
    + by rewrite lookup_insert_ne.
    + intros a n Ha Hn. by apply Hjobs.
  - destruct Hnew as [(-> & _)|(r & -> & _ & Hok)]; [by apply elem_of_nil in Hin|].
    by apply list_elem_of_singleton in Hin as ->.
Qed.

Lemma handled_in_flight :
  callback_of m' = callback_of m ->
  (forall x, x ∈ C -> is_Some (me !! x)) ->
  (forall a n, dl !! a = Some n -> 0 < n /\ mapped me a (Z.to_nat n)) ->
  (forall a n p', own !! a = Some p' -> p' <> p -> w_dma_live w !! a = Some n ->
     own' !! a = Some p' /\ dl !! a = Some n /\
     (forall a' n', dl !! a' = Some n' -> a' <> a ->
        w_dma_live w !! a' = Some n' \/ disjoint_range a (Z.to_nat n) a' (Z.to_nat n'))) ->
  (forall a p', own' !! a = Some p' -> own !! a = Some p' \/
     D !! a = None /\ p' = p /\ a <> NULL /\ msg_ctx m' = a /\ new <> []) ->
  (forall a, own' !! a = None -> dl !! a = D !! a) ->
  in_flight E C D M T own' q w'.
Proof.
  intros Hcb HC Hlive Hjobs Hown Hrest. destruct handled_msg_new as [Hpq Hpj].
  destruct (fl_pool Hf) as (pl & Hpl & Hdis & Htot).
  assert (p ∈ dom (w_msgs w)) as Hdom by (by apply elem_of_dom_2 in Hm).
  split; cbn [w_g w_pool w_msgs w_sctx w_bdev w_mem w_dma_live w' io_world w_put_msg set_w_msgs
    set_w_mem set_w_dma_live set_w_bdev set_w_dma]; try apply Hf; try done.
  - exists pl. split; [done|]. rewrite dom_insert_lookup_L by done. done.
  - intros p' Hq. destruct (fl_queued Hf p') as (Hn & ty & fd & ub & ct & off & cb & cx & Hm' & Hr');
      [by right|]. split; [done|]. exists ty, fd, ub, ct, off, cb, cx. split; [|done]. simpl.
    rewrite lookup_insert_ne by (intros ->; done). done.
  - intros wk. by apply handled_jobs.
  - apply handled_distinct.
  - intros a p' [Ha|(HD & -> & Hnn & Hc & Hne)]%Hown.
    + destruct (fl_own Hf a p' Ha) as (HD & Hin & Hnn & m0 & Hm0 & Hc).
      split_and!; [done|apply handled_job_msgs; by left|done|].
      exists m0. rewrite lookup_insert_ne; [done|]. intros ->. done.
    + split_and!; [done|apply handled_job_msgs; by right|done|].
      exists m'. split; [apply lookup_insert_eq|done].
  - intros p' m0 Hm0 Hq Hj. rewrite handled_job_msgs in Hj.
    apply lookup_insert_Some in Hm0 as [[<- <-]|[Hne Hm0]].
    + destruct Hnew as [(_ & Hd)|(r & -> & _)]; [by right|]. destruct Hj. by right.
    + apply (fl_done Hf p' m0 Hm0); [by intros [->|]%elem_of_cons|tauto].
  - intros p' m0 HM. destruct (fl_kept Hf p' m0 HM) as [Hm0 Hno]. simpl in Hno.
    apply not_elem_of_cons in Hno as [Hne Hno]. rewrite lookup_insert_ne by done. split; [done|].
    rewrite elem_of_app, handled_job_msgs. rewrite elem_of_app in Hno. tauto.
  - assert (M !! p = None) as HM by (eapply in_flight_fresh; [done|left; by left]).
    apply (cb_env_perm (due (w_msgs w ∖ M))).
    + rewrite difference_insert by done. symmetry. apply due_update with m; [|done].
      by rewrite difference_lookup.
    + by apply (cb_env_frame _ w), (fl_env Hf).
Qed.
End Handled.

(** The client may change what its callbacks rely on. *)
Lemma in_flight_env E E' C D M T own q w batch :
  in_flight E C D M T own q w ->
  (forall l, @cb_env E l w -> @cb_env E' l (set_w_batch batch w)) ->
  in_flight E' C D M T own q (set_w_batch batch w).
Proof. intros [] Henv. split; try done. by apply Henv. Qed.

(** The counters, the ring and an idle poll do not matter. *)
Lemma in_flight_frame E C D M T own q w g r b :
  ctx_initialized g = ctx_initialized (w_g w) ->
  ctx_spdk_thread_running g = ctx_spdk_thread_running (w_g w) ->
  ctx_devices g = ctx_devices (w_g w) -> outstanding b = outstanding (w_bdev w) ->
  in_flight E C D M T own q w ->
  in_flight E C D M T own q (set_w_g g (set_w_ring r (set_w_bdev b w))).
Proof.
  intros Hi Hrun Hd Ho [].
  split; simpl; unfold job_msgs in *; rewrite ?Hi, ?Hrun, ?Hd, ?Ho; try done.
  - intros p Hp. destruct (fl_queued0 p Hp) as (Hn & ty & fd & ub & ct & off & cb & cx & Hq).
    split; [done|]. exists ty, fd, ub, ct, off, cb, cx. unfold open_at in *. simpl. by rewrite Hd.
  - by apply (cb_env_frame _ w).
Qed.

Lemma in_flight_device E C D M T own q w fd :
  in_flight E C D M T own q w -> (exists d, open_at w fd d) \/ no_io_device w fd.
Proof. intros Hf. apply slots_device; apply Hf. Qed.

(** The three ways a handler ends. *)
Lemma dropped_in_flight E C D M T own p q w m m' b dm :
  in_flight E C D M T own (p :: q) w -> w_msgs w !! p = Some m -> callback_of m' = callback_of m ->
  msg_completed m' = true -> msg_status m' <> XPDK_SUCCESS ->
  outstanding b = outstanding (w_bdev w) ->
  in_flight E C D M T own q (io_world p m' b (w_mem w) dm (w_dma_live w) w).
Proof.
  intros Hf Hm Hcb Hd Hs Ho.
  apply (handled_in_flight E C D M T own own p q w m m' b (w_mem w) dm (w_dma_live w) []);
    [done|done|by rewrite app_nil_r|by left|done|apply Hf|apply Hf| |by left|apply Hf].
  intros a n p' Ha _ Hn. split_and!; [done|done|by left].
Qed.

Lemma direct_in_flight E C D M T own p q w m t b dm r :
  in_flight E C D M T own (p :: q) w -> w_msgs w !! p = Some m -> callback_of m = Some t ->
  p <> NULL -> msg_ctx m = NULL -> rq_cb r = AsyncIoCb p ->
  within C (rq_buf r) (req_len desc_bdev r) -> outstanding b = outstanding (w_bdev w) ++ [WIo r] ->
  in_flight E C D M T own q (io_world p m b (w_mem w) dm (w_dma_live w) w).
Proof.
  intros Hf Hm Ht Hp Hz Hr Hin Ho.
  apply (handled_in_flight E C D M T own own p q w m m b (w_mem w) dm (w_dma_live w) [WIo r]);
    [done..| |done|apply Hf|apply Hf| |by left|apply Hf].
  - right. exists r. split_and!; [done..|]. exists r, p, m, t.
    split_and!; [done..|simpl; apply lookup_insert_eq|done|by left].
  - intros a n p' Ha _ Hn. split_and!; [done|done|by left].
Qed.

Lemma bounced_in_flight E C D M T own p q w m t b dm r (data : list byte) :
  let a := rq_buf r in
  in_flight E C D M T own (p :: q) w -> w_msgs w !! p = Some m -> callback_of m = Some t ->
  p <> NULL -> a <> NULL -> rq_cb r = AsyncIoCb p -> length data = req_len desc_bdev r ->
  (0 < length data)%nat -> unmapped (w_mem w) a (length data) ->
  outstanding b = outstanding (w_bdev w) ++ [WIo r] ->
  in_flight E C D M T (<[a := p]> own) q
    (io_world p (set_msg_ctx a m) b (write_bytes (w_mem w) a data) dm
       (<[a := Z.of_nat (length data)]> (w_dma_live w)) w).
Proof.
  intros a Hf Hm Ht Hp Ha Hr Hl Hpos Hun Ho.
  assert (w_dma_live w !! a = None) as Hnl
    by (by apply (fresh_block_not_live w (fl_live Hf) a data)).
  assert (own !! a = None) as Hno.
  { destruct (own !! a) as [p'|] eqn:Hop; [exfalso|done].
    destruct (fl_own Hf a p' Hop) as (_ & Hj & _ & m' & Hm' & Hc').
    apply list_elem_of_omap in Hj as (wk & Hin & Hwk).
    destruct (fl_jobs Hf wk Hin) as (r' & p0 & m0 & t' & -> & Hr' & _ & Hm0 & _ & Hb).
    simpl in Hwk. rewrite Hr' in Hwk. injection Hwk as ->.
    assert (m0 = m') as -> by congruence.
    destruct Hb as [(Hz & _)|(Hc & _ & _ & Hlv & _)]; [congruence|]. congruence. }
  assert (forall a' n', w_dma_live w !! a' = Some n' ->
    disjoint_range a (length data) a' (Z.to_nat n')) as Hdis.
  { intros a' n' Ha'. destruct (fl_live Hf a' n' Ha') as [Hn' Hma'].
    destruct (unmapped_mapped_disjoint _ _ _ _ _ Hun Hma') as [?|[?|?]]; [done|lia|lia]. }
  apply (handled_in_flight E C D M T own (<[a := p]> own) p q w m (set_msg_ctx a m) b _ dm _ [WIo r]);
    [done..| |done| | | | |].
  - right. exists r. split_and!; [done..|]. exists r, p, (set_msg_ctx a m), t.
    split_and!; [done..|simpl; apply lookup_insert_eq|done|]. right. fold a. rewrite <- Hl. simpl.
    split_and!; [done|done|apply lookup_insert_eq|apply lookup_insert_eq| |].
    + intros x Hx Hin. destruct (fl_client Hf x Hin) as [y Hy]. rewrite Hun in Hy by done. done.
    + intros a' n' Ha' Hne. rewrite lookup_insert_ne in Ha' by done. by apply Hdis.
  - intros x Hx. by apply is_Some_write, (fl_client Hf).
  - intros a' n' [[<- <-]|[Hne Ha']]%lookup_insert_Some.
    + split; [lia|]. rewrite Nat2Z.id. apply mapped_write_self.
    + destruct (fl_live Hf a' n' Ha') as [? ?]. split; [done|]. by apply mapped_write.
  - intros a1 n1 p1 Ho1 Hne Hl1. assert (a1 <> a) as Hna by congruence.
    rewrite !lookup_insert_ne by done. split_and!; [done|done|].
    intros a' n' [[<- <-]|[_ Ha']]%lookup_insert_Some _; [right|by left].
    rewrite Nat2Z.id. specialize (Hdis a1 n1 Hl1). unfold disjoint_range in *. lia.
  - intros a' p' [[<- <-]|[_ Ha']]%lookup_insert_Some; [right|by left].
    split_and!; [|done|done|done|done]. by rewrite <- (fl_rest Hf a Hno).
  - intros a' [Ha' Hne]%lookup_insert_None. rewrite lookup_insert_ne by done. by apply (fl_rest Hf).
Qed.

Lemma async_handled_in_flight E C D M T own p q w type fd ub count offset cb ctx d kind w' :
  let m := sent_msg type (async_params fd ub count offset cb ctx) in
  in_flight E C D M T own (p :: q) w -> p <> NULL -> w_msgs w !! p = Some m ->
  open_at w fd d -> 0 < count -> count + spdk_bdev_get_block_size (dev_bdev d) <= 2 ^ 32 ->
  within C ub (Z.to_nat count) -> async_handled w p m ub count offset d kind w' ->
  exists own', in_flight E C D M T own' q w'.
Proof.
  intros m Hf Hp Hm Hopen Hc Hs Hin Hah.
  pose proof (block_size_range (dev_bdev d)) as Hbs.
  destruct Hah as [st m' b dm Hst Hs' Hmc Hcb Ho _|b -> Hno Ho _
    |b a data dm _ _ Ha Hl Hpos Hun Ho _].
  - exists own. apply (dropped_in_flight E C D M T own p q w m); try done.
    rewrite Hs'. by destruct Hst as [->| ->].
  - exists own. apply (direct_in_flight E C D M T own p q w m (cb, ctx) b (w_dma w)
      (async_req p count offset d IoRead ub)); try done.
    unfold needs_bounce in Hno. rewrite (req_len_eq w fd count d Hopen (async_req p count offset d IoRead ub)) by done.
    by rewrite num_blocks_multiple by (lia || done).
  - exists (<[a := p]> own).
    apply (bounced_in_flight E C D M T own p q w m (cb, ctx) b dm (async_req p count offset d kind a));
      try done. rewrite Hl. symmetry. by apply (req_len_eq w fd count d Hopen).
Qed.

(** The poller handles a message: its request is given up or goes to the device. *)
Lemma process_in_flight E C D M T own p q w :
  in_flight E C D M T own (p :: q) w ->
  exists own' w', (forall fuel, process_msg fuel p w = Ok false w') /\
    in_flight E C D M T own' q w' /\ w_ring w' = w_ring w.
Proof.
  intros Hf. destruct (fl_queued Hf p) as (Hp & ty & fd & ub & count & offset & cb & ctx & Hm & Hty & Hc & Hin & Hs);
    [by left|].
  set (m := sent_msg ty _) in Hm. set (w0 := count_io w).
  assert (in_flight E C D M T own (p :: q) w0) as Hf0
    by (apply (in_flight_frame _ _ _ _ _ _ _ w _ (w_ring w) (w_bdev w)); done).
  assert (forall w', (forall fuel, io_handler ty fuel p w0 = Ok tt w') ->
    (exists own', in_flight E C D M T own' q w') -> w_ring w' = w_ring w ->
    exists own' w', (forall fuel, process_msg fuel p w = Ok false w') /\
      in_flight E C D M T own' q w' /\ w_ring w' = w_ring w) as Hfin.
  { intros w' Hh [own' Hf'] Hr. exists own', w'. split_and!; [|done|done]. intros fuel.
    rewrite (process_io fuel p m ty) by done. by rewrite (bind_ok _ _ _ _ _ (Hh fuel)). }
  assert ((ty = XPDK_MSG_READ \/ ty = XPDK_MSG_WRITE) /\ no_io_device w0 fd \/
    ty = XPDK_MSG_READ /\ (exists d, open_at w0 fd d /\ Z.land (dev_flags d) O_WRONLY <> 0) \/
    exists d, open_at w0 fd d /\ (ty = XPDK_MSG_READ -> Z.land (dev_flags d) O_WRONLY = 0))
    as [Hrej|[Hrej|(d & Hopen & Hfl)]].
  { destruct (in_flight_device _ _ _ _ _ _ _ _ fd Hf0) as [[d Hd]|Hno]; [right|by left].
    destruct Hty as [->| ->]; [|right; by exists d].
    destruct (decide (Z.land (dev_flags d) O_WRONLY = 0)); [right|left]; eauto. }
  all: swap 1 3.
  { assert (exists kind w', (forall fuel, io_handler ty fuel p w0 = Ok tt w') /\
      async_handled w0 p m ub count offset d kind w') as (kind & w' & Hh & Hah).
    { assert (w_sctx w0 !! p = None) as Hfr by (by rewrite (fl_frames Hf0)).
      assert (mapped (w_mem w0) ub (Z.to_nat count)) as Hma
        by (intros x Hx; by apply (fl_client Hf0), Hin).
      destruct Hty as [->| ->]; [exists IoRead|exists IoWrite].
      - apply (handle_read_async w0 p m fd ub count offset 0 cb ctx d); try done; [by apply Hs|apply Hf0|auto].
      - apply (handle_write_async w0 p m fd ub count offset 0 cb ctx d); try done; [by apply Hs|apply Hf0]. }
    apply (Hfin w'); [done| |by destruct Hah].
    apply (async_handled_in_flight E C D M T own p q w0 ty fd ub count offset cb ctx d kind); try done.
    by apply Hs. }
  all: assert (forall fuel, io_handler ty fuel p w0 =
      complete_msg p XPDK_ERROR_INVALID w0) as Hh
    by (intros fuel; apply (rejected_handler w0 fuel p m ty fd ub count offset (Some cb) ctx); auto; apply Hf0).
  all: eapply Hfin; [intros fuel; by rewrite Hh, (complete_msg_eq w0 p m)| |done].
  all: exists own; by apply (dropped_in_flight E C D M T own p q w0 m _ (w_bdev w0) (w_dma w0)).
Qed.

(** ** Turns *)

(** The poller, in either mode: it handles messages in the order of the ring, at least one
    when there is one. *)
Lemma poller_loop_in_flight E C D M T (n : nat) : forall (k : Z) own q w,
  ring_holds w q -> in_flight E C D M T own q w ->
  exists rc own' q' w', (forall fuel, poller_loop fuel n k w = Ok rc w') /\
    ring_holds w' q' /\ in_flight E C D M T own' q' w' /\
    (length q' <= length q)%nat /\
    (n <> 0%nat -> q <> [] -> (length q' < length q)%nat) /\
    (q = [] -> w_bdev w' = w_bdev w).
Proof.
  induction n as [|n IH]; intros k own q w Hring Hf; cbn [poller_loop].
  { eexists _, own, q, w. split_and!; [intros; reflexivity|done..]. }
  pose proof Hring as (r & Hr & Hq & Hcap). destruct q as [|p q].
  - destruct (ring_dequeue_nil w r Hr Hq) as (r' & Hdq & Hq' & Hc').
    eexists _, own, [], (set_w_ring (Some r') w).
    split_and!; [intros; by rewrite (bind_ok _ _ _ _ _ Hdq)| | |done..].
    + exists r'. split_and!; [done|done|lia].
    + by apply (in_flight_frame _ _ _ _ _ _ _ w (w_g w) (Some r') (w_bdev w)).
  - destruct (ring_dequeue_cons w r p q Hr Hq) as (r' & Hdq & Hq' & Hc').
    set (w1 := bump (set_w_ring (Some r') w)).
    assert (in_flight E C D M T own (p :: q) w1) as Hf1
      by (by apply (in_flight_frame _ _ _ _ _ _ _ w _ (Some r') (w_bdev w))).
    destruct (process_in_flight _ _ _ _ _ _ _ _ _ Hf1) as (own2 & w2 & Hp & Hf2 & Hr2).
    destruct (IH (k + 1) own2 q w2) as (rc & own3 & q3 & w3 & Hl & Hring3 & Hf3 & Hle & _ & _);
      [exists r'; split_and!; [by rewrite Hr2|done|lia]|done|].
    exists rc, own3, q3, w3. split_and!; [|done|done|simpl; lia|simpl; lia|done].
    intros fuel. rewrite (bind_ok _ _ _ _ _ Hdq).
    rewrite (bind_ok _ _ _ _ _ (bump_eq _)). fold w1.
    by rewrite (bind_ok _ _ _ _ _ (Hp fuel)).
Qed.

(** The work left: messages, requests of the devices, idle polls. *)
Definition less_work (q q' : list Z) (b b' : bdev_t) : Prop :=
  (length q' < length q)%nat \/
  q' = q /\ ((length (outstanding b') < length (outstanding b))%nat \/
    outstanding b' = outstanding b /\ (latency b' < latency b)%nat).

Lemma turn_in_flight E C D M T own q w :
  ring_holds w q -> in_flight E C D M T own q w ->
  exists own' q' w', (forall fuel, spdk_turn fuel w = Ok tt w') /\
    ring_holds w' q' /\ in_flight E C D M T own' q' w' /\
    (q <> [] \/ outstanding (w_bdev w) <> [] -> less_work q q' (w_bdev w) (w_bdev w')).
Proof.
  intros Hring Hf.
  assert (exists own1 w1 busy, poll_bdev w = Ok busy w1 /\ in_flight E C D M T own1 q w1 /\
    w_ring w1 = w_ring w /\
    (outstanding (w_bdev w) <> [] -> less_work q q (w_bdev w) (w_bdev w1)))
    as (own1 & w1 & busy & Hp1 & Hf1 & Hr1 & Hless).
  { destruct (bdev_poll (w_bdev w) (w_mem w)) as [b [c|]] eqn:Hp.
    - destruct (deliver_in_flight _ _ _ _ _ _ _ _ _ _ Hf Hp) as (own1 & w1 & Hd & Hf1 & Hr1 & _ & Hlen).
      exists own1, w1, true. rewrite (poll_bdev_eq w b (Some c) Hp), (bind_ok _ _ _ _ _ Hd).
      split_and!; [done..|]. intros _. right. split; [done|]. left. lia.
    - exists own, (set_w_bdev b w), false. rewrite (poll_bdev_eq w b None Hp).
      apply poll_none in Hp as (Ho & _ & Hl). split_and!; [done| |done|].
      + by apply (in_flight_frame _ _ _ _ _ _ _ w (w_g w) (w_ring w) b).
      + intros Hne. right. split; [done|]. right. split; [done|]. by apply Hl. }
  destruct (poller_loop_in_flight E C D M T (max_batch (opt_turbo_mode (ctx_opts (w_g w1)))) 0 own1 q w1)
    as (rc & own2 & q2 & w2 & Hl & Hring2 & Hf2 & Hle & Hdec & Hsame);
    [unfold ring_holds in *; by rewrite Hr1|done|].
  exists own2, q2, w2. split_and!; [|done|done|].
  - intros fuel. unfold spdk_turn, bind at 1, gets. rewrite (fl_running Hf). cbn [when].
    unfold spdk_thread_poll. erewrite bind_ok; [reflexivity|]. rewrite (bind_ok _ _ _ _ _ Hp1).
    unfold xpdk_msg_process_poller, bind at 1 2, gets. rewrite (Hl fuel). reflexivity.
  - intros Hne. destruct (decide (q = [])) as [->|Hq].
    + destruct q2; simpl in Hle; [|lia]. rewrite (Hsame eq_refl). apply Hless. by destruct Hne.
    + left. apply Hdec; [|done]. by destruct (opt_turbo_mode _).
Qed.

(** Turns use up the work: after some of them nothing is waiting and nothing outstanding. *)
Lemma drain_in_flight E C D M T own q w :
  ring_holds w q -> in_flight E C D M T own q w ->
  exists n own' w', (forall fuel, turns fuel n w = Ok tt w') /\
    ring_holds w' [] /\ outstanding (w_bdev w') = [] /\ in_flight E C D M T own' [] w'.
Proof.
  assert (forall lq lo ll own q w, length q = lq -> length (outstanding (w_bdev w)) = lo ->
    latency (w_bdev w) = ll -> ring_holds w q -> in_flight E C D M T own q w ->
    exists n own' w', (forall fuel, turns fuel n w = Ok tt w') /\
      ring_holds w' [] /\ outstanding (w_bdev w') = [] /\ in_flight E C D M T own' [] w') as Hgo.
  { intros lq. induction (lt_wf lq) as [lq _ IHq].
    intros lo. induction (lt_wf lo) as [lo _ IHo].
    intros ll. induction (lt_wf ll) as [ll _ IHl]. intros own0 q0 w0 Hlq Hlo Hll Hring Hf.
    destruct (decide (q0 = [] /\ length (outstanding (w_bdev w0)) = 0%nat)) as [[-> Hz]|Hwork].
    { exists 0%nat, own0, w0. split_and!; [done|done|by apply nil_length_inv|done]. }
    destruct (turn_in_flight E C D M T own0 q0 w0 Hring Hf) as (own1 & q1 & w1 & Ht & Hring1 & Hf1 & Hless).
    assert (exists n own' w', (forall fuel, turns fuel n w1 = Ok tt w') /\ ring_holds w' [] /\
      outstanding (w_bdev w') = [] /\ in_flight E C D M T own' [] w')
      as (n & own' & w' & Hn & Hres).
    { destruct Hless as [Hlt|(-> & [Hlt|[Ho Hlt]])].
      - destruct (decide (q0 = [])); [right|by left]. intros Hz. apply Hwork. by rewrite Hz.
      - by eapply (IHq (length q1)); [lia|..].
      - by eapply (IHo (length (outstanding (w_bdev w1)))); [lia|..].
      - eapply (IHl (latency (w_bdev w1))); [lia|done|by rewrite Ho|done..]. }
    exists (S n), own', w'. split; [|done]. intros fuel. simpl.
    by rewrite (bind_ok _ _ _ _ _ (Ht fuel)). }
  intros Hring Hf. by eapply Hgo.
Qed.

(** With nothing under way the library is idle, and holds the blocks it held before. *)
Lemma in_flight_idle E C D M T own w :
  ring_holds w [] -> outstanding (w_bdev w) = [] -> in_flight E C D M T own [] w ->
  idle w /\ w_dma_live w = D.
Proof.
  intros Hring Ho Hf. split.
  - destruct (fl_pool Hf) as (pl & Hpl & Hdis & _). split; try apply Hf; try done. by exists pl.
  - assert (own = ∅) as ->.
    { apply map_eq. intros a. destruct (own !! a) as [p|] eqn:Ha; [|by rewrite lookup_empty].
      destruct (fl_own Hf a p Ha) as (_ & Hj & _). unfold job_msgs in Hj. rewrite Ho in Hj.
      by apply elem_of_nil in Hj. }
    apply map_eq. intros a. by apply (fl_rest Hf).
Qed.

(** ** The client's calls *)

Lemma idle_in_flight E C w :
  idle w -> (forall i d, ctx_devices (w_g w) !! i = Some d -> slot_ok d) ->
  (forall x, x ∈ C -> is_Some (w_mem w !! x)) -> @cb_env E [] w ->
  ring_holds w [] /\
  in_flight E C (w_dma_live w) (w_msgs w) (free_msgs w ∪ dom (w_msgs w)) ∅ [] w.
Proof.
  intros [Hi Hrun Hwf Hring (pl & Hpl & Hdis) Ho Hfr Hdma] Hs HC Henv. split; [done|].
  split; unfold job_msgs; rewrite ?Ho; try done.
  - exists pl. unfold free_msgs. by rewrite Hpl.
  - intros p Hp. by apply elem_of_nil in Hp.
  - intros wk Hw. by apply elem_of_nil in Hw.
  - apply NoDup_nil_2.
  - intros p m Hm _ _. by left.
  - intros p m Hm. split; [done|]. apply not_elem_of_nil.
  - by rewrite map_difference_diag.
Qed.

(** The messages on the ring and of the jobs exist. *)
Lemma used_msgs E C D M T own q w p :
  in_flight E C D M T own q w -> p ∈ q ++ job_msgs (w_bdev w) -> is_Some (w_msgs w !! p).
Proof.
  intros Hf [Hq0|Hj]%elem_of_app.
  - destruct (fl_queued Hf p Hq0) as (_ & ? & ? & ? & ? & ? & ? & ? & Hm' & _). eauto.
  - apply list_elem_of_omap in Hj as (wk & Hw & Hwk).
    destruct (fl_jobs Hf wk Hw) as (r0 & p0 & m0 & t & -> & Hcb0 & _ & Hm0 & _).
    simpl in Hwk. rewrite Hcb0 in Hwk. injection Hwk as ->. eauto.
Qed.

(** A request of the client, at any moment: accepted behind the others, or refused. *)
Lemma request_in_flight E E' C D M T own q w type fd ub count offset cb ctx :
  ring_holds w q -> in_flight E C D M T own q w ->
  type = XPDK_MSG_READ \/ type = XPDK_MSG_WRITE -> 0 < count -> within C ub (Z.to_nat count) ->
  (forall d, open_at w fd d -> count + spdk_bdev_get_block_size (dev_bdev d) <= 2 ^ 32) ->
  (forall l, @cb_env E l w -> @cb_env E' ((cb, ctx) :: l) w) ->
  exists rc w', async_io type fd ub count offset (Some cb) ctx w = Ok rc w' /\
    w_calls w' = w_calls w /\ w_batch w' = w_batch w /\ w_g w' = w_g w /\
    ((rc = XPDK_SUCCESS /\ exists p, ring_holds w' (q ++ [p]) /\ in_flight E' C D M T own (q ++ [p]) w') \/
     (rc = XPDK_ERROR_INVALID \/ rc = XPDK_ERROR_NOMEM \/ rc = XPDK_ERROR_BUSY) /\
       ring_holds w' q /\ in_flight E C D M T own q w').
Proof.
  intros (r & Hr & Hq & Hcap) Hf Hty Hc Hin Hs Henv.
  destruct (fl_pool Hf) as (pl & Hpl & Hdis & Htot).
  destruct (async_io_world w type fd ub count offset cb ctx pl r Hpl Hdis Hr)
    as (rc & pl' & r' & ms & Heq & Hc' & Hout).
  exists rc, (set_w_ring (Some r') (set_w_pool (Some pl') (set_w_msgs ms w))).
  split_and!; [done..|]. destruct Hout as [(-> & _ & _ & p & Hp & Hpf & Hpl' & Hq' & ->)|(Hrc & Hpl' & Hq' & ->)].
  2: { right. split_and!; [done|exists r'; split_and!; [done|congruence|lia]|].
       destruct Hf. split; try done; [exists pl'; simpl; by rewrite Hpl'|].
       by apply (cb_env_frame _ w). }
  left. split; [done|]. exists p. split; [exists r'; split_and!; [done|congruence|lia]|].
  set (m := sent_msg type _).
  assert (w_msgs w !! p = None) as Hfresh by (apply not_elem_of_dom; set_solver).
  assert (forall p', p' ∈ q ++ job_msgs (w_bdev w) -> p' <> p) as Hne.
  { intros p' [m' Hm']%(used_msgs _ _ _ _ _ _ _ _ _ Hf) ->. congruence. }
  split; cbn [w_g w_pool w_msgs w_sctx w_bdev w_mem w_dma_live set_w_msgs set_w_pool set_w_ring];
    try apply Hf.
  - exists pl'. split; [done|]. rewrite dom_insert_L, Hpl'. split; [set_solver|].
    rewrite <- Htot. apply set_eq. intros x. destruct (decide (x = p)); set_solver.
  - intros p' [Hp'|Hp']%elem_of_app.
    + destruct (fl_queued Hf p' Hp') as (Hn & ty & fd' & ub' & ct & off & cb' & cx & Hm' & Hr').
      split; [done|]. exists ty, fd', ub', ct, off, cb', cx. split; [|done]. simpl.
      rewrite lookup_insert_ne; [done|]. symmetry. apply Hne, elem_of_app. by left.
    + apply list_elem_of_singleton in Hp' as ->. split; [done|].
      exists type, fd, ub, count, offset, cb, ctx. split_and!; try done. simpl. apply lookup_insert_eq.
  - intros wk Hw. pose proof (fl_jobs Hf wk Hw) as Hok. destruct (job_msg _ _ _ _ Hok) as [p' Hwk].
    apply (job_ok_frame C own own w _ wk p' Hok Hwk); simpl.
    + rewrite lookup_insert_ne; [done|]. symmetry. apply Hne, elem_of_app. right.
      apply list_elem_of_omap. by exists wk.
    + intros a n Ha Hn. split_and!; [done|done|by left].
  - rewrite <- app_assoc. simpl. rewrite <- Permutation_middle. apply NoDup_cons. split; [|apply Hf].
    intros Hp'. by apply (Hne p Hp').
  - intros a p' Ha. destruct (fl_own Hf a p' Ha) as (HD & Hj & Hnn & m' & Hm' & Hc0).
    split_and!; try done. exists m'. rewrite lookup_insert_ne; [done|]. intros ->. congruence.
  - intros p' m' Hm' Hnq Hj. apply lookup_insert_Some in Hm' as [[<- <-]|[Hn Hm']].
    + destruct Hnq. apply elem_of_app. right. by left.
    + apply (fl_done Hf p' m' Hm'); [|done]. intros Hq0. apply Hnq, elem_of_app. by left.
  - intros p' m' HM. destruct (fl_kept Hf p' m' HM) as [Hm' Hno].
    assert (p' <> p) as Hpp by (intros ->; congruence).
    rewrite lookup_insert_ne by done. split; [done|]. rewrite elem_of_app in Hno.
    rewrite !elem_of_app. intros [[?|Hx]|?]; [tauto|by apply list_elem_of_singleton in Hx|tauto].
  - assert (M !! p = None) as HM.
    { destruct (M !! p) as [m'|] eqn:HM; [|done]. destruct (fl_kept Hf p m' HM). congruence. }
    apply (cb_env_perm ((cb, ctx) :: due (w_msgs w ∖ M))).
    + rewrite difference_insert by done. symmetry. apply due_insert; [by rewrite difference_lookup|done].
    + by apply (cb_env_frame _ w), Henv, (fl_env Hf).
Qed.
End InFlight.

(** ** The memory of the simulated client *)

Definition sim_five : gset Z := list_to_set [8192; 8193; 8194; 8195; 8196].

Lemma sim_five_within : within sim_five 8192 (Z.to_nat 5).
Proof.
  intros x Hx. unfold sim_five. apply elem_of_list_to_set.
  assert (x = 8192 \/ x = 8193 \/ x = 8194 \/ x = 8195 \/ x = 8196) as Hc by lia.
  repeat (destruct Hc as [->|Hc]; [repeat constructor|]). subst x. repeat constructor.
Qed.

Lemma sim_five_mapped x : x ∈ sim_five -> is_Some (w_mem (H := sim_spdk) sim_open_world !! x).
Proof.
  intros Hx. apply (vb_mapped _ _ _ _ sim_valid_buffer).
  unfold sim_five in Hx. apply elem_of_list_to_set in Hx.
  repeat (apply elem_of_cons in Hx as [->|Hx]; [lia|]). by apply elem_of_nil in Hx.
Qed.
