(* ===== verification/AsyncSession.v ===== *)
(** Asynchronous sessions: a client that issues any number of asynchronous reads and writes,
    at any moments between the turns of the SPDK thread.  Every accepted request is accounted
    for: its callback is called exactly once, or its message stays behind with an error. *)

From stdpp Require Import base gmap list strings.
From Stdlib Require Import Strings.Byte.
From S2P Require Import Prelude Types Memory Spdk World Sim Core Blocks Perf Bdev Qos Io.
From S2P Require Import Async Vectored Batch Poller Idle IoCorrect SyncIo Devices Session.
From S2P Require Import AsyncCorrect BatchCorrect InFlight.

Open Scope Z_scope.

Section AsyncSession.
Context `{SpdkLaws}.
Implicit Types (w : world) (l : list token).

(** ** Callbacks of the client *)

(** A call of the log as the callback it was. *)
Definition called (x : Z * Z * Z) : token := (UserCallback (fst (fst x)), snd (fst x)).

Definition called_status (x : Z * Z * Z) : Prop :=
  snd x = XPDK_SUCCESS \/ snd x = XPDK_ERROR_IO.

Definition user_token (t : token) : Prop := exists f, fst t = UserCallback f.

(** From the log [base] on, the calls made and the callbacks due are those of [accepted]. *)
Definition user_env (base : list (Z * Z * Z)) (accepted : list token) l w : Prop :=
  Forall user_token l /\ exists new, w_calls w = base ++ new /\
    accepted ≡ₚ l ++ (called <$> new) /\ Forall called_status new.

#[refine] Instance user_callbacks base accepted : Callbacks := {|
  cb_env := user_env base accepted
|}.
Proof.
  - intros l l' w Hl (Hu & new & Hc & Hp & Hs). split; [by rewrite <- Hl|].
    exists new. by rewrite <- Hl.
  - intros l w w' Hc _ (Hu & new & Hc' & Hp & Hs). split; [done|]. exists new. by rewrite Hc.
  - intros cb ctx l w st Hst (Hu & new & Hc & Hp & Hs). apply Forall_cons in Hu as [[f Hf] Hu].
    simpl in Hf. subst cb.
    exists (set_w_calls (w_calls w ++ [(f, ctx, st)]) w). split_and!; [done|by eexists _, (w_batch w)|].
    split; [done|]. exists (new ++ [(f, ctx, st)]). split_and!.
    + simpl. by rewrite Hc, app_assoc.
    + rewrite Hp, fmap_app. simpl. unfold called at 2. simpl.
      by rewrite (app_assoc l), <- Permutation_cons_append.
    + apply Forall_app. split; [done|]. by apply Forall_singleton.
Defined.

Lemma user_env_accept base accepted f ctx l w :
  user_env base accepted l w ->
  user_env base ((UserCallback f, ctx) :: accepted) ((UserCallback f, ctx) :: l) w.
Proof.
  intros (Hu & new & Hc & Hp & Hs). split; [constructor; [by exists f|done]|].
  exists new. split_and!; [done| |done]. simpl. by rewrite Hp.
Qed.

(** ** Sessions *)

(** What happens, in order: the client's requests, with its callback and argument, and turns
    of the SPDK thread. *)
Inductive async_act :=
| AskRead (fd buffer count offset callback ctx : Z)
| AskWrite (fd buffer count offset callback ctx : Z)
| ThreadTurn.

(** The callbacks promised: a request that returned [XPDK_SUCCESS] was accepted. *)
Definition promised (callback ctx rc : Z) : list token :=
  if decide (rc = XPDK_SUCCESS) then [(UserCallback callback, ctx)] else [].

Definition run_act (fuel : nat) (a : async_act) : MW (list token) :=
  match a with
  | AskRead fd buffer count offset callback ctx =>
      let* rc := xpdk_read_async fd buffer count offset (Some (UserCallback callback)) ctx in
      ret (promised callback ctx rc)
  | AskWrite fd buffer count offset callback ctx =>
      let* rc := xpdk_write_async fd buffer count offset (Some (UserCallback callback)) ctx in
      ret (promised callback ctx rc)
  | ThreadTurn => spdk_turn fuel ;; ret []
  end.

Fixpoint run_acts (fuel : nat) (l : list async_act) : MW (list token) :=
  match l with
  | [] => ret []
  | a :: l =>
      let* t := run_act fuel a in
      let* ts := run_acts fuel l in
      ret (t ++ ts)
  end.

(** The buffers belong to the client's memory [C] and stay below the sizes at which 32 bits
    wrap around. *)
Definition act_ok (C : gset Z) (a : async_act) : Prop :=
  match a with
  | AskRead _ ub count _ _ _ | AskWrite _ ub count _ _ _ =>
      0 < count /\ within C ub (Z.to_nat count) /\
      (forall bd, count + spdk_bdev_get_block_size bd <= 2 ^ 32)
  | ThreadTurn => True
  end.

(** The state of a session: what was accepted so far, [accepted], is called or due. *)
Definition in_session (C : gset Z) (w0 : world) (accepted : list token) (w : world) : Prop :=
  exists own q, ring_holds w q /\
    in_flight (user_callbacks (w_calls w0) accepted) C (w_dma_live w0) (w_msgs w0)
      (free_msgs w0 ∪ dom (w_msgs w0)) own q w.

Lemma request_step C w0 accepted w type fd ub count offset f ctx :
  in_session C w0 accepted w -> type = XPDK_MSG_READ \/ type = XPDK_MSG_WRITE ->
  act_ok C (AskRead fd ub count offset f ctx) ->
  exists rc w', async_io type fd ub count offset (Some (UserCallback f)) ctx w = Ok rc w' /\
    in_session C w0 (promised f ctx rc ++ accepted) w'.
Proof.
  intros (own & q & Hring & Hf) Ht (Hc & Hin & Hs).
  destruct (request_in_flight _ (user_callbacks (w_calls w0) ((UserCallback f, ctx) :: accepted))
    C _ _ _ own q w type fd ub count offset (UserCallback f) ctx Hring Hf Ht Hc Hin)
    as (rc & w' & Hr & _ & _ & _ & Hout); [intros d _; apply Hs|intros l; apply user_env_accept|].
  exists rc, w'. split; [done|]. destruct Hout as [(-> & p & Hring' & Hf')|(Hrc & Hring' & Hf')].
  - exists own, (q ++ [p]). done.
  - unfold promised. rewrite decide_False by (intros ->; by destruct Hrc as [|[|]]).
    by exists own, q.
Qed.

Lemma act_step C w0 accepted w a :
  in_session C w0 accepted w -> act_ok C a ->
  exists ts w', (forall fuel, run_act fuel a w = Ok ts w') /\ in_session C w0 (ts ++ accepted) w'.
Proof.
  intros Hs Hok. destruct a as [fd ub count offset f ctx|fd ub count offset f ctx|].
  - destruct (request_step C w0 accepted w XPDK_MSG_READ fd ub count offset f ctx) as (rc & w' & Hr & Hs'); auto.
    exists (promised f ctx rc), w'. split; [|done]. intros fuel. simpl. unfold xpdk_read_async.
    by rewrite (bind_ok _ _ _ _ _ Hr).
  - destruct (request_step C w0 accepted w XPDK_MSG_WRITE fd ub count offset f ctx) as (rc & w' & Hr & Hs'); auto.
    exists (promised f ctx rc), w'. split; [|done]. intros fuel. simpl. unfold xpdk_write_async.
    by rewrite (bind_ok _ _ _ _ _ Hr).
  - destruct Hs as (own & q & Hring & Hf).
    destruct (turn_in_flight _ _ _ _ _ _ _ _ Hring Hf) as (own' & q' & w' & Ht & Hring' & Hf' & _).
    exists [], w'. split; [|by exists own', q']. intros fuel. simpl.
    by rewrite (bind_ok _ _ _ _ _ (Ht fuel)).
Qed.

Lemma acts_run C w0 (l : list async_act) : forall accepted w,
  in_session C w0 accepted w -> Forall (act_ok C) l ->
  exists ts w', (forall fuel, run_acts fuel l w = Ok ts w') /\
    exists accepted', accepted' ≡ₚ accepted ++ ts /\ in_session C w0 accepted' w'.
Proof.
  induction l as [|a l IH]; intros accepted w Hs Hok.
  - exists [], w. split; [done|]. exists accepted. by rewrite app_nil_r.
  - apply Forall_cons in Hok as [Ha Hok].
    destruct (act_step C w0 accepted w a Hs Ha) as (t & w1 & H1 & Hs1).
    destruct (IH _ w1 Hs1 Hok) as (ts & w2 & H2 & acc & Hp & Hs2).
    exists (t ++ ts), w2. split.
    + intros fuel. simpl. by rewrite (bind_ok _ _ _ _ _ (H1 fuel)), (bind_ok _ _ _ _ _ (H2 fuel)).
    + exists acc. split; [|done]. rewrite Hp. by rewrite <- app_assoc, (Permutation_app_comm t), <- app_assoc, (Permutation_app_comm ts).
Qed.

(** C7: Every accepted asynchronous request is called back exactly once, or accounted for as
    lost.  From an idle library, a client may issue any sequence of asynchronous reads and
    writes, on any descriptors, with the SPDK thread taking turns anywhere in between, in
    standard or in turbo mode, and with requests completing in any order: nothing faults,
    and after some further turns the library is idle again.  The new entries of the call log
    together with the callbacks of the messages that were left behind are, as a multiset,
    exactly the callbacks of the requests that returned [XPDK_SUCCESS]; each call reports
    success or [XPDK_ERROR_IO]; each message left behind is completed with an error; every
    other message is back in the pool and every bounce buffer is freed. *)
Theorem async_exactly_once w C acts :
  idle w -> (forall i d, ctx_devices (w_g w) !! i = Some d -> slot_ok d) ->
  (forall x, x ∈ C -> is_Some (w_mem w !! x)) -> Forall (act_ok C) acts ->
  exists accepted w1 n w2 new,
    (forall fuel, run_acts fuel acts w = Ok accepted w1) /\
    (forall fuel, turns fuel n w1 = Ok tt w2) /\ idle w2 /\
    let lost := w_msgs w2 ∖ w_msgs w in
    w_calls w2 = w_calls w ++ new /\ Forall called_status new /\
    accepted ≡ₚ (called <$> new) ++ due lost /\
    map_Forall (fun _ m => msg_completed m = true /\ msg_status m <> XPDK_SUCCESS) lost /\
    w_msgs w ⊆ w_msgs w2 /\ free_msgs w2 = free_msgs w ∖ dom lost /\
    w_dma_live w2 = w_dma_live w.
Proof.
  intros Hidle Hslots HC Hok.
  destruct (idle_in_flight (user_callbacks (w_calls w) []) C w Hidle Hslots HC) as [Hring Hf].
  { split; [constructor|]. exists []. split_and!; [by rewrite app_nil_r|done|constructor]. }
  destruct (acts_run C w acts [] w) as (accepted & w1 & Hrun & acc & Hacc & own1 & q1 & Hring1 & Hf1);
    [by exists ∅, []|done|].
  destruct (drain_in_flight _ _ _ _ _ _ _ _ Hring1 Hf1) as (n & own2 & w2 & Hn & Hring2 & Ho & Hf2).
  destruct (in_flight_idle _ _ _ _ _ _ _ Hring2 Ho Hf2) as [Hidle2 Hlive].
  destruct Hf2 as [_ _ _ _ (pl & Hpl & Hdis & Htot) _ _ _ _ _ _ _ _ Hdone Hkept (_ & new & Hcalls & Hperm & Hst)].
  unfold job_msgs in *. rewrite Ho in *. simpl in *.
  exists accepted, w1, n, w2, new. split_and!; try done.
  - rewrite <- Hacc, Hperm. apply Permutation_app_comm.
  - intros p m Hm. apply lookup_difference_Some in Hm as [Hm HM].
    destruct (Hdone p m Hm) as [?|?]; [apply not_elem_of_nil|apply not_elem_of_nil|congruence|done].
  - apply map_subseteq_spec. intros p m Hm. by apply Hkept.
  - destruct (idle_pool w Hidle) as (pl0 & Hpl0 & Hdis0). unfold free_msgs in *. rewrite Hpl, Hpl0 in *.
    rewrite dom_difference_L. assert (dom (w_msgs w) ⊆ dom (w_msgs w2)).
    { apply subseteq_dom, map_subseteq_spec. intros p m Hm. by apply Hkept. }
    apply set_eq. intros x. set_solver.
Qed.
End AsyncSession.

(** ** Witness *)

(** A write, a read that overtakes nothing, a turn, and a read on a descriptor that is not
    open. *)
Definition sim_acts : list async_act :=
  [AskWrite 0 8192 5 16 70 1; AskRead 0 8192 5 16 71 2; ThreadTurn; AskRead 7 8192 5 16 72 3].

Lemma sim_acts_ok : Forall (@act_ok sim_spdk sim_five) sim_acts.
Proof.
  assert (forall bd : Z, 5 + sim_block_size <= 2 ^ 32) as Hs
    by (intros bd; unfold sim_block_size; lia).
  repeat (apply Forall_cons; split; [exact I || exact (conj eq_refl (conj sim_five_within Hs))|]). constructor.
Qed.

Lemma async_exactly_once_witness :
  exists accepted w1 n w2 new,
    (forall fuel, @run_acts sim_spdk fuel sim_acts sim_open_world = Ok accepted w1) /\
    (forall fuel, turns fuel n w1 = Ok tt w2) /\
    accepted ≡ₚ (called <$> new) ++ due (w_msgs w2 ∖ w_msgs sim_open_world).
Proof.
  destruct (@async_exactly_once sim_spdk sim_spdk_laws sim_open_world sim_five sim_acts
    sim_idle_open (sound_slots _ sim_sound)) as (accepted & w1 & n & w2 & new & Hr & Hn & _ & _ & _ & Hp & _).
  - exact sim_five_mapped.
  - exact sim_acts_ok.
  - exists accepted, w1, n, w2, new. split_and!; [exact Hr|exact Hn|exact Hp].
Defined.
