(* ===== verification/BatchRuns.v ===== *)
(** Batches from end to end: operations submitted one by one to a batch context, the SPDK
    thread's turns in between, the completion callback of src/xpdk_batch.c moving them to the
    completed queue, and the cleanup of the context. *)

From stdpp Require Import base gmap list strings.
From Stdlib Require Import Strings.Byte.
From S2P Require Import Prelude Types Memory Spdk World Sim Core Blocks Perf Bdev Qos Io.
From S2P Require Import Async Vectored Batch Poller Idle IoCorrect SyncIo Devices Session.
From S2P Require Import AsyncCorrect BatchCorrect InFlight.

Open Scope Z_scope.

Section BatchRuns.
Context `{SpdkLaws}.
Implicit Types (w : world) (l : list token) (io : xpdk_batch_io) (ios : list xpdk_batch_io).

(** ** The completion callback of batches *)

(** The queues of a context to which [ios] were submitted and for which completions with the
    statuses [sts] arrived. *)
Definition batch_progress (max : Z) ios (sts : list Z) : batch_spec :=
  Build_batch_spec max (drop (length sts) ios) (zip_with set_io_status sts ios).

(** [k]: operations in the queue whose message is not sent yet. *)
Definition batch_env (ctx max : Z) ios (k : nat) l w : Prop :=
  Forall (eq (BatchCallback, ctx)) l /\ Z.of_nat (length ios) <= max /\
  exists sts, (length sts + length l + k = length ios)%nat /\
    Forall (fun st => st = XPDK_SUCCESS \/ st = XPDK_ERROR_IO) sts /\
    batch_at w ctx (batch_progress max ios sts).

Lemma progress_complete max ios sts st :
  (length sts < length ios)%nat ->
  spec_complete (batch_progress max ios sts) st = batch_progress max ios (sts ++ [st]).
Proof.
  intros Hlt. unfold spec_complete, batch_progress. simpl.
  destruct (lookup_lt_is_Some_2 ios (length sts) Hlt) as [io Hio].
  rewrite (drop_S ios io (length sts) Hio), length_app, Nat.add_1_r. f_equal.
  rewrite <- (take_drop_middle ios (length sts) io Hio) at 2.
  assert (length (take (length sts) ios) = length sts) as Hlen by (rewrite length_take; lia).
  rewrite zip_with_app by done. simpl. f_equal.
  rewrite <- (take_drop (length sts) ios) at 1.
  rewrite <- (app_nil_r sts) at 1. rewrite zip_with_app by done. by rewrite app_nil_r.
Qed.

#[refine] Instance batch_callbacks ctx max ios k : Callbacks := {|
  cb_env := batch_env ctx max ios k
|}.
Proof.
  - intros l l' w Hl (Hf & Hm & sts & Hlen & Hs). split_and!; [by rewrite <- Hl|done|].
    exists sts. by rewrite <- Hl.
  - intros l w w' _ Hb (Hf & Hm & sts & Hlen & Hs & Hat). split_and!; [done..|].
    exists sts. split_and!; [done..|]. unfold batch_at. by rewrite Hb.
  - intros cb cx l w st Hst (Hf & Hm & sts & Hlen & Hs & Hnn & c & Hc & Hrep).
    apply Forall_cons in Hf as [[= <- <-] Hf]. simpl in Hlen.
    destruct (batch_complete_refines c _ st Hrep) as (c' & Hcomp & Hrep').
    { left. simpl. rewrite length_zip_with. lia. }
    rewrite progress_complete in Hrep' by lia.
    exists (set_w_calls (w_calls w) (w_put_bctx ctx c' w)). split_and!.
    + unfold invoke. simpl. unfold xpdk_batch_completion_callback.
      rewrite (bind_ok _ _ _ _ _ (get_bctx_eq _ _ _ Hc)), Hcomp. by destruct w.
    + by eexists _, _.
    + split_and!; [done..|]. exists (sts ++ [st]). split_and!.
      * rewrite length_app. simpl. lia.
      * apply Forall_app. split; [done|]. by apply Forall_singleton.
      * split; [done|]. exists c'. split; [simpl; apply lookup_insert_eq|done].
Defined.

(** ** Cleaning up *)

Definition pending_left (ctx : Z) : MW bool :=
  let* c := get_bctx ctx in ret (bool_decide (bc_pending_ios c > 0)).

Lemma pending_left_eq w ctx s :
  batch_at w ctx s -> pending_left ctx w = Ok (bool_decide (bs_pending s <> [])) w.
Proof.
  intros (_ & c & Hc & Hrep). unfold pending_left. rewrite (bind_ok _ _ _ _ _ (get_bctx_eq _ _ _ Hc)).
  unfold ret. f_equal. apply bool_decide_ext. rewrite (rep_pending _ _ Hrep).
  destruct (bs_pending s); simpl; split; (done || lia).
Qed.

(** An idle library stays idle when its thread goes on. *)
Lemma idle_turn w :
  idle w -> exists w', (forall fuel, spdk_turn fuel w = Ok tt w') /\ idle w' /\ w_batch w' = w_batch w.
Proof.
  intros Hidle. destruct (idle_poll w Hidle) as (b & r & Hp & Hi & _).
  exists (set_w_ring (Some r) (set_w_bdev b w)). split_and!; [|done|done]. intros fuel.
  unfold spdk_turn, bind at 1, gets. rewrite (idle_running w Hidle). cbn [when].
  by rewrite (bind_ok _ _ _ _ _ (Hp fuel 0)).
Qed.

Lemma batch_cleanup_waits_pending w ctx s :
  idle w -> batch_at w ctx s -> bs_pending s <> [] -> forall fuel n, exists w',
    xpdk_batch_cleanup (spdk_turn fuel) n ctx w = Running w'.
Proof.
  intros Hidle Hat Hp fuel n. pose proof Hat as (Hnn & _).
  unfold xpdk_batch_cleanup. rewrite decide_False by done. fold (pending_left ctx).
  destruct (while_diverges (pending_left ctx) (spdk_turn fuel)
    (fun w => idle w /\ batch_at w ctx s)) with (n := n) (s := w) as [w' Hw]; [|done|].
  - intros w1 [Hi Hat1]. rewrite (pending_left_eq w1 ctx s Hat1), bool_decide_eq_true_2 by done.
    split; [done|]. destruct (idle_turn w1 Hi) as (w2 & Ht & Hi' & Hb). exists w2.
    split_and!; [done|done|]. unfold batch_at. by rewrite Hb.
  - exists w'. unfold bind. by rewrite Hw.
Qed.

(** [xpdk_batch_cleanup] on a context with nothing pending frees it at once, without a turn of
    the SPDK thread. *)
Lemma batch_cleanup_frees w ctx s :
  batch_at w ctx s -> bs_pending s = [] -> forall fuel n,
  xpdk_batch_cleanup (spdk_turn fuel) n ctx w =
    Ok tt (set_w_batch (delete ctx (w_batch w)) w).
Proof.
  intros Hat Hp fuel n. pose proof Hat as (Hnn & _).
  unfold xpdk_batch_cleanup. rewrite decide_False by done. fold (pending_left ctx).
  erewrite bind_ok; [done|]. apply while_stop. rewrite (pending_left_eq w ctx s Hat).
  by rewrite bool_decide_eq_false_2 by (by rewrite Hp; intros Hne; apply Hne).
Qed.

(** ** Sessions with a batch context *)

(** What happens, in order: submissions, and turns of the SPDK thread. *)
Inductive batch_act :=
| SubmitOne (io : xpdk_batch_io)
| BatchTurn.

(** The operations that were accepted. *)
Fixpoint run_batch (fuel : nat) (ctx : Z) (acts : list batch_act) : MW (list xpdk_batch_io) :=
  match acts with
  | [] => ret []
  | SubmitOne io :: acts =>
      let* rc := xpdk_batch_submit_one ctx (Some io) in
      let* ios := run_batch fuel ctx acts in
      ret ((if decide (rc = XPDK_SUCCESS) then [io] else []) ++ ios)
  | BatchTurn :: acts => spdk_turn fuel ;; run_batch fuel ctx acts
  end.

Fixpoint submitted (acts : list batch_act) : list xpdk_batch_io :=
  match acts with
  | [] => []
  | SubmitOne io :: acts => io :: submitted acts
  | BatchTurn :: acts => submitted acts
  end.

Definition batch_act_ok (C : gset Z) (a : batch_act) : Prop :=
  match a with
  | SubmitOne io =>
      0 < io_count io /\ within C (io_buffer io) (Z.to_nat (io_count io)) /\
      (forall bd, io_count io + spdk_bdev_get_block_size bd <= 2 ^ 32)
  | BatchTurn => True
  end.

Definition in_batch (C : gset Z) (w0 : world) (ctx max : Z) ios w : Prop :=
  exists own q, ring_holds w q /\
    in_flight (batch_callbacks ctx max ios 0) C (w_dma_live w0) (w_msgs w0)
      (free_msgs w0 ∪ dom (w_msgs w0)) own q w.

Lemma statuses_app sts ios ios' :
  (length sts <= length ios)%nat ->
  zip_with set_io_status sts (ios ++ ios') = zip_with set_io_status sts ios.
Proof.
  revert ios. induction sts as [|st sts IH]; intros [|x ios] Hlen; simpl in *; try done; try lia.
  f_equal. apply IH. lia.
Qed.

(** Putting an operation into the pending queue, and taking it back. *)
Lemma reserve_env ctx max ios l w io c c' :
  batch_env ctx max ios 0 l w -> Z.of_nat (length ios) < max ->
  w_batch w !! ctx = Some c -> batch_enqueue c io = Some (Some c') ->
  batch_env ctx max (ios ++ [io]) 1 l (w_put_bctx ctx c' w).
Proof.
  intros (Hf & Hm & sts & Hlen & Hs & Hnn & c0 & Hc0 & Hrep) Hlt Hc Henq.
  assert (c0 = c) as -> by congruence. pose proof (batch_enqueue_refines c _ io Hrep) as He.
  unfold spec_enqueue in He. simpl in He. rewrite decide_True in He by (rewrite length_drop; lia).
  destruct He as (c1 & He & Hrep'). assert (c1 = c') as -> by congruence.
  split_and!; [done|rewrite length_app; simpl; lia|]. exists sts.
  split_and!; [rewrite length_app; simpl; lia|done|split; [done|]]. exists c'.
  split; [simpl; apply lookup_insert_eq|]. unfold batch_progress.
  by rewrite drop_app_le, statuses_app by lia.
Qed.

Lemma release_env ctx max ios l w io c :
  batch_env ctx max (ios ++ [io]) 1 l w -> w_batch w !! ctx = Some c ->
  batch_env ctx max ios 0 l (w_put_bctx ctx (batch_unqueue c) w).
Proof.
  intros (Hf & Hm & sts & Hlen & Hs & Hnn & c0 & Hc0 & Hrep) Hc.
  assert (c0 = c) as -> by congruence. rewrite length_app in Hm, Hlen. simpl in Hm, Hlen.
  split_and!; [done|lia|]. exists sts. split_and!; [lia|done|split; [done|]]. exists (batch_unqueue c).
  split; [simpl; apply lookup_insert_eq|]. apply unqueue_represents with io. simpl.
  unfold batch_progress in Hrep. by rewrite drop_app_le, statuses_app in Hrep by lia.
Qed.

(** An operation whose request is refused leaves the pending queue again. *)
Lemma submit_failed C w0 ctx max ios io own q c' w1 rc w2 :
  rc = XPDK_ERROR_INVALID \/ rc = XPDK_ERROR_NOMEM \/ rc = XPDK_ERROR_BUSY ->
  submit_call ctx io w1 = Ok rc w2 -> w_batch w2 !! ctx = Some c' -> ring_holds w2 q ->
  in_flight (batch_callbacks ctx max (ios ++ [io]) 1) C (w_dma_live w0) (w_msgs w0)
    (free_msgs w0 ∪ dom (w_msgs w0)) own q w2 ->
  exists rc w', (let* rc := submit_call ctx io in
     when (bool_decide (rc <> XPDK_SUCCESS))
       (let* c := get_bctx ctx in put_bctx ctx (batch_unqueue c)) ;;
     ret rc) w1 = Ok rc w' /\
    (rc <> XPDK_SUCCESS -> rc = XPDK_ERROR_INVALID \/ rc = XPDK_ERROR_NOMEM \/ rc = XPDK_ERROR_BUSY) /\
    in_batch C w0 ctx max (ios ++ if decide (rc = XPDK_SUCCESS) then [io] else []) w'.
Proof.
  intros Hrc Hcall Hc2 Hring2 Hf2.
  assert (rc <> XPDK_SUCCESS) as Hne by (intros ->; by destruct Hrc as [|[|]]).
  exists rc, (w_put_bctx ctx (batch_unqueue c') w2). split_and!; [|done|].
  - rewrite (bind_ok _ _ _ _ _ Hcall), bool_decide_eq_true_2 by done. cbn [when]. rewrite bind_assoc.
    by rewrite (bind_ok _ _ _ _ _ (get_bctx_eq _ _ _ Hc2)).
  - rewrite decide_False, app_nil_r by done. exists own, q. split; [done|].
    apply (in_flight_env (batch_callbacks ctx max (ios ++ [io]) 1)); [done|]. intros l Hl.
    by apply (release_env ctx max ios l w2 io c').
Qed.

Lemma submit_step C w0 ctx max ios w io :
  in_batch C w0 ctx max ios w -> Z.of_nat (length ios) < max -> batch_act_ok C (SubmitOne io) ->
  exists rc w', xpdk_batch_submit_one ctx (Some io) w = Ok rc w' /\
    (rc <> XPDK_SUCCESS -> rc = XPDK_ERROR_INVALID \/ rc = XPDK_ERROR_NOMEM \/ rc = XPDK_ERROR_BUSY) /\
    in_batch C w0 ctx max (ios ++ if decide (rc = XPDK_SUCCESS) then [io] else []) w'.
Proof.
  intros (own & q & Hring & Hf) Hlt (Hc & Hin & Hs).
  pose proof (fl_env _ _ _ _ _ _ _ _ Hf) as (_ & _ & sts & Hlen & _ & Hnn & c & Hcx & Hrep).
  pose proof (batch_enqueue_refines c _ io Hrep) as He.
  unfold spec_enqueue in He. simpl in He. rewrite decide_True in He by (rewrite length_drop; lia).
  destruct He as (c' & Henq & _). rewrite (submit_one_eq w ctx c c' io Hnn Hcx Henq).
  set (w1 := w_put_bctx ctx c' w).
  assert (in_flight (batch_callbacks ctx max (ios ++ [io]) 1) C (w_dma_live w0) (w_msgs w0)
    (free_msgs w0 ∪ dom (w_msgs w0)) own q w1) as Hf1.
  { apply (in_flight_env (batch_callbacks ctx max ios 0)); [done|]. intros l Hl.
    by apply (reserve_env ctx max ios l w io c c'). }
  assert (ring_holds w1 q) as Hring1 by done.
  destruct (io_msg_type io) as [type|] eqn:Hty.
  2: { apply (submit_failed C w0 ctx max ios io own q c' w1 XPDK_ERROR_INVALID w1); try done;
         [by left|unfold submit_call; by rewrite Hty|apply lookup_insert_eq]. }
  assert (type = XPDK_MSG_READ \/ type = XPDK_MSG_WRITE) as Ht.
  { unfold io_msg_type in Hty. destruct (io_type io); try done; injection Hty as <-; auto. }
  destruct (request_in_flight _ (batch_callbacks ctx max (ios ++ [io]) 0)
    C _ _ _ own q w1 type (io_fd io) (io_buffer io) (io_count io) (io_offset io) BatchCallback ctx
    Hring1 Hf1 Ht Hc Hin)
    as (rc & w2 & Hr & _ & Hb & _ & Hout); [intros d _; apply Hs| |].
  { intros l (Hl & Hm & sts' & Hlen' & Hrest). split_and!; [by constructor|done|].
    exists sts'. split; [simpl; lia|done]. }
  assert (submit_call ctx io w1 = Ok rc w2) as Hcall by (unfold submit_call; by rewrite Hty).
  destruct Hout as [(-> & p & Hring2 & Hf2)|(Hrc & Hring2 & Hf2)].
  - exists XPDK_SUCCESS, w2. split_and!; [|done|].
    + by rewrite (bind_ok _ _ _ _ _ Hcall).
    + by exists own, (q ++ [p]).
  - apply (submit_failed C w0 ctx max ios io own q c' w1 rc w2); try done.
    rewrite Hb. apply lookup_insert_eq.
Qed.

Lemma batch_acts_run C w0 ctx max (acts : list batch_act) : forall ios w,
  in_batch C w0 ctx max ios w -> Forall (batch_act_ok C) acts ->
  Z.of_nat (length ios + length (submitted acts)) <= max ->
  exists more w', (forall fuel, run_batch fuel ctx acts w = Ok more w') /\
    more `sublist_of` submitted acts /\
    in_batch C w0 ctx max (ios ++ more) w'.
Proof.
  induction acts as [|[io|] acts IH]; intros ios w Hb Hok Hmax; cbn [run_batch].
  - exists [], w. rewrite app_nil_r. done.
  - apply Forall_cons in Hok as [Ha Hok]. simpl in Hmax.
    destruct (submit_step C w0 ctx max ios w io Hb) as (rc & w1 & H1 & _ & Hb1); [lia|done|].
    destruct (IH _ w1 Hb1 Hok) as (more & w2 & H2 & Hsub & Hb2).
    { rewrite length_app. case_decide; simpl; lia. }
    exists ((if decide (rc = XPDK_SUCCESS) then [io] else []) ++ more), w2. split_and!.
    + intros fuel. by rewrite (bind_ok _ _ _ _ _ H1), (bind_ok _ _ _ _ _ (H2 fuel)).
    + simpl. case_decide; simpl; [by apply sublist_skip|by apply sublist_cons].
    + by rewrite app_assoc.
  - apply Forall_cons in Hok as [_ Hok]. destruct Hb as (own & q & Hring & Hf).
    destruct (turn_in_flight _ _ _ _ _ _ _ _ Hring Hf) as (own' & q' & w1 & Ht & Hring' & Hf' & _).
    destruct (IH ios w1) as (more & w2 & H2 & Hsub & Hb2); [by exists own', q'|done|done|].
    exists more, w2. split_and!; [|done|done]. intros fuel. by rewrite (bind_ok _ _ _ _ _ (Ht fuel)).
Qed.


(** C38: An operation submitted on a descriptor without a device hangs its batch:
    [xpdk_batch_submit_one] returns [XPDK_SUCCESS], one turn later the library is idle, the
    operation is still pending and its completion will never come, and
    [xpdk_batch_cleanup] does not return. *)
Theorem batch_bad_descriptor_hangs w ctx max_ios io :
  idle w -> free_msgs w <> ∅ -> 0 < max_ios ->
  batch_at w ctx (Build_batch_spec max_ios [] []) ->
  io_type io = XPDK_IO_READ \/ io_type io = XPDK_IO_WRITE ->
  io_buffer io <> NULL -> io_count io <> 0 -> no_io_device w (io_fd io) ->
  exists w1 w2,
    xpdk_batch_submit_one ctx (Some io) w = Ok XPDK_SUCCESS w1 /\
    (forall fuel, spdk_turn fuel w1 = Ok tt w2) /\ idle w2 /\
    batch_at w2 ctx (Build_batch_spec max_ios [io] []) /\
    forall fuel n, exists w3, xpdk_batch_cleanup (spdk_turn fuel) n ctx w2 = Running w3.
Proof.
  intros Hidle Hfree Hmax Hat Hty Hub Hc Hno. pose proof Hat as (Hnn & c & Hcx & Hrep).
  pose proof (batch_enqueue_refines c _ io Hrep) as He.
  unfold spec_enqueue in He. simpl in He. rewrite decide_True in He by done.
  destruct He as (c' & Henq & Hrep'). set (w0 := w_put_bctx ctx c' w).
  assert (exists type, io_msg_type io = Some type /\ (type = XPDK_MSG_READ \/ type = XPDK_MSG_WRITE))
    as (type & Htype & Ht) by (unfold io_msg_type; destruct Hty as [->| ->]; eauto).
  assert (idle w0) as Hidle0 by (by destruct Hidle; split).
  destruct (bad_descriptor_silent w0 type (io_fd io) (io_buffer io) (io_count io) (io_offset io)
    BatchCallback ctx) as (w1 & w2 & Hcall & Hturn & Hs); [done..|by left|].
  assert (batch_at w2 ctx (Build_batch_spec max_ios [io] [])) as Hat2.
  { split; [done|]. exists c'. rewrite (silent_batch _ _ Hs). split; [apply lookup_insert_eq|done]. }
  exists w1, w2. split_and!; [|done|apply Hs|done|].
  - rewrite (submit_one_eq w ctx c c' io Hnn Hcx Henq). fold w0.
    assert (submit_call ctx io w0 = Ok XPDK_SUCCESS w1) as Hsub
      by (unfold submit_call; by rewrite Htype).
    by rewrite (bind_ok _ _ _ _ _ Hsub).
  - by apply (batch_cleanup_waits_pending w2 ctx (Build_batch_spec max_ios [io] []) (silent_idle _ _ Hs)).
Qed.

(** ** A completion while completions are processed

    [xpdk_batch_process_completions] releases the lock around the client's callback; the SPDK
    thread may then run the completion callback of the same context. *)

(** A completion with status [st'] arrives during the callback that is the [k]-th of the log. *)
Definition interrupted (k : nat) (ctx st' : Z) (f : xpdk_io_callback_t) (uctx st : Z) : MW unit :=
  invoke f uctx st ;;
  let* w := get in
  when (bool_decide (length (w_calls w) = k)) (xpdk_batch_completion_callback ctx st').

Lemma process_loop_step inv n ctx k w c io f w1 c1 :
  w_batch w !! ctx = Some c -> bc_completed_ios c > 0 ->
  queue_get (bc_completed_queue c) k = Some io -> bc_global_callback c = Some f ->
  inv f (io_user_ctx io) (io_status io) w = Ok tt w1 -> w_batch w1 !! ctx = Some c1 ->
  process_loop inv (S n) ctx k w = process_loop inv n ctx (k + 1) (w_put_bctx ctx (batch_pop c1) w1).
Proof.
  intros Hc Hpos Hget Hcb Hinv Hc1. cbn [process_loop].
  rewrite (bind_ok _ _ _ _ _ (get_bctx_eq _ _ _ Hc)), decide_True, Hget, Hcb by done.
  cbn [from_some]. rewrite bind_ret_l, (bind_ok _ _ _ _ _ Hinv).
  by rewrite (bind_ok _ _ _ _ _ (get_bctx_eq _ _ _ Hc1)).
Qed.

(** The completion of an operation arrives during the [k]-th callback only. *)
Lemma interrupted_early w k ctx st' f cx st :
  (S (length (w_calls w)) < k)%nat ->
  interrupted k ctx st' (UserCallback f) cx st w =
    Ok tt (set_w_calls (w_calls w ++ [(f, cx, st)]) w).
Proof.
  intros Hk. unfold interrupted. erewrite bind_ok by reflexivity. rewrite bind_get.
  rewrite bool_decide_eq_false_2; [done|]. simpl. rewrite length_app. simpl. lia.
Qed.

Lemma interrupted_now w k ctx st' f cx st c1 c2 :
  k = S (length (w_calls w)) -> w_batch w !! ctx = Some c1 -> batch_complete c1 st' = Some c2 ->
  interrupted k ctx st' (UserCallback f) cx st w =
    Ok tt (w_put_bctx ctx c2 (set_w_calls (w_calls w ++ [(f, cx, st)]) w)).
Proof.
  intros Hk Hc1 Hcomp. set (wb := set_w_calls _ _). unfold interrupted.
  erewrite bind_ok by reflexivity. rewrite bind_get. fold wb.
  rewrite bool_decide_eq_true_2 by (simpl; rewrite !length_app; simpl; lia). cbn [when].
  unfold xpdk_batch_completion_callback. rewrite (bind_ok _ _ _ _ _ (get_bctx_eq wb ctx c1 Hc1)).
  by rewrite Hcomp.
Qed.

(** A completion while one of two waiting completions is still counted: it is written over the
    second one. *)
Lemma complete_over c st' max op p a b :
  represents c (Build_batch_spec max (op :: p) [a; b]) -> 3 <= max ->
  exists pq, holds pq p /\
    batch_complete (set_bc_completed_ios 1 c) st' =
      Some (set_bc_pending_ios (Z.of_nat (length p)) (set_bc_pending_queue pq
        (set_bc_completed_ios 2 (set_bc_completed_queue
          (<[1%nat := Some (set_io_status st' op)]> (bc_completed_queue c))
          (set_bc_completed_ios 1 c))))).
Proof.
  intros [Hm Hp Hci Hpq Hcq Hps Hcs] Hmax. simpl in *.
  destruct (holds_shift (bc_pending_queue c) (op :: p) 1 Hpq) as (pq & Hpqe & Hph & Hpl); [simpl; lia|].
  change (Z.of_nat 1) with 1 in Hpqe. simpl in Hpqe, Hph. rewrite Nat.sub_0_r in Hpqe.
  exists pq. split; [done|]. unfold batch_complete. simpl. rewrite Hp. rewrite decide_True by lia.
  rewrite (holds_head _ _ _ Hpq). simpl. unfold queue_put. rewrite decide_True by lia. simpl.
  replace (Z.of_nat (S (length p)) - 1) with (Z.of_nat (length p)) by lia. by rewrite Hpqe.
Qed.

(** C39: A completion that arrives while [xpdk_batch_process_completions] runs the second of two
    callbacks is lost.  The completion callback appends at index [completed_ios], which the
    loop has already decremented, so the new entry lands on one the loop has passed; the
    compaction then moves the stale slot behind the processed ones to the front.  Both
    waiting completions are reported and one completion is counted as waiting, but what
    waits is the old content of slot 2, not the operation that completed, and that operation
    is no longer pending either. *)
Theorem batch_race_loses_completion w ctx c f max op p a b st' :
  ctx <> NULL -> w_batch w !! ctx = Some c ->
  represents c (Build_batch_spec max (op :: p) [a; b]) -> 3 <= max ->
  bc_global_callback c = Some (UserCallback f) ->
  exists w' c',
    xpdk_batch_process_completions (interrupted (length (w_calls w) + 2) ctx st') ctx 2 w = Ok 2 w' /\
    w_calls w' = w_calls w ++ [(f, io_user_ctx a, io_status a); (f, io_user_ctx b, io_status b)] /\
    w_batch w' !! ctx = Some c' /\
    bc_completed_ios c' = 1 /\ bc_pending_ios c' = Z.of_nat (length p) /\
    holds (bc_pending_queue c') p /\
    queue_get (bc_completed_queue c') 0 = queue_get (bc_completed_queue c) 2.
Proof.
  intros Hnn Hc Hrep Hmax Hcb. destruct (complete_over c st' max op p a b Hrep Hmax) as (pq & Hph & Hcomp).
  destruct Hrep as [Hm Hp Hci Hpq Hcq Hps Hcs]. simpl in *.
  pose proof (holds_get (bc_completed_queue c) [a; b] 0 Hcq ltac:(simpl; lia)) as Ha.
  pose proof (holds_get (bc_completed_queue c) [a; b] 1 Hcq ltac:(simpl; lia)) as Hb.
  change (Z.of_nat 0) with 0 in Ha. change (Z.of_nat 1) with 1 in Hb. simpl in Ha, Hb.
  set (cq := <[1%nat := Some (set_io_status st' op)]> (bc_completed_queue c)).
  set (c1 := set_bc_completed_ios 1 c).
  set (c2 := set_bc_pending_ios (Z.of_nat (length p)) (set_bc_pending_queue pq
    (set_bc_completed_ios 2 (set_bc_completed_queue cq c1)))).
  set (wa := set_w_calls (w_calls w ++ [(f, io_user_ctx a, io_status a)]) w).
  set (wb := set_w_calls (w_calls wa ++ [(f, io_user_ctx b, io_status b)]) (w_put_bctx ctx c1 wa)).
  fold c1 cq c2 in Hcomp.
  pose proof (interrupted_early w (length (w_calls w) + 2) ctx st' f (io_user_ctx a) (io_status a)
    ltac:(lia)) as H1. fold wa in H1.
  assert (interrupted (length (w_calls w) + 2) ctx st' (UserCallback f) (io_user_ctx b) (io_status b)
    (w_put_bctx ctx c1 wa) = Ok tt (w_put_bctx ctx c2 wb)) as H2.
  { apply (interrupted_now (w_put_bctx ctx c1 wa) _ ctx st' f (io_user_ctx b) (io_status b) c1 c2);
      [simpl; rewrite length_app; simpl; lia|apply lookup_insert_eq|done]. }
  set (c3 := set_bc_completed_ios 1 c2).
  set (w3 := w_put_bctx ctx c3 (w_put_bctx ctx c2 wb)).
  assert (process_loop (interrupted (length (w_calls w) + 2) ctx st') (Z.to_nat 2) ctx 0 w = Ok 2 w3)
    as Hloop.
  { change (Z.to_nat 2) with 2%nat.
    rewrite (process_loop_step _ 1 ctx 0 w c a (UserCallback f) wa c); try done; [|simpl; lia].
    assert (batch_pop c = c1) as -> by (unfold batch_pop, c1; by rewrite Hci).
    by rewrite (process_loop_step _ 0 ctx (0 + 1) (w_put_bctx ctx c1 wa) c1 b (UserCallback f)
      (w_put_bctx ctx c2 wb) c2) by (simpl; try done; apply lookup_insert_eq). }
  set (cq' := take 1 (drop 2 cq) ++ drop 1 cq).
  assert (batch_compact c3 2 = Some (set_bc_completed_queue cq' c3)) as Hcompact.
  { unfold batch_compact. rewrite decide_True by (simpl; lia). unfold queue_shift.
    rewrite decide_True; [done|]. simpl. unfold cq. rewrite length_insert. lia. }
  exists (w_put_bctx ctx (set_bc_completed_queue cq' c3) w3), (set_bc_completed_queue cq' c3).
  split_and!; [|by simpl; rewrite <- app_assoc|simpl; apply lookup_insert_eq|done|done|done|].
  - unfold xpdk_batch_process_completions. rewrite decide_False by done.
    rewrite (bind_ok _ _ _ _ _ Hloop).
    rewrite (bind_ok _ _ _ _ _ (get_bctx_eq w3 ctx c3 (lookup_insert_eq _ _ _))).
    by rewrite Hcompact.
  - simpl. unfold cq', cq, queue_get.
    destruct (bc_completed_queue c) as [|x0 [|x1 [|x2 q]]]; simpl in *; try lia.
    rewrite !decide_True by lia. done.
Qed.
End BatchRuns.

(** ** Witnesses *)

Local Existing Instances sim_spdk sim_spdk_laws.

Lemma sim_batch_idle pending completed : idle (sim_batch_world pending completed).
Proof. destruct sim_idle_open. by split. Qed.


Definition stray_io : xpdk_batch_io := Build_batch_io XPDK_IO_WRITE 7 8192 5 0 7 0 0.

Lemma batch_bad_descriptor_hangs_witness :
  exists w1 w2,
    xpdk_batch_submit_one 60000 (Some stray_io) (sim_batch_world [] []) = Ok XPDK_SUCCESS w1 /\
    (forall fuel, spdk_turn fuel w1 = Ok tt w2) /\
    forall fuel n, exists w3, xpdk_batch_cleanup (spdk_turn fuel) n 60000 w2 = Running w3.
Proof.
  destruct (batch_bad_descriptor_hangs (sim_batch_world [] []) 60000 2 stray_io (sim_batch_idle [] [])
    sim_free eq_refl (sim_batch_at [] [] ltac:(simpl; lia) ltac:(simpl; lia)) (or_intror eq_refl))
    as (w1 & w2 & Hs & Ht & _ & _ & Hc); [done|done| |].
  - intros d _ Hd. vm_compute in Hd. injection Hd as <-. by left.
  - exists w1, w2. split_and!; [exact Hs|exact Ht|exact Hc].
Defined.

(** A context of three operations: one pending, two completed, the last slot never written. *)
Definition race_ctx : xpdk_batch_ctx :=
  Build_batch_ctx 3 1 2 [Some sample_io; None; None] [Some sample_io; Some sample_io; None]
    (Some (UserCallback 70)).

Definition race_world : world := set_w_batch {[60000 := race_ctx]} sim_open_world.

Lemma batch_race_loses_completion_witness :
  exists w' c',
    xpdk_batch_process_completions (interrupted 2 60000 0) 60000 2 race_world = Ok 2 w' /\
    w_batch w' !! 60000 = Some c' /\ bc_completed_ios c' = 1 /\
    queue_get (bc_completed_queue c') 0 = None.
Proof.
  assert (represents race_ctx (Build_batch_spec 3 [sample_io] [sample_io; sample_io])) as Hrep.
  { split; simpl; try done; [by exists [None; None]|by exists [None]]. }
  destruct (batch_race_loses_completion race_world 60000 race_ctx 70 3 sample_io [] sample_io sample_io 0
    ltac:(done) (lookup_singleton_eq _ _) Hrep ltac:(lia) eq_refl)
    as (w' & c' & Hp & _ & Hc & Hn & _ & _ & Hq).
  exists w', c'. split_and!; [exact Hp|exact Hc|exact Hn|exact Hq].
Defined.
