(* ===== verification/BatchWait.v ===== *)
(** [xpdk_batch_init] and [xpdk_batch_wait] (src/xpdk_batch.c): new contexts, and waiting with
    and without a timeout. *)

From stdpp Require Import base gmap list strings.
From Stdlib Require Import Strings.Byte.
From S2P Require Import Prelude Types Memory Spdk World Sim Core Blocks Perf Bdev Qos Io.
From S2P Require Import Async Vectored Batch Poller Idle IoCorrect SyncIo Devices Session.
From S2P Require Import AsyncCorrect BatchCorrect InFlight BatchRuns.

Open Scope Z_scope.

Section BatchWait.
Context `{SpdkLaws}.
Implicit Types (w : world).

(** ** New contexts *)

(** [xpdk_batch_init] accepts sizes from 1 to 1024.  A pointer it returns is fresh and leads
    to an empty context of that size; otherwise it returns [NULL] and no context exists that
    did not before.  Other contexts are never touched. *)
Theorem batch_init_correct w mutex_rc cond_rc max_ios :
  exists ctx w', xpdk_batch_init mutex_rc cond_rc max_ios w = Ok ctx w' /\
    (ctx = NULL -> w_batch w' = w_batch w) /\
    (ctx <> NULL -> 0 < max_ios <= 1024 /\ mutex_rc = 0 /\ cond_rc = 0 /\
       w_batch w !! ctx = None /\ batch_at w' ctx (Build_batch_spec max_ios [] []) /\
       forall ctx', ctx' <> ctx -> w_batch w' !! ctx' = w_batch w !! ctx').
Proof.
  unfold xpdk_batch_init. case_decide as Hr; [by exists NULL, w|]. rewrite bind_get.
  destruct (sys_malloc (w_sys w) (dom (w_batch w))) as [y ctx] eqn:Hm.
  rewrite (bind_ok _ _ _ _ _ (eq_refl : modify (set_w_sys y) w = Ok tt (set_w_sys y w))).
  pose proof (malloc_fresh _ _ _ _ Hm) as Hfresh. clear Hm.
  case_decide as Hn; [by exists NULL, (set_w_sys y w)|]. rewrite bind_get.
  cbn [w_sys w_batch set_w_sys].
  destruct (sys_malloc y (dom (w_batch w))) as [y1 pq].
  destruct (sys_malloc y1 (dom (w_batch w))) as [y2 cq].
  rewrite (bind_ok _ _ _ _ _ (eq_refl : modify (set_w_sys y2) _ = Ok tt (set_w_sys y2 (set_w_sys y w)))).
  case_decide as Hq; [by eexists NULL, _|]. case_decide as Hp; [by eexists NULL, _|].
  exists ctx, (w_put_bctx ctx (batch_ctx_new max_ios) (set_w_sys y2 (set_w_sys y w))).
  split_and!; [done|done|]. intros _. split_and!; [lia|lia|lia|lia| | |].
  - apply not_elem_of_dom. by apply Hfresh.
  - split; [done|]. exists (batch_ctx_new max_ios). split; [simpl; apply lookup_insert_eq|].
    apply batch_new_represents. lia.
  - intros ctx' Hne. simpl. by rewrite lookup_insert_ne.
Qed.

(** ** Waiting *)

(** The [k]-th reading of the clock from [y] on. *)
Fixpoint clock_reading (k : nat) (y : sys_t) : Z * Z :=
  match k with
  | O => snd (sys_clock_gettime y)
  | S k => clock_reading k (fst (sys_clock_gettime y))
  end.

Lemma clock_gettime_eq w :
  clock_gettime w =
    Ok (clock_reading 0 (w_sys w)) (set_w_sys (fst (sys_clock_gettime (w_sys w))) w).
Proof. unfold clock_gettime, bind, get. simpl. by destruct (sys_clock_gettime (w_sys w)). Qed.

Lemma poll_idle w (n : Z) :
  idle w -> exists w', (forall fuel, xpdk_poll (spdk_thread_poll fuel) n w = Ok 0 w') /\
    idle w' /\ w_sys w' = w_sys w.
Proof.
  intros Hidle. destruct (idle_poll w Hidle) as (b & r & Hp & Hi & _).
  exists (set_w_ring (Some r) (set_w_bdev b w)). split_and!; [|done|done]. intros fuel.
  unfold xpdk_poll, is_initialized, bind at 1, gets. rewrite (idle_initialized w Hidle). apply Hp.
Qed.

Lemma idle_set_sys w y : idle w -> idle (set_w_sys y w).
Proof. by intros []. Qed.

Lemma wait_no_timeout n : forall w max timeout deadline,
  idle w -> 0 < max -> timeout <= 0 -> forall fuel, exists w',
    batch_wait_loop (spdk_thread_poll fuel) n max timeout deadline 0 w = Running w'.
Proof.
  induction n as [|n IH]; intros w max timeout deadline Hidle Hmax Ht fuel; cbn [batch_wait_loop];
    rewrite decide_True by lia; [by exists w|].
  destruct (poll_idle w (max - 0) Hidle) as (w1 & Hp & Hi1 & _).
  rewrite (bind_ok _ _ _ _ _ (Hp fuel)), decide_False by lia. cbv zeta.
  rewrite decide_False by lia. by apply IH.
Qed.

Lemma wait_timeout k : forall w max timeout deadline,
  idle w -> 0 < max -> 0 < timeout -> deadline_passed (clock_reading k (w_sys w)) deadline = true ->
  exists w', idle w' /\ forall fuel n, (k < n)%nat ->
    batch_wait_loop (spdk_thread_poll fuel) n max timeout deadline 0 w = Ok 0 w'.
Proof.
  induction k as [|k IH]; intros w max timeout deadline Hidle Hmax Ht Hpass;
    destruct (poll_idle w (max - 0) Hidle) as (w1 & Hp & Hi1 & Hsys);
    pose proof (clock_gettime_eq w1) as Hclk; rewrite Hsys in Hclk;
    set (w2 := set_w_sys _ w1) in Hclk;
    assert (idle w2) as Hi2 by (by apply idle_set_sys).
  2: destruct (deadline_passed (clock_reading 0 (w_sys w)) deadline) eqn:Hnow.
  3: destruct (IH w2 max timeout deadline Hi2 Hmax Ht Hpass) as (w3 & Hi3 & Hl); exists w3.
  1,2: exists w2.
  all: split; [done|]; intros fuel [|n] Hn; [lia|]; cbn [batch_wait_loop];
    rewrite decide_True by lia;
    rewrite (bind_ok _ _ _ _ _ (Hp fuel)), decide_False by lia; cbv zeta;
    rewrite decide_True by lia; rewrite (bind_ok _ _ _ _ _ Hclk).
  - by rewrite Hpass.
  - by rewrite Hnow.
  - rewrite Hnow. apply Hl. lia.
Qed.

(** [xpdk_batch_wait] when nothing is under way.  Without a timeout it never returns,
    however long it polls; with one it returns 0 at the latest at the first reading of the
    clock that has reached the deadline, which is the start plus the timeout. *)
Theorem batch_wait_idle w max_completions timeout_ms :
  idle w -> 0 < max_completions ->
  (timeout_ms <= 0 -> forall fuel n, exists w',
     xpdk_batch_wait (spdk_thread_poll fuel) n max_completions timeout_ms w = Running w') /\
  (forall k, 0 < timeout_ms ->
     deadline_passed (clock_reading (S k) (w_sys w))
       (batch_deadline (clock_reading 0 (w_sys w)) timeout_ms) = true ->
     exists w', idle w' /\ forall fuel n, (k < n)%nat ->
       xpdk_batch_wait (spdk_thread_poll fuel) n max_completions timeout_ms w = Ok 0 w').
Proof.
  intros Hidle Hmax. split.
  - intros Ht fuel n. unfold xpdk_batch_wait. rewrite decide_False, decide_False, bind_ret_l by lia.
    by apply wait_no_timeout.
  - intros k Ht Hpass.
    destruct (wait_timeout k (set_w_sys (fst (sys_clock_gettime (w_sys w))) w) max_completions timeout_ms
      (batch_deadline (clock_reading 0 (w_sys w)) timeout_ms)) as (w' & Hi & Hl);
      [by apply idle_set_sys|done|done|done|].
    exists w'. split; [done|]. intros fuel n Hn. unfold xpdk_batch_wait.
    rewrite decide_False, decide_True by lia. rewrite bind_assoc, (bind_ok _ _ _ _ _ (clock_gettime_eq w)).
    rewrite bind_ret_l. by apply Hl.
Qed.

(** The deadline is the start plus the timeout, in nanoseconds, and stays normalised. *)
Lemma batch_deadline_exact now timeout_ms :
  0 <= timeout_ms -> 0 <= snd now < 1000000000 ->
  let d := batch_deadline now timeout_ms in
  0 <= snd d < 1000000000 /\
  fst d * 1000000000 + snd d = fst now * 1000000000 + snd now + timeout_ms * 1000000.
Proof.
  intros Ht Hn. unfold batch_deadline. pose proof (Z.div_mod timeout_ms 1000 ltac:(lia)) as Hd.
  pose proof (Z.mod_pos_bound timeout_ms 1000 ltac:(lia)). case_decide; simpl; lia.
Qed.
End BatchWait.

(** ** Witnesses *)

Local Existing Instances sim_spdk sim_spdk_laws.

(** The simulated clock advances by a millisecond a reading: a timeout of 2 milliseconds passes
    with the second reading after the start. *)
Lemma batch_wait_idle_witness :
  (forall fuel n, exists w',
     xpdk_batch_wait (spdk_thread_poll fuel) n 3 0 sim_open_world = Running w') /\
  exists w', forall fuel n, (1 < n)%nat ->
    xpdk_batch_wait (spdk_thread_poll fuel) n 3 2 sim_open_world = Ok 0 w'.
Proof.
  split.
  - destruct (batch_wait_idle sim_open_world 3 0 sim_idle_open ltac:(lia)) as [Hw _].
    apply Hw. lia.
  - destruct (batch_wait_idle sim_open_world 3 2 sim_idle_open ltac:(lia)) as [_ Hw].
    destruct (Hw 1%nat) as (w' & _ & Hr); [lia|vm_compute; reflexivity|]. exists w'. exact Hr.
Defined.
