(* ===== verification/Typing.v ===== *)
(** The tagged union of messages.  [struct xpdk_msg] has a union of parameters and a type that
    says which member is in use; nothing in C checks it.  This file follows every handler of
    the SPDK thread and every completion, and shows that each reads the member that was
    written. *)

From stdpp Require Import base gmap list strings.
From Stdlib Require Import Strings.Byte.
From S2P Require Import Prelude Types Memory Spdk World Sim Core Blocks Perf Bdev Qos Io.
From S2P Require Import Async Vectored Batch Poller Idle.

Open Scope Z_scope.

(** ** Members *)

Inductive member : Set :=
| MNone | MOpen | MClose | MIo | MList | MGetInfo | MQos | MPerf | MTrim | MBatch.

#[export] Instance member_eq_dec : EqDecision member.
Proof. solve_decision. Defined.

Definition member_of (u : msg_params) : member :=
  match u with
  | PNone => MNone
  | POpen _ _ _ => MOpen
  | PClose _ => MClose
  | PIo _ _ _ _ _ _ _ => MIo
  | PList _ _ _ => MList
  | PGetInfo _ _ => MGetInfo
  | PQos _ _ => MQos
  | PPerf _ _ => MPerf
  | PTrim _ _ _ => MTrim
  | PBatch _ _ _ => MBatch
  end.

(** The member of a type: the one [xpdk_msg_alloc] zeroes and the callers fill in. *)
Definition member_for (type : xpdk_msg_type) : member := member_of (zero_params type).

Definition msg_typed (m : xpdk_msg) : Prop := member_of (msg_u m) = member_for (msg_type m).

Section Typing.
Context `{SpdkLaws}.
Implicit Types (w : world) (p : Z) (k : member).

(** The message at [p], if there is one, uses [k]. *)
Definition has_member p k w : Prop :=
  forall m, w_msgs w !! p = Some m -> member_of (msg_u m) = k.

(** Outstanding work leads to messages of the member its completion reads. *)
Definition work_typed w (wk : work) : Prop :=
  match wk with
  | WIo r => match rq_cb r with AsyncIoCb p => has_member p MIo w | _ => True end
  | WOpen p _ _ => has_member p MOpen w
  | WQos _ _ _ => True
  end.

Record typed w : Prop := {
  typed_msgs : map_Forall (fun _ m => msg_typed m) (w_msgs w);
  typed_work : Forall (work_typed w) (outstanding (w_bdev w))
}.

(** How the world may evolve while a message is handled: messages may be freed, but a message
    keeps its type and its member; the ring, the options and the flag that ends the thread
    stay as they are. *)
Record evolves (w w' : world) : Prop := {
  ev_typed : typed w';
  ev_ring : w_ring w' = w_ring w;
  ev_running : ctx_spdk_thread_running (w_g w') = ctx_spdk_thread_running (w_g w);
  ev_opts : ctx_opts (w_g w') = ctx_opts (w_g w);
  ev_members : forall p m', w_msgs w' !! p = Some m' ->
    exists m, w_msgs w !! p = Some m /\ msg_type m' = msg_type m /\
      member_of (msg_u m') = member_of (msg_u m)
}.

Definition keeps (P : world -> Prop) {A} (c : MW A) : Prop :=
  forall w, typed w -> P w ->
    match c w with
    | Ok _ w' | Running w' => evolves w w'
    | Fault e => e <> WrongUnionMember
    end.

(** What survives an evolution. *)
Definition stable (P : world -> Prop) : Prop := forall w w', evolves w w' -> P w -> P w'.

Lemma evolves_refl w : typed w -> evolves w w.
Proof. intros Ht. split; try done. eauto. Qed.

Lemma evolves_trans w1 w2 w3 : evolves w1 w2 -> evolves w2 w3 -> evolves w1 w3.
Proof.
  intros [_ Hr1 Hn1 Ho1 Hm1] [Ht Hr2 Hn2 Ho2 Hm2]. split; [done|congruence..|].
  intros p m3 Hm. destruct (Hm2 p m3 Hm) as (m2 & Hm' & ? & ?).
  destruct (Hm1 p m2 Hm') as (m1 & ? & ? & ?). exists m1. split_and!; congruence.
Qed.

Lemma stable_member p k : stable (has_member p k).
Proof.
  intros w w' He Hp m' Hm'. destruct (ev_members _ _ He p m' Hm') as (m & Hm & _ & ->). by apply Hp.
Qed.

Lemma stable_true : stable (fun _ => True).
Proof. done. Qed.

Lemma works_typed w w' l :
  (forall p k, has_member p k w -> has_member p k w') ->
  Forall (work_typed w) l -> Forall (work_typed w') l.
Proof.
  intros Hk Hl. eapply Forall_impl; [exact Hl|]. intros [r|p name wr|]; simpl; [|apply Hk|done].
  destruct (rq_cb r); [done|apply Hk|done].
Qed.

(** ** Rules *)

Section Rules.
Context (P : world -> Prop) (HP : stable P).

Lemma keeps_ret {A} (a : A) : keeps P (ret a).
Proof. intros w Ht _. by apply evolves_refl. Qed.

Lemma keeps_fail {A} e : e <> WrongUnionMember -> keeps P (fail e : MW A).
Proof. by intros He w _ _. Qed.

Lemma keeps_spent {A} : keeps P (spent : MW A).
Proof. intros w Ht _. by apply evolves_refl. Qed.

Lemma keeps_bind {A B} (c : MW A) (h : A -> MW B) :
  keeps P c -> (forall a, keeps P (h a)) -> keeps P (bind c h).
Proof.
  intros Hc Hh w Ht Hp. specialize (Hc w Ht Hp). unfold bind.
  destruct (c w) as [a w1| |w1]; [|done|done].
  specialize (Hh a w1 (ev_typed _ _ Hc) (HP _ _ Hc Hp)).
  destruct (h a w1) as [b w2| |w2]; [|done|]; by eapply evolves_trans.
Qed.

Lemma keeps_from_some {A} e (o : option A) :
  e <> WrongUnionMember -> keeps P (from_some e o).
Proof. intros He. destruct o; [apply keeps_ret|by apply keeps_fail]. Qed.

Lemma keeps_gets {A} (f : world -> A) : keeps P (gets f).
Proof. intros w Ht _. by apply evolves_refl. Qed.

Lemma keeps_when b c : keeps P c -> keeps P (when b c).
Proof. intros Hc. destruct b; [done|apply keeps_ret]. Qed.

Lemma keeps_while n t c : keeps P t -> keeps P c -> keeps P (while n t c).
Proof.
  intros Ht Hc. induction n as [|n IH]; simpl; apply keeps_bind; try done; intros [];
    try apply keeps_ret; [apply keeps_spent|]. by apply keeps_bind.
Qed.

(** A change of what neither messages nor the bdev layer hold. *)
Lemma keeps_modify f :
  (forall w, w_msgs (f w) = w_msgs w /\ w_bdev (f w) = w_bdev w /\ w_ring (f w) = w_ring w /\
     ctx_spdk_thread_running (w_g (f w)) = ctx_spdk_thread_running (w_g w) /\
     ctx_opts (w_g (f w)) = ctx_opts (w_g w)) ->
  keeps P (modify f).
Proof.
  intros Hf w [Hm Hw] _. destruct (Hf w) as (Hfm & Hfb & Hr & Hn & Ho). simpl.
  split; [split|done..|].
  - by rewrite Hfm.
  - rewrite Hfb. apply (works_typed w); [|done]. intros p k. unfold has_member. by rewrite Hfm.
  - rewrite Hfm. eauto.
Qed.

Lemma keeps_get : keeps P get.
Proof. apply keeps_gets. Qed.

Lemma evolves_bdev w b new :
  typed w -> outstanding b = outstanding (w_bdev w) ++ new -> Forall (work_typed w) new ->
  evolves w (set_w_bdev b w).
Proof.
  intros [Hm Hw] Ho Hnew. split; [split|done..|]; [done| |eauto]. simpl. rewrite Ho.
  by apply Forall_app.
Qed.

(** A change of the bdev state that adds at most work of the right kind. *)
Lemma keeps_bdev {A B} (f : world -> bdev_t * A) (h : A -> MW B) :
  (forall w b x, f w = (b, x) -> P w ->
     exists new, outstanding b = outstanding (w_bdev w) ++ new /\ Forall (work_typed w) new) ->
  (forall x, keeps P (h x)) ->
  keeps P (let* w := get in let '(b, x) := f w in set_bdev b ;; h x).
Proof.
  intros Hf Hh w Ht Hp. unfold bind at 1, get. destruct (f w) as [b x] eqn:Hfw.
  destruct (Hf w b x Hfw Hp) as (new & Ho & Hnew).
  pose proof (evolves_bdev w b new Ht Ho Hnew) as He. unfold bind, set_bdev, modify.
  specialize (Hh x (set_w_bdev b w) (ev_typed _ _ He) (HP _ _ He Hp)).
  destruct (h x (set_w_bdev b w)) as [y w2| |w2]; [|done|]; by eapply evolves_trans.
Qed.

Lemma keeps_bdev_last (f : world -> bdev_t) :
  (forall w, P w -> exists new, outstanding (f w) = outstanding (w_bdev w) ++ new /\
     Forall (work_typed w) new) ->
  keeps P (let* w := get in set_bdev (f w)).
Proof. intros Hf w Ht Hp. destruct (Hf w Hp) as (new & Ho & Hnew). by eapply evolves_bdev. Qed.

Lemma keeps_bdev_frame {B} (f : bdev_t -> bdev_t) (h : MW B) :
  (forall b, outstanding (f b) = outstanding b) -> keeps P h ->
  keeps P (let* w := get in set_bdev (f (w_bdev w)) ;; h).
Proof.
  intros Hf Hh. apply (keeps_bdev (fun w => (f (w_bdev w), tt)) (fun _ => h)); [|done].
  intros w b x [= <- _] _. exists []. rewrite app_nil_r. by split; [|constructor].
Qed.

(** An update of a message. *)
Lemma keeps_upd_msg p f :
  (forall w m, P w -> w_msgs w !! p = Some m ->
     msg_type (f m) = msg_type m /\ member_of (msg_u (f m)) = member_of (msg_u m)) ->
  keeps P (upd_msg p f).
Proof.
  intros Hf w Ht Hp. unfold upd_msg, get_msg, bind, get.
  destruct (w_msgs w !! p) as [m|] eqn:Hm; simpl; [|done]. destruct (Hf w m Hp Hm) as [Hty Hu].
  assert (forall q k, has_member q k w -> has_member q k (w_put_msg p (f m) w)) as Hk.
  { intros q k Hq m'. simpl. intros [[<- <-]|[_ Hm']]%lookup_insert_Some; [|by apply Hq].
    rewrite Hu. by apply Hq. }
  destruct Ht as [Hms Hw]. split; [split|done..|].
  - intros q m'. simpl. intros [[<- <-]|[_ Hm']]%lookup_insert_Some; [|by apply (Hms q)].
    unfold msg_typed. rewrite Hty, Hu. by apply (Hms p).
  - by apply (works_typed w).
  - intros q m'. simpl. intros [[<- <-]|[_ Hm']]%lookup_insert_Some; eauto.
Qed.

Lemma keeps_complete_msg p rc : keeps P (complete_msg p rc).
Proof. by apply keeps_upd_msg. Qed.

(** Freeing a message. *)
Lemma keeps_msg_free p : keeps P (xpdk_msg_free p).
Proof.
  intros w Ht _. unfold xpdk_msg_free. case_decide; [by apply evolves_refl|].
  unfold bind, get. destruct (w_pool w) as [pl|]; simpl; [|done]. destruct Ht as [Hms Hw].
  split; [split|done..|]; simpl.
  - intros q m' [_ Hm']%lookup_delete_Some. by apply (Hms q).
  - apply (works_typed w); [|done]. intros q k Hq m'. simpl.
    intros [_ Hm']%lookup_delete_Some. by apply Hq.
  - intros q m' [_ Hm']%lookup_delete_Some. eauto.
Qed.
End Rules.

(** Reading the member of a message whose member is known. *)
Lemma keeps_get_msg p k {A} (h : xpdk_msg -> MW A) :
  (forall m, member_of (msg_u m) = k -> keeps (has_member p k) (h m)) ->
  keeps (has_member p k) (bind (get_msg p) h).
Proof.
  intros Hh w Ht Hp. unfold get_msg, bind at 1 2, get.
  destruct (w_msgs w !! p) as [m|] eqn:Hm; simpl; [|done]. by apply Hh; [apply Hp|..].
Qed.

(** ** Operations that do not touch messages *)

Ltac keep_leaf := first
  [ apply keeps_ret | apply keeps_get | apply keeps_gets | apply keeps_spent
  | apply keeps_fail; done | apply keeps_from_some; done
  | apply keeps_modify; intros ?; by split_and! | apply keeps_complete_msg | apply keeps_msg_free
  | by auto with keeps ].

(** The calls that change the bdev state and add no work. *)
Ltac keep_bdev := first
  [ unshelve eapply (keeps_bdev_frame _ _ (fun b => spdk_bdev_close b _)); [|intros ?; apply close_frame|]
  | unshelve eapply (keeps_bdev_frame _ _ (fun b => spdk_put_io_channel b _)); [|intros ?; apply put_channel_frame|]
  | unshelve eapply (keeps_bdev _ _ (fun w => spdk_bdev_get_io_channel (w_bdev w) _));
      [|let Hc := fresh in intros ? ? ? Hc _; exists []; rewrite app_nil_r;
       apply channel_frame in Hc as [-> _]; by split; [|constructor]
      |intros ?]
  | unshelve eapply (keeps_bdev _ _ (fun w => spdk_bdev_open_ext (w_bdev w) _ _ _)); [| |intros ?] ].

(** One step into the code: a leaf, a sequence, a case distinction. *)
Ltac keep_step := match goal with
  | |- stable _ => first [apply stable_member | apply stable_true | done]
  | |- keeps (has_member ?p _) (bind (get_msg ?p) _) =>
      let m := fresh "m" in let Hm := fresh "Hm" in
      apply keeps_get_msg; intros m Hm; destruct (msg_u m); try discriminate Hm
  | |- keeps _ (bind get _) => keep_bdev
  | |- keeps _ (bind _ _) => apply keeps_bind; [| |intros ?]
  | |- keeps _ (when _ _) => apply keeps_when
  | |- keeps _ (while _ _ _) => apply keeps_while
  | |- keeps _ (match ?x with _ => _ end) => destruct x
  | |- keeps _ _ => keep_leaf
  end.

Ltac keep := repeat (cbv zeta; keep_step).

Create HintDb keeps.

Section Leaves.
Context (P : world -> Prop) (HP : stable P).

Lemma keeps_get_dev i : keeps P (get_dev i).
Proof. unfold get_dev. keep. Qed.
#[local] Hint Resolve keeps_get_dev : keeps.

Lemma keeps_upd_dev i f : keeps P (upd_dev i f).
Proof. unfold upd_dev, upd_g. keep. Qed.
#[local] Hint Resolve keeps_upd_dev : keeps.

Lemma keeps_find_free n i : keeps P (find_free_fd_from n i).
Proof. revert i. induction n as [|n IH]; intros i; simpl; keep. Qed.
#[local] Hint Resolve keeps_find_free : keeps.

Lemma keeps_get_device fd : keeps P (xpdk_get_device fd).
Proof. unfold xpdk_get_device. keep. Qed.
#[local] Hint Resolve keeps_get_device : keeps.

Lemma keeps_put_device dev : keeps P (xpdk_put_device dev).
Proof. unfold xpdk_put_device. keep. Qed.

Lemma keeps_get_io_device fd : keeps P (get_io_device fd).
Proof. unfold get_io_device. keep. Qed.

Lemma keeps_load a n : keeps P (load a n).
Proof. unfold load. keep. Qed.

Lemma keeps_store a bs : keeps P (store a bs).
Proof. unfold store. keep. Qed.
#[local] Hint Resolve keeps_load keeps_store : keeps.

Lemma keeps_memcpy a b n : keeps P (memcpy a b n).
Proof. unfold memcpy. keep. Qed.

Lemma keeps_memset0 a n : keeps P (memset0 a n).
Proof. unfold memset0. keep. Qed.

Lemma keeps_dma_malloc n al : keeps P (spdk_dma_malloc n al).
Proof. unfold spdk_dma_malloc. keep. Qed.

Lemma keeps_dma_free a : keeps P (spdk_dma_free a).
Proof. unfold spdk_dma_free. keep. Qed.

Lemma keeps_call_user f c st : keeps P (call_user f c st).
Proof. unfold call_user. keep. Qed.

Lemma keeps_get_time : keeps P get_time_us.
Proof. unfold get_time_us, gettimeofday. keep. Qed.
#[local] Hint Resolve keeps_get_time : keeps.

Lemma keeps_perf_init i : keeps P (xpdk_perf_stats_init i).
Proof. unfold xpdk_perf_stats_init. keep. Qed.

Lemma keeps_block_range o c bs : keeps P (block_range o c bs).
Proof. unfold block_range. keep. Qed.

Lemma keeps_block_size bd : keeps P (bdev_block_size bd).
Proof. unfold bdev_block_size. keep. Qed.

Lemma keeps_put_info d i info : keeps P (put_info d i info).
Proof. unfold put_info. keep. Qed.
#[local] Hint Resolve keeps_put_info : keeps.

Lemma keeps_list_loop d m bds : forall c, keeps P (bdev_list_loop d m c bds).
Proof. induction bds as [|bd bds IH]; intros c; simpl; unfold bdev_list_iter; keep. Qed.

Lemma keeps_get_limits p : keeps P (get_limits p).
Proof. unfold get_limits. keep. Qed.

Lemma keeps_put_limits p l : keeps P (put_limits p l).
Proof. unfold put_limits. keep. Qed.

Lemma keeps_get_sctx p : keeps P (get_sctx p).
Proof. unfold get_sctx. keep. Qed.

Lemma keeps_put_sctx p c : keeps P (put_sctx p c).
Proof. unfold put_sctx. keep. Qed.

Lemma keeps_pop_sctx p : keeps P (pop_sctx p).
Proof. unfold pop_sctx. keep. Qed.
End Leaves.

#[local] Hint Resolve keeps_get_dev keeps_upd_dev keeps_find_free keeps_get_device keeps_put_device
  keeps_get_io_device keeps_load keeps_store keeps_memcpy keeps_memset0 keeps_dma_malloc
  keeps_dma_free keeps_call_user keeps_get_time keeps_perf_init keeps_block_range keeps_block_size
  keeps_put_info keeps_list_loop keeps_get_limits keeps_put_limits keeps_get_sctx keeps_put_sctx
  keeps_pop_sctx stable_member stable_true : keeps.

(** ** Callbacks *)

Lemma keeps_scatter P l : stable P -> forall src, keeps P (scatter l src).
Proof. intros HP. induction l as [|v l IH]; intros src; simpl; keep. Qed.
#[local] Hint Resolve keeps_scatter : keeps.

Lemma keeps_free_buffer P a : stable P -> keeps P (xpdk_free_buffer a).
Proof. intros HP. unfold xpdk_free_buffer. keep. Qed.
#[local] Hint Resolve keeps_free_buffer : keeps.

Lemma keeps_invoke P n : stable P -> forall cb ctx st, keeps P (invoke_callback n cb ctx st).
Proof.
  intros HP. induction n as [|n IH]; intros [f| |] ctx st; simpl;
    unfold xpdk_batch_completion_callback, xpdk_vectored_completion_callback, buffer_to_iovec,
      get_iovs, get_bctx, put_bctx; keep.
Qed.
#[local] Hint Resolve keeps_invoke : keeps.

Lemma keeps_sync_completion P s ctx : stable P -> keeps P (sync_io_completion_cb s ctx).
Proof.
  intros HP. unfold sync_io_completion_cb. keep. apply keeps_upd_msg.
  intros w m _ _. simpl. split; [done|]. by destruct (msg_u m).
Qed.
#[local] Hint Resolve keeps_sync_completion : keeps.

Lemma keeps_async_completion s p : keeps (has_member p MIo) (async_io_completion_cb invoke s p).
Proof.
  unfold async_io_completion_cb, invoke. keep.
Qed.

Lemma keeps_open_complete desc st p : keeps (has_member p MOpen) (bdev_open_complete desc st p).
Proof.
  unfold bdev_open_complete. keep.
Qed.

(** ** Requests to the bdev layer *)

Lemma keeps_submit P r :
  stable P -> (forall p, rq_cb r = AsyncIoCb p -> forall w, P w -> has_member p MIo w) ->
  keeps P (bdev_submit r).
Proof.
  intros HP Hcb. unfold bdev_submit. case_decide; [by apply keeps_fail|].
  apply (keeps_bdev P HP (fun w => spdk_bdev_submit (w_bdev w) (w_mem w) r) (fun rc => ret rc));
    [|intros; apply keeps_ret].
  intros w b rc Hs Hp. destruct (decide (rc = 0)) as [->|Hrc].
  - apply submit_ok in Hs as (Ho & _). exists [WIo r]. split; [done|]. apply Forall_singleton.
    simpl. destruct (rq_cb r) as [|p|] eqn:Hr; try done. by apply (Hcb p).
  - apply submit_err in Hs as (Ho & _); [|done]. exists []. by rewrite app_nil_r.
Qed.

(** ** Completions *)

Lemma keeps_poll P : stable P -> keeps P poll_bdev.
Proof.
  intros HP w Ht Hp. destruct (bdev_poll (w_bdev w) (w_mem w)) as [b c] eqn:Hpoll.
  rewrite (poll_bdev_eq w b c Hpoll).
  assert (forall l, outstanding (w_bdev w) ≡ₚ l ++ outstanding b ->
    evolves w (set_w_bdev b w) /\ Forall (work_typed (set_w_bdev b w)) l) as Hrest.
  { intros l Ho. destruct Ht as [Hm Hw]. rewrite Ho in Hw. apply Forall_app in Hw as [Hl Hw].
    split; [|done]. split; [by split|done..|eauto]. }
  assert (forall Q (d : MW unit), keeps Q d -> evolves w (set_w_bdev b w) -> Q (set_w_bdev b w) ->
    match bind d (fun _ => ret true) (set_w_bdev b w) with
    | Ok _ w' | Running w' => evolves w w'
    | Fault e => e <> WrongUnionMember
    end) as Hthen.
  { intros Q d Hd He HQ. specialize (Hd _ (ev_typed _ _ He) HQ). unfold bind.
    destruct (d (set_w_bdev b w)); [|done|]; by eapply evolves_trans. }
  destruct c as [[r s data|p desc st|p st]|].
  - apply poll_io in Hpoll as (Ho & _). destruct (Hrest [WIo r] Ho) as [He Hwk].
    apply Forall_cons in Hwk as [Hwk _]. simpl in Hwk. unfold deliver.
    destruct (rq_cb r) as [ctx|p|]; [apply (Hthen (fun _ => True))|apply (Hthen (has_member p MIo))
      |apply (Hthen (fun _ => True))]; try done; keep; apply keeps_async_completion.
  - apply poll_open in Hpoll as (name & wr & Ho & _). destruct (Hrest [WOpen p name wr] Ho) as [He Hwk].
    apply Forall_cons in Hwk as [Hwk _]. by apply (Hthen (has_member p MOpen)); [apply keeps_open_complete|..].
  - apply poll_qos in Hpoll as (bd & l & Ho & _). destruct (Hrest [WQos p bd l] Ho) as [He _].
    apply (Hthen (fun _ => True)); try done. apply keeps_complete_msg.
  - apply poll_none in Hpoll as (Ho & _). apply (Hrest []). simpl. by rewrite Ho.
Qed.
#[local] Hint Resolve keeps_poll : keeps.

(** ** Handlers *)

Lemma keeps_wait P fuel p : stable P -> keeps P (wait_io nested_poll fuel p).
Proof. intros HP. unfold wait_io, nested_poll. keep. Qed.
#[local] Hint Resolve keeps_wait : keeps.

Ltac keep_submit := apply keeps_submit; [apply stable_member|];
  let q := fresh "q" in intros q; simpl; unfold completion_of; repeat case_match; by intros [= <-].

Lemma keeps_handle_read fuel p :
  keeps (has_member p MIo) (xpdk_spdk_handle_read nested_poll fuel p).
Proof. unfold xpdk_spdk_handle_read. keep; try keep_submit; by apply keeps_upd_msg. Qed.

Lemma keeps_handle_write fuel p :
  keeps (has_member p MIo) (xpdk_spdk_handle_write nested_poll fuel p).
Proof. unfold xpdk_spdk_handle_write. keep; try keep_submit; by apply keeps_upd_msg. Qed.

Lemma keeps_handle_flush fuel p :
  keeps (has_member p MIo) (xpdk_spdk_handle_flush nested_poll fuel p).
Proof. unfold xpdk_spdk_handle_flush. keep; try keep_submit. Qed.

Lemma keeps_handle_open p : keeps (has_member p MOpen) (xpdk_spdk_handle_open p).
Proof.
  unfold xpdk_spdk_handle_open, xpdk_find_free_fd. keep.
  - apply keeps_upd_msg. intros w m0 Hp Hm0. by rewrite (Hp m0 Hm0).
  - intros w b rc Ho Hp. destruct (decide (rc = 0)) as [->|Hrc].
    + apply open_ok in Ho as [Ho _]. eexists. split; [done|]. by constructor.
    + apply open_err in Ho as [Ho _]; [|done]. exists []. by rewrite app_nil_r.
Qed.

Lemma keeps_handle_qos_set p : keeps (has_member p MQos) (xpdk_spdk_handle_qos_set_limits p).
Proof.
  unfold xpdk_spdk_handle_qos_set_limits.
  apply keeps_get_msg. intros m Hm. destruct (msg_u m); try done.
  apply keeps_bind; [apply stable_member|keep|intros [i|]]; [|keep].
  apply keeps_bind; [apply stable_member|keep|intros d].
  apply keeps_bind; [apply stable_member|keep|intros l].
  apply (keeps_bdev_last _ (fun w => spdk_bdev_set_qos_rate_limits (w_bdev w) (dev_bdev d) l p)).
  intros w _. destruct (set_qos_frame (w_bdev w) (dev_bdev d) l p) as [Ho _].
  eexists. split; [done|]. by constructor.
Qed.

Lemma keeps_handle_list p : keeps (has_member p MList) (xpdk_spdk_handle_list_bdevs p).
Proof.
  unfold xpdk_spdk_handle_list_bdevs. keep.
  apply keeps_upd_msg. intros w m0 Hp Hm0. by rewrite (Hp m0 Hm0).
Qed.

Lemma keeps_handle_close p : keeps (has_member p MClose) (xpdk_spdk_handle_close p).
Proof. unfold xpdk_spdk_handle_close. keep. Qed.

Lemma keeps_handle_info p : keeps (has_member p MGetInfo) (xpdk_spdk_handle_get_info p).
Proof. unfold xpdk_spdk_handle_get_info. keep. Qed.

Lemma keeps_handle_qos_get p : keeps (has_member p MQos) (xpdk_spdk_handle_qos_get_limits p).
Proof. unfold xpdk_spdk_handle_qos_get_limits. keep. Qed.

Lemma keeps_handle_perf_get p : keeps (has_member p MPerf) (xpdk_spdk_handle_get_perf_stats p).
Proof. unfold xpdk_spdk_handle_get_perf_stats. keep. Qed.

Lemma keeps_handle_perf_reset p : keeps (has_member p MPerf) (xpdk_spdk_handle_reset_perf_stats p).
Proof. unfold xpdk_spdk_handle_reset_perf_stats. keep. Qed.

Lemma keeps_handle_range kind p : keeps (has_member p MTrim) (handle_range kind p).
Proof. unfold handle_range. keep; try keep_submit. Qed.

#[local] Hint Resolve keeps_handle_read keeps_handle_write keeps_handle_flush keeps_handle_open
  keeps_handle_list keeps_handle_close keeps_handle_info keeps_handle_qos_set keeps_handle_qos_get
  keeps_handle_perf_get keeps_handle_perf_reset keeps_handle_range : keeps.

(** ** The poller *)

(** Every message but [XPDK_MSG_SHUTDOWN]. *)
Lemma keeps_dispatch fuel type p :
  type <> XPDK_MSG_SHUTDOWN -> keeps (has_member p (member_for type)) (dispatch fuel type p).
Proof.
  intros Hne. destruct type; try done; unfold dispatch, upd_g, xpdk_spdk_handle_trim,
    xpdk_spdk_handle_write_zeros; cbv [member_for member_of zero_params]; keep.
Qed.

Lemma dispatch_continues fuel type p w :
  type <> XPDK_MSG_SHUTDOWN -> forall w', dispatch fuel type p w <> Ok true w'.
Proof.
  intros Hne w'. destruct type; try done; unfold dispatch, bind, ret; repeat case_match; done.
Qed.

(** The message that ends the thread. *)
Lemma shutdown_typed fuel p w :
  typed w -> is_Some (w_msgs w !! p) ->
  exists w', dispatch fuel XPDK_MSG_SHUTDOWN p w = Ok true w' /\ typed w' /\
    w_ring w' = w_ring w /\ ctx_spdk_thread_running (w_g w') = false.
Proof.
  intros Ht [m Hm]. unfold dispatch.
  set (w1 := set_w_g (set_ctx_spdk_thread_running false (w_g w)) w).
  assert (typed w1) as Ht1 by (by destruct Ht).
  rewrite (bind_ok _ _ _ _ _ (eq_refl : upd_g (set_ctx_spdk_thread_running false) w = Ok tt w1)).
  pose proof (keeps_upd_msg (fun _ => True) p (set_msg_completed true) (fun _ _ _ _ => conj eq_refl eq_refl)
    w1 Ht1 I) as He.
  rewrite (upd_msg_eq w1 p m _ Hm) in He.
  rewrite (bind_ok _ _ _ _ _ (upd_msg_eq w1 p m _ Hm)). eexists. split; [done|].
  destruct He as [? Hr Hn _ _]. split_and!; [done|by rewrite Hr|by rewrite Hn].
Qed.

Lemma process_typed fuel p w :
  typed w ->
  match process_msg fuel p w with
  | Ok true w' => typed w' /\ w_ring w' = w_ring w /\ ctx_spdk_thread_running (w_g w') = false
  | Ok false w' | Running w' => evolves w w'
  | Fault e => e <> WrongUnionMember
  end.
Proof.
  intros Ht. unfold process_msg, get_msg, bind, get.
  destruct (w_msgs w !! p) as [m|] eqn:Hm; simpl; [|done].
  destruct (decide (msg_type m = XPDK_MSG_SHUTDOWN)) as [Hs|Hs].
  - rewrite Hs. destruct (shutdown_typed fuel p w Ht ltac:(eauto)) as (w' & -> & Hw'). done.
  - pose proof (keeps_dispatch fuel (msg_type m) p Hs w Ht) as Hk.
    assert (has_member p (member_for (msg_type m)) w) as Hp
      by (intros m' Hm'; assert (m' = m) as -> by congruence; by apply (typed_msgs _ Ht p)).
    specialize (Hk Hp). pose proof (dispatch_continues fuel (msg_type m) p w Hs) as Hc.
    destruct (dispatch fuel (msg_type m) p w) as [[] w'| |w']; [by destruct (Hc w')|done..].
Qed.

Lemma typed_ring_g w r g : typed w -> typed (set_w_g g (set_w_ring r w)).
Proof. by intros []. Qed.

(** One message of the poller: the ring, the counter, the handler. *)
Lemma dequeue_cases w :
  w_ring w = None /\ ring_dequeue w = Fault NullDeref \/
  (exists r o, ring_dequeue w = Ok o (set_w_ring (Some r) w)).
Proof.
  unfold ring_dequeue, bind, get. destruct (w_ring w) as [r|]; simpl; [right|by left].
  destruct (spdk_ring_dequeue r) as [r' o]. by exists r', o.
Qed.

Lemma poller_loop_typed fuel n : forall (i : Z) w,
  typed w ->
  match poller_loop fuel n i w with
  | Ok _ w' | Running w' => typed w'
  | Fault e => e <> WrongUnionMember
  end.
Proof.
  induction n as [|n IH]; intros i w Ht; cbn [poller_loop]; [done|].
  destruct (dequeue_cases w) as [[_ Hd]|(r & [p|] & Hd)]; unfold bind; rewrite Hd; [done| |].
  2: { by apply (typed_ring_g w (Some r) (w_g w)). }
  rewrite bump_eq. set (w1 := bump _).
  assert (typed w1) as Ht1 by (by apply typed_ring_g).
  pose proof (process_typed fuel p w1 Ht1) as Hp.
  destruct (process_msg fuel p w1) as [[] w2| |w2]; [by destruct Hp|apply IH, Hp|done|apply Hp].
Qed.

(** C8: The tagged union is used safely.  When every message has the member of its type and the
    outstanding work leads to messages of the member its completion reads, a turn of the SPDK
    thread, whatever it completes and handles, in either mode, however the devices behave and
    even when it faults otherwise or does not return, never reads a member that was not
    written; and what it leaves is well typed again. *)
Theorem turn_well_typed fuel w :
  typed w ->
  match spdk_turn fuel w with
  | Ok _ w' | Running w' => typed w'
  | Fault e => e <> WrongUnionMember
  end.
Proof.
  intros Ht. unfold spdk_turn, bind at 1, gets. destruct (ctx_spdk_thread_running (w_g w)); [|done].
  cbn [when]. unfold spdk_thread_poll.
  pose proof (keeps_poll (fun _ => True) stable_true w Ht I) as Hp. unfold bind at 2 1.
  destruct (poll_bdev w) as [busy w1|e|w1]; [|done|apply Hp].
  unfold xpdk_msg_process_poller, bind, gets.
  pose proof (poller_loop_typed fuel (max_batch (opt_turbo_mode (ctx_opts (w_g w1)))) 0 w1
    (ev_typed _ _ Hp)) as Hl.
  by destruct (poller_loop _ _ _ _).
Qed.

(** ** Turbo mode *)

(** The reference: the poller of standard mode, one message a call, called again as long as it
    was busy and the thread is to go on, at most [n] times. *)
Fixpoint standard_polls (fuel n : nat) : MW unit :=
  match n with
  | O => ret tt
  | S n =>
      let* rc := poller_loop fuel (max_batch false) 0 in
      let* running := gets (fun w => ctx_spdk_thread_running (w_g w)) in
      if decide (rc = SPDK_POLLER_BUSY /\ running = true) then standard_polls fuel n else ret tt
  end.

Lemma batch_is_polls fuel n : forall (i : Z) w,
  typed w -> ctx_spdk_thread_running (w_g w) = true ->
  (poller_loop fuel n i ;; ret tt) w = standard_polls fuel n w.
Proof.
  induction n as [|n IH]; intros i w Ht Hrun; [done|].
  cbn [standard_polls max_batch poller_loop]. unfold bind, gets.
  destruct (dequeue_cases w) as [[_ Hd]|(r & [p|] & Hd)]; rewrite Hd; [done| |].
  2: { cbn [ret]. rewrite decide_False by (by intros []). done. }
  rewrite bump_eq. set (w1 := bump _).
  assert (typed w1) as Ht1 by (by apply typed_ring_g).
  pose proof (process_typed fuel p w1 Ht1) as Hp.
  destruct (process_msg fuel p w1) as [[] w2|e|w2]; [| |done|done].
  - destruct Hp as (_ & _ & Hr). cbn [ret]. rewrite Hr, decide_False by (by intros []). done.
  - cbn [ret]. rewrite (ev_running _ _ Hp), decide_True by done.
    apply (IH (i + 1) w2 (ev_typed _ _ Hp)). by rewrite (ev_running _ _ Hp).
Qed.

(** Once busy, busy. *)
Lemma poller_loop_stays_busy fuel n : forall (i : Z) w rc w',
  0 < i -> poller_loop fuel n i w = Ok rc w' -> rc = SPDK_POLLER_BUSY.
Proof.
  induction n as [|n IH]; intros i w rc w' Hi; cbn [poller_loop]; rewrite decide_True by lia;
    [by intros [= <-]|]. unfold bind.
  destruct (ring_dequeue w) as [[p|] w1|e|w1]; [|by intros [= <-]|done|done].
  rewrite bump_eq. destruct (process_msg fuel p (bump w1)) as [[] w2|e|w2];
    [by intros [= <-]|apply IH; lia|done|done].
Qed.

Lemma poller_loop_busy fuel n w rc w' :
  poller_loop fuel (S n) 0 w = Ok rc w' -> exists w1, poller_loop fuel 1 0 w = Ok rc w1.
Proof.
  cbn [poller_loop]. unfold bind.
  destruct (ring_dequeue w) as [[p|] w1|e|w1]; [|by intros [= <-]; eauto|done|done].
  rewrite bump_eq. destruct (process_msg fuel p (bump w1)) as [[] w2|e|w2];
    [by intros [= <-]; eauto| |done|done].
  intros Hl. apply poller_loop_stays_busy in Hl as ->; [|lia]. by exists w2.
Qed.

End Typing.

(** ** Witnesses *)

(** Turbo mode, with a flush of descriptor 0, a close of a descriptor that is not open and the
    end of the thread queued behind each other. *)
Definition sim_queue_world : @world sim_spdk :=
  set_w_ring (H := sim_spdk) (Some (Build_sim_ring [4096; 4224; 4352] 4))
    (set_w_msgs (H := sim_spdk)
      (<[4096 := Build_msg XPDK_MSG_FLUSH NULL false 0 (PIo 0 NULL 0 0 0 None NULL)]>
        (<[4224 := Build_msg XPDK_MSG_CLOSE NULL false 0 (PClose 7)]>
          {[4352 := Build_msg XPDK_MSG_SHUTDOWN NULL false 0 PNone]}))
      (set_w_g (H := sim_spdk)
        (set_ctx_opts (Build_opts None true (-1) 0 0 0) (w_g (H := sim_spdk) sim_open_world))
        sim_open_world)).

Lemma sim_queue_typed : @typed sim_spdk sim_spdk_laws sim_queue_world.
Proof.
  split; [|constructor]. unfold sim_queue_world. simpl.
  apply map_Forall_insert_2; [reflexivity|]. apply map_Forall_insert_2; [reflexivity|].
  by apply map_Forall_singleton.
Qed.

Lemma turn_well_typed_witness :
  match @spdk_turn sim_spdk 5 sim_queue_world with
  | Ok _ w' => @typed sim_spdk sim_spdk_laws w' /\ ctx_spdk_thread_running (w_g w') = false
  | _ => False
  end.
Proof.
  pose proof (@turn_well_typed sim_spdk sim_spdk_laws 5 sim_queue_world sim_queue_typed) as Ht.
  assert (match @spdk_turn sim_spdk 5 sim_queue_world with
    | Ok _ w' => ctx_spdk_thread_running (w_g w') | _ => true end = false) as Hrun
    by (vm_compute; reflexivity).
  destruct (@spdk_turn sim_spdk 5 sim_queue_world); [by split|done|done].
Defined.

