(* ===== verification/Programs.v ===== *)
(** The example programs that use the library from end to end (examples/): what a client
    writes around the calls, with its output.

    A program runs on the world of the library and the lines it has printed.  A line is the
    format string as the source spells it, escapes included, and its arguments; how [printf]
    lays them out is not modelled, and the lines the library itself prints are not recorded.  The
    objects on the stack of [main] are at addresses that
    are arguments of the program. *)

From stdpp Require Import base gmap list strings.
From Stdlib Require Import Strings.Byte Strings.Ascii.
From S2P Require Import Prelude Types Memory Spdk World Core Perf Bdev Qos Io Async Vectored.
From S2P Require Import Batch Poller Lifecycle.

Open Scope Z_scope.

(** ** Output *)

Inductive printf_arg :=
| AStr (s : string)
| ANum (n : Z)
| AReal (num den : Z). (* (double)num / den *)

Definition line : Type := string * list printf_arg.

(** A conversion to [int]. *)
Definition to_int (x : Z) : Z := (x + 2 ^ 31) mod 2 ^ 32 - 2 ^ 31.

(** The value of the digits a string begins with, after those read so far. *)
Fixpoint digits_value (s : string) (acc : Z) : Z :=
  match s with
  | String c s =>
      let n := Z.of_nat (nat_of_ascii c) in
      if decide (48 <= n <= 57) then digits_value s (10 * acc + (n - 48)) else acc
  | EmptyString => acc
  end.

Fixpoint skip_blanks (s : string) : string :=
  match s with
  | String c s' =>
      let n := Z.of_nat (nat_of_ascii c) in
      if decide (n = 32 \/ 9 <= n <= 13) then skip_blanks s' else s
  | EmptyString => s
  end.

(** A value that does not fit in an [int] has no defined result. *)
Definition atoi (s : string) : option Z :=
  let s := skip_blanks s in
  let v := match s return Z with
           | String "-"%char s => - digits_value s 0
           | String "+"%char s => digits_value s 0
           | _ => digits_value s 0
           end in
  if decide (INT_MIN <= v <= INT_MAX) then Some v else None.

#[export] Instance byte_eq_decision : EqDecision byte := Byte.byte_eq_dec.

Section Programs.
Context `{Spdk}.

Definition MP (A : Type) : Type := M (world * list line) A.

(** A call of the library, or an access to memory. *)
Definition call {A} (m : MW A) : MP A := fun s =>
  match m (fst s) with
  | Ok a w => Ok a (w, snd s)
  | Fault e => Fault e
  | Running w => Running (w, snd s)
  end.

Definition printf (format : string) (args : list printf_arg) : MP unit :=
  modify (fun s => (fst s, snd s ++ [(format, args)])).

Definition strerror (rc : Z) : MP string := from_some SignedOverflow (xpdk_strerror rc).

(** [printf(format, xpdk_strerror(rc));] *)
Definition failed (format : string) (rc : Z) : MP unit :=
  let* s := strerror rc in printf format [AStr s].

(** [argv[i]], [NULL] past the last argument. *)
Definition arg (argv : list string) (i : nat) : MP string := from_some NullDeref (argv !! i).

Definition memset (dst : Z) (c : byte) (n : Z) : MW unit := store dst (replicate (Z.to_nat n) c).

(** [snprintf] of the text [s]: at most [n - 1] characters and the terminator. *)
Definition text_bytes (n : Z) (s : string) : list byte :=
  take (Z.to_nat (n - 1)) (String.list_byte_of_string s) ++ [x00].

Definition snprintf (dst n : Z) (s : string) : MW unit := store dst (text_bytes n s).

(** [memcmp(a, b, n) == 0] *)
Definition memcmp_eq (a b n : Z) : MW bool :=
  let* x := load a n in
  let* y := load b n in
  ret (bool_decide (x = y)).

(** [devices[i]] *)
Definition info_at (devices : Z) (i : nat) : MW xpdk_bdev_info :=
  let* w := get in
  let* l := from_some BadAddress (w_infos w !! devices) in
  from_some IndexOutOfBounds (l !! i).

(** ** What the programs share *)

Variable bt : boot.
Variable sched_yield : MW unit.
Variable fuel : nat.

Open Scope string_scope.

(** [sizeof(write_data)] and [sizeof(read_data)]. *)
Definition data_size : Z := 4096.

(** The lines every program prints about a device. *)
Definition print_device_info (i : xpdk_bdev_info) : MP unit :=
  printf "Device info:\n" [] ;;
  printf "  Name: %s\n" [AStr (bi_name i)] ;;
  printf "  Block size: %lu bytes\n" [ANum (bi_block_size i)] ;;
  printf "  Number of blocks: %lu\n" [ANum (bi_num_blocks i)] ;;
  printf "  Total capacity: %lu bytes (%.2f MB)\n"
    [ANum (bi_capacity i); AReal (bi_capacity i) (1024 * 1024)].

Definition demo_info (fd info : Z) : MP unit :=
  let* rc := call (xpdk_get_info sched_yield fuel fd info) in
  if decide (rc = XPDK_SUCCESS) then
    let* i := call (info_at info 0) in print_device_info i
  else ret tt.

(** The test data are written ... *)
Definition demo_write (fd write_data : Z) (greeting : string) : MP unit :=
  call (memset write_data xaa data_size) ;;
  call (snprintf write_data data_size greeting) ;;
  printf "Writing test data...\n" [] ;;
  let* bytes_written := call (xpdk_write sched_yield fuel fd write_data data_size 0) in
  if decide (bytes_written < 0) then
    let* s := strerror (to_int bytes_written) in printf "Write failed: %s\n" [AStr s]
  else printf "Successfully wrote %zd bytes\n" [ANum bytes_written].

(** ... flushed ... *)
Definition demo_flush (fd : Z) : MP unit :=
  printf "Flushing data...\n" [] ;;
  let* rc := call (xpdk_flush sched_yield fuel fd) in
  if decide (rc <> XPDK_SUCCESS) then
    let* s := strerror rc in printf "Flush failed: %s\n" [AStr s]
  else ret tt.

(** ... read back and compared. *)
Definition demo_read (fd write_data read_data : Z) : MP unit :=
  printf "Reading data back...\n" [] ;;
  call (memset read_data x00 data_size) ;;
  let* bytes_read := call (xpdk_read sched_yield fuel fd read_data data_size 0) in
  if decide (bytes_read < 0) then
    let* s := strerror (to_int bytes_read) in printf "Read failed: %s\n" [AStr s]
  else
    printf "Successfully read %zd bytes\n" [ANum bytes_read] ;;
    let* same := call (memcmp_eq write_data read_data data_size) in
    if (same : bool) then printf "Data verification successful!\n" []
    else printf "Data verification failed!\n" [].

Definition demo_io (fd write_data read_data : Z) (greeting : string) : MP unit :=
  demo_write fd write_data greeting ;;
  demo_flush fd ;;
  demo_read fd write_data read_data.

Definition close_and_report (fd : Z) : MP unit :=
  printf "Closing device...\n" [] ;;
  let* rc := call (xpdk_close sched_yield fuel fd) in
  (if decide (rc <> XPDK_SUCCESS) then
     let* s := strerror rc in printf "Failed to close device: %s\n" [AStr s]
   else ret tt) ;;
  printf "Cleaning up...\n" [] ;;
  call (xpdk_cleanup sched_yield fuel).

(** From the opening of the device to its closing; [true] when it was opened. *)
Definition demo_device (write_data read_data info : Z) (bdev_name greeting : string) : MP bool :=
  printf "Opening device: %s\n" [AStr bdev_name] ;;
  let* fd := call (xpdk_open sched_yield fuel (Some bdev_name) O_RDWR) in
  if decide (fd < 0) then
    let* s := strerror fd in
    printf "Failed to open device %s: %s\n" [AStr bdev_name; AStr s] ;;
    call (xpdk_cleanup sched_yield fuel) ;;
    ret false
  else
    demo_info fd info ;;
    demo_io fd write_data read_data greeting ;;
    close_and_report fd ;;
    ret true.

(** [xpdk_print_performance_stats] (src/xpdk_core.c). *)
Definition xpdk_print_performance_stats : MP unit :=
  let* g := call (gets w_g) in
  printf "XPDK Performance Statistics:\n" [] ;;
  printf "  Mode: %s\n"
    [AStr (if opt_turbo_mode (ctx_opts g) then "Turbo (High Performance)" else "Standard")] ;;
  printf "  CPU Binding: %s\n"
    [AStr (if decide (opt_cpu_core (ctx_opts g) >= 0) then "Enabled" else "Disabled")] ;;
  printf "  Total Messages: %lu\n" [ANum (ctx_total_messages_processed g)] ;;
  printf "  Total I/O Ops: %lu\n" [ANum (ctx_total_io_operations g)] ;;
  printf "  Ring Size: %u\n" [ANum (opt_msg_ring_size (ctx_opts g))] ;;
  printf "  Pool Size: %u\n" [ANum (opt_msg_pool_size (ctx_opts g))] ;;
  printf "  Poll Period: %u us\n" [ANum (opt_poll_period_us (ctx_opts g))].

(** ** examples/simple_example.c *)

Definition simple_example (write_data read_data info : Z) (argv : list string) : MP Z :=
  if decide (length argv <> 2%nat) then
    let* a0 := arg argv 0 in
    printf "Usage: %s <bdev_name>\n" [AStr a0] ;;
    ret 1
  else
    let* bdev_name := arg argv 1 in
    printf "Initializing XPDK library...\n" [] ;;
    let* rc := call (xpdk_init bt fuel None) in
    if decide (rc <> XPDK_SUCCESS) then
      let* s := strerror rc in
      printf "Failed to initialize XPDK: %s\n" [AStr s] ;;
      ret 1
    else
      let* opened := demo_device write_data read_data info bdev_name
        "Hello from XPDK! This is a test write operation." in
      if (opened : bool) then printf "Example completed successfully!\n" [] ;; ret 0
      else ret 1.

(** ** examples/turbo_example.c *)

(** Lines 29-36: the options after the name of the device. *)
Fixpoint parse_options (args : list string) (use_turbo : bool) (cpu_core : Z) : MP (bool * Z) :=
  match args with
  | [] => ret (use_turbo, cpu_core)
  | a :: args' =>
      if decide (a = "--turbo") then parse_options args' true cpu_core
      else if decide (a = "--cpu-core") then
        match args' with
        | v :: args'' =>
            let* core := from_some SignedOverflow (atoi v) in
            parse_options args'' use_turbo core
        | [] => ret (use_turbo, cpu_core)
        end
      else parse_options args' use_turbo cpu_core
  end.

(** Lines 39-48. *)
Definition turbo_opts (use_turbo : bool) (cpu_core : Z) : xpdk_opts :=
  let opts := xpdk_opts_init opts_zero in
  let opts := set_opt_turbo_mode use_turbo opts in
  let opts := set_opt_cpu_core cpu_core opts in
  if use_turbo then
    set_opt_poll_period_us 0 (set_opt_msg_pool_size 2048 (set_opt_msg_ring_size 2048 opts))
  else opts.

Definition turbo_greeting (use_turbo : bool) : string :=
  "Hello from XPDK " ++ (if use_turbo then "TURBO" else "STANDARD") ++
    " mode! This is a test write operation.".

(** Lines 128-138. *)
Definition print_mode_notes (use_turbo : bool) : MP unit :=
  if use_turbo then
    printf "\nTurbo mode notes:\n" [] ;;
    printf "- Uses busy polling for minimum latency\n" [] ;;
    printf "- Higher CPU usage but better performance\n" [] ;;
    printf "- Ideal for latency-sensitive applications\n" []
  else
    printf "\nStandard mode notes:\n" [] ;;
    printf "- Uses periodic polling to reduce CPU usage\n" [] ;;
    printf "- Good balance of performance and resource usage\n" [] ;;
    printf "- Suitable for most applications\n" [].

Definition turbo_example (write_data read_data info : Z) (argv : list string) : MP Z :=
  if decide (length argv < 2)%nat then
    let* a0 := arg argv 0 in
    printf "Usage: %s <bdev_name> [--turbo] [--cpu-core <core>]\n" [AStr a0] ;;
    printf "  --turbo        Enable turbo mode for maximum performance\n" [] ;;
    printf "  --cpu-core     Bind SPDK thread to specific CPU core\n" [] ;;
    ret 1
  else
    let* bdev_name := arg argv 1 in
    let* (use_turbo, cpu_core) := parse_options (drop 2 argv) false (-1) in
    printf "Initializing XPDK library...\n" [] ;;
    printf "  Mode: %s\n" [AStr (if (use_turbo : bool) then "TURBO (High Performance)" else "STANDARD")] ;;
    printf "  CPU Core: %s\n" [AStr (if decide (cpu_core >= 0) then "Bound" else "Unbound")] ;;
    let* rc := call (xpdk_init_opts bt fuel (Some (turbo_opts use_turbo cpu_core))) in
    if decide (rc <> XPDK_SUCCESS) then
      let* s := strerror rc in
      printf "Failed to initialize XPDK: %s\n" [AStr s] ;;
      ret 1
    else
      let* opened := demo_device write_data read_data info bdev_name (turbo_greeting use_turbo) in
      if (opened : bool) then
        printf "Example completed successfully!\n" [] ;;
        print_mode_notes use_turbo ;;
        ret 0
      else ret 1.

(** ** examples/list_devices.c *)

(** Lines 30-37, from entry [i] on. *)
Fixpoint print_devices (devices : Z) (n i : nat) : MP unit :=
  match n with
  | O => ret tt
  | S n =>
      let* d := call (info_at devices i) in
      printf "%-20s %-12lu %-12lu %-15.2f\n"
        [AStr (bi_name d); ANum (bi_block_size d); ANum (bi_num_blocks d);
         AReal (bi_capacity d) (1024 * 1024)] ;;
      print_devices devices n (S i)
  end.

Definition list_devices (devices : Z) : MP Z :=
  printf "Initializing XPDK library...\n" [] ;;
  let* rc := call (xpdk_init bt fuel None) in
  if decide (rc <> XPDK_SUCCESS) then
    let* s := strerror rc in
    printf "Failed to initialize XPDK: %s\n" [AStr s] ;;
    ret 1
  else
    printf "Listing available block devices...\n" [] ;;
    let* num_devices := call (xpdk_list_bdevs sched_yield fuel devices 32) in
    if decide (num_devices < 0) then
      let* s := strerror num_devices in
      printf "Failed to list devices: %s\n" [AStr s] ;;
      call (xpdk_cleanup sched_yield fuel) ;;
      ret 1
    else
      printf "Found %d block device(s):\n" [ANum num_devices] ;;
      printf "%-20s %-12s %-12s %-15s\n"
        [AStr "Device Name"; AStr "Block Size"; AStr "Num Blocks"; AStr "Capacity (MB)"] ;;
      printf "%-20s %-12s %-12s %-15s\n"
        [AStr "==========="; AStr "=========="; AStr "=========="; AStr "============"] ;;
      print_devices devices (Z.to_nat num_devices) 0 ;;
      (if decide (num_devices = 0) then
         printf "No block devices found. Make sure SPDK is properly configured.\n" []
       else ret tt) ;;
      printf "Cleaning up...\n" [] ;;
      call (xpdk_cleanup sched_yield fuel) ;;
      ret 0.
End Programs.
