(* ===== verification/ProgramsCorrect.v ===== *)
(** The example programs run to their end, leave the library down, and print what they
    should. *)

From stdpp Require Import base gmap list strings.
From Stdlib Require Import Strings.Byte.
From S2P Require Import Prelude Types Memory Spdk World Sim Core Blocks Perf Bdev Qos Io.
From S2P Require Import Async Vectored Batch Poller Idle IoCorrect SyncIo Devices Session.
From S2P Require Import Lifecycle VectoredCorrect Eventually Programs.

Open Scope Z_scope.

Section ProgramsCorrect.
Context `{SpdkLaws}.
#[local] Opaque data_size.
Implicit Types (w : world) (d : xpdk_device) (out : list line).

Abbreviation devs w := (ctx_devices (w_g w)).

(** ** Steps of a program *)

(** A call that returns with enough fuel for the thread, and a chance to wait ... *)
Lemma call_returns {A} (m : nat -> nat -> MW A) k a w w' out (Q : A -> world * list line -> Prop) :
  (forall fuel n, (k <= fuel)%nat -> (0 < n)%nat -> m fuel n w = Ok a w') -> Q a (w', out) ->
  eventually (fun fuel n => call (m fuel n)) Q (w, out).
Proof.
  intros Hm HQ. eapply (eventually_ok _ (S k)); [|done].
  intros fuel n Hf Hn. unfold call. simpl. by rewrite Hm by lia.
Qed.

(** ... and one that waits longer. *)
Lemma call_waits {A} (m : nat -> nat -> MW A) k a w w' out (Q : A -> world * list line -> Prop) :
  (forall fuel n, (k <= n)%nat -> m fuel n w = Ok a w') -> Q a (w', out) ->
  eventually (fun fuel n => call (m fuel n)) Q (w, out).
Proof.
  intros Hm HQ. eapply (eventually_ok _ k); [|done].
  intros fuel n Hf Hn. unfold call. simpl. by rewrite Hm.
Qed.

Lemma call_ok_eq {A} (m : MW A) w a w' out :
  m w = Ok a w' -> call m (w, out) = Ok a (w', out).
Proof. unfold call. simpl. by intros ->. Qed.

Lemma printf_eq format args w out :
  printf format args (w, out) = Ok tt (w, out ++ [(format, args)]).
Proof. done. Qed.

(** The text of an error. *)
Definition error_text (rc : Z) : string := default "Unknown error"%string (xpdk_strerror (to_int rc)).

Definition is_error (rc : Z) : Prop := In rc
  [XPDK_ERROR_INVALID; XPDK_ERROR_NOMEM; XPDK_ERROR_IO; XPDK_ERROR_BUSY; XPDK_ERROR_NODEV;
   XPDK_ERROR_QOS].

Lemma strerror_eq rc (s : world * list line) :
  is_error rc -> to_int rc = rc /\ rc < 0 /\ rc <> XPDK_SUCCESS /\
    strerror rc s = Ok (error_text rc) s.
Proof.
  intros Hrc. unfold strerror, error_text.
  assert (exists t, xpdk_strerror rc = Some t) as [t Ht]
    by (by repeat destruct Hrc as [<-|Hrc]; [eexists; reflexivity..|]).
  assert (to_int rc = rc /\ rc < 0) as [Hi Hneg]
    by (by repeat destruct Hrc as [<-|Hrc]; [done..|]).
  rewrite Hi, Ht. split_and!; try done. unfold XPDK_SUCCESS. lia.
Qed.

(** ** The library, down *)

Record down w : Prop := {
  down_initialized : ctx_initialized (w_g w) = false;
  down_running : ctx_spdk_thread_running (w_g w) = false;
  down_poller : ctx_msg_poller (w_g w) = NULL;
  down_ring : w_ring w = None;
  down_pool : w_pool w = None;
  down_slots : forall i d, devs w !! i = Some d -> dev_in_use d = false;
  down_locks : ctx_sync_lock (w_g w) = false /\ ctx_sync_cond (w_g w) = false
}.

(** Down again from [w], with nothing left under way: the library can start once more. *)
Record down_from w w' : Prop := {
  df_down : down w';
  df_msgs : w_msgs w' = w_msgs w;
  df_mem : w_mem w' = w_mem w;
  df_medium : medium (w_bdev w') = medium (w_bdev w);
  df_outstanding : outstanding (w_bdev w') = [];
  df_frames : w_sctx w' = w_sctx w;
  df_live : w_dma_live w' = w_dma_live w;
  df_calls : w_calls w' = w_calls w
}.

Lemma cleanup_runs w out (Q : unit -> world * list line -> Prop) :
  idle w -> free_msgs w <> ∅ -> (forall w', down_from w w' -> Q tt (w', out)) ->
  eventually (fun fuel n => call (xpdk_cleanup (spdk_turn fuel) n)) Q (w, out).
Proof.
  intros Hidle Hfree HQ. destruct (cleanup_returns w Hidle Hfree)
    as (k & w' & Hr & ? & ? & ? & ? & ? & ? & ? & ? & ? & ? & ? & ? & ? & ? & ?).
  eapply call_returns; [exact Hr|]. by apply HQ.
Qed.

Lemma cleanup_down w out (Q : unit -> world * list line -> Prop) :
  idle w -> free_msgs w <> ∅ ->
  (forall w', down w' -> w_msgs w' = w_msgs w -> w_mem w' = w_mem w ->
     medium (w_bdev w') = medium (w_bdev w) -> Q tt (w', out)) ->
  eventually (fun fuel n => call (xpdk_cleanup (spdk_turn fuel) n)) Q (w, out).
Proof. intros Hidle Hfree HQ. apply cleanup_runs; [done..|]. intros w' []. by apply HQ. Qed.

(** ** Write, flush, read back *)

Open Scope string_scope.

(** What is printed for the results of the write, the flush and the read, and of the
    comparison. *)
Definition write_lines (wr : Z) : list line :=
  [("Writing test data...\n", []);
   if decide (wr < 0) then ("Write failed: %s\n", [AStr (error_text wr)])
   else ("Successfully wrote %zd bytes\n", [ANum wr])].

Definition flush_lines (fl : Z) : list line :=
  ("Flushing data...\n", []) ::
  if decide (fl <> XPDK_SUCCESS) then [("Flush failed: %s\n", [AStr (error_text fl)])] else [].

Definition read_lines (rd : Z) (same : bool) : list line :=
  ("Reading data back...\n", []) ::
  if decide (rd < 0) then [("Read failed: %s\n", [AStr (error_text rd)])]
  else [("Successfully read %zd bytes\n", [ANum rd]);
        if same then ("Data verification successful!\n", [])
        else ("Data verification failed!\n", [])].

Close Scope string_scope.

(** A buffer filled with [c], and a text printed over its beginning. *)
Definition text_over (c : byte) (text : string) : list byte :=
  (text_bytes data_size text ++
   drop (length (text_bytes data_size text)) (replicate (Z.to_nat data_size) c)).

(** The buffer the programs write. *)
Definition demo_data (greeting : string) : list byte := text_over xaa greeting.

Definition transfer_rc (rc : Z) : Prop := rc = data_size \/ rc = XPDK_ERROR_IO \/ rc = XPDK_ERROR_NOMEM.

(** A buffer on the stack of [main]. *)
Definition stack_buffer w (a : Z) : Prop := a <> NULL /\ mapped (w_mem w) a (Z.to_nat data_size).

(** A descriptor the demonstration can use. *)
Record demo_fd w (fd : Z) d : Prop := {
  df_idle : idle w;
  df_free : free_msgs w <> ∅;
  df_open : open_at w fd d;
  df_flags : Z.land (dev_flags d) O_WRONLY = 0;
  df_small : data_size + spdk_bdev_get_block_size (dev_bdev d) <= 2 ^ 32
}.

Lemma settled_trans w1 w2 w3 : settled w1 w2 -> settled w2 w3 -> settled w1 w3.
Proof. intros [] []. split; congruence. Qed.

Lemma settled_mem w me :
  idle w -> (forall a n, mapped (w_mem w) a n -> mapped me a n) -> settled w (set_w_mem me w).
Proof.
  intros [] Hm. split; try done. split; try done.
  intros a n Ha. destruct (idle_dma a n Ha). auto.
Qed.

Lemma demo_fd_settled w w' fd d : settled w w' -> demo_fd w fd d -> demo_fd w' fd d.
Proof.
  intros Hs [? ? ? ? ?]. split; try done; [apply Hs|by rewrite (settled_free _ _ Hs)|].
  by apply (settled_open w).
Qed.

Lemma demo_fd_rest w w' fd d : at_rest w w' -> devs w' = devs w -> demo_fd w fd d -> demo_fd w' fd d.
Proof.
  intros Hrest Hds [? ? Ho ? ?].
  split; try done; [apply Hrest|by rewrite (at_rest_free _ _ Hrest)|].
  unfold open_at. by rewrite Hds.
Qed.

Lemma memset_eq w a c n :
  mapped (w_mem w) a (Z.to_nat n) ->
  memset a c n w = Ok tt (set_w_mem (write_bytes (w_mem w) a (replicate (Z.to_nat n) c)) w).
Proof. intros Hm. apply store_eq. by rewrite length_replicate. Qed.

Lemma data_size_eq : data_size = 4096.
Proof. reflexivity. Qed.

Lemma text_bytes_length n s : 1 <= n -> (length (text_bytes n s) <= Z.to_nat n)%nat.
Proof. intros Hn. unfold text_bytes. rewrite length_app, length_take. simpl. lia. Qed.

Lemma text_over_length c text : length (text_over c text) = Z.to_nat data_size.
Proof.
  pose proof (text_bytes_length data_size text ltac:(by rewrite data_size_eq)).
  unfold text_over. rewrite length_app, length_drop, length_replicate. lia.
Qed.

Lemma demo_data_length greeting : length (demo_data greeting) = Z.to_nat data_size.
Proof. apply text_over_length. Qed.

(** The buffer is filled. *)
Lemma fill_text w a c text :
  mapped (w_mem w) a (Z.to_nat data_size) ->
  exists w1, memset a c data_size w = Ok tt w1 /\
    snprintf a data_size text w1 = Ok tt (set_w_mem (write_bytes (w_mem w) a (text_over c text)) w).
Proof.
  intros Hm. eexists. split; [by apply memset_eq|].
  pose proof (text_bytes_length data_size text ltac:(by rewrite data_size_eq)) as Hl. unfold snprintf.
  rewrite store_eq.
  - cbn [w_mem set_w_mem]. rewrite write_prefix by (by rewrite length_replicate). reflexivity.
  - cbn [w_mem set_w_mem]. apply mapped_write. by eapply mapped_le.
Qed.

Lemma transfer_rc_error rc : transfer_rc rc -> rc = data_size \/ is_error rc.
Proof. intros [->|[->| ->]]; [by left|right..]; unfold is_error; simpl; auto. Qed.

Lemma start_of_0 d : start_of d 0 = 0.
Proof. done. Qed.

(** The result of a transfer of data_size bytes, and the line about it. *)
Lemma transfer_result st : st = XPDK_SUCCESS \/ st = XPDK_ERROR_IO \/ st = XPDK_ERROR_NOMEM ->
  let rc := if decide (st = XPDK_SUCCESS) then data_size else st in
  transfer_rc rc /\ (rc = data_size -> st = XPDK_SUCCESS).
Proof. unfold transfer_rc. intros [->|[->| ->]]; simpl; naive_solver. Qed.

Lemma error_line rc format w out :
  is_error rc ->
  (let* s := strerror rc in printf format [AStr s]) (w, out) =
    Ok tt (w, out ++ [(format, [AStr (error_text rc)])]).
Proof.
  intros He. destruct (strerror_eq rc (w, out) He) as (_ & _ & _ & Hs).
  by rewrite (bind_ok _ _ _ _ _ Hs).
Qed.

Lemma failed_eq rc format w out :
  is_error rc -> failed format rc (w, out) = Ok tt (w, out ++ [(format, [AStr (error_text rc)])]).
Proof. apply error_line. Qed.

Lemma eventually_now {A} (m : MP A) (Q : A -> world * list line -> Prop) s a s' :
  m s = Ok a s' -> Q a s' -> eventually (fun _ _ => m) Q s.
Proof. intros Hm HQ. by eapply (eventually_ok _ 0). Qed.

Lemma demo_write_runs w out fd d wd greeting (Q : unit -> world * list line -> Prop) :
  demo_fd w fd d -> stack_buffer w wd ->
  (forall wr w', transfer_rc wr -> settled w w' ->
     w_mem w' = write_bytes (w_mem w) wd (demo_data greeting) ->
     (wr = data_size -> medium_bytes (medium (w_bdev w') (dev_bdev d)) 0 (Z.to_nat data_size) =
                     demo_data greeting) ->
     Q tt (w', out ++ write_lines wr)) ->
  eventually (fun fuel n => demo_write (spdk_turn fuel) n fd wd greeting) Q (w, out).
Proof.
  intros Hfd [Hwd Hm] HQ. destruct (fill_text w wd xaa greeting Hm) as (w1 & E1 & E2). fold (demo_data greeting) in E2.
  set (w2 := set_w_mem (write_bytes (w_mem w) wd (demo_data greeting)) w) in *.
  assert (settled w w2) as Hs2 by (apply settled_mem; [apply Hfd|]; intros; by apply mapped_write).
  destruct (demo_fd_settled w w2 fd d Hs2 Hfd) as [Hidle Hfree Hopen Hfl Hsmall].
  destruct (write_returns w2 fd d wd data_size 0 (demo_data greeting))
    as (k & st & w' & Hr & (Hst & Hm' & _) & He & Hs'); [done..| | |].
  { split; try done. by apply mapped_write. }
  { rewrite <- (demo_data_length greeting). apply load_write_same. }
  destruct (transfer_result st Hst) as [Hio Hok].
  set (wr := if decide (st = XPDK_SUCCESS) then data_size else st) in *.
  assert (Q tt (w', out ++ write_lines wr)) as HQ'.
  { apply HQ; [done|by eapply settled_trans|done|]. intros E. apply Hok in E as ->.
    rewrite <- (start_of_0 d). apply (write_then_read_medium w2); [|done]. apply demo_data_length. }
  unfold demo_write. eapply eventually_step; [by apply call_ok_eq|].
  eapply eventually_step; [by apply call_ok_eq|]. eapply eventually_step; [apply printf_eq|].
  apply eventually_bind. eapply call_returns; [exact Hr|]. fold wr. unfold write_lines in HQ'.
  destruct (transfer_rc_error wr Hio) as [E|E].
  - rewrite E in *. pose proof data_size_eq. rewrite decide_False in HQ' by lia. rewrite decide_False by lia.
    eapply eventually_now; [apply printf_eq|]. by rewrite <- app_assoc.
  - destruct (strerror_eq wr (w, out) E) as (Hi & Hneg & _).
    rewrite decide_True in HQ' by done. rewrite decide_True, Hi by done.
    eapply eventually_now; [by apply error_line|]. by rewrite <- app_assoc.
Qed.

Lemma demo_flush_runs w out fd d (Q : unit -> world * list line -> Prop) :
  demo_fd w fd d ->
  (forall fl w', fl = XPDK_SUCCESS \/ fl = XPDK_ERROR_IO -> settled w w' -> w_mem w' = w_mem w ->
     medium (w_bdev w') = medium (w_bdev w) -> Q tt (w', out ++ flush_lines fl)) ->
  eventually (fun fuel n => demo_flush (spdk_turn fuel) n fd) Q (w, out).
Proof.
  intros [Hidle Hfree Hopen _ _] HQ.
  destruct (flush_returns w fd d Hidle Hfree Hopen) as (k & fl & w' & Hr & Hfl & Hm & _ & Hmd & Hs).
  specialize (HQ fl w' Hfl Hs Hm Hmd). unfold demo_flush. unfold flush_lines in HQ.
  eapply eventually_step; [apply printf_eq|]. apply eventually_bind.
  eapply call_returns; [exact Hr|]. destruct Hfl as [->| ->].
  - rewrite decide_False in HQ by tauto. rewrite decide_False by tauto. by apply eventually_ret.
  - rewrite decide_True in HQ by done. rewrite decide_True by done.
    eapply eventually_now; [apply error_line; unfold is_error; simpl; auto|].
    by rewrite <- app_assoc.
Qed.

(** The comparison of the two buffers after the read. *)
Lemma memcmp_after w a b n x y :
  load_bytes (w_mem w) a (Z.to_nat n) = Some x -> load_bytes (w_mem w) b (Z.to_nat n) = Some y ->
  memcmp_eq a b n w = Ok (bool_decide (x = y)) w.
Proof.
  intros Hx Hy. unfold memcmp_eq, load. rewrite !bind_assoc, bind_get, Hx. unfold from_some at 1.
  by rewrite bind_ret_l, bind_assoc, bind_get, Hy.
Qed.

Lemma read_ok_mem w d ub count offset st me dl :
  read_outcome w d ub count offset st me dl -> st = XPDK_SUCCESS ->
  me = write_bytes (w_mem w) ub
    (medium_bytes (medium (w_bdev w) (dev_bdev d)) (start_of d offset) (Z.to_nat count)).
Proof. by intros []. Qed.

Lemma demo_read_runs w out fd d wd rd data (Q : unit -> world * list line -> Prop) :
  demo_fd w fd d -> stack_buffer w rd ->
  disjoint_range rd (Z.to_nat data_size) wd (Z.to_nat data_size) ->
  load_bytes (w_mem w) wd (Z.to_nat data_size) = Some data ->
  (forall r same w', transfer_rc r -> settled w w' -> medium (w_bdev w') = medium (w_bdev w) ->
     (r = data_size -> medium_bytes (medium (w_bdev w) (dev_bdev d)) 0 (Z.to_nat data_size) = data ->
      same = true) -> Q tt (w', out ++ read_lines r same)) ->
  eventually (fun fuel n => demo_read (spdk_turn fuel) n fd wd rd) Q (w, out).
Proof.
  intros Hfd [Hrd Hmr] Hap Hdata HQ. pose proof data_size_eq as Hsize.
  pose proof (memset_eq w rd x00 data_size Hmr) as E1. set (w1 := set_w_mem _ w) in E1.
  assert (settled w w1) as Hs1 by (apply settled_mem; [apply Hfd|]; intros; by apply mapped_write).
  destruct (demo_fd_settled w w1 fd d Hs1 Hfd) as [Hidle Hfree Hopen Hfl Hsmall].
  destruct (read_returns w1 fd d rd data_size 0) as (k & st & w' & Hr & Hout & Hmd & Hs');
    [done..|split; try done; by apply mapped_write|].
  pose proof (settled_trans _ _ _ Hs1 Hs') as Hs.
  destruct (transfer_result st ltac:(destruct (read_outcome_status _ _ _ _ _ _ _ _ Hout); tauto))
    as [Hio Hok].
  unfold demo_read. eapply eventually_step; [apply printf_eq|].
  eapply eventually_step; [by apply call_ok_eq|]. apply eventually_bind.
  eapply call_returns; [exact Hr|]. unfold read_lines in HQ.
  destruct (decide (st = XPDK_SUCCESS)) as [->|Hst].
  - pose proof (read_ok_mem _ _ _ _ _ _ _ _ Hout eq_refl) as Hm'. rewrite start_of_0 in Hm'.
    set (bs := medium_bytes _ 0 _) in *.
    assert (length bs = Z.to_nat data_size) as Hbs by apply medium_bytes_length.
    specialize (HQ data_size (bool_decide (data = bs)) w' Hio Hs Hmd).
    rewrite decide_False in HQ by lia. rewrite decide_False by lia.
    eapply eventually_step; [apply printf_eq|].
    eapply eventually_step; [apply call_ok_eq, memcmp_after|].
    + rewrite Hm'. rewrite load_write_disjoint by (by rewrite Hbs). unfold w1. cbn [w_mem set_w_mem].
      by rewrite load_write_disjoint by (by rewrite length_replicate).
    + rewrite Hm', <- Hbs. apply load_write_same.
    + destruct (bool_decide _) eqn:Hb; (eapply eventually_now; [apply printf_eq|]);
        rewrite <- !app_assoc; apply HQ; [done|]. intros _ Hbd.
      apply bool_decide_eq_false in Hb. destruct Hb. exact (eq_sym Hbd).
  - specialize (HQ st false w' Hio Hs Hmd ltac:(intros; tauto)).
    destruct (transfer_rc_error st Hio) as [E|E]; [tauto|].
    destruct (strerror_eq st (w, out) E) as (Hi & Hneg & _).
    rewrite decide_True in HQ by done. rewrite decide_True, Hi by done.
    eapply eventually_now; [by apply error_line|]. by rewrite <- app_assoc.
Qed.

Lemma close_and_report_runs w out fd d (Q : unit -> world * list line -> Prop) :
  idle w -> free_msgs w <> ∅ -> open_at w fd d ->
  (forall w', down w' -> w_mem w' = w_mem w -> medium (w_bdev w') = medium (w_bdev w) ->
     Q tt (w', out ++ [("Closing device...\n", []); ("Cleaning up...\n", [])]%string)) ->
  eventually (fun fuel n => close_and_report (spdk_turn fuel) n fd) Q (w, out).
Proof.
  intros Hidle Hfree (Hfd & Hd & Hopen) HQ.
  destruct (close_returns w fd d Hidle Hfree (conj Hfd Hd) (io_open_in_use d Hopen))
    as (k & w1 & Hr & _ & Hrest).
  unfold close_and_report. eapply eventually_step; [apply printf_eq|]. apply eventually_bind.
  eapply call_returns; [exact Hr|]. rewrite decide_False by tauto.
  eapply eventually_step; [done|]. eapply eventually_step; [apply printf_eq|].
  apply cleanup_down; [apply Hrest|by rewrite (at_rest_free _ _ Hrest)|].
  intros w' Hdown _ Hm Hmd. rewrite <- app_assoc. destruct Hrest. apply HQ; [done|congruence..].
Qed.

(** ** The demonstration *)

Open Scope string_scope.

Definition info_lines (i : xpdk_bdev_info) : list line :=
  [("Device info:\n", []);
   ("  Name: %s\n", [AStr (bi_name i)]);
   ("  Block size: %lu bytes\n", [ANum (bi_block_size i)]);
   ("  Number of blocks: %lu\n", [ANum (bi_num_blocks i)]);
   ("  Total capacity: %lu bytes (%.2f MB)\n",
     [ANum (bi_capacity i); AReal (bi_capacity i) (1024 * 1024)])].

(** The output of a demonstration on the device [bd] of that name, and the media after it.
    It stops when the device cannot be opened.  Otherwise it goes through every step,
    whatever their results; and when the write succeeds the device begins with the data,
    when the read does too the comparison finds them equal. *)
Inductive demo_transcript (bd : Z) (name greeting : string) (b : bdev_t) :
    bool -> list line -> Prop :=
| demo_not_opened rc :
    rc = XPDK_ERROR_NODEV /\ bd = NULL \/ rc = XPDK_ERROR_IO ->
    demo_transcript bd name greeting b false
      [("Opening device: %s\n", [AStr name]);
       ("Failed to open device %s: %s\n", [AStr name; AStr (error_text rc)])]
| demo_done wr fl rd same :
    bd <> NULL -> transfer_rc wr -> fl = XPDK_SUCCESS \/ fl = XPDK_ERROR_IO -> transfer_rc rd ->
    (wr = data_size ->
     medium_bytes (medium b bd) 0 (Z.to_nat data_size) = demo_data greeting) ->
    (wr = data_size -> rd = data_size -> same = true) ->
    demo_transcript bd name greeting b true
      ([("Opening device: %s\n", [AStr name])] ++ info_lines (bdev_info bd) ++
       write_lines wr ++ flush_lines fl ++ read_lines rd same ++
       [("Closing device...\n", []); ("Cleaning up...\n", [])])%list.

Close Scope string_scope.

(** Where the objects of [main] are. *)
Record demo_stack w (write_data read_data info : Z) : Prop := {
  ds_write : stack_buffer w write_data;
  ds_read : stack_buffer w read_data;
  ds_apart : disjoint_range read_data (Z.to_nat data_size) write_data (Z.to_nat data_size);
  ds_info : info <> NULL;
  ds_infos : exists l, w_infos w !! info = Some l /\ l <> []
}.

(** The library when a program has just initialised it. *)
Definition started w : Prop :=
  sound w /\ (forall k d, devs w !! k = Some d -> dev_in_use d = false).

Definition fits (bd : Z) : Prop := data_size + spdk_bdev_get_block_size bd <= 2 ^ 32.

(** No descriptor but [fd] is in use. *)
Definition only_open w (fd : Z) : Prop :=
  forall k e, devs w !! k = Some e -> dev_in_use e = true -> k = Z.to_nat fd.

(** The device opened, as the demonstration uses it. *)
Lemma opened_demo_fd w w' name rc :
  started w -> at_rest w w' -> open_outcome w name O_RDWR rc (devs w') ->
  fits (spdk_bdev_get_by_name (w_bdev w) name) ->
  (exists d, 0 <= rc /\ demo_fd w' rc d /\ dev_bdev d = spdk_bdev_get_by_name (w_bdev w) name /\
     dev_bdev d <> NULL /\ dev_perf_stats d = perf_stats_zero /\ only_open w' rc) \/
  is_error rc /\ (rc = XPDK_ERROR_NODEV /\ spdk_bdev_get_by_name (w_bdev w) name = NULL \/
     rc = XPDK_ERROR_IO).
Proof.
  intros [[Hidle Hfree _] Hfr] Hrest Hout Hfits. pose proof (idle_devices w Hidle) as [Hlen _].
  remember (devs w') as ds eqn:Hds.
  destruct Hout as [i d desc ch now Hlow Hdesc Hch Hbd Hh|Hn|Hfull| |];
    try (right; unfold is_error; simpl; by auto 9).
  - left. exists (ready desc ch now (claimed (spdk_bdev_get_by_name (w_bdev w) name) O_RDWR d)).
    destruct Hlow as [[Hi Hd] _]. split_and!; [lia| |reflexivity|done|done|].
    + split; try done; [apply Hrest|by rewrite (at_rest_free _ _ Hrest)|].
      split_and!; [lia|lia| |by split]. rewrite <- Hds. apply list_lookup_insert_eq.
      apply lookup_lt_Some in Hd. lia.
    + intros k e He Hu. rewrite <- Hds in He.
      apply list_lookup_insert_Some in He as [(<- & _)|[_ He]]; [done|]. by rewrite (Hfr _ _ He) in Hu.
  - exfalso. destruct (devs w !! 0%nat) as [d|] eqn:Hd.
    + specialize (Hfull 0 d ltac:(lia) Hd). by rewrite (Hfr _ _ Hd) in Hfull.
    + apply lookup_ge_None in Hd. rewrite Hlen in Hd. unfold XPDK_MAX_OPEN_DEVICES in Hd. lia.
Qed.

Lemma print_device_info_eq i w out :
  print_device_info i (w, out) = Ok tt (w, out ++ info_lines i).
Proof.
  unfold print_device_info. erewrite bind_ok by apply printf_eq.
  do 3 (erewrite bind_ok by apply printf_eq). rewrite printf_eq. by rewrite <- !app_assoc.
Qed.

Lemma info_at_eq w p i l x : w_infos w !! p = Some l -> l !! i = Some x -> info_at p i w = Ok x w.
Proof.
  intros Hl Hx. unfold info_at. rewrite bind_get, Hl. unfold from_some at 1.
  by rewrite bind_ret_l, Hx.
Qed.

(** The device is described ... *)
Lemma demo_info_runs w out fd d info l (Q : unit -> world * list line -> Prop) :
  demo_fd w fd d -> info <> NULL -> w_infos w !! info = Some l -> l <> [] ->
  (forall w', at_rest w w' -> devs w' = devs w -> Q tt (w', out ++ info_lines (bdev_info (dev_bdev d)))) ->
  eventually (fun fuel n => demo_info (spdk_turn fuel) n fd info) Q (w, out).
Proof.
  intros [Hidle Hfree (Hfd & Hd & Ho) _ _] Hi Hl Hne HQ.
  destruct (get_info_returns w fd d info l) as (k & w' & Hr & Hinf & Hds & Hrest & _);
    [done..|apply Ho|apply Ho|done|done|done|].
  apply eventually_bind. eapply call_returns; [exact Hr|]. rewrite decide_True by done.
  eapply eventually_step; [apply call_ok_eq; eapply (info_at_eq _ _ 0)|].
  - rewrite Hinf. apply lookup_insert_eq.
  - done.
  - eapply eventually_now; [apply print_device_info_eq|]. by apply HQ.
Qed.

(** ... and the data go there and back. *)
Lemma demo_io_runs w out fd d wd rd greeting (Q : unit -> world * list line -> Prop) :
  demo_fd w fd d -> stack_buffer w wd -> stack_buffer w rd ->
  disjoint_range rd (Z.to_nat data_size) wd (Z.to_nat data_size) ->
  (forall wr fl r same w', transfer_rc wr -> fl = XPDK_SUCCESS \/ fl = XPDK_ERROR_IO -> transfer_rc r ->
     (wr = data_size -> medium_bytes (medium (w_bdev w') (dev_bdev d)) 0 (Z.to_nat data_size) =
                          demo_data greeting) ->
     (wr = data_size -> r = data_size -> same = true) -> demo_fd w' fd d ->
     Q tt (w', out ++ write_lines wr ++ flush_lines fl ++ read_lines r same)) ->
  eventually (fun fuel n => demo_io (spdk_turn fuel) n fd wd rd greeting) Q (w, out).
Proof.
  intros Hfd Hwd [Hrd Hmr] Hap HQ. apply eventually_bind.
  apply (demo_write_runs w out fd d); [done..|]. intros wr w1 Hwr Hs1 Hm1 Hmd1.
  apply eventually_bind. pose proof (demo_fd_settled _ _ _ _ Hs1 Hfd) as Hfd1.
  apply (demo_flush_runs w1 _ fd d); [done|]. intros fl w2 Hfl Hs2 Hm2 Hmd2.
  pose proof (demo_fd_settled _ _ _ _ Hs2 Hfd1) as Hfd2.
  apply (demo_read_runs w2 _ fd d wd rd (demo_data greeting)); [done| |done| |].
  - split; [done|]. rewrite Hm2, Hm1. by apply mapped_write.
  - rewrite Hm2, Hm1, <- (demo_data_length greeting). apply load_write_same.
  - intros r same w3 Hr Hs3 Hmd3 Hsame. rewrite <- !app_assoc. rewrite Hmd2 in Hmd3, Hsame.
    apply HQ; try done; [by rewrite Hmd3|by auto|by eapply demo_fd_settled].
Qed.

Lemma demo_device_runs w out wd rd info name greeting (Q : bool -> world * list line -> Prop) :
  started w -> demo_stack w wd rd info -> fits (spdk_bdev_get_by_name (w_bdev w) name) ->
  (forall opened w' lines, down w' ->
     demo_transcript (spdk_bdev_get_by_name (w_bdev w) name) name greeting (w_bdev w') opened lines ->
     Q opened (w', out ++ lines)) ->
  eventually (fun fuel n => demo_device (spdk_turn fuel) n wd rd info name greeting) Q (w, out).
Proof.
  intros Hst Hstack Hfits HQ. pose proof Hst as [[Hidle Hfree _] _].
  destruct (open_returns w name O_RDWR Hidle Hfree) as (k & rc & w1 & Hr & Hout & Hrest & Hinf & _).
  unfold demo_device. eapply eventually_step; [apply printf_eq|]. apply eventually_bind.
  eapply call_waits; [exact Hr|].
  destruct (opened_demo_fd w w1 name rc Hst Hrest Hout Hfits)
    as [(d & Hpos & Hfd & Hbd & Hnn & _)|[He Hrc]].
  - destruct (decide (rc < 0)); [lia|]. destruct Hstack as [Hwd Hrd Hap Hi (l & Hl & Hne)].
    rewrite <- Hinf in Hl. rewrite <- Hbd in *.
    assert (forall a, stack_buffer w a -> stack_buffer w1 a) as Hsb
      by (unfold stack_buffer; by rewrite (at_rest_mem _ _ Hrest)).
    apply eventually_bind. apply (demo_info_runs w1 _ rc d info l); [done..|]. intros w2 Hrest2 Hds2.
    apply eventually_bind. apply (demo_io_runs w2 _ rc d).
    { destruct Hfd. split; try done; [apply Hrest2|by rewrite (at_rest_free _ _ Hrest2)|].
      unfold open_at. by rewrite Hds2. }
    1, 2: unfold stack_buffer; rewrite (at_rest_mem _ _ Hrest2); by apply Hsb.
    { done. }
    intros wr fl r same w3 Hwr Hfl Hr3 Hmd3 Hsame Hfd3. apply eventually_bind.
    apply (close_and_report_runs w3 _ rc d); [apply Hfd3..|]. intros w4 Hdown _ Hmd4.
    apply eventually_ret. rewrite <- !app_assoc. apply HQ; [done|].
    apply demo_done; try done. by rewrite Hmd4.
  - destruct (strerror_eq rc (w1, out ++ [("Opening device: %s\n"%string, [AStr name])]) He)
      as (_ & Hneg & _ & Hs).
    destruct (decide (rc < 0)); [|lia]. eapply eventually_step; [exact Hs|].
    eapply eventually_step; [apply printf_eq|]. apply eventually_bind.
    apply cleanup_down; [apply Hrest|by rewrite (at_rest_free _ _ Hrest)|].
    intros w2 Hdown _ _ _. apply eventually_ret. rewrite <- app_assoc. apply HQ; [done|].
    by apply demo_not_opened.
Qed.

(** ** Start-up *)

(** A process that has not initialised the library yet, on a system where it can. *)
Record can_start (bt : boot) (opts : xpdk_opts) w : Prop := {
  cs_down : ctx_initialized (w_g w) = false;
  cs_sizes : sizes_ok opts;
  cs_boots : exists r pl, boots bt opts r pl /\ ring_queue r = [] /\ (0 < ring_capacity r)%nat /\
    pool_free pl <> ∅ /\ pool_free pl ## dom (w_msgs w);
  cs_thread : thread_starts bt opts;
  cs_quiet : outstanding (w_bdev w) = [] /\ w_sctx w = ∅;
  cs_dma : forall a n, w_dma_live w !! a = Some n -> 0 < n /\ mapped (w_mem w) a (Z.to_nat n)
}.

(** Down, with nothing under way: the library can be started again. *)
Record restartable (ms : gmap Z xpdk_msg) w : Prop := {
  rs_down : down w;
  rs_msgs : w_msgs w = ms;
  rs_quiet : outstanding (w_bdev w) = [] /\ w_sctx w = ∅;
  rs_dma : forall a n, w_dma_live w !! a = Some n -> 0 < n /\ mapped (w_mem w) a (Z.to_nat n)
}.

Lemma down_restartable w w' : idle w -> down_from w w' -> restartable (w_msgs w) w'.
Proof.
  intros Hi Hd. split; [apply Hd|apply Hd| |].
  - split; [apply Hd|]. by rewrite (df_frames _ _ Hd), (idle_frames w Hi).
  - rewrite (df_live _ _ Hd), (df_mem _ _ Hd). apply Hi.
Qed.

Lemma can_start_again bt opts w w' :
  can_start bt opts w -> restartable (w_msgs w) w' -> can_start bt opts w'.
Proof. intros [] [Hd Hm Hq Hdma]. split; try done; [apply Hd|by rewrite Hm]. Qed.

(** The options [xpdk_init(NULL)] starts from. *)
Definition default_opts : xpdk_opts := xpdk_opts_init opts_zero.

Lemma init_opts_runs bt opts w out (Q : Z -> world * list line -> Prop) :
  can_start bt opts w ->
  (forall w', started w' -> beside_context w w' -> Q XPDK_SUCCESS (w', out)) ->
  eventually (fun _ n => call (xpdk_init_opts bt n (Some opts))) Q (w, out).
Proof.
  intros [Hi Hsz (r & pl & Hb & Hq & Hc & Hne & Hpl) Hth [Ho Hs] Hd] HQ.
  destruct (init_opts_returns bt opts r pl w) as (w' & Hr & Hsound & _ & _ & Hfree & Hbes); [done..|].
  apply (call_waits _ (S (bt_delay bt)) XPDK_SUCCESS w w'); [|by apply HQ].
  intros _ n Hn. apply Hr. lia.
Qed.

Lemma init_runs bt w out (Q : Z -> world * list line -> Prop) :
  can_start bt default_opts w ->
  (forall w', started w' -> beside_context w w' -> Q XPDK_SUCCESS (w', out)) ->
  eventually (fun _ n => call (xpdk_init bt n None)) Q (w, out).
Proof. apply init_opts_runs. Qed.

Lemma demo_stack_beside w w' wd rd info :
  beside_context w w' -> demo_stack w wd rd info -> demo_stack w' wd rd info.
Proof.
  intros (Hm & _ & Hinf & _) [? ? ? ? ?]. unfold stack_buffer in *. split; try done.
  1, 2: unfold stack_buffer; by rewrite Hm. by rewrite Hinf.
Qed.

(** ** Programs *)

Open Scope string_scope.


(** *** Options of turbo_example.c *)

Inductive cli_option :=
| CliTurbo
| CliCore (text : string) (core : Z).

Definition cli_words (o : cli_option) : list string :=
  match o with
  | CliTurbo => ["--turbo"]
  | CliCore text _ => ["--cpu-core"; text]
  end.

(** The text of a core is the number it says. *)
Definition cli_ok (o : cli_option) : Prop :=
  match o with
  | CliTurbo => True
  | CliCore text core => atoi text = Some core
  end.

Definition cli_step (st : bool * Z) (o : cli_option) : bool * Z :=
  match o with
  | CliTurbo => (true, st.2)
  | CliCore _ core => (st.1, core)
  end.

Definition cli_value (opts : list cli_option) : bool * Z := foldl cli_step (false, -1) opts.

Lemma parse_options_words opts t c s :
  Forall cli_ok opts ->
  parse_options (concat (cli_words <$> opts)) t c s = Ok (foldl cli_step (t, c) opts) s.
Proof.
  revert t c. induction opts as [|o opts IH]; intros t c Hok; [done|].
  apply Forall_cons in Hok as [Ho Hok]. destruct o as [|text core]; simpl in *.
  - by apply IH.
  - rewrite Ho. unfold from_some. rewrite bind_ret_l. by apply IH.
Qed.

Definition mode_notes (use_turbo : bool) : list line :=
  if use_turbo then
    [("\nTurbo mode notes:\n", []); ("- Uses busy polling for minimum latency\n", []);
     ("- Higher CPU usage but better performance\n", []);
     ("- Ideal for latency-sensitive applications\n", [])]
  else
    [("\nStandard mode notes:\n", []); ("- Uses periodic polling to reduce CPU usage\n", []);
     ("- Good balance of performance and resource usage\n", []);
     ("- Suitable for most applications\n", [])].

Lemma print_mode_notes_eq use_turbo w out :
  print_mode_notes use_turbo (w, out) = Ok tt (w, out ++ mode_notes use_turbo)%list.
Proof.
  destruct use_turbo; cbn [print_mode_notes mode_notes];
    do 3 (erewrite bind_ok by apply printf_eq); rewrite printf_eq; by rewrite <- !app_assoc.
Qed.

Definition turbo_header (use_turbo : bool) (cpu_core : Z) : list line :=
  [("Initializing XPDK library...\n", []);
   ("  Mode: %s\n", [AStr (if use_turbo then "TURBO (High Performance)" else "STANDARD")]);
   ("  CPU Core: %s\n", [AStr (if decide (cpu_core >= 0) then "Bound" else "Unbound")])].


(** *** list_devices.c *)

Definition device_line (i : xpdk_bdev_info) : line :=
  ("%-20s %-12lu %-12lu %-15.2f\n",
    [AStr (bi_name i); ANum (bi_block_size i); ANum (bi_num_blocks i);
     AReal (bi_capacity i) (1024 * 1024)]).

Definition list_header (n : Z) : list line :=
  [("Initializing XPDK library...\n", []); ("Listing available block devices...\n", []);
   ("Found %d block device(s):\n", [ANum n]);
   ("%-20s %-12s %-12s %-15s\n",
     [AStr "Device Name"; AStr "Block Size"; AStr "Num Blocks"; AStr "Capacity (MB)"]);
   ("%-20s %-12s %-12s %-15s\n",
     [AStr "==========="; AStr "=========="; AStr "=========="; AStr "============"])].

Lemma print_devices_eq devices l : forall n i w out,
  w_infos w !! devices = Some l -> (i + n <= length l)%nat ->
  print_devices devices n i (w, out) = Ok tt (w, out ++ (device_line <$> take n (drop i l)))%list.
Proof.
  induction n as [|n IH]; intros i w out Hl Hn; simpl.
  - by rewrite app_nil_r.
  - destruct (lookup_lt_is_Some_2 l i) as [x Hx]; [lia|].
    rewrite (bind_ok _ _ _ _ _ (call_ok_eq _ _ _ _ out (info_at_eq w devices i l x Hl Hx))).
    erewrite bind_ok by apply printf_eq. rewrite (IH (S i)) by (done || lia).
    rewrite (drop_S l x i Hx), firstn_cons, fmap_cons. by rewrite <- app_assoc.
Qed.

(** Examples/list_devices.c runs to its end with exit code 0 and the library down, and
    prints one line per device, in the order SPDK enumerates them, with the name, block size,
    number of blocks and capacity of each; of more than 32 devices, the first 32. *)
Theorem list_devices_correct bt w devices l :
  can_start bt default_opts w -> devices <> NULL ->
  w_infos w !! devices = Some l -> length l = 32%nat ->
  eventually (fun fuel n => list_devices bt (spdk_turn fuel) n devices)
    (fun code s => code = 0 /\ down (fst s) /\ exists b,
       let some := take 32 (spdk_for_each_bdev b) in
       same_data (w_bdev w) b /\
       snd s = (list_header (Z.of_nat (length some)) ++ (device_line <$> (bdev_info <$> some)) ++
         (if decide (some = [])
          then [("No block devices found. Make sure SPDK is properly configured.\n", [])] else []) ++
         [("Cleaning up...\n", [])])%list) (w, []).
Proof.
  intros Hcan Hdev Hl Hlen. unfold list_devices. eapply eventually_step; [apply printf_eq|].
  apply eventually_bind. apply init_runs; [done|].
  intros w1 [[Hidle Hfree _] _] (_ & Hb & Hinf & _).
  destruct (decide (XPDK_SUCCESS <> XPDK_SUCCESS)); [done|].
  eapply eventually_step; [apply printf_eq|]. rewrite <- Hinf in Hl. rewrite <- Hb.
  destruct (list_bdevs_returns w1 devices 32 l Hidle Hfree Hdev ltac:(lia) Hl ltac:(lia))
    as (k & b & w2 & Hsd & Hr & Hinf2 & _ & Hrest & _).
  change (Z.to_nat 32) with 32%nat in *. set (some := take 32 _) in *.
  apply eventually_bind. eapply call_returns; [exact Hr|].
  destruct (decide (Z.of_nat (length some) < 0)); [lia|].
  do 3 (eapply eventually_step; [apply printf_eq|]).
  assert (length some <= 32)%nat as Hle by (unfold some; rewrite length_take; lia).
  eapply eventually_step.
  { eapply (print_devices_eq devices _ _ 0); [rewrite Hinf2; apply lookup_insert_eq|].
    rewrite length_app, length_fmap. lia. }
  rewrite drop_0, Nat2Z.id, take_app_length' by (by rewrite length_fmap).
  assert (forall o, (if decide (Z.of_nat (length some) = 0) then
    printf "No block devices found. Make sure SPDK is properly configured.\n" [] else ret tt) (w2, o) =
    Ok tt (w2, o ++ if decide (some = []) then
      [("No block devices found. Make sure SPDK is properly configured.\n", [])] else [])%list) as Hno.
  { intros o. destruct some; simpl; [done|]. by rewrite app_nil_r. }
  eapply eventually_step; [apply Hno|]. eapply eventually_step; [apply printf_eq|].
  apply eventually_bind. apply cleanup_down; [apply Hrest|by rewrite (at_rest_free _ _ Hrest)|].
  intros w3 Hdown _ _ _. apply eventually_ret. split_and!; [done|done|].
  exists b. split; [done|]. fold some. cbn [fst snd]. by rewrite <- !app_assoc.
Qed.
Close Scope string_scope.
End ProgramsCorrect.

(** ** The programs on the simulated environment *)

(** Two buffers of 4096 bytes on the stack, and the structures of the client. *)
Definition sim_stack : memory :=
  write_bytes (write_bytes ∅ 50000 (replicate (Z.to_nat data_size) x00))
    60000 (replicate (Z.to_nat data_size) x00).

Definition sim_client_world (infos : gmap Z (list xpdk_bdev_info)) (limits : gmap Z (list Z))
    (me : memory) : world :=
  set_w_limits limits (set_w_infos infos (set_w_mem me sim_down_world)).

Lemma sim_can_start opts infos limits me :
  sizes_ok opts ->
  @can_start sim_spdk sim_spdk_laws (sim_boot 1) opts (sim_client_world infos limits me).
Proof.
  intros Hsz. destruct (opts_defaults_positive opts Hsz) as [Hr Hp].
  split; [reflexivity|done| |by split|by split|].
  - eexists _, _. split_and!; [by split|done|simpl; lia| |].
    + intros Hn. apply (not_elem_of_empty (C := gset Z) 4096). rewrite <- Hn.
      apply elem_of_difference. split; [|set_solver]. apply elem_of_list_to_set.
      apply list_elem_of_fmap. exists 0%nat. split; [done|]. apply elem_of_seq. lia.
    + simpl. rewrite dom_empty_L. set_solver.
  - intros a n Ha. change (w_dma_live _) with (∅ : gmap Z Z) in Ha.
    by rewrite lookup_empty in Ha.
Qed.

Lemma sim_buffers infos limits :
  @stack_buffer sim_spdk (sim_client_world infos limits sim_stack) 50000 /\
  @stack_buffer sim_spdk (sim_client_world infos limits sim_stack) 60000.
Proof.
  unfold stack_buffer. cbn [w_mem sim_client_world set_w_limits set_w_infos set_w_mem].
  rewrite <- (length_replicate (Z.to_nat data_size) x00).
  split; (split; [done|]); [apply mapped_write|]; apply mapped_write_self.
Qed.

Definition sim_info : xpdk_bdev_info := Build_bdev_info EmptyString 0 0 0.

Definition sim_demo_world : world := sim_client_world (<[70000 := [sim_info]]> ∅) ∅ sim_stack.

Lemma sim_demo_stack : @demo_stack sim_spdk sim_demo_world 50000 60000 70000.
Proof.
  destruct (sim_buffers (<[70000 := [sim_info]]> ∅) ∅) as [H1 H2].
  split; [exact H1|exact H2| |done|exists [sim_info]; split; [apply lookup_insert_eq|done]].
  unfold disjoint_range. rewrite data_size_eq, Z2Nat.id by lia. lia.
Qed.

Lemma sim_fits bd : @fits sim_spdk bd.
Proof. unfold fits. rewrite data_size_eq. by vm_compute. Qed.



Lemma list_devices_correct_witness :
  @eventually (@world sim_spdk * list line) Z
    (fun fuel n => @list_devices sim_spdk (sim_boot 1) (spdk_turn fuel) n 71000)
    (fun code s => code = 0 /\ down (fst s))
    (sim_client_world (<[71000 := replicate 32 sim_info]> ∅) ∅ ∅, []).
Proof.
  eapply eventually_mono.
  - apply (@list_devices_correct sim_spdk sim_spdk_laws (sim_boot 1)
      (sim_client_world (<[71000 := replicate 32 sim_info]> ∅) ∅ ∅) 71000 (replicate 32 sim_info)).
    + by apply sim_can_start.
    + done.
    + apply lookup_insert_eq.
    + apply length_replicate.
  - intros code s (Hc & Hdown & _). by split.
Defined.
