(* ===== verification/QosProgram.v ===== *)
(** examples/qos_example.c: rate limits from a client's side, with its theorem. *)

From stdpp Require Import base gmap list strings.
From Stdlib Require Import Strings.Byte.
From S2P Require Import Prelude Types Memory Spdk World Sim Core Blocks Perf Bdev Qos Io.
From S2P Require Import Async Vectored Batch Poller Idle IoCorrect SyncIo Devices Session.
From S2P Require Import Services Lifecycle VectoredCorrect Eventually Programs ProgramsCorrect.

Open Scope Z_scope.

Section QosProgram.
Context `{Spdk}.
Variable bt : boot.
Variable sched_yield : MW unit.
Variable fuel : nat.

Open Scope string_scope.

(** [memset(qos_limits, 0, sizeof(qos_limits));] *)
Definition clear_limits (qos_limits : Z) : MW unit :=
  put_limits qos_limits (replicate (Z.to_nat XPDK_QOS_NUM_RATE_LIMIT_TYPES) 0).

(** [qos_limits[type] = v;] *)
Definition set_limit (qos_limits type v : Z) : MW unit :=
  let* l := get_limits qos_limits in put_limits qos_limits (<[Z.to_nat type := v]> l).

Definition limit_of (l : list Z) (type : Z) : Z := nth (Z.to_nat type) l 0.

(** A title and the four limits in the array. *)
Definition print_limits (title : string) (qos_limits : Z) : MP unit :=
  printf title [] ;;
  let* l := call (get_limits qos_limits) in
  printf "  RW IOPS: %lu\n" [ANum (limit_of l XPDK_QOS_RW_IOPS_RATE_LIMIT)] ;;
  printf "  RW BPS:  %lu\n" [ANum (limit_of l XPDK_QOS_RW_BPS_RATE_LIMIT)] ;;
  printf "  R BPS:   %lu\n" [ANum (limit_of l XPDK_QOS_R_BPS_RATE_LIMIT)] ;;
  printf "  W BPS:   %lu\n" [ANum (limit_of l XPDK_QOS_W_BPS_RATE_LIMIT)].

(** Lines 52-62 and 73-84. *)
Definition show_limits (fd qos_limits : Z) (intro title : string) : MP unit :=
  printf intro [] ;;
  let* rc := call (xpdk_qos_get_rate_limits sched_yield fuel fd qos_limits) in
  if decide (rc <> XPDK_SUCCESS) then failed "Failed to get QoS limits: %s\n" rc
  else print_limits title qos_limits.

(** Lines 123-131 and 143-151: the limits again, from a cleared array. *)
Definition verify_limits (fd qos_limits : Z) (title : string) : MP unit :=
  call (clear_limits qos_limits) ;;
  let* rc := call (xpdk_qos_get_rate_limits sched_yield fuel fd qos_limits) in
  if decide (rc = XPDK_SUCCESS) then print_limits title qos_limits else ret tt.

(** Lines 65-71. *)
Definition enable_simple (fd : Z) : MP unit :=
  printf "\nSetting QoS limits: 1000 IOPS, 4MB/s bandwidth\n" [] ;;
  let* rc := call (xpdk_qos_enable_simple sched_yield fuel fd 1000 (4 * 1024 * 1024)) in
  if decide (rc <> XPDK_SUCCESS) then failed "Failed to set QoS limits: %s\n" rc
  else printf "QoS limits set successfully\n" [].

(** Lines 86-107; [buffer] has [data_size] bytes. *)
Definition limited_io (fd buffer : Z) : MP unit :=
  printf "\nPerforming I/O operations with QoS limits...\n" [] ;;
  call (memset buffer xab data_size) ;;
  printf "Writing 4KB of data...\n" [] ;;
  let* bytes_written := call (xpdk_write sched_yield fuel fd buffer data_size 0) in
  (if decide (bytes_written <> data_size) then failed "Write failed: %s\n" (to_int bytes_written)
   else printf "Write successful: %zd bytes\n" [ANum bytes_written]) ;;
  printf "Reading 4KB of data...\n" [] ;;
  call (memset buffer x00 data_size) ;;
  let* bytes_read := call (xpdk_read sched_yield fuel fd buffer data_size 0) in
  if decide (bytes_read <> data_size) then failed "Read failed: %s\n" (to_int bytes_read)
  else printf "Read successful: %zd bytes\n" [ANum bytes_read].

(** Lines 109-132. *)
Definition custom_limits (fd qos_limits : Z) : MP unit :=
  printf "\nSetting custom QoS limits...\n" [] ;;
  call (clear_limits qos_limits) ;;
  call (set_limit qos_limits XPDK_QOS_RW_IOPS_RATE_LIMIT 500) ;;
  call (set_limit qos_limits XPDK_QOS_R_BPS_RATE_LIMIT (2 * 1024 * 1024)) ;;
  call (set_limit qos_limits XPDK_QOS_W_BPS_RATE_LIMIT (1 * 1024 * 1024)) ;;
  let* rc := call (xpdk_qos_set_rate_limits sched_yield fuel fd qos_limits) in
  if decide (rc <> XPDK_SUCCESS) then failed "Failed to set custom QoS limits: %s\n" rc
  else
    printf "Custom QoS limits set successfully\n" [] ;;
    verify_limits fd qos_limits "Custom QoS limits:\n".

(** Lines 134-152. *)
Definition disable_limits (fd qos_limits : Z) : MP unit :=
  printf "\nDisabling QoS limits...\n" [] ;;
  let* rc := call (xpdk_qos_disable sched_yield fuel fd) in
  if decide (rc <> XPDK_SUCCESS) then failed "Failed to disable QoS: %s\n" rc
  else
    printf "QoS disabled successfully\n" [] ;;
    verify_limits fd qos_limits "QoS limits after disable:\n".

(** Lines 37-40, from entry [i] on. *)
Fixpoint print_found (devices : Z) (n i : nat) : MP unit :=
  match n with
  | O => ret tt
  | S n =>
      let* d := call (info_at devices i) in
      printf "  %s: %lu blocks, %lu bytes each\n"
        [AStr (bi_name d); ANum (bi_num_blocks d); ANum (bi_block_size d)] ;;
      print_found devices n (S i)
  end.

(** Lines 51-164: with the device open. *)
Definition qos_session (fd qos_limits buffer : Z) : MP Z :=
  show_limits fd qos_limits "\nGetting current QoS limits...\n" "Current QoS limits:\n" ;;
  enable_simple fd ;;
  show_limits fd qos_limits "\nVerifying QoS limits...\n" "Updated QoS limits:\n" ;;
  limited_io fd buffer ;;
  custom_limits fd qos_limits ;;
  disable_limits fd qos_limits ;;
  let* rc := call (xpdk_close sched_yield fuel fd) in
  (if decide (rc <> XPDK_SUCCESS) then failed "Failed to close device: %s\n" rc
   else ret tt) ;;
  call (xpdk_cleanup sched_yield fuel) ;;
  printf "\nQoS example completed successfully\n" [] ;;
  ret 0.

(** Lines 36-50, and on with the first device. *)
Definition qos_devices (devices num_devices qos_limits buffer : Z) : MP Z :=
  printf "Found %d block devices:\n" [ANum num_devices] ;;
  print_found devices (Z.to_nat num_devices) 0 ;;
  let* d0 := call (info_at devices 0) in
  printf "\nOpening device: %s\n" [AStr (bi_name d0)] ;;
  let* fd := call (xpdk_open sched_yield fuel (Some (bi_name d0)) O_RDWR) in
  if decide (fd < 0) then
    let* s := strerror fd in
    printf "Failed to open device %s: %s\n" [AStr (bi_name d0); AStr s] ;;
    call (xpdk_cleanup sched_yield fuel) ;;
    ret 1
  else
    qos_session fd qos_limits buffer.

Definition qos_example (devices qos_limits buffer : Z) : MP Z :=
  printf "=== XPDK QoS Example ===\n" [] ;;
  let opts := set_opt_turbo_mode false (xpdk_opts_init opts_zero) in
  let* rc := call (xpdk_init_opts bt fuel (Some opts)) in
  if decide (rc <> XPDK_SUCCESS) then
    failed "Failed to initialize XPDK: %s\n" rc ;;
    ret 1
  else
    let* num_devices := call (xpdk_list_bdevs sched_yield fuel devices 16) in
    if decide (num_devices <= 0) then
      printf "No block devices found\n" [] ;;
      call (xpdk_cleanup sched_yield fuel) ;;
      ret 1
    else
      qos_devices devices num_devices qos_limits buffer.
End QosProgram.

(** ** What it prints *)

Section QosProgramCorrect.
Context `{SpdkLaws}.
#[local] Opaque data_size.
Implicit Types (w : world) (d : xpdk_device) (out : list line).

Abbreviation devs w := (ctx_devices (w_g w)).

Open Scope string_scope.

Definition limits_lines (title : string) (l : list Z) : list line :=
  [(title, []);
   ("  RW IOPS: %lu\n", [ANum (limit_of l XPDK_QOS_RW_IOPS_RATE_LIMIT)]);
   ("  RW BPS:  %lu\n", [ANum (limit_of l XPDK_QOS_RW_BPS_RATE_LIMIT)]);
   ("  R BPS:   %lu\n", [ANum (limit_of l XPDK_QOS_R_BPS_RATE_LIMIT)]);
   ("  W BPS:   %lu\n", [ANum (limit_of l XPDK_QOS_W_BPS_RATE_LIMIT)])].

Definition enable_lines (rc : Z) : list line :=
  [("\nSetting QoS limits: 1000 IOPS, 4MB/s bandwidth\n", []);
   if decide (rc <> XPDK_SUCCESS) then ("Failed to set QoS limits: %s\n", [AStr (error_text rc)])
   else ("QoS limits set successfully\n", [])].

Definition limited_io_lines (wr rd : Z) : list line :=
  [("\nPerforming I/O operations with QoS limits...\n", []);
   ("Writing 4KB of data...\n", []);
   if decide (wr <> data_size) then ("Write failed: %s\n", [AStr (error_text wr)])
   else ("Write successful: %zd bytes\n", [ANum wr]);
   ("Reading 4KB of data...\n", []);
   if decide (rd <> data_size) then ("Read failed: %s\n", [AStr (error_text rd)])
   else ("Read successful: %zd bytes\n", [ANum rd])].

Definition custom_lines (rc : Z) (l : list Z) : list line :=
  ("\nSetting custom QoS limits...\n", []) ::
  if decide (rc <> XPDK_SUCCESS)
  then [("Failed to set custom QoS limits: %s\n", [AStr (error_text rc)])]
  else ("Custom QoS limits set successfully\n", []) :: limits_lines "Custom QoS limits:\n" l.

Definition disable_lines (rc : Z) (l : list Z) : list line :=
  ("\nDisabling QoS limits...\n", []) ::
  if decide (rc <> XPDK_SUCCESS) then [("Failed to disable QoS: %s\n", [AStr (error_text rc)])]
  else ("QoS disabled successfully\n", []) :: limits_lines "QoS limits after disable:\n" l.

Close Scope string_scope.

(** ** Steps *)

(** The device is open, and the objects of [main] are there. *)
Record qos_ready w (fd : Z) d (ptr buffer : Z) : Prop := {
  qr_fd : demo_fd w fd d;
  qr_limits : exists l, limits_at w ptr l;
  qr_buffer : stack_buffer w buffer
}.

(** Across a call that leaves the table of devices as it is. *)
Lemma qos_ready_rest w w' fd d ptr buffer l :
  at_rest w w' -> devs w' = devs w -> limits_at w' ptr l ->
  qos_ready w fd d ptr buffer -> qos_ready w' fd d ptr buffer.
Proof.
  intros Hrest Hds Hl [Hfd _ [Hb Hm]]. split; [by eapply demo_fd_rest|by exists l|].
  split; [done|]. by rewrite (at_rest_mem _ _ Hrest).
Qed.

Lemma qos_ready_limits w fd d ptr buffer (l : list Z) :
  (4 <= length l)%nat -> qos_ready w fd d ptr buffer ->
  qos_ready (set_w_limits (<[ptr := l]> (w_limits w)) w) fd d ptr buffer.
Proof.
  intros Hlen [[Hi ? ? ? ?] [l0 (Hp & _)] ?]. split; [split; try done; by destruct Hi|exists l|done].
  split_and!; [done|simpl; apply lookup_insert_eq|done].
Qed.

Lemma qos_slot w fd d ptr buffer : qos_ready w fd d ptr buffer -> in_slot w fd d /\ dev_in_use d = true.
Proof. intros [[_ _ (? & ? & Ho) _ _] _ _]. split; [done|apply Ho]. Qed.

Lemma print_limits_eq title ptr l w out :
  limits_at w ptr l ->
  print_limits title ptr (w, out) = Ok tt (w, out ++ limits_lines title (take 4 l)).
Proof.
  intros Hl. unfold print_limits. erewrite bind_ok by apply printf_eq.
  erewrite bind_ok by (by apply call_ok_eq, get_limits_eq).
  do 3 (erewrite bind_ok by apply printf_eq). rewrite printf_eq. by rewrite <- !app_assoc.
Qed.

(** Asking for the limits, and the limits printed. *)
Lemma get_limits_runs w fd d ptr buffer out (Q : Z -> world * list line -> Prop) :
  qos_ready w fd d ptr buffer ->
  (forall w', qos_ready w' fd d ptr buffer ->
     (forall title o, print_limits title ptr (w', o) = Ok tt (w', o ++
        limits_lines title (spdk_bdev_get_qos_rate_limits (w_bdev w) (dev_bdev d)))) ->
     Q XPDK_SUCCESS (w', out)) ->
  eventually (fun fuel n => call (xpdk_qos_get_rate_limits (spdk_turn fuel) n fd ptr)) Q (w, out).
Proof.
  intros Hq HQ. destruct (qos_slot _ _ _ _ _ Hq) as [Hslot Huse].
  pose proof Hq as [[Hidle Hfree _ _ _] [l Hl] _].
  destruct (qos_get_returns w fd d ptr l Hidle Hfree Hslot Huse Hl) as (k & w' & Hr & Hl' & Hds & Hrest).
  set (lim := spdk_bdev_get_qos_rate_limits _ _) in *.
  assert (length lim = 4%nat) as Hlen by apply qos_limits_length.
  assert (limits_at w' ptr (lim ++ drop 4 l)) as Hat.
  { destruct Hl as (Hp & _). split_and!; [done|rewrite Hl'; apply lookup_insert_eq|].
    rewrite length_app. lia. }
  eapply call_returns; [exact Hr|]. apply HQ; [by eapply qos_ready_rest|].
  intros title o. rewrite (print_limits_eq title ptr _ w' o Hat). by rewrite take_app_length'.
Qed.

Definition set_result (rc : Z) : Prop := rc = XPDK_SUCCESS \/ rc = XPDK_ERROR_QOS.

Lemma set_result_error rc : set_result rc -> rc = XPDK_SUCCESS \/ is_error rc.
Proof. intros [->| ->]; [by left|right]. unfold is_error. simpl. auto 9. Qed.

Lemma show_limits_runs w fd d ptr buffer out intro title (Q : unit -> world * list line -> Prop) :
  qos_ready w fd d ptr buffer ->
  (forall w', qos_ready w' fd d ptr buffer ->
     Q tt (w', out ++ (intro, []) :: limits_lines title
                 (spdk_bdev_get_qos_rate_limits (w_bdev w) (dev_bdev d)))) ->
  eventually (fun fuel n => show_limits (spdk_turn fuel) n fd ptr intro title) Q (w, out).
Proof.
  intros Hq HQ. unfold show_limits. eapply eventually_step; [apply printf_eq|].
  apply eventually_bind. apply (get_limits_runs w fd d ptr buffer); [done|]. intros w' Hq' Hpr.
  rewrite decide_False by tauto. eapply eventually_now; [apply Hpr|].
  rewrite <- app_assoc. by apply HQ.
Qed.

Lemma verify_limits_runs w fd d ptr buffer out title (Q : unit -> world * list line -> Prop) :
  qos_ready w fd d ptr buffer ->
  (forall w', qos_ready w' fd d ptr buffer ->
     Q tt (w', out ++ limits_lines title (spdk_bdev_get_qos_rate_limits (w_bdev w) (dev_bdev d)))) ->
  eventually (fun fuel n => verify_limits (spdk_turn fuel) n fd ptr title) Q (w, out).
Proof.
  intros Hq HQ. pose proof Hq as [_ [l Hl] _]. unfold verify_limits.
  eapply eventually_step; [by apply call_ok_eq, put_limits_eq|].
  apply eventually_bind.
  apply (get_limits_runs _ fd d ptr buffer);
    [apply qos_ready_limits; [rewrite length_app; simpl; lia|done]|].
  intros w' Hq' Hpr. rewrite decide_True by done. eapply eventually_now; [apply Hpr|]. by apply HQ.
Qed.

Lemma set_outcome_ready w w' fd d ptr buffer limits rc :
  set_outcome w (dev_bdev d) limits rc w' -> qos_ready w fd d ptr buffer ->
  qos_ready w' fd d ptr buffer /\ set_result rc /\
  (rc = XPDK_SUCCESS -> spdk_bdev_get_qos_rate_limits (w_bdev w') (dev_bdev d) = qos_effective limits).
Proof.
  intros (Hrest & Hds & Hl & Hrc) Hq. pose proof Hq as [_ [l Hat] _]. split; [|split].
  - eapply qos_ready_rest; [done|done| |done]. unfold limits_at in *. by rewrite Hl.
  - unfold set_result. tauto.
  - intros ->. by destruct Hrc as [[_ ?]|?].
Qed.

Lemma enable_simple_runs w fd d ptr buffer out (Q : unit -> world * list line -> Prop) :
  qos_ready w fd d ptr buffer ->
  (forall rc w', set_result rc -> qos_ready w' fd d ptr buffer ->
     (rc = XPDK_SUCCESS -> spdk_bdev_get_qos_rate_limits (w_bdev w') (dev_bdev d) =
        qos_effective [1000; 4194304; 0; 0]) ->
     Q tt (w', out ++ enable_lines rc)) ->
  eventually (fun fuel n => enable_simple (spdk_turn fuel) n fd) Q (w, out).
Proof.
  intros Hq HQ. destruct (qos_slot _ _ _ _ _ Hq) as [Hslot Huse].
  destruct (stack_limits_set w fd d [1000; 4194304; 0; 0]) as (k & rc & w' & Hr & Hset);
    [apply Hq|apply Hq|done|done|done|].
  destruct (set_outcome_ready _ _ _ _ _ _ _ _ Hset Hq) as (Hq' & Hres & Heff).
  specialize (HQ rc w' Hres Hq' Heff). unfold enable_lines in HQ. unfold enable_simple.
  eapply eventually_step; [apply printf_eq|]. apply eventually_bind.
  eapply (call_waits _ k rc w w'); [exact Hr|]. destruct (set_result_error rc Hres) as [->|He].
  - rewrite decide_False in HQ by tauto. rewrite decide_False by tauto.
    eapply eventually_now; [apply printf_eq|]. by rewrite <- app_assoc.
  - destruct (strerror_eq rc (w, out) He) as (_ & _ & Hne & _).
    rewrite decide_True in HQ by done. rewrite decide_True by done.
    eapply eventually_now; [by apply failed_eq|]. by rewrite <- app_assoc.
Qed.

(** The array, filled in. *)
Definition with_limits (ptr : Z) (l : list Z) w : world := set_w_limits (<[ptr := l]> (w_limits w)) w.

Lemma set_limit_eq w ptr l type v :
  ptr <> NULL -> (4 <= length l)%nat ->
  set_limit ptr type v (with_limits ptr l w) =
    Ok tt (with_limits ptr (<[Z.to_nat type := v]> (take 4 l) ++ drop 4 l) w).
Proof.
  intros Hp Hlen. assert (limits_at (with_limits ptr l w) ptr l) as Hat
    by (split_and!; [done|simpl; apply lookup_insert_eq|done]).
  unfold set_limit. rewrite (bind_ok _ _ _ _ _ (get_limits_eq _ ptr l Hat)).
  rewrite (put_limits_eq _ ptr l _ Hat). unfold with_limits. simpl. by rewrite insert_insert_eq.
Qed.

Lemma custom_limits_runs w fd d ptr buffer out (Q : unit -> world * list line -> Prop) :
  qos_ready w fd d ptr buffer ->
  (forall rc l w', set_result rc -> qos_ready w' fd d ptr buffer ->
     (rc = XPDK_SUCCESS -> l = qos_effective [500; 0; 2097152; 1048576]) ->
     Q tt (w', out ++ custom_lines rc l)) ->
  eventually (fun fuel n => custom_limits (spdk_turn fuel) n fd ptr) Q (w, out).
Proof.
  intros Hq HQ. pose proof Hq as [_ [l0 Hl0] _]. pose proof Hl0 as (Hp & _).
  unfold custom_limits. eapply eventually_step; [apply printf_eq|].
  eapply eventually_step; [by apply call_ok_eq, put_limits_eq|].
  change (set_w_limits _ w) with (with_limits ptr ([0; 0; 0; 0] ++ drop 4 l0) w).
  do 3 (eapply eventually_step; [apply call_ok_eq, set_limit_eq; [done|simpl; lia]|]).
  simpl. set (lim := [500; 0; 2097152; 1048576]).
  change (500 :: 0 :: _) with (lim ++ drop 4 l0). rewrite ?drop_0.
  set (w1 := with_limits ptr _ w).
  assert (qos_ready w1 fd d ptr buffer) as Hq1 by (by apply qos_ready_limits; [simpl; lia|]).
  destruct (qos_slot _ _ _ _ _ Hq1) as [Hslot Huse].
  destruct (qos_set_returns w1 fd d ptr (lim ++ drop 4 l0)) as (k & rc & w2 & Hr & Hset);
    [apply Hq1|apply Hq1|done|done|split_and!; [done|simpl; apply lookup_insert_eq|simpl; lia]|].
  destruct (set_outcome_ready _ _ _ _ _ _ _ _ Hset Hq1) as (Hq2 & Hres & Heff).
  specialize (HQ rc). unfold custom_lines in HQ. apply eventually_bind.
  eapply (call_waits _ k rc w1 w2); [exact Hr|]. destruct (set_result_error rc Hres) as [->|He].
  - destruct (decide (XPDK_SUCCESS <> XPDK_SUCCESS)); [done|].
    eapply eventually_step; [apply printf_eq|]. apply (verify_limits_runs w2 fd d ptr buffer); [done|].
    intros w3 Hq3. rewrite <- !app_assoc. apply HQ; [done|done|]. intros _. by apply Heff.
  - destruct (strerror_eq rc (w, out) He) as (_ & _ & Hne & _).
    destruct (decide (rc <> XPDK_SUCCESS)); [|done].
    eapply eventually_now; [by apply failed_eq|]. rewrite <- app_assoc.
    apply (HQ []); [done|done|by intros ->].
Qed.

Lemma disable_limits_runs w fd d ptr buffer out (Q : unit -> world * list line -> Prop) :
  qos_ready w fd d ptr buffer ->
  (forall rc l w', set_result rc -> qos_ready w' fd d ptr buffer ->
     (rc = XPDK_SUCCESS -> l = qos_effective [0; 0; 0; 0]) ->
     Q tt (w', out ++ disable_lines rc l)) ->
  eventually (fun fuel n => disable_limits (spdk_turn fuel) n fd ptr) Q (w, out).
Proof.
  intros Hq HQ. destruct (qos_slot _ _ _ _ _ Hq) as [Hslot Huse].
  destruct (stack_limits_set w fd d [0; 0; 0; 0]) as (k & rc & w' & Hr & Hset);
    [apply Hq|apply Hq|done|done|done|].
  destruct (set_outcome_ready _ _ _ _ _ _ _ _ Hset Hq) as (Hq' & Hres & Heff).
  specialize (HQ rc). unfold disable_lines in HQ. unfold disable_limits.
  eapply eventually_step; [apply printf_eq|]. apply eventually_bind.
  eapply (call_waits _ k rc w w'); [exact Hr|]. destruct (set_result_error rc Hres) as [->|He].
  - destruct (decide (XPDK_SUCCESS <> XPDK_SUCCESS)); [done|].
    eapply eventually_step; [apply printf_eq|]. apply (verify_limits_runs w' fd d ptr buffer); [done|].
    intros w3 Hq3. rewrite <- !app_assoc. apply HQ; [done|done|]. intros _. by apply Heff.
  - destruct (strerror_eq rc (w, out) He) as (_ & _ & Hne & _).
    destruct (decide (rc <> XPDK_SUCCESS)); [|done].
    eapply eventually_now; [by apply failed_eq|]. rewrite <- app_assoc.
    apply (HQ []); [done|done|by intros ->].
Qed.

Lemma io_line rc good bad w out :
  transfer_rc rc ->
  (if decide (rc <> data_size) then failed bad (to_int rc) else printf good [ANum rc]) (w, out) =
    Ok tt (w, out ++ [if decide (rc <> data_size) then (bad, [AStr (error_text rc)])
                      else (good, [ANum rc])]).
Proof.
  intros Hio. destruct (transfer_rc_error rc Hio) as [->|He].
  - by rewrite !decide_False by tauto.
  - destruct (strerror_eq rc (w, out) He) as (Hi & Hneg & _). pose proof data_size_eq.
    rewrite !decide_True by lia. rewrite Hi. by apply failed_eq.
Qed.

Lemma qos_ready_settled w w' fd d ptr buffer :
  settled w w' -> (forall a n, mapped (w_mem w) a n -> mapped (w_mem w') a n) ->
  qos_ready w fd d ptr buffer -> qos_ready w' fd d ptr buffer.
Proof.
  intros Hs Hm [Hfd [l Hl] [Hb Hmb]]. split; [by eapply demo_fd_settled|exists l|split; auto].
  unfold limits_at in *. by rewrite (settled_limits _ _ Hs).
Qed.

(** The buffer is filled with one value. *)
Lemma memset_ready w fd d ptr buffer c :
  qos_ready w fd d ptr buffer ->
  exists w1, memset buffer c data_size w = Ok tt w1 /\ qos_ready w1 fd d ptr buffer.
Proof.
  intros Hq. pose proof Hq as [Hfd _ [Hb Hm]]. eexists. split; [by apply memset_eq|].
  eapply qos_ready_settled; [|intros; by apply mapped_write|done].
  apply settled_mem; [apply Hfd|]. intros. by apply mapped_write.
Qed.

Lemma limited_io_runs w fd d ptr buffer out (Q : unit -> world * list line -> Prop) :
  qos_ready w fd d ptr buffer ->
  (forall wr rd w', transfer_rc wr -> transfer_rc rd -> qos_ready w' fd d ptr buffer ->
     Q tt (w', out ++ limited_io_lines wr rd)) ->
  eventually (fun fuel n => limited_io (spdk_turn fuel) n fd buffer) Q (w, out).
Proof.
  intros Hq HQ. destruct (memset_ready w fd d ptr buffer xab Hq) as (w1 & E1 & Hq1).
  unfold limited_io. eapply eventually_step; [apply printf_eq|].
  eapply eventually_step; [by apply call_ok_eq|]. eapply eventually_step; [apply printf_eq|].
  pose proof Hq1 as [[? ? ? ? ?] _ [Hb Hm1]].
  destruct (proj1 (load_bytes_mapped _ _ _) Hm1) as [data Hdata].
  destruct (write_returns w1 fd d buffer data_size 0 data)
    as (k & st & w2 & Hr & (Hst & Hm2 & _) & _ & Hs2); [done..|by split|done|].
  destruct (transfer_result st Hst) as [Hwr _].
  assert (qos_ready w2 fd d ptr buffer) as Hq2
    by (eapply qos_ready_settled; [done| |done]; intros a n; by rewrite Hm2).
  apply eventually_bind. eapply call_returns; [exact Hr|]. clear Hr. set (wr := if decide _ then _ else _) in *.
  eapply eventually_step; [by apply io_line|]. eapply eventually_step; [apply printf_eq|].
  destruct (memset_ready w2 fd d ptr buffer x00 Hq2) as (w3 & E3 & Hq3).
  eapply eventually_step; [by apply call_ok_eq|]. pose proof Hq3 as [[? ? ? ? ?] _ [_ Hm3]].
  destruct (read_returns w3 fd d buffer data_size 0) as (k' & st' & w4 & Hr & Hout & _ & Hs4);
    [done..|by split|].
  destruct (transfer_result st' ltac:(destruct (read_outcome_status _ _ _ _ _ _ _ _ Hout); tauto))
    as [Hrd _].
  apply eventually_bind. eapply call_returns; [exact Hr|].
  eapply eventually_now; [by apply io_line|]. rewrite <- !app_assoc. apply HQ; [done|done|].
  eapply qos_ready_settled; [done| |done]. intros a n Han. by eapply read_outcome_mapped.
Qed.

(** ** The program *)

Open Scope string_scope.

Definition found_line (i : xpdk_bdev_info) : line :=
  ("  %s: %lu blocks, %lu bytes each\n",
    [AStr (bi_name i); ANum (bi_num_blocks i); ANum (bi_block_size i)]).

Definition found_lines (found : list Z) : list line :=
  ("Found %d block devices:\n", [ANum (Z.of_nat (length found))]) ::
  (found_line <$> (bdev_info <$> found)).

(** The output after the title, for the devices SPDK enumerates: the program stops when there
    is none or when the first cannot be opened; otherwise it goes through every step.  Limits
    that were set are the ones shown next. *)
Inductive qos_transcript : list Z -> Z -> list line -> Prop :=
| qos_none : qos_transcript [] 1 [("No block devices found\n", [])]
| qos_not_opened bd found name rc :
    name = bi_name (bdev_info bd) -> rc = XPDK_ERROR_NODEV \/ rc = XPDK_ERROR_IO ->
    qos_transcript (bd :: found) 1 (found_lines (bd :: found) ++
      [("\nOpening device: %s\n", [AStr name]);
       ("Failed to open device %s: %s\n", [AStr name; AStr (error_text rc)])])%list
| qos_done bd found name l0 rc1 l1 wr rd rc2 l2 rc3 l3 :
    name = bi_name (bdev_info bd) -> set_result rc1 -> set_result rc2 -> set_result rc3 ->
    transfer_rc wr -> transfer_rc rd ->
    (rc1 = XPDK_SUCCESS -> l1 = qos_effective [1000; 4194304; 0; 0]) ->
    (rc2 = XPDK_SUCCESS -> l2 = qos_effective [500; 0; 2097152; 1048576]) ->
    (rc3 = XPDK_SUCCESS -> l3 = qos_effective [0; 0; 0; 0]) ->
    qos_transcript (bd :: found) 0 (found_lines (bd :: found) ++
      [("\nOpening device: %s\n", [AStr name])] ++
      ("\nGetting current QoS limits...\n", []) :: limits_lines "Current QoS limits:\n" l0 ++
      enable_lines rc1 ++
      ("\nVerifying QoS limits...\n", []) :: limits_lines "Updated QoS limits:\n" l1 ++
      limited_io_lines wr rd ++ custom_lines rc2 l2 ++ disable_lines rc3 l3 ++
      [("\nQoS example completed successfully\n", [])])%list.

Lemma print_found_eq devices l : forall n i w out,
  w_infos w !! devices = Some l -> (i + n <= length l)%nat ->
  print_found devices n i (w, out) = Ok tt (w, out ++ (found_line <$> take n (drop i l)))%list.
Proof.
  induction n as [|n IH]; intros i w out Hl Hn; simpl.
  - by rewrite app_nil_r.
  - destruct (lookup_lt_is_Some_2 l i) as [x Hx]; [lia|].
    rewrite (bind_ok _ _ _ _ _ (call_ok_eq _ _ _ _ out (info_at_eq w devices i l x Hl Hx))).
    erewrite bind_ok by apply printf_eq. rewrite (IH (S i)) by (done || lia).
    rewrite (drop_S l x i Hx), firstn_cons, fmap_cons. by rewrite <- app_assoc.
Qed.

(** From the opened device to the end. *)
Lemma qos_session_runs w fd d ptr buffer out bd found name (Q : Z -> world * list line -> Prop) :
  qos_ready w fd d ptr buffer -> name = bi_name (bdev_info bd) ->
  (forall w' lines, down w' -> qos_transcript (bd :: found) 0
       (found_lines (bd :: found) ++ [("\nOpening device: %s\n", [AStr name])] ++ lines)%list ->
     Q 0 (w', out ++ lines)%list) ->
  eventually (fun fuel n => qos_session (spdk_turn fuel) n fd ptr buffer) Q (w, out).
Proof.
  intros Hq Hname HQ. apply eventually_bind. apply (show_limits_runs w fd d ptr buffer); [done|].
  intros w1 Hq1. apply eventually_bind. apply (enable_simple_runs w1 fd d ptr buffer); [done|].
  intros rc1 w2 H1 Hq2 Hl1. apply eventually_bind.
  apply (show_limits_runs w2 fd d ptr buffer); [done|]. intros w3 Hq3. apply eventually_bind.
  apply (limited_io_runs w3 fd d ptr buffer); [done|]. intros wr rd w4 Hwr Hrd Hq4.
  apply eventually_bind. apply (custom_limits_runs w4 fd d ptr buffer); [done|].
  intros rc2 l2 w5 H2 Hq5 Hl2. apply eventually_bind.
  apply (disable_limits_runs w5 fd d ptr buffer); [done|]. intros rc3 l3 w6 H3 Hq6 Hl3.
  destruct (qos_slot _ _ _ _ _ Hq6) as [Hslot Huse].
  destruct (close_returns w6 fd d) as (k & w7 & Hr & _ & Hrest); [apply Hq6|apply Hq6|done|done|].
  apply eventually_bind. eapply call_returns; [exact Hr|]. rewrite decide_False by tauto.
  eapply eventually_step; [done|]. apply eventually_bind.
  apply cleanup_down; [apply Hrest|rewrite (at_rest_free _ _ Hrest); apply Hq6|].
  intros w8 Hdown _ _ _. eapply eventually_step; [apply printf_eq|]. apply eventually_ret.
  rewrite <- !app_assoc. apply HQ; [done|]. by eapply qos_done.
Qed.

(** From the list of devices to the end. *)
Lemma qos_devices_runs w l devices ptr buffer out bd found (Q : Z -> world * list line -> Prop) :
  started w -> w_infos w !! devices = Some ((bdev_info <$> (bd :: found)) ++ l)%list ->
  (exists l0, limits_at w ptr l0) -> stack_buffer w buffer -> (forall bd, fits bd) ->
  (forall code w' lines, down w' -> qos_transcript (bd :: found) code lines ->
     Q code (w', out ++ lines)%list) ->
  eventually (fun fuel n => qos_devices (spdk_turn fuel) n devices
    (Z.of_nat (length (bd :: found))) ptr buffer) Q (w, out).
Proof.
  intros Hst Hinf [l0 Hl0] [Hb Hm] Hfits HQ. pose proof Hst as [[Hidle Hfree _] _]. unfold qos_devices.
  eapply eventually_step; [apply printf_eq|]. eapply eventually_step.
  { eapply (print_found_eq devices _ _ 0); [exact Hinf|]. rewrite length_app, length_fmap. lia. }
  rewrite drop_0, Nat2Z.id, take_app_length' by (by rewrite length_fmap).
  eapply eventually_step; [by apply call_ok_eq; eapply (info_at_eq _ _ 0)|].
  eapply eventually_step; [apply printf_eq|].
  set (name := bi_name (bdev_info bd)). set (o := (((out ++ _) ++ _) ++ _)%list).
  destruct (open_returns w name O_RDWR Hidle Hfree) as (k & rc & w1 & Hr & Hout & Hrest & _ & Hlim & _).
  apply eventually_bind. eapply call_waits; [exact Hr|].
  destruct (opened_demo_fd w w1 name rc Hst Hrest Hout (Hfits _))
    as [(d & Hpos & Hfd & _ & _)|[He Hrc]].
  - destruct (decide (rc < 0)); [lia|]. apply (qos_session_runs w1 rc d ptr buffer _ bd found name).
    + split; [done|exists l0; unfold limits_at in *; by rewrite Hlim|].
      split; [done|by rewrite (at_rest_mem _ _ Hrest)].
    + done.
    + intros w2 lines Hdown Htr. unfold o. rewrite <- !app_assoc. by apply HQ.
  - destruct (strerror_eq rc (w1, o) He) as (_ & Hneg & _ & Hs). destruct (decide (rc < 0)); [|lia].
    eapply eventually_step; [exact Hs|]. eapply eventually_step; [apply printf_eq|].
    apply eventually_bind. apply cleanup_down; [apply Hrest|by rewrite (at_rest_free _ _ Hrest)|].
    intros w2 Hdown _ _ _. apply eventually_ret. unfold o. rewrite <- !app_assoc. apply HQ; [done|].
    apply (qos_not_opened bd found name rc); [done|]. tauto.
Qed.

Close Scope string_scope.
End QosProgramCorrect.

(** ** The program on the simulated environment *)

Definition sim_qos_world : world :=
  sim_client_world (<[71000 := replicate 16 sim_info]> ∅) (<[40000 := [7; 7; 7; 7]]> ∅) sim_stack.

