(* ===== verification/VectoredProgram.v ===== *)
(** examples/vectored_example.c: segments written and read back, statistics, a buffer and a trim,
    from a client's side. *)

From stdpp Require Import base gmap list strings.
From Stdlib Require Import Strings.Byte.
From S2P Require Import Prelude Types Memory Spdk World Sim Core Blocks Perf Bdev Qos Io.
From S2P Require Import Async Vectored Batch Poller Idle IoCorrect SyncIo Devices Session.
From S2P Require Import Services Lifecycle Pending VectoredCorrect Eventually Programs ProgramsCorrect.

Open Scope Z_scope.

(** The objects on the stack of [main]: the array of devices, the segments to write and to read,
    the arrays of the two, and the statistics. *)
Record vectored_stack := Build_vectored_stack {
  vs_devices : Z;
  vs_buffer1 : Z;
  vs_buffer2 : Z;
  vs_buffer3 : Z;
  vs_read_buffer1 : Z;
  vs_read_buffer2 : Z;
  vs_read_buffer3 : Z;
  vs_write_iov : Z;
  vs_read_iov : Z;
  vs_stats : Z
}.

Section VectoredProgram.
Context `{Spdk}.
Variable bt : boot.
Variable sched_yield : MW unit.
Variable fuel : nat.
Variable vs : vectored_stack.

Open Scope string_scope.

(** [struct xpdk_iovec iov[3] = { ... };] with segments of 1024, 2048 and 512 bytes. *)
Definition three_segments (b1 b2 b3 : Z) : list xpdk_iovec :=
  [Build_iovec b1 1024; Build_iovec b2 2048; Build_iovec b3 512].

Definition init_iov (iov : Z) (l : list xpdk_iovec) : MW unit :=
  modify (fun w => set_w_iovs (<[iov := l]> (w_iovs w)) w).

(** The three buffers are filled. *)
Definition fill_segments (b1 b2 b3 : Z) (c1 c2 c3 : byte) : MW unit :=
  memset b1 c1 1024 ;; memset b2 c2 2048 ;; memset b3 c3 512.

(** Lines 43-69; ['A'], ['B'] and ['C']. *)
Definition vectored_write_test (fd : Z) : MP unit :=
  printf "\n=== Vectored Write Test ===\n" [] ;;
  call (fill_segments (vs_buffer1 vs) (vs_buffer2 vs) (vs_buffer3 vs) x41 x42 x43) ;;
  call (init_iov (vs_write_iov vs)
    (three_segments (vs_buffer1 vs) (vs_buffer2 vs) (vs_buffer3 vs))) ;;
  let* l := call (get_iovs (vs_write_iov vs) 3) in
  printf "Writing vectored data: %zu + %zu + %zu = %zu bytes\n"
    ((ANum ∘ iov_len <$> l) ++ [ANum (iovec_size 0 l)])%list ;;
  let* bytes_written := call (xpdk_writev sched_yield fuel fd (vs_write_iov vs) 3 0) in
  if decide (bytes_written < 0) then failed "Vectored write failed: %s\n" (to_int bytes_written)
  else printf "Vectored write successful: %zd bytes\n" [ANum bytes_written].

(** The loop over a buffer: it stops at the first byte that is not [c]. *)
Fixpoint check_bytes (a : Z) (c : byte) (n : nat) : MW bool :=
  match n with
  | O => ret true
  | S n =>
      let* b := load a 1 in
      if decide (b = [c]) then check_bytes (a + 1) c n else ret false
  end.

(** Lines 93-118: every buffer is looked at. *)
Definition verify_segments : MP bool :=
  let* ok1 := call (check_bytes (vs_read_buffer1 vs) x41 1024) in
  let* ok2 := call (check_bytes (vs_read_buffer2 vs) x42 2048) in
  let* ok3 := call (check_bytes (vs_read_buffer3 vs) x43 512) in
  ret (ok1 && ok2 && ok3).

(** Lines 71-119. *)
Definition vectored_read_test (fd : Z) : MP unit :=
  printf "\n=== Vectored Read Test ===\n" [] ;;
  call (fill_segments (vs_read_buffer1 vs) (vs_read_buffer2 vs) (vs_read_buffer3 vs) x00 x00 x00) ;;
  call (init_iov (vs_read_iov vs)
    (three_segments (vs_read_buffer1 vs) (vs_read_buffer2 vs) (vs_read_buffer3 vs))) ;;
  let* bytes_read := call (xpdk_readv sched_yield fuel fd (vs_read_iov vs) 3 0) in
  if decide (bytes_read < 0) then failed "Vectored read failed: %s\n" (to_int bytes_read)
  else
    printf "Vectored read successful: %zd bytes\n" [ANum bytes_read] ;;
    let* verify_ok := verify_segments in
    printf "Data integrity check: %s\n" [AStr (if (verify_ok : bool) then "PASSED" else "FAILED")].

(** [stats], the structure at its address. *)
Definition get_stats (stats : Z) : MW xpdk_perf_stats :=
  let* w := get in from_some BadAddress (w_stats w !! stats).

(** Lines 126-135. *)
Definition print_stats (s : xpdk_perf_stats) : MP unit :=
  printf "Performance Statistics:\n" [] ;;
  printf "  Total Read Ops:    %lu\n" [ANum (ps_total_read_ops s)] ;;
  printf "  Total Write Ops:   %lu\n" [ANum (ps_total_write_ops s)] ;;
  printf "  Total Bytes Read:  %lu\n" [ANum (ps_total_bytes_read s)] ;;
  printf "  Total Bytes Written: %lu\n" [ANum (ps_total_bytes_written s)] ;;
  printf "  Avg Read Latency:  %lu us\n" [ANum (ps_avg_read_latency_us s)] ;;
  printf "  Avg Write Latency: %lu us\n" [ANum (ps_avg_write_latency_us s)] ;;
  printf "  Current IOPS:      %lu\n" [ANum (ps_current_iops s)] ;;
  printf "  Current Bandwidth: %lu bytes/sec\n" [ANum (ps_current_bandwidth s)] ;;
  printf "  Errors:            %lu\n" [ANum (ps_errors s)].

(** Lines 121-138. *)
Definition stats_test (fd : Z) : MP unit :=
  printf "\n=== Performance Statistics ===\n" [] ;;
  let* rc := call (xpdk_get_perf_stats sched_yield fuel fd (vs_stats vs)) in
  if decide (rc = XPDK_SUCCESS) then
    let* s := call (get_stats (vs_stats vs)) in print_stats s
  else failed "Failed to get performance statistics: %s\n" rc.

(** Lines 140-154. *)
Definition buffer_test : MP unit :=
  printf "\n=== Buffer Allocation Test ===\n" [] ;;
  let* aligned_buffer := call (xpdk_alloc_buffer 8192 4096) in
  if decide (aligned_buffer <> NULL) then
    printf "Successfully allocated 8KB aligned buffer\n" [] ;;
    call (memset aligned_buffer xaa 8192) ;;
    printf "Buffer test: filled with pattern\n" [] ;;
    call (xpdk_free_buffer aligned_buffer) ;;
    printf "Buffer freed successfully\n" []
  else printf "Failed to allocate aligned buffer\n" [].

(** Lines 156-163. *)
Definition trim_test (fd : Z) : MP unit :=
  printf "\n=== Trim Operation Test ===\n" [] ;;
  let* rc := call (xpdk_trim sched_yield fuel fd 0 4096) in
  if decide (rc = XPDK_SUCCESS) then printf "Trim operation successful\n" []
  else failed "Trim operation failed: %s\n" rc.

(** Lines 165-175. *)
Definition finish_example (fd : Z) : MP Z :=
  let* rc := call (xpdk_close sched_yield fuel fd) in
  (if decide (rc <> XPDK_SUCCESS) then failed "Failed to close device: %s\n" rc else ret tt) ;;
  call (xpdk_cleanup sched_yield fuel) ;;
  printf "\nVectored I/O example completed successfully\n" [] ;;
  ret 0.

(** Lines 42-175: with the device open. *)
Definition vectored_session (fd : Z) : MP Z :=
  vectored_write_test fd ;;
  vectored_read_test fd ;;
  stats_test fd ;;
  buffer_test ;;
  trim_test fd ;;
  finish_example fd.

Definition vectored_example : MP Z :=
  printf "=== XPDK Vectored I/O Example ===\n" [] ;;
  let* rc := call (xpdk_init_opts bt fuel (Some (xpdk_opts_init opts_zero))) in
  if decide (rc <> XPDK_SUCCESS) then
    failed "Failed to initialize XPDK: %s\n" rc ;;
    ret 1
  else
    let* num_devices := call (xpdk_list_bdevs sched_yield fuel (vs_devices vs) 16) in
    if decide (num_devices <= 0) then
      printf "No block devices found\n" [] ;;
      call (xpdk_cleanup sched_yield fuel) ;;
      ret 1
    else
      let* d0 := call (info_at (vs_devices vs) 0) in
      printf "Found %d devices, using: %s\n" [ANum num_devices; AStr (bi_name d0)] ;;
      let* fd := call (xpdk_open sched_yield fuel (Some (bi_name d0)) O_RDWR) in
      if decide (fd < 0) then
        failed "Failed to open device: %s\n" fd ;;
        call (xpdk_cleanup sched_yield fuel) ;;
        ret 1
      else vectored_session fd.
End VectoredProgram.

Section VectoredProgramCorrect.
Context `{SpdkLaws}.
Implicit Types (w : world) (d : xpdk_device) (out : list line) (vs : vectored_stack).

Abbreviation devs w := (ctx_devices (w_g w)).

(** ** Segments *)

Definition segment_data (c1 c2 c3 : byte) : list byte :=
  replicate (Z.to_nat 1024) c1 ++ replicate (Z.to_nat 2048) c2 ++ replicate (Z.to_nat 512) c3.

(** The number of bytes of the segments. *)
Definition segments_size : Z := 3584.

Lemma segments_total b1 b2 b3 : iov_total (three_segments b1 b2 b3) = segments_size.
Proof. reflexivity. Qed.

Lemma segments_lengths b1 b2 b3 : Forall (fun v => 0 <= iov_len v) (three_segments b1 b2 b3).
Proof. by repeat constructor. Qed.

Lemma segment_data_length c1 c2 c3 : Z.of_nat (length (segment_data c1 c2 c3)) = segments_size.
Proof. unfold segment_data, segments_size. rewrite !length_app, !length_replicate. lia. Qed.

Lemma fill_segments_eq w b1 b2 b3 c1 c2 c3 :
  iov_mapped (w_mem w) (three_segments b1 b2 b3) ->
  fill_segments b1 b2 b3 c1 c2 c3 w =
    Ok tt (set_w_mem (iov_fill (w_mem w) (three_segments b1 b2 b3) (segment_data c1 c2 c3)) w).
Proof.
  intros Hm. apply Forall_cons in Hm as [H1 Hm]. apply Forall_cons in Hm as [H2 Hm].
  apply Forall_cons in Hm as [H3 _]. cbn [iov_base iov_len] in *. unfold fill_segments.
  rewrite (bind_ok _ _ _ _ _ (memset_eq w b1 c1 1024 H1)). set (w1 := set_w_mem _ w).
  rewrite (bind_ok _ _ _ _ _ (memset_eq w1 b2 c2 2048 (mapped_write _ _ _ _ _ H2))).
  set (w2 := set_w_mem _ w1).
  rewrite (memset_eq w2 b3 c3 512 (mapped_write _ _ _ _ _ (mapped_write _ _ _ _ _ H3))).
  unfold three_segments, segment_data. cbn [iov_fill iov_base iov_len].
  rewrite take_app_length', drop_app_length' by (by rewrite length_replicate).
  rewrite take_app_length', drop_app_length' by (by rewrite length_replicate).
  rewrite take_ge by (by rewrite length_replicate). reflexivity.
Qed.

(** The bytes of the segments, one by one. *)
Lemma segments_loads m b1 b2 b3 c1 c2 c3 :
  iov_bytes m (three_segments b1 b2 b3) = Some (segment_data c1 c2 c3) ->
  load_bytes m b1 (Z.to_nat 1024) = Some (replicate (Z.to_nat 1024) c1) /\
  load_bytes m b2 (Z.to_nat 2048) = Some (replicate (Z.to_nat 2048) c2) /\
  load_bytes m b3 (Z.to_nat 512) = Some (replicate (Z.to_nat 512) c3).
Proof.
  unfold three_segments, segment_data. cbn [iov_bytes iov_base iov_len]. intros Hb.
  destruct (load_bytes m b1 _) as [x1|] eqn:E1; cbn [mbind option_bind] in Hb; [|done].
  destruct (load_bytes m b2 _) as [x2|] eqn:E2; cbn [mbind option_bind] in Hb; [|done].
  destruct (load_bytes m b3 _) as [x3|] eqn:E3; cbn [mbind option_bind] in Hb; [|done].
  apply load_bytes_length in E1, E2, E3. apply (inj Some) in Hb.
  apply app_inj_1 in Hb as [-> Hb]; [|by rewrite length_replicate].
  apply app_inj_1 in Hb as [-> Hb]; [|by rewrite length_replicate].
  rewrite app_nil_r in Hb. by rewrite Hb.
Qed.

(** The loop over a buffer. *)
Lemma check_bytes_eq w c n : forall a bs,
  load_bytes (w_mem w) a n = Some bs -> check_bytes a c n w = Ok (bool_decide (bs = replicate n c)) w.
Proof.
  induction n as [|n IH]; intros a bs Hb.
  - injection Hb as <-. done.
  - cbn [load_bytes] in Hb. destruct (w_mem w !! a) as [b|] eqn:E; simpl in Hb; [|done].
    destruct (load_bytes (w_mem w) (a + 1) n) as [cs|] eqn:Ec; simpl in Hb; [|done].
    injection Hb as <-. cbn [check_bytes].
    assert (load_bytes (w_mem w) a (Z.to_nat 1) = Some [b]) as H1 by (simpl; by rewrite E).
    rewrite (bind_ok _ _ _ _ _ (load_eq w a 1 [b] H1)). destruct (decide ([b] = [c])) as [Hd|Hd].
    + injection Hd as ->. rewrite (IH (a + 1) cs Ec). f_equal. apply bool_decide_ext.
      simpl. naive_solver.
    + rewrite bool_decide_eq_false_2; [done|]. simpl. intros [= ->]. done.
Qed.

(** ** The objects of [main] *)

Definition write_segments vs : list xpdk_iovec :=
  three_segments (vs_buffer1 vs) (vs_buffer2 vs) (vs_buffer3 vs).

Definition read_segments vs : list xpdk_iovec :=
  three_segments (vs_read_buffer1 vs) (vs_read_buffer2 vs) (vs_read_buffer3 vs).

(** Where they are ... *)
Record stack_ok vs : Prop := {
  so_write : iov_disjoint (write_segments vs);
  so_read : iov_disjoint (read_segments vs);
  so_write_iov : vs_write_iov vs <> NULL;
  so_read_iov : vs_read_iov vs <> NULL;
  so_stats : vs_stats vs <> NULL;
  so_devices : vs_devices vs <> NULL
}.

(** ... and that they are there. *)
Record objects w vs : Prop := {
  ob_write : iov_mapped (w_mem w) (write_segments vs);
  ob_read : iov_mapped (w_mem w) (read_segments vs);
  ob_stats : is_Some (w_stats w !! vs_stats vs)
}.

Lemma objects_kept w w' vs :
  (forall a n, mapped (w_mem w) a n -> mapped (w_mem w') a n) -> w_stats w' = w_stats w ->
  objects w vs -> objects w' vs.
Proof.
  intros Hm Hs [H1 H2 H3].
  split; [eapply Forall_impl; [exact H1|]; auto|eapply Forall_impl; [exact H2|]; auto|by rewrite Hs].
Qed.

(** A device to test, and the objects. *)
Definition ready_to_test w fd d vs : Prop :=
  demo_fd w fd d /\ objects w vs /\ only_open w fd.

Lemma ready_settled w w' fd d vs :
  settled w w' -> (forall a n, mapped (w_mem w) a n -> mapped (w_mem w') a n) ->
  ready_to_test w fd d vs -> ready_to_test w' fd d vs.
Proof.
  intros Hs Hm (Hfd & Ho & Hon). split_and!; [by eapply demo_fd_settled| |].
  - apply (objects_kept w); [done|apply Hs|done].
  - unfold only_open. by rewrite (settled_devices _ _ Hs).
Qed.

(** The world when the three buffers are filled and their array is set up. *)
Definition with_segments (iov : Z) (l : list xpdk_iovec) (bs : list byte) w : world :=
  set_w_iovs (<[iov := l]> (w_iovs w)) (set_w_mem (iov_fill (w_mem w) l bs) w).

Lemma with_segments_ready iov l bs w fd d vs :
  ready_to_test w fd d vs -> ready_to_test (with_segments iov l bs w) fd d vs.
Proof.
  intros ([Hidle Hfree Hopen Hfl Hsm] & Ho & Hon). split_and!; [| |done].
  - split; try done. destruct Hidle as [? ? ? ? ? ? ? Hdma]. split; try done. intros a n Ha.
    destruct (Hdma a n Ha). split; [done|by apply mapped_fill].
  - apply (objects_kept w); [|done|done]. intros. by apply mapped_fill.
Qed.

(** The array is one for a transfer. *)
Lemma with_segments_valid iov b1 b2 b3 bs w fd d vs :
  ready_to_test w fd d vs -> iov <> NULL -> iov_mapped (w_mem w) (three_segments b1 b2 b3) ->
  valid_iov (with_segments iov (three_segments b1 b2 b3) bs w) d iov 3 (three_segments b1 b2 b3).
Proof.
  intros [[_ _ _ _ Hsm] _] Hne Hm. rewrite data_size_eq in Hsm. split; try done.
  - exists (three_segments b1 b2 b3). simpl. split_and!; [apply lookup_insert_eq|done|done].
  - apply segments_lengths.
  - rewrite segments_total. unfold segments_size. lia.
  - eapply Forall_impl; [exact Hm|]. intros v Hv. by apply mapped_fill.
Qed.

(** ** The tests *)

Open Scope string_scope.

Definition transfer_lines (failed_format ok_format : string) (rc : Z) : list line :=
  [if decide (rc < 0) then (failed_format, [AStr (error_text rc)]) else (ok_format, [ANum rc])].

Definition vwrite_lines (rc : Z) : list line :=
  (("\n=== Vectored Write Test ===\n", []) ::
   ("Writing vectored data: %zu + %zu + %zu = %zu bytes\n",
     [ANum 1024; ANum 2048; ANum 512; ANum segments_size]) ::
   transfer_lines "Vectored write failed: %s\n" "Vectored write successful: %zd bytes\n" rc)%list.

Definition vread_lines (rc : Z) (ok : bool) : list line :=
  (("\n=== Vectored Read Test ===\n", []) ::
   transfer_lines "Vectored read failed: %s\n" "Vectored read successful: %zd bytes\n" rc ++
   (if decide (rc < 0) then []
    else [("Data integrity check: %s\n", [AStr (if ok then "PASSED" else "FAILED")])]))%list.

Close Scope string_scope.

(** What a transfer of the segments returns. *)
Definition segments_rc (rc : Z) : Prop :=
  rc = segments_size \/ rc = XPDK_ERROR_IO \/ rc = XPDK_ERROR_NOMEM.

Lemma segments_result st :
  st = XPDK_SUCCESS \/ st = XPDK_ERROR_IO \/ st = XPDK_ERROR_NOMEM ->
  let rc := if decide (st = XPDK_SUCCESS) then segments_size else st in
  segments_rc rc /\ (rc = segments_size <-> st = XPDK_SUCCESS) /\
  (rc < 0 <-> st <> XPDK_SUCCESS) /\ (st <> XPDK_SUCCESS -> is_error rc).
Proof.
  unfold segments_rc, is_error, segments_size. intros [->|[->| ->]]; simpl; split_and!; auto;
    try split; try done; intros; tauto.
Qed.

(** The data of the write test. *)
Definition test_data : list byte := segment_data x41 x42 x43.

Lemma write_test_runs w out fd d vs (Q : unit -> world * list line -> Prop) :
  stack_ok vs -> ready_to_test w fd d vs ->
  (forall wr w', segments_rc wr -> ready_to_test w' fd d vs ->
     (wr = segments_size ->
      medium_bytes (medium (w_bdev w') (dev_bdev d)) 0 (Z.to_nat segments_size) = test_data) ->
     Q tt (w', out ++ vwrite_lines wr)) ->
  eventually (fun fuel n => vectored_write_test (spdk_turn fuel) n vs fd) Q (w, out).
Proof.
  intros Hvs Hr HQ. pose proof Hr as (_ & [Hmw _ _] & _).
  set (w1 := with_segments (vs_write_iov vs) (write_segments vs) test_data w).
  pose proof (with_segments_ready (vs_write_iov vs) (write_segments vs) test_data w fd d vs Hr) as Hr1.
  pose proof (with_segments_valid (vs_write_iov vs) _ _ _ test_data w fd d vs Hr
    (so_write_iov _ Hvs) Hmw) as Hv. fold (write_segments vs) in Hv. fold w1 in Hr1, Hv.
  assert (iov_bytes (w_mem w1) (write_segments vs) = Some test_data) as Hdata.
  { apply iov_bytes_fill; [apply segments_lengths|apply Hvs|apply segment_data_length]. }
  destruct (writev_returns w1 fd d (vs_write_iov vs) 3 0 (write_segments vs) test_data)
    as (k & st & w2 & Hw & (Hst & Hm2 & _) & He & Hs2); [apply Hr1..|done|done|].
  destruct (segments_result st Hst) as (Hrc & Hok & Hneg & Herr). change (iov_total (write_segments vs)) with segments_size in *.
  set (wr := if decide (st = XPDK_SUCCESS) then segments_size else st) in *.
  assert (Q tt (w2, out ++ vwrite_lines wr)) as HQ'.
  { apply HQ; [done| |].
    - apply (ready_settled w1); [done|by rewrite Hm2|done].
    - intros E. apply Hok in E as ->. rewrite <- (start_of_0 d).
      apply (write_then_read_medium w1); [|done]. pose proof (segment_data_length x41 x42 x43).
      fold test_data in *. lia. }
  unfold vectored_write_test. eapply eventually_step; [apply printf_eq|].
  eapply eventually_step; [by apply call_ok_eq, fill_segments_eq|].
  eapply eventually_step; [by apply call_ok_eq|]. fold w1.
  eapply eventually_step.
  { apply call_ok_eq. exact (valid_iov_get w1 d (vs_write_iov vs) 3 _ w1 Hv eq_refl). }
  eapply eventually_step; [apply printf_eq|]. apply eventually_bind.
  eapply call_returns; [exact Hw|]. fold wr. unfold vwrite_lines, transfer_lines in HQ'.
  destruct (decide (wr < 0)) as [Hlt|Hge].
  - specialize (Herr (proj1 Hneg Hlt)). destruct (strerror_eq wr (w, out) Herr) as (Hi & _).
    rewrite Hi. eapply eventually_now; [by apply failed_eq|]. by rewrite <- !app_assoc.
  - eapply eventually_now; [apply printf_eq|]. by rewrite <- !app_assoc.
Qed.

Lemma verify_segments_eq w out vs bs :
  iov_bytes (w_mem w) (read_segments vs) = Some bs -> Z.of_nat (length bs) = segments_size ->
  exists ok, verify_segments vs (w, out) = Ok ok (w, out) /\ (bs = test_data -> ok = true).
Proof.
  intros Hb Hlen. unfold read_segments, three_segments in Hb. cbn [iov_bytes iov_base iov_len] in Hb.
  destruct (load_bytes _ (vs_read_buffer1 vs) _) as [x1|] eqn:E1; cbn [mbind option_bind] in Hb; [|done].
  destruct (load_bytes _ (vs_read_buffer2 vs) _) as [x2|] eqn:E2; cbn [mbind option_bind] in Hb; [|done].
  destruct (load_bytes _ (vs_read_buffer3 vs) _) as [x3|] eqn:E3; cbn [mbind option_bind] in Hb; [|done].
  exists (bool_decide (x1 = replicate (Z.to_nat 1024) x41) &&
    bool_decide (x2 = replicate (Z.to_nat 2048) x42) && bool_decide (x3 = replicate (Z.to_nat 512) x43)).
  split.
  - unfold verify_segments.
    rewrite (bind_ok _ _ _ _ _ (call_ok_eq _ w _ w out (check_bytes_eq w x41 (Z.to_nat 1024) _ _ E1))).
    rewrite (bind_ok _ _ _ _ _ (call_ok_eq _ w _ w out (check_bytes_eq w x42 (Z.to_nat 2048) _ _ E2))).
    by rewrite (bind_ok _ _ _ _ _ (call_ok_eq _ w _ w out (check_bytes_eq w x43 (Z.to_nat 512) _ _ E3))).
  - intros ->. destruct (segments_loads (w_mem w) (vs_read_buffer1 vs) (vs_read_buffer2 vs)
      (vs_read_buffer3 vs) x41 x42 x43) as (F1 & F2 & F3).
    { unfold three_segments. cbn [iov_bytes iov_base iov_len]. rewrite E1, E2, E3. exact Hb. }
    rewrite E1 in F1. rewrite E2 in F2. rewrite E3 in F3. apply (inj Some) in F1, F2, F3.
    by rewrite !bool_decide_eq_true_2.
Qed.

Lemma readv_outcome_mapped w d l offset st me dl a n :
  readv_outcome w d l offset st me dl -> mapped (w_mem w) a n -> mapped me a n.
Proof. intros [] Hm; [by apply mapped_fill|done|by apply mapped_write]. Qed.

Lemma readv_outcome_status w d l offset st me dl :
  readv_outcome w d l offset st me dl ->
  st = XPDK_SUCCESS \/ st = XPDK_ERROR_IO \/ st = XPDK_ERROR_NOMEM.
Proof. intros []; tauto. Qed.

Lemma readv_outcome_ok w d l offset st me dl :
  readv_outcome w d l offset st me dl -> st = XPDK_SUCCESS ->
  me = iov_fill (w_mem w) l (medium_bytes (medium (w_bdev w) (dev_bdev d)) (start_of d offset)
         (Z.to_nat (iov_total l))).
Proof. intros [|st0 [->| ->]|]; done. Qed.

Lemma read_test_runs w out fd d vs (Q : unit -> world * list line -> Prop) :
  stack_ok vs -> ready_to_test w fd d vs ->
  (forall r ok w', segments_rc r -> ready_to_test w' fd d vs ->
     medium (w_bdev w') = medium (w_bdev w) ->
     (r = segments_size ->
      medium_bytes (medium (w_bdev w) (dev_bdev d)) 0 (Z.to_nat segments_size) = test_data ->
      ok = true) ->
     Q tt (w', out ++ vread_lines r ok)) ->
  eventually (fun fuel n => vectored_read_test (spdk_turn fuel) n vs fd) Q (w, out).
Proof.
  intros Hvs Hr HQ. pose proof Hr as (_ & [_ Hmr _] & _). set (zeros := segment_data x00 x00 x00).
  set (w1 := with_segments (vs_read_iov vs) (read_segments vs) zeros w).
  pose proof (with_segments_ready (vs_read_iov vs) (read_segments vs) zeros w fd d vs Hr) as Hr1.
  pose proof (with_segments_valid (vs_read_iov vs) _ _ _ zeros w fd d vs Hr
    (so_read_iov _ Hvs) Hmr) as Hv. fold (read_segments vs) in Hv. fold w1 in Hr1, Hv.
  destruct (readv_returns w1 fd d (vs_read_iov vs) 3 0 (read_segments vs))
    as (k & st & w2 & Hw & Hout & Hmd & Hs2); [apply Hr1..|done|].
  destruct (segments_result st (readv_outcome_status _ _ _ _ _ _ _ Hout)) as (Hrc & Hok & Hneg & Herr).
  change (iov_total (read_segments vs)) with segments_size in *.
  set (r := if decide (st = XPDK_SUCCESS) then segments_size else st) in *.
  assert (ready_to_test w2 fd d vs) as Hr2.
  { apply (ready_settled w1); [done| |done]. intros a n. by eapply readv_outcome_mapped. }
  unfold vectored_read_test. eapply eventually_step; [apply printf_eq|].
  eapply eventually_step; [by apply call_ok_eq, fill_segments_eq|].
  eapply eventually_step; [by apply call_ok_eq|]. fold zeros. fold (read_segments vs). fold w1.
  apply eventually_bind. eapply call_returns; [exact Hw|]. fold r.
  unfold vread_lines, transfer_lines in HQ. destruct (decide (r < 0)) as [Hlt|Hge] eqn:Hd.
  - specialize (Herr (proj1 Hneg Hlt)). destruct (strerror_eq r (w, out) Herr) as (Hi & _).
    rewrite Hi. eapply eventually_now; [by apply failed_eq|]. rewrite <- !app_assoc.
    specialize (HQ r false w2 Hrc Hr2 Hmd). rewrite Hd in HQ. apply HQ. intros ->. exfalso.
    unfold segments_size in Hlt. lia.
  - destruct (decide (st = XPDK_SUCCESS)) as [E|E]; [|exfalso; apply Hge, Hneg, E].
    pose proof (readv_outcome_ok _ _ _ _ _ _ _ Hout E) as Hm2.
    rewrite start_of_0 in Hm2. change (iov_total (read_segments vs)) with segments_size in Hm2.
    set (got := medium_bytes _ 0 _) in Hm2.
    assert (Z.of_nat (length got) = segments_size) as Hlen
      by (unfold got; rewrite medium_bytes_length; unfold segments_size; lia).
    destruct (verify_segments_eq w2 ((out ++ [("\n=== Vectored Read Test ===\n"%string, [])]) ++
      [("Vectored read successful: %zd bytes\n"%string, [ANum r])]) vs got) as (ok & Hver & Hall); [|done|].
    { rewrite Hm2. apply iov_bytes_fill; [apply segments_lengths|apply Hvs|done]. }
    eapply eventually_step; [apply printf_eq|]. eapply eventually_step; [exact Hver|].
    eapply eventually_now; [apply printf_eq|]. rewrite <- !app_assoc.
    specialize (HQ r ok w2 Hrc Hr2 Hmd). rewrite Hd in HQ. apply HQ. intros _ Hg. by apply Hall.
Qed.

Open Scope string_scope.

Definition stats_lines (s : xpdk_perf_stats) : list line :=
  [("\n=== Performance Statistics ===\n", []);
   ("Performance Statistics:\n", []);
   ("  Total Read Ops:    %lu\n", [ANum (ps_total_read_ops s)]);
   ("  Total Write Ops:   %lu\n", [ANum (ps_total_write_ops s)]);
   ("  Total Bytes Read:  %lu\n", [ANum (ps_total_bytes_read s)]);
   ("  Total Bytes Written: %lu\n", [ANum (ps_total_bytes_written s)]);
   ("  Avg Read Latency:  %lu us\n", [ANum (ps_avg_read_latency_us s)]);
   ("  Avg Write Latency: %lu us\n", [ANum (ps_avg_write_latency_us s)]);
   ("  Current IOPS:      %lu\n", [ANum (ps_current_iops s)]);
   ("  Current Bandwidth: %lu bytes/sec\n", [ANum (ps_current_bandwidth s)]);
   ("  Errors:            %lu\n", [ANum (ps_errors s)])].

Definition buffer_lines (allocated : bool) : list line :=
  ("\n=== Buffer Allocation Test ===\n", []) ::
  if allocated then
    [("Successfully allocated 8KB aligned buffer\n", []);
     ("Buffer test: filled with pattern\n", []);
     ("Buffer freed successfully\n", [])]
  else [("Failed to allocate aligned buffer\n", [])].

Definition trim_lines (rc : Z) : list line :=
  [("\n=== Trim Operation Test ===\n", []);
   if decide (rc = XPDK_SUCCESS) then ("Trim operation successful\n", [])
   else ("Trim operation failed: %s\n", [AStr (error_text rc)])].

Close Scope string_scope.

Lemma print_stats_eq s w out :
  print_stats s (w, out) = Ok tt (w, out ++ drop 1 (stats_lines s)).
Proof.
  unfold print_stats. do 9 (erewrite bind_ok by apply printf_eq). rewrite printf_eq.
  unfold stats_lines. cbn [drop]. by rewrite <- !app_assoc.
Qed.

(** Nothing brings the statistics of a device up to date, so they are as the opening left
    them. *)
Lemma current_stats_zero y d : dev_perf_stats d = perf_stats_zero -> current_stats y d = perf_stats_zero.
Proof.
  intros Hd. unfold current_stats. rewrite Hd. unfold perf_overall.
  destruct (decide (_ > 0)); [|done]. rewrite decide_False by done. by rewrite decide_False by done.
Qed.

Lemma stats_test_runs w out fd d vs (Q : unit -> world * list line -> Prop) :
  stack_ok vs -> ready_to_test w fd d vs -> dev_perf_stats d = perf_stats_zero ->
  (forall w', ready_to_test w' fd d vs -> medium (w_bdev w') = medium (w_bdev w) ->
     Q tt (w', out ++ stats_lines perf_stats_zero)) ->
  eventually (fun fuel n => stats_test (spdk_turn fuel) n vs fd) Q (w, out).
Proof.
  intros Hvs ([Hidle Hfree Hopen Hfl Hsm] & Ho & Hon) Hz HQ. pose proof Hopen as (Hfd & Hd & Hio).
  destruct (xpdk_get_perf_stats_correct w fd d (vs_stats vs)) as (k & w' & Hr & Hst & Hds & Hrest);
    [done|done|done|apply Hio|apply Hvs|apply Ho|].
  rewrite (current_stats_zero _ d Hz) in Hst, Hds.
  assert (set_dev_perf_stats perf_stats_zero d = d) as Hsame
    by (destruct d; unfold set_dev_perf_stats; simpl in *; by subst).
  rewrite Hsame, (list_insert_id (devs w) _ d Hd) in Hds.
  unfold stats_test. eapply eventually_step; [apply printf_eq|]. apply eventually_bind.
  eapply call_returns; [exact Hr|]. rewrite decide_True by done.
  eapply eventually_step.
  { apply call_ok_eq. unfold get_stats. rewrite bind_get, Hst, lookup_insert_eq. done. }
  eapply eventually_now; [apply print_stats_eq|]. rewrite <- app_assoc. apply HQ; [|apply Hrest].
  split_and!; [by apply (demo_fd_rest w)| |unfold only_open; by rewrite Hds].
  destruct Ho. split; rewrite ?(at_rest_mem _ _ Hrest); try done.
  rewrite Hst, lookup_insert_eq. by eexists.
Qed.

Lemma buffer_test_runs w out fd d vs (Q : unit -> world * list line -> Prop) :
  ready_to_test w fd d vs ->
  (forall allocated w', ready_to_test w' fd d vs -> medium (w_bdev w') = medium (w_bdev w) ->
     Q tt (w', out ++ buffer_lines allocated)) ->
  eventually (fun _ _ => buffer_test) Q (w, out).
Proof.
  intros Hr HQ. assert (idle w) as Hidle by apply Hr.
  assert (forall dm, ready_to_test (set_w_dma dm w) fd d vs) as Hdm.
  { intros dm. apply (ready_settled w); [by apply settled_dma|done|done]. }
  unfold buffer_test. eapply eventually_step; [apply printf_eq|]. unfold xpdk_alloc_buffer.
  rewrite !decide_False by done.
  destruct (dma_malloc_cases w 8192 4096) as [(dm & Hm)|(dm & a & junk & Hm & Ha & _ & Hl & Hun)];
    (eapply eventually_step; [apply call_ok_eq, Hm|]).
  - rewrite decide_False by tauto. eapply eventually_now; [apply printf_eq|]. rewrite <- app_assoc.
    by apply (HQ false).
  - assert (0 < length junk)%nat as Hpos by lia. set (wt := with_temp a junk dm w).
    replace (set_w_dma_live _ _) with wt by (unfold wt, with_temp; by rewrite Hl, Z2Nat.id).
    rewrite decide_True by (unfold NULL; lia). eapply eventually_step; [apply printf_eq|].
    eapply eventually_step.
    { apply call_ok_eq, memset_eq. rewrite <- Hl. apply mapped_write_self. }
    eapply eventually_step; [apply printf_eq|].
    eapply eventually_step.
    { apply call_ok_eq, (free_temp _ a (Z.of_nat (length junk))); [unfold NULL; lia|].
      apply lookup_insert_eq. }
    eapply eventually_now; [apply printf_eq|]. rewrite <- !app_assoc. apply (HQ true); [|done].
    replace (set_w_dma_live _ _) with (set_w_dma dm w); [apply Hdm|].
    unfold wt, with_temp. cbn [w_mem w_dma_live set_w_mem set_w_dma_live set_w_dma].
    rewrite Nat2Z.id, unmap_temp by (done || by rewrite length_replicate).
    rewrite delete_insert_id by (by eapply temp_not_live). by destruct w.
Qed.

(** The trim returns, and leaves its request under way or the library idle. *)
Lemma trim_test_runs w out fd d vs (Q : unit -> world * list line -> Prop) :
  ready_to_test w fd d vs ->
  (forall rc w', free_msgs w' <> ∅ -> devs w' = devs w -> medium (w_bdev w') = medium (w_bdev w) ->
     rc = XPDK_SUCCESS /\ pending (range_req IoUnmap d 0 4096) w' \/ rc = XPDK_ERROR_IO /\ idle w' ->
     Q tt (w', out ++ trim_lines rc)) ->
  eventually (fun fuel n => trim_test (spdk_turn fuel) n fd) Q (w, out).
Proof.
  intros [[Hidle Hfree Hopen _ _] _] HQ.
  destruct (range_returns w XPDK_MSG_TRIM IoUnmap fd d 0 4096) as (k & rc & w' & Hr & _ & Hf & _ & Hds & Hmd & Hout);
    [by left|done..|].
  specialize (HQ rc w' ltac:(by rewrite Hf) Hds Hmd Hout). unfold trim_lines in HQ.
  unfold trim_test. eapply eventually_step; [apply printf_eq|]. apply eventually_bind.
  eapply call_returns; [exact Hr|]. destruct (decide (rc = XPDK_SUCCESS)) as [E|E].
  - eapply eventually_now; [apply printf_eq|]. by rewrite <- app_assoc.
  - eapply eventually_now; [apply failed_eq|by rewrite <- app_assoc].
    destruct Hout as [[? _]|[-> _]]; [done|]. unfold is_error. simpl. auto.
Qed.

(** The last line. *)
Definition last_line : line := ("\nVectored I/O example completed successfully\n"%string, []).

(** The end of the program, from an idle library ... *)
Lemma finish_idle_runs w out fd d (Q : Z -> world * list line -> Prop) :
  idle w -> free_msgs w <> ∅ -> in_slot w fd d -> dev_in_use d = true ->
  (forall w', down w' -> medium (w_bdev w') = medium (w_bdev w) -> Q 0 (w', out ++ [last_line])) ->
  eventually (fun fuel n => finish_example (spdk_turn fuel) n fd) Q (w, out).
Proof.
  intros Hidle Hfree Hslot Huse HQ.
  destruct (close_returns w fd d Hidle Hfree Hslot Huse) as (k & w1 & Hr & _ & Hrest).
  unfold finish_example. apply eventually_bind. eapply call_returns; [exact Hr|].
  rewrite decide_False by tauto. eapply eventually_step; [done|]. apply eventually_bind.
  apply cleanup_down; [apply Hrest|by rewrite (at_rest_free _ _ Hrest)|].
  intros w2 Hdown _ _ Hmd. eapply eventually_step; [apply printf_eq|]. apply eventually_ret.
  apply HQ; [done|]. rewrite Hmd. apply Hrest.
Qed.

(** ... and with the trim still under way. *)
Lemma finish_pending_runs r w out fd d (Q : Z -> world * list line -> Prop) :
  pending r w -> free_msgs w <> ∅ -> in_slot w fd d -> dev_in_use d = true ->
  only_open w fd ->
  (forall w', down w' -> medium (w_bdev w') = medium (w_bdev w) -> Q 0 (w', out ++ [last_line])) ->
  unless (Faults NullDeref) (fun fuel n => finish_example (spdk_turn fuel) n fd) Q (w, out).
Proof.
  intros Hpd Hfree Hslot Huse Honly HQ. unfold finish_example. apply unless_bind.
  destruct (pending_close r w fd d Hpd Hfree Hslot Huse)
    as [Hf|(w1 & Hr & Hds & Hpd1 & _ & Hf1 & _ & Hmd1)].
  { right. exists 1%nat. intros fuel n _ Hn. unfold call. simpl. by rewrite Hf. }
  left. eapply (call_returns _ 0); [by intros; apply Hr|]. rewrite decide_False by tauto.
  eapply unless_step; [done|]. apply unless_bind.
  destruct (pending_cleanup r w1) as [Hf|(w2 & Hr2 & ? & ? & ? & ? & ? & Hds2 & ? & ? & _ & Hmd2 & _)];
    [done|by rewrite Hf1| | |].
  { intros k e He. rewrite Hds in He.
    apply list_lookup_insert_Some in He as [(<- & <- & _)|[Hne He]]; [done|].
    destruct (dev_in_use e) eqn:Hu; [|done]. destruct Hne. symmetry. by apply (Honly k e). }
  { right. exists 1%nat. intros fuel n _ Hn. unfold call. simpl. by rewrite Hf. }
  left. eapply (call_returns _ 0); [by intros; apply Hr2|]. left.
  eapply eventually_step; [apply printf_eq|]. apply eventually_ret. apply HQ; [|congruence].
  split; try done. intros k e He. rewrite Hds2, Hds in He.
  apply list_lookup_insert_Some in He as [(<- & <- & _)|[Hne He]]; [done|].
  destruct (dev_in_use e) eqn:Hu; [|done]. destruct Hne. symmetry. by apply (Honly k e).
Qed.

(** ** The whole session *)

(** What the tests print on the device [bd], and the media after them.  When both transfers
    succeed the check passes, when the write does the device begins with the data; the statistics
    are all zero in any case. *)
Inductive vectored_tests (bd : Z) (b : bdev_t) : list line -> Prop :=
| vectored_tested wr r ok allocated rc :
    segments_rc wr -> segments_rc r ->
    (wr = segments_size ->
     medium_bytes (medium b bd) 0 (Z.to_nat segments_size) = test_data) ->
    (wr = segments_size -> r = segments_size -> ok = true) ->
    rc = XPDK_SUCCESS \/ rc = XPDK_ERROR_IO ->
    vectored_tests bd b (vwrite_lines wr ++ vread_lines r ok ++ stats_lines perf_stats_zero ++
      buffer_lines allocated ++ trim_lines rc ++ [last_line]).

Lemma vectored_session_runs w out fd d vs (Q : Z -> world * list line -> Prop) :
  stack_ok vs -> ready_to_test w fd d vs -> dev_perf_stats d = perf_stats_zero ->
  (forall w' lines, down w' -> vectored_tests (dev_bdev d) (w_bdev w') lines -> Q 0 (w', out ++ lines)) ->
  unless (Faults NullDeref) (fun fuel n => vectored_session (spdk_turn fuel) n vs fd) Q (w, out).
Proof.
  intros Hvs Hr Hz HQ. unfold vectored_session.
  apply unless_then, (write_test_runs w _ fd d vs _ Hvs Hr). intros wr w1 Hwr Hr1 Hmd1.
  apply unless_then, (read_test_runs w1 _ fd d vs _ Hvs Hr1). intros r ok w2 Hrr Hr2 Hmd2 Hok.
  apply unless_then, (stats_test_runs w2 _ fd d vs _ Hvs Hr2 Hz). intros w3 Hr3 Hmd3.
  apply unless_then, (buffer_test_runs w3 _ fd d vs _ Hr3). intros allocated w4 Hr4 Hmd4.
  pose proof Hr4 as ([_ _ (Hfd & Hd & Hio) _ _] & _ & Hon).
  apply unless_then, (trim_test_runs w4 _ fd d vs _ Hr4). intros rc w5 Hf5 Hds5 Hmd5 Hout.
  assert (medium (w_bdev w5) = medium (w_bdev w1)) as Hmd by congruence.
  assert (forall w', down w' -> medium (w_bdev w') = medium (w_bdev w5) ->
    Q 0 (w', (((((out ++ vwrite_lines wr) ++ vread_lines r ok) ++ stats_lines perf_stats_zero) ++
      buffer_lines allocated) ++ trim_lines rc) ++ [last_line])) as Hend.
  { intros w' Hdown Hmd'. rewrite <- !app_assoc. apply HQ; [done|]. apply vectored_tested; [exact Hwr|exact Hrr| | |].
    - intros E. rewrite Hmd', Hmd. by apply Hmd1.
    - intros E1 E2. apply Hok; [done|by apply Hmd1].
    - by destruct Hout as [[-> _]|[-> _]]; auto. }
  assert (in_slot w5 fd d) as Hslot by (split; [done|by rewrite Hds5]).
  destruct Hout as [[_ Hpd]|[_ Hidle]].
  - apply (finish_pending_runs _ w5 _ fd d _ Hpd Hf5 Hslot (io_open_in_use d Hio)); [|done].
    unfold only_open. by rewrite Hds5.
  - left. by apply (finish_idle_runs w5 _ fd d _ Hidle Hf5 Hslot (io_open_in_use d Hio)).
Qed.

(** ** The program *)

Open Scope string_scope.

(** The output after the first line, on the devices SPDK enumerates. *)
Inductive vectored_transcript (found : list Z) (by_name : string -> Z) (b : bdev_t) :
    Z -> list line -> Prop :=
| vectored_no_device :
    found = [] -> vectored_transcript found by_name b 1 [("No block devices found\n", [])]
| vectored_not_opened bd rest rc :
    found = bd :: rest ->
    rc = XPDK_ERROR_NODEV \/ rc = XPDK_ERROR_IO ->
    vectored_transcript found by_name b 1
      [("Found %d devices, using: %s\n",
         [ANum (Z.of_nat (length found)); AStr (bi_name (bdev_info bd))]);
       ("Failed to open device: %s\n", [AStr (error_text rc)])]
| vectored_done bd rest lines :
    found = bd :: rest -> vectored_tests (by_name (bi_name (bdev_info bd))) b lines ->
    vectored_transcript found by_name b 0
      (("Found %d devices, using: %s\n",
         [ANum (Z.of_nat (length found)); AStr (bi_name (bdev_info bd))]) :: lines).

Close Scope string_scope.
End VectoredProgramCorrect.

(** ** The program on the simulated environment *)

Definition sim_vectored_stack : vectored_stack :=
  Build_vectored_stack 71000 50000 51024 53072 60000 61024 63072 80000 81000 82000.

Definition sim_vectored_world : world :=
  set_w_stats (<[82000 := perf_stats_zero]> ∅)
    (sim_client_world (<[71000 := replicate 16 sim_info]> ∅) ∅ sim_stack).

(** Segments in a buffer on the stack. *)
Lemma sim_segments me a :
  mapped me a (Z.to_nat data_size) -> iov_mapped me (three_segments a (a + 1024) (a + 3072)).
Proof.
  intros Hm. repeat (apply Forall_cons; split; [|]); [| | |done]; simpl; intros x Hx; apply Hm;
    rewrite data_size_eq; lia.
Qed.

Lemma three_segments_disjoint a : iov_disjoint (three_segments a (a + 1024) (a + 3072)).
Proof.
  unfold three_segments. cbn [iov_disjoint iov_base iov_len]. unfold iov_apart.
  repeat first [apply Forall_nil_2 | apply Forall_cons_2 | split];
    cbn [iov_base iov_len]; try lia; unfold iov_range_disjoint, disjoint_range;
    cbn [iov_base iov_len]; lia.
Qed.

Lemma can_start_stats `{SpdkLaws} bt opts st w :
  can_start bt opts w -> can_start bt opts (set_w_stats st w).
Proof. intros []. by split. Qed.

Lemma sim_objects (w : @world sim_spdk) :
  stack_buffer w 50000 -> stack_buffer w 60000 ->
  objects (set_w_stats (<[82000 := perf_stats_zero]> ∅) w) sim_vectored_stack.
Proof.
  intros [_ H1] [_ H2].
  split; [exact (sim_segments _ 50000 H1)|exact (sim_segments _ 60000 H2)|].
  exists perf_stats_zero. apply lookup_insert_eq.
Qed.


(** There the trim completes while the device is being closed, through its null callback. *)
Example vectored_example_dies :
  match @vectored_example sim_spdk (sim_boot 1) (spdk_turn 20) 20 sim_vectored_stack
    (sim_vectored_world, []) with
  | Fault e => Some e
  | _ => None
  end = Some NullDeref.
Proof. vm_compute. reflexivity. Qed.
