(* ===== verification/AsyncProgram.v ===== *)
(** examples/async_example.c: an asynchronous write and read, with the callback that tells [main]
    about them.

    The SPDK thread takes its turns while [main] is in a call of the library or asleep.  The
    calls a turn makes of the client's callback run in that turn; [main] sees what they did, and
    what they printed, when the call or the sleep is over. *)

From stdpp Require Import base gmap list strings.
From Stdlib Require Import Strings.Byte.
From S2P Require Import Prelude Types Memory Spdk World Sim Core Blocks Perf Bdev Qos Io.
From S2P Require Import Async Vectored Batch Poller Idle IoCorrect SyncIo Devices Session.
From S2P Require Import Lifecycle VectoredCorrect AsyncCorrect BatchRuns.
From S2P Require Import Eventually Programs ProgramsCorrect.

Open Scope Z_scope.

Section AsyncProgram.
Context `{Spdk}.

(** The world and the output, the two global variables, and how many of the recorded calls of
    callbacks have been executed. *)
Record example_state := Build_example_state {
  es_world : world;
  es_out : list line;
  es_io_completed : Z;
  es_io_status : Z;
  es_seen : nat
}.

Definition MA (A : Type) : Type := M example_state A.

(** Code of the program that does not touch the global variables. *)
Definition local {A} (m : MP A) : MA A := fun s =>
  match m (es_world s, es_out s) with
  | Ok a (w, out) => Ok a (Build_example_state w out (es_io_completed s) (es_io_status s) (es_seen s))
  | Fault e => Fault e
  | Running (w, out) =>
      Running (Build_example_state w out (es_io_completed s) (es_io_status s) (es_seen s))
  end.

Definition store_io_completed (v : Z) : MA unit :=
  modify (fun s => Build_example_state (es_world s) (es_out s) v (es_io_status s) (es_seen s)).

Definition store_io_status (v : Z) : MA unit :=
  modify (fun s => Build_example_state (es_world s) (es_out s) (es_io_completed s) v (es_seen s)).

Definition set_seen (v : nat) : MA unit :=
  modify (fun s => Build_example_state (es_world s) (es_out s) (es_io_completed s) (es_io_status s) v).

Variable bt : boot.

(** The addresses of the callback and of the two string literals that are its arguments. *)
Variables callback_fn op_write op_read : Z.

Definition literal (p : Z) : option string :=
  if decide (p = op_write) then Some "write"%string
  else if decide (p = op_read) then Some "read"%string
  else None.

Open Scope string_scope.

Definition async_callback (ctx status : Z) : MA unit :=
  let* operation := from_some BadAddress (literal ctx) in
  let* s := local (strerror status) in
  local (printf "Async %s completed with status: %s\n" [AStr operation; AStr s]) ;;
  store_io_status status ;;
  store_io_completed 1.

Fixpoint run_callbacks (l : list (Z * Z * Z)) : MA unit :=
  match l with
  | [] => ret tt
  | (f, ctx, status) :: l =>
      (if decide (f = callback_fn) then async_callback ctx status else fail BadAddress) ;;
      run_callbacks l
  end.

(** The calls recorded since the last time. *)
Definition callbacks : MA unit :=
  let* s := get in
  set_seen (length (w_calls (es_world s))) ;;
  run_callbacks (drop (es_seen s) (w_calls (es_world s))).

(** A call of the library, or a sleep, with the callbacks that come in meanwhile. *)
Definition lib {A} (m : MW A) : MA A :=
  let* a := local (call m) in
  callbacks ;;
  ret a.

Variable sched_yield : MW unit.
Variable thread_poll : Z -> MW Z.
Variable fuel : nat.

(** Lines 65-72 and 91-98; [usleep] lets the SPDK thread take a turn. *)
Fixpoint poll_until_completed (n : nat) : MA unit :=
  let* io_completed := gets es_io_completed in
  if decide (io_completed <> 0) then ret tt
  else
    match n with
    | O => spent
    | S n =>
        let* completions := lib (xpdk_poll thread_poll 10) in
        if decide (completions < 0) then local (failed "Poll failed: %s\n" completions)
        else lib sched_yield ;; poll_until_completed n
    end.

(** Lines 79-107. *)
Definition async_read_test (fd write_data read_data : Z) : MA unit :=
  local (printf "Starting async read operation...\n" []) ;;
  store_io_completed 0 ;;
  local (call (memset read_data x00 data_size)) ;;
  let* rc := lib (xpdk_read_async fd read_data data_size 0 (Some (UserCallback callback_fn)) op_read) in
  if decide (rc <> XPDK_SUCCESS) then local (failed "Failed to start async read: %s\n" rc)
  else
    local (printf "Polling for read completion...\n" []) ;;
    poll_until_completed fuel ;;
    let* io_status := gets es_io_status in
    if decide (io_status = XPDK_SUCCESS) then
      let* same := local (call (memcmp_eq write_data read_data data_size)) in
      if (same : bool) then local (printf "Async I/O data verification successful!\n" [])
      else local (printf "Async I/O data verification failed!\n" [])
    else ret tt.

(** Lines 49-107: every [goto cleanup] ends here. *)
Definition async_tests (fd write_data read_data : Z) : MA unit :=
  local (call (memset write_data xbb data_size)) ;;
  local (call (snprintf write_data data_size
    "Hello from XPDK async I/O! This is an asynchronous write operation.")) ;;
  local (printf "Starting async write operation...\n" []) ;;
  store_io_completed 0 ;;
  let* rc := lib (xpdk_write_async fd write_data data_size 0 (Some (UserCallback callback_fn)) op_write) in
  if decide (rc <> XPDK_SUCCESS) then local (failed "Failed to start async write: %s\n" rc)
  else
    local (printf "Polling for write completion...\n" []) ;;
    poll_until_completed fuel ;;
    let* io_status := gets es_io_status in
    if decide (io_status <> XPDK_SUCCESS) then local (printf "Async write failed\n" [])
    else async_read_test fd write_data read_data.

(** Lines 109-120. *)
Definition async_finish (fd : Z) : MA unit :=
  local (printf "Closing device...\n" []) ;;
  let* rc := lib (xpdk_close sched_yield fuel fd) in
  (if decide (rc <> XPDK_SUCCESS) then local (failed "Failed to close device: %s\n" rc) else ret tt) ;;
  local (printf "Cleaning up...\n" []) ;;
  lib (xpdk_cleanup sched_yield fuel) ;;
  local (printf "Async example completed!\n" []).

Definition async_example (write_data read_data : Z) (argv : list string) : MA Z :=
  if decide (length argv <> 2%nat) then
    let* a0 := local (arg argv 0) in
    local (printf "Usage: %s <bdev_name>\n" [AStr a0]) ;;
    ret 1
  else
    let* bdev_name := local (arg argv 1) in
    local (printf "Initializing XPDK library...\n" []) ;;
    let* rc := lib (xpdk_init bt fuel None) in
    if decide (rc <> XPDK_SUCCESS) then
      local (failed "Failed to initialize XPDK: %s\n" rc) ;;
      ret 1
    else
      local (printf "Opening device: %s\n" [AStr bdev_name]) ;;
      let* fd := lib (xpdk_open sched_yield fuel (Some bdev_name) O_RDWR) in
      if decide (fd < 0) then
        let* s := local (strerror fd) in
        local (printf "Failed to open device %s: %s\n" [AStr bdev_name; AStr s]) ;;
        lib (xpdk_cleanup sched_yield fuel) ;;
        ret 1
      else
        async_tests fd write_data read_data ;;
        async_finish fd ;;
        ret 0.
End AsyncProgram.

Section AsyncProgramCorrect.
Context `{SpdkLaws}.
#[local] Opaque data_size.
Implicit Types (w : world) (d : xpdk_device) (out : list line) (s : bool).

Context (callback_fn op_write op_read : Z).
Hypothesis Hops : op_write <> op_read.

Abbreviation devs w := (ctx_devices (w_g w)).
Abbreviation ES := Build_example_state.
Abbreviation Lib := (lib callback_fn op_write op_read).

(** ** Steps of the program *)

Lemma local_ok {A} (m : MP A) w out c st k a w' out' :
  m (w, out) = Ok a (w', out') -> local m (ES w out c st k) = Ok a (ES w' out' c st k).
Proof. intros Hm. unfold local. simpl. by rewrite Hm. Qed.

Lemma local_printf format args w out c st k :
  local (printf format args) (ES w out c st k) = Ok tt (ES w (out ++ [(format, args)]) c st k).
Proof. done. Qed.

(** The world with every recorded call of a callback executed. *)
Definition seen w out (c st : Z) : example_state := ES w out c st (length (w_calls w)).

Lemma callbacks_none w out c st :
  callbacks callback_fn op_write op_read (seen w out c st) = Ok tt (seen w out c st).
Proof. unfold callbacks, bind, get, set_seen, modify, seen. simpl. by rewrite drop_all. Qed.

Lemma lib_ok {A} (m : MW A) w out c st a w' :
  m w = Ok a w' -> w_calls w' = w_calls w ->
  Lib m (seen w out c st) = Ok a (seen w' out c st).
Proof.
  intros Hm Hc. unfold lib, seen at 1.
  rewrite (bind_ok _ _ _ _ _ (local_ok (call m) w out c st _ a w' out (call_ok_eq m w a w' out Hm))).
  rewrite <- Hc. fold (seen w' out c st). by rewrite (bind_ok _ _ _ _ _ (callbacks_none w' out c st)).
Qed.

Lemma lib_runs {A} (m : nat -> nat -> MW A) w out c st (Q : A -> example_state -> Prop) :
  eventually (fun fuel n => call (m fuel n))
    (fun a x => w_calls (fst x) = w_calls w /\ Q a (seen (fst x) out c st)) (w, out) ->
  eventually (fun fuel n => Lib (m fuel n)) Q (seen w out c st).
Proof.
  intros (k & a & [w' out'] & Hm & Hc & HQ). simpl in Hc, HQ. exists k, a, (seen w' out c st).
  split; [|done]. intros fuel n Hf Hn. apply lib_ok; [|done]. specialize (Hm fuel n Hf Hn).
  unfold call in Hm. simpl in Hm. destruct (m fuel n w) as [a0 w0| |]; [|done..].
  by injection Hm as -> -> _.
Qed.

(** The line the callback prints. *)
Definition callback_line (op : string) s : line :=
  ("Async %s completed with status: %s\n"%string, [AStr op; AStr (error_text (io_status_of s))]).

(** Code during which the callback is called. *)
Lemma lib_called {A} (m : MW A) w out c st a w' ctx op s :
  m w = Ok a w' -> w_calls w' = w_calls w ++ [(callback_fn, ctx, io_status_of s)] ->
  literal op_write op_read ctx = Some op ->
  Lib m (seen w out c st) =
    Ok a (seen w' (out ++ [callback_line op s]) 1 (io_status_of s)).
Proof.
  intros Hm Hc Hl. unfold lib, seen at 1.
  rewrite (bind_ok _ _ _ _ _ (local_ok (call m) w out c st _ a w' out (call_ok_eq m w a w' out Hm))).
  assert (drop (length (w_calls w)) (w_calls w') = [(callback_fn, ctx, io_status_of s)]) as Hd
    by (rewrite Hc; apply drop_app_length).
  unfold callbacks. rewrite bind_assoc, bind_get. cbn [es_world es_seen]. rewrite Hd, bind_assoc.
  unfold set_seen at 1, modify. unfold bind at 1. cbn [run_callbacks]. rewrite bind_assoc.
  rewrite decide_True by done. unfold async_callback. rewrite Hl. unfold from_some at 1.
  rewrite !bind_assoc, bind_ret_l, !bind_assoc.
  assert (forall x, strerror (io_status_of s) x = Ok (error_text (io_status_of s)) x) as Hs
    by (by destruct s).
  erewrite bind_ok by (apply local_ok, Hs). rewrite bind_assoc.
  erewrite bind_ok by apply local_printf. reflexivity.
Qed.

(** ** The SPDK thread while [main] waits *)

(** A poll from [main] is a turn. *)
Lemma poll_as_turn fuel w w' :
  ctx_initialized (w_g w) = true -> ctx_spdk_thread_running (w_g w) = true ->
  spdk_turn fuel w = Ok tt w' ->
  exists c, 0 <= c /\ xpdk_poll (spdk_thread_poll fuel) 10 w = Ok c w'.
Proof.
  intros Hi Hr Ht. unfold xpdk_poll, is_initialized, bind at 1, gets. rewrite Hi. cbn [negb].
  unfold spdk_turn, bind at 1, gets in Ht. rewrite Hr in Ht. cbn [when] in Ht.
  unfold spdk_thread_poll, bind in *.
  destruct (poll_bdev w) as [busy w1| |]; [|done..].
  destruct (xpdk_msg_process_poller fuel w1) as [rc w2| |]; [|done..]. simpl in Ht.
  injection Ht as ->. eexists. split; [|done]. destruct busy; [lia|]. case_decide; lia.
Qed.

Lemma finishes_inv n w w2 :
  finishes (S (S n)) w w2 ->
  exists w1, (forall fuel, spdk_turn fuel w = Ok tt w1) /\ w_calls w1 = w_calls w /\
    ctx_initialized (w_g w1) = ctx_initialized (w_g w) /\
    ctx_spdk_thread_running (w_g w1) = ctx_spdk_thread_running (w_g w) /\ finishes (S n) w1 w2.
Proof.
  intros [Hq Hn]. destruct (Hq 1%nat ltac:(lia)) as (w1 & Ht & Hc & Hi & Hr).
  assert (forall fuel, spdk_turn fuel w = Ok tt w1) as Ht1.
  { intros fuel. specialize (Ht fuel). simpl in Ht. unfold bind in Ht.
    destruct (spdk_turn fuel w) as [[] wt| |]; [|done..]. by injection Ht as ->. }
  assert (forall fuel k, turns fuel (S k) w = turns fuel k w1) as Hs.
  { intros fuel k. simpl. by rewrite (bind_ok _ _ _ _ _ (Ht1 fuel)). }
  exists w1. split_and!; try done. split; [|intros fuel; by rewrite <- Hs].
  intros k Hk. destruct (Hq (S k) ltac:(lia)) as (wk & Hw & ? & ? & ?). exists wk.
  split_and!; [intros fuel; by rewrite <- Hs|congruence..].
Qed.

Lemma finishes_1 w w2 fuel : finishes 1 w w2 -> spdk_turn fuel w = Ok tt w2.
Proof.
  intros [_ Hn]. specialize (Hn fuel). simpl in Hn. unfold bind in Hn.
  destruct (spdk_turn fuel w) as [[] wt| |]; [|done..]. by injection Hn as ->.
Qed.

(** An idle turn changes nothing a client sees. *)
Definition still w w' : Prop :=
  settled w w' /\ w_mem w' = w_mem w /\ w_dma_live w' = w_dma_live w /\
  medium (w_bdev w') = medium (w_bdev w).

Lemma idle_turn_still w :
  idle w -> exists w', (forall fuel, spdk_turn fuel w = Ok tt w') /\ still w w'.
Proof.
  intros Hidle. destruct (idle_poll w Hidle) as (b & r & Hp & Hi & Hsd & _).
  exists (set_w_ring (Some r) (set_w_bdev b w)). split; [|by split_and!; [split|..]].
  intros fuel. unfold spdk_turn, bind at 1, gets. rewrite (idle_running w Hidle). cbn [when].
  by rewrite (bind_ok _ _ _ _ _ (Hp fuel 0)).
Qed.

Abbreviation Wait := (fun fuel => poll_until_completed callback_fn op_write op_read (spdk_turn fuel)
  (spdk_thread_poll fuel)).

Lemma wait_done fuel N w out c st :
  c <> 0 -> Wait fuel N (seen w out c st) = Ok tt (seen w out c st).
Proof. intros Hc. destruct N; cbn [poll_until_completed]; unfold bind, gets; simpl; by rewrite decide_True. Qed.

(** One round of the loop, with what the two turns of it are known to do. *)
Lemma wait_round fuel N w out st w1 x :
  ctx_initialized (w_g w) = true -> ctx_spdk_thread_running (w_g w) = true ->
  spdk_turn fuel w = Ok tt w1 ->
  (forall c, xpdk_poll (spdk_thread_poll fuel) 10 w = Ok c w1 ->
     Lib (xpdk_poll (spdk_thread_poll fuel) 10) (seen w out 0 st) = Ok c x) ->
  Wait fuel (S N) (seen w out 0 st) = (Lib (spdk_turn fuel) ;; Wait fuel N) x.
Proof.
  intros Hi Hr Ht Hl. destruct (poll_as_turn fuel w w1 Hi Hr Ht) as (c & Hc & Hp).
  cbn [poll_until_completed]. unfold bind at 1, gets. cbn [es_io_completed seen].
  rewrite decide_False by (intros ?; done). rewrite (bind_ok _ _ _ _ _ (Hl c Hp)).
  by rewrite decide_False by lia.
Qed.

(** The callback comes in the last of [n] turns: the loop ends, one turn later at most. *)
Lemma wait_called ctx op s : literal op_write op_read ctx = Some op ->
  forall n w w2 out st, finishes n w w2 ->
  ctx_initialized (w_g w) = true -> ctx_spdk_thread_running (w_g w) = true -> idle w2 ->
  w_calls w2 = w_calls w ++ [(callback_fn, ctx, io_status_of s)] ->
  exists w3, (w3 = w2 \/ still w2 w3) /\ forall fuel N, (n <= N)%nat ->
    Wait fuel N (seen w out 0 st) =
      Ok tt (seen w3 (out ++ [callback_line op s]) 1 (io_status_of s)).
Proof.
  intros Hl n. induction (lt_wf n) as [n _ IH]. intros w w2 out st Hfin Hi Hr Hidle Hc.
  destruct n as [|[|n]].
  - exfalso. destruct Hfin as [_ Hn]. specialize (Hn 0%nat). injection Hn as ->.
    apply (f_equal length) in Hc. rewrite length_app in Hc. simpl in Hc. lia.
  - destruct (idle_turn_still w2 Hidle) as (w3 & Ht3 & Hst). exists w3. split; [by right|].
    intros fuel N HN. destruct N as [|N]; [lia|].
    rewrite (wait_round fuel N w out st w2 (seen w2 (out ++ [callback_line op s]) 1 (io_status_of s)));
      [|done|done|by apply finishes_1|intros c Hp; by apply (lib_called _ w out 0 st c w2 ctx)].
    rewrite (bind_ok _ _ _ _ _ (lib_ok (spdk_turn fuel) w2 _ 1 (io_status_of s) tt w3 (Ht3 fuel)
      (settled_calls _ _ (proj1 Hst)))). by apply wait_done.
  - destruct (finishes_inv n w w2 Hfin) as (w1 & Ht & Hc1 & Hi1 & Hr1 & Hfin1).
    assert (forall fuel N, Wait fuel (S N) (seen w out 0 st) =
      (Lib (spdk_turn fuel) ;; Wait fuel N) (seen w1 out 0 st)) as Hround.
    { intros fuel N. apply (wait_round fuel N w out st w1); [done|done|apply Ht|].
      intros c Hp. by apply lib_ok. }
    destruct n as [|n].
    + exists w2. split; [by left|]. intros fuel N HN. destruct N as [|N]; [lia|]. rewrite Hround.
      rewrite (bind_ok _ _ _ _ _ (lib_called (spdk_turn fuel) w1 out 0 st tt w2 ctx op s
        (finishes_1 w1 w2 fuel Hfin1) ltac:(congruence) Hl)). by apply wait_done.
    + destruct (finishes_inv n w1 w2 Hfin1) as (wb & Htb & Hcb & Hib & Hrb & Hfinb).
      destruct (IH (S n) ltac:(lia) wb w2 out st Hfinb) as (w3 & Hw3 & Hend); [congruence..|done|congruence|].
      exists w3. split; [done|]. intros fuel N HN. destruct N as [|N]; [lia|]. rewrite Hround.
      rewrite (bind_ok _ _ _ _ _ (lib_ok (spdk_turn fuel) w1 out 0 st tt wb (Htb fuel) Hcb)).
      apply Hend. lia.
Qed.

(** The library goes idle without a call. *)
Definition going_silent w : Prop :=
  exists n w2, finishes n w w2 /\ ctx_initialized (w_g w) = true /\
    ctx_spdk_thread_running (w_g w) = true /\ idle w2 /\ w_calls w2 = w_calls w.

Lemma silent_turn w :
  going_silent w -> exists w', (forall fuel, spdk_turn fuel w = Ok tt w') /\
    w_calls w' = w_calls w /\ going_silent w'.
Proof.
  intros (n & w2 & Hfin & Hi & Hr & Hidle & Hc). destruct n as [|[|n]].
  - assert (w2 = w) as -> by (destruct Hfin as [_ Hn]; specialize (Hn 0%nat); by injection Hn).
    destruct (idle_turn_still w Hidle) as (w' & Ht & [Hs _]). exists w'.
    split_and!; [done|apply Hs|]. exists 0%nat, w'. split_and!; [apply finishes_0|apply Hs..|done].
  - exists w2. split_and!; [intros fuel; by apply finishes_1|done|].
    exists 0%nat, w2. split_and!; [apply finishes_0|apply Hidle..|done|done].
  - destruct (finishes_inv n w w2 Hfin) as (w1 & Ht & Hc1 & Hi1 & Hr1 & Hfin1).
    exists w1. split_and!; [done|done|]. exists (S n), w2. split_and!; congruence || done.
Qed.

(** ... and the loop goes on for ever. *)
Lemma wait_silent fuel N : forall w out st,
  going_silent w -> exists x, Wait fuel N (seen w out 0 st) = Running x.
Proof.
  induction N as [|N IH]; intros w out st Hw.
  - exists (seen w out 0 st). done.
  - destruct (silent_turn w Hw) as (w1 & Ht1 & Hc1 & Hw1).
    destruct (silent_turn w1 Hw1) as (w2 & Ht2 & Hc2 & Hw2).
    destruct Hw as (n & w' & _ & Hi & Hr & _).
    rewrite (wait_round fuel N w out st w1 (seen w1 out 0 st));
      [|done|done|apply Ht1|intros c Hp; by apply lib_ok].
    rewrite (bind_ok _ _ _ _ _ (lib_ok (spdk_turn fuel) w1 out 0 st tt w2 (Ht2 fuel) Hc2)).
    by apply IH.
Qed.

(** ** A request and the wait for it *)

(** What a request that called back leaves: everything settled, the memory and the medium of
    [async_called]. *)
Record called_back (kind : io_kind) w d (ub : Z) s w' : Prop := {
  cb_settled : exists calls, settled (set_w_calls calls w) w';
  cb_mem : w_mem w' = async_mem kind w d ub data_size 0 s;
  cb_effect : async_effect kind w d ub data_size 0 s (w_bdev w')
}.

Lemma called_demo_fd kind w d ub s w' fd : called_back kind w d ub s w' -> demo_fd w fd d -> demo_fd w' fd d.
Proof.
  intros [[calls Hs] _ _] [Hidle ? ? ? ?]. apply (demo_fd_settled _ _ _ _ Hs).
  split; try done. destruct Hidle. by split.
Qed.

Lemma async_phase_runs type kind w out st fd d ub ctx op failure polling
    (K : nat -> nat -> MA unit) (Q : unit -> example_state -> Prop) :
  demo_fd w fd d -> stack_buffer w ub -> literal op_write op_read ctx = Some op ->
  type = XPDK_MSG_READ /\ kind = IoRead \/ type = XPDK_MSG_WRITE /\ kind = IoWrite ->
  (forall s w', called_back kind w d ub s w' ->
     unless Hangs K Q (seen w' (out ++ [(polling, []); callback_line op s]) 1 (io_status_of s))) ->
  unless Hangs (fun fuel n =>
      let* rc := Lib (async_io type fd ub data_size 0 (Some (UserCallback callback_fn)) ctx) in
      if decide (rc <> XPDK_SUCCESS) then local (failed failure rc)
      else local (printf polling []) ;; Wait fuel n ;; K fuel n) Q (seen w out 0 st).
Proof.
  intros Hfd [Hub Hm] Hl Hkind HK. pose proof Hfd as [Hidle Hfree Hopen Hfl Hsm].
  destruct (async_io_ends w type kind fd d ub data_size 0 callback_fn ctx)
    as (w1 & n & w2 & Hcall & Hc1 & Hi1 & Hr1 & Hfin & Hout); [done..| | |].
  { by split. }
  { destruct Hkind as [[-> ->]|[-> ->]]; auto. }
  eapply unless_step; [by apply lib_ok|]. destruct (decide (XPDK_SUCCESS <> XPDK_SUCCESS)); [done|].
  eapply unless_step; [apply local_printf|]. fold (seen w1 (out ++ [(polling, [])]) 0 st).
  apply unless_bind. destruct Hout as [(s & [Hset Hme Hlive He])|Hsil].
  - left. destruct (wait_called ctx op s Hl n w1 w2 (out ++ [(polling, [])]) st Hfin Hi1 Hr1)
      as (w3 & Hw3 & Hwait); [apply Hset|rewrite (settled_calls _ _ Hset); simpl; by rewrite Hc1|].
    exists n. eexists tt, _. split; [by intros fuel N _ HN; apply Hwait|].
    rewrite <- app_assoc. apply HK. destruct Hw3 as [->|(Hs3 & Hm3 & _ & Hmd3)].
    + split; [by eexists|done|done].
    + split; [eexists; by eapply settled_trans|by rewrite Hm3|].
      unfold async_effect, write_effect in *. destruct kind; by rewrite Hmd3.
  - right. exists 0%nat. intros fuel N _ _. apply wait_silent. exists n, w2.
    split_and!; try done; [apply Hsil|]. rewrite Hc1. apply Hsil.
Qed.

(** ** The tests *)

Open Scope string_scope.

Definition async_text : string := "Hello from XPDK async I/O! This is an asynchronous write operation.".

Definition async_data : list byte := text_over xbb async_text.

Definition verdict (ok : bool) : line :=
  if ok then ("Async I/O data verification successful!\n", [])
  else ("Async I/O data verification failed!\n", []).

Definition async_read_lines (s ok : bool) : list line :=
  ([("Starting async read operation...\n", []); ("Polling for read completion...\n", []);
    callback_line "read" s] ++ (if s then [verdict ok] else []))%list.

Definition async_lines (s1 s2 ok : bool) : list line :=
  ([("Starting async write operation...\n", []); ("Polling for write completion...\n", []);
    callback_line "write" s1] ++
   (if s1 then async_read_lines s2 ok else [("Async write failed\n", [])]))%list.

Close Scope string_scope.

(** A buffer the device reads straight into. *)
Definition block_aligned (bd a : Z) : Prop :=
  a mod spdk_bdev_get_block_size bd = 0 /\ data_size mod spdk_bdev_get_block_size bd = 0.

Lemma async_data_not_zero : async_data <> replicate (Z.to_nat data_size) x00.
Proof.
  intros E. assert (async_data !! 0%nat = Some x48) as H1.
  { unfold async_data, text_over, text_bytes. rewrite data_size_eq.
    replace (Z.to_nat (4096 - 1)) with (S (Z.to_nat 4094)) by lia. reflexivity. }
  rewrite E, lookup_replicate_2 in H1; [done|]. rewrite data_size_eq. lia.
Qed.

(** The buffer after the read, and what the comparison finds. *)
Lemma read_compared w d wd rd w' :
  disjoint_range rd (Z.to_nat data_size) wd (Z.to_nat data_size) ->
  load_bytes (w_mem w) wd (Z.to_nat data_size) = Some async_data ->
  load_bytes (w_mem w) rd (Z.to_nat data_size) = Some (replicate (Z.to_nat data_size) x00) ->
  medium_bytes (medium (w_bdev w) (dev_bdev d)) 0 (Z.to_nat data_size) = async_data ->
  w_mem w' = async_mem IoRead w d rd data_size 0 true ->
  memcmp_eq wd rd data_size w' = Ok (bool_decide (block_aligned (dev_bdev d) rd)) w'.
Proof.
  intros Hap Hwd Hrd Hmd Hme.
  assert (exists got, load_bytes (w_mem w') wd (Z.to_nat data_size) = Some async_data /\
    load_bytes (w_mem w') rd (Z.to_nat data_size) = Some got /\
    (async_data = got <-> block_aligned (dev_bdev d) rd)) as (got & H1 & H2 & Hiff).
  { unfold async_mem in Hme. rewrite start_of_0, Hmd in Hme.
    pose proof (text_over_length xbb async_text) as Hlen. fold async_data in Hlen.
    unfold block_aligned. unfold needs_bounce in Hme. rewrite Hme. case_decide as Hd.
    - exists async_data. rewrite load_write_disjoint by (by rewrite Hlen).
      rewrite <- Hlen at 2. rewrite load_write_same. split_and!; [done|done|]. split; [lia|done].
    - exists (replicate (Z.to_nat data_size) x00). split_and!; [done|done|].
      split; [intros E; destruct (async_data_not_zero E)|]. intros [Ha Hb]. exfalso. apply Hd.
      split; [done|lia]. }
  rewrite (memcmp_after w' wd rd data_size _ _ H1 H2). f_equal. by apply bool_decide_ext.
Qed.

Lemma async_read_runs w out st fd d wd rd (Q : unit -> example_state -> Prop) :
  demo_fd w fd d -> stack_buffer w rd ->
  disjoint_range rd (Z.to_nat data_size) wd (Z.to_nat data_size) ->
  load_bytes (w_mem w) wd (Z.to_nat data_size) = Some async_data ->
  medium_bytes (medium (w_bdev w) (dev_bdev d)) 0 (Z.to_nat data_size) = async_data ->
  (forall s w', demo_fd w' fd d -> medium (w_bdev w') = medium (w_bdev w) ->
     Q tt (seen w' (out ++ async_read_lines s (bool_decide (block_aligned (dev_bdev d) rd))) 1 (io_status_of s))) ->
  unless Hangs (fun fuel n => async_read_test callback_fn op_write op_read (spdk_turn fuel)
    (spdk_thread_poll fuel) n fd wd rd) Q (seen w out 1 st).
Proof.
  intros Hfd [Hrd Hmr] Hap Hwd Hmd HQ.
  pose proof (memset_eq w rd x00 data_size Hmr) as E1. set (w1 := set_w_mem _ w) in E1.
  assert (settled w w1) as Hs1 by (apply settled_mem; [apply Hfd|]; intros; by apply mapped_write).
  pose proof (demo_fd_settled w w1 fd d Hs1 Hfd) as Hfd1.
  assert (load_bytes (w_mem w1) wd (Z.to_nat data_size) = Some async_data) as Hwd1
    by (unfold w1; cbn [w_mem set_w_mem]; by rewrite load_write_disjoint by (by rewrite length_replicate)).
  assert (load_bytes (w_mem w1) rd (Z.to_nat data_size) = Some (replicate (Z.to_nat data_size) x00)) as Hz.
  { unfold w1. cbn [w_mem set_w_mem]. rewrite <- (length_replicate (Z.to_nat data_size) x00) at 2.
    apply load_write_same. }
  assert (stack_buffer w1 rd) as Hb1 by (split; [done|by apply mapped_write]).
  assert (w_calls w1 = w_calls w) as Hc1 by done.
  change (medium (w_bdev w)) with (medium (w_bdev w1)) in Hmd, HQ. clearbody w1.
  unfold async_read_test, xpdk_read_async, seen. rewrite <- Hc1.
  eapply unless_step; [apply local_printf|]. eapply unless_step; [reflexivity|]. set (o := out ++ _).
  eapply unless_step; [apply local_ok, call_ok_eq, E1|].
  apply (async_phase_runs XPDK_MSG_READ IoRead w1 o st fd d rd op_read "read");
    [exact Hfd1|exact Hb1| |by left|].
  { unfold literal. rewrite decide_False by done. by rewrite decide_True. }
  intros s w' Hcb. pose proof (called_demo_fd _ _ _ _ _ _ fd Hcb Hfd1) as Hfd'.
  destruct Hcb as [_ Hme He]. specialize (HQ s w' Hfd' He). subst o.
  eapply unless_step; [reflexivity|]. cbn [es_io_status seen]. unfold async_read_lines in HQ. destruct s.
  - rewrite decide_True by done.
    eapply unless_step; [by apply local_ok, call_ok_eq, (read_compared w1 d wd rd w')|].
    left. destruct (bool_decide _); (eapply (eventually_ok _ 0); [by intros; apply local_printf|]);
      by rewrite <- !app_assoc.
  - rewrite decide_False by done. left. apply eventually_ret. by rewrite <- !app_assoc.
Qed.
(** ... and the writing half before it.  When the write is reported done the device begins with
    the data. *)
Lemma async_tests_runs w out c st fd d wd rd (Q : unit -> example_state -> Prop) :
  demo_fd w fd d -> stack_buffer w wd -> stack_buffer w rd ->
  disjoint_range rd (Z.to_nat data_size) wd (Z.to_nat data_size) ->
  (forall s1 s2 w' st', demo_fd w' fd d ->
     (s1 = true -> medium_bytes (medium (w_bdev w') (dev_bdev d)) 0 (Z.to_nat data_size) = async_data) ->
     Q tt (seen w' (out ++ async_lines s1 s2 (bool_decide (block_aligned (dev_bdev d) rd))) 1 st')) ->
  unless Hangs (fun fuel n => async_tests callback_fn op_write op_read (spdk_turn fuel)
    (spdk_thread_poll fuel) n fd wd rd) Q (seen w out c st).
Proof.
  intros Hfd [Hwd Hmw] [Hrd Hmr] Hap HQ.
  destruct (fill_text w wd xbb async_text Hmw) as (w0 & E0 & E1). fold async_data in E1.
  set (w1 := set_w_mem (write_bytes (w_mem w) wd async_data) w) in *.
  assert (settled w w1) as Hs1 by (apply settled_mem; [apply Hfd|]; intros; by apply mapped_write).
  pose proof (demo_fd_settled w w1 fd d Hs1 Hfd) as Hfd1.
  assert (load_bytes (w_mem w1) wd (Z.to_nat data_size) = Some async_data) as Hd1.
  { rewrite <- (text_over_length xbb async_text). apply load_write_same. }
  assert (stack_buffer w1 wd /\ stack_buffer w1 rd) as [Hb1 Hb2]
    by (split; (split; [done|by apply mapped_write])).
  assert (w_calls w1 = w_calls w) as Hc1 by done. clearbody w1.
  unfold async_tests, xpdk_write_async, seen. rewrite <- Hc1.
  eapply unless_step; [apply local_ok, call_ok_eq, E0|].
  eapply unless_step; [apply local_ok, call_ok_eq, E1|].
  eapply unless_step; [apply local_printf|]. eapply unless_step; [reflexivity|]. simpl es_world.
  set (o := out ++ _).
  apply (async_phase_runs XPDK_MSG_WRITE IoWrite w1 o st fd d wd op_write "write");
    [exact Hfd1|exact Hb1| |by right|].
  { unfold literal. by rewrite decide_True. }
  intros s1 w' Hcb. pose proof (called_demo_fd _ _ _ _ _ _ fd Hcb Hfd1) as Hfd'.
  destruct Hcb as [_ Hme He]. cbn [async_mem] in Hme. specialize (He async_data Hd1).
  specialize (HQ s1). unfold async_lines in HQ. subst o.
  eapply unless_step; [reflexivity|]. cbn [es_io_status seen]. destruct s1.
  - destruct (decide (io_status_of true <> XPDK_SUCCESS)); [done|].
    assert (medium_bytes (medium (w_bdev w') (dev_bdev d)) 0 (Z.to_nat data_size) = async_data) as Hmd.
    { rewrite <- (start_of_0 d). apply (write_then_read_medium w1); [apply text_over_length|done]. }
    apply (async_read_runs w' _ _ fd d wd rd);
      [done|by destruct Hb2; split; [done|rewrite Hme]|done|by rewrite Hme|done|].
    intros s2 w2 Hfd2 Hmd2. rewrite <- !app_assoc. apply HQ; [done|]. intros _. by rewrite Hmd2.
  - destruct (decide (io_status_of false <> XPDK_SUCCESS)) as [_|Hn]; [|by destruct Hn].
    left. eapply (eventually_ok _ 0); [by intros; apply local_printf|].
    rewrite <- !app_assoc. by apply (HQ false).
Qed.

(** ** The program *)

Open Scope string_scope.

Definition closing_lines : list line :=
  [("Closing device...\n", []); ("Cleaning up...\n", []); ("Async example completed!\n", [])].

Close Scope string_scope.

(** The library shut down, between calls of callbacks. *)
Lemma lib_cleanup_runs w out c st (Q : unit -> example_state -> Prop) :
  idle w -> free_msgs w <> ∅ -> (forall w', down_from w w' -> Q tt (seen w' out c st)) ->
  eventually (fun fuel n => Lib (xpdk_cleanup (spdk_turn fuel) n)) Q (seen w out c st).
Proof.
  intros Hidle Hfree HQ. apply lib_runs, cleanup_runs; [done..|].
  intros w' Hdf. split; [apply Hdf|by apply HQ].
Qed.

Lemma async_finish_runs w out c st fd d (Q : unit -> example_state -> Prop) :
  demo_fd w fd d ->
  (forall w', down w' -> medium (w_bdev w') = medium (w_bdev w) ->
     Q tt (seen w' (out ++ closing_lines) c st)) ->
  eventually (fun fuel n => async_finish callback_fn op_write op_read (spdk_turn fuel) n fd)
    Q (seen w out c st).
Proof.
  intros [Hidle Hfree (Hfd & Hd & Hio) _ _] HQ.
  destruct (close_returns w fd d Hidle Hfree (conj Hfd Hd) (io_open_in_use d Hio))
    as (k & w1 & Hr & _ & Hrest).
  unfold async_finish. eapply eventually_step; [apply local_printf|].
  apply eventually_bind, (lib_runs _ w). eapply call_returns; [exact Hr|]. split; [apply Hrest|].
  cbn [fst]. rewrite decide_False by tauto. eapply eventually_step; [done|].
  eapply eventually_step; [apply local_printf|]. apply eventually_bind, lib_cleanup_runs;
    [apply Hrest|by rewrite (at_rest_free _ _ Hrest)|].
  intros w2 Hdf. eapply (eventually_ok _ 0); [by intros; apply local_printf|].
  rewrite <- !app_assoc. apply HQ; [apply Hdf|]. rewrite (df_medium _ _ Hdf). apply Hrest.
Qed.

Open Scope string_scope.

(** The output after the first two lines, on the device [bd] of that name, with the buffer for the
    read at [rd]; and the media at the end.  When the write is reported done the device begins
    with the data.  When the read is too, the comparison succeeds exactly if the device could
    read straight into the buffer. *)
Inductive async_transcript (bd rd : Z) (name : string) (b : bdev_t) : Z -> list line -> Prop :=
| async_not_opened rc :
    rc = XPDK_ERROR_NODEV /\ bd = NULL \/ rc = XPDK_ERROR_IO ->
    async_transcript bd rd name b 1
      [("Failed to open device %s: %s\n", [AStr name; AStr (error_text rc)])]
| async_done s1 s2 :
    bd <> NULL ->
    (s1 = true -> medium_bytes (medium b bd) 0 (Z.to_nat data_size) = async_data) ->
    async_transcript bd rd name b 0
      (async_lines s1 s2 (bool_decide (block_aligned bd rd)) ++ closing_lines)%list.

Close Scope string_scope.
End AsyncProgramCorrect.

(** ** The program on the simulated environment *)


(** A run with the buffer of the read on a block boundary, and one with it two bytes further:
    every request succeeds in both. *)
Definition sim_run (rd : Z) (w : @world sim_spdk) : option (Z * list line) :=
  match @async_example sim_spdk (sim_boot 1) 700 800 900 (spdk_turn 20) (spdk_thread_poll 20) 20
      50000 rd ["async_example"; "Nvme0n1"]%string (Build_example_state w [] 0 0 (length (w_calls w))) with
  | Ok code s => Some (code, drop 2 (es_out s))
  | _ => None
  end.

Example async_example_runs :
  sim_run 60000 (sim_client_world ∅ ∅ sim_stack) =
    Some (0, async_lines true true true ++ closing_lines) /\
  sim_run 60002 (sim_client_world ∅ ∅
    (write_bytes sim_stack 60002 (replicate (Z.to_nat data_size) x00))) =
    Some (0, async_lines true true false ++ closing_lines).
Proof. by vm_compute. Qed.
