(* ===== verification/Benchmark.v ===== *)
(** examples/turbo_benchmark.c: a thousand writes and a thousand reads, timed and checked.

    The answers of the two calls of [malloc] are arguments, each an address and the bytes
    found there, or [NULL].  A result that the source computes in floating point is the
    fraction it approximates; a division by zero (infinity in the source) is a fraction with
    denominator 0. *)

From stdpp Require Import base gmap list strings.
From Stdlib Require Import Strings.Byte.
From S2P Require Import Prelude Types Memory Spdk World Sim Core Blocks Perf Bdev Qos Io.
From S2P Require Import Async Vectored Batch Poller Idle IoCorrect SyncIo Devices Session.
From S2P Require Import Lifecycle VectoredCorrect Eventually Programs ProgramsCorrect.

Open Scope Z_scope.

Definition BENCHMARK_ITERATIONS : Z := 1000.

Definition BENCHMARK_BLOCK_SIZE : Z := 4096.

(** [(char)(i % 256)] for every index of the buffer. *)
Definition test_pattern : list byte :=
  (fun i => default x00 (Byte.of_N (N.of_nat (i mod 256)))) <$> seq 0 (Z.to_nat BENCHMARK_BLOCK_SIZE).

Lemma test_pattern_length : length test_pattern = Z.to_nat BENCHMARK_BLOCK_SIZE.
Proof. unfold test_pattern. by rewrite length_fmap, length_seq. Qed.

Section Benchmark.
Context `{Spdk}.
Variable bt : boot.
Variable sched_yield : MW unit.
Variable fuel : nat.

Open Scope string_scope.

(** [malloc(BENCHMARK_BLOCK_SIZE)], whose answer depends on the memory, and [if (p) free(p);]. *)
Definition malloc_block (malloc : memory -> Z * list byte) : MW Z :=
  let* m := gets w_mem in
  let answer := malloc m in
  if decide (fst answer = NULL) then ret NULL
  else
    modify (fun w => set_w_mem (write_bytes (w_mem w) (fst answer) (snd answer)) w) ;;
    ret (fst answer).

Definition free_block (p : Z) : MW unit :=
  if decide (p = NULL) then ret tt
  else modify (fun w => set_w_mem (unmap_bytes (w_mem w) p (Z.to_nat BENCHMARK_BLOCK_SIZE)) w).

(** Lines 32-36. *)
Definition bench_opts (turbo_mode : bool) : xpdk_opts :=
  let opts := xpdk_opts_init opts_zero in
  let opts := set_opt_turbo_mode turbo_mode opts in
  let opts := set_opt_cpu_core (if turbo_mode then 1 else -1) opts in
  let opts := set_opt_msg_ring_size (if turbo_mode then 2048 else 1024) opts in
  set_opt_msg_pool_size (if turbo_mode then 2048 else 1024) opts.

(** The loops of lines 71-78 and 94-101, from iteration [i] on; [false] when one fails. *)
Fixpoint bench_loop (io : Z -> MW Z) (format : string) (n : nat) (i : Z) : MP bool :=
  match n with
  | O => ret true
  | S n =>
      let* bytes := call (io ((i mod 100) * BENCHMARK_BLOCK_SIZE)) in
      if decide (bytes <> BENCHMARK_BLOCK_SIZE) then
        let* s := strerror (to_int bytes) in
        printf format [ANum i; AStr s] ;;
        ret false
      else bench_loop io format n (i + 1)
  end.

(** Lines 81-88 and 104-111. *)
Definition print_results (title : string) (start_time end_time : Z) : MP unit :=
  let elapsed_us := u64 (end_time - start_time) in
  printf title [] ;;
  printf "  Time: %.2f ms\n" [AReal elapsed_us 1000] ;;
  printf "  IOPS: %.2f\n" [AReal (BENCHMARK_ITERATIONS * 1000 * 1000) elapsed_us] ;;
  printf "  Throughput: %.2f MB/s\n"
    [AReal (BENCHMARK_ITERATIONS * BENCHMARK_BLOCK_SIZE * 1000 * 1000) (elapsed_us * 1024 * 1024)].

(** A timed loop and its results; [false] when it fails. *)
Definition bench_phase (io : Z -> MW Z) (intro format title : string) : MP bool :=
  printf intro [ANum BENCHMARK_ITERATIONS] ;;
  let* start_time := call get_time_us in
  let* finished := bench_loop io format (Z.to_nat BENCHMARK_ITERATIONS) 0 in
  if (finished : bool) then
    let* end_time := call get_time_us in
    print_results title start_time end_time ;;
    ret true
  else ret false.

(** Lines 62-120: everything between the allocation and the label [cleanup]. *)
Definition bench_body (fd write_buffer read_buffer : Z) : MP unit :=
  call (store write_buffer test_pattern) ;;
  let* written := bench_phase
    (fun offset => xpdk_write sched_yield fuel fd write_buffer BENCHMARK_BLOCK_SIZE offset)
    "Running write benchmark (%d iterations)...\n" "Write failed at iteration %d: %s\n"
    "Write Results:\n" in
  if negb written then ret tt
  else
    let* read := bench_phase
      (fun offset => xpdk_read sched_yield fuel fd read_buffer BENCHMARK_BLOCK_SIZE offset)
      "Running read benchmark (%d iterations)...\n" "Read failed at iteration %d: %s\n"
      "Read Results:\n" in
    if negb read then ret tt
    else
      printf "Verifying data integrity...\n" [] ;;
      let* bytes_read := call (xpdk_read sched_yield fuel fd read_buffer BENCHMARK_BLOCK_SIZE 0) in
      let* ok :=
        if decide (bytes_read = BENCHMARK_BLOCK_SIZE)
        then call (memcmp_eq write_buffer read_buffer BENCHMARK_BLOCK_SIZE) else ret false in
      if (ok : bool) then printf "Data integrity check: PASSED\n" []
      else printf "Data integrity check: FAILED\n" [].

(** Lines 122-126: the label [cleanup]. *)
Definition bench_cleanup (fd write_buffer read_buffer : Z) : MP unit :=
  call (free_block write_buffer) ;;
  call (free_block read_buffer) ;;
  let* _ := call (xpdk_close sched_yield fuel fd) in
  call (xpdk_cleanup sched_yield fuel).

(** Lines 54-126: with the device open. *)
Definition bench_device (malloc1 malloc2 : memory -> Z * list byte) (fd : Z) : MP unit :=
  let* write_buffer := call (malloc_block malloc1) in
  let* read_buffer := call (malloc_block malloc2) in
  (if decide (write_buffer = NULL \/ read_buffer = NULL)
   then printf "Failed to allocate buffers\n" []
   else bench_body fd write_buffer read_buffer) ;;
  bench_cleanup fd write_buffer read_buffer.

Definition run_benchmark (malloc1 malloc2 : memory -> Z * list byte) (bdev_name : string)
    (turbo_mode : bool) : MP unit :=
  printf "\n=== %s Mode Benchmark ===\n" [AStr (if turbo_mode then "TURBO" else "STANDARD")] ;;
  printf "Initializing XPDK...\n" [] ;;
  let* rc := call (xpdk_init_opts bt fuel (Some (bench_opts turbo_mode))) in
  if decide (rc <> XPDK_SUCCESS) then
    let* s := strerror rc in printf "Failed to initialize XPDK: %s\n" [AStr s]
  else
    printf "Opening device: %s\n" [AStr bdev_name] ;;
    let* fd := call (xpdk_open sched_yield fuel (Some bdev_name) O_RDWR) in
    if decide (fd < 0) then
      (let* s := strerror fd in printf "Failed to open device: %s\n" [AStr s]) ;;
      call (xpdk_cleanup sched_yield fuel)
    else
      bench_device malloc1 malloc2 fd.

(** Lines 153-163. *)
Definition print_comparison : MP unit :=
  printf "\n=== Performance Comparison ===\n" [] ;;
  printf "Turbo mode typically provides:\n" [] ;;
  printf "  - Lower latency (especially for small I/O)\n" [] ;;
  printf "  - Higher CPU usage\n" [] ;;
  printf "  - Better performance for latency-sensitive applications\n" [] ;;
  printf "  - CPU core binding for consistent performance\n" [] ;;
  printf "\nStandard mode provides:\n" [] ;;
  printf "  - Lower CPU usage\n" [] ;;
  printf "  - Better for throughput-oriented applications\n" [] ;;
  printf "  - Suitable for multi-instance deployments\n" [] ;;
  printf "  - No CPU core binding required\n" [].

(** [main]; [malloc i] is the call number [i] of [malloc], and the pause between the two runs
    has no effect. *)
Definition turbo_benchmark (malloc : nat -> memory -> Z * list byte) (argv : list string) : MP Z :=
  if decide (length argv < 2)%nat then
    let* a0 := arg argv 0 in
    printf "Usage: %s <bdev_name> [mode]\n" [AStr a0] ;;
    printf "  mode: 'turbo' for turbo mode, 'standard' for standard mode, 'both' for comparison\n" [] ;;
    ret 1
  else
    let* bdev_name := arg argv 1 in
    let mode := default "both" (argv !! 2%nat) in
    printf "XPDK Turbo Mode Benchmark\n" [] ;;
    printf "Device: %s\n" [AStr bdev_name] ;;
    printf "Block Size: %d bytes\n" [ANum BENCHMARK_BLOCK_SIZE] ;;
    printf "Iterations: %d\n" [ANum BENCHMARK_ITERATIONS] ;;
    if decide (mode = "turbo") then
      run_benchmark (malloc 0%nat) (malloc 1%nat) bdev_name true ;; ret 0
    else if decide (mode = "standard") then
      run_benchmark (malloc 0%nat) (malloc 1%nat) bdev_name false ;; ret 0
    else if decide (mode = "both") then
      run_benchmark (malloc 0%nat) (malloc 1%nat) bdev_name false ;;
      run_benchmark (malloc 2%nat) (malloc 3%nat) bdev_name true ;;
      print_comparison ;;
      ret 0
    else
      printf "Invalid mode: %s\n" [AStr mode] ;;
      ret 1.
End Benchmark.

(** ** What it does *)

Section BenchmarkCorrect.
Context `{SpdkLaws}.
#[local] Opaque data_size BENCHMARK_BLOCK_SIZE BENCHMARK_ITERATIONS test_pattern.
Implicit Types (w : world) (d : xpdk_device) (out : list line).

Abbreviation SIZE := (Z.to_nat BENCHMARK_BLOCK_SIZE).

Lemma block_is_data : BENCHMARK_BLOCK_SIZE = data_size.
Proof. reflexivity. Qed.

(** *** The device in use *)

Section Use.
Context (ms : gmap Z xpdk_msg).

(** The descriptor is usable, the buffers are there, the first one filled; no live DMA block
    overlaps them, and the blocks of the device divide the 4096 bytes. *)
Record bench w (fd : Z) d (wb rb : Z) : Prop := {
  bn_fd : demo_fd w fd d;
  bn_msgs : w_msgs w = ms;
  bn_div : BENCHMARK_BLOCK_SIZE mod spdk_bdev_get_block_size (dev_bdev d) = 0;
  bn_not_null : wb <> NULL /\ rb <> NULL;
  bn_data : load_bytes (w_mem w) wb SIZE = Some test_pattern;
  bn_read : mapped (w_mem w) rb SIZE;
  bn_apart : disjoint_range rb SIZE wb SIZE;
  bn_live : forall a n, w_dma_live w !! a = Some n ->
    disjoint_range a (Z.to_nat n) wb SIZE /\ disjoint_range a (Z.to_nat n) rb SIZE
}.

(** The device begins with the pattern. *)
Definition pattern_there w d : Prop :=
  medium_bytes (medium (w_bdev w) (dev_bdev d)) 0 SIZE = test_pattern.

Lemma start_of_multiple d j :
  BENCHMARK_BLOCK_SIZE mod spdk_bdev_get_block_size (dev_bdev d) = 0 ->
  start_of d (j * BENCHMARK_BLOCK_SIZE) = j * BENCHMARK_BLOCK_SIZE.
Proof.
  intros Hm. pose proof (block_size_range (dev_bdev d)) as Hbs. unfold start_of, offset_blocks.
  set (bs := spdk_bdev_get_block_size _) in *.
  apply Z.div_exact in Hm; [|lia].
  rewrite Hm. replace (j * (bs * (BENCHMARK_BLOCK_SIZE / bs)))
    with (j * (BENCHMARK_BLOCK_SIZE / bs) * bs) by lia.
  by rewrite Z.div_mul by lia.
Qed.

(** A write leaves the first 4096 bytes of the device alone, or writes the pattern there. *)
Lemma write_pattern_there w w' d j :
  BENCHMARK_BLOCK_SIZE mod spdk_bdev_get_block_size (dev_bdev d) = 0 -> 0 <= j ->
  write_effect w BENCHMARK_BLOCK_SIZE (j mod 100 * BENCHMARK_BLOCK_SIZE) d test_pattern
    (w_bdev w') XPDK_SUCCESS ->
  j = 0 \/ pattern_there w d -> pattern_there w' d.
Proof.
  intros Hm Hj He Hh. pose proof block_is_data as Hb. pose proof data_size_eq as Hs.
  pose proof (Z.mod_pos_bound j 100 ltac:(lia)) as Hj100.
  destruct (decide (j mod 100 = 0)) as [Hz|Hz].
  - rewrite Hz in He. rewrite Z.mul_0_l in He. unfold pattern_there. rewrite <- (start_of_0 d).
    apply (write_then_read_medium w); [apply test_pattern_length|done].
  - destruct Hh as [->|Hh]; [done|]. destruct He as [_ Hout].
    rewrite start_of_multiple in Hout by done. unfold pattern_there. rewrite <- Hh.
    apply medium_bytes_ext. intros x Hx. apply Hout. right. left. nia.
Qed.

Lemma bench_write w fd d wb rb j :
  bench w fd d wb rb -> 0 <= j ->
  exists k rc w',
    (forall fuel n, (k <= fuel)%nat -> (0 < n)%nat ->
       xpdk_write (spdk_turn fuel) n fd wb BENCHMARK_BLOCK_SIZE (j mod 100 * BENCHMARK_BLOCK_SIZE) w =
         Ok rc w') /\
    transfer_rc rc /\ bench w' fd d wb rb /\
    (rc = BENCHMARK_BLOCK_SIZE -> j = 0 \/ pattern_there w d -> pattern_there w' d).
Proof.
  intros [Hfd Hms Hdiv Hnn Hdata Hrd Hap Hlive] Hj. pose proof Hfd as [Hidle Hfree Hopen Hfl Hsmall].
  rewrite <- block_is_data in Hsmall. pose proof data_size_eq as Hs. pose proof block_is_data as Hb.
  destruct (write_returns w fd d wb BENCHMARK_BLOCK_SIZE (j mod 100 * BENCHMARK_BLOCK_SIZE) test_pattern)
    as (k & st & w' & Hr & (Hst & Hm & Hl) & He & Hset); [done..| |done|].
  { split; [apply Hnn|lia|done|]. apply load_bytes_mapped. by rewrite Hdata. }
  destruct (transfer_result st Hst) as [Hrc Hok]. rewrite <- Hb in Hrc, Hok.
  exists k. eexists. exists w'. split_and!; [exact Hr|done| |].
  - split; try done; [by eapply demo_fd_settled|by rewrite (settled_msgs _ _ Hset)|by rewrite Hm|by rewrite Hm|by rewrite Hl].
  - intros E. apply Hok in E as ->. by apply write_pattern_there.
Qed.

(** What a read does to the buffers and to the live blocks. *)
Lemma read_keeps_bench w d rb wb offset st me dl :
  read_outcome w d rb BENCHMARK_BLOCK_SIZE offset st me dl ->
  load_bytes (w_mem w) wb SIZE = Some test_pattern -> mapped (w_mem w) rb SIZE ->
  disjoint_range rb SIZE wb SIZE ->
  (forall a n, w_dma_live w !! a = Some n ->
     disjoint_range a (Z.to_nat n) wb SIZE /\ disjoint_range a (Z.to_nat n) rb SIZE) ->
  load_bytes me wb SIZE = Some test_pattern /\ mapped me rb SIZE /\
  (forall a n, dl !! a = Some n ->
     disjoint_range a (Z.to_nat n) wb SIZE /\ disjoint_range a (Z.to_nat n) rb SIZE).
Proof.
  intros Hout Hdata Hrd Hap Hlive. pose proof block_is_data as Hb. pose proof data_size_eq as Hs.
  destruct Hout as [| | |a junk Hneed Hun Hlen]; [| by split_and!|by split_and!|].
  - split_and!; [|by apply mapped_write|done].
    by rewrite load_write_disjoint by (by rewrite medium_bytes_length).
  - assert (forall x, mapped (w_mem w) x SIZE -> disjoint_range a (length junk) x SIZE) as Hd.
    { intros x Hx. destruct (unmapped_mapped_disjoint _ _ _ _ _ Hun Hx); [done|lia]. }
    assert (mapped (w_mem w) wb SIZE) as Hwb by (apply load_bytes_mapped; by rewrite Hdata).
    split_and!; [|by apply mapped_write|].
    + by rewrite load_write_disjoint by (by apply Hd).
    + intros x n Hx. apply lookup_insert_Some in Hx as [[<- <-]|[_ Hx]]; [|by apply Hlive].
      rewrite Nat2Z.id. split; by apply Hd.
Qed.

Lemma bench_read w fd d wb rb offset :
  bench w fd d wb rb ->
  exists k rc w',
    (forall fuel n, (k <= fuel)%nat -> (0 < n)%nat ->
       xpdk_read (spdk_turn fuel) n fd rb BENCHMARK_BLOCK_SIZE offset w = Ok rc w') /\
    transfer_rc rc /\ bench w' fd d wb rb /\ (pattern_there w d -> pattern_there w' d) /\
    (rc = BENCHMARK_BLOCK_SIZE -> offset = 0 -> pattern_there w d ->
     load_bytes (w_mem w') rb SIZE = Some test_pattern).
Proof.
  intros [Hfd Hms Hdiv Hnn Hdata Hrd Hap Hlive]. pose proof Hfd as [Hidle Hfree Hopen Hfl Hsmall].
  rewrite <- block_is_data in Hsmall. pose proof data_size_eq as Hs. pose proof block_is_data as Hb.
  destruct (read_returns w fd d rb BENCHMARK_BLOCK_SIZE offset)
    as (k & st & w' & Hr & Hout & Hmd & Hset); [done..|split; [apply Hnn|lia|done|done]|].
  destruct (transfer_result st ltac:(destruct (read_outcome_status _ _ _ _ _ _ _ _ Hout); tauto))
    as [Hrc Hok]. rewrite <- Hb in Hrc, Hok.
  destruct (read_keeps_bench _ _ _ wb _ _ _ _ Hout) as (H1 & H2 & H3); [done..|].
  exists k. eexists. exists w'. split_and!; [exact Hr|done| | |].
  - split; try done; [by eapply demo_fd_settled|by rewrite (settled_msgs _ _ Hset)].
  - unfold pattern_there. by rewrite Hmd.
  - intros E -> Hh. apply Hok in E as ->. rewrite (read_ok_mem _ _ _ _ _ _ _ _ Hout eq_refl).
    rewrite start_of_0. fold SIZE. unfold pattern_there in Hh. rewrite Hh, <- test_pattern_length.
    apply load_write_same.
Qed.

(** ** The loops *)

Lemma bench_loop_runs (io : nat -> nat -> Z -> MW Z) (I : Z -> world -> Prop) (J : world -> Prop) format
    (Q : bool -> world * list line -> Prop) out :
  (forall j w, 0 <= j -> I j w -> exists k rc w',
     (forall fuel n, (k <= fuel)%nat -> (0 < n)%nat ->
        io fuel n (j mod 100 * BENCHMARK_BLOCK_SIZE) w = Ok rc w') /\
     transfer_rc rc /\ J w' /\ (rc = BENCHMARK_BLOCK_SIZE -> I (j + 1) w')) ->
  forall m j w, 0 <= j -> I j w ->
  (forall w', I (j + Z.of_nat m) w' -> Q true (w', out)) ->
  (forall i rc w', j <= i < j + Z.of_nat m -> is_error rc -> J w' ->
     Q false (w', out ++ [(format, [ANum i; AStr (error_text rc)])])) ->
  eventually (fun fuel n => bench_loop (io fuel n) format m j) Q (w, out).
Proof.
  intros Hstep. induction m as [|m IH]; intros j w Hj HI Hend Herr.
  - apply eventually_ret, Hend. by rewrite Z.add_0_r.
  - destruct (Hstep j w Hj HI) as (k & rc & w' & Hr & Hrc & HJ & HI'). cbn [bench_loop].
    apply eventually_bind. eapply call_returns; [exact Hr|]. pose proof block_is_data as Hb.
    destruct (transfer_rc_error rc Hrc) as [->|He].
    + rewrite <- Hb in *. destruct (decide _); [done|]. apply IH; [lia|by apply HI'| |].
      * intros w2 H2. apply Hend. by replace (j + Z.of_nat (S m)) with (j + 1 + Z.of_nat m) by lia.
      * intros i rc w2 Hi. apply Herr. lia.
    + destruct (strerror_eq rc (w', out) He) as (Hi & Hneg & _ & Hs). pose proof data_size_eq.
      destruct (decide _); [|lia]. rewrite Hi. eapply eventually_step; [exact Hs|].
      eapply eventually_step; [apply printf_eq|]. apply eventually_ret, Herr; [lia|done|done].
Qed.

(** ** Output *)

Open Scope string_scope.

Definition results_lines (title : string) (start_time end_time : Z) : list line :=
  let elapsed_us := u64 (end_time - start_time) in
  [(title, []);
   ("  Time: %.2f ms\n", [AReal elapsed_us 1000]);
   ("  IOPS: %.2f\n", [AReal (BENCHMARK_ITERATIONS * 1000 * 1000) elapsed_us]);
   ("  Throughput: %.2f MB/s\n",
     [AReal (BENCHMARK_ITERATIONS * BENCHMARK_BLOCK_SIZE * 1000 * 1000) (elapsed_us * 1024 * 1024)])].

(** A phase goes through its thousand iterations, or stops at the first that fails. *)
Inductive phase_lines (intro format title : string) : bool -> list line -> Prop :=
| phase_done start_time end_time :
    phase_lines intro format title true
      ((intro, [ANum BENCHMARK_ITERATIONS]) :: results_lines title start_time end_time)
| phase_failed i rc :
    0 <= i < BENCHMARK_ITERATIONS -> is_error rc ->
    phase_lines intro format title false
      [(intro, [ANum BENCHMARK_ITERATIONS]); (format, [ANum i; AStr (error_text rc)])].

Definition write_phase := phase_lines "Running write benchmark (%d iterations)...\n"
  "Write failed at iteration %d: %s\n" "Write Results:\n".

Definition read_phase := phase_lines "Running read benchmark (%d iterations)...\n"
  "Read failed at iteration %d: %s\n" "Read Results:\n".

(** The whole body: the integrity check is reached when both phases succeed, and fails only
    when its own read fails. *)
Inductive body_lines : list line -> Prop :=
| body_write_failed l : write_phase false l -> body_lines l
| body_read_failed l1 l2 : write_phase true l1 -> read_phase false l2 -> body_lines (l1 ++ l2)%list
| body_checked l1 l2 rc :
    write_phase true l1 -> read_phase true l2 -> transfer_rc rc ->
    body_lines (l1 ++ l2 ++ [("Verifying data integrity...\n", []);
      if decide (rc = BENCHMARK_BLOCK_SIZE) then ("Data integrity check: PASSED\n", [])
      else ("Data integrity check: FAILED\n", [])])%list.

Close Scope string_scope.

(** ** Phases *)

Lemma get_time_runs w : exists t y, get_time_us w = Ok t (set_w_sys y w).
Proof.
  unfold get_time_us, gettimeofday, bind, get, modify, ret.
  destruct (sys_gettimeofday (w_sys w)) as [y tv]. by eexists _, _.
Qed.

Lemma print_results_eq title s e w out :
  print_results title s e (w, out) = Ok tt (w, out ++ results_lines title s e).
Proof.
  unfold print_results. do 3 (erewrite bind_ok by apply printf_eq). rewrite printf_eq.
  by rewrite <- !app_assoc.
Qed.

Lemma bench_sys w fd d wb rb y : bench w fd d wb rb -> bench (set_w_sys y w) fd d wb rb.
Proof. intros [[[] ? ? ? ?] ? ? ? ? ? ? ?]. by split; [split; [split|..]|..]. Qed.

Lemma bench_phase_runs (io : nat -> nat -> Z -> MW Z) (I : Z -> world -> Prop) (J : world -> Prop)
    intro format title w out (Q : bool -> world * list line -> Prop) :
  (forall j w, 0 <= j -> I j w -> exists k rc w',
     (forall fuel n, (k <= fuel)%nat -> (0 < n)%nat ->
        io fuel n (j mod 100 * BENCHMARK_BLOCK_SIZE) w = Ok rc w') /\
     transfer_rc rc /\ J w' /\ (rc = BENCHMARK_BLOCK_SIZE -> I (j + 1) w')) ->
  (forall j w y, I j w -> I j (set_w_sys y w)) -> I 0 w ->
  (forall w' l, I BENCHMARK_ITERATIONS w' -> phase_lines intro format title true l ->
     Q true (w', out ++ l)) ->
  (forall w' l, J w' -> phase_lines intro format title false l -> Q false (w', out ++ l)) ->
  eventually (fun fuel n => bench_phase (io fuel n) intro format title) Q (w, out).
Proof.
  intros Hstep Hsys HI Hgood Hbad. unfold bench_phase. eapply eventually_step; [apply printf_eq|].
  destruct (get_time_runs w) as (t0 & y0 & E0). eapply eventually_step; [by apply call_ok_eq|].
  assert (0 <= BENCHMARK_ITERATIONS) as Hit by done.
  apply eventually_bind. apply (bench_loop_runs io I J); [done|lia|by apply Hsys| |].
  - intros w1 H1. rewrite Z.add_0_l, Z2Nat.id in H1 by done.
    destruct (get_time_runs w1) as (t1 & y1 & E1). eapply eventually_step; [by apply call_ok_eq|].
    eapply eventually_step; [apply print_results_eq|]. apply eventually_ret.
    rewrite <- app_assoc. apply Hgood; [by apply Hsys|apply phase_done].
  - intros i rc w1 Hi He HJ. rewrite Z.add_0_l, Z2Nat.id in Hi by done.
    apply eventually_ret. rewrite <- app_assoc. apply Hbad; [done|]. by apply phase_failed.
Qed.

Lemma write_phase_runs w fd d wb rb intro format title out (Q : bool -> world * list line -> Prop) :
  bench w fd d wb rb ->
  (forall w' l, bench w' fd d wb rb -> pattern_there w' d -> phase_lines intro format title true l ->
     Q true (w', out ++ l)) ->
  (forall w' l, bench w' fd d wb rb -> phase_lines intro format title false l ->
     Q false (w', out ++ l)) ->
  eventually (fun fuel n => bench_phase
    (fun offset => xpdk_write (spdk_turn fuel) n fd wb BENCHMARK_BLOCK_SIZE offset)
    intro format title) Q (w, out).
Proof.
  intros Hw Hgood Hbad.
  apply (bench_phase_runs
    (fun fuel n offset => xpdk_write (spdk_turn fuel) n fd wb BENCHMARK_BLOCK_SIZE offset)
    (fun j w => bench w fd d wb rb /\ (j = 0 \/ pattern_there w d)) (fun w => bench w fd d wb rb));
    [|intros j w2 y [H2 Hh]; split; [by apply bench_sys|exact Hh]|split; [exact Hw|by left]| |exact Hbad].
  - intros j w2 Hj [H2 Hh]. destruct (bench_write w2 fd d wb rb j H2 Hj)
      as (k & rc & w3 & Hr & Hrc & H3 & Hh3). exists k, rc, w3. split_and!; auto 6.
  - intros w2 l [H2 [Hz|Hh]]; [done|]. by apply Hgood.
Qed.

Lemma read_phase_runs w fd d wb rb intro format title out (Q : bool -> world * list line -> Prop) :
  bench w fd d wb rb -> pattern_there w d ->
  (forall w' l, bench w' fd d wb rb -> pattern_there w' d -> phase_lines intro format title true l ->
     Q true (w', out ++ l)) ->
  (forall w' l, bench w' fd d wb rb -> phase_lines intro format title false l ->
     Q false (w', out ++ l)) ->
  eventually (fun fuel n => bench_phase
    (fun offset => xpdk_read (spdk_turn fuel) n fd rb BENCHMARK_BLOCK_SIZE offset)
    intro format title) Q (w, out).
Proof.
  intros Hw Hh Hgood Hbad.
  apply (bench_phase_runs
    (fun fuel n offset => xpdk_read (spdk_turn fuel) n fd rb BENCHMARK_BLOCK_SIZE offset)
    (fun _ w => bench w fd d wb rb /\ pattern_there w d) (fun w => bench w fd d wb rb));
    [|intros j w2 y [H2 Hh2]; split; [by apply bench_sys|exact Hh2]|split; [exact Hw|exact Hh]|
     intros w2 l [H2 Hh2]; by apply Hgood|exact Hbad].
  intros j w3 _ [H3 Hh3]. destruct (bench_read w3 fd d wb rb (j mod 100 * BENCHMARK_BLOCK_SIZE) H3)
    as (k & rc & w4 & Hr & Hrc & H4 & Hh4 & _). exists k, rc, w4. split_and!; auto.
Qed.

Lemma bench_body_runs w fd d wb rb out (Q : unit -> world * list line -> Prop) :
  mapped (w_mem w) wb SIZE ->
  bench (set_w_mem (write_bytes (w_mem w) wb test_pattern) w) fd d wb rb ->
  (forall w' l, bench w' fd d wb rb -> body_lines l -> Q tt (w', out ++ l)) ->
  eventually (fun fuel n => bench_body (spdk_turn fuel) n fd wb rb) Q (w, out).
Proof.
  intros Hwb Hbench HQ. unfold bench_body. set (w1 := set_w_mem _ w) in *.
  eapply eventually_step; [apply call_ok_eq, store_eq; by rewrite test_pattern_length|].
  apply eventually_bind. fold w1. apply (write_phase_runs w1 fd d wb rb); [exact Hbench| |].
  2: { intros w2 l H2 Hl. apply eventually_ret. apply HQ; [exact H2|]. by apply body_write_failed. }
  intros w2 l1 H2 Hh Hl1. apply eventually_bind.
  apply (read_phase_runs w2 fd d wb rb); [exact H2|exact Hh| |].
  2: { intros w3 l H3 Hl. apply eventually_ret. rewrite <- app_assoc. apply HQ; [exact H3|].
       by apply body_read_failed. }
  intros w3 l2 H3 Hh3 Hl2. eapply eventually_step; [apply printf_eq|].
  destruct (bench_read w3 fd d wb rb 0 H3) as (k & rc & w4 & Hr & Hrc & H4 & _ & Hload).
  apply eventually_bind. eapply call_returns; [exact Hr|].
  pose proof (body_checked l1 l2 rc Hl1 Hl2 Hrc) as Hbody.
  destruct (decide (rc = BENCHMARK_BLOCK_SIZE)) as [E|E]; [|eapply eventually_step; [reflexivity|]].
  - eapply eventually_step.
    { apply call_ok_eq, memcmp_after; [apply (bn_data _ _ _ _ _ H4)|by apply Hload]. }
    rewrite bool_decide_eq_true_2 by reflexivity. eapply eventually_now; [apply printf_eq|].
    rewrite <- !app_assoc. by apply HQ.
  - eapply eventually_now; [apply printf_eq|]. rewrite <- !app_assoc. by apply HQ.
Qed.

End Use.

(** ** The heap *)

(** An answer of [malloc]: [NULL], or a block of its own. *)
Definition answer_ok (m : memory) (h : Z * list byte) : Prop :=
  fst h = NULL \/ length (snd h) = SIZE /\ unmapped m (fst h) SIZE.

Definition with_block (h : Z * list byte) w : world :=
  if decide (fst h = NULL) then w
  else set_w_mem (write_bytes (w_mem w) (fst h) (snd h)) w.

Definition without_block (p : Z) w : world :=
  if decide (p = NULL) then w else set_w_mem (unmap_bytes (w_mem w) p SIZE) w.

Lemma malloc_block_eq malloc w :
  malloc_block malloc w = Ok (fst (malloc (w_mem w))) (with_block (malloc (w_mem w)) w).
Proof. unfold malloc_block, with_block, bind at 1, gets. by destruct (decide _) as [->|]. Qed.

Lemma free_block_eq p w : free_block p w = Ok tt (without_block p w).
Proof. unfold free_block, without_block. by destruct (decide _). Qed.

Definition live_apart w (p : Z) : Prop :=
  p = NULL \/ forall a n, w_dma_live w !! a = Some n -> disjoint_range a (Z.to_nat n) p SIZE.

Lemma with_block_settled h w : idle w -> settled w (with_block h w).
Proof.
  intros Hi. unfold with_block. case_decide; [by split|]. apply settled_mem; [done|].
  intros. by apply mapped_write.
Qed.

Lemma with_block_live h w : w_dma_live (with_block h w) = w_dma_live w.
Proof. unfold with_block. by case_decide. Qed.

Lemma answer_apart w h : idle w -> answer_ok (w_mem w) h -> live_apart w (fst h).
Proof.
  intros Hi [Hn|[_ Hun]]; [by left|right]. intros a n Ha.
  destruct (idle_dma w Hi a n Ha) as [Hpos Hma]. pose proof block_is_data. pose proof data_size_eq.
  destruct (unmapped_mapped_disjoint _ _ _ _ _ Hun Hma) as [Hd|Hd]; unfold disjoint_range in *; lia.
Qed.

Lemma without_block_settled p w : idle w -> live_apart w p -> settled w (without_block p w).
Proof.
  intros [] Hap. unfold without_block. case_decide as Hp; [by split; [split|..]|].
  destruct Hap as [|Hap]; [done|]. split; try done. split; try done.
  intros a n Ha. destruct (idle_dma a n Ha) as [Hpos Hma]. split; [done|].
  specialize (Hap a n Ha). unfold disjoint_range in Hap. intros x Hx. cbn [w_mem set_w_mem].
  rewrite lookup_unmap_out by lia. by apply Hma.
Qed.

Lemma without_block_live p w : w_dma_live (without_block p w) = w_dma_live w.
Proof. unfold without_block. by case_decide. Qed.

(** The end of a run. *)
Lemma bench_cleanup_runs w fd d wb rb out (Q : unit -> world * list line -> Prop) :
  demo_fd w fd d -> live_apart w wb -> live_apart w rb ->
  (forall w', restartable (w_msgs w) w' -> Q tt (w', out)) ->
  eventually (fun fuel n => bench_cleanup (spdk_turn fuel) n fd wb rb) Q (w, out).
Proof.
  intros Hfd Hwb Hrb HQ. unfold bench_cleanup.
  pose proof (without_block_settled wb w (df_idle _ _ _ Hfd) Hwb) as Hs1.
  set (w1 := without_block wb w) in *.
  assert (live_apart w1 rb) as Hrb1 by (unfold live_apart, w1; by rewrite without_block_live).
  pose proof (without_block_settled rb w1 (settled_idle _ _ Hs1) Hrb1) as Hs2.
  pose proof (settled_trans _ _ _ Hs1 Hs2) as Hs.
  pose proof (demo_fd_settled _ _ _ _ Hs Hfd) as [Hi Hf (Hpos & Hd & Ho) _ _].
  set (w2 := without_block rb w1) in *.
  do 2 (eapply eventually_step; [apply call_ok_eq, free_block_eq|]).
  destruct (close_returns w2 fd d Hi Hf (conj Hpos Hd) (io_open_in_use d Ho)) as (k & w3 & Hr & _ & Hrest).
  apply eventually_bind. eapply call_returns; [exact Hr|].
  apply cleanup_runs; [apply Hrest|by rewrite (at_rest_free _ _ Hrest)|]. intros w4 Hdf. apply HQ.
  rewrite <- (settled_msgs _ _ Hs), <- (at_rest_msgs _ _ Hrest).
  apply down_restartable; [apply Hrest|done].
Qed.

(** ** A run *)

Open Scope string_scope.

(** Its output after the title and the start-up. *)
Inductive bench_transcript (bd : Z) (malloc1 malloc2 : memory -> Z * list byte) : list line -> Prop :=
| bench_not_opened rc :
    rc = XPDK_ERROR_NODEV /\ bd = NULL \/ rc = XPDK_ERROR_IO ->
    bench_transcript bd malloc1 malloc2 [("Failed to open device: %s\n", [AStr (error_text rc)])]
| bench_no_memory m1 m2 :
    bd <> NULL -> fst (malloc1 m1) = NULL \/ fst (malloc2 m2) = NULL ->
    bench_transcript bd malloc1 malloc2 [("Failed to allocate buffers\n", [])]
| bench_ran l : bd <> NULL -> body_lines l -> bench_transcript bd malloc1 malloc2 l.

Definition run_title (turbo_mode : bool) (name : string) : list line :=
  [("\n=== %s Mode Benchmark ===\n", [AStr (if turbo_mode then "TURBO" else "STANDARD")]);
   ("Initializing XPDK...\n", []);
   ("Opening device: %s\n", [AStr name])].

Lemma bench_ready w fd d h1 h2 :
  demo_fd w fd d -> BENCHMARK_BLOCK_SIZE mod spdk_bdev_get_block_size (dev_bdev d) = 0 ->
  answer_ok (w_mem w) h1 -> answer_ok (w_mem (with_block h1 w)) h2 -> fst h1 <> NULL -> fst h2 <> NULL ->
  let w' := with_block h2 (with_block h1 w) in
  mapped (w_mem w') (fst h1) SIZE /\
  bench (w_msgs w) (set_w_mem (write_bytes (w_mem w') (fst h1) test_pattern) w') fd d (fst h1) (fst h2).
Proof.
  intros Hfd Hdiv Ha1 Ha2 Hn1 Hn2 w'. pose proof (df_idle _ _ _ Hfd) as Hi.
  pose proof (with_block_settled h1 w Hi) as Hs1.
  pose proof (with_block_settled h2 _ (settled_idle _ _ Hs1)) as Hs2. fold w' in Hs2.
  pose proof (answer_apart w h1 Hi Ha1) as [|L1]; [done|].
  pose proof (answer_apart _ h2 (settled_idle _ _ Hs1) Ha2) as [|L2]; [done|].
  rewrite with_block_live in L2.
  destruct Ha1 as [|[Hl1 _]]; [done|]. destruct Ha2 as [|[Hl2 Hun]]; [done|].
  pose proof block_is_data as Hb. pose proof data_size_eq as Hsize.
  assert (w_mem (with_block h1 w) = write_bytes (w_mem w) (fst h1) (snd h1)) as Hm1
    by (unfold with_block; by rewrite decide_False).
  assert (w_mem w' = write_bytes (w_mem (with_block h1 w)) (fst h2) (snd h2)) as Hm2
    by (unfold w', with_block at 1; by rewrite decide_False).
  assert (mapped (w_mem (with_block h1 w)) (fst h1) SIZE) as Hmap1
    by (rewrite Hm1, <- Hl1; apply mapped_write_self).
  assert (mapped (w_mem w') (fst h1) SIZE) as Hmap by (rewrite Hm2; by apply mapped_write).
  split; [done|].
  assert (settled w (set_w_mem (write_bytes (w_mem w') (fst h1) test_pattern) w')) as Hs3.
  { eapply settled_trans; [exact Hs1|]. eapply settled_trans; [exact Hs2|].
    apply settled_mem; [apply Hs2|]. intros. by apply mapped_write. }
  split; [by eapply demo_fd_settled|apply Hs3|done|done| | | |].
  - rewrite <- test_pattern_length. apply load_write_same.
  - apply mapped_write. rewrite Hm2, <- Hl2. apply mapped_write_self.
  - destruct (unmapped_mapped_disjoint _ _ _ _ _ Hun Hmap1); [done|lia].
  - intros a n. cbn [w_dma_live set_w_mem]. unfold w'. rewrite !with_block_live. auto.
Qed.

(** What is known of [malloc]. *)
Definition malloc_ok (malloc : memory -> Z * list byte) : Prop := forall m, answer_ok m (malloc m).

Lemma bench_device_runs w fd d malloc1 malloc2 out (Q : unit -> world * list line -> Prop) :
  demo_fd w fd d -> BENCHMARK_BLOCK_SIZE mod spdk_bdev_get_block_size (dev_bdev d) = 0 ->
  dev_bdev d <> NULL -> malloc_ok malloc1 -> malloc_ok malloc2 ->
  (forall w' l, restartable (w_msgs w) w' -> bench_transcript (dev_bdev d) malloc1 malloc2 l ->
     Q tt (w', out ++ l)%list) ->
  eventually (fun fuel n => bench_device (spdk_turn fuel) n malloc1 malloc2 fd) Q (w, out).
Proof.
  intros Hfd Hdiv Hbd Hma1 Hma2 HQ. unfold bench_device. pose proof (df_idle _ _ _ Hfd) as Hidle.
  do 2 (eapply eventually_step; [apply call_ok_eq, malloc_block_eq|]).
  set (h1 := malloc1 (w_mem w)). set (w1 := with_block h1 w). set (h2 := malloc2 (w_mem w1)).
  pose proof (with_block_settled h1 w Hidle : settled w w1) as Hs1.
  apply eventually_bind. destruct (decide (fst h1 = NULL \/ fst h2 = NULL)) as [Hn|Hn].
  - pose proof (with_block_settled h2 w1 (settled_idle _ _ Hs1)) as Hs2.
    pose proof (settled_trans _ _ _ Hs1 Hs2) as Hs.
    eapply eventually_now; [apply printf_eq|]. apply (bench_cleanup_runs _ fd d).
    + by eapply demo_fd_settled.
    + unfold live_apart. rewrite with_block_live. unfold w1. rewrite with_block_live.
      apply answer_apart; [done|apply Hma1].
    + unfold live_apart. rewrite with_block_live. apply answer_apart; [apply Hs1|apply Hma2].
    + intros w' Hre. rewrite (settled_msgs _ _ Hs) in Hre. apply HQ; [done|].
      by eapply bench_no_memory.
  - assert (fst h1 <> NULL /\ fst h2 <> NULL) as [Hn1 Hn2] by tauto.
    destruct (bench_ready w fd d h1 h2 Hfd Hdiv (Hma1 _) (Hma2 _) Hn1 Hn2) as [Hmap Hbench].
    apply (bench_body_runs (w_msgs w) _ fd d (fst h1) (fst h2)); [done|done|]. intros w2 l H2 Hl.
    apply (bench_cleanup_runs _ fd d); [apply H2| | |].
    1, 2: right; intros a m Ha; by apply (bn_live _ _ _ _ _ _ H2).
    intros w' Hre. rewrite (bn_msgs _ _ _ _ _ _ H2) in Hre. apply HQ; [done|]. by apply bench_ran.
Qed.

(** The device of that name suits the program, whatever it is. *)
Definition suitable (name : string) : Prop :=
  forall b, let bd := spdk_bdev_get_by_name b name in
    fits bd /\ BENCHMARK_BLOCK_SIZE mod spdk_bdev_get_block_size bd = 0.

Lemma run_benchmark_runs bt w malloc1 malloc2 name turbo_mode out (Q : unit -> world * list line -> Prop) :
  can_start bt (bench_opts turbo_mode) w -> malloc_ok malloc1 -> malloc_ok malloc2 -> suitable name ->
  (forall w' l, restartable (w_msgs w) w' ->
     bench_transcript (spdk_bdev_get_by_name (w_bdev w) name) malloc1 malloc2 l ->
     Q tt (w', out ++ run_title turbo_mode name ++ l)%list) ->
  eventually (fun fuel n => run_benchmark bt (spdk_turn fuel) n malloc1 malloc2 name turbo_mode)
    Q (w, out).
Proof.
  intros Hcan Hma1 Hma2 Hsuit HQ. unfold run_benchmark. destruct (Hsuit (w_bdev w)) as [Hfits Hdiv].
  do 2 (eapply eventually_step; [apply printf_eq|]).
  apply eventually_bind. apply init_opts_runs; [done|].
  intros w1 Hst (Hm1 & Hb1 & _ & _ & _ & _ & _ & Hms1).
  destruct (decide (XPDK_SUCCESS <> XPDK_SUCCESS)); [done|].
  eapply eventually_step; [apply printf_eq|]. rewrite <- Hb1 in *. rewrite <- Hms1 in HQ.
  pose proof Hst as [[Hidle Hfree _] _].
  destruct (open_returns w1 name O_RDWR Hidle Hfree) as (k & rc & w2 & Hr & Hout & Hrest & _).
  apply eventually_bind. eapply call_waits; [exact Hr|]. rewrite <- (at_rest_msgs _ _ Hrest) in HQ.
  destruct (opened_demo_fd w1 w2 name rc Hst Hrest Hout Hfits) as [(d & Hpos & Hfd & Hbd & Hnn & _)|[He Hrc]].
  - destruct (decide (rc < 0)); [lia|]. rewrite <- Hbd in *.
    apply (bench_device_runs w2 rc d); [done..|]. intros w3 l Hre Hl. rewrite <- !app_assoc.
    by apply HQ.
  - destruct (decide (rc < 0)) as [_|Hneg]; [|by destruct (strerror_eq rc (w2, []) He) as (_ & ? & _)].
    eapply eventually_step; [by apply error_line|].
    apply cleanup_runs; [apply Hrest|by rewrite (at_rest_free _ _ Hrest)|].
    intros w3 Hdf. rewrite <- !app_assoc. apply HQ; [|by apply bench_not_opened].
    apply down_restartable; [apply Hrest|done].
Qed.

(** ** The program *)

Definition bench_header (name : string) : list line :=
  [("XPDK Turbo Mode Benchmark\n", []); ("Device: %s\n", [AStr name]);
   ("Block Size: %d bytes\n", [ANum BENCHMARK_BLOCK_SIZE]);
   ("Iterations: %d\n", [ANum BENCHMARK_ITERATIONS])].

Definition comparison_lines : list line :=
  [("\n=== Performance Comparison ===\n", []);
   ("Turbo mode typically provides:\n", []);
   ("  - Lower latency (especially for small I/O)\n", []);
   ("  - Higher CPU usage\n", []);
   ("  - Better performance for latency-sensitive applications\n", []);
   ("  - CPU core binding for consistent performance\n", []);
   ("\nStandard mode provides:\n", []);
   ("  - Lower CPU usage\n", []);
   ("  - Better for throughput-oriented applications\n", []);
   ("  - Suitable for multi-instance deployments\n", []);
   ("  - No CPU core binding required\n", [])].

(** The runs that a mode asks for: their modes, and the calls of [malloc] each begins with. *)
Definition runs_of (mode : string) : option (list (bool * nat)) :=
  if decide (mode = "turbo") then Some [(true, 0%nat)]
  else if decide (mode = "standard") then Some [(false, 0%nat)]
  else if decide (mode = "both") then Some [(false, 0%nat); (true, 2%nat)]
  else None.

(** The output of these runs, one after the other. *)
Inductive runs_transcript (name : string) (malloc : nat -> memory -> Z * list byte) :
    list (bool * nat) -> list line -> Prop :=
| runs_nil : runs_transcript name malloc [] []
| runs_cons turbo_mode i rest b l lines :
    bench_transcript (spdk_bdev_get_by_name b name) (malloc i) (malloc (S i)) l ->
    runs_transcript name malloc rest lines ->
    runs_transcript name malloc ((turbo_mode, i) :: rest) (run_title turbo_mode name ++ l ++ lines)%list.

Lemma print_comparison_eq w out :
  print_comparison (w, out) = Ok tt (w, out ++ comparison_lines)%list.
Proof.
  unfold print_comparison. do 10 (erewrite bind_ok by apply printf_eq). rewrite printf_eq.
  by rewrite <- !app_assoc.
Qed.

Close Scope string_scope.
End BenchmarkCorrect.

(** ** The program on the simulated environment *)

(** A heap that answers with the first addresses above all memory in use. *)
Definition sim_malloc (m : memory) : Z * list byte :=
  (mem_top m, replicate (Z.to_nat BENCHMARK_BLOCK_SIZE) x00).

Lemma sim_malloc_ok : malloc_ok sim_malloc.
Proof.
  intros m. right. split; [apply length_replicate|]. intros x Hx. cbn [fst sim_malloc] in Hx.
  destruct (m !! x) as [b|] eqn:E; [|done]. pose proof (proj2 (mem_top_above m) x b E). lia.
Qed.

Lemma sim_client_down : @down sim_spdk (sim_client_world ∅ ∅ ∅).
Proof. split; try done. intros i d Hd. apply lookup_replicate in Hd as [-> _]. done. Qed.

